(* ===== verification/_CoqProject ===== *)
-Q . S2P
Prelude.v
PyFloat.v
Json.v
Models.v
Planner.v
Safetensors.v
Llama.v
Manifest.v
Profiles.v
Fit.v
Compute.v
Link.v
Measured.v
Wire.v
Runner.v
Activation.v
TextOutput.v
Admission.v
Session.v
Runtime.v
App.v
Concurrent.v
Evidence.v
Acceptance.v
Sweep.v
SweepRun.v
