(* ===== verification/Prelude.v ===== *)
(** * hLLM control plane: verification library

    hLLM runs one language model on two machines.  Its Python control plane
    (src/python/hllm_control) reads a checkpoint, plans where to split the layers, checks
    the plan against measurements, opens a session with the two workers, serves completions
    over HTTP and writes records of qualification experiments.  This library models that
    control plane as executable definitions, with the names of the source, and proves what
    each part promises to the next.

    ** The parts

    - Prelude.v: exceptions and the [result] monad, Python equality, sequences,
      dictionaries, sorting, text, with the lemmas and tactics ([inv_ok], [bool_to_prop])
      the other files share.  PyFloat.v: binary64 arithmetic on [SpecFloat], conversions,
      [math.ceil], [statistics.median], [timestamp].  Json.v: the canonical JSON text and
      the digest of a value (serialization.py); SHA-256 is the class [Hash].
    - Models.v (models.py): the domain models with their field constraints and validators.
    - Planner.v (planner/planner.py): enumeration, feasibility, scores and ranks of
      placements, the memory of stages, the digest of a plan.
    - Safetensors.v, Llama.v, Manifest.v (prepare/): the header of a checkpoint file, the
      architecture adapters, and the manifest built from them.
    - Profiles.v, Fit.v, Link.v (profiling/models.py, memory.py, link.py): measured profiles
      and their completeness, the memory fit with its physical envelope, link measurements.
    - Compute.v, Runner.v (profiling/compute.py, runner.py): the summary of a compute run, and
      the run of a native profiler - its checks, preflight, files, process and sealed profile -
      as a computation over the output files that can raise ([RunM]).
    - Measured.v (planner/measured.py): placement from a bundle of measured profiles.
    - Wire.v (wire.py): manifests and plans as protocol messages, both ways.
    - Activation.v (planner/activation.py): the gate a measured plan passes before loading.
    - Session.v (controller.py): a deployment session as a machine over the RPCs it makes:
      entering, generating, cancelling, closing.
    - Admission.v, TextOutput.v, App.v (serving/app.py, tokenizer.py, logprobs.py): the FIFO
      admission as a step relation, the streamed text with its stop strings, and the
      handler of a completion with its yields, metrics and exceptions.
    - Runtime.v (serving/runtime.py): the serving process, its registry of requests, health
      and retirement, as a step relation over all requests.
    - Concurrent.v, Evidence.v, Acceptance.v (qualification/concurrent.py): the records of
      two-request experiments; what they derive from the workers' observations; what an
      accepted record guarantees.
    - Sweep.v, SweepRun.v (qualification/sweep.py): the frozen protocol of a sweep of
      placements, its schedule, statistics and acceptance, and a run of it over the store of
      results already measured.  The generator of [random.Random] is the class [PyRandom].

    A call that can raise is a [result]; a pydantic model is a record, with [X_fields] for
    its field constraints, the validators under their own names, [X_dump] for its JSON and
    [validate_X] for construction.  Several failed field constraints are one
    [ValidationError].  State is passed explicitly; interleavings are step relations with
    reachability; external answers (RPCs, clocks, files, the tokenizer, SHA-256) are
    arguments or classes, with laws only where a theorem names them ([HashLaws]: a digest is
    64 hexadecimal digits).

    ** What the theorems show

    - Planning: the plan chosen is a feasible candidate of the best score, the candidates are
      exactly the splits and orders, each stage fits the memory it is charged to, the stages
      partition the layers and conserve the weights, the digest seals the plan.
    - Preparation: an inspected file is laid out without overlap or gap, a manifest accounts
      for every tensor once, only supported configurations are described.
    - Profiles and fit: a completed run has exactly the expected rows; [safe] means that
      peak, margin and headroom fit the available bytes, and more memory never makes a fit
      worse; a measured placement is backed by evidence of every part of its scope, and a
      bundle read back from disk serves the same evaluation.
    - Profile runs: no native process starts before the checkpoint, the key and the memory
      were checked; a run touches no file it did not make; a returned profile holds exactly
      what the native process recorded.
    - Session and serving: entering loads every stage or unloads what it may have loaded;
      unloading ends; a request is always forgotten; the runtime's books agree with its
      requests; at most the configured requests are admitted and a free slot is taken; the
      text sent is the decoded text cut at the first stop string; the counters add up.
    - Wire: both round trips are the identity.
    - Evidence: every overlap interval is backed by the worker's own observations; an
      accepted record shows exact output, independent cancellation, protected workers,
      capacity and envelopes; a record can always be assembled, and loads again.
    - Sweep: a passing sweep is complete, exact, stable and within its regret limit; the
      placement it calls selected is the one [create_plan] selects; every round visits every
      placement once; a run only adds results, and running it again gives the same report.

    ** Bounds

    The loops the source bounds by time carry fuel: unloading polls every 20 ms for 5000 ms
    (251 rounds), retirement every 10 ms for 5000 ms (501 rounds).  The clock of these loops
    advances by at least the sleep, and [unload_terminates] and [retire_confirms] prove that
    the fuel is never what ends them.  Other recursions are structural.  Integers are
    unbounded, as in Python; the scalar ranges of protobuf and the field bounds of the
    models are checked where the source checks them.

    ** Not modelled

    cli.py, planner/explain.py and the text of /metrics (formatting); planner/config.py (YAML
    into modelled records); the output of ps, nvidia-smi and vm_stat that runner.py parses;
    qualification/host.py and native.py (processes, ssh, sampling); generated protobuf and
    gRPC code; FastAPI routing, ManagedStream and the disconnect monitor; files other than
    those of Safetensors.v, Manifest.v, Measured.v, Runner.v and SweepRun.v; of
    qualification/sweep.py the freezing of a protocol and the printed summary, of
    concurrent.py the reading and writing of the record's file; the C++ workers. *)

From Stdlib Require Import Ascii.
From stdpp Require Export prelude strings pretty list numbers sorting.

(** ** Exceptions and the result monad

    A Python call returns a value or raises.  [exn] is the class of the
    exception together with its message. *)

Inductive exn_class :=
  | ValueError
  | TypeError
  | KeyError
  | AttributeError
  | IndexError
  | OverflowError
  | ZeroDivisionError
  | AssertionError
  | RuntimeError
  | StopIteration
  | StatisticsError
  | TimeoutError
  | RpcError
  | FileExistsError
  | OSError
  | PlanningError
  | ArchitectureError
  | SafetensorsError
  | PreparationError
  | WireMappingError
  | ConfigurationError
  | ValidationError.

#[export] Instance exn_class_eq_dec : EqDecision exn_class.
Proof. solve_decision. Defined.

Record exn := Exn { exn_cls : exn_class; exn_msg : string }.

#[export] Instance exn_eq_dec : EqDecision exn.
Proof. solve_decision. Defined.

(** [issubclass(cls, ValueError)]: pydantic's [ValidationError] and every error
    class of the package derive from it; so do [json.JSONDecodeError] and
    [UnicodeDecodeError], which are raised here as [ValueError]. *)
Definition is_value_error (c : exn_class) : bool :=
  match c with
  | ValueError | ValidationError | PlanningError | ArchitectureError
  | SafetensorsError | PreparationError | WireMappingError
  | ConfigurationError | StatisticsError => true
  | _ => false
  end.

Inductive result (A : Type) :=
  | Ok (a : A)
  | Err (e : exn).
Arguments Ok {A} _.
Arguments Err {A} _.

#[export] Instance result_ret : MRet result := fun A a => Ok a.
#[export] Instance result_bind : MBind result := fun A B f r =>
  match r with Ok a => f a | Err e => Err e end.
#[export] Instance result_fmap : FMap result := fun A B f r =>
  match r with Ok a => Ok (f a) | Err e => Err e end.

#[export] Instance result_eq_dec `{EqDecision A} : EqDecision (result A).
Proof. solve_decision. Defined.

Definition raise {A} (c : exn_class) (msg : string) : result A := Err (Exn c msg).

(** [if b: raise c(msg)] *)
Definition raise_if (b : bool) (c : exn_class) (msg : string) : result unit :=
  if b then raise c msg else Ok tt.

Definition is_ok {A} (r : result A) : bool :=
  match r with Ok _ => true | Err _ => false end.

(** [try: r except cls: handler], for the exceptions [catch] accepts. *)
Definition try_except {A} (r : result A) (catch : exn_class -> bool)
    (handler : exn -> result A) : result A :=
  match r with
  | Ok a => Ok a
  | Err e => if catch (exn_cls e) then handler e else Err e
  end.

(** ** Python equality

    [==] on the values of the program.  It is a boolean function of its own
    because it is not Leibniz equality on floats ([nan != nan], [0.0 == -0.0]);
    types without floats are lawful ([PyEqLaws]). *)

Declare Scope py_scope.
Delimit Scope py_scope with py.
Open Scope py_scope.

Class PyEq (A : Type) := pyeqb : A -> A -> bool.
Class PyEqLaws (A : Type) `{PyEq A} := pyeqb_eq (x y : A) : pyeqb x y = true <-> x = y.

#[global] Hint Mode PyEq ! : typeclass_instances.
#[global] Hint Mode PyEqLaws ! ! : typeclass_instances.

Infix "==" := pyeqb (at level 70, no associativity) : py_scope.
Notation "x != y" := (negb (pyeqb x y)) (at level 70, no associativity) : py_scope.

#[export] Instance pyeq_Z : PyEq Z := Z.eqb.
#[export] Instance pyeq_nat : PyEq nat := Nat.eqb.
#[export] Instance pyeq_bool : PyEq bool := Bool.eqb.
#[export] Instance pyeq_string : PyEq string := String.eqb.
#[export] Instance pyeq_unit : PyEq unit := fun _ _ => true.
#[export] Instance pyeq_option `{PyEq A} : PyEq (option A) := fun a b =>
  match a, b with
  | Some x, Some y => x == y
  | None, None => true
  | _, _ => false
  end.
#[export] Instance pyeq_prod `{PyEq A, PyEq B} : PyEq (A * B) := fun a b =>
  (fst a == fst b) && (snd a == snd b).
Fixpoint list_pyeqb `{PyEq A} (l k : list A) : bool :=
  match l, k with
  | [], [] => true
  | x :: l', y :: k' => (x == y) && list_pyeqb l' k'
  | _, _ => false
  end.
#[export] Instance pyeq_list `{PyEq A} : PyEq (list A) := list_pyeqb.

(** The equality of a type without floats, from its decision procedure. *)
Definition pyeq_of_dec `{EqDecision A} : PyEq A := fun x y => bool_decide (x = y).

#[export] Instance pyeq_Z_laws : PyEqLaws Z.
Proof. exact Z.eqb_eq. Qed.
#[export] Instance pyeq_nat_laws : PyEqLaws nat.
Proof. exact Nat.eqb_eq. Qed.
#[export] Instance pyeq_bool_laws : PyEqLaws bool.
Proof. exact Bool.eqb_true_iff. Qed.
#[export] Instance pyeq_string_laws : PyEqLaws string.
Proof. exact String.eqb_eq. Qed.
#[export] Instance pyeq_option_laws `{PyEqLaws A} : PyEqLaws (option A).
Proof. intros [x|] [y|]; unfold pyeqb; simpl; rewrite ?pyeqb_eq; naive_solver. Qed.
#[export] Instance pyeq_prod_laws `{PyEqLaws A, PyEqLaws B} : PyEqLaws (A * B).
Proof.
  intros [a b] [c d]. unfold pyeqb, pyeq_prod; simpl.
  rewrite andb_true_iff, !pyeqb_eq. naive_solver.
Qed.
#[export] Instance pyeq_list_laws `{PyEqLaws A} : PyEqLaws (list A).
Proof.
  intros l. unfold pyeqb, pyeq_list.
  induction l as [|x l IH]; intros [|y k]; simpl; try naive_solver.
  rewrite andb_true_iff, pyeqb_eq, IH. naive_solver.
Qed.

Lemma pyeq_of_dec_laws `{EqDecision A} : @PyEqLaws A pyeq_of_dec.
Proof. intros x y. unfold pyeqb, pyeq_of_dec. apply bool_decide_eq_true. Qed.

Lemma pyeqb_refl `{PyEqLaws A} (x : A) : (x == x) = true.
Proof. by apply pyeqb_eq. Qed.

Lemma pyeqb_false `{PyEqLaws A} (x y : A) : (x == y) = false <-> x <> y.
Proof. rewrite <- not_true_iff_false, pyeqb_eq. done. Qed.

Lemma pyeqb_sym `{PyEqLaws A} (x y : A) : (x == y) = (y == x).
Proof. apply eq_true_iff_eq. rewrite !pyeqb_eq. naive_solver. Qed.

(** [x in l], [len(set(l)) == len(l)] and [dict.fromkeys(l)]. *)
Definition py_in `{PyEq A} (x : A) (l : list A) : bool := existsb (fun y => x == y) l.

Fixpoint py_unique `{PyEq A} (l : list A) : bool :=
  match l with
  | [] => true
  | x :: l' => negb (py_in x l') && py_unique l'
  end.

Fixpoint fromkeys_from `{PyEq A} (seen l : list A) : list A :=
  match l with
  | [] => []
  | x :: l' => if py_in x seen then fromkeys_from seen l'
               else x :: fromkeys_from (x :: seen) l'
  end.
Definition dict_fromkeys `{PyEq A} (l : list A) : list A := fromkeys_from [] l.

(** ** Sequences *)

(** [range(a, b)] on integers. *)
Definition py_range (a b : Z) : list Z := (fun i => a + Z.of_nat i)%Z <$> seq 0 (Z.to_nat (b - a)).

Definition py_sum (l : list Z) : Z := foldr Z.add 0%Z l.

(** [enumerate(l, start)] *)
Fixpoint py_enumerate_from {A} (start : Z) (l : list A) : list (Z * A) :=
  match l with
  | [] => []
  | x :: l' => (start, x) :: py_enumerate_from (start + 1)%Z l'
  end.

(** [max(l, default=None)] *)
Definition py_max (l : list Z) : option Z :=
  match l with [] => None | x :: l' => Some (foldl Z.max x l') end.

(** [sorted(l, key=...)]: a stable sort by the strict order [lt] of the keys. *)
Section sorting.
Context {A : Type} (lt : A -> A -> bool).

Fixpoint py_insert (x : A) (l : list A) : list A :=
  match l with
  | [] => [x]
  | y :: l' => if lt y x then y :: py_insert x l' else x :: l
  end.

Definition py_sorted (l : list A) : list A := foldr py_insert [] l.
End sorting.

(** [d.get(k)] on an insertion-ordered dictionary, and [d[k] = v]. *)
Fixpoint assoc_get `{PyEq K} {V} (k : K) (d : list (K * V)) : option V :=
  match d with
  | [] => None
  | (k', v) :: d' => if k == k' then Some v else assoc_get k d'
  end.

Fixpoint assoc_set `{PyEq K} {V} (k : K) (v : V) (d : list (K * V)) : list (K * V) :=
  match d with
  | [] => [(k, v)]
  | (k', v') :: d' => if k == k' then (k', v) :: d' else (k', v') :: assoc_set k v d'
  end.

(** [zip(a, b, strict=True)] *)
Fixpoint zip_strict {A B} (a : list A) (b : list B) : result (list (A * B)) :=
  match a, b with
  | [], [] => Ok []
  | x :: a', y :: b' => l ← zip_strict a' b'; Ok ((x, y) :: l)
  | _, _ => raise ValueError "zip() arguments have different lengths"
  end.

(** ** Text *)

Definition str_lt (a b : string) : bool := String.ltb a b.

Fixpoint py_startswith (p s : string) : bool :=
  match p, s with
  | EmptyString, _ => true
  | String a p', String b s' => Ascii.eqb a b && py_startswith p' s'
  | _, EmptyString => false
  end.

Fixpoint str_drop (n : nat) (s : string) : string :=
  match n, s with
  | S n', String _ s' => str_drop n' s'
  | _, _ => s
  end.

Fixpoint str_take (n : nat) (s : string) : string :=
  match n, s with
  | S n', String c s' => String c (str_take n' s')
  | _, _ => EmptyString
  end.

Definition py_endswith (p s : string) : bool :=
  (String.length p <=? String.length s)%nat
  && String.eqb (str_drop (String.length s - String.length p) s) p.

Definition py_removeprefix (p s : string) : string :=
  if py_startswith p s then str_drop (String.length p) s else s.

Definition py_join (sep : string) (l : list string) : string := String.concat sep l.

Definition is_digit (c : ascii) : bool :=
  let n := N_of_ascii c in (48 <=? n)%N && (n <=? 57)%N.

Fixpoint str_forall (p : ascii -> bool) (s : string) : bool :=
  match s with EmptyString => true | String c s' => p c && str_forall p s' end.

(** [f"{z:03d}"] for a non-negative integer. *)
Definition pad3 (z : Z) : string :=
  let s := pretty z in
  String.append (match String.length s with
                 | 0 => "000" | 1 => "00" | 2 => "0" | _ => "" end)%nat s.

(** [s or None] and [s or ""] *)
Definition none_if_empty (s : string) : option string :=
  if String.eqb s "" then None else Some s.
Definition empty_if_none (s : option string) : string := default "" s.

(** [repr(s)] of a text: single quotes unless it holds one and no double quote. *)
Definition hex_digit (n : N) : ascii := ascii_of_N (if (n <? 10)%N then 48 + n else 87 + n)%N.

Fixpoint str_has (n : N) (s : string) : bool :=
  match s with EmptyString => false | String c s' => (N_of_ascii c =? n)%N || str_has n s' end.

Fixpoint repr_body (quote : N) (s : string) : string :=
  match s with
  | EmptyString => ""
  | String c s' =>
    let n := N_of_ascii c in
    String.append
      (if (n =? quote)%N || (n =? 92)%N then String "\" (String c "")
       else if (n =? 10)%N then "\n" else if (n =? 13)%N then "\r" else if (n =? 9)%N then "\t"
       else if (n <? 32)%N || (n =? 127)%N
            then String.append "\x" (String (hex_digit (n / 16)) (String (hex_digit (n mod 16)) ""))
       else String c "")
      (repr_body quote s')
  end.

Definition py_repr (s : string) : string :=
  let q := (if str_has 39 s && negb (str_has 34 s) then 34 else 39)%N in
  String (ascii_of_N q) (String.append (repr_body q s) (String (ascii_of_N q) "")).

(** [str(t)] of a tuple of integers, [str(l)] of a list of texts. *)
Definition repr_int_tuple (l : list Z) : string :=
  match l with
  | [x] => String.append "(" (String.append (pretty x) ",)")
  | _ => String.append "(" (String.append (String.concat ", " (pretty <$> l)) ")")
  end.
Definition repr_str_list (l : list string) : string :=
  String.append "[" (String.append (String.concat ", " (py_repr <$> l)) "]").

(** [sub in s] on texts *)
Fixpoint str_contains (sub s : string) : bool :=
  py_startswith sub s || match s with EmptyString => false | String _ s' => str_contains sub s' end.

(** ** Lemmas on the result monad *)

Create HintDb hllm.

Lemma bind_ok {A B} (r : result A) (k : A -> result B) (b : B) :
  (r ≫= k) = Ok b <-> exists a, r = Ok a /\ k a = Ok b.
Proof. destruct r as [a|e]; simpl; [naive_solver|]. split; [done|]. by intros (?&?&?). Qed.

Lemma Ok_inj {A} (a b : A) : Ok a = Ok b -> a = b.
Proof. by intros [= ->]. Qed.

Lemma bind_err {A B} (r : result A) (k : A -> result B) (e : exn) :
  (r ≫= k) = Err e <-> r = Err e \/ exists a, r = Ok a /\ k a = Err e.
Proof. destruct r; simpl; naive_solver. Qed.

Lemma raise_if_ok b c m u : raise_if b c m = Ok u <-> b = false.
Proof. destruct b, u; simpl; unfold raise; naive_solver. Qed.

Lemma raise_if_err b c m e : raise_if b c m = Err e <-> b = true /\ e = Exn c m.
Proof. destruct b; simpl; unfold raise; naive_solver. Qed.

Lemma is_ok_spec {A} (r : result A) : is_ok r = true <-> exists a, r = Ok a.
Proof. destruct r; simpl; naive_solver. Qed.

(** [inv_ok] breaks every hypothesis [_ = Ok _] about a bind, a return or a guard. *)
Ltac inv_ok :=
  repeat match goal with
  | H : _ ≫= _ = Ok _ |- _ =>
      apply bind_ok in H; let a := fresh "v" in destruct H as (a & ? & H)
  | H : raise_if _ _ _ = Ok _ |- _ => apply raise_if_ok in H
  | H : raise _ _ = Ok _ |- _ => discriminate H
  | H : Err _ = Ok _ |- _ => discriminate H
  | H : mret _ = Ok _ |- _ => injection H as H; try subst
  | H : Ok _ = Ok _ |- _ => injection H as H; try subst
  end.

Lemma mapM_ok {A B} (f : A -> result B) l k :
  mapM f l = Ok k <-> Forall2 (fun x y => f x = Ok y) l k.
Proof.
  revert k. induction l as [|x l IH]; intros k; simpl.
  { unfold mret, result_ret. split; [intros [= <-]; constructor|].
    by intros ->%Forall2_nil_inv_l. }
  rewrite bind_ok. setoid_rewrite bind_ok. setoid_rewrite IH.
  unfold mret, result_ret. split.
  - intros (a & ? & k' & ? & [= <-]). by constructor.
  - intros (y & k' & ? & ? & ->)%Forall2_cons_inv_l. eauto 10.
Qed.

Lemma mapM_total {A B} (f : A -> result B) l :
  Forall (fun x => exists y, f x = Ok y) l -> exists k, mapM f l = Ok k.
Proof.
  induction 1 as [|x l [y Hy] _ [k IH]]; [by exists []|]. exists (y :: k). simpl. by rewrite Hy; simpl; rewrite IH.
Qed.

Lemma mapM_ok_length {A B} (f : A -> result B) l k : mapM f l = Ok k -> length k = length l.
Proof. intros ?%mapM_ok%Forall2_length. done. Qed.

Lemma zip_strict_ok {A B} (a : list A) (b : list B) l :
  zip_strict a b = Ok l <-> length a = length b /\ l = zip a b.
Proof.
  revert b l. induction a as [|x a IH]; intros [|y b] l; simpl; unfold raise;
    try naive_solver.
  rewrite bind_ok. setoid_rewrite IH. naive_solver.
Qed.

(** ** Booleans as propositions *)

Lemma py_in_elem `{PyEqLaws A} (x : A) l : py_in x l = true <-> x ∈ l.
Proof.
  unfold py_in. induction l as [|y l IH]; simpl; [set_solver|].
  rewrite orb_true_iff, pyeqb_eq, IH. set_solver.
Qed.

Lemma py_in_false `{PyEqLaws A} (x : A) l : py_in x l = false <-> x ∉ l.
Proof.
  pose proof (py_in_elem x l) as Hin. destruct (py_in x l); [|naive_solver].
  split; [done|]. intros []. by apply Hin.
Qed.

Lemma py_unique_NoDup `{PyEqLaws A} (l : list A) : py_unique l = true <-> NoDup l.
Proof.
  induction l as [|x l IH]; simpl; [split; [constructor|done]|].
  by rewrite andb_true_iff, negb_true_iff, IH, list.NoDup_cons, py_in_false.
Qed.

Lemma forallb_Forall {A} (f : A -> bool) l : forallb f l = true <-> Forall (fun x => f x = true) l.
Proof.
  induction l as [|x l IH]; simpl; [split; [constructor|done]|].
  by rewrite andb_true_iff, IH, Forall_cons.
Qed.

Lemma existsb_false_Forall {A} (f : A -> bool) l :
  existsb f l = false <-> Forall (fun x => f x = false) l.
Proof.
  induction l as [|x l IH]; simpl; [split; [constructor|done]|].
  rewrite orb_false_iff, IH, Forall_cons. done.
Qed.

(** [bool_to_prop] turns boolean tests in the context into propositions. *)
Ltac bool_to_prop :=
  repeat match goal with
  | H : _ && _ = true |- _ => apply andb_true_iff in H as [??]
  | H : _ || _ = false |- _ => apply orb_false_iff in H as [??]
  | H : negb _ = true |- _ => apply negb_true_iff in H
  | H : negb _ = false |- _ => apply negb_false_iff in H
  | H : (_ == _) = true |- _ => apply (proj1 (pyeqb_eq _ _)) in H
  | H : (_ == _) = false |- _ => apply (proj1 (pyeqb_false _ _)) in H
  | H : (_ <? _)%Z = false |- _ => apply Z.ltb_ge in H
  | H : (_ <? _)%Z = true |- _ => apply Z.ltb_lt in H
  | H : (_ <=? _)%Z = false |- _ => apply Z.leb_gt in H
  | H : (_ <=? _)%Z = true |- _ => apply Z.leb_le in H
  | H : (_ =? _)%Z = true |- _ => apply Z.eqb_eq in H
  | H : (_ =? _)%Z = false |- _ => apply Z.eqb_neq in H
  | H : py_unique _ = true |- _ => apply py_unique_NoDup in H
  | H : py_in _ _ = true |- _ => apply (proj1 (py_in_elem _ _)) in H
  | H : py_in _ _ = false |- _ => apply (proj1 (py_in_false _ _)) in H
  | H : forallb _ _ = true |- _ => apply forallb_Forall in H
  | H : existsb _ _ = false |- _ => apply existsb_false_Forall in H
  end.

(** ** Lemmas on sequences *)

Lemma elem_of_py_range a b i : i ∈ py_range a b <-> (a <= i < b)%Z.
Proof.
  unfold py_range. rewrite list_elem_of_fmap. setoid_rewrite elem_of_seq. split.
  - intros (n & -> & ?). lia.
  - intros ?. exists (Z.to_nat (i - a)). lia.
Qed.

Lemma length_py_range a b : length (py_range a b) = Z.to_nat (b - a).
Proof. unfold py_range. by rewrite length_fmap, length_seq. Qed.

Lemma NoDup_py_range a b : NoDup (py_range a b).
Proof. apply NoDup_fmap_2_strong; [|apply NoDup_seq]. intros. lia. Qed.

Lemma py_sum_cons x l : py_sum (x :: l) = (x + py_sum l)%Z.
Proof. done. Qed.

Lemma py_sum_app l k : py_sum (l ++ k) = (py_sum l + py_sum k)%Z.
Proof. induction l; simpl; lia. Qed.

Lemma py_sum_nonneg l : Forall (fun x => 0 <= x)%Z l -> (0 <= py_sum l)%Z.
Proof. induction 1; simpl; lia. Qed.

Lemma py_sum_fmap_balance {A} (f g h k : A -> Z) (l : list A) :
  Forall (fun x => f x + g x = h x + k x)%Z l ->
  (py_sum (f <$> l) + py_sum (g <$> l) = py_sum (h <$> l) + py_sum (k <$> l))%Z.
Proof.
  induction 1 as [|x l Hx _ IH]; [done|]. rewrite !fmap_cons. unfold py_sum in *. simpl. lia.
Qed.

Lemma py_sum_Permutation l k : l ≡ₚ k -> py_sum l = py_sum k.
Proof. induction 1; simpl; lia. Qed.

Lemma foldl_max_spec l x : (x <= foldl Z.max x l)%Z /\ Forall (fun y => y <= foldl Z.max x l)%Z l
  /\ foldl Z.max x l ∈ x :: l.
Proof.
  revert x. induction l as [|y l IH]; intros x; simpl.
  { repeat split; [lia|constructor|set_solver]. }
  destruct (IH (x `max` y)%Z) as (H1 & H2 & H3). repeat split.
  - lia.
  - constructor; [lia|done].
  - apply elem_of_cons in H3 as [H3|]; [|set_solver].
    destruct (Z.max_spec x y) as [[? Hm]|[? Hm]]; rewrite Hm in H3 |- *; rewrite H3; set_solver.
Qed.

Lemma py_max_spec l m : py_max l = Some m -> m ∈ l /\ Forall (fun y => y <= m)%Z l.
Proof.
  destruct l as [|x l]; simpl; [done|]. intros [= <-].
  destruct (foldl_max_spec l x) as (?&?&?). by split; [|constructor].
Qed.

Lemma py_max_None l : py_max l = None <-> l = [].
Proof. by destruct l. Qed.

Section sorting_lemmas.
Context {A : Type} (lt : A -> A -> bool).

Lemma py_insert_Permutation x l : py_insert lt x l ≡ₚ x :: l.
Proof.
  induction l as [|y l IH]; simpl; [done|]. destruct (lt y x); [|done].
  rewrite IH. constructor.
Qed.

Lemma py_sorted_Permutation l : py_sorted lt l ≡ₚ l.
Proof. induction l as [|x l IH]; simpl; [done|]. by rewrite py_insert_Permutation, IH. Qed.

Lemma elem_of_py_sorted x l : x ∈ py_sorted lt l <-> x ∈ l.
Proof. by rewrite py_sorted_Permutation. Qed.

Lemma length_py_sorted l : length (py_sorted lt l) = length l.
Proof. by rewrite py_sorted_Permutation. Qed.

(** [le x y]: [y] is not strictly before [x]. *)
Definition not_after (x y : A) : Prop := lt y x = false.

Context (P : A -> Prop).
Hypothesis lt_asym : forall x y, P x -> P y -> lt x y = true -> lt y x = false.
Hypothesis le_trans : forall x y z, P x -> P y -> P z ->
  lt y x = false -> lt z y = false -> lt z x = false.

Lemma py_insert_StronglySorted x l :
  P x -> Forall P l -> StronglySorted not_after l -> StronglySorted not_after (py_insert lt x l).
Proof.
  intros Hx Hl. induction 1 as [|y l Hs IH Hy]; simpl; [repeat constructor|].
  apply Forall_cons in Hl as [Py Hl]. destruct (lt y x) eqn:E.
  - constructor; [by apply IH|]. rewrite py_insert_Permutation. constructor; [|done].
    by apply lt_asym.
  - constructor; [by constructor|]. constructor; [done|].
    rewrite Forall_forall in Hy, Hl |- *. intros z Hz. unfold not_after in *.
    eapply (le_trans x y z); eauto.
Qed.

Lemma py_sorted_StronglySorted l :
  Forall P l -> StronglySorted not_after (py_sorted lt l).
Proof.
  induction 1 as [|x l Hx Hl IH]; simpl; [constructor|].
  apply py_insert_StronglySorted; [done| |done]. by rewrite py_sorted_Permutation.
Qed.

(** The head of the sorted list is a least element. *)
Lemma py_sorted_head_least l x k :
  (forall y, P y -> lt y y = false) ->
  Forall P l -> py_sorted lt l = x :: k -> x ∈ l /\ Forall (fun y => lt y x = false) l.
Proof.
  intros Hirr HP Hs. split.
  { rewrite <- elem_of_py_sorted, Hs. set_solver. }
  pose proof (py_sorted_StronglySorted l HP) as Hss.
  rewrite <- (py_sorted_Permutation l), Hs in HP |- *. rewrite Hs in Hss.
  inversion Hss; subst. constructor; [|done]. apply Hirr. by inversion HP.
Qed.
End sorting_lemmas.

Lemma assoc_get_elem `{PyEqLaws K} {V} (k : K) (d : list (K * V)) v :
  assoc_get k d = Some v -> (k, v) ∈ d.
Proof.
  induction d as [|[k' v'] d IH]; simpl; [done|].
  destruct (k == k') eqn:E; [apply pyeqb_eq in E as ->|]; [intros [= ->]; set_solver|].
  intros ?%IH. set_solver.
Qed.

Lemma assoc_get_None `{PyEqLaws K} {V} (k : K) (d : list (K * V)) :
  assoc_get k d = None <-> k ∉ d.*1.
Proof.
  induction d as [|[k' v'] d IH]; simpl; [set_solver|].
  rewrite not_elem_of_cons. destruct (k == k') eqn:E.
  - apply pyeqb_eq in E as ->. split; [done|]. by intros [].
  - apply pyeqb_false in E. rewrite IH. naive_solver.
Qed.

Lemma assoc_get_NoDup `{PyEqLaws K} {V} (k : K) (d : list (K * V)) v :
  NoDup d.*1 -> (k, v) ∈ d -> assoc_get k d = Some v.
Proof.
  induction d as [|[k' v'] d IH]; simpl; [set_solver|]. intros [Hk Hd]%list.NoDup_cons.
  rewrite elem_of_cons. intros [[= -> ->]|Hin]; [by rewrite pyeqb_refl|].
  destruct (k == k') eqn:E; [|by apply IH]. apply pyeqb_eq in E as ->.
  destruct Hk. apply list_elem_of_fmap. exists (k', v). done.
Qed.

Lemma StronglySorted_lookup {A} (R : A -> A -> Prop) l i j x y :
  StronglySorted R l -> l !! i = Some x -> l !! j = Some y -> (i < j)%nat -> R x y.
Proof.
  intros Hl. revert i j. induction Hl as [|z l _ IH Hz]; intros [|i] [|j] Hi Hj Hij; try done; try lia.
  - simplify_eq/=. rewrite Forall_forall in Hz. eapply Hz, list_elem_of_lookup_2, Hj.
  - apply (IH i j); [done..|lia].
Qed.

(** A symmetric relation that holds between all pairs of a list does so in any order. *)
Lemma StronglySorted_Permutation {A} (R : A -> A -> Prop) l k :
  (forall x y, R x y -> R y x) -> l ≡ₚ k -> StronglySorted R l -> StronglySorted R k.
Proof.
  intros Hsym. induction 1 as [|x l k Hp IH|x y l|l k m _ IH1 _ IH2]; intros Hl; try done.
  - apply StronglySorted_cons in Hl as [Hx Hl]. constructor; [by apply IH|by rewrite <- Hp].
  - apply StronglySorted_cons in Hl as [Hy Hl]. apply StronglySorted_cons in Hl as [Hx Hl].
    apply Forall_cons in Hy as [Hyx Hy]. repeat constructor; auto.
  - auto.
Qed.

Lemma StronglySorted_weaken {A} (R S : A -> A -> Prop) l :
  (forall x y, R x y -> S x y) -> StronglySorted R l -> StronglySorted S l.
Proof. intros HRS. induction 1; constructor; [done|]. eapply Forall_impl; eauto. Qed.

Lemma elem_of_filterb {A} (f : A -> bool) l x : x ∈ List.filter f l <-> f x = true /\ x ∈ l.
Proof. rewrite !list_elem_of_In, List.filter_In. naive_solver. Qed.

Lemma NoDup_fmap_filterb {A B} (g : A -> B) (f : A -> bool) l :
  NoDup (g <$> l) -> NoDup (g <$> List.filter f l).
Proof.
  induction l as [|x l IH]; simpl; [done|]. intros [Hx Hl]%list.NoDup_cons.
  destruct (f x); [|by apply IH]. rewrite fmap_cons. constructor; [|by apply IH].
  intros (y & Hy & [_ Hin]%elem_of_filterb)%list_elem_of_fmap. apply Hx, list_elem_of_fmap. by exists y.
Qed.

Lemma NoDup_fmap_eq {A B} (g : A -> B) l x y :
  NoDup (g <$> l) -> x ∈ l -> y ∈ l -> g x = g y -> x = y.
Proof.
  intros Hnd [i Hi]%list_elem_of_lookup [j Hj]%list_elem_of_lookup E.
  assert (i = j) as ->; [|congruence].
  apply (NoDup_lookup (g <$> l) i j (g x)); [done|by rewrite list_lookup_fmap, Hi|].
  by rewrite list_lookup_fmap, Hj, E.
Qed.

Lemma lookup_py_enumerate {A} start (l : list A) i x :
  py_enumerate_from start l !! i = Some x <-> exists y, l !! i = Some y /\ x = ((start + Z.of_nat i)%Z, y).
Proof.
  revert start i. induction l as [|z l IH]; intros start [|i]; simpl; try naive_solver.
  - rewrite Z.add_0_r. naive_solver.
  - rewrite IH. replace (start + 1 + Z.of_nat i)%Z with (start + Z.of_nat (S i))%Z by lia. done.
Qed.

Lemma Permutation_pick {A} (i : nat) (x : A) l k :
  k !! i = Some x -> l ≡ₚ delete i k -> x :: l ≡ₚ k.
Proof. intros Hi Hl. by rewrite (delete_Permutation k i x Hi), Hl. Qed.

(** Proves that two literal lists have the same elements. *)
Ltac pick_permutation :=
  repeat (first
    [ apply (Permutation_pick 0); [reflexivity|] | apply (Permutation_pick 1); [reflexivity|]
    | apply (Permutation_pick 2); [reflexivity|] | apply (Permutation_pick 3); [reflexivity|]
    | apply (Permutation_pick 4); [reflexivity|] | apply (Permutation_pick 5); [reflexivity|]
    | apply (Permutation_pick 6); [reflexivity|] | apply (Permutation_pick 7); [reflexivity|]
    | apply (Permutation_pick 8); [reflexivity|] | apply (Permutation_pick 9); [reflexivity|]
    | apply (Permutation_pick 10); [reflexivity|] | apply (Permutation_pick 11); [reflexivity|] ];
    cbn [delete list_delete]);
  apply Permutation_refl.

(** A dictionary filled with fresh keys lists them in order. *)
Lemma assoc_set_keys `{PyEqLaws K} {V} (k : K) (v : V) d :
  NoDup d.*1 -> NoDup (assoc_set k v d).*1 /\ forall x, x ∈ (assoc_set k v d).*1 <-> x = k \/ x ∈ d.*1.
Proof.
  induction d as [|[k' v'] d IH]; simpl; intros Hnd.
  { split; [apply NoDup_singleton|]. set_solver. }
  apply list.NoDup_cons in Hnd as [Hk Hnd]. destruct (IH Hnd) as [IHnd IHx].
  destruct (k == k') eqn:E; simpl.
  - apply pyeqb_eq in E as ->. split; [by constructor|]. intros. rewrite elem_of_cons. naive_solver.
  - apply pyeqb_false in E. split.
    + constructor; [|done]. rewrite IHx. naive_solver.
    + intros x. rewrite !elem_of_cons, IHx. naive_solver.
Qed.

Lemma assoc_get_set `{PyEqLaws K} {V} (k k' : K) (v : V) d :
  assoc_get k' (assoc_set k v d) = if k' == k then Some v else assoc_get k' d.
Proof.
  induction d as [|[k0 v0] d IH]; simpl; [by destruct (k' == k)|].
  destruct (k == k0) eqn:E; simpl.
  - apply pyeqb_eq in E as ->. by destruct (k' == k0).
  - rewrite IH. destruct (k' == k0) eqn:E'; [|done].
    apply pyeqb_eq in E' as ->. by rewrite (proj2 (pyeqb_false _ _)) by (apply pyeqb_false in E; congruence).
Qed.

Lemma assoc_set_fresh `{PyEqLaws K} {V} (k : K) (v : V) d : k ∉ d.*1 -> assoc_set k v d = d ++ [(k, v)].
Proof.
  induction d as [|[k' v'] d IH]; simpl; [done|]. intros [Hk Hd]%not_elem_of_cons.
  apply pyeqb_false in Hk. by rewrite Hk, IH.
Qed.

Lemma foldl_assoc_set_fresh `{PyEqLaws K} {A V} (key : A -> K) (val : A -> V) l d :
  NoDup (d.*1 ++ (key <$> l)) ->
  foldl (fun d x => assoc_set (key x) (val x) d) d l = d ++ ((fun x => (key x, val x)) <$> l).
Proof.
  revert d. induction l as [|x l IH]; intros d Hnd; simpl; [by rewrite app_nil_r|].
  simpl in Hnd. rewrite assoc_set_fresh.
  - rewrite IH, <- app_assoc; [done|]. by rewrite fmap_app, <- app_assoc.
  - apply NoDup_app in Hnd as (_ & Hd & _). intros Hin. eapply (Hd _ Hin). set_solver.
Qed.

(** *** [dict.fromkeys] *)

Lemma fromkeys_from_spec `{PyEqLaws A} (seen l : list A) :
  NoDup (fromkeys_from seen l) /\
  forall x, x ∈ fromkeys_from seen l <-> x ∈ l /\ x ∉ seen.
Proof.
  revert seen. induction l as [|y l IH]; intros seen; simpl; [split; [constructor|set_solver]|].
  destruct (py_in y seen) eqn:E.
  - apply (proj1 (py_in_elem _ _)) in E. destruct (IH seen) as [Hnd Hx]. split; [done|].
    intros x. rewrite Hx, elem_of_cons. split; [naive_solver|].
    intros [[->|Hl] Hs]; [by destruct Hs|by split].
  - apply (proj1 (py_in_false _ _)) in E. destruct (IH (y :: seen)) as [Hnd Hx]. split.
    + constructor; [|done]. rewrite Hx. set_solver.
    + intros x. rewrite !elem_of_cons, Hx, not_elem_of_cons. split; [naive_solver|].
      intros [[->|Hl] Hs]; [by left|]. destruct (x == y) eqn:Exy.
      * apply (proj1 (pyeqb_eq _ _)) in Exy. by left.
      * apply (proj1 (pyeqb_false _ _)) in Exy. by right.
Qed.

Lemma elem_of_dict_fromkeys `{PyEqLaws A} (l : list A) x : x ∈ dict_fromkeys l <-> x ∈ l.
Proof. unfold dict_fromkeys. rewrite (proj2 (fromkeys_from_spec [] l)). set_solver. Qed.

Lemma NoDup_dict_fromkeys `{PyEqLaws A} (l : list A) : NoDup (dict_fromkeys l).
Proof. apply fromkeys_from_spec. Qed.

(** [len(set(l)) == 1]: all elements are one value. *)
Lemma dict_fromkeys_single `{PyEqLaws A} (l : list A) :
  length (dict_fromkeys l) = 1%nat <-> l <> [] /\ exists x, Forall (fun y => y = x) l.
Proof.
  split.
  - intros Hl. destruct (dict_fromkeys l) as [|x [|]] eqn:E; try done.
    assert (Hx : forall y, y ∈ l <-> y = x).
    { intros y. rewrite <- elem_of_dict_fromkeys, E. set_solver. }
    split; [intros ->; destruct (not_elem_of_nil x); by apply Hx|].
    exists x. apply Forall_forall. intros y. apply Hx.
  - intros (Hne & x & Hall). rewrite Forall_forall in Hall.
    pose proof (NoDup_dict_fromkeys l) as Hnd.
    assert (Hx : forall y, y ∈ dict_fromkeys l -> y = x) 
      by (intros y Hy; by apply Hall, elem_of_dict_fromkeys).
    destruct (dict_fromkeys l) as [|a [|b k]] eqn:E; [|done|].
    + destruct l as [|y l]; [done|]. destruct (not_elem_of_nil y). rewrite <- E.
      apply elem_of_dict_fromkeys. set_solver.
    + assert (a = x) by (apply Hx; set_solver). assert (b = x) by (apply Hx; set_solver). subst.
      apply list.NoDup_cons in Hnd as [[] _]. set_solver.
Qed.

(** *** Grouping *)

Lemma bind_Permutation_ext {A B} (f g : A -> list B) l :
  Forall (fun x => f x ≡ₚ g x) l -> l ≫= f ≡ₚ l ≫= g.
Proof. induction 1 as [|x l Hx _ IH]; simpl; [done|]. by rewrite Hx, IH. Qed.

Lemma fmap_bind_list {A B C} (f : B -> C) (g : A -> list B) l :
  f <$> (l ≫= g) = l ≫= fun x => f <$> g x.
Proof. induction l as [|x l IH]; [done|]. cbn [mbind list_bind]. by rewrite fmap_app, IH. Qed.

Lemma bind_one_more `{PyEqLaws K} {A} (keys : list K) (k0 : K) (x : A) (g : K -> list A) :
  NoDup keys -> k0 ∈ keys ->
  (keys ≫= fun k => (if k0 == k then [x] else []) ++ g k) ≡ₚ x :: (keys ≫= g).
Proof.
  induction keys as [|k keys IH]; [set_solver|]. intros [Hk Hnd]%list.NoDup_cons Hin.
  cbn [mbind list_bind]. destruct (k0 == k) eqn:E.
  - apply pyeqb_eq in E as ->. simpl. constructor. apply Permutation_app_head.
    clear -Hk H0. induction keys as [|k' keys IH]; [done|].
    apply not_elem_of_cons in Hk as [Hne Hk]. cbn [mbind list_bind].
    by rewrite (proj2 (pyeqb_false _ _) Hne), IH.
  - apply pyeqb_false in E. apply elem_of_cons in Hin as [?|Hin]; [done|]. simpl.
    rewrite (IH Hnd Hin). by rewrite Permutation_middle.
Qed.

(** A list is the concatenation of its groups by key. *)
Lemma group_Permutation `{PyEqLaws K} {A} (f : A -> K) (keys : list K) (l : list A) :
  NoDup keys -> Forall (fun x => f x ∈ keys) l ->
  l ≡ₚ (keys ≫= fun k => List.filter (fun x => f x == k) l).
Proof.
  intros Hnd. induction 1 as [|x l Hx _ IH].
  { symmetry. induction keys; simpl; [done|]. apply IHkeys. by inversion Hnd. }
  rewrite IH at 1. rewrite <- (bind_one_more keys (f x) x _ Hnd Hx).
  apply bind_Permutation_ext, Forall_forall. intros k _. simpl. by destruct (f x == k).
Qed.

(** [set(a) == set(b)] with equal lengths and no repetition in [b]. *)
Lemma same_elements_Permutation {A} (a b : list A) :
  NoDup b -> (forall x, x ∈ b -> x ∈ a) -> length a = length b -> a ≡ₚ b.
Proof.
  intros Hnd Hin Hlen. symmetry. apply submseteq_length_Permutation; [|lia].
  by apply NoDup_submseteq.
Qed.

Lemma find_some_elem {A} (f : A -> bool) l x : List.find f l = Some x -> x ∈ l /\ f x = true.
Proof. intros [??]%List.find_some. by rewrite list_elem_of_In. Qed.

Lemma find_none_Forall {A} (f : A -> bool) l : List.find f l = None -> Forall (fun x => f x = false) l.
Proof. intros H. apply Forall_forall. intros x Hx. apply (List.find_none _ _ H). by apply list_elem_of_In. Qed.

(** ** Lemmas on text *)

#[global] Arguments String.append : simpl nomatch.

Lemma str_app_assoc (a b c : string) : String.append (String.append a b) c = String.append a (String.append b c).
Proof. induction a as [|x a IH]; simpl; [done|]. by rewrite IH. Qed.

Lemma str_app_length (a b : string) :
  String.length (String.append a b) = (String.length a + String.length b)%nat.
Proof. induction a as [|x a IH]; simpl; [done|]. by rewrite IH. Qed.

Lemma str_app_nil_r (s : string) : String.append s "" = s.
Proof. induction s as [|x a IH]; simpl; [done|]. by rewrite IH. Qed.

Lemma str_app_inj_l (s a b : string) : String.append s a = String.append s b -> a = b.
Proof. induction s; simpl; [done|]. intros [=]. auto. Qed.

Lemma str_app_inj_len (a b c d : string) : String.length a = String.length c ->
  String.append a b = String.append c d -> a = c /\ b = d.
Proof.
  revert c. induction a as [|x a IH]; intros [|y c]; simpl; try done.
  intros [= Hl] [= -> H]. destruct (IH _ Hl H). by subst.
Qed.

Lemma str_app_inj_r (s a b : string) : String.append a s = String.append b s -> a = b.
Proof.
  intros H. apply (str_app_inj_len a s b s); [|done].
  apply (f_equal String.length) in H. rewrite !str_app_length in H. lia.
Qed.

Lemma py_startswith_spec p s : py_startswith p s = true <-> exists t, s = String.append p t.
Proof.
  revert s. induction p as [|a p IH]; intros s; simpl; [split; [by exists s|done]|].
  destruct s as [|b s]; [split; [done|by intros []]|].
  rewrite andb_true_iff, Ascii.eqb_eq, IH. split.
  - intros [-> [t ->]]. by exists t.
  - intros [t [= -> ->]]. eauto.
Qed.

Lemma str_drop_app p s : str_drop (String.length p) (String.append p s) = s.
Proof. by induction p. Qed.

Lemma py_removeprefix_app p s : py_removeprefix p (String.append p s) = s.
Proof.
  unfold py_removeprefix. rewrite (proj2 (py_startswith_spec _ _)); [|by eexists].
  apply str_drop_app.
Qed.

(** *** Order of text *)

Lemma str_lt_false a b : str_lt b a = false <-> String.le a b.
Proof.
  unfold str_lt, String.le, String.ltb, String.leb. rewrite String.compare_antisym.
  destruct (String.compare a b); simpl; done.
Qed.

Lemma str_lt_irrefl a : str_lt a a = false.
Proof. by apply str_lt_false. Qed.

Lemma str_lt_asym a b : str_lt a b = true -> str_lt b a = false.
Proof.
  unfold str_lt, String.ltb. rewrite (String.compare_antisym a b).
  destruct (String.compare b a); simpl; done.
Qed.

Lemma str_lt_antisym a b : str_lt a b = false -> str_lt b a = false -> a = b.
Proof. rewrite !str_lt_false. intros. by apply (anti_symm String.le). Qed.

Lemma str_le_trans a b c : str_lt b a = false -> str_lt c b = false -> str_lt c a = false.
Proof. rewrite !str_lt_false. intros. by etrans. Qed.

(** *** Decimal numerals

    [dec_value] reads a numeral back: [pretty] and [pad3] are injective, and a
    numeral at the end of a text can be recovered from it. *)

Fixpoint dec_value (acc : N) (s : string) : N :=
  match s with
  | EmptyString => acc
  | String c s' => dec_value (10 * acc + (N_of_ascii c - 48)) s'
  end.

Lemma pretty_char_digit x : (x < 10)%N ->
  is_digit (pretty_N_char x) = true /\ (N_of_ascii (pretty_N_char x) - 48)%N = x.
Proof. intros. destruct x as [|[[[|[]|]|[|[]|]|]|[[|[]|]|[|[]|]|]|]]; done || lia. Qed.

Lemma pretty_N_go_value x s :
  dec_value 0 (pretty_N_go x s) = dec_value x s /\
  str_forall is_digit (pretty_N_go x s) = str_forall is_digit s.
Proof.
  revert s. induction (N.lt_wf_0 x) as [x _ IH]; intros s.
  destruct (decide (x = 0)%N) as [->|]; [by rewrite pretty_N_go_0|].
  rewrite pretty_N_go_step by lia.
  destruct (IH (x `div` 10)%N (N.div_lt x 10 ltac:(lia) ltac:(lia)) 
              (String (pretty_N_char (x `mod` 10)) s)) as [-> ->]. simpl.
  destruct (pretty_char_digit (x `mod` 10)) as [-> ->]; [by apply N.mod_lt|].
  split; [|done]. f_equal. rewrite (N.div_mod' x 10) at 3. lia.
Qed.

Lemma pretty_Z_value z : (0 <= z)%Z ->
  dec_value 0 (pretty z) = Z.to_N z /\ str_forall is_digit (pretty z) = true.
Proof.
  intros. destruct z as [|p|p]; [done| |lia].
  exact (pretty_N_go_value (Npos p) "").
Qed.

Lemma pad3_value z : (0 <= z)%Z ->
  dec_value 0 (pad3 z) = Z.to_N z /\ str_forall is_digit (pad3 z) = true.
Proof.
  intros Hz. destruct (pretty_Z_value z Hz). unfold pad3.
  by destruct (String.length (pretty z)) as [|[|[|]]].
Qed.

Lemma pad3_inj a b : (0 <= a)%Z -> (0 <= b)%Z -> pad3 a = pad3 b -> a = b.
Proof.
  intros Ha Hb E. destruct (pad3_value a Ha) as [Va _], (pad3_value b Hb) as [Vb _].
  rewrite E in Va. lia.
Qed.

Fixpoint digit_suffix (s : string) : string :=
  if str_forall is_digit s then s
  else match s with EmptyString => "" | String _ s' => digit_suffix s' end.

Lemma digit_suffix_app p c d : is_digit c = false -> str_forall is_digit d = true ->
  digit_suffix (String.append p (String c d)) = d.
Proof.
  intros Hc Hd. induction p as [|x p IH]; simpl.
  - rewrite Hc. simpl. destruct d; simpl in *; [done|]. by rewrite Hd.
  - replace (str_forall is_digit (String.append p (String c d))) with false.
    { rewrite andb_false_r. apply IH. }
    clear IH. induction p; simpl; [by rewrite Hc|]. by rewrite <- IHp, andb_false_r.
Qed.

(** A numeral after a separator that is not a digit determines both parts. *)
Lemma numeral_suffix_inj p q c d e :
  is_digit c = false -> str_forall is_digit d = true -> str_forall is_digit e = true ->
  String.append p (String c d) = String.append q (String c e) -> p = q /\ d = e.
Proof.
  intros Hc Hd He E.
  assert (d = e) as -> by (rewrite <- (digit_suffix_app p c d), <- (digit_suffix_app q c e); congruence).
  split; [|done]. apply (str_app_inj_len p (String c e) q (String c e)); [|done].
  apply (f_equal String.length) in E. rewrite !str_app_length in E. lia.
Qed.

#[export] Hint Rewrite @pyeqb_refl using typeclasses eauto : hllm.
#[export] Hint Resolve str_app_inj_l : hllm.
