(* ===== verification/PyFloat.v ===== *)
(** * Python floats

    The [float] of the control plane is an IEEE-754 binary64 number, computed
    with the Standard Library's [SpecFloat] (precision 53, maximal exponent
    1024).  Conversions from and to [int], true division, [math.ceil],
    [statistics.median] and the compensated [sum] of CPython 3.12 are written
    out, with the exceptions they raise. *)

From Stdlib Require Import SpecFloat.
From S2P Require Export Prelude.

Definition prec : Z := 53.
Definition emax : Z := 1024.

Abbreviation float := spec_float.

Definition fadd (x y : float) : float := SFadd prec emax x y.
Definition fsub (x y : float) : float := SFsub prec emax x y.
Definition fmul (x y : float) : float := SFmul prec emax x y.
Definition fabs (x : float) : float := SFabs x.
Definition flt (x y : float) : bool := SFltb x y.
Definition fle (x y : float) : bool := SFleb x y.

#[export] Instance pyeq_float : PyEq float := SFeqb.

Declare Scope float_scope.
Delimit Scope float_scope with float.
Infix "+" := fadd : float_scope.
Infix "-" := fsub : float_scope.
Infix "*" := fmul : float_scope.
Infix "<?" := flt : float_scope.
Infix "<=?" := fle : float_scope.

Definition f0 : float := S754_zero false.
Definition finf : float := S754_infinity false.

Definition is_nan (x : float) : bool := match x with S754_nan => true | _ => false end.
Definition is_finite (x : float) : bool :=
  match x with S754_zero _ | S754_finite _ _ _ => true | _ => false end.

(** [float(n)], also the implicit conversion of an [int] operand. *)
Definition float_of_int (n : Z) : result float :=
  match binary_normalize prec emax n 0 false with
  | S754_infinity _ => raise OverflowError "int too large to convert to float"
  | x => Ok x
  end.

(** [a / b] on two integers: the correctly rounded quotient. *)
Definition div_round (a b : positive) (s : bool) : float :=
  let '(m, e, l) := SFdiv_core_binary prec emax (Zpos a) 0 (Zpos b) 0 in
  binary_round_aux prec emax s m e l.

Definition py_truediv (a b : Z) : result float :=
  match a, b with
  | _, Z0 => raise ZeroDivisionError "division by zero"
  | Z0, _ => Ok f0
  | _, _ =>
    match div_round (Z.to_pos (Z.abs a)) (Z.to_pos (Z.abs b)) (xorb (a <? 0)%Z (b <? 0)%Z) with
    | S754_infinity _ => raise OverflowError "integer division result too large for a float"
    | x => Ok x
    end
  end.

(** A decimal literal [n / d] of the source, for positive constants. *)
Definition literal (n d : positive) : float := div_round n d false.

(** [x / y] on floats. *)
Definition py_fdiv (x y : float) : result float :=
  match y with
  | S754_zero _ => raise ZeroDivisionError "float division by zero"
  | _ => Ok (SFdiv prec emax x y)
  end.

(** [x ** 2]: the correctly rounded square; a finite base that overflows raises. *)
Definition py_square (x : float) : result float :=
  let y := fmul x x in
  match is_finite x, y with
  | true, S754_infinity _ => raise OverflowError "Numerical result out of range"
  | _, _ => Ok y
  end.

(** [int(x)]: truncation towards zero.  [math.ceil(x)]. *)
Definition trunc_finite (m : positive) (e : Z) : Z :=
  if (0 <=? e)%Z then Z.shiftl (Zpos m) e else Z.shiftr (Zpos m) (- e).

Definition ceil_finite (s : bool) (m : positive) (e : Z) : Z :=
  if (0 <=? e)%Z then Z.shiftl (cond_Zopp s (Zpos m)) e
  else (- Z.shiftr (- cond_Zopp s (Zpos m)) (- e))%Z.

Definition py_int (x : float) : result Z :=
  match x with
  | S754_zero _ => Ok 0%Z
  | S754_finite s m e => Ok (cond_Zopp s (trunc_finite m e))
  | S754_infinity _ => raise OverflowError "cannot convert float infinity to integer"
  | S754_nan => raise ValueError "cannot convert float NaN to integer"
  end.

Definition py_ceil (x : float) : result Z :=
  match x with
  | S754_zero _ => Ok 0%Z
  | S754_finite s m e => Ok (ceil_finite s m e)
  | S754_infinity _ => raise OverflowError "cannot convert float infinity to integer"
  | S754_nan => raise ValueError "cannot convert float NaN to integer"
  end.

(** [n * x] on an integer and a float. *)
Definition int_mul (n : Z) (x : float) : result float := y ← float_of_int n; Ok (fmul y x).

(** [max(x, y)] and [max(l, default=None)]: the first of the largest. *)
Definition fmax (x y : float) : float := if flt x y then y else x.
Definition py_fmax (l : list float) : option float :=
  match l with [] => None | x :: l' => Some (foldl fmax x l') end.
Definition py_fmin (l : list float) : option float :=
  match l with
  | [] => None
  | x :: l' => Some (foldl (fun a y => if flt y a then y else a) x l')
  end.

(** [sum(l)]: CPython 3.12 compensates float sums (Neumaier). *)
Fixpoint neumaier (s c : float) (l : list float) : float :=
  match l with
  | [] => if (c != f0) && is_finite c then fadd s c else s
  | x :: l' =>
    let t := fadd s x in
    let c' := if fle (fabs x) (fabs s) then fadd c (fadd (fsub s t) x)
              else fadd c (fadd (fsub x t) s) in
    neumaier t c' l'
  end.

Definition py_fsum (l : list float) : float :=
  match l with [] => f0 | x :: l' => neumaier (fadd f0 x) f0 l' end.

(** [statistics.median] *)
Definition ftwo : float := literal 2 1.

Definition py_median (l : list float) : result float :=
  let data := py_sorted flt l in
  let n := length data in
  match n with
  | O => raise StatisticsError "no median for empty data"
  | _ =>
    if Nat.odd n then
      match data !! (n / 2)%nat with
      | Some x => Ok x
      | None => raise IndexError "list index out of range"
      end
    else
      match data !! (n / 2 - 1)%nat, data !! (n / 2)%nat with
      | Some x, Some y => py_fdiv (fadd x y) ftwo
      | _, _ => raise IndexError "list index out of range"
      end
  end.

(** ** Instants

    An aware [datetime] is its instant in microseconds since the epoch;
    [(a - b).total_seconds()] divides the exact difference by 10**6. *)
Abbreviation datetime := Z (only parsing).

Definition total_seconds (us : Z) : result float := py_truediv us 1000000.

(** [dt.timestamp()] *)
Definition timestamp (t : datetime) : result float := py_truediv t 1000000.

(** [0 <= x] for a float *)
Definition fge0 (x : float) : bool := fle f0 x.

(** ** Order of floats *)

Lemma pos_cmp_cont_eq m n : Pos.compare_cont Eq m n = (m ?= n)%positive.
Proof. reflexivity. Qed.

Ltac float_cases :=
  unfold flt, fle, SFltb, SFleb, SFeqb, SFcompare in *;
  repeat match goal with x : spec_float |- _ => destruct x as [[]|[]| |[] ? ?] end;
  simpl in *; rewrite ?pos_cmp_cont_eq in *;
  repeat match goal with
  | |- context [Z.compare ?a ?b] => destruct (Z.compare_spec a b)
  | H : context [Z.compare ?a ?b] |- _ => destruct (Z.compare_spec a b)
  | |- context [Pos.compare ?a ?b] => destruct (Pos.compare_spec a b)
  | H : context [Pos.compare ?a ?b] |- _ => destruct (Pos.compare_spec a b)
  end; subst; simpl in *; try done; try lia.

Lemma flt_irrefl x : flt x x = false.
Proof. float_cases. Qed.

Lemma flt_asym x y : flt x y = true -> flt y x = false.
Proof. intros. float_cases. Qed.

Lemma fle_not_lt x y : fle x y = true -> flt y x = false.
Proof. intros. float_cases. Qed.

Lemma flt_trans_not x y z : is_nan y = false ->
  flt y x = false -> flt z y = false -> flt z x = false.
Proof. intros. float_cases. Qed.

Lemma fle_total x y : is_nan x = false -> is_nan y = false -> flt x y = false -> (x == y) = false ->
  flt y x = true.
Proof. unfold pyeqb, pyeq_float. intros. float_cases. Qed.

Lemma feq_sym (x y : float) : (x == y) = (y == x).
Proof.
  unfold pyeqb, pyeq_float. float_cases; rewrite pos_cmp_cont_eq; float_cases.
Qed.

Lemma feq_not_lt (x y : float) : (x == y) = true -> flt x y = false.
Proof. unfold pyeqb, pyeq_float. intros. float_cases. Qed.

Lemma flt_not_eq (x y : float) : flt x y = true -> (x == y) = false.
Proof. intros H. apply not_true_iff_false. intros H'%feq_not_lt. congruence. Qed.

Lemma flt_trans (x y z : float) : flt x y = true -> flt y z = true -> flt x z = true.
Proof. intros. float_cases. Qed.

Lemma fle_trans (x y z : float) : fle x y = true -> fle y z = true -> fle x z = true.
Proof. intros. float_cases. Qed.

Lemma feq_trans (x y z : float) : (x == y) = true -> (y == z) = true -> (x == z) = true.
Proof. unfold pyeqb, pyeq_float. intros. float_cases. Qed.

(** ** Operations that never produce a NaN *)

Lemma shr_nonneg r e n : (0 <= shr_m r)%Z -> (0 <= shr_m (fst (shr r e n)))%Z.
Proof.
  intros Hr. unfold shr. destruct n as [|n|n]; simpl; [done| |done].
  assert (Hs : forall r', (0 <= shr_m r')%Z -> (0 <= shr_m (shr_1 r'))%Z).
  { intros [[|[]|[]] [] []]; simpl; lia. }
  revert r Hr. induction n as [n IH|n IH|]; intros r Hr; simpl; auto.
Qed.

Lemma round_even_nonneg m l : (0 <= m)%Z -> (0 <= round_nearest_even m l)%Z.
Proof. intros. destruct l as [|[]]; simpl; repeat case_match; lia. Qed.

Lemma shr_fexp_nonneg m e l : (0 <= m)%Z -> (0 <= shr_m (fst (shr_fexp prec emax m e l)))%Z.
Proof. intros. unfold shr_fexp. apply shr_nonneg. by destruct l as [|[]]. Qed.

Lemma round_aux_not_nan s m e l : (0 <= m)%Z -> is_nan (binary_round_aux prec emax s m e l) = false.
Proof.
  intros Hm. unfold binary_round_aux.
  destruct (shr_fexp prec emax m e l) as [r1 e1] eqn:E1.
  destruct (shr_fexp prec emax _ e1 loc_Exact) as [r2 e2] eqn:E2.
  assert (0 <= shr_m r2)%Z as Hr2.
  { change r2 with (fst (r2, e2)). rewrite <- E2. apply shr_fexp_nonneg, round_even_nonneg.
    change r1 with (fst (r1, e1)). rewrite <- E1. by apply shr_fexp_nonneg. }
  destruct (shr_m r2); [done|by case_match|lia].
Qed.

Lemma normalize_not_nan m e s : is_nan (binary_normalize prec emax m e s) = false.
Proof.
  unfold binary_normalize, binary_round. destruct m; [done|..]; case_match;
    apply round_aux_not_nan; lia.
Qed.

Lemma fadd_not_nan x y : is_finite x = true -> is_nan y = false -> is_nan (fadd x y) = false.
Proof.
  unfold fadd, SFadd. destruct x as [[]|[]| |[] ? ?], y as [[]|[]| |[] ? ?]; try done;
    intros; apply normalize_not_nan.
Qed.

Lemma fsub_not_nan x y : is_finite x = true -> is_nan y = false -> is_nan (fsub x y) = false.
Proof.
  unfold fsub, SFsub. destruct x as [[]|[]| |[] ? ?], y as [[]|[]| |[] ? ?]; try done;
    intros; apply normalize_not_nan.
Qed.

Lemma fabs_not_nan x : is_nan x = false -> is_nan (fabs x) = false.
Proof. by destruct x. Qed.

Lemma fmul_not_nan x s m e : is_nan x = false -> is_nan (fmul x (S754_finite s m e)) = false.
Proof.
  unfold fmul, SFmul. destruct x as [[]|[]| |[] ? ?]; try done;
    intros; by apply round_aux_not_nan.
Qed.

Lemma div_round_not_nan a b s : is_nan (div_round a b s) = false.
Proof.
  unfold div_round, SFdiv_core_binary. set (e := (Z.min _ _)).
  set (m := match (0 - 0 - e)%Z with Zpos _ => _ | _ => _ end).
  assert (0 <= m)%Z as Hm.
  { unfold m. destruct (0 - 0 - e)%Z; [lia| |lia]. by apply Z.shiftl_nonneg. }
  destruct (Z.div_eucl m (Zpos b)) as [q r] eqn:E. apply round_aux_not_nan.
  replace q with (m / Zpos b)%Z by (unfold Z.div; by rewrite E). by apply Z.div_pos.
Qed.

Lemma py_truediv_finite a b x : py_truediv a b = Ok x -> is_finite x = true.
Proof.
  unfold py_truediv. destruct a as [|a|a], b as [|b|b]; intros E; try by inv_ok.
  all: set (s := xorb _ _) in E; pose proof (div_round_not_nan a b s) as Hn; simpl in E.
  all: destruct (div_round a b s); by inv_ok.
Qed.

(** ** Signs

    [fnonneg] excludes strictly negative numbers; it is kept by the operations
    and makes [int] and [math.ceil] non-negative. *)

Definition fnonneg (x : float) : bool :=
  match x with S754_finite s _ _ | S754_infinity s => negb s | _ => true end.

Lemma fge0_nonneg x : fle f0 x = true -> fnonneg x = true.
Proof. by destruct x as [|[]| |[] ? ?]. Qed.

Lemma round_aux_nonneg m e l : fnonneg (binary_round_aux prec emax false m e l) = true.
Proof. unfold binary_round_aux. repeat case_match; done. Qed.

Lemma div_round_nonneg a b : fnonneg (div_round a b false) = true.
Proof. unfold div_round. case_match. case_match. apply round_aux_nonneg. Qed.

Lemma normalize_nonneg m e s : (0 <= m)%Z -> fnonneg (binary_normalize prec emax m e s) = true.
Proof.
  intros. unfold binary_normalize. destruct m; [done| |lia].
  unfold binary_round. case_match. apply round_aux_nonneg.
Qed.

Lemma float_of_int_nonneg n x : (0 <= n)%Z -> float_of_int n = Ok x -> fnonneg x = true.
Proof.
  intros Hn. pose proof (normalize_nonneg n 0 false Hn) as Hx. unfold float_of_int.
  destruct (binary_normalize _ _ _ _ _); intros; by inv_ok.
Qed.

Lemma fmul_nonneg x y : fnonneg x = true -> fnonneg y = true -> fnonneg (fmul x y) = true.
Proof.
  unfold fmul, SFmul.
  destruct x as [|[]| |[] ? ?], y as [|[]| |[] ? ?]; simpl; try done.
  intros _ _. apply round_aux_nonneg.
Qed.

Lemma int_mul_nonneg n x y : (0 <= n)%Z -> fnonneg x = true -> int_mul n x = Ok y -> fnonneg y = true.
Proof.
  intros Hn Hx E. unfold int_mul in E. inv_ok.
  apply fmul_nonneg; [by eapply float_of_int_nonneg|done].
Qed.

Lemma py_truediv_nonneg a b x : (0 <= a)%Z -> (0 <= b)%Z -> py_truediv a b = Ok x -> fnonneg x = true.
Proof.
  intros Ha Hb. unfold py_truediv. destruct a as [|a|a], b as [|b|b]; try lia; simpl; intros E; inv_ok; try done.
  pose proof (div_round_nonneg a b) as Hd.
  change (match div_round a b false with
          | S754_infinity _ => raise OverflowError "integer division result too large for a float"
          | y => Ok y end = Ok x) in E.
  destruct (div_round a b false); inv_ok; done.
Qed.

Lemma py_int_nonneg x n : fnonneg x = true -> py_int x = Ok n -> (0 <= n)%Z.
Proof.
  destruct x as [|[]| |[] m e]; simpl; intros Hs E; inv_ok; try done.
  unfold trunc_finite. case_match; [by apply Z.shiftl_nonneg|by apply Z.shiftr_nonneg].
Qed.

Lemma py_ceil_nonneg x n : fnonneg x = true -> py_ceil x = Ok n -> (0 <= n)%Z.
Proof.
  destruct x as [|[]| |[] m e]; simpl; intros Hs E; inv_ok; try done.
  unfold ceil_finite. case_match; [by apply Z.shiftl_nonneg|].
  cbn [cond_Zopp]. apply Z.opp_nonneg_nonpos, Z.lt_le_incl, Z.shiftr_neg. lia.
Qed.

#[export] Hint Resolve fge0_nonneg div_round_nonneg float_of_int_nonneg fmul_nonneg
  int_mul_nonneg py_truediv_nonneg py_int_nonneg py_ceil_nonneg : hllm.

(** ** Sums and medians of non-negative numbers *)

Lemma fge0_iff x : fle f0 x = true <-> is_nan x = false /\ fnonneg x = true.
Proof. destruct x as [[]|[]| |[] ? ?]; simpl; unfold fle, SFleb; simpl; intuition congruence. Qed.

Lemma fadd_ge0 x y : fle f0 x = true -> fle f0 y = true -> fle f0 (fadd x y) = true.
Proof.
  unfold fadd, SFadd. intros Hx Hy.
  destruct x as [[]|[]| |[] ? ?], y as [[]|[]| |[] ? ?]; try done.
  apply fge0_iff. split; [apply normalize_not_nan|]. apply normalize_nonneg. simpl. lia.
Qed.

Lemma fdiv_core_nonneg m1 e1 m2 e2 :
  (0 <= (SFdiv_core_binary prec emax (Zpos m1) e1 (Zpos m2) e2).1.1)%Z.
Proof.
  unfold SFdiv_core_binary. set (e := Z.min _ _).
  set (m := match (e1 - e2 - e)%Z with Zpos _ => _ | _ => _ end).
  assert (0 <= m)%Z as Hm.
  { unfold m. destruct (e1 - e2 - e)%Z; [lia| |lia]. by apply Z.shiftl_nonneg. }
  destruct (Z.div_eucl m (Zpos m2)) as [q r] eqn:E. simpl.
  replace q with (m / Zpos m2)%Z by (unfold Z.div; by rewrite E). by apply Z.div_pos.
Qed.

Lemma fhalf_ge0 x : fle f0 x = true -> exists y, py_fdiv x ftwo = Ok y /\ fle f0 y = true.
Proof.
  intros Hx. assert (exists m e, ftwo = S754_finite false m e) as (m & e & ->)
    by (eexists _, _; vm_compute; reflexivity).
  eexists. split; [done|]. unfold SFdiv. destruct x as [[]|[]| |[] mx ex]; try done.
  pose proof (fdiv_core_nonneg mx ex m e) as Hq. destruct (SFdiv_core_binary _ _ _ _ _ _) as [[q z] l].
  apply fge0_iff. split; [by apply round_aux_not_nan|apply round_aux_nonneg].
Qed.

(** The median of a non-empty list of non-negative numbers exists and is one. *)
Lemma py_median_ge0 l : l <> [] -> Forall (fun x => fle f0 x = true) l ->
  exists m, py_median l = Ok m /\ fle f0 m = true.
Proof.
  intros Hne Hall. unfold py_median. set (data := py_sorted flt l).
  assert (Hd : Forall (fun x => fle f0 x = true) data).
  { unfold data. by rewrite py_sorted_Permutation. }
  assert (Hn : length data <> 0%nat) by (unfold data; rewrite length_py_sorted; by destruct l).
  destruct (length data) as [|n'] eqn:Hlen; [done|]. rewrite <- Hlen. set (n := length data).
  assert (Hget : forall i, (i < n)%nat -> exists x, data !! i = Some x /\ fle f0 x = true).
  { intros i [x Hi]%lookup_lt_is_Some. exists x. split; [done|]. by eapply Forall_lookup in Hd. }
  assert (n / 2 < n)%nat by (apply Nat.div_lt; lia).
  destruct (Hget (n / 2)%nat) as (y & -> & Hy); [done|].
  destruct (Nat.odd n); [by exists y|].
  destruct (Hget (n / 2 - 1)%nat) as (x & -> & Hx); [lia|]. by apply fhalf_ge0, fadd_ge0.
Qed.
