(* ===== verification/Json.v ===== *)
(** * Canonical JSON and content digests (src/python/hllm_control/serialization.py)

    The JSON values that [model_dump(mode="json")] produces, the deterministic
    text of [canonical_json_bytes], Python's shortest float representation, and
    the hash interface through which every artifact gets its identity. *)

From Stdlib Require Import Ascii SpecFloat.
From S2P Require Export PyFloat.

(** ** Shortest decimal representation of a float ([float.__repr__]) *)

Definition dec_to_float (d k : Z) : float :=
  match d with
  | Z0 => f0
  | _ =>
    if (0 <=? k)%Z then binary_normalize prec emax (d * 10 ^ k) 0 false
    else div_round (Z.to_pos d) (Z.to_pos (10 ^ (- k))) false
  end.

(** [m * 2^e * 10^j] as a fraction. *)
Definition scaled (m : positive) (e j : Z) : Z * Z :=
  let n := (Zpos m * 2 ^ Z.max 0 e * 10 ^ Z.max 0 j)%Z in
  let d := (2 ^ Z.max 0 (- e) * 10 ^ Z.max 0 (- j))%Z in
  (n, d).

(** The number [k] of digits before the decimal point: 10^(k-1) <= x < 10^k. *)
Fixpoint decimal_exponent (fuel : nat) (m : positive) (e k : Z) : Z :=
  match fuel with
  | O => k
  | S fuel' =>
    let '(n, d) := scaled m e (- k) in
    if (d <=? n)%Z then decimal_exponent fuel' m e (k + 1)
    else if (10 * n <? d)%Z then decimal_exponent fuel' m e (k - 1) else k
  end.

Fixpoint shortest (fuel : nat) (n : Z) (m : positive) (e k : Z) : Z * Z :=
  let '(num, den) := scaled m e (n - k) in
  let lo := (num / den)%Z in
  let hi := (lo + 1)%Z in
  let ok d := dec_to_float d (k - n) == S754_finite false m e in
  let closer_lo :=
    match (2 * (num - lo * den) ?= den)%Z with Lt => true | Gt => false | Eq => Z.even lo end in
  match fuel with
  | O => (lo, k - n)%Z
  | S fuel' =>
    if ok lo && (closer_lo || negb (ok hi)) then (lo, k - n)%Z
    else if ok hi then (hi, k - n)%Z
    else shortest fuel' (n + 1) m e k
  end.

Fixpoint str_repeat (c : ascii) (n : nat) : string :=
  match n with O => "" | S n' => String c (str_repeat c n') end.

Fixpoint strip_zeros (fuel : nat) (d k : Z) : Z * Z :=
  match fuel with
  | O => (d, k)
  | S fuel' => if (d mod 10 =? 0)%Z then strip_zeros fuel' (d / 10) (k + 1) else (d, k)
  end.

Definition format_exponent (x : Z) : string :=
  let a := pretty (Z.abs x) in
  String.append (if (x <? 0)%Z then "e-" else "e+")
    (if (String.length a <? 2)%nat then String "0" a else a).

(** Digits [d] with decimal exponent [k]: fixed notation for 10^-4 <= x < 10^16. *)
Definition format_decimal (d k : Z) : string :=
  let ds := pretty d in
  let len := Z.of_nat (String.length ds) in
  let decpt := (len + k)%Z in
  if ((decpt <=? -4) || (16 <? decpt))%Z then
    String.append
      (if (len =? 1)%Z then ds
       else String.append (str_take 1 ds) (String "." (str_drop 1 ds)))
      (format_exponent (decpt - 1))
  else if (decpt <=? 0)%Z then
    String.append "0." (String.append (str_repeat "0" (Z.to_nat (- decpt))) ds)
  else if (len <=? decpt)%Z then
    String.append ds (String.append (str_repeat "0" (Z.to_nat (decpt - len))) ".0")
  else
    let n := Z.to_nat decpt in
    String.append (str_take n ds) (String "." (str_drop n ds)).

Definition float_repr (x : float) : string :=
  match x with
  | S754_zero false => "0.0"
  | S754_zero true => "-0.0"
  | S754_infinity false => "Infinity"
  | S754_infinity true => "-Infinity"
  | S754_nan => "NaN"
  | S754_finite s m e =>
    let k := decimal_exponent 8 m e ((Zpos (digits2_pos m) + e) * 30103 / 100000) in
    let '(d, k') := shortest 17 1 m e k in
    let '(d', k'') := strip_zeros 20 d k' in
    String.append (if s then "-" else "") (format_decimal d' k'')
  end.

(** ** JSON values and their canonical text *)

Inductive json :=
  | JNull
  | JBool (b : bool)
  | JInt (n : Z)
  | JFloat (x : float)
  | JStr (s : string)
  | JArr (l : list json)
  | JObj (d : list (string * json)).

(** [json.dumps(s, ensure_ascii=False)] *)
Definition escape_char (c : ascii) : string :=
  let n := N_of_ascii c in
  match n with
  | 34%N => String "\" (String (ascii_of_N 34) "")
  | 92%N => "\\"
  | 10%N => "\n"
  | 13%N => "\r"
  | 9%N => "\t"
  | 12%N => "\f"
  | 8%N => "\b"
  | _ => if (n <? 32)%N
         then String.append "\u00" (String (hex_digit (n / 16)) (String (hex_digit (n mod 16)) ""))
         else String c ""
  end.

Fixpoint escape_string (s : string) : string :=
  match s with
  | EmptyString => ""
  | String c s' => String.append (escape_char c) (escape_string s')
  end.

Definition quote (s : string) : string :=
  let q := String (ascii_of_N 34) "" in
  String.append q (String.append (escape_string s) q).

Definition key_lt {A} (a b : string * A) : bool := str_lt (fst a) (fst b).

Fixpoint dumps (j : json) : string :=
  match j with
  | JNull => "null"
  | JBool true => "true"
  | JBool false => "false"
  | JInt n => pretty n
  | JFloat x => float_repr x
  | JStr s => quote s
  | JArr l => String.append "[" (String.append (py_join "," (dumps <$> l)) "]")
  | JObj d =>
    let items := py_sorted key_lt ((fun '(k, v) => (k, dumps v)) <$> d) in
    String.append "{"
      (String.append (py_join "," ((fun '(k, t) => String.append (quote k) (String ":" t)) <$> items))
        "}")
  end.

Definition canonical_json_bytes (j : json) : string := dumps j.

(** ** Content digests

    [sha256_hex] is [hashlib.sha256(data).hexdigest()].  The development is
    generic in it: no theorem depends on how the digest is computed. *)

Class Hash := sha256_hex : string -> string.

(** [digest(value)] (profiling/models.py) of a dumped value. *)
Definition digest `{Hash} (j : json) : string := sha256_hex (canonical_json_bytes j).

(** [sha256_file]: the stream is consumed in chunks until one is empty. *)
Fixpoint read_chunks (fuel : nat) (chunk_size : nat) (data : string) : string :=
  match fuel with
  | O => ""
  | S fuel' =>
    let chunk := str_take chunk_size data in
    match chunk with
    | EmptyString => ""
    | _ => String.append chunk (read_chunks fuel' chunk_size (str_drop chunk_size data))
    end
  end.

Definition sha256_file `{Hash} (chunk_size : nat) (data : string) : string :=
  sha256_hex (read_chunks (S (String.length data)) chunk_size data).

Definition json_opt {A} (f : A -> json) (o : option A) : json :=
  match o with Some a => f a | None => JNull end.

Definition json_ints (l : list Z) : json := JArr (JInt <$> l).
Definition json_strs (l : list string) : json := JArr (JStr <$> l).

(** A field with [exclude_if]: dropped from the dump when the condition holds. *)
Definition json_field (excluded : bool) (k : string) (v : json) : list (string * json) :=
  if excluded then [] else [(k, v)].

(** ** Lemmas *)

Lemma str_take_drop n s : String.append (str_take n s) (str_drop n s) = s.
Proof. revert s. induction n as [|n IH]; intros [|c s]; simpl; [done..|]. by rewrite IH. Qed.

Lemma str_drop_length n s : String.length (str_drop n s) = (String.length s - n)%nat.
Proof. revert s. induction n as [|n IH]; intros [|c s]; simpl; [done..|]. apply IH. Qed.

Lemma read_chunks_all fuel n data :
  (0 < n)%nat -> (String.length data < fuel)%nat -> read_chunks fuel n data = data.
Proof.
  intros Hn. revert data. induction fuel as [|fuel IH]; intros data Hf; simpl; [lia|].
  destruct (str_take n data) as [|c t] eqn:E.
  - destruct n; [lia|]. by destruct data.
  - rewrite <- E, IH; [apply str_take_drop|]. rewrite str_drop_length.
    destruct data; [by destruct n|]. simpl in *. lia.
Qed.

(** Hashing a file chunk by chunk is hashing its contents. *)
Lemma sha256_file_whole `{Hash} n data : (0 < n)%nat -> sha256_file n data = sha256_hex data.
Proof. intros. unfold sha256_file. by rewrite read_chunks_all by lia. Qed.

(** The text of an object does not depend on the order of its fields. *)
Lemma sorted_fields_unique {A} (d1 d2 : list (string * A)) :
  d1 ≡ₚ d2 -> NoDup d1.*1 -> py_sorted key_lt d1 = py_sorted key_lt d2.
Proof.
  intros Hp Hnd.
  assert (Hs : forall d : list (string * A), StronglySorted (not_after key_lt) (py_sorted key_lt d)).
  { intros d. apply (py_sorted_StronglySorted _ (fun _ => True)); [| |by apply Forall_true].
    - intros ? ? _ _. apply str_lt_asym.
    - intros ? ? ? _ _ _. apply str_le_trans. }
  apply (StronglySorted_unique_strong (not_after key_lt)); [|done..|].
  - intros x y Hx Hy Hxy Hyx. unfold not_after, key_lt in *.
    rewrite elem_of_py_sorted in Hx, Hy. rewrite <- Hp in Hy.
    assert (x.1 = y.1) as Hk by (by apply str_lt_antisym).
    destruct x as [k v], y as [k' v']. simpl in Hk. subst k'. f_equal.
    pose proof (assoc_get_NoDup k d1 v Hnd Hx). pose proof (assoc_get_NoDup k d1 v' Hnd Hy). congruence.
  - by rewrite !py_sorted_Permutation.
Qed.

Lemma dumps_fields_Permutation (d1 d2 : list (string * json)) :
  d1 ≡ₚ d2 -> NoDup d1.*1 -> dumps (JObj d1) = dumps (JObj d2).
Proof.
  intros Hp Hnd. simpl. f_equal. f_equal. f_equal. f_equal.
  apply sorted_fields_unique; [by rewrite Hp|].
  rewrite <- list_fmap_compose. erewrite list_fmap_ext; [exact Hnd|]. by intros ? [].
Qed.
