(* ===== verification/Models.v ===== *)
(** * Domain models (src/python/hllm_control/models.py)

    The versioned records shared by preparation, planning, profiling and
    serving.  Field constraints ([Field(ge=0)], ...) and [model_validator]s are
    the [validate_X] functions: constructing a model is running its validator.
    Records carry a prefix per class ([mc_] for [ModelConfig], ...) before the
    source's field names. *)

From S2P Require Export Json.

Definition MANIFEST_SCHEMA_VERSION : string := "1.1".
Definition PROFILE_SCHEMA_VERSION : string := "1.0".
Definition PLAN_SCHEMA_VERSION : string := "1.0".
Definition PLANNER_VERSION : string := "0.1.0".

(** ** Enumerations *)

Inductive DType :=
  | BOOL | U8 | I8 | I16 | U16 | I32 | U32 | I64 | U64 | F16 | BF16 | F32 | F64.

#[export] Instance dtype_eq_dec : EqDecision DType.
Proof. solve_decision. Defined.
#[export] Instance pyeq_dtype : PyEq DType := pyeq_of_dec.
#[export] Instance pyeq_dtype_laws : PyEqLaws DType := pyeq_of_dec_laws.

Definition dtype_value (d : DType) : string :=
  match d with
  | BOOL => "BOOL" | U8 => "U8" | I8 => "I8" | I16 => "I16" | U16 => "U16" | I32 => "I32"
  | U32 => "U32" | I64 => "I64" | U64 => "U64" | F16 => "F16" | BF16 => "BF16"
  | F32 => "F32" | F64 => "F64"
  end.

Definition all_dtypes : list DType :=
  [BOOL; U8; I8; I16; U16; I32; U32; I64; U64; F16; BF16; F32; F64].

(** [DType(value)] *)
Definition dtype_of_value (s : string) : option DType :=
  List.find (fun d => dtype_value d == s) all_dtypes.

Definition DTYPE_BYTES (d : DType) : Z :=
  match d with
  | BOOL | U8 | I8 => 1
  | I16 | U16 | F16 | BF16 => 2
  | I32 | U32 | F32 => 4
  | I64 | U64 | F64 => 8
  end.

Definition MAXIMUM_RPC_BYTES : Z := 16 * 1024 * 1024.
Definition MAXIMUM_BOUNDARY_PAYLOAD_BYTES : Z := MAXIMUM_RPC_BYTES `div` 2.
Definition MAXIMUM_PREFILL_CHUNK_TOKENS : Z := 65536.

(** Largest prefill (in tokens) one stage boundary message can carry. *)
Definition maximum_boundary_tokens (hidden_size : Z) (activation_dtype : DType) : Z :=
  MAXIMUM_BOUNDARY_PAYLOAD_BYTES `div` (hidden_size * DTYPE_BYTES activation_dtype).

Inductive TensorRole :=
  | TOKEN_EMBEDDING | TRANSFORMER_LAYER | FINAL_NORM | LM_HEAD | ARCHITECTURE_STATE.

#[export] Instance tensor_role_eq_dec : EqDecision TensorRole.
Proof. solve_decision. Defined.
#[export] Instance pyeq_role : PyEq TensorRole := pyeq_of_dec.
#[export] Instance pyeq_role_laws : PyEqLaws TensorRole := pyeq_of_dec_laws.

Definition role_value (r : TensorRole) : string :=
  match r with
  | TOKEN_EMBEDDING => "TOKEN_EMBEDDING" | TRANSFORMER_LAYER => "TRANSFORMER_LAYER"
  | FINAL_NORM => "FINAL_NORM" | LM_HEAD => "LM_HEAD"
  | ARCHITECTURE_STATE => "ARCHITECTURE_STATE"
  end.

Inductive Provenance := PROV_THEORETICAL | PROV_CONFIGURED | PROV_OBSERVED | PROV_MEASURED.

#[export] Instance provenance_eq_dec : EqDecision Provenance.
Proof. solve_decision. Defined.
#[export] Instance pyeq_provenance : PyEq Provenance := pyeq_of_dec.
#[export] Instance pyeq_provenance_laws : PyEqLaws Provenance := pyeq_of_dec_laws.

Inductive Backend := CPU | MLX | CUDA.

#[export] Instance backend_eq_dec : EqDecision Backend.
Proof. solve_decision. Defined.
#[export] Instance pyeq_backend : PyEq Backend := pyeq_of_dec.
#[export] Instance pyeq_backend_laws : PyEqLaws Backend := pyeq_of_dec_laws.

Inductive MemoryDomain := UNIFIED | DEVICE | HOST | HOST_PINNED.

#[export] Instance domain_eq_dec : EqDecision MemoryDomain.
Proof. solve_decision. Defined.
#[export] Instance pyeq_domain : PyEq MemoryDomain := pyeq_of_dec.
#[export] Instance pyeq_domain_laws : PyEqLaws MemoryDomain := pyeq_of_dec_laws.

Definition domain_value (d : MemoryDomain) : string :=
  match d with
  | UNIFIED => "UNIFIED" | DEVICE => "DEVICE" | HOST => "HOST" | HOST_PINNED => "HOST_PINNED"
  end.

Inductive ConnectionType := DIRECT | PEER_RELAYED | DERP_RELAYED | UNKNOWN.

#[export] Instance connection_eq_dec : EqDecision ConnectionType.
Proof. solve_decision. Defined.
#[export] Instance pyeq_connection : PyEq ConnectionType := pyeq_of_dec.
#[export] Instance pyeq_connection_laws : PyEqLaws ConnectionType := pyeq_of_dec_laws.

Inductive PlanningMode := FEASIBILITY | ESTIMATED | MEASURED.

#[export] Instance mode_eq_dec : EqDecision PlanningMode.
Proof. solve_decision. Defined.
#[export] Instance pyeq_mode : PyEq PlanningMode := pyeq_of_dec.
#[export] Instance pyeq_mode_laws : PyEqLaws PlanningMode := pyeq_of_dec_laws.

Definition mode_value (m : PlanningMode) : string :=
  match m with FEASIBILITY => "feasibility" | ESTIMATED => "estimated" | MEASURED => "measured" end.

Definition mode_of_value (s : string) : option PlanningMode :=
  List.find (fun m => mode_value m == s) [FEASIBILITY; ESTIMATED; MEASURED].

(** ** Field constraints *)

Definition NonNegativeInt (n : Z) : bool := (0 <=? n)%Z.
Definition PositiveInt (n : Z) : bool := (0 <? n)%Z.
Definition Fraction (x : float) : bool := fle f0 x && flt x (literal 1 1).
Definition PositiveFloat (x : float) : bool := flt f0 x.
Definition NonNegativeFloat (x : float) : bool := fle f0 x.
Definition opt_ok {A} (p : A -> bool) (o : option A) : bool :=
  match o with Some a => p a | None => true end.

(** Every failed field constraint is one [ValidationError]. *)
Definition fields_ok (b : bool) : result unit :=
  raise_if (negb b) ValidationError "field constraint".

(** ** Model manifests *)

Record SourceDescriptor := {
  sd_model_id : string;
  sd_revision : option string;
  sd_config_sha256 : string;
  sd_index_sha256 : option string;
  sd_tensor_metadata_sha256 : option string
}.

Record ArchitectureDescriptor := {
  ad_architecture_id : string;
  ad_architecture_revision : string;
  ad_feature_flags : list string
}.

Record RopeScaling := {
  rs_scaling_type : string;
  rs_factor : float;
  rs_original_max_position_embeddings : option Z
}.

Definition RopeScaling_fields (r : RopeScaling) : bool :=
  PositiveFloat (rs_factor r) && opt_ok PositiveInt (rs_original_max_position_embeddings r).

Record ModelConfig := {
  mc_hidden_size : Z;
  mc_intermediate_size : Z;
  mc_num_layers : Z;
  mc_num_attention_heads : Z;
  mc_num_kv_heads : Z;
  mc_head_dim : Z;
  mc_vocabulary_size : Z;
  mc_maximum_sequence_length : Z;
  mc_tied_embeddings : bool;
  mc_rms_norm_eps : float;
  mc_rope_theta : float;
  mc_rope_scaling : option RopeScaling;
  mc_hidden_activation : string;
  mc_attention_bias : bool;
  mc_mlp_bias : bool;
  mc_eos_token_ids : list Z
}.

Definition ModelConfig_fields (c : ModelConfig) : bool :=
  PositiveInt (mc_hidden_size c) && PositiveInt (mc_intermediate_size c)
  && PositiveInt (mc_num_layers c) && PositiveInt (mc_num_attention_heads c)
  && PositiveInt (mc_num_kv_heads c) && PositiveInt (mc_head_dim c)
  && PositiveInt (mc_vocabulary_size c) && PositiveInt (mc_maximum_sequence_length c)
  && PositiveFloat (mc_rms_norm_eps c) && PositiveFloat (mc_rope_theta c)
  && opt_ok RopeScaling_fields (mc_rope_scaling c)
  && forallb NonNegativeInt (mc_eos_token_ids c).

Definition validate_attention_shape (c : ModelConfig) : result unit :=
  raise_if (negb (mc_num_attention_heads c `mod` mc_num_kv_heads c =? 0)%Z)
    ValidationError "num_attention_heads must be divisible by num_kv_heads" ;;
  raise_if (negb (py_unique (mc_eos_token_ids c))) ValidationError "eos_token_ids must be unique".

Definition validate_ModelConfig (c : ModelConfig) : result ModelConfig :=
  fields_ok (ModelConfig_fields c) ;;
  validate_attention_shape c ;;
  Ok c.

Record TensorFile := {
  tf_name : string;
  tf_size_bytes : Z;
  tf_header_size_bytes : Z;
  tf_sha256 : option string
}.

Record TensorRecord := {
  tr_name : string;
  tr_file : string;
  tr_dtype : DType;
  tr_shape : list Z;
  tr_data_offset : Z;
  tr_byte_length : Z;
  tr_role : TensorRole;
  tr_layer_index : option Z;
  tr_shared_weight_group : option string
}.

Definition TensorRecord_fields (t : TensorRecord) : bool :=
  forallb NonNegativeInt (tr_shape t) && NonNegativeInt (tr_data_offset t)
  && NonNegativeInt (tr_byte_length t) && opt_ok NonNegativeInt (tr_layer_index t).

Definition num_elements (t : TensorRecord) : Z := foldl Z.mul 1%Z (tr_shape t).

Record ComponentMemory := {
  cm_role : TensorRole;
  cm_layer_index : option Z;
  cm_storage_bytes : Z
}.

Record ModelManifest := {
  mm_schema_version : string;
  mm_manifest_id : string;
  mm_manifest_digest : string;
  mm_source : SourceDescriptor;
  mm_architecture : ArchitectureDescriptor;
  mm_config : ModelConfig;
  mm_tensor_files : list TensorFile;
  mm_tensors : list TensorRecord;
  mm_components : list ComponentMemory;
  mm_total_storage_bytes : Z
}.

(** The fields of a manifest that a validated [ModelManifest] satisfies. *)
Definition ModelManifest_ok (m : ModelManifest) : bool :=
  is_ok (validate_ModelConfig (mm_config m))
  && forallb (fun f => NonNegativeInt (tf_size_bytes f) && NonNegativeInt (tf_header_size_bytes f))
       (mm_tensor_files m)
  && forallb TensorRecord_fields (mm_tensors m)
  && forallb (fun c => opt_ok NonNegativeInt (cm_layer_index c)
                       && NonNegativeInt (cm_storage_bytes c)) (mm_components m)
  && NonNegativeInt (mm_total_storage_bytes m).

(** ** Workers, links and workloads *)

Record MemoryBudget := {
  mb_domain : MemoryDomain;
  mb_capacity_bytes : Z;
  mb_runtime_reserve_bytes : Z;
  mb_safety_fraction : float
}.

#[export] Instance pyeq_MemoryBudget : PyEq MemoryBudget := fun a b =>
  (mb_domain a == mb_domain b) && (mb_capacity_bytes a == mb_capacity_bytes b)
  && (mb_runtime_reserve_bytes a == mb_runtime_reserve_bytes b)
  && (mb_safety_fraction a == mb_safety_fraction b).

Definition MemoryBudget_fields (b : MemoryBudget) : bool :=
  PositiveInt (mb_capacity_bytes b) && NonNegativeInt (mb_runtime_reserve_bytes b)
  && Fraction (mb_safety_fraction b).

Definition usable_bytes (b : MemoryBudget) : result Z :=
  safe ← int_mul (mb_capacity_bytes b) (mb_safety_fraction b);
  safety_bytes ← py_int safe;
  Ok (Z.max 0 (mb_capacity_bytes b - mb_runtime_reserve_bytes b - safety_bytes)).

Record WorkerProfile := {
  wp_schema_version : string;
  wp_worker_id : string;
  wp_endpoint : string;
  wp_backend : Backend;
  wp_primary_memory_domain : MemoryDomain;
  wp_supported_architectures : list string;
  wp_supported_execution_dtypes : list DType;
  wp_supports_mixed_precision : bool;
  wp_memory_budgets : list MemoryBudget;
  wp_fixed_workspace_bytes : Z;
  wp_activation_buffer_count : Z;
  wp_allocator_allowance_fraction : float;
  wp_host_transport_buffer_bytes : Z;
  wp_provenance : Provenance;
  wp_observed_available_host_bytes : option Z;
  wp_observed_at : option string
}.

#[export] Instance pyeq_WorkerProfile : PyEq WorkerProfile := fun a b =>
  (wp_schema_version a == wp_schema_version b) && (wp_worker_id a == wp_worker_id b)
  && (wp_endpoint a == wp_endpoint b) && (wp_backend a == wp_backend b)
  && (wp_primary_memory_domain a == wp_primary_memory_domain b)
  && (wp_supported_architectures a == wp_supported_architectures b)
  && (wp_supported_execution_dtypes a == wp_supported_execution_dtypes b)
  && (wp_supports_mixed_precision a == wp_supports_mixed_precision b)
  && (wp_memory_budgets a == wp_memory_budgets b)
  && (wp_fixed_workspace_bytes a == wp_fixed_workspace_bytes b)
  && (wp_activation_buffer_count a == wp_activation_buffer_count b)
  && (wp_allocator_allowance_fraction a == wp_allocator_allowance_fraction b)
  && (wp_host_transport_buffer_bytes a == wp_host_transport_buffer_bytes b)
  && (wp_provenance a == wp_provenance b)
  && (wp_observed_available_host_bytes a == wp_observed_available_host_bytes b)
  && (wp_observed_at a == wp_observed_at b).

Definition WorkerProfile_fields (w : WorkerProfile) : bool :=
  forallb MemoryBudget_fields (wp_memory_budgets w)
  && NonNegativeInt (wp_fixed_workspace_bytes w) && PositiveInt (wp_activation_buffer_count w)
  && Fraction (wp_allocator_allowance_fraction w)
  && NonNegativeInt (wp_host_transport_buffer_bytes w)
  && opt_ok NonNegativeInt (wp_observed_available_host_bytes w).

Definition validate_memory_domains (w : WorkerProfile) : result unit :=
  let domains := mb_domain <$> wp_memory_budgets w in
  raise_if (negb (py_unique domains)) ValidationError "worker memory budget domains must be unique" ;;
  raise_if (negb (py_in (wp_primary_memory_domain w) domains)) ValidationError
    "primary_memory_domain requires a matching memory budget".

Definition validate_WorkerProfile (w : WorkerProfile) : result WorkerProfile :=
  fields_ok (WorkerProfile_fields w) ;;
  validate_memory_domains w ;;
  Ok w.

Definition budget_for (w : WorkerProfile) (d : MemoryDomain) : option MemoryBudget :=
  List.find (fun item => mb_domain item == d) (wp_memory_budgets w).

Record LinkProfile := {
  lp_schema_version : string;
  lp_source_worker_id : string;
  lp_target_worker_id : string;
  lp_connection_type : ConnectionType;
  lp_fixed_latency_ms : float;
  lp_bandwidth_bytes_per_second : float;
  lp_sender_conversion_ms : float;
  lp_receiver_conversion_ms : float;
  lp_provenance : Provenance;
  lp_observed_at : option string
}.

Definition LinkProfile_fields (l : LinkProfile) : bool :=
  NonNegativeFloat (lp_fixed_latency_ms l) && PositiveFloat (lp_bandwidth_bytes_per_second l)
  && NonNegativeFloat (lp_sender_conversion_ms l) && NonNegativeFloat (lp_receiver_conversion_ms l).

Record WorkloadProfile := {
  wl_schema_version : string;
  wl_workload_id : string;
  wl_prompt_tokens : Z;
  wl_output_tokens : Z;
  wl_concurrency : Z;
  wl_total_cached_tokens : Z;
  wl_kv_overhead_factor : float;
  wl_kv_dtype : DType;
  wl_activation_dtype : DType;
  wl_prefill_chunk_tokens : Z
}.

#[export] Instance pyeq_WorkloadProfile : PyEq WorkloadProfile := fun a b =>
  (wl_schema_version a == wl_schema_version b) && (wl_workload_id a == wl_workload_id b)
  && (wl_prompt_tokens a == wl_prompt_tokens b) && (wl_output_tokens a == wl_output_tokens b)
  && (wl_concurrency a == wl_concurrency b)
  && (wl_total_cached_tokens a == wl_total_cached_tokens b)
  && (wl_kv_overhead_factor a == wl_kv_overhead_factor b)
  && (wl_kv_dtype a == wl_kv_dtype b) && (wl_activation_dtype a == wl_activation_dtype b)
  && (wl_prefill_chunk_tokens a == wl_prefill_chunk_tokens b).

Definition WorkloadProfile_fields (w : WorkloadProfile) : bool :=
  PositiveInt (wl_prompt_tokens w) && PositiveInt (wl_output_tokens w)
  && PositiveInt (wl_concurrency w) && PositiveInt (wl_total_cached_tokens w)
  && fle (literal 1 1) (wl_kv_overhead_factor w)
  && NonNegativeInt (wl_prefill_chunk_tokens w)
  && (wl_prefill_chunk_tokens w <=? MAXIMUM_PREFILL_CHUNK_TOKENS)%Z.

Definition validate_prefill_chunk (w : WorkloadProfile) : result unit :=
  raise_if ((wl_prefill_chunk_tokens w != 0%Z)
            && (wl_prompt_tokens w <=? wl_prefill_chunk_tokens w)%Z)
    ValidationError "prefill_chunk_tokens must be below prompt_tokens; use 0".

Definition validate_WorkloadProfile (w : WorkloadProfile) : result WorkloadProfile :=
  fields_ok (WorkloadProfile_fields w) ;;
  validate_prefill_chunk w ;;
  Ok w.

(** Prompt tokens carried by the largest prefill boundary message. *)
Definition boundary_message_tokens (w : WorkloadProfile) : Z :=
  if wl_prefill_chunk_tokens w == 0%Z then wl_prompt_tokens w else wl_prefill_chunk_tokens w.

(** [model_dump(mode="json")] of a workload. *)
Definition WorkloadProfile_dump (w : WorkloadProfile) : json :=
  JObj ([("schema_version", JStr (wl_schema_version w));
         ("workload_id", JStr (wl_workload_id w));
         ("prompt_tokens", JInt (wl_prompt_tokens w));
         ("output_tokens", JInt (wl_output_tokens w));
         ("concurrency", JInt (wl_concurrency w));
         ("total_cached_tokens", JInt (wl_total_cached_tokens w));
         ("kv_overhead_factor", JFloat (wl_kv_overhead_factor w));
         ("kv_dtype", JStr (dtype_value (wl_kv_dtype w)));
         ("activation_dtype", JStr (dtype_value (wl_activation_dtype w)))]
        ++ json_field (wl_prefill_chunk_tokens w == 0%Z)
             "prefill_chunk_tokens" (JInt (wl_prefill_chunk_tokens w))).

(** ** Planner settings *)

Record ObjectiveWeights := {
  ow_ttft : float;
  ow_itl : float;
  ow_pipeline_period : float;
  ow_memory_pressure : float
}.

Definition default_weights : ObjectiveWeights := {|
  ow_ttft := literal 25 100; ow_itl := literal 50 100;
  ow_pipeline_period := literal 20 100; ow_memory_pressure := literal 5 100 |}.

Record PlannerSettings := {
  ps_mode : PlanningMode;
  ps_execution_dtype : DType;
  ps_weight_dtype : option DType;
  ps_objective_weights : ObjectiveWeights
}.

Definition default_settings : PlannerSettings := {|
  ps_mode := FEASIBILITY; ps_execution_dtype := F16; ps_weight_dtype := None;
  ps_objective_weights := default_weights |}.

Definition ObjectiveWeights_fields (w : ObjectiveWeights) : bool :=
  NonNegativeFloat (ow_ttft w) && NonNegativeFloat (ow_itl w)
  && NonNegativeFloat (ow_pipeline_period w) && NonNegativeFloat (ow_memory_pressure w).

Definition validate_precision (s : PlannerSettings) : result unit :=
  match ps_weight_dtype s with
  | Some d => raise_if ((d != F16) || (ps_execution_dtype s != F32)) ValidationError
                "mixed precision requires F16 weights and F32 execution/KV"
  | None => Ok tt
  end.

Definition validate_PlannerSettings (s : PlannerSettings) : result PlannerSettings :=
  fields_ok (ObjectiveWeights_fields (ps_objective_weights s)) ;;
  validate_precision s ;;
  Ok s.

(** ** Candidates and plans *)

Record StageMemory := {
  sm_worker_id : string;
  sm_domain : MemoryDomain;
  sm_layer_start : Z;
  sm_layer_end : Z;
  sm_weight_bytes : Z;
  sm_kv_cache_bytes : Z;
  sm_workspace_bytes : Z;
  sm_activation_buffer_bytes : Z;
  sm_allocator_allowance_bytes : Z;
  sm_required_bytes : Z;
  sm_usable_bytes : Z;
  sm_pressure : float
}.

Definition StageMemory_fields (s : StageMemory) : bool :=
  NonNegativeInt (sm_layer_start s) && PositiveInt (sm_layer_end s)
  && NonNegativeInt (sm_weight_bytes s) && NonNegativeInt (sm_kv_cache_bytes s)
  && NonNegativeInt (sm_workspace_bytes s) && NonNegativeInt (sm_activation_buffer_bytes s)
  && NonNegativeInt (sm_allocator_allowance_bytes s) && NonNegativeInt (sm_required_bytes s)
  && NonNegativeInt (sm_usable_bytes s) && NonNegativeFloat (sm_pressure s).

Record PerformanceEstimate := {
  pe_boundary_prefill_ms : float;
  pe_boundary_decode_ms : float;
  pe_confidence : string;
  pe_ttft_ms : option float;
  pe_decode_ms : list float;
  pe_generation_ms : option float;
  pe_components_ms : list (string * float);
  pe_profile_digests : list string;
  pe_host_envelope_bytes : list (string * Z);
  pe_device_envelope_bytes : list (string * Z)
}.

Definition PerformanceEstimate_fields (p : PerformanceEstimate) : bool :=
  NonNegativeFloat (pe_boundary_prefill_ms p) && NonNegativeFloat (pe_boundary_decode_ms p).

Record PlanCandidate := {
  pc_candidate_id : string;
  pc_stage_zero_worker_id : string;
  pc_final_stage_worker_id : string;
  pc_split_layer : Z;
  pc_stages : StageMemory * StageMemory;
  pc_feasible : bool;
  pc_measurement_status : option string;
  pc_rejection_reasons : list string;
  pc_performance : option PerformanceEstimate;
  pc_score : option float;
  pc_rank : option Z
}.

(** [candidate.model_copy(update={"rank": r})] *)
Definition with_rank (r : option Z) (c : PlanCandidate) : PlanCandidate := {|
  pc_candidate_id := pc_candidate_id c;
  pc_stage_zero_worker_id := pc_stage_zero_worker_id c;
  pc_final_stage_worker_id := pc_final_stage_worker_id c;
  pc_split_layer := pc_split_layer c; pc_stages := pc_stages c;
  pc_feasible := pc_feasible c; pc_measurement_status := pc_measurement_status c;
  pc_rejection_reasons := pc_rejection_reasons c; pc_performance := pc_performance c;
  pc_score := pc_score c; pc_rank := r |}.

Record StageAssignment := {
  sa_stage_index : Z;
  sa_worker_id : string;
  sa_layer_start : Z;
  sa_layer_end : Z;
  sa_owns_token_embedding : bool;
  sa_owns_final_norm : bool;
  sa_owns_lm_head : bool;
  sa_owns_sampling : bool
}.

#[export] Instance stage_assignment_eq_dec : EqDecision StageAssignment.
Proof. solve_decision. Defined.
#[export] Instance pyeq_assignment : PyEq StageAssignment := pyeq_of_dec.
#[export] Instance pyeq_assignment_laws : PyEqLaws StageAssignment := pyeq_of_dec_laws.

Definition StageAssignment_fields (s : StageAssignment) : bool :=
  NonNegativeInt (sa_stage_index s) && NonNegativeInt (sa_layer_start s)
  && PositiveInt (sa_layer_end s).

Definition StageAssignment_dump (s : StageAssignment) : json :=
  JObj [("stage_index", JInt (sa_stage_index s));
        ("worker_id", JStr (sa_worker_id s));
        ("layer_start", JInt (sa_layer_start s));
        ("layer_end", JInt (sa_layer_end s));
        ("owns_token_embedding", JBool (sa_owns_token_embedding s));
        ("owns_final_norm", JBool (sa_owns_final_norm s));
        ("owns_lm_head", JBool (sa_owns_lm_head s));
        ("owns_sampling", JBool (sa_owns_sampling s))].

Record DeploymentPlan := {
  dp_schema_version : string;
  dp_planner_version : string;
  dp_plan_id : string;
  dp_deployment_version : Z;
  dp_plan_digest : string;
  dp_manifest_digest : string;
  dp_workload_id : string;
  dp_planning_mode : PlanningMode;
  dp_execution_dtype : DType;
  dp_weight_dtype : option DType;
  dp_activation_dtype : DType;
  dp_split_layer : Z;
  dp_workload_digest : option string;
  dp_profile_bundle_digest : option string;
  dp_stages : list StageAssignment;
  dp_duplicated_tensor_groups : list string;
  dp_selected_candidate_id : string
}.

Definition is_hex (c : Ascii.ascii) : bool :=
  let n := Ascii.N_of_ascii c in
  is_digit c || ((97 <=? n) && (n <=? 102))%N.

(** [re.fullmatch(r"[0-9a-f]{64}", value)]; also the [Digest] field pattern. *)
Definition is_digest (s : string) : bool := (String.length s =? 64)%nat && str_forall is_hex s.

Definition DeploymentPlan_fields (p : DeploymentPlan) : bool :=
  PositiveInt (dp_deployment_version p) && NonNegativeInt (dp_split_layer p)
  && forallb StageAssignment_fields (dp_stages p)
  && (1 <=? length (dp_stages p))%nat && (length (dp_stages p) <=? 2)%nat.

(** The loop of [validate_partition] over the stages. *)
Fixpoint partition_stages (count : nat) (index : Z) (end_ : Z) (workers : list string)
    (stages : list StageAssignment) : bool :=
  match stages with
  | [] => true
  | stage :: rest =>
    let last := index == (Z.of_nat count - 1)%Z in
    if (sa_stage_index stage != index)
       || (sa_layer_start stage != end_)
       || (sa_layer_end stage <=? end_)%Z
       || py_in (sa_worker_id stage) workers
       || (sa_owns_token_embedding stage != (index == 0%Z))
       || (sa_owns_final_norm stage != last)
       || (sa_owns_lm_head stage != last)
       || (sa_owns_sampling stage != last)
    then false
    else partition_stages count (index + 1) (sa_layer_end stage) (sa_worker_id stage :: workers) rest
  end.

Definition validate_partition (p : DeploymentPlan) : result unit :=
  let mixed := match dp_weight_dtype p with Some _ => true | None => false end in
  raise_if (mixed && ((dp_weight_dtype p != Some F16) || (dp_execution_dtype p != F32)
                      || (dp_schema_version p != "1.2"))) ValidationError
    "mixed precision requires schema 1.2, F16 weights and F32 execution/KV" ;;
  raise_if (negb mixed && (dp_schema_version p == "1.2")) ValidationError
    "schema 1.2 requires explicit weight precision" ;;
  (if dp_planning_mode p == MEASURED then
     raise_if ((dp_schema_version p != (if mixed then "1.2" else "1.1"))
               || negb (is_digest (empty_if_none (dp_workload_digest p))
                        && is_digest (empty_if_none (dp_profile_bundle_digest p))))
       ValidationError "measured plans require schema 1.1 and workload/bundle digests"
   else
     raise_if ((dp_workload_digest p != None) || (dp_profile_bundle_digest p != None))
       ValidationError "legacy plans cannot carry measured identities") ;;
  raise_if (negb (partition_stages (length (dp_stages p)) 0 0 [] (dp_stages p))) ValidationError
    "invalid contiguous stage partition or ownership" ;;
  let expected_split :=
    match dp_stages p with [s0; _] => sa_layer_end s0 | _ => 0%Z end in
  raise_if (dp_split_layer p != expected_split) ValidationError
    "split_layer does not match stage partition".

Definition validate_DeploymentPlan (p : DeploymentPlan) : result DeploymentPlan :=
  fields_ok (DeploymentPlan_fields p) ;;
  validate_partition p ;;
  Ok p.

(** [plan.model_dump(mode="json", exclude={"plan_id", "plan_digest"})] *)
Definition DeploymentPlan_unsigned (p : DeploymentPlan) : json :=
  JObj ([("schema_version", JStr (dp_schema_version p));
         ("planner_version", JStr (dp_planner_version p));
         ("deployment_version", JInt (dp_deployment_version p));
         ("manifest_digest", JStr (dp_manifest_digest p));
         ("workload_id", JStr (dp_workload_id p));
         ("planning_mode", JStr (mode_value (dp_planning_mode p)));
         ("execution_dtype", JStr (dtype_value (dp_execution_dtype p)))]
        ++ json_field (dp_weight_dtype p == None) "weight_dtype"
             (json_opt (fun d => JStr (dtype_value d)) (dp_weight_dtype p))
        ++ [("activation_dtype", JStr (dtype_value (dp_activation_dtype p)));
            ("split_layer", JInt (dp_split_layer p));
            ("workload_digest", json_opt JStr (dp_workload_digest p));
            ("profile_bundle_digest", json_opt JStr (dp_profile_bundle_digest p));
            ("stages", JArr (StageAssignment_dump <$> dp_stages p));
            ("duplicated_tensor_groups", JArr (JStr <$> dp_duplicated_tensor_groups p));
            ("selected_candidate_id", JStr (dp_selected_candidate_id p))]).

Record PlanningReport := {
  pr_settings : option PlannerSettings;
  pr_schema_version : string;
  pr_planner_version : string;
  pr_manifest_digest : string;
  pr_workload_id : string;
  pr_mode : PlanningMode;
  pr_selected_candidate_id : option string;
  pr_candidates : list PlanCandidate;
  pr_plan : option DeploymentPlan;
  pr_notes : list string
}.

(** What a digest function promises: 64 lower-case hexadecimal digits. *)
Class HashLaws `{Hash} := sha256_hex_digest (s : string) : is_digest (sha256_hex s) = true.

(** ** Lemmas *)

Lemma fields_ok_true b u : fields_ok b = Ok u -> b = true.
Proof. unfold fields_ok. intros. inv_ok. by bool_to_prop. Qed.

Ltac inv_fields :=
  repeat match goal with
  | H : fields_ok _ = Ok _ |- _ => apply fields_ok_true in H
  end.

Lemma usable_bytes_nonneg b u :
  MemoryBudget_fields b = true -> usable_bytes b = Ok u -> (0 <= u <= mb_capacity_bytes b)%Z.
Proof.
  unfold MemoryBudget_fields, usable_bytes, PositiveInt, NonNegativeInt, Fraction.
  intros Hf E. bool_to_prop. inv_ok.
  assert (fnonneg v = true).
  { eapply (int_mul_nonneg (mb_capacity_bytes b) (mb_safety_fraction b)); [lia| |done].
    by apply fge0_nonneg. }
  assert (0 <= v0)%Z by eauto with hllm. lia.
Qed.

Lemma DTYPE_BYTES_pos d : (1 <= DTYPE_BYTES d <= 8)%Z.
Proof. by destruct d. Qed.

Lemma foldl_mul_nonneg l a : (0 <= a)%Z -> Forall (fun x => 0 <= x)%Z l -> (0 <= foldl Z.mul a l)%Z.
Proof. intros Ha Hl. revert a Ha. induction Hl; intros a Ha; simpl; [done|]. apply IHHl. lia. Qed.

Lemma num_elements_nonneg t : TensorRecord_fields t = true -> (0 <= num_elements t)%Z.
Proof.
  unfold TensorRecord_fields, num_elements. intros. bool_to_prop.
  apply foldl_mul_nonneg; [lia|]. eapply Forall_impl; [done|]. unfold NonNegativeInt. simpl. lia.
Qed.

(** A valid plan is a partition: its stages are contiguous from layer 0, so every
    layer below the last end belongs to exactly one of them. *)
Lemma partition_stages_cover count index end_ workers stages :
  partition_stages count index end_ workers stages = true ->
  forall i, (end_ <= i < default end_ (sa_layer_end <$> last stages))%Z ->
  exists s, s ∈ stages /\ (sa_layer_start s <= i < sa_layer_end s)%Z.
Proof.
  revert index end_ workers. induction stages as [|s rest IH]; intros index end_ workers; simpl; [lia|].
  destruct (_ || _) eqn:E; [done|]. intros Hrest i Hi. bool_to_prop.
  destruct (decide (i < sa_layer_end s)%Z); [exists s; split; [set_solver|lia]|].
  destruct (IH _ _ _ Hrest i) as (s' & ? & ?); [|exists s'; split; [set_solver|done]].
  split; [lia|]. destruct rest; simpl in *; [lia|]. destruct (last _); simpl in *; lia.
Qed.

Lemma partition_stages_after count index end_ workers stages s :
  partition_stages count index end_ workers stages = true -> s ∈ stages ->
  (end_ <= sa_layer_start s /\ sa_layer_start s < sa_layer_end s)%Z.
Proof.
  revert index end_ workers. induction stages as [|s' rest IH]; intros index end_ workers; simpl; [set_solver|].
  destruct (_ || _) eqn:E; [done|]. intros Hrest [->|Hs]%elem_of_cons; bool_to_prop; [lia|].
  destruct (IH _ _ _ Hrest Hs). lia.
Qed.

Lemma partition_stages_disjoint count index end_ workers stages s s' i :
  partition_stages count index end_ workers stages = true -> s ∈ stages -> s' ∈ stages ->
  (sa_layer_start s <= i < sa_layer_end s)%Z -> (sa_layer_start s' <= i < sa_layer_end s')%Z -> s = s'.
Proof.
  revert index end_ workers. induction stages as [|t rest IH]; intros index end_ workers; simpl; [set_solver|].
  destruct (_ || _) eqn:E; [done|]. intros Hrest Hs Hs' Hi Hi'.
  apply elem_of_cons in Hs as [->|Hs], Hs' as [Hs'|Hs']; subst; [done| | |by eapply IH].
  - destruct (partition_stages_after _ _ _ _ _ _ Hrest Hs'). lia.
  - destruct (partition_stages_after _ _ _ _ _ _ Hrest Hs). lia.
Qed.

(** What the plan validator asks for, as one proposition. *)
Definition precision_agrees (p : DeploymentPlan) : Prop :=
  match dp_weight_dtype p with
  | None => dp_schema_version p <> "1.2"
  | Some d => d = F16 /\ dp_execution_dtype p = F32 /\ dp_schema_version p = "1.2"
  end.

Definition identities_agree (p : DeploymentPlan) : Prop :=
  match dp_planning_mode p with
  | MEASURED =>
    (dp_schema_version p = "1.1" \/ dp_schema_version p = "1.2" /\ is_Some (dp_weight_dtype p)) /\
    exists d1 d2, dp_workload_digest p = Some d1 /\ dp_profile_bundle_digest p = Some d2 /\
      is_digest d1 = true /\ is_digest d2 = true
  | _ => dp_workload_digest p = None /\ dp_profile_bundle_digest p = None
  end.

Lemma validate_plan_intro p s0 s1 :
  DeploymentPlan_fields p = true -> precision_agrees p -> identities_agree p ->
  dp_stages p = [s0; s1] -> partition_stages 2 0 0 [] [s0; s1] = true ->
  dp_split_layer p = sa_layer_end s0 ->
  validate_DeploymentPlan p = Ok p.
Proof.
  intros Hf Hp Hi Hst Hpart Hsplit. unfold validate_DeploymentPlan, validate_partition, fields_ok.
  rewrite Hf, Hst, Hsplit, pyeqb_refl. cbn [length]. rewrite Hpart. cbn [negb].
  unfold precision_agrees, identities_agree in *.
  destruct (dp_weight_dtype p) as [w|]; [destruct Hp as (-> & -> & Hs)|];
    destruct (dp_planning_mode p).
  all: try (destruct Hi as [-> ->]).
  all: try (destruct Hi as (Hsch & d1 & d2 & -> & -> & H1 & H2); simpl; rewrite H1, H2).
  all: try (rewrite Hs; reflexivity).
  all: try (assert (dp_schema_version p == "1.2" = false) as -> by by apply pyeqb_false).
  all: try reflexivity.
  destruct Hsch as [->|[_ [? ?]]]; [reflexivity|done].
Qed.
