(* ===== verification/Planner.v ===== *)
(** * Two-worker placement (src/python/hllm_control/planner/planner.py)

    Enumeration of both worker orders and every contiguous split, memory
    feasibility, scoring, ranking and the selected deployment plan.  Measured
    evidence is reached through the [MeasuredEvidence] interface, which
    [Measured.v] implements; content digests through [Hash]. *)

From Stdlib Require Import Ascii SpecFloat.
From S2P Require Export Models.

Definition f1 : float := literal 1 1.

Definition opt_truthy {A} (o : option A) : bool := match o with Some _ => true | None => false end.

(** ** Memory of one stage *)

Definition _resident_bytes (tensor : TensorRecord) (execution_dtype : DType) : Z :=
  num_elements tensor * DTYPE_BYTES execution_dtype.

(** Whether a stage [start, end) holds [tensor] resident. *)
Definition stage_includes (tied : bool) (start end_ : Z) (is_first is_final : bool)
    (tensor : TensorRecord) : bool :=
  match tr_role tensor with
  | TRANSFORMER_LAYER =>
    match tr_layer_index tensor with
    | Some i => (start <=? i)%Z && (i <? end_)%Z
    | None => false
    end
  | TOKEN_EMBEDDING => is_first || (is_final && tied)
  | FINAL_NORM => is_final
  | LM_HEAD => is_final && negb tied
  | ARCHITECTURE_STATE => true
  end.

Definition _stage_weight_bytes (manifest : ModelManifest) (start end_ : Z)
    (is_first is_final : bool) (execution_dtype : DType) : Z :=
  let tied := mc_tied_embeddings (mm_config manifest) in
  py_sum ((fun t => if stage_includes tied start end_ is_first is_final t
                    then _resident_bytes t execution_dtype else 0%Z) <$> mm_tensors manifest).

Definition _stage_memory (manifest : ModelManifest) (worker : WorkerProfile)
    (workload : WorkloadProfile) (settings : PlannerSettings)
    (start end_ : Z) (is_first is_final : bool) : result StageMemory :=
  budget ← match budget_for worker (wp_primary_memory_domain worker) with
           | Some b => Ok b
           | None => raise PlanningError
               (String.append "worker " (String.append (wp_worker_id worker)
                  " has no primary memory budget"))
           end;
  let config := mm_config manifest in
  let weight_bytes := _stage_weight_bytes manifest start end_ is_first is_final
                        (default (ps_execution_dtype settings) (ps_weight_dtype settings)) in
  let layer_count := (end_ - start)%Z in
  let kv_per_layer_token :=
    (2 * mc_num_kv_heads config * mc_head_dim config * DTYPE_BYTES (wl_kv_dtype workload))%Z in
  kv ← int_mul (layer_count * wl_total_cached_tokens workload * kv_per_layer_token)
         (wl_kv_overhead_factor workload);
  kv_cache_bytes ← py_ceil kv;
  let activation_payload :=
    (wl_concurrency workload * wl_prompt_tokens workload * mc_hidden_size config
     * DTYPE_BYTES (wl_activation_dtype workload))%Z in
  let activation_buffer_bytes := (activation_payload * wp_activation_buffer_count worker)%Z in
  let workspace_bytes :=
    (wp_fixed_workspace_bytes worker
     + if py_in (wp_primary_memory_domain worker) [HOST; UNIFIED]
       then wp_host_transport_buffer_bytes worker else 0)%Z in
  let subtotal := (weight_bytes + kv_cache_bytes + workspace_bytes + activation_buffer_bytes)%Z in
  allowance ← int_mul subtotal (wp_allocator_allowance_fraction worker);
  allocator_allowance_bytes ← py_ceil allowance;
  let required_bytes := (subtotal + allocator_allowance_bytes)%Z in
  usable ← usable_bytes budget;
  pressure ← (if usable == 0%Z then Ok finf else py_truediv required_bytes usable);
  let stage := {|
    sm_worker_id := wp_worker_id worker; sm_domain := wp_primary_memory_domain worker;
    sm_layer_start := start; sm_layer_end := end_;
    sm_weight_bytes := weight_bytes; sm_kv_cache_bytes := kv_cache_bytes;
    sm_workspace_bytes := workspace_bytes;
    sm_activation_buffer_bytes := activation_buffer_bytes;
    sm_allocator_allowance_bytes := allocator_allowance_bytes;
    sm_required_bytes := required_bytes; sm_usable_bytes := usable;
    sm_pressure := pressure |} in
  fields_ok (StageMemory_fields stage) ;;
  Ok stage.

(** ** Boundary cost and score *)

Definition _find_link (links : list LinkProfile) (source target : string) : option LinkProfile :=
  List.find (fun link => (lp_source_worker_id link == source)
                         && (lp_target_worker_id link == target)) links.

Definition f1000 : float := literal 1000 1.

Definition _boundary_estimate (manifest : ModelManifest) (workload : WorkloadProfile)
    (link : LinkProfile) : result PerformanceEstimate :=
  let hidden := mc_hidden_size (mm_config manifest) in
  let bytes_per_value := DTYPE_BYTES (wl_activation_dtype workload) in
  let prefill_bytes :=
    (wl_concurrency workload * wl_prompt_tokens workload * hidden * bytes_per_value)%Z in
  let decode_bytes := (wl_concurrency workload * hidden * bytes_per_value)%Z in
  let conversion := (lp_sender_conversion_ms link + lp_receiver_conversion_ms link)%float in
  chunks ← py_truediv (wl_prompt_tokens workload) (boundary_message_tokens workload);
  messages ← py_ceil chunks;
  let extra_messages := (messages - 1)%Z in
  pb ← float_of_int prefill_bytes;
  pt ← py_fdiv pb (lp_bandwidth_bytes_per_second link);
  extra ← int_mul extra_messages (lp_fixed_latency_ms link + conversion)%float;
  let prefill_ms := (lp_fixed_latency_ms link + pt * f1000 + conversion + extra)%float in
  db ← float_of_int decode_bytes;
  dt ← py_fdiv db (lp_bandwidth_bytes_per_second link);
  let decode_ms := (lp_fixed_latency_ms link + dt * f1000 + conversion)%float in
  let estimate := {|
    pe_boundary_prefill_ms := prefill_ms; pe_boundary_decode_ms := decode_ms;
    pe_confidence := if lp_provenance link == PROV_MEASURED
                     then "measured-link" else "configured-link";
    pe_ttft_ms := None; pe_decode_ms := []; pe_generation_ms := None;
    pe_components_ms := []; pe_profile_digests := [];
    pe_host_envelope_bytes := []; pe_device_envelope_bytes := [] |} in
  fields_ok (PerformanceEstimate_fields estimate) ;;
  Ok estimate.

Definition _relay_penalty (c : ConnectionType) : float :=
  match c with
  | DIRECT => f0
  | PEER_RELAYED => literal 100 1
  | DERP_RELAYED => literal 1000 1
  | UNKNOWN => literal 10 1
  end.

Definition _candidate_score (stages : StageMemory * StageMemory)
    (performance : option PerformanceEstimate) (settings : PlannerSettings)
    (link : option LinkProfile) : result float :=
  let p0 := sm_pressure (fst stages) in
  let p1 := sm_pressure (snd stages) in
  let maximum_pressure := fmax p0 p1 in
  let imbalance := fabs (p0 - p1)%float in
  if ps_mode settings == FEASIBILITY then
    Ok (maximum_pressure + imbalance * literal 1 100)%float
  else
    match performance with
    | None => raise PlanningError "estimated planning requires a directional link profile"
    | Some perf =>
      let weights := ps_objective_weights settings in
      if ps_mode settings == MEASURED then
        match pe_ttft_ms perf with
        | None => raise AssertionError ""
        | Some ttft =>
          average_itl ← match pe_decode_ms perf with
                        | [] => Ok f0
                        | l => n ← float_of_int (Z.of_nat (length l)); py_fdiv (py_fsum l) n
                        end;
          square ← py_square maximum_pressure;
          Ok (ow_ttft weights * ttft
              + (ow_itl weights + ow_pipeline_period weights) * average_itl
              + ow_memory_pressure weights * square)%float
        end
      else
        let boundary_score :=
          (ow_ttft weights * pe_boundary_prefill_ms perf
           + ow_itl weights * pe_boundary_decode_ms perf
           + ow_pipeline_period weights * pe_boundary_decode_ms perf)%float in
        let relay := match link with Some l => _relay_penalty (lp_connection_type l) | None => f0 end in
        square ← py_square maximum_pressure;
        Ok (boundary_score + ow_memory_pressure weights * square + relay)%float
    end.

(** ** Input checks *)

Definition check_worker (manifest : ModelManifest) (settings : PlannerSettings)
    (worker : WorkerProfile) : result unit :=
  let name := String.append "worker " (wp_worker_id worker) in
  let architecture := ad_architecture_id (mm_architecture manifest) in
  raise_if (negb (py_in architecture (wp_supported_architectures worker))) PlanningError
    (String.append name (String.append " does not support " architecture)) ;;
  raise_if (opt_truthy (ps_weight_dtype settings) && negb (wp_supports_mixed_precision worker))
    PlanningError (String.append name " does not support mixed precision") ;;
  raise_if (negb (py_in (ps_execution_dtype settings) (wp_supported_execution_dtypes worker)))
    PlanningError
    (String.append name (String.append " does not support "
                           (dtype_value (ps_execution_dtype settings)))).

Definition _validate_workers (manifest : ModelManifest) (workers : list WorkerProfile)
    (settings : PlannerSettings) : result (WorkerProfile * WorkerProfile) :=
  match workers with
  | [a; b] =>
    raise_if (wp_worker_id a == wp_worker_id b) PlanningError "worker IDs must be unique" ;;
    check_worker manifest settings a ;;
    check_worker manifest settings b ;;
    Ok (a, b)
  | _ => raise PlanningError "Milestone 0 supports exactly two workers"
  end.

(** ** Stage ownership *)

Definition assignments_for (first final : string) (split layers : Z)
    : StageAssignment * StageAssignment :=
  ({| sa_stage_index := 0; sa_worker_id := first; sa_layer_start := 0; sa_layer_end := split;
      sa_owns_token_embedding := true; sa_owns_final_norm := false;
      sa_owns_lm_head := false; sa_owns_sampling := false |},
   {| sa_stage_index := 1; sa_worker_id := final; sa_layer_start := split; sa_layer_end := layers;
      sa_owns_token_embedding := false; sa_owns_final_norm := true;
      sa_owns_lm_head := true; sa_owns_sampling := true |}).

(** ** Measured evidence, as the planner sees it *)

Class MeasuredEvidence (B : Type) := {
  bundle_workers : B -> list WorkerProfile;
  bundle_digest : B -> string;
  bundle_evaluate : B -> ModelManifest -> WorkloadProfile ->
    StageAssignment * StageAssignment -> option DType ->
    result (string * list string * option PerformanceEstimate)
}.

(** What an evaluator promises: "measured" is exactly "no reason against it",
    and comes with a complete estimate. *)
Class MeasuredEvidenceLaws (B : Type) `{MeasuredEvidence B} :=
  evaluate_contract (b : B) manifest workload assignments weight status reasons performance :
    bundle_evaluate b manifest workload assignments weight = Ok (status, reasons, performance) ->
    (status = "measured" <-> reasons = []) /\
    (status = "measured" -> exists p t, performance = Some p /\ pe_ttft_ms p = Some t) /\
    (status <> "measured" -> performance = None).

Section planner.
Context `{Hash} {B : Type} `{MeasuredEvidence B}.

Definition worker_dict (workers : list WorkerProfile) : list (string * WorkerProfile) :=
  foldl (fun d w => assoc_set (wp_worker_id w) w d) [] workers.

(** [d1 == d2] on dictionaries *)
Definition worker_dict_eqb (d1 d2 : list (string * WorkerProfile)) : bool :=
  (length d1 =? length d2)%nat
  && forallb (fun '(k, v) => assoc_get k d2 == Some v) d1.

Definition check_mode_inputs (workers : list WorkerProfile) (workload : WorkloadProfile)
    (settings : PlannerSettings) (profile_bundle : option B) : result unit :=
  raise_if (opt_truthy (ps_weight_dtype settings)
            && (wl_kv_dtype workload != ps_execution_dtype settings)) PlanningError
    "mixed execution and KV dtypes must agree" ;;
  if ps_mode settings == MEASURED then
    match profile_bundle with
    | None => raise PlanningError "measured planning requires a profile bundle"
    | Some bundle =>
      raise_if (negb (worker_dict_eqb (worker_dict workers) (worker_dict (bundle_workers bundle))))
        PlanningError "worker configuration differs from frozen bundle" ;;
      raise_if (ps_execution_dtype settings != wl_kv_dtype workload) PlanningError
        "measured execution and KV dtypes must agree" ;;
      raise_if (wl_prefill_chunk_tokens workload != 0%Z) PlanningError
        "measured placement does not yet combine chunked prefill profiles; plan a chunked workload in estimated or feasibility mode"
    end
  else raise_if (opt_truthy profile_bundle) PlanningError "profile bundle requires measured mode".

(** ** One candidate *)

Definition transport_reason (worker : WorkerProfile) (stage : StageMemory)
    (budget : option MemoryBudget) : result (list string) :=
  match budget with
  | None => Ok []
  | Some b =>
    usable ← usable_bytes b;
    Ok (if (usable <? wp_host_transport_buffer_bytes worker)%Z
        then [String.append (domain_value (mb_domain b))
                (String.append "_MEMORY_EXCEEDED:" (sm_worker_id stage))]
        else [])
  end.

Definition stage_reasons (stage : StageMemory) (worker : WorkerProfile) : result (list string) :=
  let memory :=
    if (sm_usable_bytes stage <? sm_required_bytes stage)%Z
    then [String.append (domain_value (sm_domain stage))
            (String.append "_MEMORY_EXCEEDED:" (sm_worker_id stage))]
    else [] in
  let pinned_budget := budget_for worker HOST_PINNED in
  let host_budget := budget_for worker HOST in
  let missing :=
    if opt_truthy pinned_budget && negb (opt_truthy host_budget)
    then [String.append "MISSING_HOST_MEMORY_BUDGET:" (sm_worker_id stage)] else [] in
  host ← transport_reason worker stage host_budget;
  pinned ← transport_reason worker stage pinned_budget;
  Ok (memory ++ missing ++ host ++ pinned).

Definition candidate_id_of (first final : string) (split : Z) : string :=
  String.append first (String.append "--" (String.append final (String.append "-m" (pad3 split)))).

Definition candidate (manifest : ModelManifest) (workload : WorkloadProfile)
    (settings : PlannerSettings) (profile_bundle : option B) (first final : WorkerProfile)
    (link : option LinkProfile) (split : Z) : result PlanCandidate :=
  let layers := mc_num_layers (mm_config manifest) in
  let boundary_limit :=
    maximum_boundary_tokens (mc_hidden_size (mm_config manifest)) (wl_activation_dtype workload) in
  stage0 ← _stage_memory manifest first workload settings 0 split true false;
  stage1 ← _stage_memory manifest final workload settings split layers false true;
  reasons0 ← stage_reasons stage0 first;
  reasons1 ← stage_reasons stage1 final;
  let boundary :=
    if (boundary_limit <? boundary_message_tokens workload)%Z
    then [String.append "BOUNDARY_PAYLOAD_EXCEEDED:"
            (String.append (pretty (boundary_message_tokens workload))
               (String.append ">" (pretty boundary_limit)))]
    else [] in
  let missing_link :=
    if (ps_mode settings == ESTIMATED) && negb (opt_truthy link)
    then [String.append "MISSING_LINK_PROFILE:"
            (String.append (wp_worker_id first) (String.append "->" (wp_worker_id final)))]
    else [] in
  let reasons := reasons0 ++ reasons1 ++ boundary ++ missing_link in
  performance ← match link with
                | Some l => p ← _boundary_estimate manifest workload l; Ok (Some p)
                | None => Ok None
                end;
  '(measurement_status, all_reasons, performance) ←
    (if ps_mode settings == MEASURED then
       match profile_bundle with
       | None => raise AssertionError ""
       | Some bundle =>
         '(status, measured_reasons, measured) ←
           bundle_evaluate bundle manifest workload
             (assignments_for (wp_worker_id first) (wp_worker_id final) split layers)
             (ps_weight_dtype settings);
         Ok (Some (match reasons with [] => status | _ => "infeasible" end),
             reasons ++ measured_reasons, measured)
       end
     else Ok (None, reasons, performance));
  let feasible := match all_reasons with [] => true | _ => false end in
  score ← (if feasible
           then s ← _candidate_score (stage0, stage1) performance settings link; Ok (Some s)
           else Ok None);
  fields_ok (PositiveInt split) ;;
  Ok {| pc_candidate_id := candidate_id_of (wp_worker_id first) (wp_worker_id final) split;
        pc_stage_zero_worker_id := wp_worker_id first;
        pc_final_stage_worker_id := wp_worker_id final;
        pc_split_layer := split; pc_stages := (stage0, stage1); pc_feasible := feasible;
        pc_measurement_status := measurement_status; pc_rejection_reasons := all_reasons;
        pc_performance := performance; pc_score := score; pc_rank := None |}.

(** Both orders, every split: the loop that fills [raw_candidates]. *)
Definition raw_candidates (manifest : ModelManifest) (links : list LinkProfile)
    (workload : WorkloadProfile) (settings : PlannerSettings) (profile_bundle : option B)
    (workers : WorkerProfile * WorkerProfile) : result (list PlanCandidate) :=
  let '(a, b) := workers in
  let order first final :=
    let link := _find_link links (wp_worker_id first) (wp_worker_id final) in
    mapM (candidate manifest workload settings profile_bundle first final link)
      (py_range 1 (mc_num_layers (mm_config manifest))) in
  forward ← order a b;
  backward ← order b a;
  Ok (forward ++ backward).

(** ** Ranking *)

Definition score_key (c : PlanCandidate) : float * string :=
  (default finf (pc_score c), pc_candidate_id c).

(** [<] on the key tuples [(score, candidate_id)] *)
Definition key_before (k1 k2 : float * string) : bool :=
  if fst k1 == fst k2 then str_lt (snd k1) (snd k2) else flt (fst k1) (fst k2).

Definition candidate_lt (c1 c2 : PlanCandidate) : bool := key_before (score_key c1) (score_key c2).

Definition feasible_sorted (raw : list PlanCandidate) : list PlanCandidate :=
  py_sorted candidate_lt (List.filter pc_feasible raw).

Definition rank_dict (feasible : list PlanCandidate) : list (string * Z) :=
  foldl (fun d '(rank, c) => assoc_set (pc_candidate_id c) rank d) []
    (py_enumerate_from 1 feasible).

Definition ranked (raw : list PlanCandidate) : list PlanCandidate :=
  let ranks := rank_dict (feasible_sorted raw) in
  (fun c => with_rank (assoc_get (pc_candidate_id c) ranks) c) <$> raw.

(** ** The selected plan *)

Definition planner_version (settings : PlannerSettings) : string :=
  if ps_mode settings == MEASURED then "0.2.0" else PLANNER_VERSION.

Definition dict_update (d new : list (string * json)) : list (string * json) :=
  foldl (fun d '(k, v) => assoc_set k v d) d new.

(** [plan_digest]: the dictionary that is hashed, before the plan exists. *)
Definition unsigned_plan (manifest : ModelManifest) (workload : WorkloadProfile)
    (settings : PlannerSettings) (profile_bundle : option B) (selected : PlanCandidate)
    (stages : list StageAssignment) : json :=
  let base := [
    ("planner_version", JStr (planner_version settings));
    ("deployment_version", JInt 1);
    ("manifest_digest", JStr (mm_manifest_digest manifest));
    ("workload_id", JStr (wl_workload_id workload));
    ("planning_mode", JStr (mode_value (ps_mode settings)));
    ("execution_dtype", JStr (dtype_value (ps_execution_dtype settings)));
    ("activation_dtype", JStr (dtype_value (wl_activation_dtype workload)));
    ("split_layer", JInt (pc_split_layer selected));
    ("stages", JArr (StageAssignment_dump <$> stages));
    ("duplicated_tensor_groups",
      JArr (if mc_tied_embeddings (mm_config manifest) then [JStr "token_embeddings"] else []));
    ("selected_candidate_id", JStr (pc_candidate_id selected))] in
  let measured_fields :=
    match ps_mode settings, profile_bundle with
    | MEASURED, Some bundle =>
      [("schema_version", JStr "1.1");
       ("workload_digest", JStr (digest (WorkloadProfile_dump workload)));
       ("profile_bundle_digest", JStr (bundle_digest bundle))]
    | _, _ => []
    end in
  let unsigned := dict_update base measured_fields in
  JObj match ps_weight_dtype settings with
       | None => unsigned
       | Some weight =>
         dict_update unsigned
           [("schema_version", JStr "1.2"); ("weight_dtype", JStr (dtype_value weight));
            ("workload_digest", default JNull (assoc_get "workload_digest" measured_fields));
            ("profile_bundle_digest",
              default JNull (assoc_get "profile_bundle_digest" measured_fields))]
       end.

Definition deployment_plan (manifest : ModelManifest) (workload : WorkloadProfile)
    (settings : PlannerSettings) (profile_bundle : option B) (selected : PlanCandidate)
    : result DeploymentPlan :=
  let '(s0, s1) := assignments_for (pc_stage_zero_worker_id selected)
                     (pc_final_stage_worker_id selected) (pc_split_layer selected)
                     (mc_num_layers (mm_config manifest)) in
  let stages := [s0; s1] in
  let plan_digest := digest (unsigned_plan manifest workload settings profile_bundle selected stages) in
  let bundle := match ps_mode settings with MEASURED => profile_bundle | _ => None end in
  fields_ok (forallb StageAssignment_fields stages) ;;
  validate_DeploymentPlan {|
    dp_schema_version := match ps_weight_dtype settings, ps_mode settings with
                         | Some _, _ => "1.2" | None, MEASURED => "1.1"
                         | None, _ => PLAN_SCHEMA_VERSION end;
    dp_planner_version := planner_version settings;
    dp_plan_id := String.append "plan-" (str_take 16 plan_digest);
    dp_deployment_version := 1;
    dp_plan_digest := plan_digest;
    dp_manifest_digest := mm_manifest_digest manifest;
    dp_workload_id := wl_workload_id workload;
    dp_planning_mode := ps_mode settings;
    dp_execution_dtype := ps_execution_dtype settings;
    dp_weight_dtype := ps_weight_dtype settings;
    dp_activation_dtype := wl_activation_dtype workload;
    dp_split_layer := pc_split_layer selected;
    dp_workload_digest := (fun _ => digest (WorkloadProfile_dump workload)) <$> bundle;
    dp_profile_bundle_digest := bundle_digest <$> bundle;
    dp_stages := stages;
    dp_duplicated_tensor_groups :=
      if mc_tied_embeddings (mm_config manifest) then ["token_embeddings"] else [];
    dp_selected_candidate_id := pc_candidate_id selected |}.

Definition chunk_notes (workload : WorkloadProfile) : list string :=
  if wl_prefill_chunk_tokens workload == 0%Z then []
  else [String.append "Prefill is chunked at "
          (String.append (pretty (wl_prefill_chunk_tokens workload))
             " tokens per boundary message; serve this plan with the same --prefill-chunk-tokens. Memory estimates still size activation buffers for the whole prompt.")].

Definition mode_note (mode : PlanningMode) : string :=
  match mode with
  | MEASURED => "Measured mode uses exact assignments, whole-stage timings including conversion, per-context decode, allocation, request setup and directional encode plus RTT. Unknown candidates are unranked. Equal scores use candidate ID."
  | FEASIBILITY => "Feasibility mode ranks maximum memory pressure before imbalance."
  | ESTIMATED => "Estimated mode currently scores boundary transfer and memory pressure; compute profiles arrive in Milestone 5."
  end.

Definition report_of (manifest : ModelManifest) (workload : WorkloadProfile)
    (settings : PlannerSettings) (selected_id : option string) (candidates : list PlanCandidate)
    (plan : option DeploymentPlan) (notes : list string) : PlanningReport := {|
  pr_settings := if ps_mode settings == MEASURED then Some settings else None;
  pr_schema_version := PLAN_SCHEMA_VERSION;
  pr_planner_version := planner_version settings;
  pr_manifest_digest := mm_manifest_digest manifest;
  pr_workload_id := wl_workload_id workload;
  pr_mode := ps_mode settings;
  pr_selected_candidate_id := selected_id;
  pr_candidates := candidates;
  pr_plan := plan;
  pr_notes := notes |}.

Definition create_plan (manifest : ModelManifest) (workers : list WorkerProfile)
    (links : list LinkProfile) (workload : WorkloadProfile) (settings : option PlannerSettings)
    (profile_bundle : option B) : result PlanningReport :=
  let settings := default default_settings settings in
  pair ← _validate_workers manifest workers settings;
  check_mode_inputs workers workload settings profile_bundle ;;
  raw ← raw_candidates manifest links workload settings profile_bundle pair;
  let feasible_candidates := feasible_sorted raw in
  let candidates := ranked raw in
  match feasible_candidates with
  | [] =>
    Ok (report_of manifest workload settings None candidates None
          ("No fully qualified feasible two-worker placement was found." :: chunk_notes workload))
  | best :: _ =>
    let selected_id := pc_candidate_id best in
    match List.find (fun item => pc_candidate_id item == selected_id) candidates with
    | None => raise StopIteration ""
    | Some selected =>
      plan ← deployment_plan manifest workload settings profile_bundle selected;
      Ok (report_of manifest workload settings (Some (pc_candidate_id selected)) candidates
            (Some plan) (mode_note (ps_mode settings) :: chunk_notes workload))
    end
  end.

(** ** Lemmas on one candidate *)

Definition boundary_fits (manifest : ModelManifest) (workload : WorkloadProfile) : Prop :=
  (boundary_message_tokens workload
   <= maximum_boundary_tokens (mc_hidden_size (mm_config manifest)) (wl_activation_dtype workload))%Z.

Lemma candidate_spec manifest workload settings pb first final link split c :
  candidate manifest workload settings pb first final link split = Ok c ->
  exists st0 st1 r0 r1,
    _stage_memory manifest first workload settings 0 split true false = Ok st0 /\
    _stage_memory manifest final workload settings split (mc_num_layers (mm_config manifest))
      false true = Ok st1 /\
    stage_reasons st0 first = Ok r0 /\ stage_reasons st1 final = Ok r1 /\
    pc_stages c = (st0, st1) /\
    pc_candidate_id c = candidate_id_of (wp_worker_id first) (wp_worker_id final) split /\
    pc_stage_zero_worker_id c = wp_worker_id first /\
    pc_final_stage_worker_id c = wp_worker_id final /\
    pc_split_layer c = split /\ pc_rank c = None /\
    (pc_feasible c = true <-> pc_rejection_reasons c = []) /\
    (pc_feasible c = true -> r0 = [] /\ r1 = [] /\ boundary_fits manifest workload /\
       (ps_mode settings = ESTIMATED -> is_Some link) /\ is_Some (pc_score c)) /\
    (pc_feasible c = false -> pc_score c = None).
Proof.
  unfold candidate. intros E. apply bind_ok in E as (st0 & Hst0 & E).
  apply bind_ok in E as (st1 & Hst1 & E). apply bind_ok in E as (r0 & Hr0 & E).
  apply bind_ok in E as (r1 & Hr1 & E). apply bind_ok in E as (perf & _ & E).
  set (reasons := r0 ++ r1 ++ _ ++ _) in E.
  apply bind_ok in E as ([[status all] perf'] & Hall & E).
  apply bind_ok in E as (score & Hscore & E). inv_ok. exists st0, st1, r0, r1.
  assert (Hsub : all = [] -> reasons = []).
  { intros ->. destruct (ps_mode settings == MEASURED); [|by injection Hall].
    destruct pb as [b|]; [|done]. apply bind_ok in Hall as ([[? ?] ?] & _ & Hall).
    injection Hall as _ Hall _. by apply app_eq_nil in Hall as [? _]. }
  repeat split; try done; simpl in *.
  - by destruct all.
  - by intros ->.
  - destruct all; [|done]. specialize (Hsub eq_refl). by apply app_eq_nil in Hsub as [? _].
  - destruct all; [|done]. specialize (Hsub eq_refl).
    apply app_eq_nil in Hsub as [_ Hsub]. by apply app_eq_nil in Hsub as [? _].
  - destruct all; [|done]. specialize (Hsub eq_refl). unfold boundary_fits.
    apply app_eq_nil in Hsub as [_ Hsub]. apply app_eq_nil in Hsub as [_ Hsub].
    apply app_eq_nil in Hsub as [Hsub _]. case_match eqn:Hb; [done|]. by apply Z.ltb_ge.
  - intros Hmode. destruct all; [|done]. specialize (Hsub eq_refl).
    do 3 apply app_eq_nil in Hsub as [_ Hsub]. rewrite Hmode in Hsub.
    destruct link; [by eexists|done].
  - destruct all; [|done]. inv_ok. by eexists.
  - by destruct all; inv_ok.
Qed.

(** The transport reasons of a stage are about host and pinned memory. *)
Lemma transport_reason_nil worker stage b :
  transport_reason worker stage (Some b) = Ok [] ->
  exists usable, usable_bytes b = Ok usable /\ (wp_host_transport_buffer_bytes worker <= usable)%Z.
Proof.
  unfold transport_reason. intros E. apply bind_ok in E as (usable & ? & E).
  exists usable. split; [done|]. inv_ok. case_match; [done|]. by bool_to_prop.
Qed.

Definition transport_fits (worker : WorkerProfile) (domain : MemoryDomain) : Prop :=
  forall b, budget_for worker domain = Some b ->
  exists usable, usable_bytes b = Ok usable /\ (wp_host_transport_buffer_bytes worker <= usable)%Z.

Lemma stage_reasons_nil stage worker :
  stage_reasons stage worker = Ok [] ->
  (sm_required_bytes stage <= sm_usable_bytes stage)%Z /\
  transport_fits worker HOST /\ transport_fits worker HOST_PINNED /\
  (is_Some (budget_for worker HOST_PINNED) -> is_Some (budget_for worker HOST)).
Proof.
  unfold stage_reasons. intros E. apply bind_ok in E as (host & Hh & E).
  apply bind_ok in E as (pinned & Hp & E).
  assert (Hnil : forall m n : list string, Ok (m ++ n ++ host ++ pinned) = Ok [] ->
    m = [] /\ n = [] /\ host = [] /\ pinned = []).
  { intros m n [= Heq]. apply app_eq_nil in Heq as [-> Heq].
    apply app_eq_nil in Heq as [-> Heq]. by apply app_eq_nil in Heq as [-> ->]. }
  apply Hnil in E as (Hm & Hn & -> & ->). repeat split.
  - destruct (_ <? _)%Z eqn:Hlt in Hm; [done|]. by bool_to_prop.
  - intros b Hb. rewrite Hb in Hh. by apply transport_reason_nil in Hh.
  - intros b Hb. rewrite Hb in Hp. by apply transport_reason_nil in Hp.
  - intros [b Hb]. rewrite Hb in Hn. destruct (budget_for worker HOST); [by eexists|done].
Qed.

Lemma stage_memory_spec manifest worker workload settings start end_ first final st :
  _stage_memory manifest worker workload settings start end_ first final = Ok st ->
  exists budget, budget_for worker (wp_primary_memory_domain worker) = Some budget /\
    usable_bytes budget = Ok (sm_usable_bytes st) /\
    sm_worker_id st = wp_worker_id worker /\ sm_domain st = wp_primary_memory_domain worker /\
    sm_layer_start st = start /\ sm_layer_end st = end_ /\
    sm_weight_bytes st = _stage_weight_bytes manifest start end_ first final
      (default (ps_execution_dtype settings) (ps_weight_dtype settings)) /\
    sm_activation_buffer_bytes st =
      (wl_concurrency workload * wl_prompt_tokens workload * mc_hidden_size (mm_config manifest)
       * DTYPE_BYTES (wl_activation_dtype workload) * wp_activation_buffer_count worker)%Z /\
    sm_required_bytes st =
      (sm_weight_bytes st + sm_kv_cache_bytes st + sm_workspace_bytes st
       + sm_activation_buffer_bytes st + sm_allocator_allowance_bytes st)%Z /\
    StageMemory_fields st = true.
Proof.
  unfold _stage_memory. intros E. apply bind_ok in E as (budget & Hb & E).
  destruct (budget_for worker _) as [b'|] eqn:Hbf; [|done]. injection Hb as ->.
  exists budget. inv_ok. inv_fields. simpl in *. by repeat split.
Qed.

(** ** The candidate list *)

Lemma raw_candidates_ok manifest links workload settings pb a b raw :
  raw_candidates manifest links workload settings pb (a, b) = Ok raw ->
  exists fwd bwd, raw = fwd ++ bwd /\
    Forall2 (fun split c => candidate manifest workload settings pb a b
        (_find_link links (wp_worker_id a) (wp_worker_id b)) split = Ok c)
      (py_range 1 (mc_num_layers (mm_config manifest))) fwd /\
    Forall2 (fun split c => candidate manifest workload settings pb b a
        (_find_link links (wp_worker_id b) (wp_worker_id a)) split = Ok c)
      (py_range 1 (mc_num_layers (mm_config manifest))) bwd.
Proof.
  unfold raw_candidates. intros E. apply bind_ok in E as (fwd & Hf%mapM_ok & E).
  apply bind_ok in E as (bwd & Hb%mapM_ok & E). injection E as <-. by exists fwd, bwd.
Qed.

(** What each candidate says about its placement. *)
Definition placement (c : PlanCandidate) : string * string * Z :=
  (pc_stage_zero_worker_id c, pc_final_stage_worker_id c, pc_split_layer c).

Lemma order_placements manifest workload settings pb first final link splits cs :
  Forall2 (fun split c => candidate manifest workload settings pb first final link split = Ok c)
    splits cs ->
  placement <$> cs = (fun i => (wp_worker_id first, wp_worker_id final, i)) <$> splits /\
  pc_candidate_id <$> cs
    = (fun i => candidate_id_of (wp_worker_id first) (wp_worker_id final) i) <$> splits /\
  Forall (fun c => pc_rank c = None) cs.
Proof.
  induction 1 as [|i c splits cs Hc _ (IHp & IHi & IHr)]; [done|].
  apply candidate_spec in Hc as (?&?&?&?&_&_&_&_&_&Hid&Hz&Hf&Hs&Hr&_).
  rewrite !fmap_cons, IHp, IHi. unfold placement at 1. rewrite Hid, Hz, Hf, Hs.
  repeat split; by constructor.
Qed.

Lemma candidate_id_inj first final first' final' i j :
  (0 <= i)%Z -> (0 <= j)%Z ->
  candidate_id_of first final i = candidate_id_of first' final' j ->
  String.append first (String.append "--" final) = String.append first' (String.append "--" final')
  /\ i = j.
Proof.
  intros Hi Hj. unfold candidate_id_of.
  destruct (pad3_value i Hi) as [_ Di], (pad3_value j Hj) as [_ Dj].
  replace (String.append first _)
    with (String.append (String.append (String.append first (String.append "--" final)) "-")
            (String "m" (pad3 i))) by (by rewrite !str_app_assoc).
  replace (String.append first' _)
    with (String.append (String.append (String.append first' (String.append "--" final')) "-")
            (String "m" (pad3 j))) by (by rewrite !str_app_assoc).
  intros (Hp & Hd)%numeral_suffix_inj; [|done..]. split.
  - by apply str_app_inj_r in Hp.
  - by apply pad3_inj.
Qed.

(** Worker ids whose two orders cannot be confused in a candidate id. *)
Definition orders_distinct (a b : string) : Prop :=
  String.append a (String.append "--" b) <> String.append b (String.append "--" a).

Lemma raw_candidates_NoDup manifest links workload settings pb a b raw :
  orders_distinct (wp_worker_id a) (wp_worker_id b) ->
  raw_candidates manifest links workload settings pb (a, b) = Ok raw ->
  NoDup (pc_candidate_id <$> raw).
Proof.
  intros Hab E. apply raw_candidates_ok in E as (fwd & bwd & -> & Hf & Hb).
  apply order_placements in Hf as (_ & Hf & _), Hb as (_ & Hb & _).
  assert (Hinj : forall x y l, (forall i, i ∈ l -> 0 <= i)%Z -> NoDup l ->
    NoDup (candidate_id_of x y <$> l)).
  { intros x y l Hl Hnd. apply NoDup_fmap_2_strong; [|done].
    intros i j Hi Hj [_ ->]%candidate_id_inj; auto. }
  rewrite fmap_app, Hf, Hb. apply NoDup_app.
  split; [|split]; [apply Hinj| |apply Hinj]; try apply NoDup_py_range;
    try (intros i ?%elem_of_py_range; lia).
  intros x (i & -> & Hi%elem_of_py_range)%list_elem_of_fmap
    (j & Hij & Hj%elem_of_py_range)%list_elem_of_fmap.
  apply candidate_id_inj in Hij as [Hij _]; [|lia..]. by apply Hab.
Qed.

(** ** The order of candidates *)

Definition comparable (c : PlanCandidate) : Prop := is_nan (fst (score_key c)) = false.

Lemma candidate_lt_irrefl c : candidate_lt c c = false.
Proof. unfold candidate_lt, key_before. rewrite str_lt_irrefl, flt_irrefl. by case_match. Qed.

Lemma candidate_lt_asym c1 c2 : candidate_lt c1 c2 = true -> candidate_lt c2 c1 = false.
Proof.
  unfold candidate_lt, key_before. rewrite (feq_sym (fst (score_key c2))).
  case_match; [apply str_lt_asym|apply flt_asym].
Qed.

Lemma candidate_le_trans c1 c2 c3 : comparable c1 -> comparable c2 -> comparable c3 ->
  candidate_lt c2 c1 = false -> candidate_lt c3 c2 = false -> candidate_lt c3 c1 = false.
Proof.
  unfold comparable, candidate_lt, key_before.
  destruct (score_key c1) as [x a], (score_key c2) as [y b], (score_key c3) as [z c]; simpl.
  intros Hx Hy Hz.
  destruct (y == x) eqn:Eyx, (z == y) eqn:Ezy.
  - rewrite (feq_trans z y x) by done. apply str_le_trans.
  - intros _ Hzy. destruct (z == x) eqn:Ezx.
    + rewrite feq_sym in Eyx. by rewrite (feq_trans z x y) in Ezy.
    + apply (flt_trans_not x y z); [done| |done]. by apply feq_not_lt.
  - intros Hyx _. destruct (z == x) eqn:Ezx.
    + rewrite feq_sym in Ezy. by rewrite (feq_trans y z x) in Eyx.
    + apply (flt_trans_not x y z); [done|done|]. by apply feq_not_lt.
  - intros Hyx Hzy. destruct (z == x) eqn:Ezx; [|by apply (flt_trans_not x y z)].
    pose proof (fle_total y x Hy Hx Hyx Eyx) as Hxy.
    pose proof (fle_total z y Hz Hy Hzy Ezy) as Hyz.
    assert (flt x z = true) as Hxz by (by apply (flt_trans x y z)).
    rewrite feq_sym in Ezx. apply feq_not_lt in Ezx. congruence.
Qed.

Lemma candidate_lt_total c1 c2 : comparable c1 -> comparable c2 ->
  pc_candidate_id c1 <> pc_candidate_id c2 -> candidate_lt c1 c2 = false -> candidate_lt c2 c1 = true.
Proof.
  unfold comparable, candidate_lt, key_before. unfold score_key; simpl.
  intros H1 H2 Hne. rewrite (feq_sym (default finf (pc_score c2))). case_match.
  - intros Hlt. apply not_false_iff_true. intros Hgt. by destruct Hne; apply str_lt_antisym.
  - intros. by apply fle_total.
Qed.

(** ** Ranks *)

Lemma elem_of_feasible_sorted raw c : c ∈ feasible_sorted raw <-> pc_feasible c = true /\ c ∈ raw.
Proof. unfold feasible_sorted. by rewrite elem_of_py_sorted, elem_of_filterb. Qed.

Lemma feasible_sorted_NoDup raw :
  NoDup (pc_candidate_id <$> raw) -> NoDup (pc_candidate_id <$> feasible_sorted raw).
Proof.
  intros. unfold feasible_sorted. rewrite py_sorted_Permutation. by apply NoDup_fmap_filterb.
Qed.

Lemma enumerate_fmap {X Y} (f : X -> Y) start l :
  (fun x : Z * X => f (snd x)) <$> py_enumerate_from start l = f <$> l.
Proof. revert start. induction l as [|x l IH]; intros start; simpl; [done|]. by rewrite IH. Qed.

Lemma rank_dict_get l id r : NoDup (pc_candidate_id <$> l) ->
  assoc_get id (rank_dict l) = Some r <->
  exists i c, l !! i = Some c /\ pc_candidate_id c = id /\ r = (1 + Z.of_nat i)%Z.
Proof.
  intros Hnd.
  assert (rank_dict l = (fun x => (pc_candidate_id (snd x), fst x)) <$> py_enumerate_from 1 l) as ->.
  { unfold rank_dict. rewrite <- (app_nil_l (_ <$> _)).
    rewrite <- (foldl_assoc_set_fresh (fun x => pc_candidate_id (snd x)) fst).
    - generalize (@nil (string * Z)). induction (py_enumerate_from 1 l) as [|[] ? IH]; naive_solver.
    - simpl. by rewrite (enumerate_fmap pc_candidate_id). }
  split.
  - intros Hg%assoc_get_elem. apply list_elem_of_fmap in Hg as ([r' c] & [= -> ->] & Hin).
    apply list_elem_of_lookup in Hin as [i (c' & Hi & [= -> ->])%lookup_py_enumerate].
    by exists i, c'.
  - intros (i & c & Hi & <- & ->). apply assoc_get_NoDup.
    + rewrite <- list_fmap_compose. by rewrite (enumerate_fmap pc_candidate_id).
    + apply list_elem_of_fmap. exists ((1 + Z.of_nat i)%Z, c). split; [done|].
      apply (list_elem_of_lookup_2 _ i), lookup_py_enumerate. by exists c.
Qed.

(** A ranked candidate is a raw candidate with its position in the sorted list. *)
Lemma ranked_spec raw c : NoDup (pc_candidate_id <$> raw) -> c ∈ ranked raw ->
  exists c0, c0 ∈ raw /\ c = with_rank (pc_rank c) c0 /\
    forall r, pc_rank c = Some r <->
      exists i, feasible_sorted raw !! i = Some c0 /\ r = (1 + Z.of_nat i)%Z.
Proof.
  intros Hnd (c0 & -> & Hc0)%list_elem_of_fmap. exists c0. split; [done|]. split; [done|].
  intros r. simpl. rewrite rank_dict_get by by apply feasible_sorted_NoDup.
  split; [|naive_solver].
  intros (i & c' & Hi & Hid & ->). exists i. split; [|done].
  assert (c' = c0) as ->; [|done]. apply (NoDup_fmap_eq pc_candidate_id raw); [done| |done..].
  by apply list_elem_of_lookup_2, elem_of_feasible_sorted in Hi as [_ ?].
Qed.

Lemma ranked_feasible_rank raw c : NoDup (pc_candidate_id <$> raw) -> c ∈ ranked raw ->
  is_Some (pc_rank c) <-> pc_feasible c = true.
Proof.
  intros Hnd Hc. destruct (ranked_spec raw c Hnd Hc) as (c0 & Hc0 & Heq & Hr).
  assert (pc_feasible c = pc_feasible c0) as -> by (by rewrite Heq). split.
  - intros [r Hr']. apply Hr in Hr' as (i & Hi & _).
    by apply list_elem_of_lookup_2, elem_of_feasible_sorted in Hi as [? _].
  - intros Hf. assert (c0 ∈ feasible_sorted raw) as [i Hi]%list_elem_of_lookup
      by by apply elem_of_feasible_sorted.
    eexists. apply Hr. by exists i.
Qed.

(** Every rank from 1 to the number of feasible candidates is given to one, and
    no other rank. *)
Lemma ranked_ranks raw r : NoDup (pc_candidate_id <$> raw) ->
  (1 <= r <= Z.of_nat (length (feasible_sorted raw)))%Z <->
  exists c, c ∈ ranked raw /\ pc_rank c = Some r.
Proof.
  intros Hnd. split.
  - intros Hr. destruct (lookup_lt_is_Some_2 (feasible_sorted raw) (Z.to_nat (r - 1))) as [c0 Hc0]; [lia|].
    assert (c0 ∈ raw) as Hin
      by by apply list_elem_of_lookup_2, elem_of_feasible_sorted in Hc0 as [_ ?].
    eexists. split; [by apply list_elem_of_fmap; exists c0|]. simpl. apply rank_dict_get.
    { by apply feasible_sorted_NoDup. }
    exists (Z.to_nat (r - 1)), c0. repeat split; [done|lia].
  - intros (c & Hc & Hr). destruct (ranked_spec raw c Hnd Hc) as (c0 & _ & _ & Hs).
    destruct (proj1 (Hs r) Hr) as (i & Hi & ->). apply lookup_lt_Some in Hi. lia.
Qed.

Lemma candidate_lt_with_rank r1 r2 c1 c2 :
  candidate_lt (with_rank r1 c1) (with_rank r2 c2) = candidate_lt c1 c2.
Proof. done. Qed.

Lemma ranked_order raw c1 c2 r1 r2 :
  NoDup (pc_candidate_id <$> raw) ->
  Forall (fun c => pc_feasible c = true -> comparable c) raw ->
  c1 ∈ ranked raw -> c2 ∈ ranked raw -> pc_rank c1 = Some r1 -> pc_rank c2 = Some r2 ->
  (r1 < r2)%Z <-> candidate_lt c1 c2 = true.
Proof.
  intros Hnd Hcmp Hc1 Hc2 Hr1 Hr2.
  destruct (ranked_spec raw c1 Hnd Hc1) as (d1 & Hd1 & Heq1 & Hs1).
  destruct (ranked_spec raw c2 Hnd Hc2) as (d2 & Hd2 & Heq2 & Hs2).
  apply Hs1 in Hr1 as (i & Hi & ->). apply Hs2 in Hr2 as (j & Hj & ->).
  rewrite Heq1, Heq2, candidate_lt_with_rank. clear Heq1 Heq2 Hs1 Hs2 Hc1 Hc2.
  assert (Hsort : StronglySorted (not_after candidate_lt) (feasible_sorted raw)).
  { apply (py_sorted_StronglySorted candidate_lt comparable).
    - intros ? ? _ _. apply candidate_lt_asym.
    - apply candidate_le_trans.
    - apply Forall_forall. intros c [Hf Hc]%elem_of_filterb.
      rewrite Forall_forall in Hcmp. by apply Hcmp. }
  assert (Hstrict : forall i j d1 d2, feasible_sorted raw !! i = Some d1 ->
    feasible_sorted raw !! j = Some d2 -> (i < j)%nat -> candidate_lt d1 d2 = true).
  { clear - Hsort Hnd Hcmp. intros i j d1 d2 Hi Hj Hij.
    assert (candidate_lt d2 d1 = false) by 
      by exact (StronglySorted_lookup (not_after candidate_lt) _ i j d1 d2 Hsort Hi Hj Hij).
    rewrite Forall_forall in Hcmp.
    pose proof (list_elem_of_lookup_2 _ _ _ Hi) as [Hf1 He1]%elem_of_feasible_sorted.
    pose proof (list_elem_of_lookup_2 _ _ _ Hj) as [Hf2 He2]%elem_of_feasible_sorted.
    apply candidate_lt_total; [by apply Hcmp..| |done]. intros Hid.
    assert (d2 = d1) as -> by by apply (NoDup_fmap_eq pc_candidate_id raw).
    apply feasible_sorted_NoDup in Hnd. assert (i = j); [|lia].
    apply (NoDup_lookup _ i j (pc_candidate_id d1) Hnd); by rewrite list_lookup_fmap, ?Hi, ?Hj. }
  split.
  - intros. apply (Hstrict i j); [done..|lia].
  - intros Hlt. destruct (Nat.lt_trichotomy i j) as [?|[->|?]]; [lia| |].
    + simplify_eq. by rewrite candidate_lt_irrefl in Hlt.
    + apply candidate_lt_asym in Hlt. by rewrite (Hstrict j i d2 d1) in Hlt.
Qed.

(** ** What a successful planning run went through *)

Definition report_selects (manifest : ModelManifest) (workload : WorkloadProfile)
    (settings : PlannerSettings) (pb : option B) (raw : list PlanCandidate)
    (report : PlanningReport) : Prop :=
  match feasible_sorted raw with
  | [] => pr_selected_candidate_id report = None /\ pr_plan report = None
  | best :: _ => exists selected plan,
      selected ∈ ranked raw /\ pc_candidate_id selected = pc_candidate_id best /\
      pr_selected_candidate_id report = Some (pc_candidate_id best) /\
      pr_plan report = Some plan /\
      deployment_plan manifest workload settings pb selected = Ok plan
  end.

Lemma create_plan_ok manifest workers links workload settings pb report :
  create_plan manifest workers links workload settings pb = Ok report ->
  exists a b raw, workers = [a; b] /\ wp_worker_id a <> wp_worker_id b /\
    raw_candidates manifest links workload (default default_settings settings) pb (a, b) = Ok raw /\
    pr_candidates report = ranked raw /\
    report_selects manifest workload (default default_settings settings) pb raw report.
Proof.
  unfold create_plan. intros E. apply bind_ok in E as ([a b] & Hw & E).
  apply bind_ok in E as (_ & _ & E). apply bind_ok in E as (raw & Hraw & E).
  unfold _validate_workers in Hw. destruct workers as [|a' [|b' [|]]]; try by inv_ok.
  apply bind_ok in Hw as (? & Hne & Hw). inv_ok. bool_to_prop.
  exists a, b, raw. repeat split; [done|done|..].
  - destruct (feasible_sorted raw) as [|best rest]; [by injection E as <-|].
    destruct (List.find _ (ranked raw)) as [selected|]; [|done].
    apply bind_ok in E as (plan & _ & E). by injection E as <-.
  - unfold report_selects. destruct (feasible_sorted raw) as [|best rest]; [by injection E as <-|].
    destruct (List.find _ (ranked raw)) as [selected|] eqn:Hf; [|done].
    apply bind_ok in E as (plan & Hplan & E). injection E as <-.
    apply find_some_elem in Hf as [Hin Hid]. bool_to_prop. exists selected, plan. simpl. by rewrite Hid.
Qed.

Lemma ranked_ids raw : pc_candidate_id <$> ranked raw = pc_candidate_id <$> raw.
Proof. unfold ranked. by rewrite <- list_fmap_compose. Qed.

Lemma ranked_placements raw : placement <$> ranked raw = placement <$> raw.
Proof. unfold ranked. by rewrite <- list_fmap_compose. Qed.

Lemma ranked_Forall (P : PlanCandidate -> Prop) raw :
  (forall r c, P (with_rank r c) <-> P c) -> Forall P (ranked raw) <-> Forall P raw.
Proof.
  intros HP. unfold ranked. rewrite Forall_fmap, !Forall_forall. unfold compose.
  split; intros HF c Hc; eapply HP; eauto.
Qed.

Lemma ranked_filter_length raw :
  length (List.filter pc_feasible (ranked raw)) = length (List.filter pc_feasible raw).
Proof.
  unfold ranked. generalize (rank_dict (feasible_sorted raw)). intros d.
  induction raw as [|c raw IH]; simpl; [done|].
  destruct (pc_feasible c); simpl; [f_equal|]; apply IH.
Qed.

(** ** The assignments of a plan *)

Definition plan_placement (p : DeploymentPlan) : option (string * string * Z) :=
  match dp_stages p with
  | [s0; s1] => Some (sa_worker_id s0, sa_worker_id s1, dp_split_layer p)
  | _ => None
  end.

Lemma deployment_plan_spec manifest workload settings pb selected plan :
  deployment_plan manifest workload settings pb selected = Ok plan ->
  plan_placement plan = Some (placement selected) /\
  dp_selected_candidate_id plan = pc_candidate_id selected /\
  dp_split_layer plan = pc_split_layer selected /\
  dp_stages plan = (let '(s0, s1) := assignments_for (pc_stage_zero_worker_id selected)
    (pc_final_stage_worker_id selected) (pc_split_layer selected) (mc_num_layers (mm_config manifest))
    in [s0; s1]) /\
  validate_DeploymentPlan plan = Ok plan.
Proof.
  unfold deployment_plan. simpl. intros E. apply bind_ok in E as (_ & _ & E).
  pose proof E as E'. unfold validate_DeploymentPlan in E'. inv_ok. done.
Qed.

(** ** Properties of planning *)



(** A candidate is ranked exactly when it is feasible; the ranks are
    1, 2, ..., n, and they follow the order by score, then candidate id. *)
Lemma create_plan_ranks manifest a b links workload settings pb report :
  create_plan manifest [a; b] links workload settings pb = Ok report ->
  orders_distinct (wp_worker_id a) (wp_worker_id b) ->
  Forall (fun c => pc_feasible c = true -> comparable c) (pr_candidates report) ->
  let n := length (List.filter pc_feasible (pr_candidates report)) in
  (forall c, c ∈ pr_candidates report -> is_Some (pc_rank c) <-> pc_feasible c = true) /\
  (forall r, (1 <= r <= Z.of_nat n)%Z <-> exists c, c ∈ pr_candidates report /\ pc_rank c = Some r) /\
  (forall c1 c2 r1 r2, c1 ∈ pr_candidates report -> c2 ∈ pr_candidates report ->
     pc_rank c1 = Some r1 -> pc_rank c2 = Some r2 ->
     ((r1 < r2)%Z <-> candidate_lt c1 c2 = true)).
Proof.
  intros E Hab Hcmp. apply create_plan_ok in E as (a' & b' & raw & [= <- <-] & _ & Hraw & Hc & _).
  rewrite Hc in *. pose proof (raw_candidates_NoDup _ _ _ _ _ _ _ _ Hab Hraw) as Hnd.
  rewrite ranked_Forall in Hcmp by done. split; [|split].
  - intros c. by apply ranked_feasible_rank.
  - intros r. rewrite ranked_filter_length, <- (ranked_ranks raw r Hnd).
    unfold feasible_sorted. by rewrite length_py_sorted.
  - intros. by apply (ranked_order raw).
Qed.

(** A stage whose memory and transport buffers fit its worker's budgets. *)
Definition stage_fits (stage : StageMemory) (worker : WorkerProfile) : Prop :=
  sm_worker_id stage = wp_worker_id worker /\
  (exists budget, budget_for worker (wp_primary_memory_domain worker) = Some budget /\
     usable_bytes budget = Ok (sm_usable_bytes stage)) /\
  (sm_weight_bytes stage + sm_kv_cache_bytes stage + sm_workspace_bytes stage
   + sm_activation_buffer_bytes stage + sm_allocator_allowance_bytes stage
   <= sm_usable_bytes stage)%Z /\
  transport_fits worker HOST /\ transport_fits worker HOST_PINNED.

Lemma stage_fits_intro manifest worker workload settings start end_ first final st :
  _stage_memory manifest worker workload settings start end_ first final = Ok st ->
  stage_reasons st worker = Ok [] -> stage_fits st worker.
Proof.
  intros (budget & ? & ? & ? & _ & _ & _ & _ & _ & Hreq & _)%stage_memory_spec (? & ? & ? & _)%stage_reasons_nil.
  repeat split; eauto; lia.
Qed.

Lemma candidate_fits manifest workload settings pb first final link split c :
  candidate manifest workload settings pb first final link split = Ok c -> pc_feasible c = true ->
  stage_fits (fst (pc_stages c)) first /\ stage_fits (snd (pc_stages c)) final /\
  boundary_fits manifest workload /\ (ps_mode settings = ESTIMATED -> is_Some link).
Proof.
  intros (st0&st1&r0&r1&Hst0&Hst1&Hr0&Hr1&Hst&_&_&_&_&_&_&Hf&_)%candidate_spec Hfeas.
  destruct (Hf Hfeas) as (-> & -> & ? & ? & _). rewrite Hst. simpl. repeat split; try done;
    eapply stage_fits_intro; eauto.
Qed.

Lemma boundary_fits_bytes manifest workload :
  (0 < mc_hidden_size (mm_config manifest))%Z -> boundary_fits manifest workload ->
  (boundary_message_tokens workload
   * (mc_hidden_size (mm_config manifest) * DTYPE_BYTES (wl_activation_dtype workload))
   <= MAXIMUM_BOUNDARY_PAYLOAD_BYTES)%Z.
Proof.
  unfold boundary_fits, maximum_boundary_tokens. intros Hh Hfit.
  set (unit := (mc_hidden_size _ * _)%Z) in *.
  assert (0 < unit)%Z by (pose proof (DTYPE_BYTES_pos (wl_activation_dtype workload)); nia).
  pose proof (Z.mul_div_le MAXIMUM_BOUNDARY_PAYLOAD_BYTES unit). nia.
Qed.

(** C2: a feasible candidate fits: on both stages weights, KV cache, workspace,
    activation buffers and allowance together stay within the usable bytes of the
    worker's primary memory, transport buffers stay within host and pinned
    memory, one boundary message stays within half the RPC limit, and in
    estimated mode the direction has a link profile. *)
Theorem feasible_candidates_fit manifest a b links workload settings pb report c :
  create_plan manifest [a; b] links workload (Some settings) pb = Ok report ->
  (0 < mc_hidden_size (mm_config manifest))%Z ->
  c ∈ pr_candidates report -> pc_feasible c = true ->
  exists first final, (first = a /\ final = b \/ first = b /\ final = a) /\
    pc_stage_zero_worker_id c = wp_worker_id first /\
    pc_final_stage_worker_id c = wp_worker_id final /\
    stage_fits (fst (pc_stages c)) first /\ stage_fits (snd (pc_stages c)) final /\
    (boundary_message_tokens workload
     * (mc_hidden_size (mm_config manifest) * DTYPE_BYTES (wl_activation_dtype workload))
     <= MAXIMUM_BOUNDARY_PAYLOAD_BYTES)%Z /\
    (ps_mode settings = ESTIMATED ->
       is_Some (_find_link links (wp_worker_id first) (wp_worker_id final))).
Proof.
  intros E Hh Hin Hf. apply create_plan_ok in E as (a' & b' & raw & [= <- <-] & _ & Hraw & Hc & _).
  rewrite Hc in Hin. apply list_elem_of_fmap in Hin as (c0 & -> & Hin). simpl in *.
  apply raw_candidates_ok in Hraw as (fwd & bwd & -> & Hfwd & Hbwd).
  apply elem_of_app in Hin as [[i Hi]%list_elem_of_lookup|[i Hi]%list_elem_of_lookup].
  - destruct (Forall2_lookup_r _ _ _ _ _ Hfwd Hi) as (split & _ & Hcand). exists a, b.
    destruct (candidate_fits _ _ _ _ _ _ _ _ _ Hcand Hf) as (?&?&?&?).
    apply candidate_spec in Hcand as (?&?&?&?&_&_&_&_&_&_&?&?&_).
    split_and!; try done; [by left|by apply boundary_fits_bytes].
  - destruct (Forall2_lookup_r _ _ _ _ _ Hbwd Hi) as (split & _ & Hcand). exists b, a.
    destruct (candidate_fits _ _ _ _ _ _ _ _ _ Hcand Hf) as (?&?&?&?).
    apply candidate_spec in Hcand as (?&?&?&?&_&_&_&_&_&_&?&?&_).
    split_and!; try done; [by right|by apply boundary_fits_bytes].
Qed.

(** ** Weights of the two stages *)

Definition layers_in_range (manifest : ModelManifest) : Prop :=
  Forall (fun t => tr_role t = TRANSFORMER_LAYER -> exists i,
    tr_layer_index t = Some i /\ (0 <= i < mc_num_layers (mm_config manifest))%Z)
    (mm_tensors manifest).

(** The bytes of the model that one copy needs: redundant tied heads are not kept. *)
Definition resident_model_bytes (manifest : ModelManifest) (d : DType) : Z :=
  py_sum ((fun t => if (tr_role t == LM_HEAD) && mc_tied_embeddings (mm_config manifest)
                    then 0%Z else _resident_bytes t d) <$> mm_tensors manifest).

(** The bytes both stages hold. *)
Definition duplicated_bytes (manifest : ModelManifest) (d : DType) : Z :=
  py_sum ((fun t =>
    match tr_role t with
    | ARCHITECTURE_STATE => _resident_bytes t d
    | TOKEN_EMBEDDING => if mc_tied_embeddings (mm_config manifest) then _resident_bytes t d else 0%Z
    | _ => 0%Z
    end) <$> mm_tensors manifest).

(** C4: at every split the weights of the two stages add up to one copy of the
    model plus exactly the duplicated tensors (tied embeddings and architecture
    state): no layer is counted twice or dropped. *)
Theorem stage_weights_conserve manifest split d :
  layers_in_range manifest -> (0 <= split <= mc_num_layers (mm_config manifest))%Z ->
  (_stage_weight_bytes manifest 0 split true false d
   + _stage_weight_bytes manifest split (mc_num_layers (mm_config manifest)) false true d
   = resident_model_bytes manifest d + duplicated_bytes manifest d)%Z.
Proof.
  unfold layers_in_range, _stage_weight_bytes, resident_model_bytes, duplicated_bytes.
  intros Hl Hs. apply py_sum_fmap_balance. eapply Forall_impl; [exact Hl|]. intros t Ht. simpl in *.
  unfold stage_includes. destruct (tr_role t) eqn:Er; simpl.
  - destruct (mc_tied_embeddings _); simpl; lia.
  - destruct (Ht eq_refl) as (i & -> & Hi).
    destruct (Z.ltb_spec i split), (Z.leb_spec split i), (Z.leb_spec 0 i),
      (Z.ltb_spec i (mc_num_layers (mm_config manifest))); simpl; lia.
  - simpl. lia.
  - destruct (mc_tied_embeddings _); simpl; lia.
  - simpl. lia.
Qed.

(** ** The deployment plan *)

Lemma raw_candidate_split manifest links workload settings pb a b raw c :
  raw_candidates manifest links workload settings pb (a, b) = Ok raw -> c ∈ raw ->
  (1 <= pc_split_layer c < mc_num_layers (mm_config manifest))%Z /\
  (pc_stage_zero_worker_id c = wp_worker_id a /\ pc_final_stage_worker_id c = wp_worker_id b \/
   pc_stage_zero_worker_id c = wp_worker_id b /\ pc_final_stage_worker_id c = wp_worker_id a).
Proof.
  intros E Hin. apply raw_candidates_ok in E as (fwd & bwd & -> & Hf & Hb).
  apply order_placements in Hf as (Hf & _), Hb as (Hb & _).
  assert (placement c ∈ placement <$> (fwd ++ bwd)) as Hp by (apply list_elem_of_fmap; eauto).
  rewrite fmap_app, Hf, Hb in Hp.
  apply elem_of_app in Hp as [Hp|Hp]; apply list_elem_of_fmap in Hp as (i & Hp & Hi);
    apply elem_of_py_range in Hi; unfold placement in Hp; injection Hp as -> -> ->; auto.
Qed.

(** C3: a selected plan partitions the model: two stages on two distinct workers,
    every layer owned by exactly one of them, the first stage owning the token
    embedding and the last one the final norm, the head and sampling. *)
Theorem plan_partitions_layers manifest a b links workload settings pb report plan :
  create_plan manifest [a; b] links workload settings pb = Ok report ->
  pr_plan report = Some plan ->
  exists s0 s1, dp_stages plan = [s0; s1] /\
    (sa_worker_id s0 = wp_worker_id a /\ sa_worker_id s1 = wp_worker_id b \/
     sa_worker_id s0 = wp_worker_id b /\ sa_worker_id s1 = wp_worker_id a) /\
    sa_worker_id s0 <> sa_worker_id s1 /\
    (forall i, (0 <= i < mc_num_layers (mm_config manifest))%Z <->
       ((sa_layer_start s0 <= i < sa_layer_end s0) \/ (sa_layer_start s1 <= i < sa_layer_end s1))%Z) /\
    (forall i, ~ ((sa_layer_start s0 <= i < sa_layer_end s0)
                  /\ (sa_layer_start s1 <= i < sa_layer_end s1))%Z) /\
    (sa_layer_start s0 < sa_layer_end s0)%Z /\ (sa_layer_start s1 < sa_layer_end s1)%Z /\
    (sa_owns_token_embedding s0, sa_owns_token_embedding s1) = (true, false) /\
    (sa_owns_final_norm s0, sa_owns_final_norm s1) = (false, true) /\
    (sa_owns_lm_head s0, sa_owns_lm_head s1) = (false, true) /\
    (sa_owns_sampling s0, sa_owns_sampling s1) = (false, true) /\
    dp_split_layer plan = sa_layer_end s0.
Proof.
  intros E Hp. apply create_plan_ok in E as (a' & b' & raw & [= <- <-] & Hne & Hraw & Hc & Hsel).
  unfold report_selects in Hsel. destruct (feasible_sorted raw); [naive_solver|].
  destruct Hsel as (selected & plan' & Hin & _ & _ & Hp' & Hplan). rewrite Hp in Hp'. injection Hp' as <-.
  apply list_elem_of_fmap in Hin as (c0 & -> & Hin).
  apply (raw_candidate_split _ _ _ _ _ _ _ _ _ Hraw) in Hin as [Hsplit Hw].
  apply deployment_plan_spec in Hplan as (_ & _ & Hdp & Hst & _).
  rewrite Hst. eexists _, _. split; [done|]. simpl in *. split; [done|].
  split; [destruct Hw as [[-> ->]|[-> ->]]; congruence|]. split_and!; try done; lia.
Qed.

Lemma deployment_plan_total `{!HashLaws} manifest workload settings pb selected :
  is_ok (validate_PlannerSettings settings) = true ->
  (ps_mode settings = MEASURED -> exists b, pb = Some b /\ is_digest (bundle_digest b) = true) ->
  (1 <= pc_split_layer selected < mc_num_layers (mm_config manifest))%Z ->
  pc_stage_zero_worker_id selected <> pc_final_stage_worker_id selected ->
  is_ok (deployment_plan manifest workload settings pb selected) = true.
Proof.
  intros [s' Hv]%is_ok_spec Hm Hs Hw. unfold validate_PlannerSettings in Hv. inv_ok.
  apply is_ok_spec. unfold deployment_plan. cbn [assignments_for].
  set (s0 := Build_StageAssignment 0 _ _ _ _ _ _ _). set (s1 := Build_StageAssignment 1 _ _ _ _ _ _ _).
  assert (Hst : forallb StageAssignment_fields [s0; s1] = true).
  { apply forallb_Forall. unfold StageAssignment_fields, NonNegativeInt, PositiveInt.
    repeat constructor; simpl; rewrite ?andb_true_iff, ?Z.leb_le, ?Z.ltb_lt; lia. }
  rewrite Hst. eexists. apply (validate_plan_intro _ s0 s1); [|..|done| |done].
  - unfold DeploymentPlan_fields. cbn [dp_stages]. rewrite Hst. unfold NonNegativeInt. simpl.
    by rewrite (proj2 (Z.leb_le _ _)) by lia.
  - unfold precision_agrees, validate_precision in *. simpl. destruct (ps_weight_dtype s'); inv_ok.
    + bool_to_prop. done.
    + by destruct (ps_mode s').
  - unfold identities_agree. simpl. destruct (ps_mode s'); [done..|].
    destruct (Hm eq_refl) as (b & -> & Hb). split; [destruct (ps_weight_dtype s'); eauto|].
    eexists _, _. split_and!; [done..|apply sha256_hex_digest|done].
  - unfold partition_stages. simpl. unfold s0, s1, pyeqb. simpl.
    rewrite !(proj2 (Z.leb_gt _ _)) by lia. rewrite (proj2 (Z.eqb_eq _ _)) by done.
    unfold pyeqb. simpl.
    rewrite (proj2 (String.eqb_neq _ _)) by done. done.
Qed.


(** C6: planning fails only while it checks its inputs or evaluates a candidate:
    with validated settings (and well-formed digests), once every candidate is
    evaluated a report is produced, and the selected plan passes every check of
    the plan model, mixed precision and measured identities included. *)
Theorem create_plan_total `{!HashLaws} manifest a b links workload settings pb :
  is_ok (validate_PlannerSettings settings) = true ->
  (forall bundle, pb = Some bundle -> is_digest (bundle_digest bundle) = true) ->
  is_ok (create_plan manifest [a; b] links workload (Some settings) pb)
  = is_ok (_validate_workers manifest [a; b] settings)
    && is_ok (check_mode_inputs [a; b] workload settings pb)
    && is_ok (raw_candidates manifest links workload settings pb (a, b)).
Proof.
  intros Hset Hdig. unfold create_plan. change (default default_settings (Some settings)) with settings.
  destruct (_validate_workers manifest [a; b] settings) as [[a' b']|e] eqn:Hw; [|done].
  assert (wp_worker_id a <> wp_worker_id b /\ a' = a /\ b' = b) as (Hne & -> & ->).
  { unfold _validate_workers in Hw. apply bind_ok in Hw as (u & Hne & Hw).
    apply raise_if_ok in Hne. apply bind_ok in Hw as (? & _ & Hw). apply bind_ok in Hw as (? & _ & Hw).
    injection Hw as <- <-. by bool_to_prop. }
  cbn [mbind result_bind is_ok andb].
  destruct (check_mode_inputs [a; b] workload settings pb) as [[]|e] eqn:Hmode; [|done].
  cbn [mbind result_bind is_ok andb].
  destruct (raw_candidates manifest links workload settings pb (a, b)) as [raw|e] eqn:Hraw; [|done].
  cbn [mbind result_bind is_ok andb].
  destruct (feasible_sorted raw) as [|best rest] eqn:Hfs; [done|].
  destruct (List.find _ (ranked raw)) as [selected|] eqn:Hf.
  - apply find_some_elem in Hf as [Hin _]. apply list_elem_of_fmap in Hin as (c0 & -> & Hin).
    apply (raw_candidate_split _ _ _ _ _ _ _ _ _ Hraw) in Hin as [Hsplit Hids].
    destruct (deployment_plan _ _ _ _ _) as [plan|e] eqn:Hplan; [done|].
    assert (is_ok (deployment_plan manifest workload settings pb
      (with_rank (assoc_get (pc_candidate_id c0) (rank_dict (feasible_sorted raw))) c0)) = true) as Hok.
    { apply deployment_plan_total; [done| |done|].
      - intros Hm. unfold check_mode_inputs in Hmode. rewrite Hm in Hmode. inv_ok.
        destruct pb as [bundle|]; [eauto|done].
      - simpl. destruct Hids as [[-> ->]|[-> ->]]; congruence. }
    by rewrite Hplan in Hok.
  - apply find_none_Forall in Hf. rewrite ranked_Forall in Hf by done.
    assert (best ∈ feasible_sorted raw) as [_ Hb]%elem_of_feasible_sorted by (rewrite Hfs; set_solver).
    rewrite Forall_forall in Hf. specialize (Hf best Hb). by rewrite pyeqb_refl in Hf.
Qed.

(** C7: the digest of a measured or mixed-precision plan is the digest of the plan
    itself, without its id and digest: the identity a loader recomputes. *)
Theorem plan_digest_of_plan manifest workload settings pb selected plan :
  deployment_plan manifest workload settings pb selected = Ok plan ->
  ps_mode settings = MEASURED /\ is_Some pb \/ is_Some (ps_weight_dtype settings) ->
  dp_plan_digest plan = digest (DeploymentPlan_unsigned plan) /\
  dp_plan_id plan = String.append "plan-" (str_take 16 (dp_plan_digest plan)).
Proof.
  unfold deployment_plan. cbn [assignments_for]. intros E Hcase.
  apply bind_ok in E as (_ & _ & E). unfold validate_DeploymentPlan in E. inv_ok.
  split; [|done]. cbn [dp_plan_digest]. unfold digest, canonical_json_bytes. f_equal.
  unfold unsigned_plan, DeploymentPlan_unsigned, planner_version.
  destruct (ps_weight_dtype settings) as [w|] eqn:Hw, (ps_mode settings) eqn:Hm, pb as [bundle|];
    try (exfalso; destruct Hcase as [[? [? ?]]|[? ?]]; discriminate).
  all: rewrite ?Hw, ?Hm; cbn -[dumps WorkloadProfile_dump StageAssignment_dump digest str_take].
  all: apply dumps_fields_Permutation; [|apply py_unique_NoDup; reflexivity].
  all: destruct (mc_tied_embeddings (mm_config manifest)); cbn -[WorkloadProfile_dump StageAssignment_dump digest].
  all: pick_permutation.
Qed.


(** *** Measured mode, against the evidence interface *)

Lemma candidate_measured `{!MeasuredEvidenceLaws B} manifest workload settings bundle first final link split c :
  candidate manifest workload settings (Some bundle) first final link split = Ok c ->
  ps_mode settings = MEASURED ->
  exists status reasons,
    bundle_evaluate bundle manifest workload
      (assignments_for (wp_worker_id first) (wp_worker_id final) split
         (mc_num_layers (mm_config manifest)))
      (ps_weight_dtype settings) = Ok (status, reasons, pc_performance c) /\
    (pc_feasible c = true -> status = "measured" /\ pc_measurement_status c = Some "measured" /\
       exists p ttft, pc_performance c = Some p /\ pe_ttft_ms p = Some ttft).
Proof.
  unfold candidate. intros E Hmode. do 5 (apply bind_ok in E as (? & _ & E)).
  apply bind_ok in E as ([[st all] perf] & Hall & E). apply bind_ok in E as (score & _ & E).
  rewrite Hmode in Hall. cbn [pyeqb] in Hall. rewrite (pyeqb_refl MEASURED) in Hall.
  apply bind_ok in Hall as ([[status mreasons] measured] & Hev & Hall). apply Ok_inj in Hall.
  injection Hall as <- <- <-. inv_ok. exists status, mreasons. split; [exact Hev|]. simpl.
  destruct (evaluate_contract _ _ _ _ _ _ _ _ Hev) as (Hst & Hperf & _). intros Hf.
  match type of Hf with match ?l ++ _ with _ => _ end = _ => destruct l as [|r rs] eqn:Hr; [|done] end.
  simpl in *. destruct mreasons; [|done]. rewrite (proj2 Hst eq_refl) in *. split; [done|]. split; [done|].
  by apply Hperf.
Qed.

(** C15: in measured mode every candidate was evaluated on its own placement against
    the sealed bundle, and only placements with complete measured evidence are
    feasible: whatever evaluator is behind the interface, a feasible candidate
    carries the status "measured" and an estimate with a time to first token. *)
Theorem measured_candidates_evidenced `{!MeasuredEvidenceLaws B}
    manifest a b links workload settings bundle report c :
  create_plan manifest [a; b] links workload (Some settings) (Some bundle) = Ok report ->
  ps_mode settings = MEASURED -> c ∈ pr_candidates report ->
  exists status reasons,
    bundle_evaluate bundle manifest workload
      (assignments_for (pc_stage_zero_worker_id c) (pc_final_stage_worker_id c) (pc_split_layer c)
         (mc_num_layers (mm_config manifest)))
      (ps_weight_dtype settings) = Ok (status, reasons, pc_performance c) /\
    (pc_feasible c = true -> status = "measured" /\ pc_measurement_status c = Some "measured" /\
       exists p ttft, pc_performance c = Some p /\ pe_ttft_ms p = Some ttft).
Proof.
  intros E Hmode Hin. apply create_plan_ok in E as (a' & b' & raw & [= <- <-] & _ & Hraw & Hc & _).
  rewrite Hc in Hin. apply list_elem_of_fmap in Hin as (c0 & -> & Hin). simpl in *.
  apply raw_candidates_ok in Hraw as (fwd & bwd & -> & Hfwd & Hbwd).
  apply elem_of_app in Hin as [[i Hi]%list_elem_of_lookup|[i Hi]%list_elem_of_lookup];
    [destruct (Forall2_lookup_r _ _ _ _ _ Hfwd Hi) as (split & _ & Hcand)
    |destruct (Forall2_lookup_r _ _ _ _ _ Hbwd Hi) as (split & _ & Hcand)].
  all: pose proof Hcand as (?&?&?&?&_&_&_&_&_&_&Hz&Hfn&Hs&_)%candidate_spec; rewrite Hz, Hfn, Hs.
  all: by eapply candidate_measured.
Qed.

(** *** Scores in feasibility mode *)

Lemma candidate_score manifest workload settings pb first final link split c :
  candidate manifest workload settings pb first final link split = Ok c -> pc_feasible c = true ->
  exists perf score, _candidate_score (pc_stages c) perf settings link = Ok score /\
    pc_score c = Some score.
Proof.
  unfold candidate. intros E Hf. do 5 (apply bind_ok in E as (? & _ & E)).
  apply bind_ok in E as ([[status all] perf] & _ & E). apply bind_ok in E as (score & Hscore & E).
  inv_ok. simpl in *. rewrite Hf in Hscore. apply bind_ok in Hscore as (s & Hs & Hscore).
  injection Hscore as <-. eauto.
Qed.

Lemma stage_pressure_finite manifest worker workload settings start end_ first final st :
  _stage_memory manifest worker workload settings start end_ first final = Ok st ->
  WorkloadProfile_fields workload = true -> PositiveInt (wp_activation_buffer_count worker) = true ->
  (0 < mc_hidden_size (mm_config manifest))%Z -> (sm_required_bytes st <= sm_usable_bytes st)%Z ->
  is_finite (sm_pressure st) = true.
Proof.
  intros E Hwl Hcount Hh Hfit. pose proof E as E'.
  apply stage_memory_spec in E' as (budget & _ & _ & _ & _ & _ & _ & _ & Hact & Hreq & Hst).
  unfold WorkloadProfile_fields, PositiveInt, StageMemory_fields, NonNegativeInt in *. bool_to_prop.
  pose proof (DTYPE_BYTES_pos (wl_activation_dtype workload)).
  assert (0 < sm_activation_buffer_bytes st)%Z by (rewrite Hact; repeat apply Z.mul_pos_pos; lia).
  unfold _stage_memory in E. destruct (budget_for _ _) as [b|]; [|done].
  apply bind_ok in E as (b' & _ & E). inv_ok. simpl in *.
  match goal with Hp : (if ?u == 0%Z then _ else _) = Ok _ |- _ => destruct (u == 0%Z) eqn:Hu end.
  - bool_to_prop. lia.
  - by eapply py_truediv_finite.
Qed.

(** In feasibility mode no score is a NaN, so the ranking is a total order of
    the feasible candidates whatever the model, the workers and the workload. *)
Lemma feasibility_scores_comparable manifest a b links workload settings pb report :
  create_plan manifest [a; b] links workload (Some settings) pb = Ok report ->
  ps_mode settings = FEASIBILITY -> WorkloadProfile_fields workload = true ->
  WorkerProfile_fields a = true -> WorkerProfile_fields b = true ->
  (0 < mc_hidden_size (mm_config manifest))%Z ->
  Forall (fun c => pc_feasible c = true -> comparable c) (pr_candidates report).
Proof.
  intros E Hm Hwl Ha Hb Hh. apply create_plan_ok in E as (a' & b' & raw & [= <- <-] & _ & Hraw & -> & _).
  apply ranked_Forall; [done|].
  assert (Hone : forall first final link split c, WorkerProfile_fields first = true ->
    WorkerProfile_fields final = true ->
    candidate manifest workload settings pb first final link split = Ok c ->
    pc_feasible c = true -> comparable c).
  { clear Hraw. intros first final link split c Hfirst Hfinal E Hf. pose proof E as E'.
    apply candidate_spec in E' as (st0&st1&r0&r1&Hst0&Hst1&Hr0&Hr1&Hst&_&_&_&_&_&_&Hfeas&_).
    destruct (Hfeas Hf) as (-> & -> & _). apply stage_reasons_nil in Hr0 as [Hr0 _], Hr1 as [Hr1 _].
    unfold WorkerProfile_fields in *. bool_to_prop.
    assert (is_finite (sm_pressure st0) = true) by by eapply stage_pressure_finite.
    assert (is_finite (sm_pressure st1) = true) by by eapply stage_pressure_finite.
    destruct (candidate_score _ _ _ _ _ _ _ _ _ E Hf) as (perf & score & Hscore & Hs).
    rewrite Hst in Hscore. unfold _candidate_score in Hscore. rewrite Hm in Hscore. injection Hscore as <-.
    unfold comparable, score_key. rewrite Hs. simpl.
    apply fadd_not_nan; [unfold fmax; by case_match|].
    apply fmul_not_nan, fabs_not_nan, fsub_not_nan; [done|]. by destruct (sm_pressure st1). }
  apply raw_candidates_ok in Hraw as (fwd & bwd & -> & Hfwd & Hbwd).
  apply Forall_app. split; apply Forall_forall; intros c [i Hi]%list_elem_of_lookup.
  - destruct (Forall2_lookup_r _ _ _ _ _ Hfwd Hi) as (? & _ & ?). by eapply (Hone a b).
  - destruct (Forall2_lookup_r _ _ _ _ _ Hbwd Hi) as (? & _ & ?). by eapply (Hone b a).
Qed.
End planner.

(** ** A concrete planning run

    A three-layer model on two workers, with a constant hash and no measured
    evidence: the theorems above hold of it, so their hypotheses can be met. *)
Module PlannerDemo.

#[local] Instance demo_hash : Hash := fun _ =>
  "0123456789abcdef0123456789abcdef0123456789abcdef0123456789abcdef".

#[local] Instance demo_hash_laws : HashLaws.
Proof. intros s. reflexivity. Qed.

#[local] Instance no_evidence : MeasuredEvidence Empty_set := {
  bundle_workers b := match b with end;
  bundle_digest b := match b with end;
  bundle_evaluate b _ _ _ _ := match b with end
}.

Definition demo_tensor (name : string) (role : TensorRole) (layer : option Z) (shape : list Z)
    : TensorRecord := {|
  tr_name := name; tr_file := "model.safetensors"; tr_dtype := F16; tr_shape := shape;
  tr_data_offset := 0; tr_byte_length := 0; tr_role := role; tr_layer_index := layer;
  tr_shared_weight_group := None |}.

Definition demo_manifest : ModelManifest := {|
  mm_schema_version := "1.1"; mm_manifest_id := "demo"; mm_manifest_digest := "demo";
  mm_source := {| sd_model_id := "demo"; sd_revision := None; sd_config_sha256 := "c";
                  sd_index_sha256 := None; sd_tensor_metadata_sha256 := None |};
  mm_architecture := {| ad_architecture_id := "llama-v1"; ad_architecture_revision := "1";
                        ad_feature_flags := [] |};
  mm_config := {| mc_hidden_size := 8; mc_intermediate_size := 16; mc_num_layers := 3;
    mc_num_attention_heads := 2; mc_num_kv_heads := 1; mc_head_dim := 4;
    mc_vocabulary_size := 16; mc_maximum_sequence_length := 64; mc_tied_embeddings := true;
    mc_rms_norm_eps := literal 1 100000; mc_rope_theta := literal 10000 1; mc_rope_scaling := None;
    mc_hidden_activation := "silu"; mc_attention_bias := false; mc_mlp_bias := false;
    mc_eos_token_ids := [] |};
  mm_tensor_files := [];
  mm_tensors := [demo_tensor "embed" TOKEN_EMBEDDING None [16; 8]%Z;
                 demo_tensor "l0" TRANSFORMER_LAYER (Some 0%Z) [8; 8]%Z;
                 demo_tensor "l1" TRANSFORMER_LAYER (Some 1%Z) [8; 8]%Z;
                 demo_tensor "l2" TRANSFORMER_LAYER (Some 2%Z) [8; 8]%Z;
                 demo_tensor "norm" FINAL_NORM None [8]%Z;
                 demo_tensor "head" LM_HEAD None [16; 8]%Z];
  mm_components := []; mm_total_storage_bytes := 0 |}.

Definition demo_worker (id : string) (capacity : Z) : WorkerProfile := {|
  wp_schema_version := "1.0"; wp_worker_id := id; wp_endpoint := "127.0.0.1:1";
  wp_backend := CPU; wp_primary_memory_domain := HOST;
  wp_supported_architectures := ["llama-v1"]; wp_supported_execution_dtypes := [F16];
  wp_supports_mixed_precision := false;
  wp_memory_budgets := [{| mb_domain := HOST; mb_capacity_bytes := capacity;
                           mb_runtime_reserve_bytes := 0; mb_safety_fraction := f0 |}];
  wp_fixed_workspace_bytes := 16; wp_activation_buffer_count := 1;
  wp_allocator_allowance_fraction := f0; wp_host_transport_buffer_bytes := 64;
  wp_provenance := PROV_CONFIGURED; wp_observed_available_host_bytes := None;
  wp_observed_at := None |}.

Definition demo_workload : WorkloadProfile := {|
  wl_schema_version := "1.0"; wl_workload_id := "w"; wl_prompt_tokens := 4;
  wl_output_tokens := 4; wl_concurrency := 1; wl_total_cached_tokens := 8;
  wl_kv_overhead_factor := f1; wl_kv_dtype := F16; wl_activation_dtype := F16;
  wl_prefill_chunk_tokens := 0 |}.

Definition demo_plan (a b : WorkerProfile) : result PlanningReport :=
  create_plan demo_manifest [a; b] [] demo_workload (Some default_settings) (None : option Empty_set).

Definition empty_report : PlanningReport :=
  report_of demo_manifest demo_workload default_settings None [] None [].
Definition report_or (r : result PlanningReport) : PlanningReport :=
  match r with Ok x => x | Err _ => empty_report end.

Definition alpha : WorkerProfile := demo_worker "alpha" 2000.
Definition beta : WorkerProfile := demo_worker "beta" 800.
Definition demo_report : PlanningReport := Eval vm_compute in report_or (demo_plan alpha beta).

Lemma demo_plan_ok :
  create_plan demo_manifest [alpha; beta] [] demo_workload (Some default_settings)
    (None : option Empty_set) = Ok demo_report.
Proof. vm_compute. reflexivity. Qed.

Lemma demo_orders : orders_distinct (wp_worker_id alpha) (wp_worker_id beta).
Proof. by vm_compute. Qed.

Lemma demo_comparable :
  Forall (fun c => pc_feasible c = true -> comparable c) (pr_candidates demo_report).
Proof. vm_compute. repeat constructor. Qed.



Lemma create_plan_ranks_witness :
  exists c, c ∈ pr_candidates demo_report /\ pc_rank c = Some 2%Z.
Proof.
  apply (proj1 (proj2 (create_plan_ranks _ _ _ _ _ _ _ _ demo_plan_ok demo_orders demo_comparable))).
  by vm_compute.
Defined.

Lemma feasible_candidates_fit_witness :
  exists c first, c ∈ pr_candidates demo_report /\ stage_fits (fst (pc_stages c)) first.
Proof.
  assert (Hc : exists c, c ∈ pr_candidates demo_report /\ pc_feasible c = true).
  { eexists. split; [apply list_elem_of_further, list_elem_of_here|reflexivity]. }
  destruct Hc as (c & Hin & Hf).
  destruct (feasible_candidates_fit _ _ _ _ _ _ _ _ c demo_plan_ok eq_refl Hin Hf)
    as (first & final & _ & _ & _ & Hfit & _).
  by exists c, first.
Defined.

Lemma plan_partitions_layers_witness :
  exists plan s0 s1, pr_plan demo_report = Some plan /\ dp_stages plan = [s0; s1] /\
    forall i, (0 <= i < 3)%Z <-> ((sa_layer_start s0 <= i < sa_layer_end s0)
                               \/ (sa_layer_start s1 <= i < sa_layer_end s1))%Z.
Proof.
  destruct (plan_partitions_layers _ _ _ _ _ _ _ _ _ demo_plan_ok eq_refl)
    as (s0 & s1 & Hst & _ & _ & Hcover & _).
  eexists _, s0, s1. split; [reflexivity|]. split; [exact Hst|exact Hcover].
Defined.

Lemma stage_weights_conserve_witness :
  (_stage_weight_bytes demo_manifest 0 1 true false F16
   + _stage_weight_bytes demo_manifest 1 3 false true F16 = 656 + 256)%Z.
Proof.
  etrans; [apply (stage_weights_conserve demo_manifest 1 F16); [|by vm_compute]|reflexivity].
  unfold layers_in_range. repeat constructor; intros Hr; try discriminate Hr.
  all: eexists; split; [reflexivity|]; by vm_compute.
Defined.

Lemma create_plan_total_witness :
  is_ok (create_plan demo_manifest [alpha; beta] [] demo_workload (Some default_settings)
           (None : option Empty_set)) = true.
Proof.
  rewrite (create_plan_total demo_manifest alpha beta [] demo_workload default_settings
    (None : option Empty_set) eq_refl); [by vm_compute|]. by intros [].
Defined.

Definition mixed_settings : PlannerSettings := {|
  ps_mode := FEASIBILITY; ps_execution_dtype := F32; ps_weight_dtype := Some F16;
  ps_objective_weights := default_weights |}.

Lemma plan_digest_of_plan_witness :
  exists selected plan,
    deployment_plan demo_manifest demo_workload mixed_settings (None : option Empty_set) selected
      = Ok plan /\ dp_plan_digest plan = digest (DeploymentPlan_unsigned plan).
Proof.
  assert (Hs : exists s plan, pr_candidates demo_report !! 2%nat = Some s /\
    deployment_plan demo_manifest demo_workload mixed_settings (None : option Empty_set) s = Ok plan).
  { eexists _, _. split; [reflexivity|]. lazy. reflexivity. }
  destruct Hs as (s & plan & _ & Hplan). exists s, plan. split; [done|].
  apply (proj1 (plan_digest_of_plan _ _ _ _ _ _ Hplan (or_intror (ex_intro _ F16 eq_refl)))).
Defined.

Lemma feasibility_scores_comparable_witness :
  Forall (fun c => pc_feasible c = true -> comparable c) (pr_candidates demo_report).
Proof. by apply (feasibility_scores_comparable _ _ _ _ _ _ _ _ demo_plan_ok). Defined.

End PlannerDemo.
