(* ===== verification/Safetensors.v ===== *)
(** * Safetensors inspection (src/python/hllm_control/prepare/safetensors.py)

    The header of a container is read and checked without loading payloads:
    every entry's byte length agrees with its shape and type, and the byte
    ranges of a file are pairwise disjoint and inside its data section.  A file
    is the text of its bytes; [json.loads] is the class [JsonLoads]. *)

From Stdlib Require Import Ascii.
From S2P Require Export Models.

(** [json.loads] of decoded text and of raw bytes; [None] is a decoding error. *)
Class JsonLoads := {
  loads_text : string -> option json;
  loads_bytes : string -> option json
}.

Definition MAX_HEADER_BYTES : Z := 128 * 1024 * 1024.

Record InspectedTensor := {
  it_name : string;
  it_dtype : DType;
  it_shape : list Z;
  it_data_offset : Z;
  it_byte_length : Z
}.

Record InspectedFile := {
  if_path : string;
  if_size_bytes : Z;
  if_header_size_bytes : Z;
  if_tensors : list InspectedTensor
}.

Definition _product (values : list Z) : Z := foldl Z.mul 1%Z values.

(** [isinstance(item, int) and not isinstance(item, bool)] *)
Definition json_int (j : json) : option Z := match j with JInt n => Some n | _ => None end.

Definition shape_item (j : json) : option Z :=
  match j with JInt n => if (n <? 0)%Z then None else Some n | _ => None end.

Definition tensor_error {A} (name tail : string) : result A :=
  raise SafetensorsError (String.append "tensor " (String.append (py_repr name) tail)).

Definition _parse_entry (name : string) (raw : json) : result InspectedTensor :=
  match raw with
  | JObj entry =>
    match assoc_get "dtype" entry, assoc_get "shape" entry, assoc_get "data_offsets" entry with
    | Some raw_dtype, Some raw_shape, Some raw_offsets =>
      match raw_dtype with
      | JStr value =>
        match dtype_of_value value with
        | None => tensor_error name (String.append " has unsupported dtype " (py_repr value))
        | Some dtype =>
          match raw_shape with
          | JArr shape_values =>
            match mapM shape_item shape_values with
            | None => tensor_error name " has an invalid shape"
            | Some shape =>
              match raw_offsets with
              | JArr [JInt start; JInt end_] =>
                if (start <? 0)%Z || (end_ <? start)%Z
                then tensor_error name " has an invalid data range"
                else
                  let expected_bytes := (_product shape * DTYPE_BYTES dtype)%Z in
                  if (end_ - start != expected_bytes)%Z
                  then tensor_error name
                         (String.append " byte length is " (String.append (pretty (end_ - start)%Z)
                            (String.append ", expected " (pretty expected_bytes))))
                  else Ok {| it_name := name; it_dtype := dtype; it_shape := shape;
                             it_data_offset := start; it_byte_length := (end_ - start)%Z |}
              | _ => tensor_error name " has invalid data offsets"
              end
            end
          | _ => tensor_error name " has an invalid shape"
          end
        end
      | _ => tensor_error name " has an invalid dtype"
      end
    | _, _, _ => tensor_error name " has invalid metadata"
    end
  | _ => tensor_error name " metadata must be an object"
  end.

(** [struct.unpack("<Q", raw)] of eight bytes. *)
Fixpoint little_endian (s : string) : Z :=
  match s with
  | EmptyString => 0
  | String c s' => (Z.of_N (N_of_ascii c) + 256 * little_endian s')%Z
  end.

Definition range := (Z * Z * string)%type.
Definition tensor_range (t : InspectedTensor) : range :=
  (it_data_offset t, (it_data_offset t + it_byte_length t)%Z, it_name t).
Definition range_start (r : range) : Z := fst (fst r).
Definition range_end (r : range) : Z := snd (fst r).

(** The scan of the ranges in the order of their starts. *)
Fixpoint check_ranges (data_size previous_end : Z) (ranges : list range) : result unit :=
  match ranges with
  | [] => Ok tt
  | (start, end_, name) :: rest =>
    if (start <? previous_end)%Z then tensor_error name " overlaps an earlier tensor"
    else if (data_size <? end_)%Z then tensor_error name " extends beyond the data section"
    else check_ranges data_size end_ rest
  end.

Definition name_lt (a b : InspectedTensor) : bool := str_lt (it_name a) (it_name b).
Definition start_lt (a b : range) : bool := (range_start a <? range_start b)%Z.

Definition inspect_safetensors `{JsonLoads} (path : string) (content : string)
    : result InspectedFile :=
  let size_bytes := Z.of_nat (String.length content) in
  let error tail := raise SafetensorsError (String.append path tail) in
  if (size_bytes <? 8)%Z then error " is too short to be a Safetensors file"
  else
    let header_length := little_endian (str_take 8 content) in
    if (header_length == 0%Z) || (MAX_HEADER_BYTES <? header_length)%Z
    then error (String.append " has invalid header length " (pretty header_length))
    else if (size_bytes <? 8 + header_length)%Z then error " header extends beyond the file"
    else
      let header_bytes := str_take (Z.to_nat header_length) (str_drop 8 content) in
      match loads_bytes header_bytes with
      | None => error " contains an invalid JSON header"
      | Some (JObj header) =>
        parsed ← mapM (fun '(name, raw) => _parse_entry name raw)
                   (List.filter (fun item => fst item != "__metadata__") header);
        let tensors := py_sorted name_lt parsed in
        match tensors with
        | [] => error " does not contain tensors"
        | _ =>
          let data_size := (size_bytes - 8 - header_length)%Z in
          check_ranges data_size 0 (py_sorted start_lt (tensor_range <$> tensors)) ;;
          Ok {| if_path := path; if_size_bytes := size_bytes;
                if_header_size_bytes := (8 + header_length)%Z; if_tensors := tensors |}
        end
      | Some _ => error " header must be a JSON object"
      end.

(** ** One entry *)

Definition tensor_well_formed (t : InspectedTensor) : Prop :=
  (0 <= it_data_offset t)%Z /\ Forall (fun d => 0 <= d)%Z (it_shape t) /\
  it_byte_length t = (_product (it_shape t) * DTYPE_BYTES (it_dtype t))%Z.

Lemma shape_item_nonneg l shape :
  mapM shape_item l = Some shape -> Forall (fun d => 0 <= d)%Z shape.
Proof.
  intros ?%mapM_Some. apply Forall_forall. intros d [i Hi]%list_elem_of_lookup.
  destruct (Forall2_lookup_r _ _ _ _ _ H Hi) as (j & _ & Hj).
  destruct j; try done. simpl in Hj. destruct (Z.ltb_spec n 0); [done|]. by simplify_eq.
Qed.

Lemma parse_entry_ok name raw t :
  _parse_entry name raw = Ok t -> it_name t = name /\ tensor_well_formed t.
Proof.
  unfold _parse_entry, tensor_error. destruct raw as [| | | | | |entry]; try done.
  destruct (assoc_get "dtype" entry) as [raw_dtype|], (assoc_get "shape" entry) as [raw_shape|],
    (assoc_get "data_offsets" entry) as [raw_offsets|]; try done.
  destruct raw_dtype; try done. destruct (dtype_of_value s) as [d|]; [|done].
  destruct raw_shape; try done. destruct (mapM shape_item l) as [shape|] eqn:Hs; [|done].
  destruct raw_offsets as [| | | | |[|[] [|[] [|]]]|]; try done.
  destruct (_ || _) eqn:Hr; [done|]. destruct (_ != _) eqn:Hb; [done|]. intros [= <-].
  bool_to_prop. split; [done|]. unfold tensor_well_formed. simpl.
  split; [done|]. split; [by eapply shape_item_nonneg|done].
Qed.

Lemma byte_length_nonneg t : tensor_well_formed t -> (0 <= it_byte_length t)%Z.
Proof.
  intros (_ & Hs & ->). unfold _product. pose proof (DTYPE_BYTES_pos (it_dtype t)).
  pose proof (foldl_mul_nonneg (it_shape t) 1 ltac:(lia) Hs). nia.
Qed.

(** ** Ranges *)

Definition range_disjoint (r1 r2 : range) : Prop :=
  (range_end r1 <= range_start r2)%Z \/ (range_end r2 <= range_start r1)%Z.

Lemma check_ranges_ok data_size previous ranges u :
  check_ranges data_size previous ranges = Ok u ->
  Forall (fun r => range_start r <= range_end r)%Z ranges ->
  Forall (fun r => previous <= range_start r /\ range_end r <= data_size)%Z ranges /\
  StronglySorted range_disjoint ranges.
Proof.
  revert previous. induction ranges as [|[[s e] n] rest IH]; intros previous; simpl.
  { split; constructor. }
  destruct (Z.ltb_spec s previous); [done|]. destruct (Z.ltb_spec data_size e); [done|].
  intros Hc [Hse Hw]%Forall_cons. destruct (IH _ Hc Hw) as [Hb Hs].
  unfold range_start, range_end in *. simpl in *.
  split; constructor; try done.
  - eapply Forall_impl; [exact Hb|]. simpl. intros. lia.
  - eapply Forall_impl; [exact Hb|]. intros r ?. left. unfold range_start, range_end. simpl in *. lia.
Qed.

Definition tensor_disjoint (t1 t2 : InspectedTensor) : Prop :=
  range_disjoint (tensor_range t1) (tensor_range t2).

Lemma fmap_StronglySorted {A B} (f : A -> B) (R : B -> B -> Prop) l :
  StronglySorted R (f <$> l) -> StronglySorted (fun x y => R (f x) (f y)) l.
Proof.
  induction l as [|x l IH]; [constructor|]. rewrite fmap_cons.
  intros [Hx Hl]%StronglySorted_cons. constructor; [auto|]. by rewrite Forall_fmap in Hx.
Qed.

Lemma little_endian_nonneg s : (0 <= little_endian s)%Z.
Proof. induction s as [|c s IH]; simpl; lia. Qed.

Lemma inspect_safetensors_ok `{JsonLoads} path content f :
  inspect_safetensors path content = Ok f ->
  exists header parsed, if_path f = path /\
    if_size_bytes f = Z.of_nat (String.length content) /\
    if_header_size_bytes f = (8 + little_endian (str_take 8 content))%Z /\
    (8 < if_header_size_bytes f <= 8 + MAX_HEADER_BYTES)%Z /\
    (if_header_size_bytes f <= if_size_bytes f)%Z /\
    loads_bytes (str_take (Z.to_nat (if_header_size_bytes f - 8)) (str_drop 8 content))
      = Some (JObj header) /\
    mapM (fun '(name, raw) => _parse_entry name raw)
      (List.filter (fun item => fst item != "__metadata__") header) = Ok parsed /\
    if_tensors f = py_sorted name_lt parsed /\ if_tensors f <> [] /\
    check_ranges (if_size_bytes f - if_header_size_bytes f) 0
      (py_sorted start_lt (tensor_range <$> if_tensors f)) = Ok tt.
Proof.
  unfold inspect_safetensors. intros E.
  destruct (_ <? 8)%Z; [done|]. destruct (_ || _) eqn:Hl; [done|].
  destruct (_ <? 8 + _)%Z eqn:Hsz; [done|]. destruct (loads_bytes _) as [[| | | | | |header]|] eqn:Hj; try done.
  apply bind_ok in E as (parsed & Hp & E).
  assert (Hne : py_sorted name_lt parsed <> []) by (intros Hnil; by rewrite Hnil in E).
  destruct (py_sorted name_lt parsed) as [|t ts] eqn:Hts; [done|]. rewrite <- Hts in *.
  apply bind_ok in E as ([] & Hc & E). apply Ok_inj in E as <-.
  exists header, parsed. cbn [if_path if_size_bytes if_header_size_bytes if_tensors].
  bool_to_prop. set (n := little_endian (str_take 8 content)) in *.
  assert (0 <= n)%Z by apply little_endian_nonneg.
  replace (8 + n - 8)%Z with n by lia. rewrite Z.sub_add_distr.
  split_and!; try done; lia.
Qed.

(** Every tensor of an inspected file, and every two of them. *)
Definition file_layout_ok (f : InspectedFile) : Prop :=
  (8 < if_header_size_bytes f <= if_size_bytes f)%Z /\ if_tensors f <> [] /\
  Forall (fun t => tensor_well_formed t /\
    (it_data_offset t + it_byte_length t <= if_size_bytes f - if_header_size_bytes f)%Z) (if_tensors f) /\
  StronglySorted tensor_disjoint (if_tensors f) /\
  StronglySorted (not_after name_lt) (if_tensors f).

Lemma layout_of_inspection `{JsonLoads} path content f :
  inspect_safetensors path content = Ok f -> file_layout_ok f.
Proof.
  intros (header & parsed & _ & _ & _ & Hh & Hsz & _ & Hp & Ht & Hne & Hc)%inspect_safetensors_ok.
  assert (Hwf : Forall tensor_well_formed (if_tensors f)).
  { rewrite Ht, py_sorted_Permutation. apply mapM_ok in Hp. apply Forall_forall.
    intros t [i Hi]%list_elem_of_lookup. destruct (Forall2_lookup_r _ _ _ _ _ Hp Hi) as ([n raw] & _ & He).
    by apply parse_entry_ok in He as [_ ?]. }
  apply check_ranges_ok in Hc as [Hb Hs].
  2: { rewrite py_sorted_Permutation, Forall_fmap. eapply Forall_impl; [exact Hwf|].
       intros t Hwt%byte_length_nonneg. unfold range_start, range_end. simpl. lia. }
  rewrite py_sorted_Permutation, Forall_fmap in Hb.
  unfold file_layout_ok. split_and!; try lia; try done.
  - rewrite Forall_forall in Hb, Hwf |- *. intros t Hin. split; [by apply Hwf|].
    by destruct (Hb t Hin).
  - apply (fmap_StronglySorted tensor_range range_disjoint).
    eapply StronglySorted_Permutation; [|by apply py_sorted_Permutation|exact Hs].
    unfold range_disjoint. tauto.
  - rewrite Ht. apply (py_sorted_StronglySorted _ (fun _ => True)).
    + intros ? ? _ _. apply str_lt_asym.
    + intros ? ? ? _ _ _. apply str_le_trans.
    + by apply Forall_true.
Qed.

(** C13: an accepted container is safe to map: every tensor's byte length is the
    product of its shape times its element size, its range lies inside the data
    section of the file, the ranges of different tensors are disjoint, and the
    tensors are in the order of their names. *)
Theorem inspect_safetensors_layout `{JsonLoads} path content f :
  inspect_safetensors path content = Ok f -> file_layout_ok f.
Proof. apply layout_of_inspection. Qed.

(** The scan accepts every list of ranges that is in order, disjoint and in bounds. *)
Fixpoint ranges_in_order (data_size previous : Z) (ranges : list range) : Prop :=
  match ranges with
  | [] => True
  | r :: rest => (previous <= range_start r)%Z /\ (range_end r <= data_size)%Z
                 /\ ranges_in_order data_size (range_end r) rest
  end.

Lemma check_ranges_iff data_size previous ranges :
  check_ranges data_size previous ranges = Ok tt <-> ranges_in_order data_size previous ranges.
Proof.
  revert previous. induction ranges as [|[[s e] n] rest IH]; intros previous; simpl; [done|].
  unfold range_start, range_end, tensor_error. simpl.
  destruct (Z.ltb_spec s previous); [split; [done|]; intros; lia|].
  destruct (Z.ltb_spec data_size e); [split; [done|]; intros; lia|].
  rewrite IH. intuition.
Qed.

(** ** A concrete container: two tensors of four and eight bytes *)
Module SafetensorsDemo.

Definition demo_entry (a b : Z) (n : Z) : json :=
  JObj [("dtype", JStr "F16"); ("shape", JArr [JInt n]); ("data_offsets", JArr [JInt a; JInt b])].

#[local] Instance demo_loads : JsonLoads := {
  loads_text _ := None;
  loads_bytes s := if String.eqb s "{}" then
    Some (JObj [("b", demo_entry 4 12 4); ("__metadata__", JNull); ("a", demo_entry 0 4 2)]) else None
}.

Definition demo_content : string :=
  String "002" (String "000" (String "000" (String "000" (String "000" (String "000"
    (String "000" (String "000" "{}0123456789ab"))))))).

Lemma inspect_safetensors_layout_witness :
  exists f, inspect_safetensors "m.safetensors" demo_content = Ok f /\
    it_name <$> if_tensors f = ["a"; "b"] /\ file_layout_ok f.
Proof.
  eexists. split; [lazy; reflexivity|]. split; [reflexivity|].
  apply (inspect_safetensors_layout "m.safetensors" demo_content). lazy. reflexivity.
Defined.
End SafetensorsDemo.
