(* ===== verification/Llama.v ===== *)
(** * Architecture adapters (src/python/hllm_control/prepare/llama.py, qwen3.py)

    Reading a [config.json] into a validated [ModelConfig], the classification
    of tensor names into pipeline roles, the names a checkpoint must have, and
    the shapes they must have.  A raw configuration is a parsed JSON object. *)

From Stdlib Require Import Ascii.
From S2P Require Export Models.

Definition LAYER_SUFFIXES : list string := [
  "input_layernorm.weight"; "post_attention_layernorm.weight"; "self_attn.q_proj.weight";
  "self_attn.k_proj.weight"; "self_attn.v_proj.weight"; "self_attn.o_proj.weight";
  "mlp.gate_proj.weight"; "mlp.up_proj.weight"; "mlp.down_proj.weight"].

Record TensorOwnership := {
  to_role : TensorRole;
  to_layer_index : option Z;
  to_shared_weight_group : option string
}.

Record ModelDescription := {
  md_architecture : ArchitectureDescriptor;
  md_config : ModelConfig
}.

Definition raw_config := list (string * json).

Definition architecture_error {A} (msg : string) : result A := raise ArchitectureError msg.

Definition field_error {A} (key tail : string) : result A :=
  architecture_error (String.append "config field " (String.append (py_repr key) tail)).

(** ** Reading fields *)

Definition _required_positive_int (config : raw_config) (key : string) : result Z :=
  match assoc_get key config with
  | Some (JInt n) => if (n <=? 0)%Z then field_error key " must be a positive integer" else Ok n
  | _ => field_error key " must be a positive integer"
  end.

Definition _positive_float (config : raw_config) (key : string) (default_value : float)
    : result float :=
  match default (JFloat default_value) (assoc_get key config) with
  | JInt n => if (n <=? 0)%Z then field_error key " must be a positive number" else float_of_int n
  | JFloat x => if fle x f0 then field_error key " must be a positive number" else Ok x
  | _ => field_error key " must be a positive number"
  end.

Definition _boolean (config : raw_config) (key : string) (default_value : bool) : result bool :=
  match default (JBool default_value) (assoc_get key config) with
  | JBool b => Ok b
  | _ => field_error key " must be a boolean"
  end.

Definition token_id (j : json) : option Z :=
  match j with JInt n => if (n <? 0)%Z then None else Some n | _ => None end.

Definition _eos_token_ids (config : raw_config) : result (list Z) :=
  match assoc_get "eos_token_id" config with
  | None | Some JNull => Ok []
  | Some value =>
    let values := match value with JArr l => l | _ => [value] end in
    match mapM token_id values with
    | Some ids => Ok (dict_fromkeys ids)
    | None => architecture_error
        "config field 'eos_token_id' must be a non-negative integer or list"
    end
  end.

(** [bool(j)], [s in j], [j == 1] on JSON values. *)
Definition json_truthy (j : json) : bool :=
  match j with
  | JNull => false
  | JBool b => b
  | JInt n => negb (n =? 0)%Z
  | JFloat x => x != f0
  | JStr s => negb (String.eqb s "")
  | JArr l => negb (length l =? 0)%nat
  | JObj d => negb (length d =? 0)%nat
  end.

Definition json_is_str (s : string) (j : json) : bool :=
  match j with JStr t => String.eqb s t | _ => false end.

Definition json_contains (s : string) (j : json) : result bool :=
  match j with
  | JArr l => Ok (existsb (json_is_str s) l)
  | JObj d => Ok (py_in s (fst <$> d))
  | JStr t => Ok (str_contains s t)
  | _ => raise TypeError "argument is not iterable"
  end.

Definition json_is_one (j : json) : bool :=
  match j with
  | JBool b => b
  | JInt n => (n =? 1)%Z
  | JFloat x => x == literal 1 1
  | _ => false
  end.

Definition is_none (o : option json) : bool :=
  match o with None | Some JNull => true | _ => false end.

(** ** Adapters

    The class attributes of an adapter; [Qwen3ArchitectureAdapter] overrides two
    methods and inherits the others. *)
Record AdapterData := {
  aa_architecture_id : string;
  aa_architecture_revision : string;
  aa_model_type : string;
  aa_model_class : string;
  aa_layer_suffixes : list string
}.

Definition llama_data : AdapterData := {|
  aa_architecture_id := "llama.v1"; aa_architecture_revision := "1"; aa_model_type := "llama";
  aa_model_class := "LlamaForCausalLM"; aa_layer_suffixes := LAYER_SUFFIXES |}.

Definition qwen3_data : AdapterData := {|
  aa_architecture_id := "qwen3.v1"; aa_architecture_revision := "1"; aa_model_type := "qwen3";
  aa_model_class := "Qwen3ForCausalLM";
  aa_layer_suffixes := LAYER_SUFFIXES ++ ["self_attn.q_norm.weight"; "self_attn.k_norm.weight"] |}.

Definition requires {A} (a : AdapterData) (tail : string) : result A :=
  architecture_error (String.append (aa_architecture_id a) tail).

Definition head_dim_of (raw : raw_config) (hidden_size num_attention_heads : Z) : result Z :=
  match assoc_get "head_dim" raw with
  | None | Some JNull =>
    if (hidden_size mod num_attention_heads =? 0)%Z
    then Ok (hidden_size / num_attention_heads)%Z
    else architecture_error
           "hidden_size must divide evenly by num_attention_heads when head_dim is absent"
  | Some (JInt n) => Ok n
  | Some _ => architecture_error "head_dim must be a positive integer"
  end.

(** The checks of [describe] on what the runtime cannot execute. *)
Definition check_supported (a : AdapterData) (raw : raw_config) (attention_bias mlp_bias : bool)
    : result unit :=
  (if attention_bias || mlp_bias
   then requires a " does not yet support attention or MLP bias tensors" else Ok tt) ;;
  (if json_is_str "silu" (default (JStr "silu") (assoc_get "hidden_act" raw)) then Ok tt
   else requires a " currently requires hidden_act='silu'") ;;
  (if json_is_one (default (JInt 1) (assoc_get "pretraining_tp" raw)) then Ok tt
   else requires a " currently requires pretraining_tp=1") ;;
  (if json_is_one (default (JFloat (literal 1 1)) (assoc_get "partial_rotary_factor" raw)) then Ok tt
   else requires a " currently requires partial_rotary_factor=1.0") ;;
  (if is_none (assoc_get "sliding_window" raw) then Ok tt
   else requires a " does not yet support sliding-window attention") ;;
  (if is_none (assoc_get "rope_scaling" raw) then Ok tt
   else requires a " currently supports unscaled RoPE only").

Definition feature_flags (c : ModelConfig) (explicit_head_dim : bool) : list string :=
  py_sorted str_lt
    ([if (mc_num_kv_heads c <? mc_num_attention_heads c)%Z then "gqa" else "mha";
      if mc_tied_embeddings c then "tied_embeddings" else "untied_embeddings"]
     ++ if explicit_head_dim then ["explicit_head_dim"] else []).

Definition llama_describe (a : AdapterData) (raw : raw_config) : result ModelDescription :=
  (if opt_ok (json_is_str (aa_model_type a)) (assoc_get "model_type" raw)
      && negb (is_none (assoc_get "model_type" raw)) then Ok tt
   else architecture_error (String.append "expected model_type=" (py_repr (aa_model_type a)))) ;;
  let architectures := default (JArr []) (assoc_get "architectures" raw) in
  declared ← (if json_truthy architectures then json_contains (aa_model_class a) architectures
              else Ok true);
  (if declared : bool then Ok tt
   else architecture_error (String.append "config does not declare " (aa_model_class a))) ;;
  hidden_size ← _required_positive_int raw "hidden_size";
  num_attention_heads ← _required_positive_int raw "num_attention_heads";
  head_dim ← head_dim_of raw hidden_size num_attention_heads;
  tied_embeddings ← _boolean raw "tie_word_embeddings" false;
  attention_bias ← _boolean raw "attention_bias" false;
  mlp_bias ← _boolean raw "mlp_bias" false;
  check_supported a raw attention_bias mlp_bias ;;
  intermediate_size ← _required_positive_int raw "intermediate_size";
  num_layers ← _required_positive_int raw "num_hidden_layers";
  num_kv_heads ← _required_positive_int raw "num_key_value_heads";
  vocabulary_size ← _required_positive_int raw "vocab_size";
  maximum_sequence_length ← _required_positive_int raw "max_position_embeddings";
  rms_norm_eps ← _positive_float raw "rms_norm_eps" (literal 1 1000000);
  rope_theta ← _positive_float raw "rope_theta" (literal 10000 1);
  eos_token_ids ← _eos_token_ids raw;
  config ← validate_ModelConfig {|
    mc_hidden_size := hidden_size; mc_intermediate_size := intermediate_size;
    mc_num_layers := num_layers; mc_num_attention_heads := num_attention_heads;
    mc_num_kv_heads := num_kv_heads; mc_head_dim := head_dim;
    mc_vocabulary_size := vocabulary_size;
    mc_maximum_sequence_length := maximum_sequence_length;
    mc_tied_embeddings := tied_embeddings; mc_rms_norm_eps := rms_norm_eps;
    mc_rope_theta := rope_theta; mc_rope_scaling := None; mc_hidden_activation := "silu";
    mc_attention_bias := attention_bias; mc_mlp_bias := mlp_bias;
    mc_eos_token_ids := eos_token_ids |};
  Ok {| md_architecture := {|
          ad_architecture_id := aa_architecture_id a;
          ad_architecture_revision := aa_architecture_revision a;
          ad_feature_flags := feature_flags config (negb (is_none (assoc_get "head_dim" raw))) |};
        md_config := config |}.

Definition json_is_false (j : json) : bool := match j with JBool false => true | _ => false end.

Definition qwen3_describe (raw : raw_config) : result ModelDescription :=
  (if json_is_false (default (JBool false) (assoc_get "use_sliding_window" raw)) then Ok tt
   else architecture_error "qwen3.v1 does not support sliding-window attention") ;;
  description ← llama_describe qwen3_data raw;
  (if (mc_head_dim (md_config description) mod 2 =? 0)%Z then Ok tt
   else architecture_error "qwen3.v1 requires an even head_dim for RoPE") ;;
  let arch := md_architecture description in
  Ok {| md_architecture := {|
          ad_architecture_id := ad_architecture_id arch;
          ad_architecture_revision := ad_architecture_revision arch;
          ad_feature_flags := py_sorted str_lt (ad_feature_flags arch ++ ["qk_norm"]) |};
        md_config := md_config description |}.

(** ** Classification of tensor names *)

(** The digits at the start of a text, and what follows them. *)
Fixpoint span_digits (s : string) : string * string :=
  match s with
  | String c s' => if is_digit c then let '(d, r) := span_digits s' in (String c d, r) else ("", s)
  | EmptyString => ("", "")
  end.

Definition layer_prefix : string := "model.layers.".

(** [LAYER_PATTERN.match(name)]: the group of digits, for ASCII digits. *)
Definition layer_match (name : string) : option string :=
  if py_startswith layer_prefix name then
    let '(digits, rest) := span_digits (str_drop (String.length layer_prefix) name) in
    match digits, rest with
    | String _ _, String c _ => if Ascii.eqb c "." then Some digits else None
    | _, _ => None
    end
  else None.

(** [int(digits)]; CPython refuses more than 4300 digits. *)
Definition int_of_digits (digits : string) : result Z :=
  if (4300 <? String.length digits)%nat
  then raise ValueError "Exceeds the limit (4300 digits) for integer string conversion"
  else Ok (Z.of_N (dec_value 0 digits)).

Definition expected_prefix (layer_index : Z) : string :=
  String.append layer_prefix (String.append (pretty layer_index) ".").

(** [s.capitalize()] of an ASCII word *)
Definition capitalize (s : string) : string :=
  match s with
  | String c s' =>
    let n := N_of_ascii c in
    String (if (97 <=? n)%N && (n <=? 122)%N then ascii_of_N (n - 32) else c) s'
  | EmptyString => ""
  end.

Definition classify_tensor (a : AdapterData) (name : string) (config : ModelConfig)
    : result TensorOwnership :=
  let group := if mc_tied_embeddings config then Some "token_embeddings" else None in
  if String.eqb name "model.embed_tokens.weight"
  then Ok {| to_role := TOKEN_EMBEDDING; to_layer_index := None; to_shared_weight_group := group |}
  else
    match layer_match name with
    | Some digits =>
      layer_index ← int_of_digits digits;
      if (mc_num_layers config <=? layer_index)%Z
      then architecture_error (String.append "tensor " (String.append (py_repr name)
             (String.append " refers to layer " (String.append (pretty layer_index)
                (String.append ", but config has " (String.append (pretty (mc_num_layers config))
                   " layers"))))))
      else
        let suffix := py_removeprefix (expected_prefix layer_index) name in
        if py_in suffix (aa_layer_suffixes a)
        then Ok {| to_role := TRANSFORMER_LAYER; to_layer_index := Some layer_index;
                   to_shared_weight_group := None |}
        else architecture_error (String.append "unrecognized "
               (String.append (capitalize (aa_model_type a))
                  (String.append " layer tensor " (py_repr name))))
    | None =>
      if String.eqb name "model.norm.weight"
      then Ok {| to_role := FINAL_NORM; to_layer_index := None; to_shared_weight_group := None |}
      else if String.eqb name "lm_head.weight"
      then Ok {| to_role := LM_HEAD; to_layer_index := None; to_shared_weight_group := group |}
      else if py_in name ["model.rotary_emb.inv_freq"; "model.rotary_emb.original_inv_freq"]
      then Ok {| to_role := ARCHITECTURE_STATE; to_layer_index := None;
                 to_shared_weight_group := None |}
      else architecture_error (String.append "unrecognized "
             (String.append (capitalize (aa_model_type a)) (String.append " tensor " (py_repr name))))
    end.

Definition layer_tensor_name (layer : Z) (suffix : string) : string :=
  String.append (expected_prefix layer) suffix.

(** The set of [expected_tensor_names], as a list. *)
Definition expected_tensor_names (a : AdapterData) (config : ModelConfig) : list string :=
  ["model.embed_tokens.weight"; "model.norm.weight"]
  ++ (layer ← py_range 0 (mc_num_layers config);
      suffix ← aa_layer_suffixes a; [layer_tensor_name layer suffix])
  ++ (if mc_tied_embeddings config then [] else ["lm_head.weight"]).

(** ** Shapes *)

Definition shape_error {A} (name : string) (shape expected : list Z) : result A :=
  architecture_error (String.append "tensor " (String.append (py_repr name)
    (String.append " has shape " (String.append (repr_int_tuple shape)
       (String.append ", expected " (repr_int_tuple expected)))))).

Definition expected_shape (name : string) (config : ModelConfig) : option (list Z) :=
  let attention_width := (mc_num_attention_heads config * mc_head_dim config)%Z in
  let kv_width := (mc_num_kv_heads config * mc_head_dim config)%Z in
  let hidden := mc_hidden_size config in
  if py_in name ["model.embed_tokens.weight"; "lm_head.weight"]
  then Some [mc_vocabulary_size config; hidden]
  else if String.eqb name "model.norm.weight" || py_endswith "layernorm.weight" name
  then Some [hidden]
  else if py_endswith "self_attn.q_proj.weight" name then Some [attention_width; hidden]
  else if py_endswith "self_attn.k_proj.weight" name || py_endswith "self_attn.v_proj.weight" name
  then Some [kv_width; hidden]
  else if py_endswith "self_attn.o_proj.weight" name then Some [hidden; attention_width]
  else if py_endswith "mlp.gate_proj.weight" name || py_endswith "mlp.up_proj.weight" name
  then Some [mc_intermediate_size config; hidden]
  else if py_endswith "mlp.down_proj.weight" name then Some [hidden; mc_intermediate_size config]
  else None.

Definition llama_validate_tensor_shape (name : string) (shape : list Z) (config : ModelConfig)
    : result unit :=
  match expected_shape name config with
  | Some expected => if shape != expected then shape_error name shape expected else Ok tt
  | None => Ok tt
  end.

Definition qwen3_validate_tensor_shape (name : string) (shape : list Z) (config : ModelConfig)
    : result unit :=
  if py_endswith "self_attn.q_norm.weight" name || py_endswith "self_attn.k_norm.weight" name
  then if shape != [mc_head_dim config] then shape_error name shape [mc_head_dim config] else Ok tt
  else llama_validate_tensor_shape name shape config.

(** The adapter interface that preparation uses, and its two implementations. *)
Record ArchitectureAdapter := {
  ad_data : AdapterData;
  ad_describe : raw_config -> result ModelDescription;
  ad_validate_tensor_shape : string -> list Z -> ModelConfig -> result unit
}.

Definition LlamaArchitectureAdapter : ArchitectureAdapter := {|
  ad_data := llama_data; ad_describe := llama_describe llama_data;
  ad_validate_tensor_shape := llama_validate_tensor_shape |}.

Definition Qwen3ArchitectureAdapter : ArchitectureAdapter := {|
  ad_data := qwen3_data; ad_describe := qwen3_describe;
  ad_validate_tensor_shape := qwen3_validate_tensor_shape |}.

(** ** Lemmas on names *)

Lemma span_digits_app d r :
  str_forall is_digit d = true ->
  match r with EmptyString => True | String c _ => is_digit c = false end ->
  span_digits (String.append d r) = (d, r).
Proof.
  intros Hd Hr. induction d as [|c d IH]; simpl in *.
  - destruct r; simpl; [done|]. by rewrite Hr.
  - bool_to_prop. rewrite H. by rewrite IH.
Qed.

Lemma span_digits_spec s d r : span_digits s = (d, r) ->
  s = String.append d r /\ str_forall is_digit d = true.
Proof.
  revert d r. induction s as [|c s IH]; intros d r; simpl; [by intros [= <- <-]|].
  destruct (is_digit c) eqn:Hc; [|by intros [= <- <-]].
  destruct (span_digits s) as [d' r']. intros [= <- <-]. destruct (IH d' r' eq_refl) as [-> Hd].
  simpl. by rewrite Hc.
Qed.

Lemma pretty_nonempty z : (0 <= z)%Z -> pretty z <> "".
Proof.
  intros Hz E. destruct (pretty_Z_value z Hz) as [Hv _]. rewrite E in Hv. simpl in Hv.
  assert (z = 0)%Z as -> by lia. discriminate E.
Qed.

Lemma layer_match_name layer suffix : (0 <= layer)%Z ->
  layer_match (layer_tensor_name layer suffix) = Some (pretty layer).
Proof.
  intros Hl. unfold layer_match, layer_tensor_name, expected_prefix. rewrite !str_app_assoc.
  rewrite (proj2 (py_startswith_spec _ _)) by by eexists. rewrite str_drop_app.
  destruct (pretty_Z_value layer Hl) as [_ Hd]. rewrite span_digits_app by done.
  destruct (pretty layer) eqn:E; [by apply pretty_nonempty in E|]. done.
Qed.

Lemma layer_match_some name digits : layer_match name = Some digits ->
  exists rest, name = String.append layer_prefix (String.append digits (String "." rest)) /\
    str_forall is_digit digits = true /\ digits <> "".
Proof.
  unfold layer_match. destruct (py_startswith layer_prefix name) eqn:Hp; [|done].
  apply py_startswith_spec in Hp as [t ->]. rewrite str_drop_app.
  destruct (span_digits t) as [d r] eqn:Hs. apply span_digits_spec in Hs as [-> Hd].
  destruct d as [|c d]; [done|]. destruct r as [|c' r]; [done|].
  destruct (Ascii.eqb_spec c' "."); [|done]. intros [= <-]. subst. by exists r.
Qed.

Lemma pretty_N_go_length k x s : (x < 10 ^ N.of_nat k)%N ->
  (String.length (pretty_N_go x s) <= k + String.length s)%nat.
Proof.
  revert x s. induction k as [|k IH]; intros x s Hx.
  { assert (x = 0)%N as -> by (simpl in Hx; lia). by rewrite pretty_N_go_0. }
  destruct (decide (x = 0)%N) as [->|]; [rewrite pretty_N_go_0; lia|].
  rewrite pretty_N_go_step by lia. etrans; [apply IH|simpl; lia].
  apply N.Div0.div_lt_upper_bound. rewrite <- N.pow_succ_r'. by rewrite <- Nat2N.inj_succ.
Qed.

Lemma pretty_Z_length z : (0 <= z < 2 ^ 64)%Z -> (String.length (pretty z) <= 20)%nat.
Proof.
  intros Hz. destruct z as [|p|p]; [apply Nat.leb_le; reflexivity| |lia].
  change (pretty (Zpos p)) with (pretty_N_go (Npos p) "").
  pose proof (pretty_N_go_length 20 (Npos p) "") as Hl. simpl String.length in Hl.
  rewrite Nat.add_0_r in Hl. apply Hl. change (10 ^ N.of_nat 20)%N with 100000000000000000000%N. lia.
Qed.

Lemma int_of_digits_pretty z : (0 <= z < 2 ^ 64)%Z -> int_of_digits (pretty z) = Ok z.
Proof.
  intros Hz. unfold int_of_digits. pose proof (pretty_Z_length z Hz).
  rewrite (proj2 (Nat.ltb_ge _ _)) by (etrans; [done|apply Nat.leb_le; reflexivity]).
  destruct (pretty_Z_value z) as [-> _]; [lia|]. f_equal. lia.
Qed.

(** The adapters of the package. *)
Definition known_adapter (a : AdapterData) : Prop := a = llama_data \/ a = qwen3_data.

Lemma suffix_plain a suffix : known_adapter a -> suffix ∈ aa_layer_suffixes a ->
  py_startswith layer_prefix suffix = false.
Proof.
  intros Ha Hs. assert (Forall (fun s => py_startswith layer_prefix s = false) (aa_layer_suffixes a)) as HF.
  { destruct Ha as [->| ->]; repeat constructor. }
  rewrite Forall_forall in HF. by apply HF.
Qed.

Definition layer_ownership (i : Z) : TensorOwnership := {|
  to_role := TRANSFORMER_LAYER; to_layer_index := Some i; to_shared_weight_group := None |}.

Lemma classify_layer_name a config i suffix :
  (0 <= i < mc_num_layers config)%Z -> (mc_num_layers config < 2 ^ 64)%Z ->
  suffix ∈ aa_layer_suffixes a ->
  classify_tensor a (layer_tensor_name i suffix) config = Ok (layer_ownership i).
Proof.
  intros Hi HL Hs. unfold classify_tensor.
  assert (String.eqb (layer_tensor_name i suffix) "model.embed_tokens.weight" = false) as ->.
  { apply String.eqb_neq. done. }
  rewrite layer_match_name by lia. rewrite int_of_digits_pretty by lia.
  cbn [mbind result_bind]. rewrite (proj2 (Z.leb_gt _ _)) by lia.
  unfold layer_tensor_name. rewrite py_removeprefix_app.
  by rewrite (proj2 (py_in_elem _ _) Hs).
Qed.

(** A tensor is classified as part of layer [i] exactly when its name is
    ["model.layers.{i}.{suffix}"] for a layer of the model and a suffix of the
    adapter: no other spelling (leading zeros, unknown suffixes, layers past the
    end) is accepted, and every such name is. *)
Lemma classify_layer_iff a config name i :
  known_adapter a -> (mc_num_layers config < 2 ^ 64)%Z ->
  classify_tensor a name config = Ok (layer_ownership i) <->
  (0 <= i < mc_num_layers config)%Z /\
  exists suffix, suffix ∈ aa_layer_suffixes a /\ name = layer_tensor_name i suffix.
Proof.
  intros Ha HL. split.
  - unfold classify_tensor. destruct (String.eqb name _); [done|].
    destruct (layer_match name) as [digits|] eqn:Hm.
    2: { destruct (String.eqb name _); [done|]. destruct (String.eqb name _); [done|]. by case_match. }
    intros E. apply bind_ok in E as (l & Hl & E). destruct (Z.leb_spec (mc_num_layers config) l); [done|].
    destruct (py_in _ _) eqn:Hs in E; [|done]. apply Ok_inj in E. injection E as ->.
    apply py_in_elem in Hs.
    assert (0 <= i)%Z. { unfold int_of_digits in Hl. destruct (_ <? _)%nat; [done|]. injection Hl as <-. lia. }
    split; [lia|]. unfold py_removeprefix in Hs.
    destruct (py_startswith (expected_prefix i) name) eqn:Hp.
    + apply py_startswith_spec in Hp as [t ->]. rewrite str_drop_app in Hs. by exists t.
    + exfalso. apply (suffix_plain a) in Hs; [|done].
      apply layer_match_some in Hm as (rest & -> & _).
      rewrite (proj2 (py_startswith_spec _ _)) in Hs by by eexists. done.
  - intros (Hi & suffix & Hs & ->). by apply classify_layer_name.
Qed.

(** Every name a checkpoint is required to have is classified, into the role
    its name says: no required tensor is refused as unrecognized. *)
Theorem expected_names_classified a config name :
  (mc_num_layers config < 2 ^ 64)%Z -> name ∈ expected_tensor_names a config ->
  exists o, classify_tensor a name config = Ok o /\
    (to_role o = TRANSFORMER_LAYER <-> exists i suffix, name = layer_tensor_name i suffix) /\
    (to_role o = TOKEN_EMBEDDING <-> name = "model.embed_tokens.weight") /\
    (to_role o = FINAL_NORM <-> name = "model.norm.weight") /\
    (to_role o = LM_HEAD <-> name = "lm_head.weight").
Proof.
  intros HL Hin. unfold expected_tensor_names in Hin.
  apply elem_of_app in Hin as [Hin|Hin]; [|apply elem_of_app in Hin as [Hin|Hin]].
  - repeat (apply elem_of_cons in Hin as [->|Hin]); [..|by apply not_elem_of_nil in Hin].
    all: eexists; split; [reflexivity|]; simpl; split_and!; try done; split; try done; by intros (?&?&?).
  - apply list_elem_of_bind in Hin as (i & Hin & Hi%elem_of_py_range).
    apply list_elem_of_bind in Hin as (suffix & Hin & Hs). apply list_elem_of_singleton in Hin as ->.
    exists (layer_ownership i). split; [apply classify_layer_name; [lia|done|done]|]. simpl.
    split_and!; split; try done; eauto.
  - destruct (mc_tied_embeddings config) eqn:Ht; [by apply not_elem_of_nil in Hin|].
    apply list_elem_of_singleton in Hin as ->. unfold classify_tensor. rewrite Ht.
    eexists. split; [reflexivity|]. simpl. split_and!; split; try done; by intros (?&?&?).
Qed.

(** ** Descriptions *)

Definition config_supported (c : ModelConfig) : Prop :=
  ModelConfig_fields c = true /\
  (mc_num_attention_heads c mod mc_num_kv_heads c = 0)%Z /\ NoDup (mc_eos_token_ids c) /\
  mc_attention_bias c = false /\ mc_mlp_bias c = false /\ mc_rope_scaling c = None /\
  mc_hidden_activation c = "silu".

Lemma check_supported_ok a raw attention mlp u :
  check_supported a raw attention mlp = Ok u ->
  attention = false /\ mlp = false /\ is_none (assoc_get "rope_scaling" raw) = true.
Proof.
  unfold check_supported, requires, architecture_error. intros E.
  apply bind_ok in E as (? & Hb & E). do 4 apply bind_ok in E as (? & _ & E).
  destruct attention, mlp; try done. by destruct (is_none _).
Qed.

Lemma llama_describe_ok a raw d :
  llama_describe a raw = Ok d ->
  config_supported (md_config d) /\ ad_architecture_id (md_architecture d) = aa_architecture_id a /\
  (is_none (assoc_get "head_dim" raw) = true ->
     mc_hidden_size (md_config d) = mc_num_attention_heads (md_config d) * mc_head_dim (md_config d))%Z.
Proof.
  unfold llama_describe. intros E. do 3 apply bind_ok in E as (? & _ & E).
  apply bind_ok in E as (hidden & _ & E). apply bind_ok in E as (heads & Hheads & E).
  apply bind_ok in E as (head_dim & Hdim & E). apply bind_ok in E as (tied & _ & E).
  apply bind_ok in E as (ab & _ & E). apply bind_ok in E as (mb & _ & E).
  apply bind_ok in E as (u & Hsup & E). apply check_supported_ok in Hsup as (-> & -> & _).
  do 8 apply bind_ok in E as (? & _ & E).
  apply bind_ok in E as (config & Hc & E). apply Ok_inj in E as <-. simpl.
  unfold validate_ModelConfig, validate_attention_shape in Hc. inv_ok. inv_fields. bool_to_prop.
  simpl in *. split; [by split_and!|]. split; [done|]. intros Hnone.
  assert (0 < heads)%Z.
  { unfold _required_positive_int in Hheads. destruct (assoc_get _ _) as [[]|]; try done.
    destruct (Z.leb_spec n 0); [done|]. by injection Hheads as <-. }
  unfold head_dim_of in Hdim. destruct (assoc_get "head_dim" raw) as [[]|]; try done.
  all: destruct (Z.eqb_spec (hidden mod heads) 0); [|done]; injection Hdim as <-.
  all: by apply Z.div_exact; lia.
Qed.

(** A described model is one the workers can execute: the validated
    configuration has query heads divisible by key/value heads, no bias tensors,
    no RoPE scaling and SiLU activation; without an explicit head dimension the
    heads divide the hidden size exactly; Qwen3 models have an even head
    dimension for RoPE and carry the [qk_norm] flag. *)
Lemma describe_supported adapter raw d :
  adapter = LlamaArchitectureAdapter \/ adapter = Qwen3ArchitectureAdapter ->
  ad_describe adapter raw = Ok d ->
  config_supported (md_config d) /\
  ad_architecture_id (md_architecture d) = aa_architecture_id (ad_data adapter) /\
  (is_none (assoc_get "head_dim" raw) = true ->
     mc_hidden_size (md_config d)
     = mc_num_attention_heads (md_config d) * mc_head_dim (md_config d))%Z /\
  (adapter = Qwen3ArchitectureAdapter ->
     (mc_head_dim (md_config d) mod 2 = 0)%Z /\ "qk_norm" ∈ ad_feature_flags (md_architecture d)).
Proof.
  intros [->| ->]; simpl.
  - intros (? & ? & ?)%llama_describe_ok. by split_and!.
  - unfold qwen3_describe. intros E. apply bind_ok in E as (? & _ & E).
    apply bind_ok in E as (d' & Hd & E). apply bind_ok in E as (u & He & E). apply Ok_inj in E as <-.
    apply llama_describe_ok in Hd as (? & ? & ?). simpl. split_and!; try done. intros _.
    split.
    + by destruct (Z.eqb_spec (mc_head_dim (md_config d') mod 2) 0).
    + rewrite elem_of_py_sorted. set_solver.
Qed.

(** ** A concrete configuration *)
Module LlamaDemo.

Definition demo_raw : raw_config := [
  ("model_type", JStr "qwen3"); ("architectures", JArr [JStr "Qwen3ForCausalLM"]);
  ("hidden_size", JInt 16); ("num_attention_heads", JInt 4); ("num_key_value_heads", JInt 2);
  ("intermediate_size", JInt 32); ("num_hidden_layers", JInt 2); ("vocab_size", JInt 64);
  ("max_position_embeddings", JInt 128); ("tie_word_embeddings", JBool true);
  ("eos_token_id", JArr [JInt 3; JInt 5; JInt 3])].

Lemma describe_supported_witness :
  exists d, ad_describe Qwen3ArchitectureAdapter demo_raw = Ok d /\
    mc_eos_token_ids (md_config d) = [3; 5]%Z /\ (mc_head_dim (md_config d) mod 2 = 0)%Z.
Proof.
  eexists. split; [lazy; reflexivity|]. split; [reflexivity|].
  apply (describe_supported Qwen3ArchitectureAdapter demo_raw); [by right|lazy; reflexivity|done].
Defined.

Definition demo_config : ModelConfig := {|
  mc_hidden_size := 16; mc_intermediate_size := 32; mc_num_layers := 12;
  mc_num_attention_heads := 4; mc_num_kv_heads := 2; mc_head_dim := 4; mc_vocabulary_size := 64;
  mc_maximum_sequence_length := 128; mc_tied_embeddings := false;
  mc_rms_norm_eps := literal 1 1000000; mc_rope_theta := literal 10000 1; mc_rope_scaling := None;
  mc_hidden_activation := "silu"; mc_attention_bias := false; mc_mlp_bias := false;
  mc_eos_token_ids := [] |}.

Lemma classify_layer_iff_witness :
  classify_tensor llama_data "model.layers.11.mlp.up_proj.weight" demo_config
    = Ok (layer_ownership 11) /\
  classify_tensor llama_data "model.layers.011.mlp.up_proj.weight" demo_config
    <> Ok (layer_ownership 11).
Proof.
  split.
  - apply (classify_layer_iff llama_data demo_config _ 11); [by left|reflexivity|].
    split; [done|]. exists "mlp.up_proj.weight". split; [|reflexivity].
    apply py_in_elem. reflexivity.
  - by vm_compute.
Defined.

Lemma expected_names_classified_witness :
  exists o, classify_tensor llama_data "lm_head.weight" demo_config = Ok o /\ to_role o = LM_HEAD.
Proof.
  destruct (expected_names_classified llama_data demo_config "lm_head.weight") as (o & Ho & _ & _ & _ & H).
  - reflexivity.
  - apply py_in_elem. reflexivity.
  - exists o. split; [done|]. by apply H.
Defined.
End LlamaDemo.
