(* ===== verification/Manifest.v ===== *)
(** * Model preparation (src/python/hllm_control/prepare/manifest.py)

    From a model directory to a content-addressed [ModelManifest]: discovery of
    the tensor files, agreement with the index, classification and shape checks
    of every tensor, per-component storage, and the digests.  A directory is the
    list of its regular files, by relative path. *)

From Stdlib Require Import Ascii.
From S2P Require Export Safetensors Llama Planner.

Inductive HashMode := HASH_NONE | HASH_METADATA | HASH_FULL.

#[export] Instance hash_mode_eq_dec : EqDecision HashMode.
Proof. solve_decision. Defined.
#[export] Instance pyeq_hash_mode : PyEq HashMode := pyeq_of_dec.

Record ModelPath := {
  mp_path : string;
  mp_name : string;
  mp_files : option (list (string * string))   (** [None]: not a directory *)
}.

Definition preparation_error {A} (msg : string) : result A := raise PreparationError msg.

(** [path.name] of a relative POSIX path: the text after the last slash. *)
Fixpoint path_name_from (acc s : string) : string :=
  match s with
  | EmptyString => acc
  | String c s' => if Ascii.eqb c "/" then path_name_from "" s'
                   else path_name_from (String.append acc (String c "")) s'
  end.
Definition path_name (s : string) : string := path_name_from "" s.

Definition full_path (model_path : ModelPath) (item : string) : string :=
  String.append (mp_path model_path) (String.append "/" item).

Definition file_content (model_path : ModelPath) (item : string) : option string :=
  files ← mp_files model_path; assoc_get item files.

(** ** Dumps *)

Definition SourceDescriptor_dump (s : SourceDescriptor) : json :=
  JObj [("model_id", JStr (sd_model_id s)); ("revision", json_opt JStr (sd_revision s));
        ("config_sha256", JStr (sd_config_sha256 s));
        ("index_sha256", json_opt JStr (sd_index_sha256 s));
        ("tensor_metadata_sha256", json_opt JStr (sd_tensor_metadata_sha256 s))].

Definition ArchitectureDescriptor_dump (a : ArchitectureDescriptor) : json :=
  JObj [("architecture_id", JStr (ad_architecture_id a));
        ("architecture_revision", JStr (ad_architecture_revision a));
        ("feature_flags", JArr (JStr <$> ad_feature_flags a))].

Definition RopeScaling_dump (r : RopeScaling) : json :=
  JObj [("scaling_type", JStr (rs_scaling_type r)); ("factor", JFloat (rs_factor r));
        ("original_max_position_embeddings",
          json_opt JInt (rs_original_max_position_embeddings r))].

Definition ModelConfig_dump (c : ModelConfig) : json :=
  JObj [("hidden_size", JInt (mc_hidden_size c));
        ("intermediate_size", JInt (mc_intermediate_size c));
        ("num_layers", JInt (mc_num_layers c));
        ("num_attention_heads", JInt (mc_num_attention_heads c));
        ("num_kv_heads", JInt (mc_num_kv_heads c)); ("head_dim", JInt (mc_head_dim c));
        ("vocabulary_size", JInt (mc_vocabulary_size c));
        ("maximum_sequence_length", JInt (mc_maximum_sequence_length c));
        ("tied_embeddings", JBool (mc_tied_embeddings c));
        ("rms_norm_eps", JFloat (mc_rms_norm_eps c)); ("rope_theta", JFloat (mc_rope_theta c));
        ("rope_scaling", json_opt RopeScaling_dump (mc_rope_scaling c));
        ("hidden_activation", JStr (mc_hidden_activation c));
        ("attention_bias", JBool (mc_attention_bias c)); ("mlp_bias", JBool (mc_mlp_bias c));
        ("eos_token_ids", JArr (JInt <$> mc_eos_token_ids c))].

Definition TensorFile_dump (f : TensorFile) : json :=
  JObj [("name", JStr (tf_name f)); ("size_bytes", JInt (tf_size_bytes f));
        ("header_size_bytes", JInt (tf_header_size_bytes f));
        ("sha256", json_opt JStr (tf_sha256 f))].

Definition TensorRecord_dump (t : TensorRecord) : json :=
  JObj [("name", JStr (tr_name t)); ("file", JStr (tr_file t));
        ("dtype", JStr (dtype_value (tr_dtype t))); ("shape", JArr (JInt <$> tr_shape t));
        ("data_offset", JInt (tr_data_offset t)); ("byte_length", JInt (tr_byte_length t));
        ("role", JStr (role_value (tr_role t)));
        ("layer_index", json_opt JInt (tr_layer_index t));
        ("shared_weight_group", json_opt JStr (tr_shared_weight_group t))].

Definition ComponentMemory_dump (c : ComponentMemory) : json :=
  JObj [("role", JStr (role_value (cm_role c))); ("layer_index", json_opt JInt (cm_layer_index c));
        ("storage_bytes", JInt (cm_storage_bytes c))].

(** The dictionary whose digest identifies a manifest. *)
Definition unsigned_manifest (m : ModelManifest) : json :=
  JObj [("schema_version", JStr (mm_schema_version m));
        ("source", SourceDescriptor_dump (mm_source m));
        ("architecture", ArchitectureDescriptor_dump (mm_architecture m));
        ("config", ModelConfig_dump (mm_config m));
        ("tensor_files", JArr (TensorFile_dump <$> mm_tensor_files m));
        ("tensors", JArr (TensorRecord_dump <$> mm_tensors m));
        ("components", JArr (ComponentMemory_dump <$> mm_components m));
        ("total_storage_bytes", JInt (mm_total_storage_bytes m))].

(** ** Components *)

Abbreviation component_key := (TensorRole * option Z)%type (only parsing).

Definition add_bytes (d : list (component_key * Z)) (r : TensorRecord) : list (component_key * Z) :=
  let key := (tr_role r, tr_layer_index r) in
  assoc_set key (default 0%Z (assoc_get key d) + tr_byte_length r)%Z d.

Definition component_bytes (records : list TensorRecord) : list (component_key * Z) :=
  foldl add_bytes [] records.

Definition component_lt (a b : component_key * Z) : bool :=
  let '((ra, la), _) := a in
  let '((rb, lb), _) := b in
  if String.eqb (role_value ra) (role_value rb) then (default (-1) la <? default (-1) lb)%Z
  else str_lt (role_value ra) (role_value rb).

Definition components_of (records : list TensorRecord) : list ComponentMemory :=
  (fun '((role, layer_index), size) =>
     {| cm_role := role; cm_layer_index := layer_index; cm_storage_bytes := size |})
  <$> py_sorted component_lt (component_bytes records).

(** ** Collection of the tensors of all shards *)

Definition found_tensor := (InspectedFile * InspectedTensor)%type.

Fixpoint collect_tensors (acc : list (string * found_tensor)) (l : list found_tensor)
    : result (list (string * found_tensor)) :=
  match l with
  | [] => Ok acc
  | (container, tensor) :: rest =>
    if py_in (it_name tensor) (fst <$> acc)
    then preparation_error (String.append "tensor "
           (String.append (py_repr (it_name tensor)) " occurs in multiple shards"))
    else collect_tensors (acc ++ [(it_name tensor, (container, tensor))]) rest
  end.

(** [sorted(set(a) - set(b))] *)
Definition sorted_difference (a b : list string) : list string :=
  py_sorted str_lt (List.filter (fun x => negb (py_in x b)) (dict_fromkeys a)).

Definition same_set (a b : list string) : bool :=
  forallb (fun x => py_in x b) a && forallb (fun x => py_in x a) b.

Fixpoint check_index (weight_map : list (string * string))
    (tensors_by_name : list (string * found_tensor)) : result unit :=
  match weight_map with
  | [] => Ok tt
  | (name, expected_file) :: rest =>
    match assoc_get name tensors_by_name with
    | None => raise KeyError name
    | Some (container, _) =>
      let actual_file := path_name (if_path container) in
      if expected_file != actual_file
      then preparation_error (String.append "tensor " (String.append (py_repr name)
             (String.append " is indexed in " (String.append (py_repr expected_file)
                (String.append " but found in " (py_repr actual_file))))))
      else check_index rest tensors_by_name
    end
  end.

(** [TensorRecord(...)] of one tensor: classification and shape first. *)
Definition tensor_record (adapter : ArchitectureAdapter) (config : ModelConfig)
    (tensors_by_name : list (string * found_tensor)) (name : string) : result TensorRecord :=
  match assoc_get name tensors_by_name with
  | None => raise KeyError name
  | Some (container, tensor) =>
    ownership ← try_except
      (ownership ← classify_tensor (ad_data adapter) name config;
       ad_validate_tensor_shape adapter (it_name tensor) (it_shape tensor) config ;;
       Ok ownership)
      (fun c => bool_decide (c = ArchitectureError))
      (fun e => preparation_error (exn_msg e));
    let record := {|
      tr_name := name; tr_file := path_name (if_path container); tr_dtype := it_dtype tensor;
      tr_shape := it_shape tensor; tr_data_offset := it_data_offset tensor;
      tr_byte_length := it_byte_length tensor; tr_role := to_role ownership;
      tr_layer_index := to_layer_index ownership;
      tr_shared_weight_group := to_shared_weight_group ownership |} in
    fields_ok (TensorRecord_fields record) ;;
    Ok record
  end.

(** ** Preparation *)

Section preparation.
Context `{Hash} `{JsonLoads}.

Definition _load_json_object (model_path : ModelPath) (item : string) : result raw_config :=
  let path := full_path model_path item in
  match (content ← file_content model_path item; loads_text content) with
  | None => preparation_error (String.append "cannot read valid JSON from " path)
  | Some (JObj value) => Ok value
  | Some _ => preparation_error (String.append path " must contain a JSON object")
  end.

Definition weight_map_entry (item : string * json) : option (string * string) :=
  match snd item with JStr file => Some (fst item, file) | _ => None end.

Definition inspect_item (model_path : ModelPath) (item : string) : result InspectedFile :=
  match file_content model_path item with
  | None => raise OSError (full_path model_path item)
  | Some content => inspect_safetensors (full_path model_path item) content
  end.

Definition index_name : string := "model.safetensors.index.json".

(** [model_path.glob("*.safetensors")], sorted. *)
Definition top_level_safetensors (model_path : ModelPath) : list string :=
  py_sorted str_lt
    (List.filter (fun item => py_endswith ".safetensors" item && negb (str_has 47 item))
       (fst <$> default [] (mp_files model_path))).

Definition _discover_tensor_files (model_path : ModelPath)
    : result (list string * list (string * string) * option string) :=
  match file_content model_path index_name with
  | Some _ =>
    index ← _load_json_object model_path index_name;
    match assoc_get "weight_map" index with
    | Some (JObj (item :: items)) =>
      match mapM weight_map_entry (item :: items) with
      | None => preparation_error "Safetensors weight_map keys and values must be strings"
      | Some typed_weight_map =>
        let relative_files := py_sorted str_lt (dict_fromkeys (snd <$> typed_weight_map)) in
        let missing :=
          List.filter (fun item => negb (opt_truthy (file_content model_path item))) relative_files in
        raise_if (negb (length missing =? 0)%nat) PreparationError
          (String.append "Safetensors index references missing files: "
             (repr_str_list (full_path model_path <$> missing))) ;;
        Ok (relative_files, typed_weight_map, Some index_name)
      end
    | _ => preparation_error "Safetensors index must contain a non-empty weight_map"
    end
  | None =>
    match top_level_safetensors model_path with
    | [path] =>
      inspected ← inspect_item model_path path;
      Ok ([path], (fun t => (it_name t, path_name path)) <$> if_tensors inspected, None)
    | _ => preparation_error
        "model directory must contain one Safetensors file or model.safetensors.index.json"
    end
  end.

Definition _metadata_digest (inspected : list InspectedFile) : string :=
  digest (JObj [("files", JArr ((fun item => JObj [
    ("file", JStr (path_name (if_path item))); ("size", JInt (if_size_bytes item));
    ("header_size", JInt (if_header_size_bytes item));
    ("tensors", JArr ((fun t => JObj [
       ("name", JStr (it_name t)); ("dtype", JStr (dtype_value (it_dtype t)));
       ("shape", JArr (JInt <$> it_shape t)); ("offset", JInt (it_data_offset t));
       ("length", JInt (it_byte_length t))]) <$> if_tensors item))]) <$> inspected))]).

Definition adapter_for (model_type : option json) : option ArchitectureAdapter :=
  match model_type with
  | Some (JStr s) =>
    if String.eqb s "llama" then Some LlamaArchitectureAdapter
    else if String.eqb s "qwen3" then Some Qwen3ArchitectureAdapter else None
  | _ => None
  end.

(** [sha256_file(path)], in chunks of one MiB. *)
Definition hash_item (model_path : ModelPath) (item : string) : result string :=
  match file_content model_path item with
  | None => raise OSError (full_path model_path item)
  | Some content => Ok (sha256_file (Z.to_nat 1048576) content)
  end.

Definition tensor_file (model_path : ModelPath) (hash_mode : HashMode)
    (item : string) (inspected : InspectedFile) : result TensorFile :=
  sha ← (if hash_mode == HASH_FULL then s ← hash_item model_path item; Ok (Some s) else Ok None);
  Ok {| tf_name := path_name (if_path inspected); tf_size_bytes := if_size_bytes inspected;
        tf_header_size_bytes := if_header_size_bytes inspected; tf_sha256 := sha |}.

(** The record loop with the name and role checks that follow it. *)
Definition build_records (adapter : ArchitectureAdapter) (config : ModelConfig)
    (tensors_by_name : list (string * found_tensor)) : result (list TensorRecord) :=
  records ← mapM (tensor_record adapter config tensors_by_name)
              (py_sorted str_lt (fst <$> tensors_by_name));
  let actual_names := tr_name <$> records in
  let expected_names := expected_tensor_names (ad_data adapter) config in
  raise_if (negb (forallb (fun n => py_in n actual_names) expected_names)) PreparationError
    (String.append "model is missing required tensors: "
       (repr_str_list (sorted_difference expected_names actual_names))) ;;
  let required_roles :=
    [TOKEN_EMBEDDING; FINAL_NORM] ++ if mc_tied_embeddings config then [] else [LM_HEAD] in
  raise_if (negb (forallb (fun r => py_in r (tr_role <$> records)) required_roles)) PreparationError
    "model is missing required tensor roles" ;;
  Ok records.

Definition prepare_model (model_path : ModelPath) (model_id revision : option string)
    (hash_mode : HashMode) : result ModelManifest :=
  raise_if (negb (opt_truthy (mp_files model_path))) PreparationError
    (String.append "model path is not a directory: " (mp_path model_path)) ;;
  raw_config ← _load_json_object model_path "config.json";
  adapter ← match adapter_for (assoc_get "model_type" raw_config) with
            | Some a => Ok a
            | None => preparation_error "unsupported model_type"
            end;
  description ← try_except (ad_describe adapter raw_config) is_value_error
                  (fun e => preparation_error (exn_msg e));
  let config := md_config description in
  '(paths, weight_map, index_path) ← _discover_tensor_files model_path;
  inspected ← mapM (inspect_item model_path) paths;
  tensors_by_name ← collect_tensors []
    (container ← inspected; tensor ← if_tensors container; [(container, tensor)]);
  let names := fst <$> tensors_by_name in
  let mapped := fst <$> weight_map in
  raise_if (negb (same_set mapped names)) PreparationError
    (String.append "Safetensors index mismatch: missing_from_files="
       (String.append (repr_str_list (sorted_difference mapped names))
          (String.append ", missing_from_index=" (repr_str_list (sorted_difference names mapped))))) ;;
  check_index weight_map tensors_by_name ;;
  tensor_records ← build_records adapter config tensors_by_name;
  pairs ← zip_strict paths inspected;
  tensor_files ← mapM (fun '(item, i) => tensor_file model_path hash_mode item i) pairs;
  let components := components_of tensor_records in
  fields_ok (forallb (fun c => NonNegativeInt (cm_storage_bytes c)) components) ;;
  config_sha256 ← hash_item model_path "config.json";
  index_sha256 ← match index_path with
                 | Some p => s ← hash_item model_path p; Ok (Some s) | None => Ok None end;
  let source := {|
    sd_model_id := match model_id with Some s => if String.eqb s "" then mp_name model_path else s
                                     | None => mp_name model_path end;
    sd_revision := revision; sd_config_sha256 := config_sha256; sd_index_sha256 := index_sha256;
    sd_tensor_metadata_sha256 :=
      if hash_mode == HASH_NONE then None else Some (_metadata_digest inspected) |} in
  let manifest id dig := {|
    mm_schema_version := MANIFEST_SCHEMA_VERSION; mm_manifest_id := id; mm_manifest_digest := dig;
    mm_source := source; mm_architecture := md_architecture description; mm_config := config;
    mm_tensor_files := tensor_files; mm_tensors := tensor_records; mm_components := components;
    mm_total_storage_bytes := py_sum (tr_byte_length <$> tensor_records) |} in
  (* the unsigned dictionary reads neither the id nor the digest *)
  let manifest_digest := digest (unsigned_manifest (manifest "" "")) in
  Ok (manifest (String.append "manifest-" (str_take 16 manifest_digest)) manifest_digest).
End preparation.

(** ** Component storage *)

Definition dict_total {K} (d : list (K * Z)) : Z := py_sum (snd <$> d).

Lemma assoc_set_total `{PyEqLaws K} (k : K) v d :
  dict_total (assoc_set k v d) = (dict_total d - default 0 (assoc_get k d) + v)%Z.
Proof.
  unfold dict_total. induction d as [|[k' v'] d IH]; cbn [assoc_set assoc_get]; [simpl; lia|].
  destruct (k == k'); rewrite !fmap_cons, !py_sum_cons; cbn [snd]; [simpl; lia|]. rewrite IH. lia.
Qed.

Definition has_key (key : component_key) (r : TensorRecord) : bool :=
  (tr_role r, tr_layer_index r) == key.

Lemma component_bytes_spec records d0 :
  NoDup d0.*1 -> let d := foldl add_bytes d0 records in
  NoDup d.*1 /\ dict_total d = (dict_total d0 + py_sum (tr_byte_length <$> records))%Z /\
  forall key, default 0%Z (assoc_get key d)
    = (default 0 (assoc_get key d0) + py_sum (tr_byte_length <$> List.filter (has_key key) records))%Z.
Proof.
  revert d0. induction records as [|r records IH]; intros d0 Hnd; cbn [foldl List.filter].
  { split; [done|]. unfold py_sum. simpl. split; [lia|]. intros. lia. }
  set (key := (tr_role r, tr_layer_index r)).
  destruct (IH (add_bytes d0 r)) as (Hnd' & Ht & Hg).
  { by apply assoc_set_keys. }
  split; [done|]. split.
  - rewrite Ht, fmap_cons, py_sum_cons. unfold add_bytes. rewrite assoc_set_total. fold key. lia.
  - intros k. rewrite Hg. unfold add_bytes. fold key. rewrite assoc_get_set.
    unfold has_key at 2. fold key. rewrite (pyeqb_sym k key).
    destruct (key == k) eqn:E; [|done].
    apply pyeqb_eq in E as <-. rewrite fmap_cons, py_sum_cons. simpl. lia.
Qed.

(** C12: the component storage of a manifest accounts for every tensor once: the
    storage of the components adds up to the bytes of all tensors, each role and
    layer has at most one component, and it holds exactly the bytes of the
    tensors with that role and layer. *)
Theorem components_account_for_tensors records :
  py_sum (cm_storage_bytes <$> components_of records) = py_sum (tr_byte_length <$> records) /\
  NoDup ((fun c => (cm_role c, cm_layer_index c)) <$> components_of records) /\
  Forall (fun c => cm_storage_bytes c
    = py_sum (tr_byte_length <$> List.filter (has_key (cm_role c, cm_layer_index c)) records))
    (components_of records).
Proof.
  destruct (component_bytes_spec records []) as (Hnd & Ht & Hg); [constructor|].
  unfold components_of, component_bytes. set (d := foldl add_bytes [] records) in *.
  rewrite <- !list_fmap_compose. split_and!.
  - etrans; [|exact Ht]. unfold dict_total.
    rewrite <- (py_sum_Permutation (snd <$> py_sorted component_lt d) (snd <$> d))
      by by rewrite py_sorted_Permutation.
    f_equal. apply list_fmap_ext. by intros ? [[]].
  - rewrite py_sorted_Permutation. erewrite list_fmap_ext; [exact Hnd|]. by intros ? [[]].
  - rewrite Forall_fmap, py_sorted_Permutation. apply Forall_forall. intros [[role layer] size] Hin.
    pose proof (Hg (role, layer)) as Hk. rewrite (assoc_get_NoDup _ _ _ Hnd Hin) in Hk. exact Hk.
Qed.

(** ** Soundness of preparation *)

Lemma classify_layer_range a name config o :
  classify_tensor a name config = Ok o -> to_role o = TRANSFORMER_LAYER ->
  exists i, to_layer_index o = Some i /\ (0 <= i < mc_num_layers config)%Z.
Proof.
  unfold classify_tensor, architecture_error. destruct (String.eqb name _); [by intros [= <-]|].
  destruct (layer_match name) as [digits|].
  - intros E. apply bind_ok in E as (i & Hi & E). destruct (Z.leb_spec (mc_num_layers config) i); [done|].
    destruct (py_in _ _) in E; [|done]. apply Ok_inj in E as <-. intros _. exists i. split; [done|].
    unfold int_of_digits in Hi. destruct (_ <? _)%nat; [done|]. injection Hi as <-. lia.
  - destruct (String.eqb name _); [by intros [= <-]|]. destruct (String.eqb name _); [by intros [= <-]|].
    destruct (py_in _ _); [by intros [= <-]|done].
Qed.

Lemma collect_tensors_ok acc l out :
  collect_tensors acc l = Ok out -> NoDup (fst <$> acc) ->
  NoDup (fst <$> out) /\
  forall n c t, (n, (c, t)) ∈ out -> (n, (c, t)) ∈ acc \/ (c, t) ∈ l /\ n = it_name t.
Proof.
  revert acc. induction l as [|[c t] l IH]; intros acc; simpl; [intros [= <-]; by auto|].
  destruct (py_in _ _) eqn:Hin; [done|]. intros E Hnd. apply py_in_false in Hin.
  destruct (IH _ E) as [Hnd' Hout].
  { rewrite fmap_app. apply NoDup_app. split; [done|]. split; [|apply NoDup_singleton].
    intros x Hx Hx'. apply list_elem_of_singleton in Hx'. by subst. }
  split; [done|]. intros n c' t' Hn. destruct (Hout _ _ _ Hn) as [Ha|[Ha ->]].
  - apply elem_of_app in Ha as [?|Ha]; [by left|]. apply list_elem_of_singleton in Ha.
    injection Ha as -> -> ->. right. split; [set_solver|done].
  - right. split; [set_solver|done].
Qed.

Lemma tensor_record_ok adapter config found name r :
  tensor_record adapter config found name = Ok r ->
  exists c t o, assoc_get name found = Some (c, t) /\ tr_name r = name /\
    tr_file r = path_name (if_path c) /\ tr_dtype r = it_dtype t /\ tr_shape r = it_shape t /\
    tr_data_offset r = it_data_offset t /\ tr_byte_length r = it_byte_length t /\
    classify_tensor (ad_data adapter) name config = Ok o /\
    tr_role r = to_role o /\ tr_layer_index r = to_layer_index o.
Proof.
  unfold tensor_record. destruct (assoc_get name found) as [[c t]|]; [|done]. intros E.
  apply bind_ok in E as (o & Ho & E). inv_ok. exists c, t, o.
  unfold try_except in Ho. destruct (_ ≫= _) as [o'|e] eqn:Hc in Ho; [|by destruct (bool_decide _)].
  apply Ok_inj in Ho as ->. apply bind_ok in Hc as (o' & Hcls & Hc). inv_ok. done.
Qed.

Section preparation_lemmas.
Context `{Hash} `{JsonLoads}.

Lemma inspect_item_layout model_path item f :
  inspect_item model_path item = Ok f -> file_layout_ok f.
Proof.
  unfold inspect_item. destruct (file_content model_path item); [|done].
  apply layout_of_inspection.
Qed.

(** What a prepared tensor is: a well-formed byte range of one of the files. *)
Definition tensor_in_files (m : ModelManifest) (t : TensorRecord) : Prop :=
  tr_byte_length t = (num_elements t * DTYPE_BYTES (tr_dtype t))%Z /\ (0 <= tr_data_offset t)%Z /\
  exists f, f ∈ mm_tensor_files m /\ tf_name f = tr_file t /\
    (tf_header_size_bytes f + tr_data_offset t + tr_byte_length t <= tf_size_bytes f)%Z.

Lemma build_records_ok adapter config found records :
  build_records adapter config found = Ok records -> NoDup (fst <$> found) ->
  NoDup (tr_name <$> records) /\ StronglySorted (not_after str_lt) (tr_name <$> records) /\
  Forall (fun n => n ∈ tr_name <$> records) (expected_tensor_names (ad_data adapter) config) /\
  Forall (fun r => exists c t o, (tr_name r, (c, t)) ∈ found /\
    tr_file r = path_name (if_path c) /\ tr_dtype r = it_dtype t /\ tr_shape r = it_shape t /\
    tr_data_offset r = it_data_offset t /\ tr_byte_length r = it_byte_length t /\
    classify_tensor (ad_data adapter) (tr_name r) config = Ok o /\
    tr_role r = to_role o /\ tr_layer_index r = to_layer_index o) records.
Proof.
  unfold build_records. intros E Hnd. apply bind_ok in E as (rs & Hrs & E). inv_ok. bool_to_prop.
  apply mapM_ok in Hrs.
  assert (Hnames : tr_name <$> records = py_sorted str_lt (fst <$> found)).
  { clear -Hrs. induction Hrs as [|n r ns rs Hr _ IH]; [done|]. rewrite fmap_cons, IH.
    by apply tensor_record_ok in Hr as (?&?&?&_&->&_). }
  split_and!.
  - by rewrite Hnames, py_sorted_Permutation.
  - rewrite Hnames. apply (py_sorted_StronglySorted _ (fun _ => True)); [| |by apply Forall_true].
    + intros ? ? _ _. apply str_lt_asym.
    + intros ? ? ? _ _ _. apply str_le_trans.
  - eapply Forall_impl; [eassumption|]. intros n Hn. by apply py_in_elem.
  - apply Forall_forall. intros r [i Hi]%list_elem_of_lookup.
    destruct (Forall2_lookup_r _ _ _ _ _ Hrs Hi) as (n & _ & Hr).
    apply tensor_record_ok in Hr as (c & t & o & Hg & <- & ?). exists c, t, o.
    apply assoc_get_elem in Hg. tauto.
Qed.

Lemma tensor_files_elem model_path hash_mode paths inspected files c :
  mapM (fun '(item, i) => tensor_file model_path hash_mode item i) (zip paths inspected) = Ok files ->
  length paths = length inspected -> c ∈ inspected ->
  exists f, f ∈ files /\ tf_name f = path_name (if_path c) /\
    tf_size_bytes f = if_size_bytes c /\ tf_header_size_bytes f = if_header_size_bytes c.
Proof.
  intros Hf%mapM_ok Hlen [i Hi]%list_elem_of_lookup.
  destruct (lookup_lt_is_Some_2 paths i) as [p Hp].
  { apply lookup_lt_Some in Hi. lia. }
  assert (zip paths inspected !! i = Some (p, c)) as Hz by (by apply lookup_zip_Some).
  destruct (Forall2_lookup_l _ _ _ _ _ Hf Hz) as (f & Hff & Ht).
  unfold tensor_file in Ht. apply bind_ok in Ht as (sha & _ & Ht). apply Ok_inj in Ht as <-.
  eexists. split; [by eapply list_elem_of_lookup_2|done].
Qed.

Lemma adapter_for_known j a : adapter_for j = Some a ->
  a = LlamaArchitectureAdapter \/ a = Qwen3ArchitectureAdapter.
Proof.
  unfold adapter_for. destruct j as [[]|]; try done.
  destruct (String.eqb s "llama"); [intros [= <-]; by left|].
  destruct (String.eqb s "qwen3"); [intros [= <-]; by right|done].
Qed.

Lemma adapter_describe_ok a raw d :
  a = LlamaArchitectureAdapter \/ a = Qwen3ArchitectureAdapter -> ad_describe a raw = Ok d ->
  config_supported (md_config d).
Proof.
  intros [->| ->]; simpl; [by intros [? _]%llama_describe_ok|].
  unfold qwen3_describe. intros E. apply bind_ok in E as (? & _ & E).
  apply bind_ok in E as (d' & Hd & E). inv_ok. by apply llama_describe_ok in Hd as [? _].
Qed.

End preparation_lemmas.

(** ** A concrete model directory: one layer, tied embeddings, one-byte elements *)
Module ManifestDemo.

#[local] Instance demo_hash : Hash := fun _ =>
  "0123456789abcdef0123456789abcdef0123456789abcdef0123456789abcdef".

Definition demo_shapes : list (string * list Z) := [
  ("model.norm.weight", [2]); ("model.embed_tokens.weight", [2; 2]);
  ("model.layers.0.input_layernorm.weight", [2]);
  ("model.layers.0.post_attention_layernorm.weight", [2]);
  ("model.layers.0.self_attn.q_proj.weight", [2; 2]); ("model.layers.0.self_attn.k_proj.weight", [2; 2]);
  ("model.layers.0.self_attn.v_proj.weight", [2; 2]); ("model.layers.0.self_attn.o_proj.weight", [2; 2]);
  ("model.layers.0.mlp.gate_proj.weight", [2; 2]); ("model.layers.0.mlp.up_proj.weight", [2; 2]);
  ("model.layers.0.mlp.down_proj.weight", [2; 2])]%Z.

Fixpoint demo_header (offset : Z) (l : list (string * list Z)) : list (string * json) :=
  match l with
  | [] => []
  | (name, shape) :: rest =>
    let size := _product shape in
    (name, JObj [("dtype", JStr "U8"); ("shape", JArr (JInt <$> shape));
                 ("data_offsets", JArr [JInt offset; JInt (offset + size)])])
    :: demo_header (offset + size) rest
  end.

Definition demo_raw : raw_config := [
  ("model_type", JStr "llama"); ("hidden_size", JInt 2); ("num_attention_heads", JInt 1);
  ("num_key_value_heads", JInt 1); ("intermediate_size", JInt 2); ("num_hidden_layers", JInt 1);
  ("vocab_size", JInt 2); ("max_position_embeddings", JInt 8); ("tie_word_embeddings", JBool true)].

#[local] Instance demo_loads : JsonLoads := {
  loads_text s := if String.eqb s "config" then Some (JObj demo_raw) else None;
  loads_bytes s := if String.eqb s "{}" then Some (JObj (demo_header 0 demo_shapes)) else None
}.

Definition demo_content : string :=
  String "002" (String "000" (String "000" (String "000" (String "000" (String "000"
    (String "000" (String "000" "{}01234567890123456789012345678901234567"))))))).

Definition demo_path : ModelPath := {|
  mp_path := "/models/demo"; mp_name := "demo";
  mp_files := Some [("config.json", "config"); ("model.safetensors", demo_content)] |}.

End ManifestDemo.
