(* ===== verification/Profiles.v ===== *)
(** * Measured profiles (src/python/hllm_control/profiling/models.py)

    Immutable, content-addressed measurements: their records, validators and
    dumps, the compatibility check between an artifact and the key a planner
    asks for, and the completeness check of a compute run.  An aware datetime is
    its instant in microseconds together with the text it is serialized as. *)

From Stdlib Require Import SpecFloat.
From S2P Require Export Models.

Record AwareDatetime := { dt_instant : datetime; dt_text : string }.

Definition Label (s : string) : bool := negb (String.eqb s "").
Definition Milliseconds (x : float) : bool := fle f0 x && is_finite x.

(** ** Keys *)

Record Environment := {
  en_backend : Backend;
  en_device_identity : string;
  en_device_name : string;
  en_backend_version : string;
  en_driver_version : string;
  en_allocator : string;
  en_allocator_config : string;
  en_source_revision : string;
  en_binary_digest : string;
  en_compiler : string;
  en_os : string
}.

#[export] Instance environment_eq_dec : EqDecision Environment.
Proof. solve_decision. Defined.
#[export] Instance pyeq_environment : PyEq Environment := pyeq_of_dec.
#[export] Instance pyeq_environment_laws : PyEqLaws Environment := pyeq_of_dec_laws.

Definition Environment_fields (e : Environment) : bool :=
  forallb Label [en_device_identity e; en_device_name e; en_backend_version e; en_driver_version e;
                 en_allocator e; en_allocator_config e; en_source_revision e; en_compiler e; en_os e]
  && is_digest (en_binary_digest e).

Definition backend_value (b : Backend) : string :=
  match b with CPU => "cpu" | MLX => "mlx" | CUDA => "cuda" end.

Definition Environment_dump (e : Environment) : json :=
  JObj [("backend", JStr (backend_value (en_backend e)));
        ("device_identity", JStr (en_device_identity e)); ("device_name", JStr (en_device_name e));
        ("backend_version", JStr (en_backend_version e));
        ("driver_version", JStr (en_driver_version e)); ("allocator", JStr (en_allocator e));
        ("allocator_config", JStr (en_allocator_config e));
        ("source_revision", JStr (en_source_revision e));
        ("binary_digest", JStr (en_binary_digest e)); ("compiler", JStr (en_compiler e));
        ("os", JStr (en_os e))].

Inductive TransportMode := PAGEABLE | PINNED.
Inductive InputKind := SYNTHETIC_SHAPE | REFERENCE.

#[export] Instance transport_mode_eq_dec : EqDecision TransportMode.
Proof. solve_decision. Defined.
#[export] Instance pyeq_transport_mode : PyEq TransportMode := pyeq_of_dec.
#[export] Instance pyeq_transport_mode_laws : PyEqLaws TransportMode := pyeq_of_dec_laws.
#[export] Instance input_kind_eq_dec : EqDecision InputKind.
Proof. solve_decision. Defined.
#[export] Instance pyeq_input_kind : PyEq InputKind := pyeq_of_dec.
#[export] Instance pyeq_input_kind_laws : PyEqLaws InputKind := pyeq_of_dec_laws.

Definition transport_value (t : TransportMode) : string :=
  match t with PAGEABLE => "pageable" | PINNED => "pinned" end.
Definition input_kind_value (k : InputKind) : string :=
  match k with SYNTHETIC_SHAPE => "synthetic-shape" | REFERENCE => "reference" end.

Record ProfileKey := {
  pk_manifest_digest : string;
  pk_checkpoint_digest : string;
  pk_environment : Environment;
  pk_assignment : StageAssignment;
  pk_workload : WorkloadProfile;
  pk_workload_digest : string;
  pk_execution_dtype : DType;
  pk_weight_dtype : option DType;
  pk_transport_mode : TransportMode;
  pk_input_kind : InputKind;
  pk_input_digest : string
}.

Definition ProfileKey_dump (k : ProfileKey) : json :=
  JObj ([("manifest_digest", JStr (pk_manifest_digest k));
         ("checkpoint_digest", JStr (pk_checkpoint_digest k));
         ("environment", Environment_dump (pk_environment k));
         ("assignment", StageAssignment_dump (pk_assignment k));
         ("workload", WorkloadProfile_dump (pk_workload k));
         ("workload_digest", JStr (pk_workload_digest k));
         ("execution_dtype", JStr (dtype_value (pk_execution_dtype k)))]
        ++ json_field (pk_weight_dtype k == None) "weight_dtype"
             (json_opt (fun d => JStr (dtype_value d)) (pk_weight_dtype k))
        ++ [("transport_mode", JStr (transport_value (pk_transport_mode k)));
            ("input_kind", JStr (input_kind_value (pk_input_kind k)));
            ("input_digest", JStr (pk_input_digest k))]).

Section keys.
Context `{Hash}.

Definition ProfileKey_fields (k : ProfileKey) : bool :=
  forallb is_digest [pk_manifest_digest k; pk_checkpoint_digest k; pk_workload_digest k;
                     pk_input_digest k]
  && Environment_fields (pk_environment k) && StageAssignment_fields (pk_assignment k)
  && is_ok (validate_WorkloadProfile (pk_workload k)).

Definition supported_workload (k : ProfileKey) : result unit :=
  let w := pk_workload k in
  let cpu := en_backend (pk_environment k) == CPU in
  raise_if ((pk_weight_dtype k != None)
            && (cpu || (pk_weight_dtype k != Some F16) || (pk_execution_dtype k != F32)))
    ValidationError "unsupported mixed precision profile" ;;
  raise_if (pk_workload_digest k != digest (WorkloadProfile_dump w)) ValidationError
    "workload digest mismatch" ;;
  raise_if (wl_concurrency w != 1%Z) ValidationError
    "measured profiles currently support concurrency 1" ;;
  raise_if (wl_total_cached_tokens w <? wl_prompt_tokens w + wl_output_tokens w)%Z ValidationError
    "cache capacity must cover prompt plus output tokens" ;;
  raise_if (negb (py_in (pk_execution_dtype k) (if cpu then [F32] else [F16; F32]))
            || (wl_kv_dtype w != pk_execution_dtype k)) ValidationError
    "unsupported execution/KV dtype for backend" ;;
  raise_if (wl_activation_dtype w != F16) ValidationError "native boundary requires F16" ;;
  raise_if ((pk_transport_mode k == PINNED) && (en_backend (pk_environment k) != CUDA))
    ValidationError "pinned transport is currently CUDA-only" ;;
  let a := pk_assignment k in
  raise_if (sa_layer_end a <=? sa_layer_start a)%Z ValidationError
    "stage must own a nonempty layer range" ;;
  raise_if (sa_owns_token_embedding a
            != ((sa_stage_index a == 0%Z) && (sa_layer_start a == 0%Z))) ValidationError
    "embedding ownership does not match first stage" ;;
  raise_if (negb ((sa_owns_final_norm a == sa_owns_lm_head a)
                  && (sa_owns_lm_head a == sa_owns_sampling a))) ValidationError
    "final tensor and sampling ownership must agree".

Definition validate_ProfileKey (k : ProfileKey) : result ProfileKey :=
  fields_ok (ProfileKey_fields k) ;;
  supported_workload k ;;
  Ok k.
End keys.

(** ** Conditions and memory *)

Inductive ProcessPolicy :=
  | FRESH_PROCESS_THEN_RELOADS | LOADED_STAGE_PAIRED_PASSES | NATIVE_STREAM_EXCHANGES.

Definition policy_value (p : ProcessPolicy) : string :=
  match p with
  | FRESH_PROCESS_THEN_RELOADS => "fresh-process-then-reloads"
  | LOADED_STAGE_PAIRED_PASSES => "loaded-stage-paired-passes"
  | NATIVE_STREAM_EXCHANGES => "native-stream-exchanges"
  end.

Record Conditions := {
  cd_measured_at : AwareDatetime;
  cd_warmup_cycles : Z;
  cd_measured_cycles : Z;
  cd_process_policy : ProcessPolicy;
  cd_concurrent_load : string;
  cd_notes : list string
}.

Definition Conditions_fields (c : Conditions) : bool :=
  NonNegativeInt (cd_warmup_cycles c) && PositiveInt (cd_measured_cycles c)
  && Label (cd_concurrent_load c).

Definition Conditions_dump (c : Conditions) : json :=
  JObj [("measured_at", JStr (dt_text (cd_measured_at c)));
        ("warmup_cycles", JInt (cd_warmup_cycles c));
        ("measured_cycles", JInt (cd_measured_cycles c));
        ("process_policy", JStr (policy_value (cd_process_policy c)));
        ("concurrent_load", JStr (cd_concurrent_load c)); ("notes", JArr (JStr <$> cd_notes c))].

Record MemoryAmounts := { ma_host : Z; ma_device : Z; ma_pinned : Z; ma_unified : Z }.

#[export] Instance amounts_eq_dec : EqDecision MemoryAmounts.
Proof. solve_decision. Defined.
#[export] Instance pyeq_amounts : PyEq MemoryAmounts := pyeq_of_dec.
#[export] Instance pyeq_amounts_laws : PyEqLaws MemoryAmounts := pyeq_of_dec_laws.

Definition no_memory : MemoryAmounts :=
  {| ma_host := 0; ma_device := 0; ma_pinned := 0; ma_unified := 0 |}.

Definition pinned_is_host (m : MemoryAmounts) : result unit :=
  raise_if (ma_host m <? ma_pinned m)%Z ValidationError "pinned memory is a subset of host memory".

Definition MemoryAmounts_fields (m : MemoryAmounts) : bool :=
  forallb NonNegativeInt [ma_host m; ma_device m; ma_pinned m; ma_unified m].

Definition validate_MemoryAmounts (m : MemoryAmounts) : result MemoryAmounts :=
  fields_ok (MemoryAmounts_fields m) ;; pinned_is_host m ;; Ok m.

Definition MemoryAmounts_dump (m : MemoryAmounts) : json :=
  JObj [("host", JInt (ma_host m)); ("device", JInt (ma_device m)); ("pinned", JInt (ma_pinned m));
        ("unified", JInt (ma_unified m))].

Record AllocatorSample := {
  al_active_bytes : Z;
  al_cached_bytes : Z;
  al_peak_bytes : Z;
  al_peak_scope : bool   (** "phase", against "unavailable" *)
}.

Definition AllocatorSample_fields (a : AllocatorSample) : bool :=
  forallb NonNegativeInt [al_active_bytes a; al_cached_bytes a; al_peak_bytes a].

Definition AllocatorSample_dump (a : AllocatorSample) : json :=
  JObj [("active_bytes", JInt (al_active_bytes a)); ("cached_bytes", JInt (al_cached_bytes a));
        ("peak_bytes", JInt (al_peak_bytes a));
        ("peak_scope", JStr (if al_peak_scope a then "phase" else "unavailable"))].

Inductive MemoryPhase :=
  | BASELINE | LOAD | ALLOCATE | PREFILL | DECODE | REQUEST_CLEANUP | UNLOAD.

#[export] Instance memory_phase_eq_dec : EqDecision MemoryPhase.
Proof. solve_decision. Defined.
#[export] Instance pyeq_memory_phase : PyEq MemoryPhase := pyeq_of_dec.
#[export] Instance pyeq_memory_phase_laws : PyEqLaws MemoryPhase := pyeq_of_dec_laws.

Definition memory_phase_value (p : MemoryPhase) : string :=
  match p with
  | BASELINE => "baseline" | LOAD => "load" | ALLOCATE => "allocate" | PREFILL => "prefill"
  | DECODE => "decode" | REQUEST_CLEANUP => "request_cleanup" | UNLOAD => "unload"
  end.

Definition MEMORY_PHASES : list MemoryPhase :=
  [BASELINE; LOAD; ALLOCATE; PREFILL; DECODE; REQUEST_CLEANUP; UNLOAD].

Record ProcessMemoryObservation := {
  po_process_id : Z;
  po_observed_at_unix_ns : Z;
  po_rss_bytes : option Z;
  po_rss_lifetime_peak_bytes : option Z;
  po_physical_footprint_bytes : option Z;
  po_physical_footprint_lifetime_peak_bytes : option Z
}.

Definition ProcessMemoryObservation_fields (p : ProcessMemoryObservation) : bool :=
  PositiveInt (po_process_id p) && PositiveInt (po_observed_at_unix_ns p)
  && forallb (opt_ok NonNegativeInt)
       [po_rss_bytes p; po_rss_lifetime_peak_bytes p; po_physical_footprint_bytes p;
        po_physical_footprint_lifetime_peak_bytes p].

Definition ProcessMemoryObservation_dump (p : ProcessMemoryObservation) : json :=
  JObj [("process_id", JInt (po_process_id p));
        ("observed_at_unix_ns", JInt (po_observed_at_unix_ns p));
        ("rss_bytes", json_opt JInt (po_rss_bytes p));
        ("rss_lifetime_peak_bytes", json_opt JInt (po_rss_lifetime_peak_bytes p));
        ("physical_footprint_bytes", json_opt JInt (po_physical_footprint_bytes p));
        ("physical_footprint_lifetime_peak_bytes",
          json_opt JInt (po_physical_footprint_lifetime_peak_bytes p))].

Record MemorySample := {
  ms_cycle : Z;
  ms_phase : MemoryPhase;
  ms_weights : MemoryAmounts;
  ms_cache : MemoryAmounts;
  ms_workspace : MemoryAmounts;
  ms_allocator : option AllocatorSample;
  ms_rss_bytes : option Z;
  ms_rss_lifetime_peak_bytes : option Z;
  ms_device_available_bytes : option Z;
  ms_completed_steps : Z;
  ms_process_memory : option ProcessMemoryObservation
}.

Definition MemorySample_fields (s : MemorySample) : bool :=
  NonNegativeInt (ms_cycle s)
  && forallb (fun m => is_ok (validate_MemoryAmounts m)) [ms_weights s; ms_cache s; ms_workspace s]
  && opt_ok AllocatorSample_fields (ms_allocator s)
  && forallb (opt_ok NonNegativeInt)
       [ms_rss_bytes s; ms_rss_lifetime_peak_bytes s; ms_device_available_bytes s]
  && NonNegativeInt (ms_completed_steps s)
  && opt_ok ProcessMemoryObservation_fields (ms_process_memory s).

Definition consistent_rss (s : MemorySample) : result unit :=
  match ms_process_memory s with
  | Some p => raise_if ((ms_rss_bytes s != po_rss_bytes p)
                        || (ms_rss_lifetime_peak_bytes s != po_rss_lifetime_peak_bytes p))
                ValidationError "process observation must match legacy RSS counters"
  | None => Ok tt
  end.

Definition MemorySample_dump (s : MemorySample) : json :=
  JObj ([("cycle", JInt (ms_cycle s)); ("phase", JStr (memory_phase_value (ms_phase s)));
         ("weights", MemoryAmounts_dump (ms_weights s)); ("cache", MemoryAmounts_dump (ms_cache s));
         ("workspace", MemoryAmounts_dump (ms_workspace s));
         ("allocator", json_opt AllocatorSample_dump (ms_allocator s));
         ("rss_bytes", json_opt JInt (ms_rss_bytes s));
         ("rss_lifetime_peak_bytes", json_opt JInt (ms_rss_lifetime_peak_bytes s));
         ("device_available_bytes", json_opt JInt (ms_device_available_bytes s));
         ("completed_steps", JInt (ms_completed_steps s))]
        ++ match ms_process_memory s with
           | Some p => [("process_memory", ProcessMemoryObservation_dump p)]
           | None => [] end).

Record PhysicalSample := {
  ph_elapsed_seconds : float;
  ph_rss_bytes : option Z;
  ph_device_process_bytes : option Z
}.

Definition PhysicalSample_fields (p : PhysicalSample) : bool :=
  NonNegativeFloat (ph_elapsed_seconds p) && is_finite (ph_elapsed_seconds p)
  && opt_ok NonNegativeInt (ph_rss_bytes p) && opt_ok NonNegativeInt (ph_device_process_bytes p).

Definition PhysicalSample_dump (p : PhysicalSample) : json :=
  JObj [("elapsed_seconds", JFloat (ph_elapsed_seconds p));
        ("rss_bytes", json_opt JInt (ph_rss_bytes p));
        ("device_process_bytes", json_opt JInt (ph_device_process_bytes p))].

Record MemoryMeasurement := {
  mem_admission_capacity : MemoryAmounts;
  mem_samples : list MemorySample;
  mem_physical_samples : list PhysicalSample;
  mem_physical_sample_interval_seconds : float;
  mem_completed : bool;
  mem_error : option string
}.

Definition MemoryMeasurement_fields (m : MemoryMeasurement) : bool :=
  is_ok (validate_MemoryAmounts (mem_admission_capacity m))
  && forallb (fun s => MemorySample_fields s && is_ok (consistent_rss s)) (mem_samples m)
  && forallb PhysicalSample_fields (mem_physical_samples m)
  && PositiveFloat (mem_physical_sample_interval_seconds m)
  && is_finite (mem_physical_sample_interval_seconds m).

Definition MemoryMeasurement_dump (m : MemoryMeasurement) : json :=
  JObj [("kind", JStr "memory"); ("admission_capacity", MemoryAmounts_dump (mem_admission_capacity m));
        ("samples", JArr (MemorySample_dump <$> mem_samples m));
        ("physical_samples", JArr (PhysicalSample_dump <$> mem_physical_samples m));
        ("physical_sample_interval_seconds", JFloat (mem_physical_sample_interval_seconds m));
        ("completed", JBool (mem_completed m)); ("error", json_opt JStr (mem_error m));
        ("execution", JStr "isolated-stage-shape-exercise")].

(** ** Timings *)

Inductive ExecutionPhase := EXEC_PREFILL | EXEC_DECODE.

#[export] Instance execution_phase_eq_dec : EqDecision ExecutionPhase.
Proof. solve_decision. Defined.
#[export] Instance pyeq_execution_phase : PyEq ExecutionPhase := pyeq_of_dec.
#[export] Instance pyeq_execution_phase_laws : PyEqLaws ExecutionPhase := pyeq_of_dec_laws.

Definition phase_value (p : ExecutionPhase) : string :=
  match p with EXEC_PREFILL => "prefill" | EXEC_DECODE => "decode" end.

Inductive Component :=
  | C_STAGE | C_LAYER | C_EMBEDDING | C_FINAL_NORM | C_LM_HEAD | C_SAMPLING | C_FROM_WIRE
  | C_TO_WIRE | C_VALIDATION | C_RUNTIME_OVERHEAD | C_SEQUENCE_ALLOCATION.

#[export] Instance component_eq_dec : EqDecision Component.
Proof. solve_decision. Defined.
#[export] Instance pyeq_component : PyEq Component := pyeq_of_dec.
#[export] Instance pyeq_component_laws : PyEqLaws Component := pyeq_of_dec_laws.

Definition component_value (c : Component) : string :=
  match c with
  | C_STAGE => "stage" | C_LAYER => "layer" | C_EMBEDDING => "embedding"
  | C_FINAL_NORM => "final_norm" | C_LM_HEAD => "lm_head" | C_SAMPLING => "sampling"
  | C_FROM_WIRE => "from-wire" | C_TO_WIRE => "to-wire" | C_VALIDATION => "validation"
  | C_RUNTIME_OVERHEAD => "runtime_overhead" | C_SEQUENCE_ALLOCATION => "sequence_allocation"
  end.

Inductive TimingMode := COMPONENT_SYNCHRONIZED | WHOLE_STAGE.

#[export] Instance timing_mode_eq_dec : EqDecision TimingMode.
Proof. solve_decision. Defined.
#[export] Instance pyeq_timing_mode : PyEq TimingMode := pyeq_of_dec.
#[export] Instance pyeq_timing_mode_laws : PyEqLaws TimingMode := pyeq_of_dec_laws.

Definition timing_mode_value (m : TimingMode) : string :=
  match m with COMPONENT_SYNCHRONIZED => "component-synchronized" | WHOLE_STAGE => "whole-stage" end.

Record ComputeMeasurement := {
  cp_phase : ExecutionPhase;
  cp_context_tokens : Z;
  cp_component : Component;   (** one of the six compute components *)
  cp_layer_index : option Z;
  cp_samples_ms : list float
}.

Definition layer_identity (m : ComputeMeasurement) : result unit :=
  raise_if ((cp_component m == C_LAYER) != (cp_layer_index m != None)) ValidationError
    "layer index is required only for a layer measurement".

Definition ComputeMeasurement_fields (m : ComputeMeasurement) : bool :=
  NonNegativeInt (cp_context_tokens m)
  && py_in (cp_component m) [C_STAGE; C_LAYER; C_EMBEDDING; C_FINAL_NORM; C_LM_HEAD; C_SAMPLING]
  && opt_ok NonNegativeInt (cp_layer_index m)
  && forallb Milliseconds (cp_samples_ms m) && (1 <=? length (cp_samples_ms m))%nat
  && is_ok (layer_identity m).

(** The dump without its samples: the scope of a compute measurement. *)
Definition ComputeMeasurement_scope (m : ComputeMeasurement) : list (string * json) :=
  [("kind", JStr "compute"); ("phase", JStr (phase_value (cp_phase m)));
   ("context_tokens", JInt (cp_context_tokens m));
   ("component", JStr (component_value (cp_component m)));
   ("layer_index", json_opt JInt (cp_layer_index m))].

Record ConversionMeasurement := {
  cv_to_wire : bool;   (** direction "to-wire", against "from-wire" *)
  cv_payload_bytes : Z;
  cv_samples_ms : list float
}.

Definition ConversionMeasurement_fields (m : ConversionMeasurement) : bool :=
  PositiveInt (cv_payload_bytes m) && forallb Milliseconds (cv_samples_ms m)
  && (1 <=? length (cv_samples_ms m))%nat.

Definition ConversionMeasurement_scope (m : ConversionMeasurement) : list (string * json) :=
  [("kind", JStr "conversion"); ("direction", JStr (if cv_to_wire m then "to-wire" else "from-wire"));
   ("payload_bytes", JInt (cv_payload_bytes m))].

Record LinkMeasurement := {
  lm_source_worker_id : string;
  lm_target_worker_id : string;
  lm_source_environment : Environment;
  lm_target_environment : Environment;
  lm_connection_type : ConnectionType;
  lm_payload_bytes : Z;
  lm_persistent : bool;     (** stream policy "persistent", against "new-stream" *)
  lm_round_trip : bool;     (** attribution "round-trip-including-feedback", against "stream-setup" *)
  lm_samples_ms : list float
}.

Definition distinct_endpoints (m : LinkMeasurement) : result unit :=
  raise_if (lm_source_worker_id m == lm_target_worker_id m) ValidationError
    "directional link requires distinct endpoints" ;;
  raise_if (lm_connection_type m == UNKNOWN) ValidationError
    "measured link requires a qualified connection type".

Definition LinkMeasurement_fields (m : LinkMeasurement) : bool :=
  Label (lm_source_worker_id m) && Label (lm_target_worker_id m)
  && Environment_fields (lm_source_environment m) && Environment_fields (lm_target_environment m)
  && PositiveInt (lm_payload_bytes m) && forallb Milliseconds (lm_samples_ms m)
  && (1 <=? length (lm_samples_ms m))%nat && is_ok (distinct_endpoints m).

Definition connection_value (c : ConnectionType) : string :=
  match c with
  | DIRECT => "DIRECT" | PEER_RELAYED => "PEER_RELAYED" | DERP_RELAYED => "DERP_RELAYED"
  | UNKNOWN => "UNKNOWN"
  end.

Definition LinkMeasurement_scope (m : LinkMeasurement) : list (string * json) :=
  [("kind", JStr "link"); ("source_worker_id", JStr (lm_source_worker_id m));
   ("target_worker_id", JStr (lm_target_worker_id m));
   ("source_environment", Environment_dump (lm_source_environment m));
   ("target_environment", Environment_dump (lm_target_environment m));
   ("connection_type", JStr (connection_value (lm_connection_type m)));
   ("payload_bytes", JInt (lm_payload_bytes m));
   ("stream_policy", JStr (if lm_persistent m then "persistent" else "new-stream"));
   ("attribution",
     JStr (if lm_round_trip m then "round-trip-including-feedback" else "stream-setup"))].

Record TimingRecord := {
  ti_cycle : Z;
  ti_step : Z;
  ti_context_tokens : Z;
  ti_phase : ExecutionPhase;
  ti_component : Component;
  ti_layer_index : option Z;
  ti_timing_mode : TimingMode;
  ti_milliseconds : float;
  ti_chunk_index : option Z
}.

Definition TimingRecord_fields (r : TimingRecord) : bool :=
  forallb NonNegativeInt [ti_cycle r; ti_step r; ti_context_tokens r]
  && opt_ok NonNegativeInt (ti_layer_index r) && Milliseconds (ti_milliseconds r)
  && opt_ok NonNegativeInt (ti_chunk_index r).

Definition TimingRecord_dump (r : TimingRecord) : json :=
  JObj ([("cycle", JInt (ti_cycle r)); ("step", JInt (ti_step r));
         ("context_tokens", JInt (ti_context_tokens r)); ("phase", JStr (phase_value (ti_phase r)));
         ("component", JStr (component_value (ti_component r)));
         ("layer_index", json_opt JInt (ti_layer_index r));
         ("timing_mode", JStr (timing_mode_value (ti_timing_mode r)));
         ("milliseconds", JFloat (ti_milliseconds r))]
        ++ json_field (ti_chunk_index r == None) "chunk_index" (json_opt JInt (ti_chunk_index r))).

Record ComputeRunMeasurement := {
  cr_admission_capacity : MemoryAmounts;
  cr_records : list TimingRecord;
  cr_identical_output_cycles : list Z;
  cr_completed : bool;
  cr_error : option string
}.

Definition ComputeRunMeasurement_fields (m : ComputeRunMeasurement) : bool :=
  is_ok (validate_MemoryAmounts (cr_admission_capacity m))
  && forallb TimingRecord_fields (cr_records m)
  && forallb NonNegativeInt (cr_identical_output_cycles m).

Definition ComputeRunMeasurement_dump (m : ComputeRunMeasurement) : json :=
  JObj [("kind", JStr "compute-run");
        ("admission_capacity", MemoryAmounts_dump (cr_admission_capacity m));
        ("records", JArr (TimingRecord_dump <$> cr_records m));
        ("identical_output_cycles", JArr (JInt <$> cr_identical_output_cycles m));
        ("completed", JBool (cr_completed m)); ("error", json_opt JStr (cr_error m))].

(** ** Measurements *)

Inductive Measurement :=
  | Memory (m : MemoryMeasurement)
  | Compute (m : ComputeMeasurement)
  | Conversion (m : ConversionMeasurement)
  | Link (m : LinkMeasurement)
  | ComputeRun (m : ComputeRunMeasurement).

Inductive MeasurementKind := K_MEMORY | K_COMPUTE | K_CONVERSION | K_LINK | K_COMPUTE_RUN.

#[export] Instance measurement_kind_eq_dec : EqDecision MeasurementKind.
Proof. solve_decision. Defined.
#[export] Instance pyeq_measurement_kind : PyEq MeasurementKind := pyeq_of_dec.
#[export] Instance pyeq_measurement_kind_laws : PyEqLaws MeasurementKind := pyeq_of_dec_laws.

Definition kind_of (m : Measurement) : MeasurementKind :=
  match m with
  | Memory _ => K_MEMORY | Compute _ => K_COMPUTE | Conversion _ => K_CONVERSION
  | Link _ => K_LINK | ComputeRun _ => K_COMPUTE_RUN
  end.

Definition Measurement_fields (m : Measurement) : bool :=
  match m with
  | Memory m => MemoryMeasurement_fields m
  | Compute m => ComputeMeasurement_fields m
  | Conversion m => ConversionMeasurement_fields m
  | Link m => LinkMeasurement_fields m
  | ComputeRun m => ComputeRunMeasurement_fields m
  end.

Definition samples_field (l : list float) : string * json := ("samples_ms", JArr (JFloat <$> l)).

Definition Measurement_dump (m : Measurement) : json :=
  match m with
  | Memory m => MemoryMeasurement_dump m
  | Compute m => JObj (ComputeMeasurement_scope m ++ [samples_field (cp_samples_ms m)])
  | Conversion m => JObj (ConversionMeasurement_scope m ++ [samples_field (cv_samples_ms m)])
  | Link m => JObj (LinkMeasurement_scope m ++ [samples_field (lm_samples_ms m)])
  | ComputeRun m => ComputeRunMeasurement_dump m
  end.

(** [measurement.model_dump(mode="json", exclude={"samples_ms"})] *)
Definition measurement_scope (m : Measurement) : json :=
  match m with
  | Compute m => JObj (ComputeMeasurement_scope m)
  | Conversion m => JObj (ConversionMeasurement_scope m)
  | Link m => JObj (LinkMeasurement_scope m)
  | Memory m => MemoryMeasurement_dump m
  | ComputeRun m => ComputeRunMeasurement_dump m
  end.

(** The completion flag and error of the measurements that have one. *)
Definition completion (m : Measurement) : option (bool * option string) :=
  match m with
  | Memory m => Some (mem_completed m, mem_error m)
  | ComputeRun m => Some (cr_completed m, cr_error m)
  | _ => None
  end.

Definition measurement_samples (m : Measurement) : list float :=
  match m with
  | Compute m => cp_samples_ms m
  | Conversion m => cv_samples_ms m
  | Link m => lm_samples_ms m
  | _ => []
  end.

(** ** Completeness of a compute run *)

Definition prefill_chunks (w : WorkloadProfile) : Z :=
  let chunk := wl_prefill_chunk_tokens w in
  if chunk == 0%Z then 1%Z else (- (- wl_prompt_tokens w / chunk))%Z.

(** The checks on one record of the run. *)
Definition check_record (w : WorkloadProfile) (cycles : Z) (r : TimingRecord) : result unit :=
  let chunk := wl_prefill_chunk_tokens w in
  let chunks := prefill_chunks w in
  let step0 := ti_step r == 0%Z in
  raise_if ((cycles <=? ti_cycle r)%Z || (wl_output_tokens w <=? ti_step r)%Z) ValueError
    "timing sample outside workload" ;;
  raise_if (((ti_chunk_index r != None) != ((chunk != 0%Z) && step0))
            || match ti_chunk_index r with Some k => (chunks <=? k)%Z | None => false end) ValueError
    "timing chunk identity mismatch" ;;
  let position := if step0 then (default 0 (ti_chunk_index r) * chunk)%Z
                  else (wl_prompt_tokens w + ti_step r - 1)%Z in
  raise_if ((ti_context_tokens r != position)
            || (ti_phase r != (if step0 then EXEC_PREFILL else EXEC_DECODE))) ValueError
    "timing context/phase mismatch" ;;
  raise_if ((ti_component r == C_LAYER) != (ti_layer_index r != None)) ValueError
    "layer timing identity mismatch".

(** The key a record is indexed by. *)
Definition row_key (r : TimingRecord) : Z * TimingMode * Z * option Z :=
  (ti_cycle r, ti_timing_mode r, ti_step r, ti_chunk_index r).

(** [indexed.get(key, [])], in the order of the records. *)
Definition rows_for (key : Z * TimingMode * Z * option Z) (records : list TimingRecord)
    : list TimingRecord := List.filter (fun r => row_key r == key) records.

Definition executions (w : WorkloadProfile) : list (Z * option Z) :=
  ((fun k => (0%Z, if wl_prefill_chunk_tokens w == 0%Z then None else Some k))
     <$> py_range 0 (prefill_chunks w))
  ++ ((fun step => (step, None)) <$> py_range 1 (wl_output_tokens w)).

Definition row_identity (r : TimingRecord) : Component * option Z := (ti_component r, ti_layer_index r).

(** What one execution must have measured, in one timing mode. *)
Definition expected_rows (key : ProfileKey) (mode : TimingMode) (step : Z) (chunk_index : option Z)
    : list (Component * option Z) :=
  let a := pk_assignment key in
  let sampled := (step != 0%Z) || match chunk_index with
                                  | None => true
                                  | Some k => k == (prefill_chunks (pk_workload key) - 1)%Z end in
  [(C_STAGE, None)]
  ++ (if (step == 0%Z) && (default 0%Z chunk_index == 0%Z)
      then [(C_SEQUENCE_ALLOCATION, None)] else [])
  ++ match mode with
     | WHOLE_STAGE => []
     | COMPONENT_SYNCHRONIZED =>
       [(if sa_owns_token_embedding a then C_EMBEDDING else C_FROM_WIRE, None)]
       ++ ((fun i => (C_LAYER, Some i)) <$> py_range (sa_layer_start a) (sa_layer_end a))
       ++ (if en_backend (pk_environment key) == CPU then [] else [(C_VALIDATION, None)])
       ++ (if negb (sa_owns_sampling a) then [(C_TO_WIRE, None)]
           else if sampled then [(C_FINAL_NORM, None); (C_LM_HEAD, None); (C_SAMPLING, None)] else [])
       ++ [(C_RUNTIME_OVERHEAD, None)]
     end.

(** [set(a) == set(b) and len(a) == len(b)] *)
Definition same_rows (actual expected : list (Component * option Z)) : bool :=
  forallb (fun x => py_in x expected) actual && forallb (fun x => py_in x actual) expected
  && (length actual =? length expected)%nat.

Definition stage_total (rows : list TimingRecord) : result float :=
  match List.find (fun r => ti_component r == C_STAGE) rows with
  | Some r => Ok (ti_milliseconds r)
  | None => raise StopIteration ""
  end.

Definition component_total (rows : list TimingRecord) : float :=
  py_fsum (ti_milliseconds <$> List.filter
    (fun r => negb (py_in (ti_component r) [C_STAGE; C_SEQUENCE_ALLOCATION])) rows).

Definition check_execution (key : ProfileKey) (records : list TimingRecord)
    (e : Z * TimingMode * (Z * option Z)) : result unit :=
  let '(cycle, mode, (step, chunk_index)) := e in
  let rows := rows_for (cycle, mode, step, chunk_index) records in
  raise_if (negb (same_rows (row_identity <$> rows) (expected_rows key mode step chunk_index)))
    ValueError "missing/duplicate or unexpected timing components" ;;
  match mode with
  | WHOLE_STAGE => Ok tt
  | COMPONENT_SYNCHRONIZED =>
    total ← stage_total rows;
    raise_if (flt (literal 1 1000) (fabs (total - component_total rows)%float)) ValueError
      "timing components do not reconcile with stage total"
  end.

Definition all_executions (w : WorkloadProfile) (cycles : Z)
    : list (Z * TimingMode * (Z * option Z)) :=
  cycle ← py_range 0 cycles;
  mode ← [WHOLE_STAGE; COMPONENT_SYNCHRONIZED];
  e ← executions w; [(cycle, mode, e)].

Definition run_cycles (c : Conditions) : Z := (cd_warmup_cycles c + cd_measured_cycles c)%Z.

Definition validate_compute_run (key : ProfileKey) (conditions : Conditions)
    (m : ComputeRunMeasurement) : result unit :=
  let cycles := run_cycles conditions in
  raise_if ((cr_error m != None) || (cr_identical_output_cycles m != py_range 0 cycles)) ValueError
    "missing paired output parity checks" ;;
  mapM (check_record (pk_workload key) cycles) (cr_records m) ;;
  mapM (check_execution key (cr_records m)) (all_executions (pk_workload key) cycles) ;;
  Ok tt.

(** ** Artifacts *)

Record ProfileArtifact := {
  pa_schema_version : string;
  pa_profiler_version : string;
  pa_key : ProfileKey;
  pa_conditions : Conditions;
  pa_measurement : Measurement;
  pa_artifact_digest : string
}.

(** [model_dump(mode="json", exclude={"artifact_digest"})] *)
Definition unsigned_artifact (schema_version profiler_version : string) (key : ProfileKey)
    (conditions : Conditions) (measurement : Measurement) : json :=
  JObj [("schema_version", JStr schema_version); ("profiler_version", JStr profiler_version);
        ("key", ProfileKey_dump key); ("conditions", Conditions_dump conditions);
        ("measurement", Measurement_dump measurement)].

Definition fields_of (j : json) : list (string * json) := match j with JObj l => l | _ => [] end.

Definition ProfileArtifact_dump (a : ProfileArtifact) : json :=
  JObj (fields_of (unsigned_artifact (pa_schema_version a) (pa_profiler_version a) (pa_key a)
                     (pa_conditions a) (pa_measurement a))
        ++ [("artifact_digest", JStr (pa_artifact_digest a))]).

Definition process_observations (samples : list MemorySample) : list ProcessMemoryObservation :=
  omap ms_process_memory samples.

Definition check_sample (output_tokens : Z) (s : MemorySample) : result unit :=
  raise_if (py_in (ms_phase s) [REQUEST_CLEANUP; UNLOAD]
            && ((ms_cache s != no_memory) || (ms_workspace s != no_memory)))
    ValidationError "sequence reservations did not retire" ;;
  raise_if (py_in (ms_phase s) [BASELINE; UNLOAD] && (ms_weights s != no_memory))
    ValidationError "model reservations did not retire" ;;
  raise_if (py_in (ms_phase s) [DECODE; REQUEST_CLEANUP; UNLOAD]
            && (ms_completed_steps s != output_tokens))
    ValidationError "incomplete context exercise".

Definition expected_phases (cycles : Z) : list (Z * MemoryPhase) :=
  cycle ← py_range 0 cycles; phase ← MEMORY_PHASES; [(cycle, phase)].

Definition error_present (e : option string) : bool :=
  match e with Some s => negb (String.eqb s "") | None => false end.

Definition verify_memory (schema_version : string) (key : ProfileKey) (conditions : Conditions)
    (m : MemoryMeasurement) : result unit :=
  let observed := process_observations (mem_samples m) in
  (if schema_version == "1.3" then
     raise_if (negb (length observed =? length (mem_samples m))%nat) ValidationError
       "profile schema 1.3 requires process observations for all samples" ;;
     raise_if (1 <? length (dict_fromkeys (po_process_id <$> observed)))%nat ValidationError
       "memory profile must observe a single process"
   else raise_if (negb (length observed =? 0)%nat) ValidationError
          "process observations require profile schema 1.3") ;;
  if mem_completed m then
    raise_if (negb (((fun s => (ms_cycle s, ms_phase s)) <$> mem_samples m)
                    == expected_phases (run_cycles conditions))
              || (mem_error m != None)) ValidationError
      "completed memory profile must contain all ordered phases" ;;
    mapM (check_sample (wl_output_tokens (pk_workload key))) (mem_samples m) ;;
    Ok tt
  else raise_if (negb (error_present (mem_error m))) ValidationError
         "incomplete measurement requires an error".

Section artifacts.
Context `{Hash}.

Definition verify (a : ProfileArtifact) : result unit :=
  let mixed := pk_weight_dtype (pa_key a) != None in
  let memory := kind_of (pa_measurement a) == K_MEMORY in
  raise_if ((pa_schema_version a != "1.3") && (mixed != (pa_schema_version a == "1.2")))
    ValidationError "mixed precision requires profile schema 1.2 or 1.3" ;;
  raise_if ((pa_schema_version a == "1.3") && negb memory) ValidationError
    "profile schema 1.3 requires memory measurements" ;;
  raise_if (pa_artifact_digest a
            != digest (unsigned_artifact (pa_schema_version a) (pa_profiler_version a) (pa_key a)
                         (pa_conditions a) (pa_measurement a))) ValidationError
    "profile artifact digest mismatch" ;;
  match pa_measurement a with
  | Memory m => verify_memory (pa_schema_version a) (pa_key a) (pa_conditions a) m
  | ComputeRun m =>
    raise_if (pa_schema_version a != (if mixed then "1.2" else "1.1")) ValidationError
      "compute runs require measured profile schema 1.1" ;;
    if cr_completed m then validate_compute_run (pa_key a) (pa_conditions a) m
    else raise_if (negb (error_present (cr_error m))) ValidationError
           "incomplete compute run requires an error"
  | m => raise_if (negb (Z.of_nat (length (measurement_samples m))
                         == cd_measured_cycles (pa_conditions a))) ValidationError
           "sample count must match measured cycles; exclude warmups"
  end.

Definition ProfileArtifact_fields (a : ProfileArtifact) : bool :=
  py_in (pa_schema_version a) ["1.0"; "1.1"; "1.2"; "1.3"]
  && py_in (pa_profiler_version a) ["0.1.0"; "0.2.0"; "0.3.0"]
  && is_ok (validate_ProfileKey (pa_key a)) && Conditions_fields (pa_conditions a)
  && Measurement_fields (pa_measurement a) && is_digest (pa_artifact_digest a).

Definition validate_ProfileArtifact (a : ProfileArtifact) : result ProfileArtifact :=
  fields_ok (ProfileArtifact_fields a) ;;
  verify a ;;
  Ok a.

Definition has_process_memory (m : Measurement) : bool :=
  match m with
  | Memory m => existsb (fun s => match ms_process_memory s with Some _ => true | None => false end)
                  (mem_samples m)
  | _ => false
  end.

Definition make_artifact (key : ProfileKey) (conditions : Conditions) (measurement : Measurement)
    : result ProfileArtifact :=
  let process := has_process_memory measurement in
  let compute_run := kind_of measurement == K_COMPUTE_RUN in
  let schema_version :=
    if process then "1.3" else match pk_weight_dtype key with
                               | Some _ => "1.2"
                               | None => if compute_run then "1.1" else "1.0" end in
  let profiler_version := if process then "0.3.0" else if compute_run then "0.2.0" else "0.1.0" in
  validate_ProfileArtifact {|
    pa_schema_version := schema_version; pa_profiler_version := profiler_version;
    pa_key := key; pa_conditions := conditions; pa_measurement := measurement;
    pa_artifact_digest :=
      digest (unsigned_artifact schema_version profiler_version key conditions measurement) |}.
End artifacts.

(** ** Compatibility with a planner's key *)

(** [==] on JSON values: dictionaries are compared without their order. *)
Fixpoint json_eqb (a b : json) {struct a} : bool :=
  match a, b with
  | JNull, JNull => true
  | JBool x, JBool y => Bool.eqb x y
  | JInt x, JInt y => (x =? y)%Z
  | JFloat x, JFloat y => x == y
  | JStr x, JStr y => String.eqb x y
  | JArr l, JArr k =>
    (fix go l k := match l, k with
                   | [], [] => true
                   | x :: l', y :: k' => json_eqb x y && go l' k'
                   | _, _ => false
                   end) l k
  | JObj d, JObj e =>
    (length d =? length e)%nat
    && (fix go d := match d with
                    | [] => true
                    | (k, v) :: d' => match assoc_get k e with
                                      | Some w => json_eqb v w && go d'
                                      | None => false
                                      end
                    end) d
  | _, _ => false
  end.

Inductive CompatibilityStatus := COMPATIBLE | MISSING | INCOMPATIBLE | OUT_OF_RANGE | INCOMPLETE.

#[export] Instance compatibility_status_eq_dec : EqDecision CompatibilityStatus.
Proof. solve_decision. Defined.
#[export] Instance pyeq_compatibility_status : PyEq CompatibilityStatus := pyeq_of_dec.
#[export] Instance pyeq_compatibility_status_laws : PyEqLaws CompatibilityStatus := pyeq_of_dec_laws.

Definition status_value (s : CompatibilityStatus) : string :=
  match s with
  | COMPATIBLE => "compatible" | MISSING => "missing" | INCOMPATIBLE => "incompatible"
  | OUT_OF_RANGE => "out-of-range" | INCOMPLETE => "incomplete"
  end.

Record Compatibility := { co_status : CompatibilityStatus; co_reasons : list string }.

(** The fields of two keys, compared one by one, in the order of the class. *)
Definition key_comparison (a b : ProfileKey) : list (string * bool) := [
  ("manifest_digest", pk_manifest_digest a == pk_manifest_digest b);
  ("checkpoint_digest", pk_checkpoint_digest a == pk_checkpoint_digest b);
  ("environment", pk_environment a == pk_environment b);
  ("assignment", pk_assignment a == pk_assignment b);
  ("workload", pk_workload a == pk_workload b);
  ("workload_digest", pk_workload_digest a == pk_workload_digest b);
  ("execution_dtype", pk_execution_dtype a == pk_execution_dtype b);
  ("weight_dtype", pk_weight_dtype a == pk_weight_dtype b);
  ("transport_mode", pk_transport_mode a == pk_transport_mode b);
  ("input_kind", pk_input_kind a == pk_input_kind b);
  ("input_digest", pk_input_digest a == pk_input_digest b)].

Definition key_differences (a b : ProfileKey) : list string :=
  fst <$> List.filter (fun x => negb (snd x)) (key_comparison a b).

Definition incompatible (reason : string) : Compatibility :=
  {| co_status := INCOMPATIBLE; co_reasons := [reason] |}.

(** [0 <= age <= maximum_age_seconds], where [now] says whether it is aware. *)
Definition age_within (now : option (datetime * bool)) (measured_at : datetime)
    (maximum_age_seconds : float) : result bool :=
  match now with
  | Some (t, true) =>
    raise_if (flt maximum_age_seconds f0) ValueError
      "age checking requires an aware time and nonnegative maximum age" ;;
    age ← total_seconds (t - measured_at);
    Ok (fle f0 age && fle age maximum_age_seconds)
  | _ => raise ValueError "age checking requires an aware time and nonnegative maximum age"
  end.

Definition check_compatibility (artifact : option ProfileArtifact) (key : ProfileKey)
    (kind : MeasurementKind) (scope : option json) (now : option (datetime * bool))
    (maximum_age_seconds : option float) : result Compatibility :=
  match artifact with
  | None => Ok {| co_status := MISSING; co_reasons := [] |}
  | Some artifact =>
    let differences := key_differences (pa_key artifact) key in
    match differences with
    | _ :: _ =>
      let shape_only := forallb (fun d => py_in d ["workload"; "workload_digest"]) differences in
      Ok {| co_status := if shape_only then OUT_OF_RANGE else INCOMPATIBLE;
            co_reasons := differences |}
    | [] =>
      let m := pa_measurement artifact in
      if negb (kind_of m == kind) then Ok (incompatible "measurement kind")
      else if negb (py_in kind [K_MEMORY; K_COMPUTE_RUN])
              && negb match scope with Some s => json_eqb s (measurement_scope m) | None => false end
      then Ok (incompatible "measurement scope")
      else
        fresh ← match maximum_age_seconds with
                | None => Ok true
                | Some age => age_within now (dt_instant (cd_measured_at (pa_conditions artifact))) age
                end;
        if negb fresh then Ok (incompatible "measurement age")
        else match completion m with
             | Some (false, error) =>
               Ok {| co_status := INCOMPLETE;
                     co_reasons := [if error_present error then default "" error else "incomplete"] |}
             | _ => Ok {| co_status := COMPATIBLE; co_reasons := [] |}
             end
    end
  end.

(** ** Properties of compatibility *)

Lemma key_differences_nil a b :
  key_differences a b = [] <-> forallb snd (key_comparison a b) = true.
Proof.
  unfold key_differences. generalize (key_comparison a b). intros l.
  induction l as [|[n b'] l IH]; simpl; [done|]. destruct b'; simpl; [exact IH|done].
Qed.

(** An artifact is accepted for a key exactly when it exists, every field of
    its key equals the asked one, it is of the asked kind (and scope), it is not
    older than allowed, and its measurement is complete; nothing else is ever
    reported as compatible, and the only error is a malformed age request. *)
Theorem check_compatibility_iff artifact key kind scope now maximum_age :
  check_compatibility artifact key kind scope now maximum_age
    = Ok {| co_status := COMPATIBLE; co_reasons := [] |} <->
  exists a, artifact = Some a /\
    forallb snd (key_comparison (pa_key a) key) = true /\ kind_of (pa_measurement a) = kind /\
    (kind <> K_MEMORY -> kind <> K_COMPUTE_RUN ->
       exists s, scope = Some s /\ json_eqb s (measurement_scope (pa_measurement a)) = true) /\
    (forall age, maximum_age = Some age ->
       age_within now (dt_instant (cd_measured_at (pa_conditions a))) age = Ok true) /\
    (forall e, completion (pa_measurement a) <> Some (false, e)).
Proof.
  unfold check_compatibility. destruct artifact as [a|]; [|naive_solver].
  destruct (key_differences (pa_key a) key) as [|d ds] eqn:Hd.
  2: { split; [by destruct (forallb _ _)|]. intros (a' & [= <-] & Hk & _).
       apply key_differences_nil in Hk. congruence. }
  apply key_differences_nil in Hd. set (m := pa_measurement a).
  assert (Hscope : (negb (py_in kind [K_MEMORY; K_COMPUTE_RUN])
    && negb match scope with Some s => json_eqb s (measurement_scope m) | None => false end) = false <->
    (kind <> K_MEMORY -> kind <> K_COMPUTE_RUN ->
     exists s, scope = Some s /\ json_eqb s (measurement_scope m) = true)).
  { set (same := match scope with Some s => _ | None => false end).
    assert (same = true <-> exists s, scope = Some s /\ json_eqb s (measurement_scope m) = true) as Hsame.
    { unfold same. destruct scope as [s|]; [|by split; [|intros (?&?&?)]].
      split; [by exists s|by intros (? & [= <-] & ?)]. }
    clearbody same. rewrite <- Hsame. destruct kind, same; simpl; intuition congruence. }
  destruct (kind_of m == kind) eqn:Hkind; simpl.
  2: { split; [done|]. intros (a' & [= <-] & _ & <- & _). by rewrite pyeqb_refl in Hkind. }
  apply (proj1 (pyeqb_eq _ _)) in Hkind. destruct (negb _ && negb _) eqn:Hs.
  { split; [done|]. intros (a' & [= <-] & _ & _ & Hsc & _). apply Hscope in Hsc. done. }
  apply proj1 in Hscope. specialize (Hscope eq_refl). rewrite bind_ok. split.
  - intros (fresh & Hf & E). destruct fresh; [|done]. simpl in E. exists a.
    split; [done|]. split; [done|]. split; [done|]. split; [done|]. split.
    + intros age ->. done.
    + intros e He. fold m in He. by rewrite He in E.
  - intros (a' & [= <-] & _ & _ & _ & Hage & Hdone). exists true. simpl. split.
    + destruct maximum_age; [by apply Hage|done].
    + fold m in Hdone. destruct (completion m) as [[[] e]|] eqn:He; try done. by destruct (Hdone e).
Qed.

(** ** Completeness of an accepted compute run *)

Lemma py_range_cons a b : (a < b)%Z -> py_range a b = a :: py_range (a + 1) b.
Proof.
  intros. unfold py_range. replace (Z.to_nat (b - a)) with (S (Z.to_nat (b - (a + 1)))) by lia.
  cbn [seq]. rewrite fmap_cons, <- fmap_S_seq, <- list_fmap_compose. f_equal; [lia|].
  apply list_fmap_ext. intros i x _. simpl. lia.
Qed.

Lemma layer_rows_NoDup a b : NoDup ((fun i => (C_LAYER, Some i)) <$> py_range a b).
Proof. apply NoDup_fmap_2_strong; [by intros ? ? _ _ [= ->]|apply NoDup_py_range]. Qed.

Lemma not_layer_row c o a b : c <> C_LAYER ->
  (c, o) ∉ ((fun i => (C_LAYER, Some i)) <$> py_range a b).
Proof. intros Hc (i & [= ? _] & _)%list_elem_of_fmap. done. Qed.

Lemma expected_rows_NoDup key mode step chunk : NoDup (expected_rows key mode step chunk).
Proof.
  unfold expected_rows. set (layers := _ <$> py_range _ _). set (seqs := if _ && _ then _ else _).
  assert (Hseqs : seqs = [] \/ seqs = [(C_SEQUENCE_ALLOCATION, None)])
    by (unfold seqs; destruct (_ && _); auto). clearbody seqs.
  destruct mode; [|destruct Hseqs as [->| ->]; rewrite <- py_unique_NoDup; reflexivity].
  set (emb := if sa_owns_token_embedding _ then _ else _).
  set (val := if _ == CPU then _ else _). set (tail := if negb _ then _ else _).
  assert (Hl : NoDup layers) by apply layer_rows_NoDup.
  assert (Hnl : forall c o, c <> C_LAYER -> (c, o) ∉ layers) by (intros; by apply not_layer_row).
  clearbody layers.
  enough (NoDup (layers ++ [(C_STAGE, None)] ++ seqs ++ [(emb, None)] ++ val ++ tail
                 ++ [(C_RUNTIME_OVERHEAD, None)])) as Hp.
  { rewrite (Permutation_app_swap_app [(emb, None)] layers), (Permutation_app_swap_app seqs layers),
      (Permutation_app_swap_app [(C_STAGE, None)] layers). exact Hp. }
  assert (Hcases : NoDup ([(C_STAGE, None)] ++ seqs ++ [(emb, None)] ++ val ++ tail
      ++ [(C_RUNTIME_OVERHEAD, @None Z)]) /\
    Forall (fun x => fst x <> C_LAYER) ([(C_STAGE, None)] ++ seqs ++ [(emb, None)] ++ val ++ tail
      ++ [(C_RUNTIME_OVERHEAD, @None Z)])).
  { unfold emb, val, tail. destruct (sa_owns_token_embedding _), (_ == CPU), (sa_owns_sampling _), (_ || _),
      Hseqs as [->| ->]; (split; [rewrite <- py_unique_NoDup; reflexivity|repeat constructor; done]). }
  destruct Hcases as [Hnd Hf]. apply NoDup_app. split; [done|]. split; [|done].
  intros [c o] Hx Hx'. rewrite Forall_forall in Hf. apply (Hnl c o); [by apply (Hf (c, o))|done].
Qed.

Lemma same_rows_Permutation actual expected :
  same_rows actual expected = true -> NoDup expected -> actual ≡ₚ expected.
Proof.
  unfold same_rows. intros Hs Hnd. apply andb_true_iff in Hs as [Hs Hlen].
  apply andb_true_iff in Hs as [_ Hs]. apply forallb_Forall in Hs. rewrite Forall_forall in Hs.
  apply same_elements_Permutation; [done| |by apply Nat.eqb_eq].
  intros x Hx. by apply py_in_elem, Hs.
Qed.

Lemma executions_NoDup w : NoDup (executions w).
Proof.
  unfold executions, prefill_chunks. apply NoDup_app. split_and!.
  - destruct (wl_prefill_chunk_tokens w == 0%Z).
    + rewrite <- py_unique_NoDup. reflexivity.
    + apply NoDup_fmap_2_strong; [by intros ? ? _ _ [= ->]|apply NoDup_py_range].
  - intros x (k & -> & _)%list_elem_of_fmap (s & [= <- _] & Hs%elem_of_py_range)%list_elem_of_fmap. lia.
  - apply NoDup_fmap_2_strong; [by intros ? ? _ _ [= ->]|apply NoDup_py_range].
Qed.

Definition execution_key (e : Z * TimingMode * (Z * option Z)) : Z * TimingMode * Z * option Z :=
  let '(cycle, mode, (step, chunk_index)) := e in (cycle, mode, step, chunk_index).

Lemma elem_of_all_executions w cycles c m e :
  (c, m, e) ∈ all_executions w cycles <-> (0 <= c < cycles)%Z /\ e ∈ executions w.
Proof.
  unfold all_executions. rewrite list_elem_of_bind. setoid_rewrite list_elem_of_bind.
  setoid_rewrite list_elem_of_bind. setoid_rewrite list_elem_of_singleton.
  setoid_rewrite elem_of_py_range. split; [naive_solver|]. intros [? ?]. exists c. split; [|done].
  exists m. split; [by eexists|]. destruct m; set_solver.
Qed.

Lemma all_executions_NoDup w cycles : NoDup (all_executions w cycles).
Proof.
  unfold all_executions. apply NoDup_bind; [| |apply NoDup_py_range].
  - intros x1 x2 y _ _ (m & (e & Hy & _)%list_elem_of_bind & _)%list_elem_of_bind
      (m' & (e' & Hy' & _)%list_elem_of_bind & _)%list_elem_of_bind.
    apply list_elem_of_singleton in Hy, Hy'. congruence.
  - intros c _. apply NoDup_bind.
    + intros x1 x2 y _ _ (e & Hy & _)%list_elem_of_bind (e' & Hy' & _)%list_elem_of_bind.
      apply list_elem_of_singleton in Hy, Hy'. congruence.
    + intros m _. apply NoDup_bind; [| |apply executions_NoDup].
      * intros x1 x2 y _ _ Hy%list_elem_of_singleton Hy'%list_elem_of_singleton. congruence.
      * intros. apply NoDup_singleton.
    + rewrite <- py_unique_NoDup. reflexivity.
Qed.

Lemma check_record_execution w cycles r :
  check_record w cycles r = Ok tt -> TimingRecord_fields r = true ->
  row_key r ∈ execution_key <$> all_executions w cycles.
Proof.
  unfold check_record, TimingRecord_fields, NonNegativeInt, opt_ok, forallb. intros E Hf. inv_ok.
  apply list_elem_of_fmap. exists (ti_cycle r, ti_timing_mode r, (ti_step r, ti_chunk_index r)).
  split; [done|]. bool_to_prop. apply elem_of_all_executions. split; [lia|].
  unfold executions, prefill_chunks in *. apply elem_of_app. rewrite !list_elem_of_fmap.
  setoid_rewrite elem_of_py_range. unfold pyeqb, pyeq_option, pyeq_Z, pyeq_bool in *.
  destruct (Z.eqb_spec (ti_step r) 0) as [->|], (Z.eqb_spec (wl_prefill_chunk_tokens w) 0),
    (ti_chunk_index r) as [k|]; simpl in *; bool_to_prop; try done.
  - left. exists 0%Z. split; [done|lia].
  - left. exists k. split; [done|]. lia.
  - right. exists (ti_step r). split; [done|lia].
  - right. exists (ti_step r). split; [done|lia].
Qed.

(** The identity of a record within its run, and the identities a run must have. *)
Definition run_identity (r : TimingRecord) : Z * TimingMode * Z * option Z * (Component * option Z) :=
  (row_key r, row_identity r).

Definition expected_run (key : ProfileKey) (cycles : Z)
    : list (Z * TimingMode * Z * option Z * (Component * option Z)) :=
  e ← all_executions (pk_workload key) cycles;
  let '(cycle, mode, (step, chunk_index)) := e in
  id ← expected_rows key mode step chunk_index; [(cycle, mode, step, chunk_index, id)].

Lemma execution_keys_NoDup w cycles : NoDup (execution_key <$> all_executions w cycles).
Proof.
  apply NoDup_fmap_2_strong; [|apply all_executions_NoDup].
  by intros [[c m] [s k]] [[c' m'] [s' k']] _ _ [= -> -> -> ->].
Qed.

Lemma rows_identities key records cycle mode step chunk :
  check_execution key records (cycle, mode, (step, chunk)) = Ok tt ->
  run_identity <$> rows_for (cycle, mode, step, chunk) records
  ≡ₚ (id ← expected_rows key mode step chunk; [(cycle, mode, step, chunk, id)]).
Proof.
  unfold check_execution. intros E. apply bind_ok in E as (? & Hs & _). inv_ok. bool_to_prop.
  apply same_rows_Permutation in Hs; [|apply expected_rows_NoDup].
  rewrite <- Hs. clear Hs. set (k := (cycle, mode, step, chunk)).
  assert (Hk : Forall (fun r => row_key r = k) (rows_for k records)).
  { apply Forall_forall. intros r [Hr _]%elem_of_filterb. by apply (proj1 (pyeqb_eq _ _)). }
  revert Hk. generalize (rows_for k records). induction l as [|r l IH]; [done|].
  intros [Hr Hl]%Forall_cons. cbn [fmap list_fmap mbind list_bind]. unfold run_identity at 1.
  rewrite Hr. simpl. constructor. by apply IH.
Qed.

Lemma compute_run_records key conditions m :
  validate_compute_run key conditions m = Ok tt ->
  forallb TimingRecord_fields (cr_records m) = true ->
  run_identity <$> cr_records m ≡ₚ expected_run key (run_cycles conditions).
Proof.
  unfold validate_compute_run. intros E Hf. apply bind_ok in E as (? & _ & E).
  apply bind_ok in E as (us & Hr%mapM_ok & E). apply bind_ok in E as (vs & He%mapM_ok & _).
  set (w := pk_workload key) in *. set (cycles := run_cycles conditions) in *.
  apply forallb_Forall in Hf.
  assert (Hin : Forall (fun r => row_key r ∈ execution_key <$> all_executions w cycles) (cr_records m)).
  { rewrite Forall_forall in Hf |- *. intros r Hrin. apply check_record_execution; [|by apply Hf].
    apply list_elem_of_lookup in Hrin as [i Hi].
    destruct (Forall2_lookup_l _ _ _ _ _ Hr Hi) as ([] & _ & ?). done. }
  rewrite (group_Permutation row_key _ _ (execution_keys_NoDup w cycles) Hin) at 1.
  rewrite fmap_bind_list, list_fmap_bind. unfold expected_run. fold w cycles. apply bind_Permutation_ext, Forall_forall.
  intros [[c md] [s k]] Hex. simpl. apply rows_identities.
  apply list_elem_of_lookup in Hex as [i Hi].
  destruct (Forall2_lookup_l _ _ _ _ _ He Hi) as ([] & _ & ?). done.
Qed.

(** C17: the records of an accepted compute run are exactly the measurements the
    workload calls for: for every cycle, timing mode, prefill chunk and decode
    step, each component of the stage exactly once, and no other record.  A
    timing can be neither missing (and so count as zero) nor counted twice. *)
Theorem compute_run_complete key conditions m :
  validate_compute_run key conditions m = Ok tt ->
  forallb TimingRecord_fields (cr_records m) = true ->
  run_identity <$> cr_records m ≡ₚ expected_run key (run_cycles conditions).
Proof. apply compute_run_records. Qed.

(** In every measured cycle and mode, every step of the workload has its stage
    time, and the first one its allocation time. *)
Lemma expected_run_step key cycles cycle mode step :
  (0 <= cycle < cycles)%Z -> (0 <= step < wl_output_tokens (pk_workload key))%Z ->
  (0 < prefill_chunks (pk_workload key))%Z ->
  exists chunk, (cycle, mode, step, chunk, (C_STAGE, None)) ∈ expected_run key cycles /\
    (step = 0%Z -> (cycle, mode, step, chunk, (C_SEQUENCE_ALLOCATION, None)) ∈ expected_run key cycles).
Proof.
  intros Hc Hs Hp. set (w := pk_workload key) in *.
  assert (exists chunk, (step, chunk) ∈ executions w /\ default 0%Z chunk = 0%Z) as (chunk & He & Hd).
  { unfold executions. destruct (decide (step = 0%Z)) as [->|Hne].
    - exists (if wl_prefill_chunk_tokens w == 0%Z then None else Some 0%Z).
      split; [|by case_match]. apply elem_of_app. left. apply list_elem_of_fmap. exists 0%Z.
      rewrite elem_of_py_range. split; [done|lia].
    - exists None. split; [|done]. apply elem_of_app. right. apply list_elem_of_fmap. exists step.
      rewrite elem_of_py_range. split; [done|lia]. }
  exists chunk. unfold expected_run. rewrite !list_elem_of_bind.
  assert ((cycle, mode, (step, chunk)) ∈ all_executions w cycles) by by apply elem_of_all_executions.
  split; [|intros ->]; (exists (cycle, mode, (step, chunk)) || exists (cycle, mode, (0%Z, chunk)));
    (split; [|done]); apply list_elem_of_bind; eexists; (split; [by apply list_elem_of_singleton|]).
  - apply list_elem_of_here.
  - unfold expected_rows. apply elem_of_app. right. apply elem_of_app. left. rewrite Hd. simpl.
    apply list_elem_of_here.
Qed.

(** ** Artifacts *)

(** What the content of a measurement must satisfy, apart from field constraints. *)
Definition content_ok (key : ProfileKey) (conditions : Conditions) (m : Measurement) : Prop :=
  match m with
  | Memory m =>
    (process_observations (mem_samples m) = [] \/
     length (process_observations (mem_samples m)) = length (mem_samples m) /\
     (length (dict_fromkeys (po_process_id <$> process_observations (mem_samples m))) <= 1)%nat) /\
    if mem_completed m then
      ((fun s => (ms_cycle s, ms_phase s)) <$> mem_samples m) = expected_phases (run_cycles conditions) /\
      mem_error m = None /\
      Forall (fun s => check_sample (wl_output_tokens (pk_workload key)) s = Ok tt) (mem_samples m)
    else error_present (mem_error m) = true
  | ComputeRun m =>
    if cr_completed m then validate_compute_run key conditions m = Ok tt
    else error_present (cr_error m) = true
  | m => Z.of_nat (length (measurement_samples m)) = cd_measured_cycles conditions
  end.

Lemma mapM_unit_ok {A} (f : A -> result unit) l :
  (exists us, mapM f l = Ok us) <-> Forall (fun x => f x = Ok tt) l.
Proof.
  split.
  - intros [us Hus%mapM_ok]. apply Forall_forall. intros x [i Hi]%list_elem_of_lookup.
    destruct (Forall2_lookup_l _ _ _ _ _ Hus Hi) as ([] & _ & ?). done.
  - intros HF. exists (replicate (length l) tt). apply mapM_ok. induction HF; simpl; by constructor.
Qed.

Lemma process_observations_nil samples :
  process_observations samples = [] <->
  existsb (fun s => match ms_process_memory s with Some _ => true | None => false end) samples = false.
Proof.
  unfold process_observations. induction samples as [|s samples IH]; simpl; [done|].
  destruct (ms_process_memory s); simpl; [naive_solver|exact IH].
Qed.

Lemma verify_memory_iff schema key conditions m :
  verify_memory schema key conditions m = Ok tt <->
  (if schema == "1.3"
   then length (process_observations (mem_samples m)) = length (mem_samples m) /\
        (length (dict_fromkeys (po_process_id <$> process_observations (mem_samples m))) <= 1)%nat
   else process_observations (mem_samples m) = []) /\
  (if mem_completed m then
     ((fun s => (ms_cycle s, ms_phase s)) <$> mem_samples m) = expected_phases (run_cycles conditions) /\
     mem_error m = None /\
     Forall (fun s => check_sample (wl_output_tokens (pk_workload key)) s = Ok tt) (mem_samples m)
   else error_present (mem_error m) = true).
Proof.
  unfold verify_memory. rewrite bind_ok. set (obs := process_observations _). split.
  - intros ([] & Ho & Hc). split.
    + destruct (schema == "1.3").
      * apply bind_ok in Ho as ([] & Hl & Ho). inv_ok. bool_to_prop.
        split; [by apply Nat.eqb_eq|by apply Nat.ltb_ge].
      * inv_ok. bool_to_prop. by destruct obs.
    + destruct (mem_completed m).
      * apply bind_ok in Hc as ([] & Hu & Hc). apply bind_ok in Hc as (us & Hus & _). inv_ok. bool_to_prop.
        split; [done|]. split; [done|]. apply mapM_unit_ok. by eexists.
      * inv_ok. by bool_to_prop.
  - intros [Ho Hc]. exists tt. split.
    + destruct (schema == "1.3").
      * destruct Ho as [-> Hl]. rewrite Nat.eqb_refl. simpl. by rewrite (proj2 (Nat.ltb_ge _ _)).
      * by rewrite Ho.
    + destruct (mem_completed m); [|by rewrite Hc].
      destruct Hc as (-> & -> & [us ->]%mapM_unit_ok). by rewrite pyeqb_refl.
Qed.

Lemma verify_made `{Hash} key conditions m :
  let process := has_process_memory m in
  let compute_run := kind_of m == K_COMPUTE_RUN in
  let schema := if process then "1.3" else match pk_weight_dtype key with
                | Some _ => "1.2" | None => if compute_run then "1.1" else "1.0" end in
  let profiler := if process then "0.3.0" else if compute_run then "0.2.0" else "0.1.0" in
  verify (Build_ProfileArtifact schema profiler key conditions m
            (digest (unsigned_artifact schema profiler key conditions m))) = Ok tt <->
  content_ok key conditions m.
Proof.
  intros process compute_run schema profiler. unfold verify.
  cbn [pa_schema_version pa_profiler_version pa_key pa_conditions pa_measurement pa_artifact_digest].
  rewrite pyeqb_refl. cbn [negb raise_if mbind result_bind].
  assert (Hmix : ((schema != "1.3") && ((pk_weight_dtype key != None) != (schema == "1.2"))) = false).
  { unfold schema. destruct process; [done|]. by destruct (pk_weight_dtype key), compute_run. }
  assert (H13 : (schema == "1.3") = process).
  { unfold schema. destruct process; [done|]. by destruct (pk_weight_dtype key), compute_run. }
  rewrite Hmix, H13. destruct m as [m|m|m|m|m]; simpl in process; unfold process; simpl.
  - rewrite andb_false_r. simpl. rewrite verify_memory_iff, H13. unfold process.
    destruct (existsb _ _) eqn:Hp; [|apply process_observations_nil in Hp; tauto].
    assert (process_observations (mem_samples m) <> []) by (rewrite process_observations_nil; congruence).
    tauto.
  - rewrite raise_if_ok, negb_false_iff. apply (pyeqb_eq (Z.of_nat _)).
  - rewrite raise_if_ok, negb_false_iff. apply (pyeqb_eq (Z.of_nat _)).
  - rewrite raise_if_ok, negb_false_iff. apply (pyeqb_eq (Z.of_nat _)).
  - assert (schema = if pk_weight_dtype key != None then "1.2" else "1.1") as ->
      by (unfold schema, compute_run; simpl; by destruct (pk_weight_dtype key)).
    rewrite pyeqb_refl. simpl. destruct (cr_completed m); [done|]. by rewrite raise_if_ok, negb_false_iff.
Qed.

(** [make_artifact] accepts a measurement exactly when its key, conditions and
    content are valid: the schema version it chooses and the digest it computes
    always pass the artifact's own verification, and the artifact holds the given
    content under the digest of that content. *)
Theorem make_artifact_iff `{HashLaws} key conditions m :
  (exists a, make_artifact key conditions m = Ok a /\
     pa_key a = key /\ pa_conditions a = conditions /\ pa_measurement a = m /\
     pa_artifact_digest a = digest (unsigned_artifact (pa_schema_version a) (pa_profiler_version a)
                                      key conditions m) /\
     verify a = Ok tt) <->
  is_ok (validate_ProfileKey key) = true /\ Conditions_fields conditions = true /\
  Measurement_fields m = true /\ content_ok key conditions m.
Proof.
  set (process := has_process_memory m).
  set (compute_run := kind_of m == K_COMPUTE_RUN).
  set (schema := if process then "1.3" else match pk_weight_dtype key with
                 | Some _ => "1.2" | None => if compute_run then "1.1" else "1.0" end).
  set (profiler := if process then "0.3.0" else if compute_run then "0.2.0" else "0.1.0").
  set (a := Build_ProfileArtifact schema profiler key conditions m
              (digest (unsigned_artifact schema profiler key conditions m))).
  assert (Hmake : make_artifact key conditions m = validate_ProfileArtifact a) by done.
  assert (Hverify : verify a = Ok tt <-> content_ok key conditions m).
  { apply verify_made. }
  assert (Hfields : ProfileArtifact_fields a = true <-> is_ok (validate_ProfileKey key) = true /\
    Conditions_fields conditions = true /\ Measurement_fields m = true).
  { unfold ProfileArtifact_fields, a. cbn [pa_schema_version pa_profiler_version pa_key pa_conditions
      pa_measurement pa_artifact_digest]. unfold digest. rewrite sha256_hex_digest, andb_true_r, !andb_true_iff.
    assert (py_in schema ["1.0"; "1.1"; "1.2"; "1.3"] = true) as ->
      by (unfold schema; repeat case_match; done).
    assert (py_in profiler ["0.1.0"; "0.2.0"; "0.3.0"] = true) as ->
      by (unfold profiler; repeat case_match; done). tauto. }
  rewrite Hmake. split.
  - intros (a' & E & _ & _ & _ & _ & Hv). unfold validate_ProfileArtifact in E. inv_ok. inv_fields.
    destruct v0. tauto.
  - intros (Hk & Hc & Hm & Hok). exists a. unfold validate_ProfileArtifact, fields_ok.
    rewrite (proj2 Hfields) by done. rewrite (proj2 Hverify) by done. done.
Qed.

(** ** A concrete compute run: one cycle of one prefill step on a first stage *)
Module ProfilesDemo.

Definition demo_digest : string := "0123456789abcdef0123456789abcdef0123456789abcdef0123456789abcdef".

#[local] Instance demo_hash : Hash := fun _ => demo_digest.
#[local] Instance demo_hash_laws : HashLaws.
Proof. intros s. reflexivity. Qed.

Definition demo_environment : Environment := {|
  en_backend := CPU; en_device_identity := "cpu-0"; en_device_name := "cpu";
  en_backend_version := "1"; en_driver_version := "not-applicable"; en_allocator := "malloc";
  en_allocator_config := "default"; en_source_revision := "r"; en_binary_digest := demo_digest;
  en_compiler := "cc"; en_os := "linux" |}.

Definition demo_key : ProfileKey := {|
  pk_manifest_digest := demo_digest; pk_checkpoint_digest := demo_digest;
  pk_environment := demo_environment;
  pk_assignment := {| sa_stage_index := 0; sa_worker_id := "alpha"; sa_layer_start := 0;
    sa_layer_end := 1; sa_owns_token_embedding := true; sa_owns_final_norm := false;
    sa_owns_lm_head := false; sa_owns_sampling := false |};
  pk_workload := {| wl_schema_version := "1.0"; wl_workload_id := "w"; wl_prompt_tokens := 2;
    wl_output_tokens := 1; wl_concurrency := 1; wl_total_cached_tokens := 3;
    wl_kv_overhead_factor := literal 1 1; wl_kv_dtype := F32; wl_activation_dtype := F16;
    wl_prefill_chunk_tokens := 0 |};
  pk_workload_digest := demo_digest; pk_execution_dtype := F32; pk_weight_dtype := None;
  pk_transport_mode := PAGEABLE; pk_input_kind := SYNTHETIC_SHAPE; pk_input_digest := demo_digest |}.

Definition demo_conditions : Conditions := {|
  cd_measured_at := {| dt_instant := 0; dt_text := "1970-01-01T00:00:00Z" |};
  cd_warmup_cycles := 0; cd_measured_cycles := 1;
  cd_process_policy := LOADED_STAGE_PAIRED_PASSES; cd_concurrent_load := "idle"; cd_notes := [] |}.

Definition demo_record (mode : TimingMode) (c : Component) (layer : option Z) (ms : float)
    : TimingRecord := {|
  ti_cycle := 0; ti_step := 0; ti_context_tokens := 0; ti_phase := EXEC_PREFILL;
  ti_component := c; ti_layer_index := layer; ti_timing_mode := mode; ti_milliseconds := ms;
  ti_chunk_index := None |}.

Definition one : float := literal 1 1.

Definition demo_run : ComputeRunMeasurement := {|
  cr_admission_capacity := no_memory;
  cr_records := [
    demo_record WHOLE_STAGE C_SEQUENCE_ALLOCATION None one;
    demo_record WHOLE_STAGE C_STAGE None one;
    demo_record COMPONENT_SYNCHRONIZED C_STAGE None (literal 4 1);
    demo_record COMPONENT_SYNCHRONIZED C_SEQUENCE_ALLOCATION None one;
    demo_record COMPONENT_SYNCHRONIZED C_RUNTIME_OVERHEAD None one;
    demo_record COMPONENT_SYNCHRONIZED C_EMBEDDING None one;
    demo_record COMPONENT_SYNCHRONIZED C_LAYER (Some 0%Z) one;
    demo_record COMPONENT_SYNCHRONIZED C_TO_WIRE None one];
  cr_identical_output_cycles := [0]%Z; cr_completed := true; cr_error := None |}.

Lemma compute_run_complete_witness :
  run_identity <$> cr_records demo_run ≡ₚ expected_run demo_key 1.
Proof.
  apply (compute_run_complete demo_key demo_conditions demo_run); vm_compute; reflexivity.
Defined.

Lemma make_artifact_iff_witness :
  exists a, make_artifact demo_key demo_conditions (ComputeRun demo_run) = Ok a /\ verify a = Ok tt.
Proof.
  assert (Hok : is_ok (validate_ProfileKey demo_key) = true /\ Conditions_fields demo_conditions = true /\
    Measurement_fields (ComputeRun demo_run) = true /\
    content_ok demo_key demo_conditions (ComputeRun demo_run)).
  { repeat apply conj; vm_compute; reflexivity. }
  destruct (proj2 (make_artifact_iff demo_key demo_conditions (ComputeRun demo_run)) Hok)
    as (a & Ha & _ & _ & _ & _ & Hv).
  exists a. exact (conj Ha Hv).
Defined.
End ProfilesDemo.
