(* ===== verification/Fit.v ===== *)
(** * Physical fit (src/python/hllm_control/profiling/memory.py)

    Whether a measured memory exercise fits a worker's current physical budgets:
    admission caps, reservations, host and device envelopes with their safety
    margin, and the coherent-footprint policy of MLX. *)

From Stdlib Require Import SpecFloat.
From S2P Require Export Profiles.

Inductive MlxFitPolicy := CONSERVATIVE | FOOTPRINT.

#[export] Instance mlx_policy_eq_dec : EqDecision MlxFitPolicy.
Proof. solve_decision. Defined.
#[export] Instance pyeq_mlx_policy : PyEq MlxFitPolicy := pyeq_of_dec.
#[export] Instance pyeq_mlx_policy_laws : PyEqLaws MlxFitPolicy := pyeq_of_dec_laws.

Definition DEFAULT_MLX_FIT_POLICY : MlxFitPolicy := FOOTPRINT.

Record PhysicalBudget := {
  pb_available_bytes : option Z;
  pb_headroom_bytes : Z;
  pb_extra_overhead_bytes : Z;
  pb_safety_fraction : float
}.

Definition PhysicalBudget_fields (b : PhysicalBudget) : bool :=
  opt_ok NonNegativeInt (pb_available_bytes b) && NonNegativeInt (pb_headroom_bytes b)
  && NonNegativeInt (pb_extra_overhead_bytes b)
  && fle (literal 5 100) (pb_safety_fraction b) && flt (pb_safety_fraction b) (literal 1 1).

Inductive FitStatus := SAFE | UNSAFE | FIT_UNKNOWN.

#[export] Instance fit_status_eq_dec : EqDecision FitStatus.
Proof. solve_decision. Defined.
#[export] Instance pyeq_fit_status : PyEq FitStatus := pyeq_of_dec.
#[export] Instance pyeq_fit_status_laws : PyEqLaws FitStatus := pyeq_of_dec_laws.

Inductive FitPolicy := CPU_RSS | CUDA_RSS_DEVICE | MLX_RSS_PLUS_ALLOCATOR | MLX_FOOTPRINT_MAX.

Record FitResult := {
  fr_status : FitStatus;
  fr_reasons : list string;
  fr_host_envelope_bytes : option Z;
  fr_device_envelope_bytes : option Z;
  fr_policy : FitPolicy;
  fr_requested_mlx_policy : option MlxFitPolicy;
  fr_policy_notes : list string
}.

Definition PhysicalBudget_dump (b : PhysicalBudget) : json :=
  JObj [("available_bytes", json_opt JInt (pb_available_bytes b));
        ("headroom_bytes", JInt (pb_headroom_bytes b));
        ("extra_overhead_bytes", JInt (pb_extra_overhead_bytes b));
        ("safety_fraction", JFloat (pb_safety_fraction b))].

Definition policy_name (p : MlxFitPolicy) : string :=
  match p with CONSERVATIVE => "conservative-v1" | FOOTPRINT => "footprint-v1" end.

#[export] Instance fit_policy_eq_dec : EqDecision FitPolicy.
Proof. solve_decision. Defined.

Definition fit_policy_value (p : FitPolicy) : string :=
  match p with
  | CPU_RSS => "cpu-rss-v1" | CUDA_RSS_DEVICE => "cuda-rss-device-v1"
  | MLX_RSS_PLUS_ALLOCATOR => "mlx-rss-plus-allocator-v1" | MLX_FOOTPRINT_MAX => "mlx-footprint-max-v1"
  end.

Definition fit_status_value (s : FitStatus) : string :=
  match s with SAFE => "safe" | UNSAFE => "unsafe" | FIT_UNKNOWN => "unknown" end.

Definition FitResult_dump (r : FitResult) : json :=
  JObj ([("status", JStr (fit_status_value (fr_status r))); ("reasons", json_strs (fr_reasons r));
         ("host_envelope_bytes", json_opt JInt (fr_host_envelope_bytes r));
         ("device_envelope_bytes", json_opt JInt (fr_device_envelope_bytes r));
         ("policy", JStr (fit_policy_value (fr_policy r)))]
        ++ json_field (match fr_requested_mlx_policy r with None => true | Some _ => false end)
             "requested_mlx_policy" (json_opt (fun p => JStr (policy_name p)) (fr_requested_mlx_policy r))
        ++ json_field (match fr_policy_notes r with [] => true | _ => false end) "policy_notes"
             (json_strs (fr_policy_notes r))).

(** ** Coherent process observations *)

Definition positive_counter (v : option Z) : option Z :=
  match v with Some n => if (n <=? 0)%Z then None else Some n | None => None end.

Definition execution_phase (p : MemoryPhase) : bool := py_in p [LOAD; ALLOCATE; PREFILL; DECODE].

(** The loop over the samples: the lifetime footprint peak of the last one. *)
Fixpoint footprint_scan (process_id : option Z) (previous_time previous_rss previous_footprint : Z)
    (samples : list MemorySample) : option Z * string :=
  match samples with
  | [] => (Some previous_footprint, "")
  | sample :: rest =>
    match ms_process_memory sample with
    | None => (None, "footprint policy requires positive OS counters in every phase")
    | Some p =>
      match positive_counter (po_rss_bytes p), positive_counter (po_rss_lifetime_peak_bytes p),
            positive_counter (po_physical_footprint_bytes p),
            positive_counter (po_physical_footprint_lifetime_peak_bytes p) with
      | Some rss, Some rss_peak, Some footprint, Some footprint_peak =>
        if opt_ok (fun id => po_process_id p == id) process_id
           && negb (po_observed_at_unix_ns p <? previous_time)%Z
           && negb (rss_peak <? Z.max previous_rss rss)%Z
           && negb (footprint_peak <? Z.max previous_footprint footprint)%Z
        then
          match ms_allocator sample with
          | Some a =>
            if execution_phase (ms_phase sample) && negb (al_peak_scope a)
            then (None, "footprint policy requires allocator observations and execution phase peaks")
            else footprint_scan (Some (po_process_id p)) (po_observed_at_unix_ns p) rss_peak
                   footprint_peak rest
          | None => (None, "footprint policy requires allocator observations and execution phase peaks")
          end
        else (None, "footprint policy requires coherent process identity, clock and lifetime peaks")
      | _, _, _, _ => (None, "footprint policy requires positive OS counters in every phase")
      end
    end
  end.

Definition is_fresh_policy (p : ProcessPolicy) : bool :=
  match p with FRESH_PROCESS_THEN_RELOADS => true | _ => false end.

Definition _footprint_peak (artifact : ProfileArtifact) (m : MemoryMeasurement) : option Z * string :=
  if (pa_schema_version artifact != "1.3") || negb (mem_completed m)
     || (length (mem_samples m) =? 0)%nat
  then (None, "footprint policy requires a complete schema-1.3 memory exercise")
  else if negb (is_fresh_policy (cd_process_policy (pa_conditions artifact)))
  then (None, "footprint policy requires fresh-process/reload evidence")
  else footprint_scan None 0 0 0 (mem_samples m).

(** ** Admission *)

(** The fields of [MemoryAmounts], in the order of the class. *)
Definition amount_fields : list (string * (MemoryAmounts -> Z)) :=
  [("host", ma_host); ("device", ma_device); ("pinned", ma_pinned); ("unified", ma_unified)].

Definition lower_caps (admission probed : MemoryAmounts) : list string :=
  '(name, get) ← amount_fields;
  if (get admission <? get probed)%Z
  then [String.append name ": lower admission cap requires a new load/run probe"] else [].

Definition required_amount (get : MemoryAmounts -> Z) (s : MemorySample) : Z :=
  (get (ms_weights s) + get (ms_cache s) + get (ms_workspace s))%Z.

Definition exceeded_caps (admission : MemoryAmounts) (samples : list MemorySample) : list string :=
  sample ← samples;
  '(name, get) ← amount_fields;
  if (get admission <? required_amount get sample)%Z
  then [String.append name ": native reservations exceed admission cap"] else [].

(** ** Physical peaks *)

Definition host_values (m : MemoryMeasurement) : list Z :=
  omap ms_rss_lifetime_peak_bytes (mem_samples m) ++ omap ph_rss_bytes (mem_physical_samples m).

Definition physical_device_values (m : MemoryMeasurement) : list Z :=
  omap ph_device_process_bytes (mem_physical_samples m).

Definition phase_peaks_missing (m : MemoryMeasurement) : bool :=
  existsb (fun s => execution_phase (ms_phase s)
                    && negb match ms_allocator s with Some a => al_peak_scope a | None => false end)
    (mem_samples m).

Definition allocator_values (m : MemoryMeasurement) : list Z :=
  (fun a => Z.max (al_peak_bytes a) (al_active_bytes a + al_cached_bytes a))
  <$> omap ms_allocator (mem_samples m).

(** [envelope(name, peak, budget)]: the envelope and what it adds to the lists. *)
Definition envelope (name : string) (peak : option Z) (budget : option PhysicalBudget)
    : result (option Z * list string * list string) :=
  match peak, budget with
  | Some peak, Some b =>
    match pb_available_bytes b with
    | Some available =>
      margin ← int_mul peak (pb_safety_fraction b);
      rounded ← py_ceil margin;
      let needed := (peak + rounded + pb_extra_overhead_bytes b)%Z in
      Ok (Some needed,
          if (available <? needed + pb_headroom_bytes b)%Z
          then [String.append name ": physical envelope plus headroom exceeds current availability"]
          else [], [])
    | None => Ok (None, [], [String.append name ": physical peak/current availability unavailable"])
    end
  | _, _ => Ok (None, [], [String.append name ": physical peak/current availability unavailable"])
  end.

(** The host peak and the policy it follows. *)
Definition host_peak_of (artifact : ProfileArtifact) (m : MemoryMeasurement) (policy : MlxFitPolicy)
    : option Z * FitPolicy * list string :=
  let backend := en_backend (pk_environment (pa_key artifact)) in
  match backend with
  | CPU => (py_max (host_values m), CPU_RSS, [])
  | CUDA => (py_max (host_values m), CUDA_RSS_DEVICE, [])
  | MLX =>
    let allocator_peak := default 0%Z (py_max (allocator_values m)) in
    let conservative := (fun p => p + allocator_peak)%Z <$> py_max (host_values m) in
    match policy with
    | CONSERVATIVE => (conservative, MLX_RSS_PLUS_ALLOCATOR, [])
    | FOOTPRINT =>
      match _footprint_peak artifact m with
      | (None, reason) =>
        (conservative, MLX_RSS_PLUS_ALLOCATOR, [String.append reason "; using conservative-v1"])
      | (Some footprint, _) =>
        (py_max (footprint :: allocator_peak :: host_values m
                 ++ ((fun s => default 0%Z (ms_rss_bytes s)) <$> mem_samples m)),
         MLX_FOOTPRINT_MAX, [])
      end
    end
  end.

Definition device_values (artifact : ProfileArtifact) (m : MemoryMeasurement) : list Z :=
  match en_backend (pk_environment (pa_key artifact)) with
  | CUDA => physical_device_values m ++ allocator_values m
  | _ => physical_device_values m
  end.

Definition backend_unknowns (artifact : ProfileArtifact) (m : MemoryMeasurement) : list string :=
  match en_backend (pk_environment (pa_key artifact)) with
  | CPU => []
  | backend =>
    (if phase_peaks_missing m then ["backend phase peak telemetry unavailable"] else [])
    ++ match backend, physical_device_values m with
       | CUDA, [] => ["CUDA physical process observations unavailable"]
       | _, _ => []
       end
  end.

Definition incomplete_reason (m : MemoryMeasurement) : list string :=
  if mem_completed m then []
  else [String.append "incomplete memory exercise: "
          (if error_present (mem_error m) then default "" (mem_error m) else "unknown error")].

Definition assess_fit (artifact : ProfileArtifact) (admission_capacity : MemoryAmounts)
    (host : PhysicalBudget) (device : option PhysicalBudget) (mlx_policy : MlxFitPolicy)
    : result FitResult :=
  match pa_measurement artifact with
  | Memory m =>
    let backend := en_backend (pk_environment (pa_key artifact)) in
    let unknown := incomplete_reason m ++ lower_caps admission_capacity (mem_admission_capacity m)
                   ++ backend_unknowns artifact m in
    let unsafe := exceeded_caps admission_capacity (mem_samples m) in
    let '(host_peak, policy, policy_notes) := host_peak_of artifact m mlx_policy in
    '(host_envelope, unsafe_host, unknown_host) ← envelope "host/unified" host_peak (Some host);
    '(device_envelope, unsafe_device, unknown_device) ←
      (match backend with
       | CUDA => envelope "device" (py_max (device_values artifact m)) device
       | _ => Ok (None, [], [])
       end);
    let all_unsafe := unsafe ++ unsafe_host ++ unsafe_device in
    let all_unknown := unknown ++ unknown_host ++ unknown_device in
    Ok {| fr_status := match all_unsafe, all_unknown with
                       | _ :: _, _ => UNSAFE | [], _ :: _ => FIT_UNKNOWN | [], [] => SAFE end;
          fr_reasons := dict_fromkeys (all_unsafe ++ all_unknown);
          fr_host_envelope_bytes := host_envelope; fr_device_envelope_bytes := device_envelope;
          fr_policy := policy;
          fr_requested_mlx_policy := if backend == MLX then Some mlx_policy else None;
          fr_policy_notes := policy_notes |}
  | _ => raise ValueError "fit assessment requires a memory measurement"
  end.

(** ** Lemmas *)

Lemma lower_caps_nil admission probed : lower_caps admission probed = [] ->
  (ma_host probed <= ma_host admission /\ ma_device probed <= ma_device admission /\
   ma_pinned probed <= ma_pinned admission /\ ma_unified probed <= ma_unified admission)%Z.
Proof.
  unfold lower_caps, amount_fields. simpl. intros E.
  repeat apply app_eq_nil in E as [? E].
  repeat match goal with H : (if ?b then _ else _) = [] |- _ => destruct b eqn:?; [done|clear H] end.
  bool_to_prop. lia.
Qed.

Definition within_caps (admission : MemoryAmounts) (s : MemorySample) : Prop :=
  (required_amount ma_host s <= ma_host admission /\ required_amount ma_device s <= ma_device admission /\
   required_amount ma_pinned s <= ma_pinned admission /\
   required_amount ma_unified s <= ma_unified admission)%Z.

Lemma exceeded_caps_nil admission samples :
  exceeded_caps admission samples = [] -> Forall (within_caps admission) samples.
Proof.
  unfold exceeded_caps, within_caps, amount_fields. induction samples as [|s samples IH]; [constructor|].
  simpl. intros E. apply app_eq_nil in E as [E Hrest]. constructor; [|by apply IH]. clear IH Hrest.
  repeat apply app_eq_nil in E as [? E].
  repeat match goal with H : (if ?b then _ else _) = [] |- _ => destruct b eqn:?; [done|clear H] end.
  bool_to_prop. lia.
Qed.

Lemma envelope_safe name peak budget e :
  envelope name peak budget = Ok (e, [], []) ->
  exists p b a n, peak = Some p /\ budget = Some b /\ pb_available_bytes b = Some a /\ e = Some n /\
    (n + pb_headroom_bytes b <= a)%Z /\
    ((0 <= p)%Z -> PhysicalBudget_fields b = true -> (p + pb_extra_overhead_bytes b <= n)%Z).
Proof.
  unfold envelope. destruct peak as [p|], budget as [b|]; try done.
  destruct (pb_available_bytes b) as [a|] eqn:Ha; [|done]. intros E.
  apply bind_ok in E as (margin & Hm & E). apply bind_ok in E as (rounded & Hr & E).
  apply Ok_inj in E. destruct (_ <? _)%Z eqn:Hlt; [done|]. injection E as <-. bool_to_prop.
  exists p, b, a, (p + rounded + pb_extra_overhead_bytes b)%Z. split_and!; try done.
  intros Hp Hb. unfold PhysicalBudget_fields in Hb. bool_to_prop.
  assert (fnonneg margin = true).
  { eapply int_mul_nonneg; [exact Hp| |exact Hm]. apply fge0_nonneg.
    eapply fle_trans; [|eassumption]. done. }
  assert (0 <= rounded)%Z by (by eapply py_ceil_nonneg). lia.
Qed.

Lemma omap_Forall {A B} (f : A -> option B) (P : B -> Prop) l :
  Forall (fun x => forall y, f x = Some y -> P y) l -> Forall P (omap f l).
Proof.
  induction 1 as [|x l Hx _ IH]; simpl; [constructor|]. destruct (f x); [constructor; auto|done].
Qed.

Lemma host_values_nonneg m : MemoryMeasurement_fields m = true ->
  Forall (fun v => 0 <= v)%Z (host_values m) /\ Forall (fun v => 0 <= v)%Z (allocator_values m) /\
  Forall (fun v => 0 <= v)%Z (physical_device_values m).
Proof.
  unfold MemoryMeasurement_fields. intros Hf. bool_to_prop. split_and!.
  - apply Forall_app. split; apply omap_Forall; eapply Forall_impl; try eassumption; simpl.
    + intros s Hs v Hv. unfold MemorySample_fields, forallb in Hs. bool_to_prop.
      rewrite Hv in *. simpl in *. unfold NonNegativeInt in *. lia.
    + intros s Hs v Hv. unfold PhysicalSample_fields in Hs. bool_to_prop.
      rewrite Hv in *. simpl in *. unfold NonNegativeInt in *. lia.
  - unfold allocator_values. apply Forall_fmap, omap_Forall. eapply Forall_impl; [eassumption|]. simpl.
    intros s Hs v Hv. unfold MemorySample_fields, forallb in Hs. bool_to_prop.
    rewrite Hv in *. simpl in *. unfold AllocatorSample_fields, forallb, NonNegativeInt in *. bool_to_prop.
    lia.
  - apply omap_Forall; eapply Forall_impl; try eassumption; simpl.
    intros s Hs v Hv. unfold PhysicalSample_fields in Hs. bool_to_prop.
    rewrite Hv in *. simpl in *. unfold NonNegativeInt in *. lia.
Qed.

Lemma py_max_upper l m v : py_max l = Some m -> v ∈ l -> (v <= m)%Z.
Proof. intros [_ Hf]%py_max_spec Hv. rewrite Forall_forall in Hf. by apply Hf. Qed.

Lemma py_max_default_nonneg l : Forall (fun v => 0 <= v)%Z l -> (0 <= default 0%Z (py_max l))%Z.
Proof.
  intros Hf. destruct (py_max l) as [m|] eqn:E; simpl; [|lia].
  apply py_max_spec in E as [Hin _]. rewrite Forall_forall in Hf. by apply Hf.
Qed.

(** The host peak dominates every host observation, whatever the policy. *)
Lemma host_peak_dominates artifact m policy p v :
  MemoryMeasurement_fields m = true -> (host_peak_of artifact m policy).1.1 = Some p ->
  v ∈ host_values m -> (v <= p)%Z.
Proof.
  intros (_ & Ha & _)%host_values_nonneg Hp Hv. unfold host_peak_of in Hp.
  pose proof (py_max_default_nonneg _ Ha) as Hnn.
  assert (Hcons : forall q, (fun p => p + default 0 (py_max (allocator_values m)))%Z
    <$> py_max (host_values m) = Some q -> (v <= q)%Z).
  { intros q Hq. destruct (py_max (host_values m)) as [h|] eqn:Hh; [|done]. simpl in Hq.
    injection Hq as <-. pose proof (py_max_upper _ _ v Hh Hv). lia. }
  destruct (en_backend _); [exact (py_max_upper _ _ v Hp Hv)| |exact (py_max_upper _ _ v Hp Hv)].
  destruct policy; [by apply Hcons|].
  destruct (_footprint_peak artifact m) as [[f|] reason]; [|by apply Hcons].
  eapply py_max_upper; [exact Hp|]. apply elem_of_cons. right. apply elem_of_cons. right.
  apply elem_of_app. by left.
Qed.

Definition nil_b {A} (l : list A) : bool := match l with [] => true | _ => false end.

(** The parts of an assessment, in the order they are made. *)
Lemma assess_fit_ok artifact cap host device policy r :
  assess_fit artifact cap host device policy = Ok r ->
  exists m he uh kh de ud kd,
    pa_measurement artifact = Memory m /\
    envelope "host/unified" (host_peak_of artifact m policy).1.1 (Some host) = Ok (he, uh, kh) /\
    (match en_backend (pk_environment (pa_key artifact)) with
     | CUDA => envelope "device" (py_max (device_values artifact m)) device
     | _ => Ok (None, [], []) end) = Ok (de, ud, kd) /\
    fr_host_envelope_bytes r = he /\ fr_device_envelope_bytes r = de /\
    let unsafe := exceeded_caps cap (mem_samples m) ++ uh ++ ud in
    let unknown := (incomplete_reason m ++ lower_caps cap (mem_admission_capacity m)
                    ++ backend_unknowns artifact m) ++ kh ++ kd in
    fr_reasons r = dict_fromkeys (unsafe ++ unknown) /\
    (fr_status r = SAFE <-> unsafe = [] /\ unknown = []) /\
    (fr_status r = UNSAFE <-> unsafe <> []).
Proof.
  unfold assess_fit. destruct (pa_measurement artifact) as [m| | | |] eqn:Hm; try done.
  destruct (host_peak_of artifact m policy) as [[hp pol] notes] eqn:Hhp. intros E.
  apply bind_ok in E as ([[he uh] kh] & Hhe & E). apply bind_ok in E as ([[de ud] kd] & Hde & E).
  apply Ok_inj in E as <-. exists m, he, uh, kh, de, ud, kd. rewrite Hhp.
  split_and!; try done; cbn [fr_status];
    match goal with |- context [match ?u with [] => match ?k with [] => SAFE | _ => _ end | _ => _ end] =>
      destruct u, k end; intuition congruence.
Qed.

Lemma fit_safe_spec artifact cap host device policy r :
  assess_fit artifact cap host device policy = Ok r -> fr_status r = SAFE ->
  Measurement_fields (pa_measurement artifact) = true -> PhysicalBudget_fields host = true ->
  opt_ok PhysicalBudget_fields device = true ->
  fr_reasons r = [] /\
  exists m, pa_measurement artifact = Memory m /\ mem_completed m = true /\
    (ma_host (mem_admission_capacity m) <= ma_host cap)%Z /\
    Forall (within_caps cap) (mem_samples m) /\
    (exists e a, fr_host_envelope_bytes r = Some e /\ pb_available_bytes host = Some a /\
       (e + pb_headroom_bytes host <= a)%Z /\
       Forall (fun v => v + pb_extra_overhead_bytes host <= e)%Z (host_values m)) /\
    (en_backend (pk_environment (pa_key artifact)) = CUDA ->
       exists b e a, device = Some b /\ fr_device_envelope_bytes r = Some e /\
         pb_available_bytes b = Some a /\ (e + pb_headroom_bytes b <= a)%Z /\
         physical_device_values m <> [] /\
         Forall (fun v => v + pb_extra_overhead_bytes b <= e)%Z (device_values artifact m)).
Proof.
  intros E Hsafe Hf Hhost Hdev.
  apply assess_fit_ok in E as (m & he & uh & kh & de & ud & kd & Hm & Hhe & Hde & Hhr & Hdr & Hreasons & Hs & _).
  apply Hs in Hsafe as [Hu Hk]. rewrite Hu, Hk in Hreasons. rewrite Hm in Hf. simpl in Hf.
  apply app_eq_nil in Hu as [Hcaps Hu]. apply app_eq_nil in Hu as [-> ->].
  apply app_eq_nil in Hk as [Hk0 Hk]. apply app_eq_nil in Hk as [-> ->].
  apply app_eq_nil in Hk0 as [Hinc Hk0]. apply app_eq_nil in Hk0 as [Hlow Hback].
  split; [done|]. exists m. split; [done|].
  split; [by unfold incomplete_reason in Hinc; destruct (mem_completed m)|].
  split; [by apply lower_caps_nil in Hlow as [? _]|].
  split; [by apply exceeded_caps_nil|].
  pose proof (host_values_nonneg m Hf) as (Hhn & Han & Hdn). split.
  - apply envelope_safe in Hhe as (p & b & a & n & Hp & [= <-] & Ha & -> & Hfit & Hdom).
    exists n, a. split_and!; try done. apply Forall_forall. intros v Hv.
    pose proof (host_peak_dominates _ _ _ _ _ Hf Hp Hv). rewrite Forall_forall in Hhn.
    specialize (Hhn v Hv). simpl in Hhn. specialize (Hdom ltac:(lia) Hhost). lia.
  - intros Hcuda. rewrite Hcuda in Hde.
    apply envelope_safe in Hde as (p & b & a & n & Hp & -> & Ha & -> & Hfit & Hdom).
    exists b, n, a. split_and!; try done.
    + unfold backend_unknowns in Hback. rewrite Hcuda in Hback. apply app_eq_nil in Hback as [_ Hback].
      intros Hnil. by rewrite Hnil in Hback.
    + assert (Hall : Forall (fun v => 0 <= v)%Z (device_values artifact m)).
      { unfold device_values. rewrite Hcuda. by apply Forall_app. }
      apply Forall_forall. intros v Hv. pose proof (py_max_upper _ _ _ Hp Hv).
      rewrite Forall_forall in Hall. specialize (Hall v Hv). simpl in Hall.
      specialize (Hdom ltac:(lia) Hdev). lia.
Qed.


Definition with_available (a : Z) (b : PhysicalBudget) : PhysicalBudget := {|
  pb_available_bytes := Some a; pb_headroom_bytes := pb_headroom_bytes b;
  pb_extra_overhead_bytes := pb_extra_overhead_bytes b;
  pb_safety_fraction := pb_safety_fraction b |}.

Lemma envelope_mono name peak b a a' e :
  envelope name peak (Some b) = Ok (e, [], []) -> pb_available_bytes b = Some a -> (a <= a')%Z ->
  envelope name peak (Some (with_available a' b)) = Ok (e, [], []).
Proof.
  unfold envelope. destruct peak as [p|]; [|done]. intros E Ha Hle. rewrite Ha in E. simpl.
  apply bind_ok in E as (margin & -> & E). apply bind_ok in E as (rounded & Hr & E).
  cbn [mbind result_bind]. rewrite Hr. cbn [mbind result_bind]. apply Ok_inj in E.
  destruct (_ <? _)%Z eqn:Hlt in E; [done|]. injection E as <-. bool_to_prop.
  by rewrite (proj2 (Z.ltb_ge _ _)) by lia.
Qed.

(** More free host memory never makes a safe placement unsafe: with at least
    the same availability the assessment is the same, envelope included. *)
Theorem assess_fit_monotone artifact cap host device policy r a a' :
  assess_fit artifact cap host device policy = Ok r -> fr_status r = SAFE ->
  pb_available_bytes host = Some a -> (a <= a')%Z ->
  assess_fit artifact cap (with_available a' host) device policy = Ok r.
Proof.
  intros E Hsafe Ha Hle. pose proof E as E'.
  apply assess_fit_ok in E' as (m & he & uh & kh & de & ud & kd & Hm & Hhe & Hde & _ & _ & _ & Hs & _).
  apply Hs in Hsafe as [Hu Hk].
  apply app_eq_nil in Hu as [_ Hu]. apply app_eq_nil in Hu as [-> ->].
  apply app_eq_nil in Hk as [_ Hk]. apply app_eq_nil in Hk as [-> ->].
  pose proof (envelope_mono _ _ _ _ _ _ Hhe Ha Hle) as Hhe'.
  unfold assess_fit in E |- *. rewrite Hm in E |- *.
  destruct (host_peak_of artifact m policy) as [[hp pol] notes]. simpl in Hhe, Hhe'.
  rewrite Hhe in E. by rewrite Hhe'.
Qed.

(** ** A concrete assessment *)
Module FitDemo.
Import ProfilesDemo.

Definition demo_sample (phase : MemoryPhase) : MemorySample := {|
  ms_cycle := 0; ms_phase := phase;
  ms_weights := {| ma_host := 600; ma_device := 0; ma_pinned := 0; ma_unified := 0 |};
  ms_cache := {| ma_host := 100; ma_device := 0; ma_pinned := 0; ma_unified := 0 |};
  ms_workspace := no_memory; ms_allocator := None; ms_rss_bytes := Some 900%Z;
  ms_rss_lifetime_peak_bytes := Some 1000%Z; ms_device_available_bytes := None;
  ms_completed_steps := 1; ms_process_memory := None |}.

Definition demo_cap : MemoryAmounts :=
  {| ma_host := 800; ma_device := 0; ma_pinned := 0; ma_unified := 0 |}.

Definition demo_memory : MemoryMeasurement := {|
  mem_admission_capacity := demo_cap; mem_samples := [demo_sample LOAD; demo_sample DECODE];
  mem_physical_samples := []; mem_physical_sample_interval_seconds := one;
  mem_completed := true; mem_error := None |}.

Definition demo_artifact : ProfileArtifact := {|
  pa_schema_version := "1.0"; pa_profiler_version := "0.1.0"; pa_key := demo_key;
  pa_conditions := demo_conditions; pa_measurement := Memory demo_memory;
  pa_artifact_digest := demo_digest |}.

Definition demo_budget : PhysicalBudget := {|
  pb_available_bytes := Some 1300%Z; pb_headroom_bytes := 100; pb_extra_overhead_bytes := 50;
  pb_safety_fraction := literal 1 10 |}.

Definition demo_fit : result FitResult :=
  assess_fit demo_artifact demo_cap demo_budget None DEFAULT_MLX_FIT_POLICY.


Lemma assess_fit_monotone_witness :
  exists r, assess_fit demo_artifact demo_cap (with_available 5000 demo_budget) None FOOTPRINT = Ok r /\
    fr_status r = SAFE.
Proof.
  assert (Hok : exists r, demo_fit = Ok r /\ fr_status r = SAFE)
    by (eexists; split; [lazy; reflexivity|reflexivity]).
  destruct Hok as (r & Hr & Hs). exists r. split; [|exact Hs].
  apply (assess_fit_monotone _ _ _ _ _ r 1300 5000 Hr Hs); [reflexivity|lia].
Defined.
End FitDemo.
