(* ===== verification/Compute.v ===== *)
(** * Summaries of compute runs (src/python/hllm_control/profiling/compute.py)

    The paired native timings of a run, grouped by what was timed: warmups excluded, in
    the order of the first sample of each group, with the overhead of the instrumentation
    wherever the whole stage and the instrumented stage were both timed. *)

From Stdlib Require Import SpecFloat.
From S2P Require Export Profiles.

(** The key of a group: phase, context, component, layer and timing mode. *)
Definition Group : Type := (ExecutionPhase * Z * Component * option Z * TimingMode)%type.

Definition group_of (r : TimingRecord) : Group :=
  (ti_phase r, ti_context_tokens r, ti_component r, ti_layer_index r, ti_timing_mode r).

(** [groups.setdefault(group, []).append(r.milliseconds)], unless the record is a warmup. *)
Definition group_record (warmup_cycles : Z) (groups : list (Group * list float)) (r : TimingRecord)
    : list (Group * list float) :=
  if (ti_cycle r <? warmup_cycles)%Z then groups
  else assoc_set (group_of r) (default [] (assoc_get (group_of r) groups) ++ [ti_milliseconds r]) groups.

Definition groups_of (warmup_cycles : Z) (records : list TimingRecord) : list (Group * list float) :=
  foldl (group_record warmup_cycles) [] records.

Record ComputeBucket := {
  cb_group : Group;
  cb_samples_ms : list float;
  cb_median_ms : float;
  cb_min_ms : float;
  cb_max_ms : float
}.

(** [min] and [max] raise on an empty sequence. *)
Definition py_extreme (l : option float) : result float :=
  match l with Some x => Ok x | None => raise ValueError "iterable argument is empty" end.

Definition compute_bucket (g : Group) (values : list float) : result ComputeBucket :=
  m ← py_median values;
  least ← py_extreme (py_fmin values);
  most ← py_extreme (py_fmax values);
  Ok {| cb_group := g; cb_samples_ms := values; cb_median_ms := m; cb_min_ms := least; cb_max_ms := most |}.

Record StageComparison := {
  sg_phase : ExecutionPhase;
  sg_context_tokens : Z;
  sg_whole_stage_ms : float;
  sg_instrumented_ms : float;
  sg_overhead_fraction : option float
}.

(** The comparison of one group, when it times the whole stage and the same stage was
    timed with its components synchronized. *)
Definition stage_comparison (groups : list (Group * list float)) (g : Group) (values : list float)
    : result (list StageComparison) :=
  let '(phase, context, component, _, mode) := g in
  if (component != C_STAGE) || (mode != WHOLE_STAGE) then Ok []
  else
    match assoc_get (phase, context, component, None, COMPONENT_SYNCHRONIZED) groups with
    | None | Some [] => Ok []
    | Some instrumented =>
      baseline ← py_median values;
      detailed ← py_median instrumented;
      overhead ← (if flt f0 baseline
                  then q ← py_fdiv detailed baseline; Ok (Some (fsub q (literal 1 1)))
                  else Ok None);
      Ok [{| sg_phase := phase; sg_context_tokens := context; sg_whole_stage_ms := baseline;
             sg_instrumented_ms := detailed; sg_overhead_fraction := overhead |}]
    end.

Record ComputeSummary := {
  cs_profile_digest : string;
  cs_completed : bool;
  cs_error : option string;
  cs_warmup_cycles_excluded : Z;
  cs_buckets : list ComputeBucket;
  cs_instrumentation_comparison : list StageComparison
}.

Definition summarize_compute (artifact : ProfileArtifact) : result ComputeSummary :=
  match pa_measurement artifact with
  | ComputeRun m =>
    let warmup_cycles := cd_warmup_cycles (pa_conditions artifact) in
    let groups := groups_of warmup_cycles (cr_records m) in
    buckets ← mapM (fun '(g, values) => compute_bucket g values) groups;
    comparisons ← mapM (fun '(g, values) => stage_comparison groups g values) groups;
    Ok {| cs_profile_digest := pa_artifact_digest artifact; cs_completed := cr_completed m;
          cs_error := cr_error m; cs_warmup_cycles_excluded := warmup_cycles;
          cs_buckets := buckets; cs_instrumentation_comparison := mjoin comparisons |}
  | _ => raise ValueError "expected a compute run"
  end.

Definition ComputeBucket_dump (b : ComputeBucket) : json :=
  let '(phase, context, component, layer, mode) := cb_group b in
  JObj [("phase", JStr (phase_value phase)); ("context_tokens", JInt context);
        ("component", JStr (component_value component)); ("layer_index", json_opt JInt layer);
        ("timing_mode", JStr (timing_mode_value mode));
        ("samples_ms", JArr (JFloat <$> cb_samples_ms b)); ("median_ms", JFloat (cb_median_ms b));
        ("min_ms", JFloat (cb_min_ms b)); ("max_ms", JFloat (cb_max_ms b))].

Definition StageComparison_dump (c : StageComparison) : json :=
  JObj [("phase", JStr (phase_value (sg_phase c))); ("context_tokens", JInt (sg_context_tokens c));
        ("whole_stage_ms", JFloat (sg_whole_stage_ms c));
        ("instrumented_ms", JFloat (sg_instrumented_ms c));
        ("overhead_fraction", json_opt JFloat (sg_overhead_fraction c))].

Definition ComputeSummary_dump (s : ComputeSummary) : json :=
  JObj [("schema_version", JStr "1.0"); ("profile_digest", JStr (cs_profile_digest s));
        ("completed", JBool (cs_completed s)); ("error", json_opt JStr (cs_error s));
        ("warmup_cycles_excluded", JInt (cs_warmup_cycles_excluded s));
        ("buckets", JArr (ComputeBucket_dump <$> cs_buckets s));
        ("instrumentation_comparison", JArr (StageComparison_dump <$> cs_instrumentation_comparison s));
        ("notes", json_strs [
          "Whole-stage timings include boundary conversion; do not add conversion twice.";
          "Component-synchronized timings are diagnostic; use measured overhead before prediction.";
          "Every decode context is measured; no context interpolation is assumed."])].

(** ** Groups partition the measured records *)

Definition measured (warmup_cycles : Z) (r : TimingRecord) : bool := (warmup_cycles <=? ti_cycle r)%Z.

(** The samples of a group, in the order of the records. *)
Definition samples_in (warmup_cycles : Z) (g : Group) (records : list TimingRecord) : list float :=
  ti_milliseconds <$> List.filter (fun r => measured warmup_cycles r && (group_of r == g)) records.

(** What the loop has collected after some records. *)
Record grouped (warmup_cycles : Z) (records : list TimingRecord) (groups : list (Group * list float)) : Prop := {
  gr_keys : NoDup groups.*1;
  gr_get : forall g, assoc_get g groups
             = match samples_in warmup_cycles g records with [] => None | l => Some l end
}.

Lemma add_record_grouped w records groups r :
  grouped w records groups -> grouped w (records ++ [r]) (group_record w groups r).
Proof.
  intros [Hk Hg]. unfold group_record. destruct (ti_cycle r <? w)%Z eqn:E.
  - split; [done|]. intros g. rewrite Hg. unfold samples_in. rewrite List.filter_app. simpl.
    unfold measured at 3. replace (w <=? ti_cycle r)%Z with false by lia. simpl. by rewrite app_nil_r.
  - split; [by apply assoc_set_keys|]. intros g. rewrite assoc_get_set, !Hg.
    unfold samples_in. rewrite List.filter_app. simpl. unfold measured at 4.
    replace (w <=? ti_cycle r)%Z with true by lia. simpl. rewrite (pyeqb_sym (group_of r) g).
    destruct (g == group_of r) eqn:Eg; [|by rewrite app_nil_r].
    apply (proj1 (pyeqb_eq _ _)) in Eg as ->. rewrite fmap_app. simpl.
    destruct (ti_milliseconds <$> List.filter _ records); done.
Qed.

Lemma groups_of_grouped w records : grouped w records (groups_of w records).
Proof.
  unfold groups_of. induction records as [|r records IH] using rev_ind.
  - split; [constructor|done].
  - rewrite foldl_app. by apply add_record_grouped.
Qed.

Lemma assoc_get_in `{PyEqLaws K} {V} (k : K) (v : V) d : NoDup d.*1 -> (k, v) ∈ d <-> assoc_get k d = Some v.
Proof. intros Hnd. split; [by apply assoc_get_NoDup|apply assoc_get_elem]. Qed.

Lemma elem_of_groups w records g l :
  (g, l) ∈ groups_of w records <-> l = samples_in w g records /\ l <> [].
Proof.
  destruct (groups_of_grouped w records) as [Hk Hg]. rewrite (assoc_get_in g l _ Hk), Hg.
  destruct (samples_in w g records); naive_solver.
Qed.

Lemma groups_partition w records :
  mjoin (snd <$> groups_of w records) ≡ₚ ti_milliseconds <$> List.filter (measured w) records.
Proof.
  unfold groups_of. induction records as [|r records IH] using rev_ind; [done|].
  rewrite foldl_app, List.filter_app, fmap_app. simpl. rewrite <- IH.
  destruct (groups_of_grouped w records) as [Hk _]. unfold groups_of in Hk.
  set (groups := foldl _ _ _) in *. unfold group_record, measured.
  destruct (ti_cycle r <? w)%Z eqn:E.
  { replace (w <=? ti_cycle r)%Z with false by lia. simpl. by rewrite app_nil_r. }
  replace (w <=? ti_cycle r)%Z with true by lia. simpl. clear -Hk.
  induction groups as [|[g l] groups IHg]; simpl; [done|]. apply list.NoDup_cons in Hk as [_ Hk].
  destruct (group_of r == g); simpl.
  - by rewrite <- app_assoc, (Permutation_app_comm [_] (mjoin _)), app_assoc.
  - by rewrite IHg, app_assoc.
Qed.

(** ** The summary *)

Lemma py_fmin_some l : l <> [] -> exists x, py_extreme (py_fmin l) = Ok x /\ py_fmin l = Some x.
Proof. destruct l; [done|]. intros _. by eexists. Qed.
Lemma py_fmax_some l : l <> [] -> exists x, py_extreme (py_fmax l) = Ok x /\ py_fmax l = Some x.
Proof. destruct l; [done|]. intros _. by eexists. Qed.

(** What a bucket says of the records. *)
Definition bucket_of (w : Z) (records : list TimingRecord) (b : ComputeBucket) : Prop :=
  cb_samples_ms b = samples_in w (cb_group b) records
  /\ py_median (cb_samples_ms b) = Ok (cb_median_ms b)
  /\ py_fmin (cb_samples_ms b) = Some (cb_min_ms b) /\ py_fmax (cb_samples_ms b) = Some (cb_max_ms b).

(** The samples of the whole stage and of the instrumented stage at a context. *)
Definition paired (w : Z) (records : list TimingRecord) (c : StageComparison) : Prop :=
  exists layer,
    let whole := samples_in w (sg_phase c, sg_context_tokens c, C_STAGE, layer, WHOLE_STAGE) records in
    let instrumented :=
      samples_in w (sg_phase c, sg_context_tokens c, C_STAGE, None, COMPONENT_SYNCHRONIZED) records in
    py_median whole = Ok (sg_whole_stage_ms c) /\ py_median instrumented = Ok (sg_instrumented_ms c)
    /\ (is_Some (sg_overhead_fraction c) <-> flt f0 (sg_whole_stage_ms c) = true).

Lemma samples_in_ge0 w g records : forallb TimingRecord_fields records = true ->
  Forall (fun x => fle f0 x = true) (samples_in w g records).
Proof.
  intros Hf. apply forallb_Forall in Hf. rewrite Forall_forall in Hf. unfold samples_in.
  apply Forall_fmap, Forall_forall. intros r [_ Hr]%elem_of_filterb. specialize (Hf r Hr).
  unfold TimingRecord_fields, Milliseconds in Hf. by bool_to_prop.
Qed.

Lemma compute_bucket_total w records g l :
  forallb TimingRecord_fields records = true -> (g, l) ∈ groups_of w records ->
  exists b, compute_bucket g l = Ok b /\ cb_group b = g /\ cb_samples_ms b = l /\ bucket_of w records b.
Proof.
  intros Hf [-> Hne]%elem_of_groups. unfold compute_bucket, bucket_of.
  destruct (py_median_ge0 _ Hne (samples_in_ge0 w g _ Hf)) as (m & Hm & _). rewrite Hm. simpl.
  destruct (py_fmin_some _ Hne) as (a & -> & Ha). destruct (py_fmax_some _ Hne) as (b & -> & Hb).
  simpl. by eexists.
Qed.

Lemma flt_pos_div x y : flt f0 y = true -> exists q, py_fdiv x y = Ok q.
Proof. destruct y; [done|..]; by eexists. Qed.

Lemma stage_comparison_total w records g l :
  forallb TimingRecord_fields records = true -> (g, l) ∈ groups_of w records ->
  exists cs, stage_comparison (groups_of w records) g l = Ok cs
    /\ Forall (paired w records) cs
    /\ forall phase context layer, g = (phase, context, C_STAGE, layer, WHOLE_STAGE) ->
         samples_in w (phase, context, C_STAGE, None, COMPONENT_SYNCHRONIZED) records <> [] ->
         exists c, cs = [c] /\ sg_phase c = phase /\ sg_context_tokens c = context.
Proof.
  intros Hf [-> Hne]%elem_of_groups. destruct g as [[[[phase context] component] layer] mode].
  unfold stage_comparison. destruct ((component != C_STAGE) || _) eqn:E.
  { exists []. split_and!; [done|constructor|]. intros ? ? ? [= -> -> -> -> ->]. by vm_compute in E. }
  apply orb_false_iff in E as [Ec Em]. apply negb_false_iff, (proj1 (pyeqb_eq _ _)) in Ec, Em. subst.
  rewrite (gr_get _ _ _ (groups_of_grouped w records)).
  destruct (samples_in w (phase, context, C_STAGE, None, COMPONENT_SYNCHRONIZED) records) as [|x xs] eqn:Es.
  { exists []. split_and!; [done|constructor|]. by intros ? ? ? [= -> -> ->]. }
  destruct (py_median_ge0 _ Hne (samples_in_ge0 w _ _ Hf)) as (m & Hm & _).
  destruct (py_median_ge0 (x :: xs)) as (d & Hd & _); [done|rewrite <- Es; by apply samples_in_ge0|].
  rewrite Hm, Hd. cbn [mbind result_bind].
  assert (Ho : exists o, (if flt f0 m then q ← py_fdiv d m; Ok (Some (fsub q (literal 1 1))) else Ok None) = Ok o
               /\ (is_Some o <-> flt f0 m = true)).
  { destruct (flt f0 m) eqn:Em; [|eexists; split; [done|by split; [intros []|]]].
    destruct (flt_pos_div d m Em) as [q ->]. eexists. split; [done|]. by split; [|eexists]. }
  destruct Ho as (o & -> & Ho). eexists. split; [done|]. split.
  - apply Forall_singleton. exists layer. simpl. by rewrite Hm, Es, Hd.
  - intros ? ? ? [= -> -> ->] _. by eexists.
Qed.

Lemma compute_buckets_spec w records gs buckets :
  forallb TimingRecord_fields records = true -> (forall x, x ∈ gs -> x ∈ groups_of w records) ->
  Forall2 (fun x b => (let '(g, values) := x in compute_bucket g values) = Ok b) gs buckets ->
  (fun b => (cb_group b, cb_samples_ms b)) <$> buckets = gs /\ Forall (bucket_of w records) buckets.
Proof.
  intros Hf Hin Hb. induction Hb as [|[g l] b gs bs Hx _ IH]; [done|].
  destruct (compute_bucket_total w _ g l Hf (Hin (g, l) ltac:(set_solver))) as (b' & Hb' & Hg & Hs & Hbk).
  assert (b' = b) as -> by congruence. destruct IH as [IH1 IH2]; [set_solver|]. split; [|by constructor].
  by rewrite fmap_cons, IH1, Hg, Hs.
Qed.

(** The summary of a compute run never fails and says nothing but what was measured:
    its groups are distinct, each holds all its samples in order with their median and
    extremes, together they hold every record after the warmups once, and the
    comparisons pair exactly the contexts at which the stage was timed both ways. *)
Theorem summarize_compute_sound artifact m :
  pa_measurement artifact = ComputeRun m -> ComputeRunMeasurement_fields m = true ->
  let w := cd_warmup_cycles (pa_conditions artifact) in
  exists s, summarize_compute artifact = Ok s
    /\ NoDup (cb_group <$> cs_buckets s)
    /\ Forall (bucket_of w (cr_records m)) (cs_buckets s)
    /\ mjoin (cb_samples_ms <$> cs_buckets s)
       ≡ₚ ti_milliseconds <$> List.filter (measured w) (cr_records m)
    /\ Forall (paired w (cr_records m)) (cs_instrumentation_comparison s)
    /\ forall phase context layer,
         samples_in w (phase, context, C_STAGE, layer, WHOLE_STAGE) (cr_records m) <> [] ->
         samples_in w (phase, context, C_STAGE, None, COMPONENT_SYNCHRONIZED) (cr_records m) <> [] ->
         exists c, c ∈ cs_instrumentation_comparison s /\ sg_phase c = phase /\ sg_context_tokens c = context.
Proof.
  intros Hm Hf w. unfold ComputeRunMeasurement_fields in Hf. rewrite !andb_true_iff in Hf.
  destruct Hf as [[_ Hf] _]. unfold summarize_compute. rewrite Hm. fold w.
  set (groups := groups_of w (cr_records m)).
  destruct (mapM_total (fun '(g, values) => compute_bucket g values) groups) as [buckets Hb].
  { apply Forall_forall. intros [g l] Hin. by destruct (compute_bucket_total w _ g l Hf Hin) as (b & Hb & _); exists b. }
  destruct (mapM_total (fun '(g, values) => stage_comparison groups g values) groups) as [comparisons Hc].
  { apply Forall_forall. intros [g l] Hin.
    by destruct (stage_comparison_total w _ g l Hf Hin) as (b & Hb' & _); exists b. }
  rewrite Hb, Hc. eexists. split; [done|]. cbn [cs_buckets cs_instrumentation_comparison].
  apply mapM_ok in Hb, Hc.
  destruct (compute_buckets_spec w (cr_records m) _ buckets Hf ltac:(done) Hb) as [Hsame Hbk].
  split_and!.
  - pose proof (gr_keys _ _ _ (groups_of_grouped w (cr_records m))) as Hk.
    rewrite <- Hsame, <- list_fmap_compose in Hk. exact Hk.
  - done.
  - rewrite <- groups_partition, <- Hsame, <- list_fmap_compose. done.
  - apply Forall_forall. intros c (cs & Hcc & Hcs)%list_elem_of_join.
    apply list_elem_of_lookup in Hcs as [i Hi]. eapply Forall2_lookup_r in Hc as ([g l] & Hg & Hx); [|done].
    apply list_elem_of_lookup_2 in Hg.
    destruct (stage_comparison_total w _ g l Hf Hg) as (cs' & Hcs' & Hp & _).
    assert (cs' = cs) as -> by (unfold groups in Hx; congruence). rewrite Forall_forall in Hp. by apply Hp.
  - intros phase context layer Hw Hi. set (g := (phase, context, C_STAGE, layer, WHOLE_STAGE)) in *.
    assert (Hg : (g, samples_in w g (cr_records m)) ∈ groups) by (by apply elem_of_groups).
    destruct (stage_comparison_total w _ g _ Hf Hg) as (cs & Hcs & _ & Hone).
    destruct (Hone _ _ _ eq_refl Hi) as (c & -> & Hp & Hx). exists c. split; [|done].
    apply list_elem_of_lookup in Hg as [i Hg]. eapply Forall2_lookup_l in Hc as (cs' & Hc' & Hx'); [|done].
    assert (cs' = [c]) as -> by (unfold groups in Hx'; congruence).
    apply list_elem_of_join. exists [c]. split; [set_solver|by eapply list_elem_of_lookup_2].
Qed.
