(* ===== verification/Link.v ===== *)
(** * Directional links (src/python/hllm_control/profiling/link.py)

    Native transport measurements and the observed path that qualifies them: the
    completeness of a run, the rejection of changed or unknown paths, the sealed
    artifact, its summary, and the check that an artifact serves a placement. *)

From Stdlib Require Import SpecFloat.
From S2P Require Export Profiles.

Record ProbeIdentity := {
  pi_worker_id : string;
  pi_binary_digest : string;
  pi_source_revision : string;
  pi_compiler : string;
  pi_grpc_version : string;
  pi_protobuf_version : string;
  pi_host : string;
  pi_os : string;
  pi_endpoint : string
}.

#[export] Instance probe_identity_eq_dec : EqDecision ProbeIdentity.
Proof. solve_decision. Defined.
#[export] Instance pyeq_probe_identity : PyEq ProbeIdentity := pyeq_of_dec.
#[export] Instance pyeq_probe_identity_laws : PyEqLaws ProbeIdentity := pyeq_of_dec_laws.

Definition ProbeIdentity_fields (p : ProbeIdentity) : bool :=
  forallb Label [pi_worker_id p; pi_source_revision p; pi_compiler p; pi_grpc_version p;
                 pi_protobuf_version p; pi_host p; pi_os p; pi_endpoint p]
  && is_digest (pi_binary_digest p).

Definition ProbeIdentity_dump (p : ProbeIdentity) : json :=
  JObj [("worker_id", JStr (pi_worker_id p)); ("binary_digest", JStr (pi_binary_digest p));
        ("source_revision", JStr (pi_source_revision p)); ("compiler", JStr (pi_compiler p));
        ("grpc_version", JStr (pi_grpc_version p));
        ("protobuf_version", JStr (pi_protobuf_version p)); ("host", JStr (pi_host p));
        ("os", JStr (pi_os p)); ("endpoint", JStr (pi_endpoint p))].

Record LinkSample := {
  ls_cycle : Z;
  ls_step : Z;
  ls_payload_bytes : Z;
  ls_message_bytes : Z;
  ls_feedback_bytes : Z;
  ls_sender_encode_ms : float;
  ls_round_trip_ms : float
}.

Definition LinkSample_fields (s : LinkSample) : bool :=
  NonNegativeInt (ls_cycle s) && NonNegativeInt (ls_step s)
  && forallb PositiveInt [ls_payload_bytes s; ls_message_bytes s; ls_feedback_bytes s]
  && Milliseconds (ls_sender_encode_ms s) && Milliseconds (ls_round_trip_ms s).

Definition LinkSample_dump (s : LinkSample) : json :=
  JObj [("cycle", JInt (ls_cycle s)); ("step", JInt (ls_step s));
        ("payload_bytes", JInt (ls_payload_bytes s)); ("message_bytes", JInt (ls_message_bytes s));
        ("feedback_bytes", JInt (ls_feedback_bytes s));
        ("sender_encode_ms", JFloat (ls_sender_encode_ms s));
        ("round_trip_ms", JFloat (ls_round_trip_ms s))].

Record StreamSample := { ss_cycle : Z; ss_setup_ms : float; ss_teardown_ms : float }.

Definition StreamSample_fields (s : StreamSample) : bool :=
  NonNegativeInt (ss_cycle s) && Milliseconds (ss_setup_ms s) && Milliseconds (ss_teardown_ms s).

Definition StreamSample_dump (s : StreamSample) : json :=
  JObj [("cycle", JInt (ss_cycle s)); ("setup_ms", JFloat (ss_setup_ms s));
        ("teardown_ms", JFloat (ss_teardown_ms s))].

Record LinkResult := {
  lr_source : ProbeIdentity;
  lr_target : ProbeIdentity;
  lr_channel_ready_ms : float;
  lr_streams : list StreamSample;
  lr_samples : list LinkSample;
  lr_prompt_tokens : Z;
  lr_hidden_size : Z;
  lr_output_tokens : Z;
  lr_warmup_cycles : Z;
  lr_measured_cycles : Z
}.

Definition between (lo hi n : Z) : bool := (lo <=? n)%Z && (n <=? hi)%Z.

Definition LinkResult_fields (r : LinkResult) : bool :=
  ProbeIdentity_fields (lr_source r) && ProbeIdentity_fields (lr_target r)
  && Milliseconds (lr_channel_ready_ms r) && forallb StreamSample_fields (lr_streams r)
  && forallb LinkSample_fields (lr_samples r)
  && between 1 4096 (lr_prompt_tokens r) && between 1 8192 (lr_hidden_size r)
  && between 1 1024 (lr_output_tokens r) && between 0 31 (lr_warmup_cycles r)
  && between 1 32 (lr_measured_cycles r).

Definition expected_exchanges (cycles output_tokens : Z) : list (Z * Z) :=
  c ← py_range 0 cycles; s ← py_range 0 output_tokens; [(c, s)].

Definition check_payload (r : LinkResult) (s : LinkSample) : result unit :=
  let payload := ((if ls_step s == 0%Z then lr_prompt_tokens r else 1) * lr_hidden_size r * 2)%Z in
  raise_if ((ls_payload_bytes s != payload) || (ls_message_bytes s <=? payload)%Z) ValidationError
    "incorrect F16 payload or serialized message size".

Definition complete_samples (r : LinkResult) : result unit :=
  let cycles := (lr_warmup_cycles r + lr_measured_cycles r)%Z in
  raise_if ((32 <? cycles)%Z || (pi_worker_id (lr_source r) == pi_worker_id (lr_target r)))
    ValidationError "invalid cycles or direction" ;;
  raise_if ((ss_cycle <$> lr_streams r) != py_range 0 cycles) ValidationError
    "missing/duplicate stream timings" ;;
  raise_if (((fun s => (ls_cycle s, ls_step s)) <$> lr_samples r)
            != expected_exchanges cycles (lr_output_tokens r)) ValidationError
    "missing/duplicate exchange timings" ;;
  mapM (check_payload r) (lr_samples r) ;;
  Ok tt.

Definition validate_LinkResult (r : LinkResult) : result LinkResult :=
  fields_ok (LinkResult_fields r) ;; complete_samples r ;; Ok r.

Definition LinkResult_dump (r : LinkResult) : json :=
  JObj [("source", ProbeIdentity_dump (lr_source r)); ("target", ProbeIdentity_dump (lr_target r));
        ("channel_ready_ms", JFloat (lr_channel_ready_ms r));
        ("streams", JArr (StreamSample_dump <$> lr_streams r));
        ("samples", JArr (LinkSample_dump <$> lr_samples r));
        ("prompt_tokens", JInt (lr_prompt_tokens r)); ("hidden_size", JInt (lr_hidden_size r));
        ("output_tokens", JInt (lr_output_tokens r));
        ("warmup_cycles", JInt (lr_warmup_cycles r));
        ("measured_cycles", JInt (lr_measured_cycles r))].

(** ** Paths *)

Inductive PathKind := LOOPBACK | TAILSCALE.
Inductive PathType := PATH_DIRECT | PATH_PEER_RELAYED | PATH_DERP_RELAYED | PATH_UNKNOWN.

#[export] Instance path_kind_eq_dec : EqDecision PathKind.
Proof. solve_decision. Defined.
#[export] Instance path_type_eq_dec : EqDecision PathType.
Proof. solve_decision. Defined.
#[export] Instance pyeq_path_type : PyEq PathType := pyeq_of_dec.
#[export] Instance pyeq_path_type_laws : PyEqLaws PathType := pyeq_of_dec_laws.

Definition path_kind_value (k : PathKind) : string :=
  match k with LOOPBACK => "loopback" | TAILSCALE => "tailscale" end.
Definition path_type_value (t : PathType) : string :=
  match t with
  | PATH_DIRECT => "direct" | PATH_PEER_RELAYED => "peer-relayed"
  | PATH_DERP_RELAYED => "derp-relayed" | PATH_UNKNOWN => "unknown"
  end.

(** The fields of [PathObservation.route()]. *)
Record Route := {
  ro_kind : PathKind;
  ro_source_ip : string;
  ro_target_ip : string;
  ro_peer_id : string;
  ro_connection_type : PathType;
  ro_endpoint : string;
  ro_online : bool
}.

#[export] Instance route_eq_dec : EqDecision Route.
Proof. solve_decision. Defined.
#[export] Instance pyeq_route : PyEq Route := pyeq_of_dec.
#[export] Instance pyeq_route_laws : PyEqLaws Route := pyeq_of_dec_laws.

Record PathObservation := {
  pt_observed_at : AwareDatetime;
  pt_route : Route;
  pt_evidence : string
}.

Definition PathObservation_dump (p : PathObservation) : json :=
  let r := pt_route p in
  JObj [("observed_at", JStr (dt_text (pt_observed_at p))); ("kind", JStr (path_kind_value (ro_kind r)));
        ("source_ip", JStr (ro_source_ip r)); ("target_ip", JStr (ro_target_ip r));
        ("peer_id", JStr (ro_peer_id r));
        ("connection_type", JStr (path_type_value (ro_connection_type r)));
        ("endpoint", JStr (ro_endpoint r)); ("online", JBool (ro_online r));
        ("evidence", JStr (pt_evidence p))].

Definition path_rejection (observations : list PathObservation) : option string :=
  if (length observations <? 2)%nat then Some "missing before/after path observations"
  else if existsb (fun p => negb (ro_online (pt_route p))
                            || (ro_connection_type (pt_route p) == PATH_UNKNOWN)) observations
  then Some "path unavailable or unknown during run"
  else if negb (length (dict_fromkeys (pt_route <$> observations)) =? 1)%nat
  then Some "path changed or mixed during run"
  else None.

(** ** Artifacts *)

Record LinkContent := {
  lc_measured_at : AwareDatetime;
  lc_finished_at : AwareDatetime;
  lc_concurrent_load : string;
  lc_source_endpoint : string;
  lc_target_endpoint : string;
  lc_path_sample_interval_seconds : float;
  lc_paths : list PathObservation;
  lc_result : option LinkResult;
  lc_completed : bool;
  lc_qualified : bool;
  lc_error : option string
}.

Definition LinkContent_fields (c : LinkContent) : bool :=
  forallb Label [lc_concurrent_load c; lc_source_endpoint c; lc_target_endpoint c]
  && fle (literal 1 10) (lc_path_sample_interval_seconds c)
  && fle (lc_path_sample_interval_seconds c) (literal 5 1)
  && opt_ok (fun r => is_ok (validate_LinkResult r)) (lc_result c).

Definition opt_some {A} (o : option A) : bool := match o with Some _ => true | None => false end.

Definition verify_link (c : LinkContent) : result unit :=
  raise_if (dt_instant (lc_finished_at c) <? dt_instant (lc_measured_at c))%Z ValidationError
    "invalid observation interval" ;;
  raise_if (lc_completed c != opt_some (lc_result c)) ValidationError
    "completion requires complete native samples" ;;
  raise_if (lc_qualified c != (lc_completed c && negb (opt_some (path_rejection (lc_paths c)))))
    ValidationError "qualified flag disagrees with observed path" ;;
  raise_if (negb (lc_qualified c) && negb (error_present (lc_error c))) ValidationError
    "unqualified run requires reason".

Definition validate_LinkContent (c : LinkContent) : result LinkContent :=
  fields_ok (LinkContent_fields c) ;; verify_link c ;; Ok c.

Definition LinkContent_dump (c : LinkContent) : json :=
  JObj [("schema_version", JStr "1.1"); ("profiler_version", JStr "0.2.0");
        ("kind", JStr "native-link-run"); ("transport", JStr "grpc-insecure-stage-message-f16-v1");
        ("stream_policy", JStr "persistent-per-cycle");
        ("measured_at", JStr (dt_text (lc_measured_at c)));
        ("finished_at", JStr (dt_text (lc_finished_at c)));
        ("concurrent_load", JStr (lc_concurrent_load c));
        ("source_endpoint", JStr (lc_source_endpoint c));
        ("target_endpoint", JStr (lc_target_endpoint c));
        ("path_sample_interval_seconds", JFloat (lc_path_sample_interval_seconds c));
        ("paths", JArr (PathObservation_dump <$> lc_paths c));
        ("result", json_opt LinkResult_dump (lc_result c)); ("completed", JBool (lc_completed c));
        ("qualified", JBool (lc_qualified c)); ("error", json_opt JStr (lc_error c))].

Record LinkArtifact := { la_content : LinkContent; la_artifact_digest : string }.

Definition seal_link `{Hash} (a : LinkArtifact) : result unit :=
  raise_if (la_artifact_digest a != digest (LinkContent_dump (la_content a))) ValidationError
    "link artifact digest mismatch".

Definition validate_LinkArtifact `{Hash} (a : LinkArtifact) : result LinkArtifact :=
  validate_LinkContent (la_content a) ;;
  fields_ok (is_digest (la_artifact_digest a)) ;;
  seal_link a ;;
  Ok a.

(** ** Summary *)

Record LinkBucket := {
  bk_phase : ExecutionPhase;
  bk_payload_bytes : Z;
  bk_count : Z;
  bk_round_trip_median_ms : float;
  bk_round_trip_min_ms : option float;
  bk_round_trip_max_ms : option float;
  bk_sender_encode_median_ms : float;
  bk_exchange_median_ms : float
}.

Record LinkSummary := {
  ly_profile_digest : string;
  ly_qualified : bool;
  ly_error : option string;
  ly_buckets : list LinkBucket
}.

(** The measured samples of one phase: warmups are excluded. *)
Definition phase_samples (r : LinkResult) (phase : ExecutionPhase) : list LinkSample :=
  List.filter (fun s => (lr_warmup_cycles r <=? ls_cycle s)%Z
                        && ((ls_step s == 0%Z) == (phase == EXEC_PREFILL))) (lr_samples r).

Definition exchange_ms (s : LinkSample) : float := (ls_round_trip_ms s + ls_sender_encode_ms s)%float.

Definition link_bucket (r : LinkResult) (phase : ExecutionPhase) : result (list LinkBucket) :=
  match phase_samples r phase with
  | [] => Ok []
  | s0 :: rest =>
    let samples := s0 :: rest in
    let rtts := ls_round_trip_ms <$> samples in
    let encodes := ls_sender_encode_ms <$> samples in
    rtt ← py_median rtts;
    encode ← py_median encodes;
    exchange ← py_median (exchange_ms <$> samples);
    Ok [{| bk_phase := phase; bk_payload_bytes := ls_payload_bytes s0;
           bk_count := Z.of_nat (length samples); bk_round_trip_median_ms := rtt;
           bk_round_trip_min_ms := py_fmin rtts; bk_round_trip_max_ms := py_fmax rtts;
           bk_sender_encode_median_ms := encode; bk_exchange_median_ms := exchange |}]
  end.

Definition summarize_link (a : LinkArtifact) : result LinkSummary :=
  let c := la_content a in
  buckets ← match lc_result c with
            | None => Ok []
            | Some r => prefill ← link_bucket r EXEC_PREFILL; decode ← link_bucket r EXEC_DECODE;
                        Ok (prefill ++ decode)
            end;
  Ok {| ly_profile_digest := la_artifact_digest a; ly_qualified := lc_qualified c;
        ly_error := lc_error c; ly_buckets := buckets |}.

(** ** Use of an artifact by a placement *)

Definition check_link_compatibility (a : LinkArtifact) (source target : ProbeIdentity)
    (prompt_tokens output_tokens hidden_size : Z) (path : PathObservation) (now : datetime)
    (maximum_age_seconds : float) : result (list string) :=
  let c := la_content a in
  match lc_qualified c, lc_result c with
  | true, Some r =>
    let identity :=
      if (lr_source r != source) || (lr_target r != target)
      then ["source/target build or direction mismatch"] else [] in
    let payload :=
      if (lr_prompt_tokens r, lr_output_tokens r, lr_hidden_size r)
         != (prompt_tokens, output_tokens, hidden_size)
      then ["payload/workload mismatch"] else [] in
    route ← match last (lc_paths c) with
            | Some p => Ok (if pt_route path != pt_route p then ["qualified path mismatch"] else [])
            | None => raise IndexError "tuple index out of range"
            end;
    age ← total_seconds (now - dt_instant (lc_measured_at c));
    let stale :=
      if flt maximum_age_seconds f0 || flt age f0 || flt maximum_age_seconds age
      then ["stale or future measurement"] else [] in
    Ok (identity ++ payload ++ route ++ stale)
  | _, _ => Ok ["unqualified link profile"]
  end.

(** ** Observation of a path

    What [observe_path] concludes from the peer entry of the Tailscale status:
    the fields [CurAddr], [Relay], [PeerRelay], [Online], [Active] and, when the
    path was probed, the route named by the ping. *)
Record PeerStatus := {
  ts_id : string;
  ts_cur_addr : string;
  ts_relay : string;
  ts_peer_relay : string;
  ts_online : bool;
  ts_active : bool
}.

Definition str_or (a b : string) : string := if String.eqb a "" then b else a.

Definition observe_peer (source_ip target_ip : string) (at_ : AwareDatetime) (peer : PeerStatus)
    (probe : option string) (evidence : string) : PathObservation :=
  let direct := ts_cur_addr peer in
  let relay := ts_relay peer in
  let peer_relay := ts_peer_relay peer in
  let route := if negb (String.eqb direct "") then PATH_DIRECT
               else if negb (String.eqb peer_relay "") then PATH_PEER_RELAYED
               else if negb (String.eqb relay "") then PATH_DERP_RELAYED else PATH_UNKNOWN in
  let active := ts_online peer && ts_active peer in
  let active := match probe with
                | None => active
                | Some observed =>
                  let expected := str_or direct (String.append "DERP(" (String.append relay ")")) in
                  if String.eqb observed "" || negb (String.eqb observed expected)
                     || negb (String.eqb peer_relay "")
                  then false else active
                end in
  {| pt_observed_at := at_;
     pt_route := {| ro_kind := TAILSCALE; ro_source_ip := source_ip; ro_target_ip := target_ip;
                    ro_peer_id := ts_id peer;
                    ro_connection_type := if active then route else PATH_UNKNOWN;
                    ro_endpoint := str_or direct (str_or peer_relay relay); ro_online := active |};
     pt_evidence := evidence |}.

(** ** One run *)

Definition check_link_limits (timeout_seconds interval : float)
    (prompt_tokens hidden_size output_tokens warmup_cycles measured_cycles : Z) : result unit :=
  raise_if (negb (fle (literal 1 100) timeout_seconds && fle timeout_seconds (literal 120 1)
                  && fle (literal 1 10) interval && fle interval (literal 5 1)))
    ValueError "invalid timing limits" ;;
  raise_if (negb ((0 <=? warmup_cycles) && (0 <? measured_cycles)
                  && (warmup_cycles + measured_cycles <=? 32)
                  && between 1 4096 prompt_tokens && between 1 1024 output_tokens
                  && between 1 8192 hidden_size
                  && (prompt_tokens * hidden_size * 2 <=? 8 * 1024 ^ 2)
                  && ((prompt_tokens + output_tokens - 1) * hidden_size * 2
                      * (warmup_cycles + measured_cycles) <=? 256 * 1024 ^ 2))%Z)
    ValueError "invalid payload/traffic limits".

(** What a run did: the native samples, or the error of the call. *)
Inductive NativeRun := NativeSamples (r : LinkResult) | NativeError (e : string).

Definition check_direction (r : LinkResult) (source_worker target_worker source_endpoint
    target_endpoint : string) : NativeRun :=
  if (pi_worker_id (lr_source r) != source_worker) || (pi_worker_id (lr_target r) != target_worker)
     || (pi_endpoint (lr_source r) != source_endpoint)
     || (pi_endpoint (lr_target r) != target_endpoint)
  then NativeError "native direction mismatch" else NativeSamples r.

(** The content assembled at the end of a run. *)
Definition link_content (started finished : AwareDatetime) (concurrent_load source_endpoint
    target_endpoint : string) (interval : float) (paths : list PathObservation) (run : NativeRun)
    : LinkContent :=
  let '(result, error) := match run with
                          | NativeSamples r => (Some r, None) | NativeError e => (None, Some e) end in
  let rejected := path_rejection paths in
  {| lc_measured_at := started; lc_finished_at := finished; lc_concurrent_load := concurrent_load;
     lc_source_endpoint := source_endpoint; lc_target_endpoint := target_endpoint;
     lc_path_sample_interval_seconds := interval; lc_paths := paths; lc_result := result;
     lc_completed := opt_some result;
     lc_qualified := opt_some result && negb (opt_some rejected);
     lc_error := if error_present error then error else rejected |}.

Definition make_link_artifact `{Hash} (content : LinkContent) : result LinkArtifact :=
  unsigned ← validate_LinkContent content;
  validate_LinkArtifact
    {| la_content := unsigned; la_artifact_digest := digest (LinkContent_dump unsigned) |}.

(** ** Properties *)

(** What the paths of a qualified run look like. *)
Definition stable_path (paths : list PathObservation) : Prop :=
  (2 <= length paths)%nat /\
  exists route, ro_online route = true /\ ro_connection_type route <> PATH_UNKNOWN /\
    Forall (fun p => pt_route p = route) paths.

Lemma path_rejection_none paths : path_rejection paths = None <-> stable_path paths.
Proof.
  unfold path_rejection, stable_path. destruct (Nat.ltb_spec (length paths) 2); [split; [done|lia]|].
  assert (Hne : pt_route <$> paths <> []) by (destruct paths; simpl in *; [lia|done]).
  destruct (existsb _ paths) eqn:Hbad.
  - split; [done|]. intros (_ & route & Hon & Hty & Hall). exfalso.
    apply existsb_exists in Hbad as (p & Hp%list_elem_of_In & Hb). rewrite Forall_forall in Hall.
    rewrite (Hall p Hp), Hon in Hb. simpl in Hb. bool_to_prop. done.
  - apply existsb_false_Forall in Hbad.
    destruct (Nat.eqb_spec (length (dict_fromkeys (pt_route <$> paths))) 1) as [Hl|Hl]; simpl.
    + apply dict_fromkeys_single in Hl as (_ & route & Hall). rewrite Forall_fmap in Hall.
      split; [intros _|done]. split; [lia|]. exists route.
      destruct paths as [|p paths]; [simpl in *; lia|].
      apply Forall_cons in Hall as [Hp Hall], Hbad as [Hb _]. unfold compose in *. subst route.
      bool_to_prop. split; [done|]. split; [done|]. by constructor.
    + split; [done|]. intros (_ & route & _ & _ & Hall). destruct Hl. apply dict_fromkeys_single.
      split; [done|]. exists route. by rewrite Forall_fmap.
Qed.

(** A run is qualified exactly when the native samples are complete and the path
    was observed at least twice, always online, never of unknown type and never
    changed; whatever happened, the content assembled at the end of the run passes
    its own verification as long as a failed call says why. *)
Theorem link_run_qualified started finished load source target interval paths run :
  let c := link_content started finished load source target interval paths run in
  (lc_qualified c = true <-> (exists r, run = NativeSamples r) /\ stable_path paths) /\
  ((dt_instant started <= dt_instant finished)%Z ->
   (forall e, run = NativeError e -> e <> "") -> verify_link c = Ok tt).
Proof.
  intros c. assert (Hq : lc_qualified c = true <-> (exists r, run = NativeSamples r) /\ stable_path paths).
  { unfold c, link_content. rewrite <- path_rejection_none.
    destruct run as [r|e]; simpl; [|naive_solver]. destruct (path_rejection paths); naive_solver. }
  split; [exact Hq|]. intros Ht He. unfold verify_link.
  assert (lc_completed c = opt_some (lc_result c)) as -> by (unfold c, link_content; by destruct run).
  assert (lc_qualified c = opt_some (lc_result c) && negb (opt_some (path_rejection (lc_paths c)))) as Hdef
    by (unfold c, link_content; by destruct run).
  rewrite Hdef, !pyeqb_refl. unfold c, link_content in *.
  destruct run as [r|e]; simpl in *; rewrite (proj2 (Z.ltb_ge _ _)) by lia; simpl.
  - unfold path_rejection. repeat case_match; done.
  - specialize (He e eq_refl). destruct (String.eqb_spec e ""); [done|]. simpl.
    destruct (String.eqb_spec e ""); done.
Qed.

Lemma link_compatible_iff a source target prompt output hidden path now maximum_age :
  check_link_compatibility a source target prompt output hidden path now maximum_age = Ok [] <->
  exists r p age, lc_qualified (la_content a) = true /\ lc_result (la_content a) = Some r /\
    lr_source r = source /\ lr_target r = target /\ lr_prompt_tokens r = prompt /\
    lr_output_tokens r = output /\ lr_hidden_size r = hidden /\
    last (lc_paths (la_content a)) = Some p /\ pt_route path = pt_route p /\
    total_seconds (now - dt_instant (lc_measured_at (la_content a))) = Ok age /\
    flt maximum_age f0 = false /\ flt age f0 = false /\ flt maximum_age age = false.
Proof.
  unfold check_link_compatibility. set (c := la_content a).
  destruct (lc_qualified c); [|naive_solver]. destruct (lc_result c) as [r|]; [|naive_solver].
  destruct (last (lc_paths c)) as [p|]; [|simpl; naive_solver].
  cbn [mbind result_bind]. rewrite bind_ok. split.
  - intros (age & Hage & E). apply Ok_inj in E.
    apply app_eq_nil in E as [E1 E]. apply app_eq_nil in E as [E2 E]. apply app_eq_nil in E as [E3 E4].
    destruct (_ || _) eqn:B1 in E1; [done|]. destruct (_ != _) eqn:B2 in E2; [done|].
    destruct (_ != _) eqn:B3 in E3; [done|]. destruct (_ || _) eqn:B4 in E4; [done|]. bool_to_prop.
    exists r, p, age. injection B2 as -> -> ->. by split_and!.
  - intros (r' & p' & age & _ & [= <-] & -> & -> & -> & -> & -> & [= <-] & -> & Hage & H1 & H2 & H3).
    exists age. split; [done|]. by rewrite !pyeqb_refl, H1, H2, H3.
Qed.

(** A link artifact serves a placement without objection exactly when it is
    qualified, was measured between the same two builds in the same direction,
    with the same message shapes, over the path observed now, and is neither
    from the future nor older than allowed. *)
Theorem check_link_compatibility_iff a source target prompt output hidden path now maximum_age :
  check_link_compatibility a source target prompt output hidden path now maximum_age = Ok [] <->
  exists r p age, lc_qualified (la_content a) = true /\ lc_result (la_content a) = Some r /\
    lr_source r = source /\ lr_target r = target /\ lr_prompt_tokens r = prompt /\
    lr_output_tokens r = output /\ lr_hidden_size r = hidden /\
    last (lc_paths (la_content a)) = Some p /\ pt_route path = pt_route p /\
    total_seconds (now - dt_instant (lc_measured_at (la_content a))) = Ok age /\
    flt maximum_age f0 = false /\ flt age f0 = false /\ flt maximum_age age = false.
Proof. apply link_compatible_iff. Qed.
