(* ===== verification/Measured.v ===== *)
(** * Measured placement (src/python/hllm_control/planner/measured.py)

    Sealed bundles of profiles, links and worker snapshots, and the evaluation of
    one placement against them.  Evidence that is missing, stale, ambiguous or of
    another scope makes a placement unknown; it never becomes a zero cost.  The
    bundle implements the planner's [MeasuredEvidence] interface. *)

From Stdlib Require Import Ascii SpecFloat.
From S2P Require Export Planner Fit Link.

(** ** Evidence records *)

Record WorkerEvidence := {
  we_worker : WorkerProfile;
  we_memory_environment : Environment;
  we_compute_environment : Environment;
  we_runtime_device_identity : string;
  we_runtime_driver_version : string;
  we_runtime_binary_digest : string;
  we_admission_capacity : MemoryAmounts;
  we_host : PhysicalBudget;
  we_device : option PhysicalBudget;
  we_mlx_fit_policy : MlxFitPolicy;
  we_observed_at : AwareDatetime;
  we_transport_mode : TransportMode
}.

(** The environment fields that memory and compute profiles must share. *)
Definition shared_environment_fields : list (string * (Environment -> string)) := [
  ("backend", fun e => backend_value (en_backend e)); ("device_identity", en_device_identity);
  ("device_name", en_device_name); ("backend_version", en_backend_version);
  ("driver_version", en_driver_version); ("allocator", en_allocator);
  ("allocator_config", en_allocator_config); ("os", en_os)].

Definition environment_match (w : WorkerEvidence) : result unit :=
  match List.find (fun '(_, get) => get (we_memory_environment w) != get (we_compute_environment w))
          shared_environment_fields with
  | Some (field, _) => raise ValidationError
      (String.append "memory/compute device environment mismatch: " field)
  | None =>
    raise_if (wp_backend (we_worker w) != en_backend (we_compute_environment w)) ValidationError
      "worker/backend environment mismatch" ;;
    raise_if ((we_mlx_fit_policy w != CONSERVATIVE) && (wp_backend (we_worker w) != MLX))
      ValidationError "mlx_fit_policy applies to MLX workers only"
  end.

Definition WorkerEvidence_fields (w : WorkerEvidence) : bool :=
  is_ok (validate_WorkerProfile (we_worker w))
  && Environment_fields (we_memory_environment w) && Environment_fields (we_compute_environment w)
  && is_digest (we_runtime_binary_digest w)
  && is_ok (validate_MemoryAmounts (we_admission_capacity w))
  && PhysicalBudget_fields (we_host w) && opt_ok PhysicalBudget_fields (we_device w)
  && is_ok (environment_match w).

Record RequestSetupSample := {
  rq_client_ttft_ms : float;
  rq_native_ttft_ms : float;
  rq_native_setup_ms : float
}.

Definition consistent_setup (s : RequestSetupSample) : result unit :=
  raise_if (flt (rq_native_ttft_ms s) (rq_native_setup_ms s)
            || flt (rq_client_ttft_ms s) (rq_native_ttft_ms s)) ValidationError
    "inconsistent production request timing".

Definition RequestSetupSample_fields (s : RequestSetupSample) : bool :=
  forallb Milliseconds [rq_client_ttft_ms s; rq_native_ttft_ms s; rq_native_setup_ms s]
  && is_ok (consistent_setup s).

Definition residual_ms (s : RequestSetupSample) : float :=
  (rq_native_setup_ms s + rq_client_ttft_ms s - rq_native_ttft_ms s)%float.

Definition RequestSetupSample_dump (s : RequestSetupSample) : json :=
  JObj [("client_ttft_ms", JFloat (rq_client_ttft_ms s));
        ("native_ttft_ms", JFloat (rq_native_ttft_ms s));
        ("native_setup_ms", JFloat (rq_native_setup_ms s))].

Record DirectionEvidence := {
  de_source_worker_id : string;
  de_target_worker_id : string;
  de_source_probe : ProbeIdentity;
  de_target_probe : ProbeIdentity;
  de_path : PathObservation;
  de_link_digest : string;
  de_request_setup_samples_ms : list float;
  de_request_setup_raw : list RequestSetupSample;
  de_request_setup_evidence_digest : string;
  de_request_setup_method : string;
  de_request_setup_measured_at : AwareDatetime
}.

Definition close_samples (a b : list float) : bool :=
  match zip_strict a b with
  | Ok pairs => forallb (fun '(x, y) => negb (flt (literal 1 1000000) (fabs (x - y)%float))) pairs
  | Err _ => false
  end.

Definition raw_setup `{Hash} (d : DirectionEvidence) : result unit :=
  raise_if ((de_source_worker_id d != pi_worker_id (de_source_probe d))
            || (de_target_worker_id d != pi_worker_id (de_target_probe d))) ValidationError
    "direction does not match source/target probe worker" ;;
  raise_if (negb (close_samples (residual_ms <$> de_request_setup_raw d)
                    (de_request_setup_samples_ms d))) ValidationError
    "request setup samples disagree with raw production timings" ;;
  raise_if (de_request_setup_evidence_digest d
            != digest (JObj [("samples", JArr (RequestSetupSample_dump <$> de_request_setup_raw d))]))
    ValidationError "request setup evidence digest mismatch".

Definition DirectionEvidence_fields `{Hash} (d : DirectionEvidence) : bool :=
  ProbeIdentity_fields (de_source_probe d) && ProbeIdentity_fields (de_target_probe d)
  && is_digest (de_link_digest d) && forallb Milliseconds (de_request_setup_samples_ms d)
  && (5 <=? length (de_request_setup_samples_ms d))%nat
  && forallb RequestSetupSample_fields (de_request_setup_raw d)
  && (5 <=? length (de_request_setup_raw d))%nat
  && is_digest (de_request_setup_evidence_digest d) && Label (de_request_setup_method d)
  && is_ok (raw_setup d).

(** ** Bundles *)

Record BundleMetadata := {
  bm_manifest_digest : string;
  bm_checkpoint_digest : string;
  bm_workload : WorkloadProfile;
  bm_workers : list WorkerEvidence;
  bm_links : list LinkArtifact;
  bm_directions : list DirectionEvidence;
  bm_evaluated_at : AwareDatetime;
  bm_maximum_profile_age_seconds : float;
  bm_maximum_snapshot_age_seconds : float;
  bm_concurrent_load : string;
  bm_input_kind : InputKind;
  bm_input_digest : string
}.

Definition unique_metadata (m : BundleMetadata) : result unit :=
  raise_if (negb (length (dict_fromkeys ((fun w => wp_worker_id (we_worker w)) <$> bm_workers m)) =? 2)%nat)
    ValidationError "bundle needs two distinct workers" ;;
  raise_if (negb (py_unique (la_artifact_digest <$> bm_links m))) ValidationError
    "duplicate artifact" ;;
  raise_if (negb (py_unique ((fun d => (de_source_worker_id d, de_target_worker_id d))
                               <$> bm_directions m))) ValidationError
    "duplicate direction".

Definition BundleMetadata_fields `{Hash} (m : BundleMetadata) : bool :=
  is_digest (bm_manifest_digest m) && is_digest (bm_checkpoint_digest m)
  && is_ok (validate_WorkloadProfile (bm_workload m))
  && forallb WorkerEvidence_fields (bm_workers m) && (length (bm_workers m) =? 2)%nat
  && forallb (fun l => is_ok (validate_LinkArtifact l)) (bm_links m)
  && forallb DirectionEvidence_fields (bm_directions m)
  && PositiveFloat (bm_maximum_profile_age_seconds m)
  && PositiveFloat (bm_maximum_snapshot_age_seconds m)
  && fle (bm_maximum_snapshot_age_seconds m) (literal 300 1)
  && is_digest (bm_input_digest m) && is_ok (unique_metadata m).

Record ProfileReference := { rf_artifact_digest : string; rf_assignment : StageAssignment }.

(** An in-memory bundle holds its profiles; a disk bundle holds references and
    the directory they are read from, once it is bound. *)
Inductive BundleStorage :=
  | InMemory (profiles : list ProfileArtifact)
  | OnDisk (references : list ProfileReference) (directory : option (string -> result ProfileArtifact)).

Record Bundle := {
  bu_metadata : BundleMetadata;
  bu_storage : BundleStorage;
  bu_bundle_digest : string
}.

(** ** Dumps *)

Definition provenance_value (p : Provenance) : string :=
  match p with
  | PROV_THEORETICAL => "THEORETICAL" | PROV_CONFIGURED => "CONFIGURED" | PROV_OBSERVED => "OBSERVED"
  | PROV_MEASURED => "MEASURED"
  end.

Definition MemoryBudget_dump (b : MemoryBudget) : json :=
  JObj [("domain", JStr (domain_value (mb_domain b))); ("capacity_bytes", JInt (mb_capacity_bytes b));
        ("runtime_reserve_bytes", JInt (mb_runtime_reserve_bytes b));
        ("safety_fraction", JFloat (mb_safety_fraction b))].

Definition WorkerProfile_dump (w : WorkerProfile) : json :=
  JObj ([("schema_version", JStr (wp_schema_version w)); ("worker_id", JStr (wp_worker_id w));
         ("endpoint", JStr (wp_endpoint w)); ("backend", JStr (backend_value (wp_backend w)));
         ("primary_memory_domain", JStr (domain_value (wp_primary_memory_domain w)));
         ("supported_architectures", JArr (JStr <$> wp_supported_architectures w));
         ("supported_execution_dtypes",
           JArr ((fun d => JStr (dtype_value d)) <$> wp_supported_execution_dtypes w))]
        ++ json_field (negb (wp_supports_mixed_precision w)) "supports_mixed_precision"
             (JBool (wp_supports_mixed_precision w))
        ++ [("memory_budgets", JArr (MemoryBudget_dump <$> wp_memory_budgets w));
            ("fixed_workspace_bytes", JInt (wp_fixed_workspace_bytes w));
            ("activation_buffer_count", JInt (wp_activation_buffer_count w));
            ("allocator_allowance_fraction", JFloat (wp_allocator_allowance_fraction w));
            ("host_transport_buffer_bytes", JInt (wp_host_transport_buffer_bytes w));
            ("provenance", JStr (provenance_value (wp_provenance w)));
            ("observed_available_host_bytes", json_opt JInt (wp_observed_available_host_bytes w));
            ("observed_at", json_opt JStr (wp_observed_at w))]).

Definition WorkerEvidence_dump (w : WorkerEvidence) : json :=
  JObj ([("worker", WorkerProfile_dump (we_worker w));
         ("memory_environment", Environment_dump (we_memory_environment w));
         ("compute_environment", Environment_dump (we_compute_environment w));
         ("runtime_device_identity", JStr (we_runtime_device_identity w));
         ("runtime_driver_version", JStr (we_runtime_driver_version w));
         ("runtime_binary_digest", JStr (we_runtime_binary_digest w));
         ("admission_capacity", MemoryAmounts_dump (we_admission_capacity w));
         ("host", PhysicalBudget_dump (we_host w));
         ("device", json_opt PhysicalBudget_dump (we_device w))]
        ++ json_field (we_mlx_fit_policy w == CONSERVATIVE) "mlx_fit_policy"
             (JStr (policy_name (we_mlx_fit_policy w)))
        ++ [("observed_at", JStr (dt_text (we_observed_at w)));
            ("transport_mode", JStr (transport_value (we_transport_mode w)))]).

Definition DirectionEvidence_dump (d : DirectionEvidence) : json :=
  JObj [("source_worker_id", JStr (de_source_worker_id d));
        ("target_worker_id", JStr (de_target_worker_id d));
        ("source_probe", ProbeIdentity_dump (de_source_probe d));
        ("target_probe", ProbeIdentity_dump (de_target_probe d));
        ("path", PathObservation_dump (de_path d)); ("link_digest", JStr (de_link_digest d));
        ("request_setup_samples_ms", JArr (JFloat <$> de_request_setup_samples_ms d));
        ("request_setup_raw", JArr (RequestSetupSample_dump <$> de_request_setup_raw d));
        ("request_setup_evidence_digest", JStr (de_request_setup_evidence_digest d));
        ("request_setup_method", JStr (de_request_setup_method d));
        ("request_setup_measured_at", JStr (dt_text (de_request_setup_measured_at d)))].

(** The fields of an object. *)
Definition LinkArtifact_dump (a : LinkArtifact) : json :=
  JObj (fields_of (LinkContent_dump (la_content a))
        ++ [("artifact_digest", JStr (la_artifact_digest a))]).

Definition ProfileReference_dump (r : ProfileReference) : json :=
  JObj [("artifact_digest", JStr (rf_artifact_digest r));
        ("assignment", StageAssignment_dump (rf_assignment r))].

Definition BundleMetadata_dump (m : BundleMetadata) : list (string * json) :=
  [("schema_version", JStr "1.0"); ("manifest_digest", JStr (bm_manifest_digest m));
   ("checkpoint_digest", JStr (bm_checkpoint_digest m));
   ("workload", WorkloadProfile_dump (bm_workload m));
   ("workers", JArr (WorkerEvidence_dump <$> bm_workers m));
   ("links", JArr (LinkArtifact_dump <$> bm_links m));
   ("directions", JArr (DirectionEvidence_dump <$> bm_directions m));
   ("evaluated_at", JStr (dt_text (bm_evaluated_at m)));
   ("maximum_profile_age_seconds", JFloat (bm_maximum_profile_age_seconds m));
   ("maximum_snapshot_age_seconds", JFloat (bm_maximum_snapshot_age_seconds m));
   ("concurrent_load", JStr (bm_concurrent_load m));
   ("input_kind", JStr (input_kind_value (bm_input_kind m)));
   ("input_digest", JStr (bm_input_digest m))].

Section bundles.
Context `{Hash}.

(** [DiskProfileBundle._load]: reading a file validates the artifact it holds. *)
Definition load_profile (directory : option (string -> result ProfileArtifact))
    (ref : ProfileReference) : result ProfileArtifact :=
  match directory with
  | None => raise ValueError "disk bundle must be opened with read_profile_bundle"
  | Some read =>
    raw ← read (String.append (rf_artifact_digest ref) ".json");
    profile ← validate_ProfileArtifact raw;
    raise_if ((pa_artifact_digest profile != rf_artifact_digest ref)
              || (pk_assignment (pa_key profile) != rf_assignment ref)) ValueError
      "profile reference mismatch" ;;
    Ok profile
  end.

Definition profiles_for (b : Bundle) (assignment : StageAssignment) : result (list ProfileArtifact) :=
  match bu_storage b with
  | InMemory profiles =>
    Ok (List.filter (fun p => pk_assignment (pa_key p) == assignment) profiles)
  | OnDisk references directory =>
    mapM (load_profile directory) (List.filter (fun r => rf_assignment r == assignment) references)
  end.

(** [bind_directory]: every referenced profile is read once. *)
Definition bind_directory (read : string -> result ProfileArtifact) (b : Bundle) : result Bundle :=
  match bu_storage b with
  | InMemory _ => Ok b
  | OnDisk references _ =>
    mapM (load_profile (Some read)) references ;;
    Ok {| bu_metadata := bu_metadata b; bu_storage := OnDisk references (Some read);
          bu_bundle_digest := bu_bundle_digest b |}
  end.

Definition unique_storage (s : BundleStorage) : result unit :=
  raise_if (negb (py_unique match s with
                            | InMemory profiles => pa_artifact_digest <$> profiles
                            | OnDisk references _ => rf_artifact_digest <$> references end))
    ValidationError "duplicate artifact".

Definition storage_fields (s : BundleStorage) : bool :=
  match s with
  | InMemory profiles => forallb (fun p => is_ok (validate_ProfileArtifact p)) profiles
  | OnDisk references _ =>
    forallb (fun r => is_digest (rf_artifact_digest r) && StageAssignment_fields (rf_assignment r))
      references
  end.

(** ** Seals *)

Definition bundle_content (m : BundleMetadata) (s : BundleStorage) : json :=
  JObj (BundleMetadata_dump m ++
        match s with
        | InMemory profiles => [("profiles", JArr (ProfileArtifact_dump <$> profiles))]
        | OnDisk references _ =>
          [("storage", JStr "content-addressed-profiles-v1");
           ("profile_references", JArr (ProfileReference_dump <$> references))]
        end).

Definition seal (b : Bundle) : result unit :=
  raise_if (bu_bundle_digest b != digest (bundle_content (bu_metadata b) (bu_storage b)))
    ValidationError "profile bundle digest mismatch".

Definition validate_Bundle (b : Bundle) : result Bundle :=
  fields_ok (BundleMetadata_fields (bu_metadata b) && storage_fields (bu_storage b)
             && is_digest (bu_bundle_digest b)) ;;
  unique_storage (bu_storage b) ;;
  seal b ;;
  Ok b.

Definition seal_bundle (m : BundleMetadata) (profiles : list ProfileArtifact) : result Bundle :=
  validate_Bundle {| bu_metadata := m; bu_storage := InMemory profiles;
                     bu_bundle_digest := digest (bundle_content m (InMemory profiles)) |}.

(** [read] is the directory the bundle's file is in. *)
Definition read_profile_bundle (read : string -> result ProfileArtifact) (data : Bundle)
    : result Bundle :=
  bundle ← validate_Bundle data;
  bind_directory read bundle.

(** The index is written (the last step of the source) only after every profile loads. *)
Definition seal_disk_bundle (m : BundleMetadata) (references : list ProfileReference)
    (read : string -> result ProfileArtifact) : result Bundle :=
  bundle ← validate_Bundle {| bu_metadata := m; bu_storage := OnDisk references None;
             bu_bundle_digest := digest (bundle_content m (OnDisk references None)) |};
  bind_directory read bundle.
End bundles.

(** ** Freshness *)

Definition _fresh (at_ now : datetime) (limit : float) : result bool :=
  age ← total_seconds (now - at_);
  Ok (fle f0 age && fle age limit).

(** ** Evaluation of one placement *)

Fixpoint filterM {A} (f : A -> result bool) (l : list A) : result (list A) :=
  match l with
  | [] => Ok []
  | x :: l' => b ← f x; rest ← filterM f l'; Ok (if (b : bool) then x :: rest else rest)
  end.

(** The local variables of [evaluate] that its first loop fills. *)
Record Evidence := {
  ev_unknown : list string;
  ev_unsafe : list string;
  ev_computes : list ProfileArtifact;
  ev_identities : list string;
  ev_host_envelopes : list (string * Z);
  ev_device_envelopes : list (string * Z)
}.

Definition no_evidence : Evidence := {|
  ev_unknown := []; ev_unsafe := []; ev_computes := []; ev_identities := [];
  ev_host_envelopes := []; ev_device_envelopes := [] |}.

Definition add_unknown (reasons : list string) (s : Evidence) : Evidence := {|
  ev_unknown := ev_unknown s ++ reasons; ev_unsafe := ev_unsafe s; ev_computes := ev_computes s;
  ev_identities := ev_identities s; ev_host_envelopes := ev_host_envelopes s;
  ev_device_envelopes := ev_device_envelopes s |}.

Definition add_unsafe (reasons : list string) (s : Evidence) : Evidence := {|
  ev_unknown := ev_unknown s; ev_unsafe := ev_unsafe s ++ reasons; ev_computes := ev_computes s;
  ev_identities := ev_identities s; ev_host_envelopes := ev_host_envelopes s;
  ev_device_envelopes := ev_device_envelopes s |}.

Definition add_compute (a : ProfileArtifact) (s : Evidence) : Evidence := {|
  ev_unknown := ev_unknown s; ev_unsafe := ev_unsafe s; ev_computes := ev_computes s ++ [a];
  ev_identities := ev_identities s; ev_host_envelopes := ev_host_envelopes s;
  ev_device_envelopes := ev_device_envelopes s |}.

Definition add_identities (ids : list string) (s : Evidence) : Evidence := {|
  ev_unknown := ev_unknown s; ev_unsafe := ev_unsafe s; ev_computes := ev_computes s;
  ev_identities := ev_identities s ++ ids; ev_host_envelopes := ev_host_envelopes s;
  ev_device_envelopes := ev_device_envelopes s |}.

Definition opt_set (k : string) (v : option Z) (d : list (string * Z)) : list (string * Z) :=
  match v with Some n => assoc_set k n d | None => d end.

Definition set_envelopes (worker_id : string) (fit : FitResult) (s : Evidence) : Evidence := {|
  ev_unknown := ev_unknown s; ev_unsafe := ev_unsafe s; ev_computes := ev_computes s;
  ev_identities := ev_identities s;
  ev_host_envelopes := opt_set worker_id (fr_host_envelope_bytes fit) (ev_host_envelopes s);
  ev_device_envelopes := opt_set worker_id (fr_device_envelope_bytes fit) (ev_device_envelopes s) |}.

Definition kind_upper (k : MeasurementKind) : string :=
  match k with
  | K_MEMORY => "MEMORY" | K_COMPUTE => "COMPUTE" | K_CONVERSION => "CONVERSION" | K_LINK => "LINK"
  | K_COMPUTE_RUN => "COMPUTE-RUN"
  end.

Section evaluate.
Context `{Hash} (bundle : Bundle) (manifest : ModelManifest) (workload : WorkloadProfile)
  (weight_dtype : option DType).

Let meta := bu_metadata bundle.
Let now := dt_instant (bm_evaluated_at meta).

(** Whether a profile is of exactly the scope the placement asks for, and fresh. *)
Definition profile_matches (binding : WorkerEvidence) (assignment : StageAssignment)
    (kind : MeasurementKind) (environment : Environment) (p : ProfileArtifact) : result bool :=
  let key := pa_key p in
  if (kind_of (pa_measurement p) == kind) && (pk_assignment key == assignment)
     && (pk_environment key == environment) && (pk_input_kind key == bm_input_kind meta)
     && (pk_input_digest key == bm_input_digest meta)
     && (pk_manifest_digest key == mm_manifest_digest manifest)
     && (pk_checkpoint_digest key == bm_checkpoint_digest meta) && (pk_workload key == workload)
     && (pk_execution_dtype key == wl_kv_dtype workload) && (pk_weight_dtype key == weight_dtype)
     && (pk_transport_mode key == we_transport_mode binding)
     && (cd_concurrent_load (pa_conditions p) == bm_concurrent_load meta)
  then _fresh (dt_instant (cd_measured_at (pa_conditions p))) now (bm_maximum_profile_age_seconds meta)
  else Ok false.

Definition use_memory (binding : WorkerEvidence) (assignment : StageAssignment)
    (artifact : ProfileArtifact) (s : Evidence) : result Evidence :=
  fit ← assess_fit artifact (we_admission_capacity binding) (we_host binding) (we_device binding)
          (we_mlx_fit_policy binding);
  let s := set_envelopes (sa_worker_id assignment) fit s in
  let reasons := (fun reason => String.append (sa_worker_id assignment) (String.append ":" reason))
                   <$> fr_reasons fit in
  Ok match fr_status fit with
     | SAFE => s | UNSAFE => add_unsafe reasons s | FIT_UNKNOWN => add_unknown reasons s end.

Definition use_compute (binding : WorkerEvidence) (assignment : StageAssignment)
    (artifact : ProfileArtifact) (s : Evidence) : Evidence :=
  match pa_measurement artifact with
  | ComputeRun m =>
    if negb (cr_completed m)
    then add_unknown [String.append "INCOMPLETE_COMPUTE:" (sa_worker_id assignment)] s
    else if cr_admission_capacity m != we_admission_capacity binding
    then add_unknown [String.append "COMPUTE_ADMISSION_MISMATCH:" (sa_worker_id assignment)] s
    else add_compute artifact s
  | _ => add_unknown [String.append "INCOMPLETE_COMPUTE:" (sa_worker_id assignment)] s
  end.

Definition evaluate_kind (binding : WorkerEvidence) (assignment : StageAssignment)
    (s : Evidence) (ke : MeasurementKind * Environment) : result Evidence :=
  let '(kind, environment) := ke in
  profiles ← profiles_for bundle assignment;
  matches ← filterM (profile_matches binding assignment kind environment) profiles;
  match matches with
  | [artifact] =>
    let s := add_identities [pa_artifact_digest artifact] s in
    if kind == K_MEMORY then use_memory binding assignment artifact s
    else Ok (use_compute binding assignment artifact s)
  | _ => Ok (add_unknown [String.append "MISSING_OR_AMBIGUOUS_"
                (String.append (kind_upper kind) (String.append ":" (sa_worker_id assignment)))] s)
  end.

Definition find_binding (worker_id : string) : result WorkerEvidence :=
  match List.find (fun w => wp_worker_id (we_worker w) == worker_id) (bm_workers meta) with
  | Some w => Ok w
  | None => raise StopIteration ""
  end.

Definition evaluate_assignment (s : Evidence) (assignment : StageAssignment) : result Evidence :=
  binding ← find_binding (sa_worker_id assignment);
  fresh ← _fresh (dt_instant (we_observed_at binding)) now (bm_maximum_snapshot_age_seconds meta);
  let s := if (fresh : bool) then s
           else add_unknown [String.append "STALE_PHYSICAL_SNAPSHOT:" (sa_worker_id assignment)] s in
  s ← evaluate_kind binding assignment s (K_MEMORY, we_memory_environment binding);
  evaluate_kind binding assignment s (K_COMPUTE_RUN, we_compute_environment binding).

Definition find_direction (assignments : StageAssignment * StageAssignment)
    : option DirectionEvidence :=
  List.find (fun d => (de_source_worker_id d, de_target_worker_id d)
                      == (sa_worker_id assignments.1, sa_worker_id assignments.2))
    (bm_directions meta).

Definition find_link (d : DirectionEvidence) : option LinkArtifact :=
  List.find (fun a => la_artifact_digest a == de_link_digest d) (bm_links meta).

Definition reason_if (b : bool) (reason : string) : list string := if b then [reason] else [].

Definition evaluate_link (d : DirectionEvidence) (link : LinkArtifact) (s : Evidence)
    : result Evidence :=
  reasons ← check_link_compatibility link (de_source_probe d) (de_target_probe d)
              (wl_prompt_tokens workload) (wl_output_tokens workload)
              (mc_hidden_size (mm_config manifest)) (de_path d) now
              (bm_maximum_profile_age_seconds meta);
  path_fresh ← _fresh (dt_instant (pt_observed_at (de_path d))) now
                 (bm_maximum_snapshot_age_seconds meta);
  setup_fresh ← _fresh (dt_instant (de_request_setup_measured_at d)) now
                  (bm_maximum_profile_age_seconds meta);
  let s := add_unknown (reasons ++ reason_if (negb path_fresh) "STALE_PATH_SNAPSHOT"
             ++ reason_if (lc_concurrent_load (la_content link) != bm_concurrent_load meta)
                  "LINK_CONCURRENT_LOAD_MISMATCH"
             ++ reason_if (negb setup_fresh) "STALE_REQUEST_SETUP") s in
  Ok (add_identities [la_artifact_digest link; de_request_setup_evidence_digest d] s).

(** *** Times of a placement with complete evidence *)

Definition stage_rows (a : ProfileArtifact) (m : ComputeRunMeasurement) : list TimingRecord :=
  List.filter (fun r => (cd_warmup_cycles (pa_conditions a) <=? ti_cycle r)%Z
                        && (ti_timing_mode r == WHOLE_STAGE)) (cr_records m).

(** The allocation time and the time of each step of one stage. *)
Definition stage_times (a : ProfileArtifact) : result (float * list float) :=
  match pa_measurement a with
  | ComputeRun m =>
    let rows := stage_rows a m in
    alloc ← py_median (ti_milliseconds <$>
              List.filter (fun r => ti_component r == C_SEQUENCE_ALLOCATION) rows);
    per_step ← mapM (fun step => py_median (ti_milliseconds <$>
                  List.filter (fun r => (ti_component r == C_STAGE) && (ti_step r == step)) rows))
                (py_range 0 (wl_output_tokens workload));
    Ok (alloc, per_step)
  | _ => raise AssertionError ""
  end.

Definition py_head (l : list float) : result float :=
  match l with x :: _ => Ok x | [] => raise IndexError "list index out of range" end.

(** [[a + b for a, b in zip(x, y, strict=True)]] *)
Definition zip_add (x y : list float) : result (list float) :=
  pairs ← zip_strict x y;
  Ok (List.map (fun p : float * float => (p.1 + p.2)%float) pairs).

Abbreviation Totals := (list (string * float) * list float * float)%type.

Definition add_stage (t : Totals) (a : ProfileArtifact) : result Totals :=
  let '(components, stage_steps, allocation) := t in
  '(alloc, per_step) ← stage_times a;
  steps ← zip_add stage_steps per_step;
  let prefix := sa_worker_id (pk_assignment (pa_key a)) in
  prefill ← py_head per_step;
  let components := assoc_set (String.append prefix ".allocation") alloc components in
  let components := assoc_set (String.append prefix ".prefill") prefill components in
  let components := assoc_set (String.append prefix ".decode") (py_fsum (tail per_step)) components in
  Ok (components, steps, (allocation + alloc)%float).

Fixpoint add_stages (t : Totals) (l : list ProfileArtifact) : result Totals :=
  match l with [] => Ok t | a :: l' => t ← add_stage t a; add_stages t l' end.

Definition boundary_times (r : LinkResult) : result (list float) :=
  mapM (fun step => py_median ((fun s => (ls_sender_encode_ms s + ls_round_trip_ms s)%float) <$>
          List.filter (fun s => (lr_warmup_cycles r <=? ls_cycle s)%Z && (ls_step s == step))
            (lr_samples r)))
    (py_range 0 (wl_output_tokens workload)).

Definition estimate (d : DirectionEvidence) (link : LinkArtifact) (s : Evidence)
    : result PerformanceEstimate :=
  r ← match lc_result (la_content link) with Some r => Ok r | None => raise AssertionError "" end;
  '(components, stage_steps, allocation) ←
    add_stages ([], replicate (Z.to_nat (wl_output_tokens workload)) f0, f0) (ev_computes s);
  boundary ← boundary_times r;
  setup ← py_median (de_request_setup_samples_ms d);
  boundary_prefill ← py_head boundary;
  let components := assoc_set "request_setup" setup components in
  let components := assoc_set "boundary_prefill" boundary_prefill components in
  let components := assoc_set "boundary_decode" (py_fsum (tail boundary)) components in
  step0 ← py_head stage_steps;
  let ttft := (setup + allocation + step0 + boundary_prefill)%float in
  decode ← zip_add (tail stage_steps) (tail boundary);
  boundary_decode ← match tail boundary with [] => Ok f0 | l => py_median l end;
  let p := {|
    pe_boundary_prefill_ms := boundary_prefill; pe_boundary_decode_ms := boundary_decode;
    pe_confidence := "exact-assignment-whole-stage; additive prediction, independently qualify";
    pe_ttft_ms := Some ttft; pe_decode_ms := decode;
    pe_generation_ms := Some (ttft + py_fsum decode)%float; pe_components_ms := components;
    pe_profile_digests := ev_identities s; pe_host_envelope_bytes := ev_host_envelopes s;
    pe_device_envelope_bytes := ev_device_envelopes s |} in
  fields_ok (PerformanceEstimate_fields p) ;;
  Ok p.

(** The two loops over assignments and kinds, then the directional evidence. *)
Definition gather_evidence (assignments : StageAssignment * StageAssignment)
    : result (Evidence * option (DirectionEvidence * LinkArtifact)) :=
  s ← evaluate_assignment no_evidence assignments.1;
  s ← evaluate_assignment s assignments.2;
  match find_direction assignments with
  | Some d =>
    match find_link d with
    | Some l => s ← evaluate_link d l s; Ok (s, Some (d, l))
    | None => Ok (add_unknown ["MISSING_DIRECTIONAL_LINK_OR_REQUEST_SETUP"] s, None)
    end
  | None => Ok (add_unknown ["MISSING_DIRECTIONAL_LINK_OR_REQUEST_SETUP"] s, None)
  end.

Definition evaluate (assignments : StageAssignment * StageAssignment)
    : result (string * list string * option PerformanceEstimate) :=
  if (bm_manifest_digest meta != mm_manifest_digest manifest) || (bm_workload meta != workload)
  then Ok ("unknown", ["BUNDLE_MANIFEST_OR_WORKLOAD_MISMATCH"], None)
  else
    '(s, found) ← gather_evidence assignments;
    match ev_unsafe s, ev_unknown s, found with
    | [], [], Some (d, l) => p ← estimate d l s; Ok ("measured", [], Some p)
    | [], [], None => raise AssertionError ""
    | [], unknown, _ => Ok ("unknown", unknown, None)
    | unsafe, unknown, _ => Ok ("infeasible", unsafe ++ unknown, None)
    end.
End evaluate.

(** The planner's view of a bundle. *)
#[export] Instance measured_evidence `{Hash} : MeasuredEvidence Bundle := {
  bundle_workers b := we_worker <$> bm_workers (bu_metadata b);
  bundle_digest b := bu_bundle_digest b;
  bundle_evaluate b manifest workload assignments weight :=
    evaluate b manifest workload weight assignments
}.

#[export] Instance measured_evidence_laws `{Hash} : MeasuredEvidenceLaws Bundle.
Proof.
  intros b manifest workload assignments weight status reasons performance. simpl. unfold evaluate.
  destruct (_ || _). { intros E. apply Ok_inj in E. simplify_eq. naive_solver. }
  intros E. apply bind_ok in E as ([s found] & _ & E).
  destruct (ev_unsafe s) as [|u us], (ev_unknown s) as [|k ks], found as [[d l]|]; try done;
    try (apply Ok_inj in E; simplify_eq; naive_solver).
  apply bind_ok in E as (p & Hp & E). apply Ok_inj in E. simplify_eq.
  split; [done|]. split; [|done]. intros _. unfold estimate in Hp. apply bind_ok in Hp as (? & _ & Hp).
  apply bind_ok in Hp as ([[c ss] al] & _ & Hp). do 5 (apply bind_ok in Hp as (? & _ & Hp)).
  apply bind_ok in Hp as (? & _ & Hp). apply bind_ok in Hp as (? & _ & Hp). apply Ok_inj in Hp as <-. eauto.
Qed.

(** ** What a measured placement has *)

Lemma filterM_ok {A} (f : A -> result bool) l k :
  filterM f l = Ok k -> forall x, x ∈ k <-> x ∈ l /\ f x = Ok true.
Proof.
  revert k. induction l as [|y l IH]; simpl; intros k E x.
  - apply Ok_inj in E as <-. split; [intros Hx; by apply not_elem_of_nil in Hx|intros [Hx _]; by apply not_elem_of_nil in Hx].
  - apply bind_ok in E as (b & Hb & E). apply bind_ok in E as (rest & Hr & E). apply Ok_inj in E as <-.
    specialize (IH rest Hr x). rewrite elem_of_cons. destruct b.
    + rewrite elem_of_cons, IH. split; [|tauto]. intros [->|[??]]; auto.
    + rewrite IH. split; [tauto|]. intros [[->|?] ?]; [congruence|auto].
Qed.

Lemma assess_fit_safe_iff artifact cap host device policy r :
  assess_fit artifact cap host device policy = Ok r -> (fr_status r = SAFE <-> fr_reasons r = []).
Proof.
  intros (m & he & uh & kh & de & ud & kd & _ & _ & _ & _ & _ & -> & Hs & _)%assess_fit_ok.
  rewrite Hs. cbn zeta. split; [by intros [-> ->]|]. set (u := exceeded_caps _ _ ++ _). set (k := _ ++ kh ++ kd).
  clearbody u k. clear Hs. intros Hd. apply app_eq_nil. destruct (u ++ k) as [|x l] eqn:E; [done|].
  assert (x ∈ dict_fromkeys (x :: l)) as Hx by (rewrite elem_of_dict_fromkeys; apply list_elem_of_here).
  rewrite Hd in Hx. by apply not_elem_of_nil in Hx.
Qed.

Definition clean (s : Evidence) : Prop := ev_unknown s = [] /\ ev_unsafe s = [].

Lemma clean_add_unknown r s : clean (add_unknown r s) <-> r = [] /\ clean s.
Proof.
  unfold clean, add_unknown. simpl. split; [intros [[-> ->]%app_eq_nil ->]; done|].
  intros (-> & -> & ->). done.
Qed.

Lemma clean_add_unsafe r s : clean (add_unsafe r s) <-> r = [] /\ clean s.
Proof.
  unfold clean, add_unsafe. simpl. split; [intros [-> [-> ->]%app_eq_nil]; done|].
  intros (-> & -> & ->). done.
Qed.

Lemma clean_no_evidence : clean no_evidence.
Proof. done. Qed.

Lemma zip_add_ok x y z : zip_add x y = Ok z <-> length x = length y /\ z = zip_with fadd x y.
Proof.
  unfold zip_add. rewrite bind_ok. split.
  - intros (ps & Hz & E). apply zip_strict_ok in Hz as [Hl ->]. apply Ok_inj in E as <-. split; [done|].
    clear Hl. revert y. induction x as [|a x IH]; intros [|b y]; simpl; try done. by rewrite IH.
  - intros [Hl ->]. exists (zip x y). split; [by apply zip_strict_ok|]. f_equal. clear Hl. revert y.
    induction x as [|a x IH]; intros [|b y]; simpl; try done. by rewrite IH.
Qed.

Lemma py_head_ok l x : py_head l = Ok x <-> head l = Some x.
Proof. destruct l; simpl; [done|]. split; [intros E; apply Ok_inj in E as <-; done|by intros [= ->]]. Qed.

Lemma stage_times_length workload a alloc steps :
  stage_times workload a = Ok (alloc, steps) -> length steps = Z.to_nat (wl_output_tokens workload).
Proof.
  unfold stage_times. destruct (pa_measurement a); try done. intros E.
  apply bind_ok in E as (? & _ & E). apply bind_ok in E as (ps & Hps & E). apply Ok_inj in E. simplify_eq.
  apply mapM_ok_length in Hps. rewrite Hps, length_py_range. f_equal. lia.
Qed.

Lemma add_stage_ok workload components steps allocation a t :
  add_stage workload (components, steps, allocation) a = Ok t ->
  exists alloc per_step, stage_times workload a = Ok (alloc, per_step) /\
    length steps = length per_step /\ t.1.2 = zip_with fadd steps per_step /\
    t.2 = (allocation + alloc)%float.
Proof.
  unfold add_stage. intros E. apply bind_ok in E as ([alloc ps] & Ht & E).
  apply bind_ok in E as (st & [Hl ->]%zip_add_ok & E). apply bind_ok in E as (hd & _ & E).
  apply Ok_inj in E as <-. by exists alloc, ps.
Qed.

(** The times of an estimate on two compute runs. *)
Lemma estimate_ok workload d l s c0 c1 p :
  ev_computes s = [c0; c1] -> estimate workload d l s = Ok p ->
  exists r alloc0 steps0 alloc1 steps1 boundary setup,
    lc_result (la_content l) = Some r /\
    stage_times workload c0 = Ok (alloc0, steps0) /\ stage_times workload c1 = Ok (alloc1, steps1) /\
    boundary_times workload r = Ok boundary /\
    py_median (de_request_setup_samples_ms d) = Ok setup /\
    (exists s0 s1 b, head steps0 = Some s0 /\ head steps1 = Some s1 /\ head boundary = Some b /\
       pe_boundary_prefill_ms p = b /\
       pe_ttft_ms p = Some (setup + (f0 + alloc0 + alloc1) + (f0 + s0 + s1) + b)%float) /\
    pe_decode_ms p = zip_with fadd (zip_with fadd (fadd f0 <$> tail steps0) (tail steps1)) (tail boundary) /\
    length (pe_decode_ms p) = Z.to_nat (wl_output_tokens workload - 1) /\
    pe_profile_digests p = ev_identities s.
Proof.
  intros Hcs. unfold estimate. rewrite Hcs. cbn [add_stages]. intros E.
  apply bind_ok in E as (r & Hr & E). apply bind_ok in E as ([[comps steps] alloc] & Ht & E).
  apply bind_ok in Ht as ([[k1 st1] al1] & (a0 & ps0 & Ht0 & Hl0 & Hst1 & Hal1)%add_stage_ok & Ht).
  apply bind_ok in Ht as (t2 & (a1 & ps1 & Ht1 & Hl1 & Hst2 & Hal2)%add_stage_ok & Ht).
  apply Ok_inj in Ht. subst t2. simpl in Hst1, Hal1, Hst2, Hal2. subst st1 al1 steps alloc.
  apply bind_ok in E as (bd & Hbd & E).
  apply bind_ok in E as (su & Hsu & E). apply bind_ok in E as (b & Hb%py_head_ok & E).
  apply bind_ok in E as (h & Hh%py_head_ok & E). apply bind_ok in E as (dec & [Hld ->]%zip_add_ok & E).
  apply bind_ok in E as (bdec & _ & E). apply bind_ok in E as (u & _ & E). apply Ok_inj in E as <-.
  exists r, a0, ps0, a1, ps1, bd, su. pose proof (stage_times_length _ _ _ _ Ht0) as Hn0.
  pose proof (stage_times_length _ _ _ _ Ht1) as Hn1. rewrite <- Hn0 in Hh, Hld |- *.
  destruct (lc_result (la_content l)) as [r'|]; [|done]. apply Ok_inj in Hr as ->.
  destruct ps0 as [|x0 ps0]; [done|]. destruct ps1 as [|x1 ps1]; [simpl in *; lia|].
  destruct bd as [|b' bd]; [done|]. simpl in Hb, Hh. simplify_eq.
  assert (Hrep : zip_with fadd (replicate (length ps0) f0) ps0 = fadd f0 <$> ps0).
  { clear. induction ps0 as [|x ps0 IH]; simpl; [done|by rewrite IH]. }
  cbn [pe_ttft_ms pe_decode_ms pe_profile_digests pe_boundary_prefill_ms tail].
  cbn [length replicate zip_with tail] in *. rewrite Hrep in *.
  split_and!; try done; [by exists x0, x1, b|].
  rewrite length_zip_with, Hld, Nat.min_id, <- Hld, length_zip_with, length_fmap. lia.
Qed.

Section soundness.
Context `{Hash} (bundle : Bundle) (manifest : ModelManifest) (workload : WorkloadProfile)
  (weight_dtype : option DType).

(** The profiles of one kind that serve a stage are exactly one. *)
Definition only_profile (binding : WorkerEvidence) (assignment : StageAssignment)
    (kind : MeasurementKind) (environment : Environment) (a : ProfileArtifact) : Prop :=
  exists profiles, profiles_for bundle assignment = Ok profiles /\
    filterM (profile_matches bundle manifest workload weight_dtype binding assignment kind environment)
      profiles = Ok [a].

(** The evidence of one stage: a fresh snapshot of its worker, one fresh memory
    profile that is assessed safe, and one fresh complete compute run [compute]. *)
Definition stage_evidence (assignment : StageAssignment) (memory compute : ProfileArtifact) : Prop :=
  exists binding fit m,
    find_binding bundle (sa_worker_id assignment) = Ok binding /\
    _fresh (dt_instant (we_observed_at binding)) (dt_instant (bm_evaluated_at (bu_metadata bundle)))
      (bm_maximum_snapshot_age_seconds (bu_metadata bundle)) = Ok true /\
    only_profile binding assignment K_MEMORY (we_memory_environment binding) memory /\
    assess_fit memory (we_admission_capacity binding) (we_host binding) (we_device binding)
      (we_mlx_fit_policy binding) = Ok fit /\ fr_status fit = SAFE /\
    only_profile binding assignment K_COMPUTE_RUN (we_compute_environment binding) compute /\
    pa_measurement compute = ComputeRun m /\ cr_completed m = true /\
    cr_admission_capacity m = we_admission_capacity binding.

Lemma evaluate_memory_clean binding assignment s env s' :
  evaluate_kind bundle manifest workload weight_dtype binding assignment s (K_MEMORY, env) = Ok s' ->
  clean s' ->
  clean s /\ ev_computes s' = ev_computes s /\
  exists a fit, only_profile binding assignment K_MEMORY env a /\
    assess_fit a (we_admission_capacity binding) (we_host binding) (we_device binding)
      (we_mlx_fit_policy binding) = Ok fit /\ fr_status fit = SAFE /\
    ev_identities s' = ev_identities s ++ [pa_artifact_digest a].
Proof.
  unfold evaluate_kind. intros E Hc. apply bind_ok in E as (ps & Hps & E).
  apply bind_ok in E as (ms & Hms & E). destruct ms as [|a [|]].
  1,3: apply Ok_inj in E as <-; apply clean_add_unknown in Hc as [? _]; done.
  simpl in E. unfold use_memory in E. apply bind_ok in E as (fit & Hfit & E). apply Ok_inj in E.
  pose proof (assess_fit_safe_iff _ _ _ _ _ _ Hfit) as Hsafe.
  assert (Hs : fr_status fit = SAFE).
  { destruct (fr_status fit) eqn:Hst; [done| |]; subst s'.
    - apply clean_add_unsafe in Hc as [Hr _]. apply fmap_nil_inv in Hr. by apply Hsafe in Hr.
    - apply clean_add_unknown in Hc as [Hr _]. apply fmap_nil_inv in Hr. by apply Hsafe in Hr. }
  rewrite Hs in E. subst s'. split; [done|]. split; [done|]. exists a, fit.
  split_and!; try done. by exists ps.
Qed.

Lemma evaluate_compute_clean binding assignment s env s' :
  evaluate_kind bundle manifest workload weight_dtype binding assignment s (K_COMPUTE_RUN, env) = Ok s' ->
  clean s' ->
  clean s /\
  exists a m, only_profile binding assignment K_COMPUTE_RUN env a /\
    pa_measurement a = ComputeRun m /\ cr_completed m = true /\
    cr_admission_capacity m = we_admission_capacity binding /\
    ev_computes s' = ev_computes s ++ [a] /\
    ev_identities s' = ev_identities s ++ [pa_artifact_digest a].
Proof.
  unfold evaluate_kind. intros E Hc. apply bind_ok in E as (ps & Hps & E).
  apply bind_ok in E as (ms & Hms & E). destruct ms as [|a [|]].
  1,3: apply Ok_inj in E as <-; apply clean_add_unknown in Hc as [? _]; done.
  simpl in E. apply Ok_inj in E as <-. unfold use_compute in *.
  destruct (pa_measurement a) as [| | | |m] eqn:Hm;
    try (apply clean_add_unknown in Hc as [? _]; done).
  destruct (cr_completed m) eqn:Hcm; simpl in *; [|apply clean_add_unknown in Hc as [? _]; done].
  destruct (cr_admission_capacity m == we_admission_capacity binding) eqn:Hcap; simpl in *;
    [|apply clean_add_unknown in Hc as [? _]; done].
  apply (proj1 (pyeqb_eq _ _)) in Hcap. split; [done|]. exists a, m. split_and!; try done. by exists ps.
Qed.

Lemma evaluate_assignment_clean s assignment s' :
  evaluate_assignment bundle manifest workload weight_dtype s assignment = Ok s' -> clean s' ->
  clean s /\ exists memory compute, stage_evidence assignment memory compute /\
    ev_computes s' = ev_computes s ++ [compute] /\
    ev_identities s' = ev_identities s ++ [pa_artifact_digest memory; pa_artifact_digest compute].
Proof.
  unfold evaluate_assignment. intros E Hc. apply bind_ok in E as (binding & Hb & E).
  apply bind_ok in E as (fresh & Hf & E). apply bind_ok in E as (s1 & H1 & E).
  apply evaluate_compute_clean in E as (Hc1 & a & m & Ha & Hm & Hcm & Hcap & Hcs & Hids); [|done].
  apply evaluate_memory_clean in H1 as (Hc0 & Hcs0 & b & fit & Hfit & Hassess & Hsafe & Hids0); [|done].
  destruct fresh; [|apply clean_add_unknown in Hc0 as [? _]; done].
  split; [done|]. exists b, a. split; [|rewrite Hcs, Hcs0, Hids, Hids0, <- app_assoc; done].
  exists binding, fit, m. split_and!; done.
Qed.

(** The directional evidence of a placement. *)
Definition direction_evidence (assignments : StageAssignment * StageAssignment)
    (d : DirectionEvidence) (l : LinkArtifact) : Prop :=
  let meta := bu_metadata bundle in
  let now := dt_instant (bm_evaluated_at meta) in
  d ∈ bm_directions meta /\ l ∈ bm_links meta /\
  de_source_worker_id d = sa_worker_id assignments.1 /\
  de_target_worker_id d = sa_worker_id assignments.2 /\
  la_artifact_digest l = de_link_digest d /\
  check_link_compatibility l (de_source_probe d) (de_target_probe d)
    (wl_prompt_tokens workload) (wl_output_tokens workload) (mc_hidden_size (mm_config manifest))
    (de_path d) now (bm_maximum_profile_age_seconds meta) = Ok [] /\
  _fresh (dt_instant (pt_observed_at (de_path d))) now (bm_maximum_snapshot_age_seconds meta) = Ok true /\
  _fresh (dt_instant (de_request_setup_measured_at d)) now (bm_maximum_profile_age_seconds meta) = Ok true /\
  lc_concurrent_load (la_content l) = bm_concurrent_load meta.

Lemma evaluate_link_clean d l s s' :
  evaluate_link bundle manifest workload d l s = Ok s' -> clean s' ->
  clean s /\ ev_computes s' = ev_computes s /\
  ev_identities s' = ev_identities s ++ [la_artifact_digest l; de_request_setup_evidence_digest d] /\
  check_link_compatibility l (de_source_probe d) (de_target_probe d)
    (wl_prompt_tokens workload) (wl_output_tokens workload) (mc_hidden_size (mm_config manifest))
    (de_path d) (dt_instant (bm_evaluated_at (bu_metadata bundle)))
    (bm_maximum_profile_age_seconds (bu_metadata bundle)) = Ok [] /\
  _fresh (dt_instant (pt_observed_at (de_path d))) (dt_instant (bm_evaluated_at (bu_metadata bundle)))
    (bm_maximum_snapshot_age_seconds (bu_metadata bundle)) = Ok true /\
  _fresh (dt_instant (de_request_setup_measured_at d)) (dt_instant (bm_evaluated_at (bu_metadata bundle)))
    (bm_maximum_profile_age_seconds (bu_metadata bundle)) = Ok true /\
  lc_concurrent_load (la_content l) = bm_concurrent_load (bu_metadata bundle).
Proof.
  unfold evaluate_link. intros E Hc. apply bind_ok in E as (reasons & Hr & E).
  apply bind_ok in E as (pf & Hpf & E). apply bind_ok in E as (sf & Hsf & E). apply Ok_inj in E as <-.
  apply (clean_add_unknown _ s) in Hc as [Hnil Hc].
  apply app_eq_nil in Hnil as [-> Hnil]. apply app_eq_nil in Hnil as [H1 Hnil].
  apply app_eq_nil in Hnil as [H2 H3]. destruct pf; [|done]. destruct sf; [|done].
  split_and!; try done. unfold reason_if in H2.
  destruct (lc_concurrent_load _ == _) eqn:Hl; [|done]. by apply (proj1 (pyeqb_eq _ _)) in Hl.
Qed.

Lemma gather_evidence_clean assignments s found :
  gather_evidence bundle manifest workload weight_dtype assignments = Ok (s, found) -> clean s ->
  exists memory0 compute0 memory1 compute1 d l,
    stage_evidence assignments.1 memory0 compute0 /\ stage_evidence assignments.2 memory1 compute1 /\
    found = Some (d, l) /\ direction_evidence assignments d l /\
    ev_computes s = [compute0; compute1] /\
    ev_identities s = [pa_artifact_digest memory0; pa_artifact_digest compute0;
                       pa_artifact_digest memory1; pa_artifact_digest compute1;
                       la_artifact_digest l; de_request_setup_evidence_digest d].
Proof.
  unfold gather_evidence. intros E Hc. apply bind_ok in E as (s0 & H0 & E).
  apply bind_ok in E as (s1 & H1 & E).
  destruct (find_direction bundle assignments) as [d|] eqn:Hd;
    [|apply Ok_inj in E; simplify_eq; apply clean_add_unknown in Hc as [? _]; done].
  destruct (find_link bundle d) as [l|] eqn:Hl;
    [|apply Ok_inj in E; simplify_eq; apply clean_add_unknown in Hc as [? _]; done].
  apply bind_ok in E as (s2 & H2 & E). apply Ok_inj in E. simplify_eq.
  apply evaluate_link_clean in H2 as (Hc1 & Hcs & Hids & Hcompat & Hpf & Hsf & Hload); [|done].
  apply evaluate_assignment_clean in H1 as (Hc0 & m1 & c1 & He1 & Hcs1 & Hids1); [|done].
  apply evaluate_assignment_clean in H0 as (_ & m0 & c0 & He0 & Hcs0 & Hids0); [|done].
  exists m0, c0, m1, c1, d, l. rewrite Hcs, Hcs1, Hcs0, Hids, Hids1, Hids0.
  apply find_some_elem in Hd as [Hd Hdw]. apply find_some_elem in Hl as [Hl Hdig].
  apply (proj1 (pyeqb_eq (_, _) _)) in Hdw. apply (proj1 (pyeqb_eq _ _)) in Hdig. simplify_eq/=.
  split_and!; done.
Qed.

(** C14: a placement reported as measured rests on complete evidence and its times
    are exactly the medians of it.  Each stage has a fresh worker snapshot, one and
    only one memory profile in scope, assessed safe, and one and only one complete
    compute run; the pair has a compatible, fresh directional link.  The reported
    time to first token is request setup + both allocations + both prefill steps +
    the boundary exchange, each later token adds its own stage and boundary medians,
    and the estimate names exactly the six artifacts it used. *)
Theorem evaluate_measured_sound assignments status reasons p :
  evaluate bundle manifest workload weight_dtype assignments = Ok (status, reasons, Some p) ->
  status = "measured" /\ reasons = [] /\
  bm_manifest_digest (bu_metadata bundle) = mm_manifest_digest manifest /\
  (bm_workload (bu_metadata bundle) == workload) = true /\
  exists memory0 compute0 memory1 compute1 d l r alloc0 steps0 alloc1 steps1 boundary setup,
    stage_evidence assignments.1 memory0 compute0 /\ stage_evidence assignments.2 memory1 compute1 /\
    direction_evidence assignments d l /\ lc_result (la_content l) = Some r /\
    stage_times workload compute0 = Ok (alloc0, steps0) /\
    stage_times workload compute1 = Ok (alloc1, steps1) /\
    boundary_times workload r = Ok boundary /\
    py_median (de_request_setup_samples_ms d) = Ok setup /\
    (exists s0 s1 b, head steps0 = Some s0 /\ head steps1 = Some s1 /\ head boundary = Some b /\
       pe_boundary_prefill_ms p = b /\
       pe_ttft_ms p = Some (setup + (f0 + alloc0 + alloc1) + (f0 + s0 + s1) + b)%float) /\
    pe_decode_ms p = zip_with fadd (zip_with fadd (fadd f0 <$> tail steps0) (tail steps1)) (tail boundary) /\
    length (pe_decode_ms p) = Z.to_nat (wl_output_tokens workload - 1) /\
    pe_profile_digests p = [pa_artifact_digest memory0; pa_artifact_digest compute0;
                            pa_artifact_digest memory1; pa_artifact_digest compute1;
                            la_artifact_digest l; de_request_setup_evidence_digest d].
Proof.
  unfold evaluate. destruct (_ || _) eqn:Hm; [intros E; by apply Ok_inj in E|]. bool_to_prop.
  intros E. apply bind_ok in E as ([s found] & Hg & E).
  destruct (ev_unsafe s) as [|u us] eqn:Hu, (ev_unknown s) as [|k ks] eqn:Hk, found as [[d' l']|];
    try done; try (by apply Ok_inj in E).
  apply bind_ok in E as (p' & Hp & E). apply Ok_inj in E. simplify_eq.
  apply gather_evidence_clean in Hg as (m0 & c0 & m1 & c1 & d & l & Hs0 & Hs1 & Hf & Hd & Hcs & Hids); [|done].
  simplify_eq. split; [done|]. split; [done|]. split; [done|]. split; [done|].
  apply (estimate_ok _ _ _ _ _ _ _ Hcs) in Hp as (r & a0 & st0 & a1 & st1 & bd & su & Hr & Ht0 & Ht1 & Hb & Hs & Hrest).
  exists m0, c0, m1, c1, d, l, r, a0, st0, a1, st1, bd, su. rewrite <- Hids. tauto.
Qed.
End soundness.

(** ** Complete evidence always yields an estimate *)

(** What validation and loading establish of a bundle. *)
Definition bundle_valid `{Hash} (b : Bundle) : Prop :=
  BundleMetadata_fields (bu_metadata b) = true /\ storage_fields (bu_storage b) = true.

Lemma validate_ProfileArtifact_ok `{Hash} a a' : validate_ProfileArtifact a = Ok a' ->
  a' = a /\ ProfileArtifact_fields a = true /\ verify a = Ok tt.
Proof.
  unfold validate_ProfileArtifact, fields_ok. intros E. apply bind_ok in E as (? & Hf & E).
  apply bind_ok in E as ([] & Hv & E). apply Ok_inj in E as <-. inv_ok. by bool_to_prop.
Qed.

Lemma profiles_for_valid `{Hash} b assignment profiles a :
  storage_fields (bu_storage b) = true -> profiles_for b assignment = Ok profiles -> a ∈ profiles ->
  ProfileArtifact_fields a = true /\ verify a = Ok tt.
Proof.
  unfold storage_fields, profiles_for. intros Hs Hp Ha. destruct (bu_storage b) as [ps|refs dir].
  - apply Ok_inj in Hp as <-. apply elem_of_filterb in Ha as [_ Ha]. apply forallb_Forall in Hs.
    rewrite Forall_forall in Hs. apply Hs in Ha. apply is_ok_spec in Ha as [a' Ha].
    by apply validate_ProfileArtifact_ok in Ha as [_ ?].
  - apply mapM_ok in Hp. apply list_elem_of_lookup in Ha as [i Hi].
    destruct (Forall2_lookup_r _ _ _ _ _ Hp Hi) as (r & _ & Hr). unfold load_profile in Hr.
    destruct dir as [read|]; [|done]. apply bind_ok in Hr as (raw & _ & Hr).
    apply bind_ok in Hr as (p & Hv & Hr). apply bind_ok in Hr as (? & _ & Hr). apply Ok_inj in Hr as ->.
    by apply validate_ProfileArtifact_ok in Hv as [-> ?].
Qed.

Lemma workload_eq_tokens (a b : WorkloadProfile) :
  (a == b) = true -> wl_output_tokens a = wl_output_tokens b.
Proof. unfold pyeqb at 1, pyeq_WorkloadProfile. intros. bool_to_prop. done. Qed.

Lemma only_profile_spec `{Hash} b manifest workload weight binding assignment kind env a :
  only_profile b manifest workload weight binding assignment kind env a ->
  (exists profiles, profiles_for b assignment = Ok profiles /\ a ∈ profiles) /\
  (pk_workload (pa_key a) == workload) = true.
Proof.
  intros (ps & Hps & Hf). destruct (proj1 (filterM_ok _ _ _ Hf a)) as [Hin Hm]; [apply list_elem_of_here|].
  split; [by exists ps|]. unfold profile_matches in Hm.
  match type of Hm with (if ?c then _ else _) = _ => destruct c eqn:Hc; [|done] end.
  by rewrite !andb_true_iff in Hc; destruct_and?.
Qed.

Lemma valid_key_workload `{Hash} k : is_ok (validate_ProfileKey k) = true ->
  (0 < wl_output_tokens (pk_workload k))%Z /\ (0 < prefill_chunks (pk_workload k))%Z.
Proof.
  intros Hkey. apply is_ok_spec in Hkey as [k' Hk].
  unfold validate_ProfileKey, fields_ok, ProfileKey_fields in Hk.
  apply bind_ok in Hk as (? & Hk & _). inv_ok. apply negb_false_iff in Hk.
  rewrite !andb_true_iff in Hk. destruct Hk as [_ Hk]. apply is_ok_spec in Hk as [w Hk].
  unfold validate_WorkloadProfile, fields_ok, WorkloadProfile_fields in Hk.
  apply bind_ok in Hk as (? & Hk & _). inv_ok. apply negb_false_iff in Hk.
  unfold prefill_chunks. unfold PositiveInt, NonNegativeInt in Hk. bool_to_prop.
  split; [lia|]. case_match; [lia|]. unfold pyeqb, pyeq_Z in *. bool_to_prop.
  assert (- wl_prompt_tokens (pk_workload k) / wl_prefill_chunk_tokens (pk_workload k) < 0)%Z; [|lia].
  apply Z.div_lt_upper_bound; lia.
Qed.

(** ** Rows of a complete, validated compute run *)
Section complete_run.
Context `{Hash} (a : ProfileArtifact) (m : ComputeRunMeasurement)
  (Hfields : ProfileArtifact_fields a = true) (Hverify : verify a = Ok tt)
  (Hrun : pa_measurement a = ComputeRun m) (Hdone : cr_completed m = true).

Lemma run_fields : forallb TimingRecord_fields (cr_records m) = true /\
  is_ok (validate_ProfileKey (pa_key a)) = true /\
  (0 <= cd_warmup_cycles (pa_conditions a) < run_cycles (pa_conditions a))%Z.
Proof.
  unfold ProfileArtifact_fields in Hfields. rewrite Hrun, !andb_true_iff in Hfields.
  destruct Hfields as [[[[_ Hkey] Hcond] Hm] _]. simpl in Hm. unfold ComputeRunMeasurement_fields in Hm.
  rewrite !andb_true_iff in Hm. destruct Hm as [[_ Hrec] _].
  unfold Conditions_fields, NonNegativeInt, PositiveInt in Hcond.
  rewrite !andb_true_iff in Hcond. destruct Hcond as [[Hwarm Hmeas] _].
  split; [done|]. split; [done|]. unfold run_cycles. bool_to_prop. lia.
Qed.

Lemma measured_row id step chunk :
  (cd_warmup_cycles (pa_conditions a), WHOLE_STAGE, step, chunk, (id, None)) ∈
    expected_run (pa_key a) (run_cycles (pa_conditions a)) ->
  exists r, r ∈ stage_rows a m /\ ti_component r = id /\ ti_step r = step.
Proof.
  intros Hin. destruct run_fields as (Hrec & _ & _).
  unfold verify in Hverify. rewrite Hrun in Hverify. revert Hverify. intros Hv.
  do 4 (apply bind_ok in Hv as (? & _ & Hv)). rewrite Hdone in Hv.
  rewrite <- (compute_run_records _ _ _ Hv Hrec) in Hin.
  apply list_elem_of_fmap in Hin as (r & Hr & Hin).
  unfold run_identity, row_key, row_identity in Hr. simplify_eq. exists r. split; [|done].
  apply elem_of_filterb. split; [|done]. rewrite andb_true_iff. split; [apply Z.leb_le; lia|].
  destruct (ti_timing_mode r); done.
Qed.

Lemma stage_rows_ge0 p : Forall (fun x => fle f0 x = true)
  (ti_milliseconds <$> List.filter p (stage_rows a m)).
Proof.
  destruct run_fields as (Hrec & _ & _). apply Forall_fmap, Forall_forall.
  intros r [_ [_ Hr]%elem_of_filterb]%elem_of_filterb.
  apply forallb_Forall in Hrec. rewrite Forall_forall in Hrec. specialize (Hrec r Hr).
  simpl in Hrec |- *. unfold TimingRecord_fields, Milliseconds in Hrec. rewrite !andb_true_iff in Hrec. tauto.
Qed.

(** A median over rows of which at least one exists. *)
Lemma stage_median p r : r ∈ stage_rows a m -> p r = true ->
  exists x, py_median (ti_milliseconds <$> List.filter p (stage_rows a m)) = Ok x.
Proof.
  intros Hr Hp. destruct (py_median_ge0 (ti_milliseconds <$> List.filter p (stage_rows a m))) as (x & Hx & _).
  - intros E%fmap_nil_inv. assert (r ∈ List.filter p (stage_rows a m)) as Hin by by apply elem_of_filterb.
    rewrite E in Hin. by apply not_elem_of_nil in Hin.
  - apply stage_rows_ge0.
  - by exists x.
Qed.

Lemma stage_times_total workload : (pk_workload (pa_key a) == workload) = true ->
  exists alloc steps, stage_times workload a = Ok (alloc, steps).
Proof.
  intros Hw%workload_eq_tokens. unfold stage_times. rewrite Hrun.
  destruct run_fields as (_ & Hkey & Hcycles). destruct (valid_key_workload _ Hkey) as [Hout Hchunks].
  pose proof (fun step Hs => expected_run_step (pa_key a) _ _ WHOLE_STAGE step Hcycles Hs Hchunks) as Hstep.
  destruct (Hstep 0%Z) as (chunk & _ & Halloc); [lia|]. specialize (Halloc eq_refl).
  apply measured_row in Halloc as (r & Hr & Hid & _).
  destruct (stage_median (fun r => ti_component r == C_SEQUENCE_ALLOCATION) r Hr) as [alloc ->];
    [by apply pyeqb_eq|]. simpl.
  assert (exists steps, mapM (fun step => py_median (ti_milliseconds <$>
      List.filter (fun r => (ti_component r == C_STAGE) && (ti_step r == step)) (stage_rows a m)))
    (py_range 0 (wl_output_tokens workload)) = Ok steps) as [steps ->]; [|by exists alloc, steps].
  apply mapM_total. apply Forall_forall. intros step Hs%elem_of_py_range.
  destruct (Hstep step) as (chunk' & Hin & _); [lia|]. apply measured_row in Hin as (r' & Hr' & Hid' & <-).
  apply (stage_median _ r'); [done|]. simpl. rewrite Hid', pyeqb_refl. apply (pyeqb_refl (ti_step r')).
Qed.
End complete_run.

(** ** Boundary exchanges of a validated link *)

Lemma boundary_times_total workload r :
  LinkResult_fields r = true -> complete_samples r = Ok tt ->
  lr_output_tokens r = wl_output_tokens workload ->
  exists boundary, boundary_times workload r = Ok boundary /\
    Forall (fun x => fle f0 x = true) boundary.
Proof.
  intros Hf Hc Ho. unfold LinkResult_fields, between in Hf. rewrite !andb_true_iff in Hf.
  destruct Hf as [[[[[[_ Hs] _] _] _] [Hw _]] [Hm _]]. apply Z.leb_le in Hw, Hm.
  unfold complete_samples in Hc. do 2 (apply bind_ok in Hc as (? & _ & Hc)).
  apply bind_ok in Hc as (? & He & _). inv_ok. apply negb_false_iff in He.
  apply (proj1 (pyeqb_eq _ _)) in He.
  assert (Hex : Forall (fun step => exists x, (fun step => py_median
      ((fun s => (ls_sender_encode_ms s + ls_round_trip_ms s)%float) <$>
        List.filter (fun s => (lr_warmup_cycles r <=? ls_cycle s)%Z && (ls_step s == step)) (lr_samples r)))
      step = Ok x /\ fle f0 x = true) (py_range 0 (wl_output_tokens workload))).
  { apply Forall_forall. intros step Hstep%elem_of_py_range. apply py_median_ge0.
    - intros E%fmap_nil_inv.
      assert ((lr_warmup_cycles r, step) ∈ expected_exchanges (lr_warmup_cycles r + lr_measured_cycles r)
                (lr_output_tokens r)) as Hin.
      { unfold expected_exchanges. apply list_elem_of_bind. exists (lr_warmup_cycles r). split; [|apply elem_of_py_range; lia].
        apply list_elem_of_bind. exists step. split; [apply list_elem_of_singleton; reflexivity|].
        apply elem_of_py_range. lia. }
      rewrite <- He in Hin. apply list_elem_of_fmap in Hin as (s & [= Hcy Hst] & Hin).
      apply (not_elem_of_nil s). rewrite <- E. apply elem_of_filterb. split; [|done].
      rewrite <- Hst, pyeqb_refl, andb_true_r. apply Z.leb_le. lia.
    - apply Forall_fmap, Forall_forall. intros s [_ Hin]%elem_of_filterb. apply forallb_Forall in Hs.
      rewrite Forall_forall in Hs. specialize (Hs s Hin). simpl in Hs |- *.
      unfold LinkSample_fields, Milliseconds in Hs. rewrite !andb_true_iff in Hs. apply fadd_ge0; tauto. }
  destruct (mapM_total _ _ (Forall_impl _ _ _ Hex (fun step H => let '(ex_intro _ x (conj E _)) := H in
    ex_intro _ x E))) as [boundary Hb]. exists boundary. split; [exact Hb|].
  apply mapM_ok in Hb. apply Forall_forall. rewrite Forall_forall in Hex. intros z [i Hi]%list_elem_of_lookup.
  destruct (Forall2_lookup_r _ _ _ _ _ Hb Hi) as (step & Hstep & Hx).
  destruct (Hex step) as (y & Hy & Hpos); [by eapply list_elem_of_lookup_2|].
  simpl in Hy. rewrite Hx in Hy. by apply Ok_inj in Hy as <-.
Qed.

(** ** The estimate of complete evidence *)

Lemma add_stage_total workload components steps allocation a alloc per_step :
  stage_times workload a = Ok (alloc, per_step) -> (0 < wl_output_tokens workload)%Z ->
  length steps = Z.to_nat (wl_output_tokens workload) ->
  exists t, add_stage workload (components, steps, allocation) a = Ok t /\
    length t.1.2 = Z.to_nat (wl_output_tokens workload).
Proof.
  intros Ht Hpos Hl. pose proof (stage_times_length _ _ _ _ Ht) as Hp. unfold add_stage. rewrite Ht.
  cbn [mbind result_bind].
  rewrite (proj2 (zip_add_ok steps per_step _)) by (split; [congruence|reflexivity]).
  destruct per_step as [|x per_step]; [simpl in Hp; lia|]. eexists. split; [reflexivity|].
  cbn [fst snd]. rewrite length_zip_with, Hl, Hp. lia.
Qed.

Lemma validate_LinkArtifact_result `{Hash} l a' r :
  validate_LinkArtifact l = Ok a' -> lc_result (la_content l) = Some r ->
  LinkResult_fields r = true /\ complete_samples r = Ok tt.
Proof.
  unfold validate_LinkArtifact, validate_LinkContent, fields_ok. intros E Hr.
  apply bind_ok in E as (? & E & _). apply bind_ok in E as (? & Hf & _). inv_ok.
  apply negb_false_iff in Hf. unfold LinkContent_fields in Hf. rewrite Hr, !andb_true_iff in Hf.
  destruct Hf as [_ Hf]. simpl in Hf. apply is_ok_spec in Hf as [r' Hf].
  unfold validate_LinkResult, fields_ok in Hf. apply bind_ok in Hf as (? & Hf & E').
  apply bind_ok in E' as ([] & E' & _). inv_ok. by apply negb_false_iff in Hf.
Qed.

Lemma DirectionEvidence_setup `{Hash} d : DirectionEvidence_fields d = true ->
  exists setup, py_median (de_request_setup_samples_ms d) = Ok setup.
Proof.
  unfold DirectionEvidence_fields. rewrite !andb_true_iff. intros Hf.
  destruct Hf as [[[[[[[_ Hms] Hlen] _] _] _] _] _]. apply Nat.leb_le in Hlen.
  destruct (py_median_ge0 (de_request_setup_samples_ms d)) as (x & Hx & _); [| |by exists x].
  - intros E. rewrite E in Hlen. simpl in Hlen. lia.
  - apply forallb_Forall in Hms. eapply Forall_impl; [exact Hms|]. intros x Hx.
    unfold Milliseconds in Hx. by rewrite andb_true_iff in Hx; destruct Hx.
Qed.

Lemma estimate_total `{Hash} workload d l s c0 c1 r a0 p0 a1 p1 boundary setup :
  ev_computes s = [c0; c1] -> lc_result (la_content l) = Some r ->
  (0 < wl_output_tokens workload)%Z ->
  stage_times workload c0 = Ok (a0, p0) -> stage_times workload c1 = Ok (a1, p1) ->
  boundary_times workload r = Ok boundary -> Forall (fun x => fle f0 x = true) boundary ->
  py_median (de_request_setup_samples_ms d) = Ok setup ->
  exists p, estimate workload d l s = Ok p.
Proof.
  intros Hcs Hr Hpos H0 H1 Hb Hbpos Hsu. unfold estimate. rewrite Hcs, Hr. cbn [add_stages mbind result_bind].
  destruct (add_stage_total workload [] (replicate (Z.to_nat (wl_output_tokens workload)) f0) f0 c0 _ _ H0 Hpos)
    as ([[k0 st0] al0] & -> & Hl0); [by rewrite length_replicate|]. simpl in Hl0. cbn [mbind result_bind].
  destruct (add_stage_total workload k0 st0 al0 c1 _ _ H1 Hpos Hl0) as ([[k1 st1] al1] & -> & Hl1).
  simpl in Hl1. cbn [mbind result_bind]. rewrite Hb.
  cbn [mbind result_bind]. rewrite Hsu. cbn [mbind result_bind].
  assert (Hlb : length boundary = Z.to_nat (wl_output_tokens workload)).
  { apply mapM_ok_length in Hb. rewrite Hb, length_py_range. f_equal. lia. }
  destruct boundary as [|b bs]; [simpl in Hlb; lia|]. destruct st1 as [|x xs]; [simpl in Hl1; lia|].
  cbn [py_head mbind result_bind tail].
  rewrite (proj2 (zip_add_ok xs bs _)) by (split; [simpl in *; lia|reflexivity]).
  cbn [mbind result_bind]. apply Forall_cons in Hbpos as [Hb0 Hbs].
  assert (exists bd, match bs with [] => Ok f0 | _ => py_median bs end = Ok bd /\ fle f0 bd = true)
    as (bd & Hbd & Hbd0).
  { destruct bs as [|b' bs]; [by exists f0|]. by apply py_median_ge0. }
  assert (match bs with [] => Ok f0 | z :: zs => py_median (z :: zs) end = Ok bd) as ->
    by (by destruct bs).
  cbn [mbind result_bind]. unfold fields_ok, PerformanceEstimate_fields, NonNegativeFloat.
  cbn [pe_boundary_prefill_ms pe_boundary_decode_ms]. rewrite Hb0, Hbd0. eexists. reflexivity.
Qed.

(** Evaluation of a validated bundle never fails for want of samples: once the
    evidence has been gathered, there is a result, and it is a measured one as soon
    as no reason was found against the placement.  In particular no median is taken
    of an empty list and no assertion fails. *)
Lemma evaluate_total `{Hash} bundle manifest workload weight assignments s found :
  bundle_valid bundle ->
  gather_evidence bundle manifest workload weight assignments = Ok (s, found) ->
  exists status reasons performance,
    evaluate bundle manifest workload weight assignments = Ok (status, reasons, performance) /\
    (bm_manifest_digest (bu_metadata bundle) = mm_manifest_digest manifest ->
     (bm_workload (bu_metadata bundle) == workload) = true ->
     ev_unknown s = [] -> ev_unsafe s = [] -> status = "measured").
Proof.
  intros [Hmeta Hstore] Hg. unfold evaluate. rewrite Hg.
  destruct (_ || _) eqn:Hm.
  { eexists _, _, _. split; [reflexivity|]. intros Hd Hw. rewrite Hd, Hw, pyeqb_refl in Hm. done. }
  cbn [mbind result_bind].
  destruct (ev_unsafe s) as [|u us] eqn:Hu, (ev_unknown s) as [|k ks] eqn:Hk;
    [|destruct found as [[??]|]; eexists _, _, _; (split; [reflexivity|done])..].
  apply gather_evidence_clean in Hg as (m0 & c0 & m1 & c1 & d & l & He0 & He1 & -> & Hd & Hcs & _); [|done].
  assert (Hst : forall assignment mem c, stage_evidence bundle manifest workload weight assignment mem c ->
    exists alloc steps, stage_times workload c = Ok (alloc, steps) /\ (0 < wl_output_tokens workload)%Z).
  { intros assignment mem c (binding & fit & m & _ & _ & _ & _ & _ & Ho & Hrun & Hdone & _).
    apply only_profile_spec in Ho as ((ps & Hps & Hin) & Hw).
    destruct (profiles_for_valid _ _ _ _ Hstore Hps Hin) as [Hf Hv].
    destruct (stage_times_total c m Hf Hv Hrun Hdone workload Hw) as (al & st & Ht). exists al, st.
    split; [done|]. destruct (run_fields c m Hf Hrun) as (_ & Hkey & _).
    apply valid_key_workload in Hkey as [Hpos _]. by apply workload_eq_tokens in Hw as <-. }
  destruct (Hst _ _ _ He0) as (a0 & p0 & Ht0 & Hpos). destruct (Hst _ _ _ He1) as (a1 & p1 & Ht1 & _).
  destruct Hd as (Hdin & Hlin & _ & _ & _ & (r & ? & ? & _ & Hr & _ & _ & _ & Hout & _)%link_compatible_iff & _).
  unfold BundleMetadata_fields in Hmeta. rewrite !andb_true_iff in Hmeta.
  destruct Hmeta as [[[[[[[_ Hlinks] Hdirs] _] _] _] _] _].
  apply forallb_Forall in Hlinks, Hdirs. rewrite Forall_forall in Hlinks. rewrite Forall_forall in Hdirs.
  specialize (Hlinks l Hlin). apply is_ok_spec in Hlinks as [l' Hl'].
  destruct (validate_LinkArtifact_result _ _ _ Hl' Hr) as [Hrf Hrc].
  destruct (boundary_times_total workload r Hrf Hrc Hout) as (boundary & Hb & Hbpos).
  destruct (DirectionEvidence_setup d (Hdirs d Hdin)) as [setup Hsetup].
  destruct (estimate_total workload d l s c0 c1 r a0 p0 a1 p1 boundary setup) as [p ->]; try done.
  eexists _, _, _. split; [reflexivity|done].
Qed.

(** ** Sealed bundles *)

Lemma validate_Bundle_ok `{Hash} b b' : validate_Bundle b = Ok b' -> b' = b.
Proof.
  unfold validate_Bundle. intros E. do 3 (apply bind_ok in E as (? & _ & E)). by apply Ok_inj in E.
Qed.

Lemma load_profile_ok `{Hash} read ref p : load_profile (Some read) ref = Ok p ->
  pa_artifact_digest p = rf_artifact_digest ref /\ pk_assignment (pa_key p) = rf_assignment ref /\
  verify p = Ok tt.
Proof.
  unfold load_profile. intros E. apply bind_ok in E as (raw & _ & E).
  apply bind_ok in E as (p' & Hv & E). apply bind_ok in E as (? & Hm & E). apply Ok_inj in E as ->.
  apply validate_ProfileArtifact_ok in Hv as (-> & _ & Hv). inv_ok. bool_to_prop. done.
Qed.


(** ** A concrete bundle

    Two CPU workers, a two-layer model, two output tokens: the placement
    alpha -> beta has complete evidence, the reverse has none. *)
Module MeasuredDemo.
Import ProfilesDemo FitDemo.

#[local] Instance demo_hash : Hash := fun _ => demo_digest.
#[local] Instance demo_hash_laws : HashLaws.
Proof. intros s. reflexivity. Qed.

Definition demo_workload : WorkloadProfile := {|
  wl_schema_version := "1.0"; wl_workload_id := "w"; wl_prompt_tokens := 2;
  wl_output_tokens := 2; wl_concurrency := 1; wl_total_cached_tokens := 4;
  wl_kv_overhead_factor := one; wl_kv_dtype := F32; wl_activation_dtype := F16;
  wl_prefill_chunk_tokens := 0 |}.

Definition demo_manifest : ModelManifest := {|
  mm_schema_version := "1.1"; mm_manifest_id := "demo"; mm_manifest_digest := demo_digest;
  mm_source := {| sd_model_id := "demo"; sd_revision := None; sd_config_sha256 := "c";
                  sd_index_sha256 := None; sd_tensor_metadata_sha256 := None |};
  mm_architecture := {| ad_architecture_id := "llama-v1"; ad_architecture_revision := "1";
                        ad_feature_flags := [] |};
  mm_config := {| mc_hidden_size := 8; mc_intermediate_size := 16; mc_num_layers := 2;
    mc_num_attention_heads := 2; mc_num_kv_heads := 1; mc_head_dim := 4;
    mc_vocabulary_size := 16; mc_maximum_sequence_length := 64; mc_tied_embeddings := true;
    mc_rms_norm_eps := literal 1 100000; mc_rope_theta := literal 10000 1; mc_rope_scaling := None;
    mc_hidden_activation := "silu"; mc_attention_bias := false; mc_mlp_bias := false;
    mc_eos_token_ids := [] |};
  mm_tensor_files := []; mm_tensors := []; mm_components := []; mm_total_storage_bytes := 0 |}.

Definition demo_assignments : StageAssignment * StageAssignment := assignments_for "alpha" "beta" 1 2.

Definition demo_key (assignment : StageAssignment) : ProfileKey := {|
  pk_manifest_digest := demo_digest; pk_checkpoint_digest := demo_digest;
  pk_environment := demo_environment; pk_assignment := assignment; pk_workload := demo_workload;
  pk_workload_digest := demo_digest; pk_execution_dtype := F32; pk_weight_dtype := None;
  pk_transport_mode := PAGEABLE; pk_input_kind := SYNTHETIC_SHAPE; pk_input_digest := demo_digest |}.

(** One record per expected row, of one millisecond; a stage total is the number
    of its components. *)
Definition demo_rows (key : ProfileKey) : list TimingRecord :=
  (fun '(cycle, mode, step, chunk, (component, layer)) => {|
     ti_cycle := cycle; ti_step := step; ti_context_tokens := if (step =? 0)%Z then 0 else (1 + step)%Z;
     ti_phase := if (step =? 0)%Z then EXEC_PREFILL else EXEC_DECODE; ti_component := component;
     ti_layer_index := layer; ti_timing_mode := mode;
     ti_milliseconds :=
       match component, mode with
       | C_STAGE, COMPONENT_SYNCHRONIZED =>
         py_fsum (replicate (length (List.filter
           (fun '(c, _) => negb (py_in c [C_STAGE; C_SEQUENCE_ALLOCATION]))
           (expected_rows key mode step chunk))) one)
       | _, _ => one
       end;
     ti_chunk_index := chunk |}) <$> expected_run key 1.

Definition demo_compute (assignment : StageAssignment) : ProfileArtifact :=
  let key := demo_key assignment in {|
  pa_schema_version := "1.1"; pa_profiler_version := "0.2.0"; pa_key := key;
  pa_conditions := demo_conditions;
  pa_measurement := ComputeRun {|
    cr_admission_capacity := demo_cap; cr_records := demo_rows key;
    cr_identical_output_cycles := [0]%Z; cr_completed := true; cr_error := None |};
  pa_artifact_digest := demo_digest |}.

Definition memory_sample (phase : MemoryPhase) : MemorySample :=
  let loaded := negb (py_in phase [BASELINE; UNLOAD]) in
  let running := py_in phase [ALLOCATE; PREFILL; DECODE] in {|
  ms_cycle := 0; ms_phase := phase;
  ms_weights := if loaded then {| ma_host := 600; ma_device := 0; ma_pinned := 0; ma_unified := 0 |}
                else no_memory;
  ms_cache := if running then {| ma_host := 100; ma_device := 0; ma_pinned := 0; ma_unified := 0 |}
              else no_memory;
  ms_workspace := no_memory; ms_allocator := None; ms_rss_bytes := Some 900%Z;
  ms_rss_lifetime_peak_bytes := Some 1000%Z; ms_device_available_bytes := None;
  ms_completed_steps := 2; ms_process_memory := None |}.

Definition demo_memory_profile (assignment : StageAssignment) : ProfileArtifact := {|
  pa_schema_version := "1.0"; pa_profiler_version := "0.1.0"; pa_key := demo_key assignment;
  pa_conditions := demo_conditions;
  pa_measurement := Memory {|
    mem_admission_capacity := demo_cap; mem_samples := memory_sample <$> MEMORY_PHASES;
    mem_physical_samples := []; mem_physical_sample_interval_seconds := one;
    mem_completed := true; mem_error := None |};
  pa_artifact_digest := demo_digest |}.

Definition demo_worker (id : string) : WorkerProfile := {|
  wp_schema_version := "1.0"; wp_worker_id := id; wp_endpoint := "127.0.0.1:1";
  wp_backend := CPU; wp_primary_memory_domain := HOST;
  wp_supported_architectures := ["llama-v1"]; wp_supported_execution_dtypes := [F32];
  wp_supports_mixed_precision := false;
  wp_memory_budgets := [{| mb_domain := HOST; mb_capacity_bytes := 100000;
                           mb_runtime_reserve_bytes := 0; mb_safety_fraction := f0 |}];
  wp_fixed_workspace_bytes := 16; wp_activation_buffer_count := 1;
  wp_allocator_allowance_fraction := f0; wp_host_transport_buffer_bytes := 64;
  wp_provenance := PROV_CONFIGURED; wp_observed_available_host_bytes := None;
  wp_observed_at := None |}.

Definition demo_time : AwareDatetime := {| dt_instant := 0; dt_text := "1970-01-01T00:00:00Z" |}.

Definition demo_evidence (id : string) : WorkerEvidence := {|
  we_worker := demo_worker id; we_memory_environment := demo_environment;
  we_compute_environment := demo_environment; we_runtime_device_identity := "cpu-0";
  we_runtime_driver_version := "not-applicable"; we_runtime_binary_digest := demo_digest;
  we_admission_capacity := demo_cap; we_host := demo_budget; we_device := None;
  we_mlx_fit_policy := CONSERVATIVE; we_observed_at := demo_time; we_transport_mode := PAGEABLE |}.

Definition demo_probe (id : string) : ProbeIdentity := {|
  pi_worker_id := id; pi_binary_digest := demo_digest; pi_source_revision := "r"; pi_compiler := "cc";
  pi_grpc_version := "1"; pi_protobuf_version := "1"; pi_host := id; pi_os := "linux";
  pi_endpoint := "127.0.0.1:1" |}.

Definition demo_path : PathObservation := {|
  pt_observed_at := demo_time;
  pt_route := {| ro_kind := LOOPBACK; ro_source_ip := "127.0.0.1"; ro_target_ip := "127.0.0.1";
    ro_peer_id := "self"; ro_connection_type := PATH_DIRECT; ro_endpoint := "127.0.0.1";
    ro_online := true |};
  pt_evidence := "loopback" |}.

Definition demo_exchange (step : Z) : LinkSample := {|
  ls_cycle := 0; ls_step := step; ls_payload_bytes := if (step =? 0)%Z then 32 else 16;
  ls_message_bytes := 100; ls_feedback_bytes := 10; ls_sender_encode_ms := one;
  ls_round_trip_ms := one |}.

Definition demo_link : LinkArtifact := {|
  la_content := {|
    lc_measured_at := demo_time; lc_finished_at := demo_time; lc_concurrent_load := "idle";
    lc_source_endpoint := "127.0.0.1:1"; lc_target_endpoint := "127.0.0.1:2";
    lc_path_sample_interval_seconds := one; lc_paths := [demo_path; demo_path];
    lc_result := Some {| lr_source := demo_probe "alpha"; lr_target := demo_probe "beta";
      lr_channel_ready_ms := one;
      lr_streams := [{| ss_cycle := 0; ss_setup_ms := one; ss_teardown_ms := one |}];
      lr_samples := [demo_exchange 0; demo_exchange 1]; lr_prompt_tokens := 2; lr_hidden_size := 8;
      lr_output_tokens := 2; lr_warmup_cycles := 0; lr_measured_cycles := 1 |};
    lc_completed := true; lc_qualified := true; lc_error := None |};
  la_artifact_digest := demo_digest |}.

Definition demo_direction : DirectionEvidence := {|
  de_source_worker_id := "alpha"; de_target_worker_id := "beta"; de_source_probe := demo_probe "alpha";
  de_target_probe := demo_probe "beta"; de_path := demo_path; de_link_digest := demo_digest;
  de_request_setup_samples_ms := replicate 5 one;
  de_request_setup_raw := replicate 5 {| rq_client_ttft_ms := literal 3 1;
    rq_native_ttft_ms := literal 3 1; rq_native_setup_ms := one |};
  de_request_setup_evidence_digest := demo_digest; de_request_setup_method := "client";
  de_request_setup_measured_at := demo_time |}.

Definition demo_bundle : Bundle := {|
  bu_metadata := {|
    bm_manifest_digest := demo_digest; bm_checkpoint_digest := demo_digest;
    bm_workload := demo_workload; bm_workers := [demo_evidence "alpha"; demo_evidence "beta"];
    bm_links := [demo_link]; bm_directions := [demo_direction]; bm_evaluated_at := demo_time;
    bm_maximum_profile_age_seconds := literal 86400 1;
    bm_maximum_snapshot_age_seconds := literal 60 1; bm_concurrent_load := "idle";
    bm_input_kind := SYNTHETIC_SHAPE; bm_input_digest := demo_digest |};
  bu_storage := InMemory [demo_memory_profile demo_assignments.1; demo_compute demo_assignments.1;
                          demo_memory_profile demo_assignments.2; demo_compute demo_assignments.2];
  bu_bundle_digest := demo_digest |}.

Definition demo_result : result (string * list string * option PerformanceEstimate) :=
  Eval vm_compute in evaluate demo_bundle demo_manifest demo_workload None demo_assignments.

(** The same bundle on disk. *)
Definition demo_references : list ProfileReference :=
  [{| rf_artifact_digest := demo_digest; rf_assignment := demo_assignments.1 |}].

Definition demo_disk : result Bundle :=
  seal_disk_bundle (bu_metadata demo_bundle) demo_references
    (fun _ => Ok (demo_memory_profile demo_assignments.1)).


Definition demo_estimate : option PerformanceEstimate :=
  Eval vm_compute in match demo_result with Ok (_, _, p) => p | Err _ => None end.

Lemma demo_evaluates :
  evaluate demo_bundle demo_manifest demo_workload None demo_assignments
  = Ok ("measured", [], demo_estimate).
Proof. vm_compute. reflexivity. Qed.

Lemma evaluate_measured_sound_witness :
  exists p r boundary b, demo_estimate = Some p /\ lc_result (la_content demo_link) = Some r /\
    boundary_times demo_workload r = Ok boundary /\ head boundary = Some b /\
    pe_boundary_prefill_ms p = b.
Proof.
  destruct (evaluate_measured_sound demo_bundle demo_manifest demo_workload None demo_assignments _ _ _
              demo_evaluates) as (_ & _ & _ & _ & m0 & c0 & m1 & c1 & d & l & r & a0 & s0 & a1 & s1 & bd & su
              & _ & _ & Hd & Hr & _ & _ & Hb & _ & (x0 & x1 & b & _ & _ & Hhead & Hbp & _) & _).
  destruct Hd as (_ & Hl & _). apply list_elem_of_singleton in Hl. subst l.
  eexists _, r, bd, b. split; [reflexivity|]. exact (conj Hr (conj Hb (conj Hhead Hbp))).
Defined.

Definition demo_gathered : result (Evidence * option (DirectionEvidence * LinkArtifact)) :=
  gather_evidence demo_bundle demo_manifest demo_workload None demo_assignments.

Lemma demo_gathers : exists s found, demo_gathered = Ok (s, found) /\
  ev_unknown s = [] /\ ev_unsafe s = [].
Proof. eexists _, _. split; [vm_compute; reflexivity|]. split; reflexivity. Qed.

Lemma demo_bundle_valid : bundle_valid demo_bundle.
Proof. split; vm_compute; reflexivity. Qed.

Lemma evaluate_total_witness : exists performance,
  evaluate demo_bundle demo_manifest demo_workload None demo_assignments
  = Ok ("measured", [], performance).
Proof.
  destruct demo_gathers as (s & found & Hg & Hu & Hs).
  destruct (evaluate_total demo_bundle demo_manifest demo_workload None demo_assignments s found
              demo_bundle_valid Hg) as (status & reasons & performance & He & Hm).
  specialize (Hm eq_refl eq_refl Hu Hs). subst status. exists performance. rewrite He.
  rewrite demo_evaluates in He. apply Ok_inj in He. injection He as <- <-. reflexivity.
Defined.

Definition demo_settings : PlannerSettings := {|
  ps_mode := MEASURED; ps_execution_dtype := F32; ps_weight_dtype := None;
  ps_objective_weights := default_weights |}.

Lemma demo_plan_feasible : exists report c, 
  create_plan demo_manifest [demo_worker "alpha"; demo_worker "beta"] [] demo_workload
    (Some demo_settings) (Some demo_bundle) = Ok report /\
  c ∈ pr_candidates report /\ pc_feasible c = true.
Proof.
  assert (Hf : match create_plan demo_manifest [demo_worker "alpha"; demo_worker "beta"] [] demo_workload
      (Some demo_settings) (Some demo_bundle) with
    | Ok report => pc_feasible <$> pr_candidates report | Err _ => [] end = [true; false])
    by (vm_compute; reflexivity).
  destruct (create_plan _ _ _ _ _ _) as [report|e]; [|discriminate Hf].
  destruct (pr_candidates report) as [|c rest] eqn:Hc; [discriminate Hf|].
  injection Hf as Hf _. exists report, c. rewrite Hc. split; [reflexivity|].
  split; [apply list_elem_of_here|exact Hf].
Qed.

Lemma measured_candidates_evidenced_witness : exists report c,
  create_plan demo_manifest [demo_worker "alpha"; demo_worker "beta"] [] demo_workload
    (Some demo_settings) (Some demo_bundle) = Ok report /\
  c ∈ pr_candidates report /\ pc_measurement_status c = Some "measured".
Proof.
  destruct demo_plan_feasible as (report & c & Hr & Hin & Hf). exists report, c.
  destruct (measured_candidates_evidenced _ _ _ _ _ _ _ _ c Hr eq_refl Hin) as (st & rs & _ & Hm).
  destruct (Hm Hf) as (_ & Hst & _). exact (conj Hr (conj Hin Hst)).
Defined.
End MeasuredDemo.
