(* ===== verification/Wire.v ===== *)
(** * Wire messages (src/python/hllm_control/wire.py)

    The mappings between persisted models and the protobuf messages of
    src/proto/model.proto and src/proto/placement.proto.  A message is a record of
    its fields: an [optional] field is an [option], a scalar is range-checked when it
    is assigned, an enumeration is its number. *)

From Stdlib Require Import Ascii SpecFloat.
From S2P Require Export Models.

(** ** Messages *)

Record PbVersion := { pv_major : Z; pv_minor : Z }.

Record PbRopeScaling := {
  prs_scaling_type : string;
  prs_factor : float;
  prs_original_max_position_embeddings : option Z
}.

Record PbModelConfig := {
  pmc_hidden_size : Z;
  pmc_intermediate_size : Z;
  pmc_num_layers : Z;
  pmc_num_attention_heads : Z;
  pmc_num_kv_heads : Z;
  pmc_head_dim : Z;
  pmc_vocabulary_size : Z;
  pmc_maximum_sequence_length : Z;
  pmc_tied_embeddings : bool;
  pmc_rms_norm_eps : float;
  pmc_rope_theta : float;
  pmc_rope_scaling : option PbRopeScaling;
  pmc_hidden_activation : string;
  pmc_attention_bias : bool;
  pmc_mlp_bias : bool;
  pmc_eos_token_ids : list Z
}.

Record PbTensorFile := {
  ptf_name : string;
  ptf_size_bytes : Z;
  ptf_header_size_bytes : Z;
  ptf_sha256 : string
}.

Record PbTensorRecord := {
  ptr_name : string;
  ptr_file : string;
  ptr_dtype : Z;
  ptr_shape : list Z;
  ptr_data_offset : Z;
  ptr_byte_length : Z;
  ptr_role : Z;
  ptr_layer_index : option Z;
  ptr_shared_weight_group : string
}.

Record PbComponentMemory := {
  pcm_role : Z;
  pcm_layer_index : option Z;
  pcm_storage_bytes : Z
}.

Record PbModelSource := {
  psd_model_id : string;
  psd_revision : string;
  psd_config_sha256 : string;
  psd_index_sha256 : string;
  psd_tensor_metadata_sha256 : string
}.

Record PbModelManifest := {
  pmm_schema_version : PbVersion;
  pmm_manifest_id : string;
  pmm_manifest_digest : string;
  pmm_source : PbModelSource;
  pmm_architecture : ArchitectureDescriptor;
  pmm_config : PbModelConfig;
  pmm_tensor_files : list PbTensorFile;
  pmm_tensors : list PbTensorRecord;
  pmm_components : list PbComponentMemory;
  pmm_total_storage_bytes : Z
}.

Record PbDeploymentPlan := {
  pdp_schema_version : PbVersion;
  pdp_planner_version : string;
  pdp_plan_id : string;
  pdp_plan_digest : string;
  pdp_manifest_digest : string;
  pdp_workload_id : string;
  pdp_planning_mode : string;
  pdp_execution_dtype : Z;
  pdp_weight_dtype : option Z;
  pdp_activation_dtype : Z;
  pdp_split_layer : Z;
  pdp_stages : list StageAssignment;
  pdp_selected_candidate_id : string;
  pdp_duplicated_tensor_groups : list string;
  pdp_deployment_version : Z;
  pdp_workload_digest : string;
  pdp_profile_bundle_digest : string
}.

(** ** Scalars *)

(** Assigning a number to an unsigned field of [bits] bits. *)
Definition unsigned (bits : Z) (n : Z) : result Z :=
  raise_if (negb ((0 <=? n) && (n <? 2 ^ bits))%Z) ValueError
    (String.append "Value out of range: " (pretty n)) ;;
  Ok n.

Abbreviation uint32 := (unsigned 32).
Abbreviation uint64 := (unsigned 64).

(** Assigning an [optional] field only when there is a value. *)
Definition opt_assign (set : Z -> result Z) (o : option Z) : result (option Z) :=
  match o with Some n => m ← set n; Ok (Some m) | None => Ok None end.

Definition _DTYPE_TO_PROTO (d : DType) : Z :=
  match d with
  | BOOL => 1 | U8 => 2 | I8 => 3 | I16 => 4 | U16 => 5 | I32 => 6 | U32 => 7 | I64 => 8 | U64 => 9
  | F16 => 10 | BF16 => 11 | F32 => 12 | F64 => 13
  end.

Definition _PROTO_TO_DTYPE (n : Z) : option DType :=
  List.find (fun d => _DTYPE_TO_PROTO d == n) all_dtypes.

Definition all_roles : list TensorRole :=
  [TOKEN_EMBEDDING; TRANSFORMER_LAYER; FINAL_NORM; LM_HEAD; ARCHITECTURE_STATE].

Definition _ROLE_TO_PROTO (r : TensorRole) : Z :=
  match r with
  | TOKEN_EMBEDDING => 1 | TRANSFORMER_LAYER => 2 | FINAL_NORM => 3 | LM_HEAD => 4
  | ARCHITECTURE_STATE => 5
  end.

Definition _PROTO_TO_ROLE (n : Z) : option TensorRole :=
  List.find (fun r => _ROLE_TO_PROTO r == n) all_roles.

Definition _required_dtype (n : Z) : result DType :=
  match _PROTO_TO_DTYPE n with
  | Some d => Ok d
  | None => raise WireMappingError (String.append "unsupported wire dtype value " (pretty n))
  end.

Definition _required_role (n : Z) : result TensorRole :=
  match _PROTO_TO_ROLE n with
  | Some r => Ok r
  | None => raise WireMappingError (String.append "unsupported wire tensor role value " (pretty n))
  end.

(** ** Versions *)

(** [s.split(c)] *)
Fixpoint py_split (c : ascii) (s : string) : list string :=
  match s with
  | EmptyString => [""]
  | String x s' =>
    if Ascii.eqb x c then "" :: py_split c s'
    else match py_split c s' with
         | part :: parts => String x part :: parts
         | [] => [String x ""]
         end
  end.

(** [s.isdecimal()] *)
Definition is_decimal (s : string) : bool := negb (String.eqb s "") && str_forall is_digit s.

Definition _version_to_proto (version : string) : result PbVersion :=
  let error := raise WireMappingError
    (String.append "artifact version " (String.append (py_repr version) " is not major.minor")) in
  match py_split "." version with
  | [a; b] =>
    if negb (is_decimal a && is_decimal b) then error
    else
      major ← uint32 (Z.of_N (dec_value 0 a));
      minor ← uint32 (Z.of_N (dec_value 0 b));
      Ok {| pv_major := major; pv_minor := minor |}
  | _ => error
  end.

Definition _version_from_proto (v : PbVersion) : string :=
  String.append (pretty (pv_major v)) (String.append "." (pretty (pv_minor v))).

(** ** Manifests *)

Definition rope_to_proto (r : RopeScaling) : result PbRopeScaling :=
  original ← opt_assign uint64 (rs_original_max_position_embeddings r);
  Ok {| prs_scaling_type := rs_scaling_type r; prs_factor := rs_factor r;
        prs_original_max_position_embeddings := original |}.

Definition config_to_proto (c : ModelConfig) : result PbModelConfig :=
  rope ← match mc_rope_scaling c with
         | Some r => p ← rope_to_proto r; Ok (Some p)
         | None => Ok None
         end;
  hidden ← uint64 (mc_hidden_size c);
  intermediate ← uint64 (mc_intermediate_size c);
  layers ← uint32 (mc_num_layers c);
  heads ← uint32 (mc_num_attention_heads c);
  kv_heads ← uint32 (mc_num_kv_heads c);
  head_dim ← uint32 (mc_head_dim c);
  vocabulary ← uint64 (mc_vocabulary_size c);
  maximum ← uint64 (mc_maximum_sequence_length c);
  eos ← mapM uint64 (mc_eos_token_ids c);
  Ok {| pmc_hidden_size := hidden; pmc_intermediate_size := intermediate; pmc_num_layers := layers;
        pmc_num_attention_heads := heads; pmc_num_kv_heads := kv_heads; pmc_head_dim := head_dim;
        pmc_vocabulary_size := vocabulary; pmc_maximum_sequence_length := maximum;
        pmc_tied_embeddings := mc_tied_embeddings c; pmc_rms_norm_eps := mc_rms_norm_eps c;
        pmc_rope_theta := mc_rope_theta c; pmc_rope_scaling := rope;
        pmc_hidden_activation := mc_hidden_activation c; pmc_attention_bias := mc_attention_bias c;
        pmc_mlp_bias := mc_mlp_bias c; pmc_eos_token_ids := eos |}.

Definition tensor_to_proto (t : TensorRecord) : result PbTensorRecord :=
  shape ← mapM uint64 (tr_shape t);
  offset ← uint64 (tr_data_offset t);
  length ← uint64 (tr_byte_length t);
  layer ← opt_assign uint32 (tr_layer_index t);
  Ok {| ptr_name := tr_name t; ptr_file := tr_file t; ptr_dtype := _DTYPE_TO_PROTO (tr_dtype t);
        ptr_shape := shape; ptr_data_offset := offset; ptr_byte_length := length;
        ptr_role := _ROLE_TO_PROTO (tr_role t); ptr_layer_index := layer;
        ptr_shared_weight_group := empty_if_none (tr_shared_weight_group t) |}.

Definition component_to_proto (c : ComponentMemory) : result PbComponentMemory :=
  storage ← uint64 (cm_storage_bytes c);
  layer ← opt_assign uint32 (cm_layer_index c);
  Ok {| pcm_role := _ROLE_TO_PROTO (cm_role c); pcm_layer_index := layer;
        pcm_storage_bytes := storage |}.

Definition file_to_proto (f : TensorFile) : result PbTensorFile :=
  size ← uint64 (tf_size_bytes f);
  header ← uint64 (tf_header_size_bytes f);
  Ok {| ptf_name := tf_name f; ptf_size_bytes := size; ptf_header_size_bytes := header;
        ptf_sha256 := empty_if_none (tf_sha256 f) |}.

Definition source_to_proto (s : SourceDescriptor) : PbModelSource := {|
  psd_model_id := sd_model_id s; psd_revision := empty_if_none (sd_revision s);
  psd_config_sha256 := sd_config_sha256 s; psd_index_sha256 := empty_if_none (sd_index_sha256 s);
  psd_tensor_metadata_sha256 := empty_if_none (sd_tensor_metadata_sha256 s) |}.

Definition model_manifest_to_proto (m : ModelManifest) : result PbModelManifest :=
  config ← config_to_proto (mm_config m);
  tensors ← mapM tensor_to_proto (mm_tensors m);
  components ← mapM component_to_proto (mm_components m);
  version ← _version_to_proto (mm_schema_version m);
  files ← mapM file_to_proto (mm_tensor_files m);
  total ← uint64 (mm_total_storage_bytes m);
  Ok {| pmm_schema_version := version; pmm_manifest_id := mm_manifest_id m;
        pmm_manifest_digest := mm_manifest_digest m; pmm_source := source_to_proto (mm_source m);
        pmm_architecture := mm_architecture m; pmm_config := config; pmm_tensor_files := files;
        pmm_tensors := tensors; pmm_components := components; pmm_total_storage_bytes := total |}.

(** Reading a message; every model is validated as it is built. *)
Definition rope_from_proto (r : PbRopeScaling) : result RopeScaling :=
  let r := {| rs_scaling_type := prs_scaling_type r; rs_factor := prs_factor r;
              rs_original_max_position_embeddings := prs_original_max_position_embeddings r |} in
  fields_ok (RopeScaling_fields r) ;; Ok r.

Definition config_from_proto (c : PbModelConfig) (rope : option RopeScaling) : result ModelConfig :=
  validate_ModelConfig {|
    mc_hidden_size := pmc_hidden_size c; mc_intermediate_size := pmc_intermediate_size c;
    mc_num_layers := pmc_num_layers c; mc_num_attention_heads := pmc_num_attention_heads c;
    mc_num_kv_heads := pmc_num_kv_heads c; mc_head_dim := pmc_head_dim c;
    mc_vocabulary_size := pmc_vocabulary_size c;
    mc_maximum_sequence_length := pmc_maximum_sequence_length c;
    mc_tied_embeddings := pmc_tied_embeddings c; mc_rms_norm_eps := pmc_rms_norm_eps c;
    mc_rope_theta := pmc_rope_theta c; mc_rope_scaling := rope;
    mc_hidden_activation := pmc_hidden_activation c; mc_attention_bias := pmc_attention_bias c;
    mc_mlp_bias := pmc_mlp_bias c; mc_eos_token_ids := pmc_eos_token_ids c |}.

Definition file_from_proto (f : PbTensorFile) : result TensorFile :=
  fields_ok (NonNegativeInt (ptf_size_bytes f) && NonNegativeInt (ptf_header_size_bytes f)) ;;
  Ok {| tf_name := ptf_name f; tf_size_bytes := ptf_size_bytes f;
        tf_header_size_bytes := ptf_header_size_bytes f; tf_sha256 := none_if_empty (ptf_sha256 f) |}.

Definition tensor_from_proto (t : PbTensorRecord) : result TensorRecord :=
  dtype ← _required_dtype (ptr_dtype t);
  role ← _required_role (ptr_role t);
  let record := {|
    tr_name := ptr_name t; tr_file := ptr_file t; tr_dtype := dtype; tr_shape := ptr_shape t;
    tr_data_offset := ptr_data_offset t; tr_byte_length := ptr_byte_length t; tr_role := role;
    tr_layer_index := ptr_layer_index t;
    tr_shared_weight_group := none_if_empty (ptr_shared_weight_group t) |} in
  fields_ok (TensorRecord_fields record) ;; Ok record.

Definition component_from_proto (c : PbComponentMemory) : result ComponentMemory :=
  role ← _required_role (pcm_role c);
  fields_ok (opt_ok NonNegativeInt (pcm_layer_index c) && NonNegativeInt (pcm_storage_bytes c)) ;;
  Ok {| cm_role := role; cm_layer_index := pcm_layer_index c;
        cm_storage_bytes := pcm_storage_bytes c |}.

Definition model_manifest_from_proto (m : PbModelManifest) : result ModelManifest :=
  rope ← match pmc_rope_scaling (pmm_config m) with
         | Some r => r' ← rope_from_proto r; Ok (Some r')
         | None => Ok None
         end;
  config ← config_from_proto (pmm_config m) rope;
  files ← mapM file_from_proto (pmm_tensor_files m);
  tensors ← mapM tensor_from_proto (pmm_tensors m);
  components ← mapM component_from_proto (pmm_components m);
  let s := pmm_source m in
  fields_ok (NonNegativeInt (pmm_total_storage_bytes m)) ;;
  Ok {| mm_schema_version := _version_from_proto (pmm_schema_version m);
        mm_manifest_id := pmm_manifest_id m; mm_manifest_digest := pmm_manifest_digest m;
        mm_source := {| sd_model_id := psd_model_id s; sd_revision := none_if_empty (psd_revision s);
          sd_config_sha256 := psd_config_sha256 s;
          sd_index_sha256 := none_if_empty (psd_index_sha256 s);
          sd_tensor_metadata_sha256 := none_if_empty (psd_tensor_metadata_sha256 s) |};
        mm_architecture := pmm_architecture m; mm_config := config; mm_tensor_files := files;
        mm_tensors := tensors; mm_components := components;
        mm_total_storage_bytes := pmm_total_storage_bytes m |}.

(** ** Deployment plans *)

Definition stage_to_proto (s : StageAssignment) : result StageAssignment :=
  uint32 (sa_stage_index s) ;; uint32 (sa_layer_start s) ;; uint32 (sa_layer_end s) ;; Ok s.

Definition deployment_plan_to_proto (p : DeploymentPlan) : result PbDeploymentPlan :=
  version ← _version_to_proto (dp_schema_version p);
  split ← uint32 (dp_split_layer p);
  stages ← mapM stage_to_proto (dp_stages p);
  deployment ← uint64 (dp_deployment_version p);
  Ok {| pdp_schema_version := version; pdp_planner_version := dp_planner_version p;
        pdp_plan_id := dp_plan_id p; pdp_plan_digest := dp_plan_digest p;
        pdp_manifest_digest := dp_manifest_digest p; pdp_workload_id := dp_workload_id p;
        pdp_planning_mode := mode_value (dp_planning_mode p);
        pdp_execution_dtype := _DTYPE_TO_PROTO (dp_execution_dtype p);
        pdp_weight_dtype := _DTYPE_TO_PROTO <$> dp_weight_dtype p;
        pdp_activation_dtype := _DTYPE_TO_PROTO (dp_activation_dtype p); pdp_split_layer := split;
        pdp_stages := stages; pdp_selected_candidate_id := dp_selected_candidate_id p;
        pdp_duplicated_tensor_groups := dp_duplicated_tensor_groups p;
        pdp_deployment_version := deployment;
        pdp_workload_digest := empty_if_none (dp_workload_digest p);
        pdp_profile_bundle_digest := empty_if_none (dp_profile_bundle_digest p) |}.

Definition stage_from_proto (s : StageAssignment) : result StageAssignment :=
  fields_ok (StageAssignment_fields s) ;; Ok s.

Definition planning_mode_of (s : string) : result PlanningMode :=
  match mode_of_value s with
  | Some m => Ok m
  | None => raise ValueError (String.append (py_repr s) " is not a valid PlanningMode")
  end.

Definition deployment_plan_from_proto (p : PbDeploymentPlan) : result DeploymentPlan :=
  stages ← mapM stage_from_proto (pdp_stages p);
  raise_if (negb ((length stages =? 1)%nat || (length stages =? 2)%nat)) WireMappingError
    (String.append "deployment plan has " (String.append (pretty (Z.of_nat (length stages)))
       " stages; expected one or two")) ;;
  mode ← planning_mode_of (pdp_planning_mode p);
  execution ← _required_dtype (pdp_execution_dtype p);
  weight ← match pdp_weight_dtype p with
           | Some w => d ← _required_dtype w; Ok (Some d)
           | None => Ok None
           end;
  activation ← _required_dtype (pdp_activation_dtype p);
  validate_DeploymentPlan {|
    dp_schema_version := _version_from_proto (pdp_schema_version p);
    dp_planner_version := pdp_planner_version p; dp_plan_id := pdp_plan_id p;
    dp_deployment_version := pdp_deployment_version p; dp_plan_digest := pdp_plan_digest p;
    dp_manifest_digest := pdp_manifest_digest p; dp_workload_id := pdp_workload_id p;
    dp_planning_mode := mode; dp_execution_dtype := execution; dp_weight_dtype := weight;
    dp_activation_dtype := activation; dp_split_layer := pdp_split_layer p;
    dp_workload_digest := none_if_empty (pdp_workload_digest p);
    dp_profile_bundle_digest := none_if_empty (pdp_profile_bundle_digest p);
    dp_stages := stages; dp_duplicated_tensor_groups := pdp_duplicated_tensor_groups p;
    dp_selected_candidate_id := pdp_selected_candidate_id p |}.

(** ** Lemmas on scalars *)

Definition fits (bits n : Z) : bool := (0 <=? n)%Z && (n <? 2 ^ bits)%Z.

Lemma unsigned_ok bits n m : unsigned bits n = Ok m <-> m = n /\ fits bits n = true.
Proof.
  unfold unsigned, fits. rewrite bind_ok. split.
  - intros (u & Hu & E). apply raise_if_ok, negb_false_iff in Hu. by apply Ok_inj in E.
  - intros [-> ->]. by exists tt.
Qed.

Lemma opt_assign_ok bits o p :
  opt_assign (unsigned bits) o = Ok p <-> p = o /\ opt_ok (fits bits) o = true.
Proof.
  destruct o as [n|]; simpl.
  - rewrite bind_ok. setoid_rewrite unsigned_ok. split.
    + intros (m & [-> ?] & E). by apply Ok_inj in E as <-.
    + intros [-> ?]. by exists n.
  - split; [intros E; by apply Ok_inj in E as <-|by intros [-> _]].
Qed.

Lemma mapM_unsigned_ok bits l k :
  mapM (unsigned bits) l = Ok k <-> k = l /\ forallb (fits bits) l = true.
Proof.
  rewrite mapM_ok, forallb_Forall. split.
  - induction 1 as [|n m l k [-> Hn]%unsigned_ok _ [-> IH]]; [done|]. split; [done|by constructor].
  - intros [-> Hl]. induction Hl; constructor; [by apply unsigned_ok|done].
Qed.

Lemma dtype_wire d : _required_dtype (_DTYPE_TO_PROTO d) = Ok d.
Proof. by destruct d. Qed.

Lemma role_wire r : _required_role (_ROLE_TO_PROTO r) = Ok r.
Proof. by destruct r. Qed.

Lemma planning_mode_wire m : planning_mode_of (mode_value m) = Ok m.
Proof. by destruct m. Qed.

Lemma none_if_empty_wire o : o <> Some "" -> none_if_empty (empty_if_none o) = o.
Proof.
  intros Ho. destruct o as [s|]; [|done]. unfold none_if_empty. simpl.
  destruct (String.eqb_spec s ""); [congruence|done].
Qed.

(** ** Versions *)

Lemma py_split_digits a b : str_forall is_digit a = true -> str_forall is_digit b = true ->
  py_split "." (String.append a (String "." b)) = [a; b].
Proof.
  intros Ha Hb. induction a as [|x a IH]; simpl in *.
  - f_equal. clear -Hb. induction b as [|y b IH]; [done|]. simpl in *.
    apply andb_true_iff in Hb as [Hy Hb]. rewrite (IH Hb).
    destruct (Ascii.eqb_spec y "."); [by subst|done].
  - apply andb_true_iff in Ha as [Hx Ha]. rewrite (IH Ha).
    destruct (Ascii.eqb_spec x "."); [by subst|done].
Qed.

Lemma py_split_join c s : exists a rest, py_split c s = a :: rest.
Proof.
  destruct s as [|x s]; simpl; [by eexists _, _|]. destruct (Ascii.eqb x c); [by eexists _, _|].
  destruct (py_split c s); by eexists _, _.
Qed.

Lemma py_split_pair c s a b : py_split c s = [a; b] -> s = String.append a (String c b).
Proof.
  assert (Hone : forall s a, py_split c s = [a] -> s = a).
  { clear. intros s. induction s as [|x s IH]; simpl; intros a E; [by injection E|].
    destruct (Ascii.eqb_spec x c) as [->|Hx].
    - injection E as <- E. by destruct (py_split_join c s) as (?&?&E'); rewrite E' in E.
    - destruct (py_split c s) as [|p [|]] eqn:Hs; simplify_eq.
      + by destruct (py_split_join c s) as (?&?&E'); rewrite E' in Hs.
      + by rewrite (IH p eq_refl). }
  revert a. induction s as [|x s IH]; simpl; intros a E; [done|].
  destruct (Ascii.eqb_spec x c) as [->|Hx].
  - injection E as <- E. simpl. by rewrite (Hone _ _ E).
  - destruct (py_split c s) as [|p parts] eqn:Hs; [done|]. injection E as <- ->.
    simpl. by rewrite (IH p eq_refl).
Qed.

(** A version the wire can carry: two decimal numerals within 32 bits. *)
Definition version_parts (v a b : string) : Prop :=
  v = String.append a (String "." b) /\ is_decimal a = true /\ is_decimal b = true /\
  fits 32 (Z.of_N (dec_value 0 a)) = true /\ fits 32 (Z.of_N (dec_value 0 b)) = true.

Lemma version_to_proto_iff v p : _version_to_proto v = Ok p <->
  exists a b, version_parts v a b /\
    p = {| pv_major := Z.of_N (dec_value 0 a); pv_minor := Z.of_N (dec_value 0 b) |}.
Proof.
  unfold _version_to_proto, version_parts. split.
  - destruct (py_split "." v) as [|a [|b [|]]] eqn:Hs; try done.
    destruct (is_decimal a && is_decimal b) eqn:Hd; [|done]. simpl. intros E.
    apply bind_ok in E as (ma & [-> Hma]%unsigned_ok & E).
    apply bind_ok in E as (mi & [-> Hmi]%unsigned_ok & E). apply Ok_inj in E as <-.
    apply andb_true_iff in Hd as [Ha Hb]. apply py_split_pair in Hs. by exists a, b.
  - intros (a & b & (-> & Ha & Hb & Hma & Hmi) & ->). pose proof Ha as Ha'. pose proof Hb as Hb'.
    unfold is_decimal in Ha', Hb'. apply andb_true_iff in Ha' as [_ Ha'], Hb' as [_ Hb'].
    rewrite (py_split_digits a b Ha' Hb'), Ha, Hb. simpl.
    rewrite (proj2 (unsigned_ok 32 _ _) (conj eq_refl Hma)). simpl.
    by rewrite (proj2 (unsigned_ok 32 _ _) (conj eq_refl Hmi)).
Qed.

(** The versions [major.minor] that are written without leading zeros. *)
Definition canonical_version (v : string) : Prop := exists major minor,
  v = _version_from_proto {| pv_major := major; pv_minor := minor |} /\
  fits 32 major = true /\ fits 32 minor = true.

Lemma pretty_decimal z : (0 <= z)%Z -> is_decimal (pretty z) = true /\ Z.of_N (dec_value 0 (pretty z)) = z.
Proof.
  intros Hz. destruct (pretty_Z_value z Hz) as [Hv Hd]. rewrite Hv. split; [|lia].
  unfold is_decimal. rewrite Hd, andb_true_r. destruct (String.eqb_spec (pretty z) "") as [E|]; [|done].
  exfalso. revert E. destruct z as [|p|p]; [done| |lia]. intros E.
  assert (pretty_N_go (Npos p) "" = "") as Hn by exact E.
  pose proof (pretty_N_go_value (Npos p) "") as [Hv' _]. rewrite Hn in Hv'. simpl in Hv'. lia.
Qed.

Lemma version_wire v : canonical_version v ->
  exists p, _version_to_proto v = Ok p /\ _version_from_proto p = v.
Proof.
  intros (major & minor & -> & Hma & Hmi).
  exists {| pv_major := major; pv_minor := minor |}. split; [|done].
  pose proof Hma as Hma'. pose proof Hmi as Hmi'. unfold fits in Hma', Hmi'. bool_to_prop.
  destruct (pretty_decimal major) as [Ha Va]; [lia|]. destruct (pretty_decimal minor) as [Hb Vb]; [lia|].
  apply version_to_proto_iff. exists (pretty major), (pretty minor). unfold version_parts.
  rewrite Va, Vb. done.
Qed.

(** ** What the wire can carry *)

Definition rope_fits (r : RopeScaling) : bool :=
  opt_ok (fits 64) (rs_original_max_position_embeddings r).

Definition config_fits (c : ModelConfig) : bool :=
  opt_ok rope_fits (mc_rope_scaling c)
  && forallb (fits 64) [mc_hidden_size c; mc_intermediate_size c; mc_vocabulary_size c;
                        mc_maximum_sequence_length c]
  && forallb (fits 32) [mc_num_layers c; mc_num_attention_heads c; mc_num_kv_heads c; mc_head_dim c]
  && forallb (fits 64) (mc_eos_token_ids c).

Definition tensor_fits (t : TensorRecord) : bool :=
  forallb (fits 64) (tr_shape t) && fits 64 (tr_data_offset t) && fits 64 (tr_byte_length t)
  && opt_ok (fits 32) (tr_layer_index t).

Definition component_fits (c : ComponentMemory) : bool :=
  fits 64 (cm_storage_bytes c) && opt_ok (fits 32) (cm_layer_index c).

Definition file_fits (f : TensorFile) : bool :=
  fits 64 (tf_size_bytes f) && fits 64 (tf_header_size_bytes f).

Definition manifest_fits (m : ModelManifest) : bool :=
  config_fits (mm_config m) && forallb tensor_fits (mm_tensors m)
  && forallb component_fits (mm_components m) && forallb file_fits (mm_tensor_files m)
  && fits 64 (mm_total_storage_bytes m).

(** An encoder that returns the model's message exactly when it fits. *)
Definition encodes {A B} (enc : A -> result B) (ok : A -> bool) (f : A -> B) : Prop :=
  forall a b, enc a = Ok b <-> b = f a /\ ok a = true.

Lemma mapM_encodes {A B} (enc : A -> result B) ok f l k : encodes enc ok f ->
  mapM enc l = Ok k <-> k = f <$> l /\ forallb ok l = true.
Proof.
  intros He. rewrite mapM_ok, forallb_Forall. split.
  - induction 1 as [|a b l k [-> Hn]%He _ [-> IH]]; [done|]. split; [done|by constructor].
  - intros [-> Hl]. induction Hl; constructor; [by apply He|done].
Qed.

Lemma encode_step {A B} (r : result A) (v : A) (ok : bool) (k : A -> result B) (b : B) :
  (forall a, r = Ok a <-> a = v /\ ok = true) ->
  (a ← r; k a) = Ok b <-> ok = true /\ k v = Ok b.
Proof. intros Hr. rewrite bind_ok. setoid_rewrite Hr. split; [naive_solver|]. intros [-> ?]. by exists v. Qed.

Lemma Ok_iff {A} (a b : A) : Ok a = Ok b <-> b = a.
Proof. split; [intros E; by apply Ok_inj in E|by intros ->]. Qed.

Definition pb_rope (r : RopeScaling) : PbRopeScaling :=
  {| prs_scaling_type := rs_scaling_type r; prs_factor := rs_factor r;
     prs_original_max_position_embeddings := rs_original_max_position_embeddings r |}.

Lemma rope_encodes : encodes rope_to_proto rope_fits pb_rope.
Proof.
  intros r b. unfold rope_to_proto.
  rewrite (encode_step _ _ _ _ _ (opt_assign_ok 64 (rs_original_max_position_embeddings r))), Ok_iff.
  unfold rope_fits. tauto.
Qed.

Definition pb_config (c : ModelConfig) : PbModelConfig := {|
  pmc_hidden_size := mc_hidden_size c; pmc_intermediate_size := mc_intermediate_size c;
  pmc_num_layers := mc_num_layers c; pmc_num_attention_heads := mc_num_attention_heads c;
  pmc_num_kv_heads := mc_num_kv_heads c; pmc_head_dim := mc_head_dim c;
  pmc_vocabulary_size := mc_vocabulary_size c;
  pmc_maximum_sequence_length := mc_maximum_sequence_length c;
  pmc_tied_embeddings := mc_tied_embeddings c; pmc_rms_norm_eps := mc_rms_norm_eps c;
  pmc_rope_theta := mc_rope_theta c; pmc_rope_scaling := pb_rope <$> mc_rope_scaling c;
  pmc_hidden_activation := mc_hidden_activation c; pmc_attention_bias := mc_attention_bias c;
  pmc_mlp_bias := mc_mlp_bias c; pmc_eos_token_ids := mc_eos_token_ids c |}.

Lemma opt_encodes {A B} (enc : A -> result B) ok f (o : option A) p : encodes enc ok f ->
  match o with Some a => b ← enc a; Ok (Some b) | None => Ok None end = Ok p <->
  p = f <$> o /\ opt_ok ok o = true.
Proof.
  intros He. destruct o as [a|]; simpl.
  - rewrite bind_ok. setoid_rewrite (He a). setoid_rewrite Ok_iff. naive_solver.
  - rewrite Ok_iff. naive_solver.
Qed.

Lemma config_encodes : encodes config_to_proto config_fits pb_config.
Proof.
  intros c b. unfold config_to_proto.
  rewrite (encode_step _ _ _ _ _ (fun p => opt_encodes _ _ _ (mc_rope_scaling c) p rope_encodes)).
  rewrite (encode_step _ _ _ _ _ (unsigned_ok 64 (mc_hidden_size c))).
  rewrite (encode_step _ _ _ _ _ (unsigned_ok 64 (mc_intermediate_size c))).
  rewrite (encode_step _ _ _ _ _ (unsigned_ok 32 (mc_num_layers c))).
  rewrite (encode_step _ _ _ _ _ (unsigned_ok 32 (mc_num_attention_heads c))).
  rewrite (encode_step _ _ _ _ _ (unsigned_ok 32 (mc_num_kv_heads c))).
  rewrite (encode_step _ _ _ _ _ (unsigned_ok 32 (mc_head_dim c))).
  rewrite (encode_step _ _ _ _ _ (unsigned_ok 64 (mc_vocabulary_size c))).
  rewrite (encode_step _ _ _ _ _ (unsigned_ok 64 (mc_maximum_sequence_length c))).
  rewrite (encode_step _ _ _ _ _ (mapM_unsigned_ok 64 (mc_eos_token_ids c))), Ok_iff.
  unfold config_fits. cbn [forallb]. rewrite !andb_true_r, !andb_true_iff. tauto.
Qed.

Definition pb_tensor (t : TensorRecord) : PbTensorRecord := {|
  ptr_name := tr_name t; ptr_file := tr_file t; ptr_dtype := _DTYPE_TO_PROTO (tr_dtype t);
  ptr_shape := tr_shape t; ptr_data_offset := tr_data_offset t; ptr_byte_length := tr_byte_length t;
  ptr_role := _ROLE_TO_PROTO (tr_role t); ptr_layer_index := tr_layer_index t;
  ptr_shared_weight_group := empty_if_none (tr_shared_weight_group t) |}.

Lemma tensor_encodes : encodes tensor_to_proto tensor_fits pb_tensor.
Proof.
  intros t b. unfold tensor_to_proto.
  rewrite (encode_step _ _ _ _ _ (mapM_unsigned_ok 64 (tr_shape t))).
  rewrite (encode_step _ _ _ _ _ (unsigned_ok 64 (tr_data_offset t))).
  rewrite (encode_step _ _ _ _ _ (unsigned_ok 64 (tr_byte_length t))).
  rewrite (encode_step _ _ _ _ _ (opt_assign_ok 32 (tr_layer_index t))), Ok_iff.
  unfold tensor_fits. rewrite !andb_true_iff. tauto.
Qed.

Definition pb_component (c : ComponentMemory) : PbComponentMemory := {|
  pcm_role := _ROLE_TO_PROTO (cm_role c); pcm_layer_index := cm_layer_index c;
  pcm_storage_bytes := cm_storage_bytes c |}.

Lemma component_encodes : encodes component_to_proto component_fits pb_component.
Proof.
  intros c b. unfold component_to_proto.
  rewrite (encode_step _ _ _ _ _ (unsigned_ok 64 (cm_storage_bytes c))).
  rewrite (encode_step _ _ _ _ _ (opt_assign_ok 32 (cm_layer_index c))), Ok_iff.
  unfold component_fits. rewrite andb_true_iff. tauto.
Qed.

Definition pb_file (f : TensorFile) : PbTensorFile := {|
  ptf_name := tf_name f; ptf_size_bytes := tf_size_bytes f;
  ptf_header_size_bytes := tf_header_size_bytes f; ptf_sha256 := empty_if_none (tf_sha256 f) |}.

Lemma file_encodes : encodes file_to_proto file_fits pb_file.
Proof.
  intros f b. unfold file_to_proto.
  rewrite (encode_step _ _ _ _ _ (unsigned_ok 64 (tf_size_bytes f))).
  rewrite (encode_step _ _ _ _ _ (unsigned_ok 64 (tf_header_size_bytes f))), Ok_iff.
  unfold file_fits. rewrite andb_true_iff. tauto.
Qed.

Definition pb_manifest (version : PbVersion) (m : ModelManifest) : PbModelManifest := {|
  pmm_schema_version := version; pmm_manifest_id := mm_manifest_id m;
  pmm_manifest_digest := mm_manifest_digest m; pmm_source := source_to_proto (mm_source m);
  pmm_architecture := mm_architecture m; pmm_config := pb_config (mm_config m);
  pmm_tensor_files := pb_file <$> mm_tensor_files m; pmm_tensors := pb_tensor <$> mm_tensors m;
  pmm_components := pb_component <$> mm_components m;
  pmm_total_storage_bytes := mm_total_storage_bytes m |}.

Lemma manifest_encodes m msg : model_manifest_to_proto m = Ok msg <->
  manifest_fits m = true /\ exists version, _version_to_proto (mm_schema_version m) = Ok version /\
    msg = pb_manifest version m.
Proof.
  unfold model_manifest_to_proto.
  rewrite (encode_step _ _ _ _ _ (config_encodes (mm_config m))).
  rewrite (encode_step _ _ _ _ _ (fun k => mapM_encodes _ _ _ (mm_tensors m) k tensor_encodes)).
  rewrite (encode_step _ _ _ _ _ (fun k => mapM_encodes _ _ _ (mm_components m) k component_encodes)).
  rewrite bind_ok. setoid_rewrite (encode_step _ _ _ _ _ (fun k => mapM_encodes _ _ _ (mm_tensor_files m) k file_encodes)).
  setoid_rewrite (encode_step _ _ _ _ _ (unsigned_ok 64 (mm_total_storage_bytes m))).
  setoid_rewrite Ok_iff. unfold manifest_fits. rewrite !andb_true_iff. naive_solver.
Qed.

(** ** Round trips *)

(** No optional text is present but empty: the wire has one value for both. *)
Definition text_ok (o : option string) : Prop := o <> Some "".

Definition manifest_text_ok (m : ModelManifest) : Prop :=
  text_ok (sd_revision (mm_source m)) /\ text_ok (sd_index_sha256 (mm_source m)) /\
  text_ok (sd_tensor_metadata_sha256 (mm_source m)) /\
  Forall (fun f => text_ok (tf_sha256 f)) (mm_tensor_files m) /\
  Forall (fun t => text_ok (tr_shared_weight_group t)) (mm_tensors m).

Lemma mapM_decode {A B} (dec : B -> result A) (f : A -> B) l :
  Forall (fun a => dec (f a) = Ok a) l -> mapM dec (f <$> l) = Ok l.
Proof. intros Hl. apply mapM_ok. induction Hl; simpl; by constructor. Qed.

Lemma config_decode c : validate_ModelConfig c = Ok c ->
  match pmc_rope_scaling (pb_config c) with
  | Some r => r' ← rope_from_proto r; Ok (Some r') | None => Ok None end = Ok (mc_rope_scaling c) /\
  config_from_proto (pb_config c) (mc_rope_scaling c) = Ok c.
Proof.
  intros Hv. split; [|by destruct c]. simpl. destruct (mc_rope_scaling c) as [r|] eqn:Hr; [|done]. simpl.
  unfold validate_ModelConfig in Hv. apply bind_ok in Hv as (? & Hf & _). apply fields_ok_true in Hf.
  unfold ModelConfig_fields in Hf. rewrite !andb_true_iff, Hr in Hf. destruct Hf as [[_ Hf] _].
  simpl in Hf. unfold rope_from_proto, fields_ok. destruct r. simpl in *. by rewrite Hf.
Qed.

Lemma tensor_decode t : TensorRecord_fields t = true -> text_ok (tr_shared_weight_group t) ->
  tensor_from_proto (pb_tensor t) = Ok t.
Proof.
  intros Hf Ht. unfold tensor_from_proto, pb_tensor, fields_ok. simpl. rewrite dtype_wire, role_wire.
  simpl. rewrite none_if_empty_wire by done. destruct t. simpl in *. by rewrite Hf.
Qed.

Lemma component_decode c :
  opt_ok NonNegativeInt (cm_layer_index c) && NonNegativeInt (cm_storage_bytes c) = true ->
  component_from_proto (pb_component c) = Ok c.
Proof.
  intros Hf. unfold component_from_proto, pb_component, fields_ok. simpl. rewrite role_wire. simpl.
  destruct c. simpl in *. by rewrite Hf.
Qed.

Lemma file_decode f :
  NonNegativeInt (tf_size_bytes f) && NonNegativeInt (tf_header_size_bytes f) = true ->
  text_ok (tf_sha256 f) -> file_from_proto (pb_file f) = Ok f.
Proof.
  intros Hf Ht. unfold file_from_proto, pb_file, fields_ok. simpl. rewrite none_if_empty_wire by done.
  destruct f. simpl in *. by rewrite Hf.
Qed.


(** *** Deployment plans *)

Definition stage_fits_wire (s : StageAssignment) : bool :=
  forallb (fits 32) [sa_stage_index s; sa_layer_start s; sa_layer_end s].

Definition plan_fits (p : DeploymentPlan) : bool :=
  fits 32 (dp_split_layer p) && forallb stage_fits_wire (dp_stages p)
  && fits 64 (dp_deployment_version p).

Lemma stage_encodes : encodes stage_to_proto stage_fits_wire id.
Proof.
  intros s b. unfold stage_to_proto.
  rewrite (encode_step _ _ _ _ _ (unsigned_ok 32 (sa_stage_index s))).
  rewrite (encode_step _ _ _ _ _ (unsigned_ok 32 (sa_layer_start s))).
  rewrite (encode_step _ _ _ _ _ (unsigned_ok 32 (sa_layer_end s))), Ok_iff.
  unfold stage_fits_wire. cbn [forallb]. rewrite andb_true_r, !andb_true_iff. tauto.
Qed.

Definition pb_plan (version : PbVersion) (p : DeploymentPlan) : PbDeploymentPlan := {|
  pdp_schema_version := version; pdp_planner_version := dp_planner_version p;
  pdp_plan_id := dp_plan_id p; pdp_plan_digest := dp_plan_digest p;
  pdp_manifest_digest := dp_manifest_digest p; pdp_workload_id := dp_workload_id p;
  pdp_planning_mode := mode_value (dp_planning_mode p);
  pdp_execution_dtype := _DTYPE_TO_PROTO (dp_execution_dtype p);
  pdp_weight_dtype := _DTYPE_TO_PROTO <$> dp_weight_dtype p;
  pdp_activation_dtype := _DTYPE_TO_PROTO (dp_activation_dtype p); pdp_split_layer := dp_split_layer p;
  pdp_stages := dp_stages p; pdp_selected_candidate_id := dp_selected_candidate_id p;
  pdp_duplicated_tensor_groups := dp_duplicated_tensor_groups p;
  pdp_deployment_version := dp_deployment_version p;
  pdp_workload_digest := empty_if_none (dp_workload_digest p);
  pdp_profile_bundle_digest := empty_if_none (dp_profile_bundle_digest p) |}.

Lemma plan_encodes p msg : deployment_plan_to_proto p = Ok msg <->
  plan_fits p = true /\ exists version, _version_to_proto (dp_schema_version p) = Ok version /\
    msg = pb_plan version p.
Proof.
  unfold deployment_plan_to_proto. rewrite bind_ok.
  setoid_rewrite (encode_step _ _ _ _ _ (unsigned_ok 32 (dp_split_layer p))).
  setoid_rewrite (encode_step _ _ _ _ _ (fun k => mapM_encodes _ _ _ (dp_stages p) k stage_encodes)).
  setoid_rewrite (encode_step _ _ _ _ _ (unsigned_ok 64 (dp_deployment_version p))).
  setoid_rewrite Ok_iff. rewrite list_fmap_id. unfold plan_fits. rewrite !andb_true_iff. naive_solver.
Qed.

Lemma plan_decode v p : validate_DeploymentPlan p = Ok p ->
  _version_from_proto v = dp_schema_version p ->
  text_ok (dp_workload_digest p) -> text_ok (dp_profile_bundle_digest p) ->
  deployment_plan_from_proto (pb_plan v p) = Ok p.
Proof.
  intros Hval Hback Hw Hb. unfold deployment_plan_from_proto.
  cbn [pb_plan pdp_stages pdp_planning_mode pdp_execution_dtype pdp_weight_dtype pdp_activation_dtype].
  pose proof Hval as Hfields. unfold validate_DeploymentPlan in Hfields.
  apply bind_ok in Hfields as (? & Hfields & _). apply fields_ok_true in Hfields.
  unfold DeploymentPlan_fields in Hfields. rewrite !andb_true_iff in Hfields.
  destruct Hfields as [[[_ Hst] Hmin] Hmax]. apply Nat.leb_le in Hmin, Hmax.
  assert (mapM stage_from_proto (dp_stages p) = Ok (dp_stages p)) as ->.
  { rewrite <- (list_fmap_id (dp_stages p)) at 1. apply mapM_decode. apply forallb_Forall in Hst.
    eapply Forall_impl; [exact Hst|]. intros s Hs. unfold stage_from_proto, fields_ok. simpl in *. by rewrite Hs. }
  cbn [mbind result_bind].
  replace (_ || _) with true by (destruct (length (dp_stages p)) as [|[|[|]]]; [lia|done|done|lia]).
  simpl. rewrite planning_mode_wire, !dtype_wire. simpl.
  assert (match _DTYPE_TO_PROTO <$> dp_weight_dtype p with
    | Some w => d ← _required_dtype w; Ok (Some d) | None => Ok None end = Ok (dp_weight_dtype p)) as ->
    by (destruct (dp_weight_dtype p); simpl; by rewrite ?dtype_wire).
  simpl. rewrite Hback, !none_if_empty_wire by done. destruct p. exact Hval.
Qed.


(** ** A manifest and a plan on the wire *)
Module WireDemo.

Definition demo_manifest : ModelManifest := {|
  mm_schema_version := "1.1"; mm_manifest_id := "demo"; mm_manifest_digest := "digest";
  mm_source := {| sd_model_id := "demo"; sd_revision := Some "main"; sd_config_sha256 := "c";
                  sd_index_sha256 := None; sd_tensor_metadata_sha256 := None |};
  mm_architecture := {| ad_architecture_id := "llama-v1"; ad_architecture_revision := "1";
                        ad_feature_flags := ["tied"] |};
  mm_config := {| mc_hidden_size := 8; mc_intermediate_size := 16; mc_num_layers := 2;
    mc_num_attention_heads := 2; mc_num_kv_heads := 1; mc_head_dim := 4;
    mc_vocabulary_size := 16; mc_maximum_sequence_length := 64; mc_tied_embeddings := true;
    mc_rms_norm_eps := literal 1 100000; mc_rope_theta := literal 10000 1;
    mc_rope_scaling := Some {| rs_scaling_type := "linear"; rs_factor := literal 2 1;
                               rs_original_max_position_embeddings := Some 32%Z |};
    mc_hidden_activation := "silu"; mc_attention_bias := false; mc_mlp_bias := false;
    mc_eos_token_ids := [2]%Z |};
  mm_tensor_files := [{| tf_name := "model.safetensors"; tf_size_bytes := 100;
                         tf_header_size_bytes := 20; tf_sha256 := None |}];
  mm_tensors := [{| tr_name := "l0"; tr_file := "model.safetensors"; tr_dtype := F16;
    tr_shape := [8; 8]%Z; tr_data_offset := 0; tr_byte_length := 128; tr_role := TRANSFORMER_LAYER;
    tr_layer_index := Some 0%Z; tr_shared_weight_group := Some "g" |}];
  mm_components := [{| cm_role := TRANSFORMER_LAYER; cm_layer_index := Some 0%Z;
                       cm_storage_bytes := 128 |}];
  mm_total_storage_bytes := 128 |}.

Definition demo_stage (i : Z) (w : string) (first last : bool) : StageAssignment := {|
  sa_stage_index := i; sa_worker_id := w; sa_layer_start := i; sa_layer_end := (i + 1)%Z;
  sa_owns_token_embedding := first; sa_owns_final_norm := last; sa_owns_lm_head := last;
  sa_owns_sampling := last |}.

Definition demo_plan : DeploymentPlan := {|
  dp_schema_version := "1.0"; dp_planner_version := "0.1.0"; dp_plan_id := "plan-0";
  dp_deployment_version := 1; dp_plan_digest := "d"; dp_manifest_digest := "m";
  dp_workload_id := "w"; dp_planning_mode := FEASIBILITY; dp_execution_dtype := F16;
  dp_weight_dtype := None; dp_activation_dtype := F16; dp_split_layer := 1;
  dp_workload_digest := None; dp_profile_bundle_digest := None;
  dp_stages := [demo_stage 0 "alpha" true false; demo_stage 1 "beta" false true];
  dp_duplicated_tensor_groups := []; dp_selected_candidate_id := "c" |}.


End WireDemo.
