(* ===== verification/Runner.v ===== *)
(** * The profile runner (src/python/hllm_control/profiling/runner.py)

    One stage of a plan runs in a native process and its observations become a sealed
    profile.  The run is a computation over the files of the output directory that can
    raise; what the machine answers - the checkpoint, the memory it reports, the polls of
    the process, the lines it wrote - is a record, [Machine].  A line of the native process
    is the event it describes; the worker writes its identity fields as strings. *)

From Stdlib Require Import Ascii SpecFloat.
From stdpp Require Import strings gmap.
From S2P Require Export Fit Compute Wire.

(** ** State, exceptions and files *)

Inductive FileContent := JsonText (j : json) | OtherText.

Record RunnerState := {
  rs_files : gmap string FileContent;
  rs_launched : bool;   (** the native process was started *)
  rs_killed : bool      (** and the runner killed it *)
}.

Definition RunM (A : Type) : Type := RunnerState -> RunnerState * result A.

#[export] Instance runm_ret : MRet RunM := fun A a s => (s, Ok a).
#[export] Instance runm_bind : MBind RunM := fun A B f m s =>
  match m s with
  | (s', Ok a) => f a s'
  | (s', Err e) => (s', Err e)
  end.

Definition lift {A} (r : result A) : RunM A := fun s => (s, r).
Definition get_files : RunM (gmap string FileContent) := fun s => (s, Ok (rs_files s)).

(** [path.open("x")]: the file must not exist. *)
Definition open_exclusive (path : string) (c : FileContent) : RunM unit := fun s =>
  match rs_files s !! path with
  | Some _ => (s, raise FileExistsError path)
  | None => ({| rs_files := <[path := c]> (rs_files s); rs_launched := rs_launched s;
                rs_killed := rs_killed s |}, Ok tt)
  end.

Definition write_exclusive (path : string) (value : json) : RunM unit :=
  open_exclusive path (JsonText value).

Definition launch (killed : bool) : RunM unit := fun s =>
  ({| rs_files := rs_files s; rs_launched := true; rs_killed := killed |}, Ok tt).

(** The raw file as the native process leaves it. *)
Definition leave_raw (path : string) (raw : bool) : RunM unit := fun s =>
  (if raw then {| rs_files := <[path := OtherText]> (rs_files s); rs_launched := rs_launched s;
                  rs_killed := rs_killed s |} else s, Ok tt).

(** [path.with_suffix(suffix)] for the output [stem ++ suffix]. *)
Record OutputPath := { op_stem : string; op_suffix : string }.
Definition with_suffix (output : OutputPath) (suffix : string) : string := op_stem output +:+ suffix.
Definition output_file (output : OutputPath) : string := with_suffix output (op_suffix output).
Definition raw_file (output : OutputPath) : string := with_suffix output ".native.jsonl".
Definition spec_file (output : OutputPath) : string := with_suffix output ".spec.json".
Definition fit_file (output : OutputPath) : string := with_suffix output ".fit.json".
Definition log_file (output : OutputPath) : string := with_suffix output ".log".
Definition preflight_file (output : OutputPath) : string := with_suffix output ".preflight.json".
Definition summary_file (output : OutputPath) : string := with_suffix output ".summary.json".

Definition output_files (output : OutputPath) : list string :=
  [output_file output; raw_file output; spec_file output; fit_file output; log_file output;
   preflight_file output; summary_file output].

(** ** Arguments *)

Inductive RunMode := MEMORY_MODE | COMPUTE_MODE.

#[export] Instance run_mode_eq_dec : EqDecision RunMode.
Proof. solve_decision. Defined.

Record RunArguments := {
  ar_manifest : ModelManifest;
  ar_plan : DeploymentPlan;
  ar_stage_index : Z;
  ar_workload : WorkloadProfile;
  ar_backend : Backend;
  ar_capacity : MemoryAmounts;
  ar_output : OutputPath;
  ar_source_revision : string;
  ar_concurrent_load : string;
  ar_transport_mode : TransportMode;
  ar_device_id : Z;
  ar_warmup_cycles : Z;
  ar_measured_cycles : Z;
  ar_timeout_seconds : float;
  ar_sample_interval_seconds : float;
  ar_host_headroom_bytes : Z;
  ar_device_headroom_bytes : Z;
  ar_extra_overhead_bytes : Z;
  ar_mlx_fit_policy : MlxFitPolicy;
  ar_mode : RunMode
}.

Definition limits_invalid (a : RunArguments) : bool :=
  (ar_warmup_cycles a <? 0)%Z || (ar_measured_cycles a <? 1)%Z
  || (32 <? ar_warmup_cycles a + ar_measured_cycles a)%Z
  || negb (flt f0 (ar_timeout_seconds a) && fle (ar_timeout_seconds a) (literal 86400 1))
  || negb (fle (literal 5 100) (ar_sample_interval_seconds a)
           && fle (ar_sample_interval_seconds a) (literal 5 1))
  || (ar_device_id a <? 0)%Z.

(** The checks before anything is touched, and the stage they select. *)
Definition check_arguments (a : RunArguments) : result StageAssignment :=
  let plan := ar_plan a in
  let stages := dp_stages plan in
  raise_if (negb ((0 <=? ar_stage_index a)%Z && (ar_stage_index a <? Z.of_nat (length stages))%Z))
    ValueError "stage index outside plan" ;;
  raise_if (dp_manifest_digest plan != mm_manifest_digest (ar_manifest a)) ValueError
    "plan manifest mismatch" ;;
  match last stages, stages !! Z.to_nat (ar_stage_index a) with
  | Some final, Some stage =>
    raise_if (sa_layer_end final != mc_num_layers (mm_config (ar_manifest a))) ValueError
      "plan does not cover the manifest layers" ;;
    raise_if (dp_activation_dtype plan != wl_activation_dtype (ar_workload a)) ValueError
      "plan/workload boundary dtype mismatch" ;;
    raise_if (mc_maximum_sequence_length (mm_config (ar_manifest a))
              <? wl_total_cached_tokens (ar_workload a))%Z ValueError
      "workload exceeds model context" ;;
    raise_if (limits_invalid a) ValueError "invalid profiling run limits" ;;
    Ok stage
  | _, _ => raise IndexError "tuple index out of range"
  end.

(** ** What the machine answers *)

(** A file below the model root, resolved: [cf_inside] is [is_relative_to(root)]. *)
Record CheckpointFile := { cf_inside : bool; cf_data : string }.

(** The environment event of the native process. *)
Record NativeEnvironment := {
  nv_backend : string;
  nv_device_identity : string;
  nv_device_name : string;
  nv_backend_version : string;
  nv_driver_version : string;
  nv_allocator : string;
  nv_compiler : string;
  nv_prefill_chunk_tokens : option Z
}.

Inductive NativeRecord :=
  | EnvironmentEvent (e : NativeEnvironment)
  | SampleEvent (s : MemorySample)
  | TimingEvent (t : TimingRecord)
  | PairComplete (cycle : Z) (outputs_identical : bool)
  | ErrorEvent (error : string)
  | Complete.

(** One iteration of the polling loop: the seconds since the start when the loop asks,
    and what [observe_process] answers afterwards. *)
Record PollTick := { tk_elapsed : float; tk_sample : PhysicalSample }.

Record Machine := {
  mx_binary : option string;
  mx_root_exists : bool;
  mx_checkpoint : string -> option CheckpointFile;
  mx_host_available : option Z;
  mx_host_available_after_read : option Z;
  mx_device_available_before_read : option Z;
  mx_device_available_after_read : option Z;
  mx_sampled_at : string;
  mx_observed_at : string;
  mx_measured_at : AwareDatetime;
  mx_measured_at_isoformat : string;
  mx_alloc_conf : option string;        (** [PYTORCH_ALLOC_CONF] *)
  mx_cuda_alloc_conf : option string;   (** [PYTORCH_CUDA_ALLOC_CONF] *)
  mx_os : string;
  mx_node : string;
  mx_process_starts : bool;
  mx_ticks : list PollTick;                 (** while the process has not exited *)
  mx_returncode : Z;
  mx_raw : option (list (option NativeRecord));   (** its lines; [None]: not JSON *)
  mx_driver_release : string;           (** stripped *)
  mx_darwin : option (string * string)  (** the brand and the model, on macOS *)
}.

Section runner.
Context `{Hash}.
(** [MessageToDict] of the load request: generated protobuf code. *)
Context (message_to_dict : PbDeploymentPlan -> PbModelManifest -> Z -> json).

(** ** The checkpoint *)

Definition sha256_of (data : string) : string := sha256_file (Z.to_nat 1048576) data.

Definition resolve_strict (m : Machine) (name : string) : result CheckpointFile :=
  match mx_checkpoint m name with Some f => Ok f | None => raise OSError name end.

Definition hash_shard (m : Machine) (hashes : list (string * json)) (shard : TensorFile)
    : result (list (string * json)) :=
  path ← resolve_strict m (tf_name shard);
  raise_if (negb (cf_inside path) || (Z.of_nat (String.length (cf_data path)) != tf_size_bytes shard))
    ValueError "checkpoint shard path/size differs from manifest" ;;
  let value := sha256_of (cf_data path) in
  raise_if (match tf_sha256 shard with Some h => h != value | None => false end) ValueError
    "checkpoint payload differs from manifest" ;;
  Ok (assoc_set (tf_name shard) (JStr value) hashes).

Fixpoint hash_shards (m : Machine) (hashes : list (string * json)) (shards : list TensorFile)
    : result (list (string * json)) :=
  match shards with
  | [] => Ok hashes
  | shard :: shards' => hashes' ← hash_shard m hashes shard; hash_shards m hashes' shards'
  end.

Definition checkpoint_digest (m : Machine) (manifest : ModelManifest) : result string :=
  config ← resolve_strict m "config.json";
  raise_if (negb (cf_inside config)) ValueError "checkpoint config escapes model root" ;;
  raise_if (sha256_of (cf_data config) != sd_config_sha256 (mm_source manifest)) ValueError
    "checkpoint config differs from manifest" ;;
  hashes ← hash_shards m [("config.json", JStr (sha256_of (cf_data config)))] (mm_tensor_files manifest);
  Ok (digest (JObj hashes)).

(** ** The key of the run *)

(** [json.dumps(value, sort_keys=True)] with the default separators, for ASCII text. *)
Fixpoint dumps_default (j : json) : string :=
  match j with
  | JArr l => "[" +:+ py_join ", " (dumps_default <$> l) +:+ "]"
  | JObj d =>
    let items := py_sorted key_lt ((fun '(k, v) => (k, dumps_default v)) <$> d) in
    "{" +:+ py_join ", " ((fun '(k, t) => quote k +:+ ": " +:+ t) <$> items) +:+ "}"
  | j => dumps j
  end.

Definition pending_environment (m : Machine) (a : RunArguments) (binary : string) : Environment := {|
  en_backend := ar_backend a; en_device_identity := "pending"; en_device_name := "pending";
  en_backend_version := "pending"; en_driver_version := "pending"; en_allocator := "pending";
  en_allocator_config := dumps_default (JObj [
    ("capacity", MemoryAmounts_dump (ar_capacity a));
    ("PYTORCH_ALLOC_CONF", json_opt JStr (mx_alloc_conf m));
    ("PYTORCH_CUDA_ALLOC_CONF", json_opt JStr (mx_cuda_alloc_conf m))]);
  en_source_revision := ar_source_revision a; en_binary_digest := binary;
  en_compiler := "pending"; en_os := mx_os m |}.

Definition run_key (a : RunArguments) (checkpoint : string) (environment : Environment)
    (stage : StageAssignment) : ProfileKey := {|
  pk_manifest_digest := mm_manifest_digest (ar_manifest a); pk_checkpoint_digest := checkpoint;
  pk_environment := environment; pk_assignment := stage; pk_workload := ar_workload a;
  pk_workload_digest := digest (WorkloadProfile_dump (ar_workload a));
  pk_execution_dtype := dp_execution_dtype (ar_plan a); pk_weight_dtype := dp_weight_dtype (ar_plan a);
  pk_transport_mode := ar_transport_mode a; pk_input_kind := SYNTHETIC_SHAPE;
  pk_input_digest := digest (JObj [("generator", JStr "zero-token-or-zero-f16-boundary-v1")]) |}.

(** ** The preflight *)

(** [min] of the two samples, when both were obtained. *)
Definition device_available (m : Machine) (a : RunArguments) : option Z :=
  match ar_backend a, mx_device_available_before_read m, mx_device_available_after_read m with
  | CUDA, Some before, Some after => Some (Z.min before after)
  | _, _, _ => None
  end.

Definition physical_budget (available : option Z) (headroom extra : Z) : PhysicalBudget := {|
  pb_available_bytes := available; pb_headroom_bytes := headroom; pb_extra_overhead_bytes := extra;
  pb_safety_fraction := literal 1 10 |}.

Definition host_budget (m : Machine) (a : RunArguments) : PhysicalBudget :=
  physical_budget (mx_host_available m) (ar_host_headroom_bytes a) (ar_extra_overhead_bytes a).

Definition device_budget (m : Machine) (a : RunArguments) : option PhysicalBudget :=
  match ar_backend a with
  | CUDA => Some (physical_budget (device_available m a) (ar_device_headroom_bytes a)
                    (ar_extra_overhead_bytes a))
  | _ => None
  end.

Definition host_cap (a : RunArguments) : Z :=
  if ar_backend a == MLX then ma_unified (ar_capacity a) else ma_host (ar_capacity a).

(** [x > n]: Python compares a float with an integer exactly. *)
Definition float_gt_int (x : float) (n : Z) : bool :=
  match x with
  | S754_zero _ => (n <? 0)%Z
  | S754_infinity s => negb s
  | S754_nan => false
  | S754_finite s m e =>
    let v := cond_Zopp s (Zpos m) in
    if (0 <=? e)%Z then (n <? v * 2 ^ e)%Z else (n * 2 ^ (- e) <? v)%Z
  end.

(** [cap * (1 + safety_fraction) + headroom_bytes + extra_overhead_bytes] *)
Definition probe_demand (cap : Z) (b : PhysicalBudget) : result float :=
  scaled ← int_mul cap (fadd (literal 1 1) (pb_safety_fraction b));
  headroom ← float_of_int (pb_headroom_bytes b);
  extra ← float_of_int (pb_extra_overhead_bytes b);
  Ok (fadd (fadd scaled headroom) extra).

Definition preflight_reason (name : string) (cap : Z) (budget : option PhysicalBudget)
    : result (list string) :=
  match budget with
  | None => Ok []
  | Some b =>
    match pb_available_bytes b with
    | None => Ok [name +:+ ": current availability unavailable"]
    | Some available =>
      demand ← probe_demand cap b;
      Ok (if float_gt_int demand available
          then [name +:+ ": configured probe cap plus physical allowances exceeds availability"] else [])
    end
  end.

Definition preflight_reasons (m : Machine) (a : RunArguments) : result (list string) :=
  host ← preflight_reason "host/unified" (host_cap a) (Some (host_budget m a));
  device ← preflight_reason "device" (ma_device (ar_capacity a)) (device_budget m a);
  Ok (host ++ device).

Definition is_nil {A} (l : list A) : bool := match l with [] => true | _ => false end.

Definition preflight_record (m : Machine) (a : RunArguments) (key : ProfileKey) (reasons : list string)
    : json :=
  JObj [("schema_version", JStr "1.2"); ("observed_at", JStr (mx_observed_at m));
        ("availability_sampled_at", JStr (mx_sampled_at m));
        ("availability_sampled_before_checkpoint_read", JBool true);
        ("host_available_bytes_after_checkpoint_read", json_opt JInt (mx_host_available_after_read m));
        ("device_available_bytes_before_checkpoint_read",
          json_opt JInt (if ar_backend a == CUDA then mx_device_available_before_read m else None));
        ("device_available_bytes_after_checkpoint_read",
          json_opt JInt (if ar_backend a == CUDA then mx_device_available_after_read m else None));
        ("device_availability_decided_by",
          match device_available m a with
          | Some _ => JStr "minimum-of-samples-before-and-after-checkpoint-read"
          | None => JNull
          end);
        ("key", ProfileKey_dump key); ("admission_capacity", MemoryAmounts_dump (ar_capacity a));
        ("host_budget", PhysicalBudget_dump (host_budget m a));
        ("device_budget", json_opt PhysicalBudget_dump (device_budget m a));
        ("status", JStr (if is_nil reasons then "accepted" else "rejected"));
        ("reasons", json_strs reasons)].

(** ** The native process *)

Definition spec_record (a : RunArguments) (load : json) : json :=
  let w := ar_workload a in
  JObj ([("mode", JStr (match ar_mode a with MEMORY_MODE => "memory" | COMPUTE_MODE => "compute" end));
         ("load_request", load); ("budget", MemoryAmounts_dump (ar_capacity a));
         ("capacity_tokens", JInt (wl_total_cached_tokens w));
         ("prompt_tokens", JInt (wl_prompt_tokens w)); ("output_tokens", JInt (wl_output_tokens w));
         ("cycles", JInt (ar_warmup_cycles a + ar_measured_cycles a));
         ("transport_mode", JStr (transport_value (ar_transport_mode a)));
         ("device_id", JInt (ar_device_id a))]
        ++ json_field (wl_prefill_chunk_tokens w == 0%Z) "prefill_chunk_tokens"
             (JInt (wl_prefill_chunk_tokens w))).

Definition run_conditions (m : Machine) (a : RunArguments) : Conditions := {|
  cd_measured_at := mx_measured_at m; cd_warmup_cycles := ar_warmup_cycles a;
  cd_measured_cycles := ar_measured_cycles a;
  cd_process_policy := match ar_mode a with
                       | MEMORY_MODE => FRESH_PROCESS_THEN_RELOADS
                       | COMPUTE_MODE => LOADED_STAGE_PAIRED_PASSES end;
  cd_concurrent_load := ar_concurrent_load a;
  cd_notes := match ar_mode a with
    | COMPUTE_MODE =>
      ["Paired identical synthetic inputs; completed native work timed.";
       "External physical telemetry disabled during timing."]
    | MEMORY_MODE =>
      ["Synthetic shape exercise; not a correctness or timing benchmark.";
       "External physical sampling is a lower bound; RSS high water is lifetime.";
       "Native process observations follow allocator reads; counters are not atomic. "
       +:+ "OS physical-footprint peaks are lifetime, not phase peaks; footprint is not "
       +:+ "additive with RSS or MLX allocator bytes. Unavailable counters remain null."]
    end |}.

(** The polling loop: the samples, and whether the process was killed for its time. *)
Fixpoint watch (mode : RunMode) (timeout : float) (ticks : list PollTick)
    : result (list PhysicalSample * bool) :=
  match ticks with
  | [] => Ok ([], false)
  | t :: ticks' =>
    if flt timeout (tk_elapsed t) then Ok ([], true)
    else
      sampled ← (match mode with
                 | MEMORY_MODE => fields_ok (PhysicalSample_fields (tk_sample t)) ;; Ok [tk_sample t]
                 | COMPUTE_MODE => Ok []
                 end);
      '(samples, timed_out) ← watch mode timeout ticks';
      Ok (sampled ++ samples, timed_out)
  end.

(** [json.loads] line by line, up to the first line that is not JSON. *)
Fixpoint readable (lines : list (option NativeRecord)) : list NativeRecord :=
  match lines with
  | Some r :: lines' => r :: readable lines'
  | _ => []
  end.

(** ** What the events say *)

Definition environment_events (records : list NativeRecord) : list NativeEnvironment :=
  omap (fun r => match r with EnvironmentEvent e => Some e | _ => None end) records.
Definition sample_events (records : list NativeRecord) : list MemorySample :=
  omap (fun r => match r with SampleEvent s => Some s | _ => None end) records.
Definition timing_events (records : list NativeRecord) : list TimingRecord :=
  omap (fun r => match r with TimingEvent t => Some t | _ => None end) records.
Definition identical_cycles (records : list NativeRecord) : list Z :=
  omap (fun r => match r with PairComplete c true => Some c | _ => None end) records.
Definition error_events (records : list NativeRecord) : list string :=
  omap (fun r => match r with ErrorEvent e => Some e | _ => None end) records.

Definition run_events (m : Machine) : list NativeRecord :=
  match mx_raw m with Some lines => readable lines | None => [] end.

(** [f"BACKEND_{backend.value.upper()}"] *)
Definition native_backend (b : Backend) : string :=
  match b with CPU => "BACKEND_CPU" | MLX => "BACKEND_MLX" | CUDA => "BACKEND_CUDA" end.

(** The device and driver as the runner names them, with the NVIDIA release or the Mac. *)
Definition name_environment (m : Machine) (a : RunArguments) (env : NativeEnvironment)
    : result (string * string) :=
  match ar_backend a, mx_darwin m with
  | CUDA, _ =>
    raise_if (String.eqb (mx_driver_release m) "") RuntimeError
      "NVIDIA driver release unavailable; raw measurements preserved" ;;
    Ok (nv_device_name env,
        "NVIDIA " +:+ mx_driver_release m +:+ "; CUDA API " +:+ nv_driver_version env)
  | _, Some (brand, model) =>
    Ok (nv_device_name env +:+ "; " +:+ brand +:+ "; " +:+ model, nv_driver_version env)
  | _, None => Ok (nv_device_name env, nv_driver_version env)
  end.

Definition with_environment (k : ProfileKey) (environment : Environment) : ProfileKey := {|
  pk_manifest_digest := pk_manifest_digest k; pk_checkpoint_digest := pk_checkpoint_digest k;
  pk_environment := environment; pk_assignment := pk_assignment k; pk_workload := pk_workload k;
  pk_workload_digest := pk_workload_digest k; pk_execution_dtype := pk_execution_dtype k;
  pk_weight_dtype := pk_weight_dtype k; pk_transport_mode := pk_transport_mode k;
  pk_input_kind := pk_input_kind k; pk_input_digest := pk_input_digest k |}.

Definition native_environment (m : Machine) (pending : Environment) (env : NativeEnvironment)
    (device_name driver_version : string) : Environment := {|
  en_backend := en_backend pending;
  en_device_identity := digest (JObj [("host", JStr (mx_node m)); ("device", JStr (nv_device_identity env));
                                      ("hardware", JStr device_name)]);
  en_device_name := device_name; en_backend_version := nv_backend_version env;
  en_driver_version := driver_version; en_allocator := nv_allocator env;
  en_allocator_config := en_allocator_config pending; en_source_revision := en_source_revision pending;
  en_binary_digest := en_binary_digest pending; en_compiler := nv_compiler env; en_os := en_os pending |}.

Definition measured_key (m : Machine) (a : RunArguments) (key : ProfileKey) : result ProfileKey :=
  match environment_events (run_events m) with
  | [] => raise RuntimeError ("native profiler failed before initialization; see " +:+ log_file (ar_output a))
  | env :: _ =>
    raise_if (nv_backend env != native_backend (ar_backend a)) ValueError
      "native executable backend does not match requested profile" ;;
    raise_if (default 0%Z (nv_prefill_chunk_tokens env) != wl_prefill_chunk_tokens (ar_workload a))
      ValueError "native profiler did not execute the requested prefill chunk" ;;
    '(device_name, driver_version) ← name_environment m a env;
    let environment := native_environment m (pk_environment key) env device_name driver_version in
    fields_ok (Environment_fields environment) ;;
    validate_ProfileKey (with_environment key environment)
  end.

Definition run_completed (m : Machine) : bool :=
  (mx_returncode m =? 0)%Z
  && existsb (fun r => match r with Complete => true | _ => false end) (run_events m).

Definition run_error (m : Machine) (timed_out : bool) : option string :=
  if run_completed m then None
  else if timed_out then Some "timeout"
  else Some (match error_events (run_events m) with
             | e :: _ => e
             | [] => "native process exited " +:+ pretty (mx_returncode m)
             end).

(** ** The run *)

Definition check_outputs (a : RunArguments) : RunM unit :=
  files ← get_files;
  lift (match List.find (fun path => bool_decide (is_Some (files !! path))) (output_files (ar_output a)) with
        | Some path => raise FileExistsError ("profile output already exists: " +:+ path)
        | None => Ok tt
        end).

(** Everything up to the decision whether native work may start. *)
Definition preflight (m : Machine) (a : RunArguments) : RunM ProfileKey :=
  stage ← lift (check_arguments a);
  binary ← lift (match mx_binary m with Some b => Ok b | None => raise OSError "profiler binary" end);
  lift (raise_if (negb (mx_root_exists m)) OSError "model root") ;;
  check_outputs a ;;
  let environment := pending_environment m a (sha256_of binary) in
  lift (fields_ok (Environment_fields environment)) ;;
  checkpoint ← lift (checkpoint_digest m (ar_manifest a));
  key ← lift (validate_ProfileKey (run_key a checkpoint environment stage));
  lift (fields_ok (PhysicalBudget_fields (host_budget m a))) ;;
  lift (fields_ok (opt_ok PhysicalBudget_fields (device_budget m a))) ;;
  reasons ← lift (preflight_reasons m a);
  write_exclusive (preflight_file (ar_output a)) (preflight_record m a key reasons) ;;
  lift (raise_if (negb (is_nil reasons)) ValueError
          (py_join "; " reasons +:+ "; see " +:+ preflight_file (ar_output a))) ;;
  mret key.

(** The specification the native process reads. *)
Definition write_spec (m : Machine) (a : RunArguments) : RunM unit :=
  plan ← lift (deployment_plan_to_proto (ar_plan a));
  manifest ← lift (model_manifest_to_proto (ar_manifest a));
  stage_index ← lift (uint32 (ar_stage_index a));
  write_exclusive (spec_file (ar_output a)) (spec_record a (message_to_dict plan manifest stage_index)).

(** The native process from its start to its end: what was sampled, and whether it was
    killed for its time. *)
Definition run_process (m : Machine) (a : RunArguments) : RunM (list PhysicalSample * bool) :=
  lift (fields_ok (Conditions_fields (run_conditions m a))) ;;
  open_exclusive (log_file (ar_output a)) OtherText ;;
  lift (raise_if (negb (mx_process_starts m)) OSError "profiler binary") ;;
  let outcome := watch (ar_mode a) (ar_timeout_seconds a) (mx_ticks m) in
  launch (match outcome with Ok (_, timed_out) => timed_out | Err _ => true end) ;;
  leave_raw (raw_file (ar_output a)) (match mx_raw m with Some _ => true | None => false end) ;;
  lift outcome.

Definition validate_sample (s : MemorySample) : result MemorySample :=
  fields_ok (MemorySample_fields s) ;; consistent_rss s ;; Ok s.

Definition validate_timing (t : TimingRecord) : result TimingRecord :=
  fields_ok (TimingRecord_fields t) ;; Ok t.

Definition fit_record (m : Machine) (a : RunArguments) (artifact : ProfileArtifact) (fit : FitResult) : json :=
  JObj [("schema_version", JStr "1.0"); ("profile_digest", JStr (pa_artifact_digest artifact));
        ("observed_at", JStr (mx_measured_at_isoformat m));
        ("host_budget", PhysicalBudget_dump (host_budget m a));
        ("device_budget", json_opt PhysicalBudget_dump (device_budget m a));
        ("assessment", FitResult_dump fit)].

Definition memory_measurement (m : Machine) (a : RunArguments) (samples : list MemorySample)
    (physical : list PhysicalSample) (timed_out : bool) : MemoryMeasurement := {|
  mem_admission_capacity := ar_capacity a; mem_samples := samples; mem_physical_samples := physical;
  mem_physical_sample_interval_seconds := ar_sample_interval_seconds a;
  mem_completed := run_completed m; mem_error := run_error m timed_out |}.

Definition compute_measurement (m : Machine) (a : RunArguments) (timings : list TimingRecord)
    (timed_out : bool) : ComputeRunMeasurement := {|
  cr_admission_capacity := ar_capacity a; cr_records := timings;
  cr_identical_output_cycles := identical_cycles (run_events m);
  cr_completed := run_completed m; cr_error := run_error m timed_out |}.

(** The records become a sealed artifact, its file and what is derived from it. *)
Definition seal_profile (m : Machine) (a : RunArguments) (key : ProfileKey)
    (physical : list PhysicalSample) (timed_out : bool) : RunM ProfileArtifact :=
  key ← lift (measured_key m a key);
  samples ← lift (mapM validate_sample (sample_events (run_events m)));
  match ar_mode a with
  | COMPUTE_MODE =>
    timings ← lift (mapM validate_timing (timing_events (run_events m)));
    artifact ← lift (make_artifact key (run_conditions m a)
                       (ComputeRun (compute_measurement m a timings timed_out)));
    write_exclusive (output_file (ar_output a)) (ProfileArtifact_dump artifact) ;;
    summary ← lift (summarize_compute artifact);
    write_exclusive (summary_file (ar_output a)) (ComputeSummary_dump summary) ;;
    mret artifact
  | MEMORY_MODE =>
    artifact ← lift (make_artifact key (run_conditions m a)
                       (Memory (memory_measurement m a samples physical timed_out)));
    write_exclusive (output_file (ar_output a)) (ProfileArtifact_dump artifact) ;;
    fit ← lift (assess_fit artifact (ar_capacity a) (host_budget m a) (device_budget m a)
                  (ar_mlx_fit_policy a));
    write_exclusive (fit_file (ar_output a)) (fit_record m a artifact fit) ;;
    mret artifact
  end.

Definition run_memory_profile (m : Machine) (a : RunArguments) : RunM ProfileArtifact :=
  key ← preflight m a;
  write_spec m a ;;
  '(physical, timed_out) ← run_process m a;
  seal_profile m a key physical timed_out.
End runner.

(** ** Computations over the files *)

Lemma runm_bind_inv {A B} (m : RunM A) (f : A -> RunM B) s s' r :
  (m ≫= f) s = (s', r) ->
  (exists a s1, m s = (s1, Ok a) /\ f a s1 = (s', r)) \/ (exists e, m s = (s', Err e) /\ r = Err e).
Proof.
  unfold mbind, runm_bind. destruct (m s) as [s1 [a|e]]; [left; by exists a, s1|].
  intros [= -> <-]. right. by exists e.
Qed.

Lemma runm_bind_ok {A B} (m : RunM A) (f : A -> RunM B) s s' b :
  (m ≫= f) s = (s', Ok b) -> exists a s1, m s = (s1, Ok a) /\ f a s1 = (s', Ok b).
Proof. intros [(a & s1 & ? & ?)|(e & _ & [=])]%runm_bind_inv. by exists a, s1. Qed.

Lemma lift_bind_ok {A B} (x : result A) (f : A -> RunM B) s s' b :
  (lift x ≫= f) s = (s', Ok b) -> exists a, x = Ok a /\ f a s = (s', Ok b).
Proof. intros (a & s1 & [= <- ->] & E)%runm_bind_ok. by exists a. Qed.

Lemma open_exclusive_ok path c s s' u : open_exclusive path c s = (s', Ok u) ->
  rs_files s !! path = None /\ rs_files s' = <[path := c]> (rs_files s)
  /\ rs_launched s' = rs_launched s /\ rs_killed s' = rs_killed s.
Proof. unfold open_exclusive. destruct (rs_files s !! path) eqn:E; [done|]. by intros [= <- _]. Qed.

(** Only the files of the run appear, and no file is replaced outside of [raw]. *)
Record kept_files (output : OutputPath) (raw : list string) (s s' : RunnerState) : Prop := {
  kp_kept : forall p c, p ∉ raw -> rs_files s !! p = Some c -> rs_files s' !! p = Some c;
  kp_new : forall p, rs_files s !! p = None -> is_Some (rs_files s' !! p) -> p ∈ output_files output
}.

#[export] Instance kept_preorder output raw : PreOrder (kept_files output raw).
Proof.
  split; [intros s; split; [done|]; intros p -> []%is_Some_None|].
  intros a b c [H1 H2] [H3 H4]. split; [eauto|]. intros p Ha Hc.
  destruct (rs_files b !! p) eqn:E; [|by apply H4]. apply H2; [done|by eexists].
Qed.

Definition keeps_files {A} (output : OutputPath) (raw : list string) (m : RunM A) : Prop :=
  forall s s' r, m s = (s', r) -> kept_files output raw s s'.

Lemma keeps_files_bind {A B} output raw (m : RunM A) (f : A -> RunM B) :
  keeps_files output raw m -> (forall a, keeps_files output raw (f a)) -> keeps_files output raw (m ≫= f).
Proof.
  intros Hm Hf s s' r [(a & s1 & E1 & E2)|(e & E & _)]%runm_bind_inv.
  - etrans; [by eapply Hm|by eapply Hf].
  - by eapply Hm.
Qed.

Lemma keeps_files_lift {A} output raw (r : result A) : keeps_files output raw (lift r).
Proof. by intros s s' r' [= <- _]. Qed.

Lemma keeps_files_ret {A} output raw (a : A) : keeps_files output raw (mret a).
Proof. by intros s s' r' [= <- _]. Qed.

Lemma keeps_files_insert output raw path c s launched killed :
  path ∈ output_files output -> (path ∈ raw \/ rs_files s !! path = None) ->
  kept_files output raw s {| rs_files := <[path := c]> (rs_files s); rs_launched := launched; rs_killed := killed |}.
Proof.
  intros Hin Hp. split; simpl.
  - intros p c' Hne Hc. destruct (decide (p = path)) as [->|].
    + destruct Hp as [?|Hp]; [done|congruence].
    + by rewrite lookup_insert_ne.
  - intros p Hn [c' Hc]. apply lookup_insert_Some in Hc as [[-> _]|[_ ?]]; [done|congruence].
Qed.

Lemma keeps_files_open output raw path c : path ∈ output_files output -> keeps_files output raw (open_exclusive path c).
Proof.
  intros Hin s s' r. unfold open_exclusive. destruct (rs_files s !! path) eqn:E; intros [= <- _]; [done|].
  apply keeps_files_insert; [done|by right].
Qed.

Lemma keeps_files_launch output raw killed : keeps_files output raw (launch killed).
Proof. intros s s' r [= <- _]. split; [done|]. intros p Hn Hs. simpl in Hs. rewrite Hn in Hs. by apply is_Some_None in Hs. Qed.

Lemma keeps_files_raw output wrote : keeps_files output [raw_file output] (leave_raw (raw_file output) wrote).
Proof.
  intros s s' r [= <- _]. destruct wrote; [|done]. apply keeps_files_insert; [|left; set_solver].
  unfold output_files. set_solver.
Qed.

(** Programs that do not start the process. *)
Definition unlaunched {A} (m : RunM A) : Prop :=
  forall s s' r, m s = (s', r) -> rs_launched s' = rs_launched s.

Lemma quiet_bind {A B} (m : RunM A) (f : A -> RunM B) : unlaunched m -> (forall a, unlaunched (f a)) -> unlaunched (m ≫= f).
Proof.
  intros Hm Hf s s' r [(a & s1 & E1 & E2)|(e & E & _)]%runm_bind_inv; [|by eapply Hm].
  etrans; [by eapply Hf|by eapply Hm].
Qed.
Lemma quiet_lift {A} (r : result A) : unlaunched (lift r).
Proof. by intros s s' r' [= <- _]. Qed.
Lemma quiet_ret {A} (a : A) : unlaunched (mret a).
Proof. by intros s s' r' [= <- _]. Qed.
Lemma quiet_open path c : unlaunched (open_exclusive path c).
Proof. intros s s' r. unfold open_exclusive. by destruct (rs_files s !! path); intros [= <- _]. Qed.

Create HintDb run.
#[export] Hint Resolve keeps_files_lift keeps_files_ret keeps_files_open keeps_files_launch keeps_files_raw quiet_lift quiet_ret quiet_open : run.

(** Decomposes a run into its operations. *)
Ltac run_steps :=
  repeat match goal with
  | |- keeps_files _ _ (_ ≫= _) => apply keeps_files_bind; [|intros]
  | |- unlaunched (_ ≫= _) => apply quiet_bind; [|intros]
  | |- keeps_files _ _ (let _ := _ in _) => cbv zeta
  | |- unlaunched (let _ := _ in _) => cbv zeta
  | |- keeps_files _ _ (let '(_, _) := ?x in _) => destruct x
  | |- keeps_files _ _ (match ?x with _ => _ end) => destruct x
  | |- unlaunched (match ?x with _ => _ end) => destruct x
  | |- keeps_files _ _ (write_exclusive _ _) => apply keeps_files_open; unfold output_files; set_solver
  | |- unlaunched (write_exclusive _ _) => apply quiet_open
  | |- keeps_files _ _ (open_exclusive _ _) => apply keeps_files_open; unfold output_files; set_solver
  | |- keeps_files _ _ _ => solve [auto with run]
  | |- unlaunched _ => solve [auto with run]
  end.

Lemma keeps_check_outputs output raw a : keeps_files output raw (check_outputs a).
Proof. by intros s s' r [= <- _]. Qed.
Lemma quiet_check_outputs a : unlaunched (check_outputs a).
Proof. by intros s s' r [= <- _]. Qed.
#[export] Hint Resolve keeps_check_outputs quiet_check_outputs : run.

Lemma check_outputs_ok a s s' u : check_outputs a s = (s', Ok u) ->
  s' = s /\ Forall (fun p => rs_files s !! p = None) (output_files (ar_output a)).
Proof.
  unfold check_outputs, mbind, runm_bind, get_files. cbn -[List.find output_files].
  destruct (List.find _ _) as [path|] eqn:E; [done|]. intros [= <- _]. split; [done|].
  apply find_none_Forall in E. eapply Forall_impl; [exact E|]. intros p Hp. simpl in Hp.
  apply bool_decide_eq_false in Hp. by apply eq_None_not_Some.
Qed.

Section runner_facts.
Context `{Hash}.
Context (message_to_dict : PbDeploymentPlan -> PbModelManifest -> Z -> json).

Lemma keeps_preflight m a raw : keeps_files (ar_output a) raw (preflight m a).
Proof. unfold preflight. run_steps. Qed.
Lemma quiet_preflight m a : unlaunched (preflight m a).
Proof. unfold preflight. run_steps. Qed.
Lemma keeps_write_spec m a raw : keeps_files (ar_output a) raw (write_spec message_to_dict m a).
Proof. unfold write_spec. run_steps. Qed.
Lemma quiet_write_spec m a : unlaunched (write_spec message_to_dict m a).
Proof. unfold write_spec. run_steps. Qed.
Lemma keeps_run_process m a : keeps_files (ar_output a) [raw_file (ar_output a)] (run_process m a).
Proof. unfold run_process. run_steps. Qed.
Lemma keeps_seal m a key physical timed_out : keeps_files (ar_output a) [raw_file (ar_output a)] (seal_profile m a key physical timed_out).
Proof. unfold seal_profile. run_steps. Qed.
Lemma quiet_seal m a key physical timed_out : unlaunched (seal_profile m a key physical timed_out).
Proof. unfold seal_profile. run_steps. Qed.

Lemma keeps_run m a : keeps_files (ar_output a) [raw_file (ar_output a)] (run_memory_profile message_to_dict m a).
Proof.
  unfold run_memory_profile. apply keeps_files_bind; [apply keeps_preflight|]. intros key.
  apply keeps_files_bind; [apply keeps_write_spec|]. intros _.
  apply keeps_files_bind; [apply keeps_run_process|]. intros [physical timed_out]. apply keeps_seal.
Qed.

(** ** The checkpoint and the preflight *)

(** A file of the manifest as it lies below the model root. *)
Definition shard_present (m : Machine) (shard : TensorFile) : Prop :=
  exists f, mx_checkpoint m (tf_name shard) = Some f /\ cf_inside f = true
    /\ Z.of_nat (String.length (cf_data f)) = tf_size_bytes shard
    /\ forall h, tf_sha256 shard = Some h -> sha256_hex (cf_data f) = h.

Lemma sha256_of_data data : sha256_of data = sha256_hex data.
Proof. apply sha256_file_whole. lia. Qed.

Lemma hash_shards_present m shards hashes hashes' :
  hash_shards m hashes shards = Ok hashes' -> Forall (shard_present m) shards.
Proof.
  revert hashes. induction shards as [|shard shards IH]; intros hashes E; [constructor|]. simpl in E.
  apply bind_ok in E as (h1 & E1 & E). constructor; [|by eapply IH].
  unfold hash_shard, resolve_strict in E1. destruct (mx_checkpoint m (tf_name shard)) as [f|] eqn:Ef; [|done].
  simpl in E1. apply bind_ok in E1 as (u & E1 & E2). apply bind_ok in E2 as (u' & E2 & _).
  rewrite raise_if_ok in E1, E2. apply orb_false_iff in E1 as [Hi Hs]. exists f. split_and!; [done| | |].
  - by apply negb_false_iff in Hi.
  - by apply negb_false_iff, (proj1 (pyeqb_eq (A := Z) _ _)) in Hs.
  - intros h Hh. rewrite Hh in E2. apply negb_false_iff, (proj1 (pyeqb_eq (A := string) _ _)) in E2.
    by rewrite E2, sha256_of_data.
Qed.

Lemma checkpoint_present m manifest d : checkpoint_digest m manifest = Ok d ->
  (exists f, mx_checkpoint m "config.json" = Some f /\ cf_inside f = true
     /\ sha256_hex (cf_data f) = sd_config_sha256 (mm_source manifest))
  /\ Forall (shard_present m) (mm_tensor_files manifest).
Proof.
  unfold checkpoint_digest, resolve_strict. destruct (mx_checkpoint m "config.json") as [f|]; [|done].
  cbn [mbind result_bind]. intros E. apply bind_ok in E as (u & E1 & E). apply bind_ok in E as (u' & E2 & E).
  apply bind_ok in E as (hashes & E3 & _). rewrite raise_if_ok in E1, E2.
  apply negb_false_iff in E1, E2. apply (proj1 (pyeqb_eq (A := string) _ _)) in E2.
  split; [exists f; by rewrite <- sha256_of_data|by eapply hash_shards_present].
Qed.

(** More memory never makes a demand exceed it. *)
Lemma float_gt_int_mono x n n' : (n <= n')%Z -> float_gt_int x n = false -> float_gt_int x n' = false.
Proof.
  intros Hn. destruct x as [s|s| |s mt e]; simpl; try done; [lia|].
  destruct (0 <=? e)%Z eqn:He; [lia|]. rewrite !Z.ltb_ge. intros Hx.
  pose proof (Z.pow_nonneg 2 (- e) ltac:(lia)). nia.
Qed.

(** What a pool must have answered for native work to start. *)
Definition pool_admits (cap : Z) (b : PhysicalBudget) (available : Z) : Prop :=
  exists demand, probe_demand cap b = Ok demand /\ float_gt_int demand available = false.

Lemma preflight_reason_nil name cap b : preflight_reason name cap (Some b) = Ok [] ->
  exists available, pb_available_bytes b = Some available /\ pool_admits cap b available.
Proof.
  unfold preflight_reason. destruct (pb_available_bytes b) as [available|]; [|done]. intros E.
  apply bind_ok in E as (demand & Ed & E). destruct (float_gt_int demand available) eqn:Eg; [done|].
  exists available. split; [done|]. by exists demand.
Qed.

(** What is known of a run whose native process starts. *)
Record native_admitted (m : Machine) (a : RunArguments) (key : ProfileKey) : Prop := {
  am_limits : limits_invalid a = false;
  am_manifest : dp_manifest_digest (ar_plan a) = mm_manifest_digest (ar_manifest a);
  am_stage : dp_stages (ar_plan a) !! Z.to_nat (ar_stage_index a) = Some (pk_assignment key);
  am_config : exists f, mx_checkpoint m "config.json" = Some f /\ cf_inside f = true
    /\ sha256_hex (cf_data f) = sd_config_sha256 (mm_source (ar_manifest a));
  am_shards : Forall (shard_present m) (mm_tensor_files (ar_manifest a));
  am_key : validate_ProfileKey key = Ok key;
  am_scope : pk_manifest_digest key = mm_manifest_digest (ar_manifest a) /\ pk_workload key = ar_workload a
    /\ en_backend (pk_environment key) = ar_backend a;
  am_binary : exists binary, mx_binary m = Some binary
    /\ en_binary_digest (pk_environment key) = sha256_hex binary;
  am_host : exists available, mx_host_available m = Some available
    /\ pool_admits (host_cap a) (host_budget m a) available;
  am_device : ar_backend a = CUDA -> exists before after budget,
    mx_device_available_before_read m = Some before /\ mx_device_available_after_read m = Some after
    /\ device_budget m a = Some budget
    /\ pool_admits (ma_device (ar_capacity a)) budget before
    /\ pool_admits (ma_device (ar_capacity a)) budget after
}.

Lemma check_arguments_ok a stage : check_arguments a = Ok stage ->
  limits_invalid a = false /\ dp_manifest_digest (ar_plan a) = mm_manifest_digest (ar_manifest a)
  /\ dp_stages (ar_plan a) !! Z.to_nat (ar_stage_index a) = Some stage.
Proof.
  unfold check_arguments. intros E. apply bind_ok in E as (? & _ & E). apply bind_ok in E as (? & Em & E).
  rewrite raise_if_ok in Em. apply negb_false_iff, (proj1 (pyeqb_eq (A := string) _ _)) in Em.
  destruct (last _); [|done]. destruct (dp_stages _ !! _) as [stage'|]; [|done].
  apply bind_ok in E as (? & _ & E). apply bind_ok in E as (? & _ & E). apply bind_ok in E as (? & _ & E).
  apply bind_ok in E as (? & El & E). apply raise_if_ok in El. by apply Ok_inj in E as ->.
Qed.

Lemma preflight_reasons_nil m a : preflight_reasons m a = Ok [] ->
  (exists available, mx_host_available m = Some available
     /\ pool_admits (host_cap a) (host_budget m a) available)
  /\ (ar_backend a = CUDA -> exists before after budget,
        mx_device_available_before_read m = Some before /\ mx_device_available_after_read m = Some after
        /\ device_budget m a = Some budget
        /\ pool_admits (ma_device (ar_capacity a)) budget before
        /\ pool_admits (ma_device (ar_capacity a)) budget after).
Proof.
  unfold preflight_reasons. intros E. apply bind_ok in E as (host & Eh & E).
  apply bind_ok in E as (device & Ed & E). apply Ok_inj, app_eq_nil in E as [-> ->].
  apply preflight_reason_nil in Eh as Hh. split; [exact Hh|]. intros Hc. unfold device_budget in Ed |- *.
  rewrite Hc in Ed |- *. apply preflight_reason_nil in Ed as (available & Ha & demand & Hd & Hg).
  simpl in Ha. unfold device_available in Ha. rewrite Hc in Ha.
  destruct (mx_device_available_before_read m) as [before|]; [|done].
  destruct (mx_device_available_after_read m) as [after|]; [|done]. injection Ha as <-.
  eexists before, after, _. do 3 (split; [done|]).
  split; exists demand; (split; [exact Hd|]); (eapply float_gt_int_mono; [|exact Hg]); lia.
Qed.

Lemma validate_ProfileKey_self k k' : validate_ProfileKey k = Ok k' -> k' = k.
Proof.
  unfold validate_ProfileKey. intros E. apply bind_ok in E as (? & _ & E). apply bind_ok in E as (? & _ & E).
  by apply Ok_inj in E.
Qed.

Lemma preflight_ok m a s s' key : preflight m a s = (s', Ok key) ->
  native_admitted m a key
  /\ Forall (fun p => rs_files s !! p = None) (output_files (ar_output a))
  /\ rs_files s' !! preflight_file (ar_output a) = Some (JsonText (preflight_record m a key [])).
Proof.
  unfold preflight. intros E. apply lift_bind_ok in E as (stage & Es & E).
  apply lift_bind_ok in E as (binary & Eb & E). apply lift_bind_ok in E as (? & _ & E).
  apply runm_bind_ok in E as (? & s1 & Ec & E). apply check_outputs_ok in Ec as [-> Hfree]. cbv zeta in E.
  apply lift_bind_ok in E as (? & _ & E). apply lift_bind_ok in E as (checkpoint & Ek & E).
  apply lift_bind_ok in E as (key' & Ev & E). apply lift_bind_ok in E as (? & _ & E).
  apply lift_bind_ok in E as (? & _ & E). apply lift_bind_ok in E as (reasons & Er & E).
  apply runm_bind_ok in E as (? & s2 & Ew & E). apply lift_bind_ok in E as (? & En & E).
  injection E as <- <-. apply raise_if_ok, negb_false_iff in En. destruct reasons; [|done].
  destruct (mx_binary m) as [binary'|] eqn:Hb; [|done]. apply Ok_inj in Eb as ->.
  apply open_exclusive_ok in Ew as (_ & -> & _).
  pose proof (validate_ProfileKey_self _ _ Ev) as Hk. split; [|split; [done|apply lookup_insert_eq]].
  apply check_arguments_ok in Es as (Hl & Hm & Hs). apply checkpoint_present in Ek as [Hc Hsh].
  apply preflight_reasons_nil in Er as [Hh Hd]. rewrite Hk.
  constructor; try done; [by rewrite Ev, Hk|]. exists binary. split; [done|apply sha256_of_data].
Qed.

(** ** The whole run *)

Lemma run_adds m a s s' r : run_memory_profile message_to_dict m a s = (s', r) ->
  rs_files s ⊆ rs_files s'
  /\ forall p, rs_files s !! p = None -> is_Some (rs_files s' !! p) -> p ∈ output_files (ar_output a).
Proof.
  intros E. pose proof (keeps_run m a s s' r E) as [Hk Hn]. split; [|done].
  apply map_subseteq_spec. intros p c Hc. apply runm_bind_inv in E as [(key & s1 & E1 & E)|(e & E & _)].
  - apply preflight_ok in E1 as (_ & Hfree & _). rewrite Forall_forall in Hfree. apply Hk; [|done].
    intros ->%list_elem_of_singleton. rewrite Hfree in Hc; [done|]. unfold output_files. set_solver.
  - apply (keeps_preflight m a [] s s' _ E); [apply not_elem_of_nil|done].
Qed.

Lemma kept_lookup output raw s s' p c : kept_files output raw s s' -> p ∉ raw ->
  rs_files s !! p = Some c -> rs_files s' !! p = Some c.
Proof. intros [Hk _]. apply Hk. Qed.

Lemma elem_of_singleton_ne {A} (x y : A) : x <> y -> x ∉ [y].
Proof. by intros Hne ?%list_elem_of_singleton. Qed.

Lemma suffix_ne output a b : a <> b -> with_suffix output a <> with_suffix output b.
Proof. intros Hab E. by apply str_app_inj_l in E. Qed.

Lemma write_spec_ok m a s s' u : write_spec message_to_dict m a s = (s', Ok u) ->
  exists load, rs_files s' !! spec_file (ar_output a) = Some (JsonText (spec_record a load)).
Proof.
  unfold write_spec. intros E. apply lift_bind_ok in E as (plan & _ & E).
  apply lift_bind_ok in E as (manifest & _ & E). apply lift_bind_ok in E as (index & _ & E).
  apply open_exclusive_ok in E as (_ & -> & _). eexists. apply lookup_insert_eq.
Qed.

(** C24: no native work starts before it is admitted, and no run touches a file it did not
    make.  Whatever the machine answers and however the run ends, the files that existed
    are unchanged and only files of the run appear.  If the process was started, then the
    arguments were in range, the checkpoint lay below the model root exactly as the
    manifest describes it (size and digest of every shard), the key of the profile was
    valid, no output of the run existed, the record of an accepted preflight and the
    specification were on disk, and the configured cap with its margin, headroom and
    overhead fitted what the host - and on CUDA both samples of the device - had
    available. *)
Theorem native_run_admitted m a s s' r :
  run_memory_profile message_to_dict m a s = (s', r) ->
  rs_files s ⊆ rs_files s'
  /\ (forall p, rs_files s !! p = None -> is_Some (rs_files s' !! p) -> p ∈ output_files (ar_output a))
  /\ (rs_launched s = false -> rs_launched s' = true ->
        exists key, native_admitted m a key
          /\ Forall (fun p => rs_files s !! p = None) (output_files (ar_output a))
          /\ rs_files s' !! preflight_file (ar_output a) = Some (JsonText (preflight_record m a key []))
          /\ exists load, rs_files s' !! spec_file (ar_output a) = Some (JsonText (spec_record a load))).
Proof.
  intros E. destruct (run_adds m a s s' r E) as [Hk Hn]. split; [done|]. split; [done|]. intros Hl Hl'.
  apply runm_bind_inv in E as [(key & s1 & E1 & E)|(e & E & _)]; [|apply quiet_preflight in E; congruence].
  pose proof (quiet_preflight m a _ _ _ E1) as Hq. apply preflight_ok in E1 as (Ha & Hfree & Hp).
  apply runm_bind_inv in E as [([] & s2 & E2 & E)|(e & E & _)]; [|apply quiet_write_spec in E; congruence].
  exists key. split; [done|]. split; [done|].
  assert (K2 : kept_files (ar_output a) [raw_file (ar_output a)] s2 s').
  { revert E. apply keeps_files_bind; [apply keeps_run_process|]. intros [physical timed_out]. apply keeps_seal. }
  split.
  - eapply (kept_lookup _ _ _ _ _ _ K2); [by apply elem_of_singleton_ne, suffix_ne|].
    eapply kept_lookup; [by eapply (keeps_write_spec m a [])|apply not_elem_of_nil|done].
  - destruct (write_spec_ok m a _ _ _ E2) as [load Hs]. exists load.
    eapply (kept_lookup _ _ _ _ _ _ K2); [by apply elem_of_singleton_ne, suffix_ne|done].
Qed.

(** *** What a returned profile holds *)

Lemma make_artifact_spec key conditions m p : make_artifact key conditions m = Ok p ->
  pa_key p = key /\ pa_conditions p = conditions /\ pa_measurement p = m
  /\ validate_ProfileArtifact p = Ok p /\ Measurement_fields m = true /\ content_ok key conditions m.
Proof.
  unfold make_artifact. intros E. assert (Hp := E). unfold validate_ProfileArtifact in E.
  apply bind_ok in E as (? & Ef & E). apply bind_ok in E as ([] & Ev & E). apply Ok_inj in E as <-.
  split_and!; [done..| | |].
  - exact Hp.
  - unfold fields_ok in Ef. apply raise_if_ok, negb_false_iff in Ef. unfold ProfileArtifact_fields in Ef.
    rewrite !andb_true_iff in Ef. by destruct Ef as [[_ Hm] _].
  - by apply verify_made in Ev.
Qed.

Lemma mapM_same {A} (f : A -> result A) l k :
  (forall x y, f x = Ok y -> y = x) -> mapM f l = Ok k -> k = l.
Proof. intros Hf Hk%mapM_ok. induction Hk as [|x y l k Hx _ ->]; [done|]. by rewrite (Hf _ _ Hx). Qed.

Lemma validate_sample_same x y : validate_sample x = Ok y -> y = x.
Proof.
  unfold validate_sample. intros E. apply bind_ok in E as (? & _ & E). apply bind_ok in E as (? & _ & E).
  by apply Ok_inj in E.
Qed.
Lemma validate_timing_same x y : validate_timing x = Ok y -> y = x.
Proof. unfold validate_timing. intros E. apply bind_ok in E as (? & _ & E). by apply Ok_inj in E. Qed.

Lemma run_completed_iff m : run_completed m = true <-> mx_returncode m = 0%Z /\ Complete ∈ run_events m.
Proof.
  unfold run_completed. rewrite andb_true_iff, Z.eqb_eq, existsb_exists. setoid_rewrite <- list_elem_of_In.
  split; intros [Hr Hc]; (split; [done|]); [by destruct Hc as ([] & Hc & ?)|by exists Complete].
Qed.

(** The native process that answered, and the key it completed. *)
Record measured_by (m : Machine) (a : RunArguments) (key key' : ProfileKey) (env : NativeEnvironment) : Prop := {
  mb_event : EnvironmentEvent env ∈ run_events m;
  mb_backend : nv_backend env = native_backend (ar_backend a);
  mb_chunk : default 0%Z (nv_prefill_chunk_tokens env) = wl_prefill_chunk_tokens (ar_workload a);
  mb_key : key' = with_environment key (pk_environment key');
  mb_binary : en_binary_digest (pk_environment key') = en_binary_digest (pk_environment key);
  mb_named : en_backend (pk_environment key') = en_backend (pk_environment key)
}.

Lemma measured_key_ok m a key key' : measured_key m a key = Ok key' ->
  exists env, measured_by m a key key' env.
Proof.
  unfold measured_key. destruct (environment_events (run_events m)) as [|env rest] eqn:Ee; [done|].
  intros E. apply bind_ok in E as (? & Eb & E). apply bind_ok in E as (? & Ec & E).
  apply bind_ok in E as ([device_name driver_version] & _ & E). apply bind_ok in E as (? & _ & E).
  apply validate_ProfileKey_self in E. rewrite raise_if_ok in Eb, Ec.
  apply negb_false_iff, (proj1 (pyeqb_eq (A := string) _ _)) in Eb.
  apply negb_false_iff, (proj1 (pyeqb_eq (A := Z) _ _)) in Ec.
  exists env. rewrite E. constructor; try done.
  assert (Hin : env ∈ environment_events (run_events m)) by (rewrite Ee; apply list_elem_of_here).
  apply list_elem_of_omap in Hin as ([] & Hr & [= ->]). done.
Qed.

Lemma run_process_ok m a s s' physical timed_out :
  run_process m a s = (s', Ok (physical, timed_out)) ->
  rs_launched s' = true
  /\ watch (ar_mode a) (ar_timeout_seconds a) (mx_ticks m) = Ok (physical, timed_out)
  /\ rs_killed s' = timed_out.
Proof.
  unfold run_process. intros E. apply lift_bind_ok in E as (? & _ & E).
  apply runm_bind_ok in E as (? & s1 & _ & E). apply lift_bind_ok in E as (? & _ & E). cbv zeta in E.
  apply runm_bind_ok in E as (? & s2 & [= <- _] & E). apply runm_bind_ok in E as (? & s3 & [= <- _] & E).
  injection E as <- Ew. rewrite Ew. by destruct (mx_raw m).
Qed.

(** The profile of a memory run and its fit. *)
Definition memory_profile (m : Machine) (a : RunArguments) (s' : RunnerState) (p : ProfileArtifact) : Prop :=
  exists mm fit, pa_measurement p = Memory mm
    /\ mem_samples mm = sample_events (run_events m)
    /\ (mem_completed mm = true <-> mx_returncode m = 0%Z /\ Complete ∈ run_events m)
    /\ (if mem_completed mm
        then ((fun x => (ms_cycle x, ms_phase x)) <$> mem_samples mm)
               = expected_phases (ar_warmup_cycles a + ar_measured_cycles a) /\ mem_error mm = None
        else error_present (mem_error mm) = true)
    /\ assess_fit p (ar_capacity a) (host_budget m a) (device_budget m a) (ar_mlx_fit_policy a) = Ok fit
    /\ rs_files s' !! fit_file (ar_output a) = Some (JsonText (fit_record m a p fit)).

(** The profile of a compute run and its summary. *)
Definition compute_profile (m : Machine) (a : RunArguments) (s' : RunnerState) (p : ProfileArtifact) : Prop :=
  exists cr summary, pa_measurement p = ComputeRun cr
    /\ cr_records cr = timing_events (run_events m)
    /\ (cr_completed cr = true <-> mx_returncode m = 0%Z /\ Complete ∈ run_events m)
    /\ (if cr_completed cr
        then run_identity <$> cr_records cr
               ≡ₚ expected_run (pa_key p) (ar_warmup_cycles a + ar_measured_cycles a)
        else error_present (cr_error cr) = true)
    /\ summarize_compute p = Ok summary
    /\ rs_files s' !! summary_file (ar_output a) = Some (JsonText (ComputeSummary_dump summary)).

Lemma written_lookup path j s s' u : write_exclusive path j s = (s', Ok u) -> rs_files s' !! path = Some (JsonText j).
Proof. intros (_ & -> & _)%open_exclusive_ok. apply lookup_insert_eq. Qed.

Lemma written_kept path path' j j' s s1 s' u u' :
  write_exclusive path j s = (s1, Ok u) -> write_exclusive path' j' s1 = (s', Ok u') ->
  rs_files s' !! path = Some (JsonText j).
Proof.
  intros E (Hn & -> & _)%open_exclusive_ok. apply written_lookup in E. rewrite lookup_insert_ne; [done|].
  intros ->. congruence.
Qed.

Lemma seal_profile_ok m a key physical timed_out s s' p :
  seal_profile m a key physical timed_out s = (s', Ok p) ->
  exists key' env, measured_by m a key key' env /\ pa_key p = key' /\ pa_conditions p = run_conditions m a
    /\ validate_ProfileArtifact p = Ok p
    /\ rs_files s' !! output_file (ar_output a) = Some (JsonText (ProfileArtifact_dump p))
    /\ match ar_mode a with
       | MEMORY_MODE => memory_profile m a s' p
       | COMPUTE_MODE => compute_profile m a s' p
       end.
Proof.
  unfold seal_profile. intros E. apply lift_bind_ok in E as (key' & Ek & E).
  apply measured_key_ok in Ek as [env Hm]. exists key', env. split; [done|].
  apply lift_bind_ok in E as (samples & Es & E). apply (mapM_same _ _ _ validate_sample_same) in Es as ->.
  destruct (ar_mode a).
  - apply lift_bind_ok in E as (p' & Ep & E). apply runm_bind_ok in E as (? & s1 & E1 & E).
    apply lift_bind_ok in E as (fit & Ef & E). apply runm_bind_ok in E as (? & s2 & E2 & [= <- ->]).
    apply make_artifact_spec in Ep as (-> & -> & Hme & Hv & _ & _ & Hc). split_and!; [done..| |].
    + by eapply written_kept.
    + eexists _, fit. split; [exact Hme|]. split; [done|]. split; [apply run_completed_iff|].
      split; [|split; [done|by eapply written_lookup]].
      cbn [mem_completed mem_error mem_samples memory_measurement] in Hc |- *.
      destruct (run_completed m); [by destruct Hc as (? & ? & _)|done].
  - apply lift_bind_ok in E as (timings & Et & E). apply (mapM_same _ _ _ validate_timing_same) in Et as ->.
    apply lift_bind_ok in E as (p' & Ep & E). apply runm_bind_ok in E as (? & s1 & E1 & E).
    apply lift_bind_ok in E as (summary & Ef & E). apply runm_bind_ok in E as (? & s2 & E2 & [= <- ->]).
    apply make_artifact_spec in Ep as (Hk & -> & Hme & Hv & Hf & Hc). split_and!; [done..| |].
    + by eapply written_kept.
    + eexists _, summary. split; [exact Hme|]. split; [done|]. split; [apply run_completed_iff|].
      split; [|split; [done|by eapply written_lookup]].
      cbn [cr_completed cr_error cr_records compute_measurement content_ok] in Hc |- *. rewrite Hk.
      destruct (run_completed m); [|done]. apply (compute_run_records _ _ _ Hc).
      cbn [Measurement_fields] in Hf. unfold ComputeRunMeasurement_fields in Hf.
      rewrite !andb_true_iff in Hf. by destruct Hf as [[_ Hf] _].
Qed.

(** C25: a profile that the runner returns is what the native process measured.  The
    process was started, the artifact passes its own validation and lies in the output
    file; its key names the manifest, the stage of the plan, the workload and the binary
    that ran, and the native process reported that very backend and prefill chunk.  Its
    records are exactly the native records up to the first unreadable line; it is
    completed exactly when the process exited with 0 and said so, and then every phase of
    every cycle, or every timing the workload calls for, is there once - otherwise it
    carries an error.  The fit, or the summary, derived from it lies next to it. *)
Theorem profile_sealed m a s s' p :
  run_memory_profile message_to_dict m a s = (s', Ok p) ->
  rs_launched s' = true
  /\ validate_ProfileArtifact p = Ok p
  /\ rs_files s' !! output_file (ar_output a) = Some (JsonText (ProfileArtifact_dump p))
  /\ pk_manifest_digest (pa_key p) = mm_manifest_digest (ar_manifest a)
  /\ dp_stages (ar_plan a) !! Z.to_nat (ar_stage_index a) = Some (pk_assignment (pa_key p))
  /\ pk_workload (pa_key p) = ar_workload a
  /\ en_backend (pk_environment (pa_key p)) = ar_backend a
  /\ (exists binary, mx_binary m = Some binary
        /\ en_binary_digest (pk_environment (pa_key p)) = sha256_hex binary)
  /\ (exists env, EnvironmentEvent env ∈ run_events m /\ nv_backend env = native_backend (ar_backend a)
        /\ default 0%Z (nv_prefill_chunk_tokens env) = wl_prefill_chunk_tokens (ar_workload a))
  /\ match ar_mode a with
     | MEMORY_MODE => memory_profile m a s' p
     | COMPUTE_MODE => compute_profile m a s' p
     end.
Proof.
  unfold run_memory_profile. intros E. apply runm_bind_ok in E as (key & s1 & E1 & E).
  apply runm_bind_ok in E as (u & s2 & _ & E). apply runm_bind_ok in E as ([physical timed_out] & s3 & E3 & E).
  apply run_process_ok in E3 as (Hl & _ & _). apply (quiet_seal m a) in E as Hq.
  apply seal_profile_ok in E as (key' & env & Hm & Hk & _ & Hv & Hf & Hmode). apply preflight_ok in E1 as (Ha & _).
  destruct (am_binary _ _ _ Ha) as (binary & Hb & Hbd). destruct Hm as [Hev Hback Hchunk Hkey Hbin Hnamed].
  destruct (am_scope _ _ _ Ha) as (Hsm & Hsw & Hsb). pose proof (am_stage _ _ _ Ha) as Hst. rewrite Hk.
  split_and!; try done.
  - by rewrite Hq.
  - by rewrite Hkey.
  - by rewrite Hkey.
  - by rewrite Hkey.
  - by rewrite Hnamed.
  - exists binary. by rewrite Hbin.
  - by exists env.
Qed.
End runner_facts.

(** ** A concrete run: the compute profile of a first stage, and a memory run that hangs *)
Module RunnerDemo.
Import ProfilesDemo FitDemo WireDemo.
#[local] Existing Instance ProfilesDemo.demo_hash.

Definition run_manifest : ModelManifest := {|
  mm_schema_version := mm_schema_version demo_manifest; mm_manifest_id := mm_manifest_id demo_manifest;
  mm_manifest_digest := demo_digest;
  mm_source := {| sd_model_id := "demo"; sd_revision := Some "main"; sd_config_sha256 := demo_digest;
                  sd_index_sha256 := None; sd_tensor_metadata_sha256 := None |};
  mm_architecture := mm_architecture demo_manifest; mm_config := mm_config demo_manifest;
  mm_tensor_files := [{| tf_name := "model.safetensors"; tf_size_bytes := 4;
                         tf_header_size_bytes := 2; tf_sha256 := Some demo_digest |}];
  mm_tensors := mm_tensors demo_manifest; mm_components := mm_components demo_manifest;
  mm_total_storage_bytes := mm_total_storage_bytes demo_manifest |}.

Definition run_plan : DeploymentPlan := {|
  dp_schema_version := "1.0"; dp_planner_version := "0.1.0"; dp_plan_id := "plan-0";
  dp_deployment_version := 1; dp_plan_digest := "d"; dp_manifest_digest := demo_digest;
  dp_workload_id := "w"; dp_planning_mode := FEASIBILITY; dp_execution_dtype := F32;
  dp_weight_dtype := None; dp_activation_dtype := F16; dp_split_layer := 1;
  dp_workload_digest := None; dp_profile_bundle_digest := None; dp_stages := dp_stages demo_plan;
  dp_duplicated_tensor_groups := []; dp_selected_candidate_id := "c" |}.

Definition run_arguments (mode : RunMode) : RunArguments := {|
  ar_manifest := run_manifest; ar_plan := run_plan; ar_stage_index := 0;
  ar_workload := pk_workload demo_key; ar_backend := CPU; ar_capacity := demo_cap;
  ar_output := {| op_stem := "/profiles/run"; op_suffix := ".json" |}; ar_source_revision := "r";
  ar_concurrent_load := "none"; ar_transport_mode := PAGEABLE; ar_device_id := 0;
  ar_warmup_cycles := 0; ar_measured_cycles := 1; ar_timeout_seconds := literal 600 1;
  ar_sample_interval_seconds := literal 1 4; ar_host_headroom_bytes := 100;
  ar_device_headroom_bytes := 100; ar_extra_overhead_bytes := 50; ar_mlx_fit_policy := FOOTPRINT;
  ar_mode := mode |}.

Definition demo_native : NativeEnvironment := {|
  nv_backend := "BACKEND_CPU"; nv_device_identity := "cpu-0"; nv_device_name := "cpu";
  nv_backend_version := "1"; nv_driver_version := "not-applicable"; nv_allocator := "malloc";
  nv_compiler := "cc"; nv_prefill_chunk_tokens := None |}.

(** The cap of 800 bytes with its margin of a tenth, 100 and 50 just fit 1031 bytes. *)
Definition demo_machine (available : Z) (ticks : list PollTick) (returncode : Z)
    (raw : list (option NativeRecord)) : Machine := {|
  mx_binary := Some "elf"; mx_root_exists := true;
  mx_checkpoint := fun name =>
    if String.eqb name "config.json" then Some {| cf_inside := true; cf_data := "{}" |}
    else if String.eqb name "model.safetensors" then Some {| cf_inside := true; cf_data := "data" |}
    else None;
  mx_host_available := Some available; mx_host_available_after_read := None;
  mx_device_available_before_read := None; mx_device_available_after_read := None;
  mx_sampled_at := "t0"; mx_observed_at := "t1"; mx_measured_at := {| dt_instant := 2; dt_text := "t2" |};
  mx_measured_at_isoformat := "t2"; mx_alloc_conf := None; mx_cuda_alloc_conf := None;
  mx_os := "linux"; mx_node := "alpha"; mx_process_starts := true; mx_ticks := ticks;
  mx_returncode := returncode; mx_raw := Some raw; mx_driver_release := ""; mx_darwin := None |}.

Definition compute_machine : Machine :=
  demo_machine 1031 [] 0
    ([Some (EnvironmentEvent demo_native)]
     ++ ((fun t => Some (TimingEvent t)) <$> cr_records demo_run)
     ++ [Some (PairComplete 0 true); Some Complete; None; Some (ErrorEvent "unread")]).

Definition no_files : RunnerState := {| rs_files := ∅; rs_launched := false; rs_killed := false |}.

Definition load_request (plan : PbDeploymentPlan) (manifest : PbModelManifest) (index : Z) : json :=
  JObj [("plan_id", JStr (pdp_plan_id plan)); ("stage_index", JInt index)].

Definition compute_result : RunnerState * result ProfileArtifact :=
  run_memory_profile load_request compute_machine (run_arguments COMPUTE_MODE) no_files.

Lemma compute_result_ok : is_ok compute_result.2 = true /\ rs_launched compute_result.1 = true.
Proof. split; vm_compute; reflexivity. Qed.

Lemma native_run_admitted_witness : exists key, native_admitted compute_machine (run_arguments COMPUTE_MODE) key.
Proof.
  destruct (native_run_admitted load_request compute_machine (run_arguments COMPUTE_MODE) no_files
              compute_result.1 compute_result.2 (surjective_pairing _)) as (_ & _ & Hadm).
  destruct (Hadm eq_refl (proj2 compute_result_ok)) as (key & Hkey & _). exists key. exact Hkey.
Defined.

Lemma profile_sealed_witness : exists p, compute_result.2 = Ok p /\ validate_ProfileArtifact p = Ok p
  /\ compute_profile compute_machine (run_arguments COMPUTE_MODE) compute_result.1 p.
Proof.
  destruct (proj1 (is_ok_spec compute_result.2) (proj1 compute_result_ok)) as [p Hp]. exists p.
  split; [exact Hp|].
  destruct (profile_sealed load_request compute_machine (run_arguments COMPUTE_MODE) no_files
              compute_result.1 p) as (_ & Hv & _ & _ & _ & _ & _ & _ & _ & Hc).
  - rewrite <- Hp. apply surjective_pairing.
  - exact (conj Hv Hc).
Defined.

(** With one byte less than the demand nothing starts; only the preflight is on disk. *)
Definition refused_result : RunnerState * result ProfileArtifact :=
  run_memory_profile load_request (demo_machine 1029 [] 0 []) (run_arguments MEMORY_MODE) no_files.

Lemma refused_result_ok :
  rs_launched refused_result.1 = false /\ is_ok refused_result.2 = false
  /\ (map_to_list (rs_files refused_result.1)).*1 = ["/profiles/run.preflight.json"].
Proof. split_and!; vm_compute; reflexivity. Qed.

(** A process that outlives its time is killed, and its profile says so. *)
Definition hung_sample : PhysicalSample :=
  {| ph_elapsed_seconds := f0; ph_rss_bytes := Some 900%Z; ph_device_process_bytes := None |}.

Definition hung_machine : Machine :=
  demo_machine 2000 [{| tk_elapsed := f0; tk_sample := hung_sample |};
                     {| tk_elapsed := literal 601 1; tk_sample := hung_sample |};
                     {| tk_elapsed := literal 602 1; tk_sample := hung_sample |}] (-9)
    [Some (EnvironmentEvent demo_native); Some (SampleEvent (demo_sample LOAD)); None].

Lemma hung_result_ok :
  match run_memory_profile load_request hung_machine (run_arguments MEMORY_MODE) no_files with
  | (s, Ok p) => rs_killed s = true /\
      match pa_measurement p with
      | Memory m => mem_completed m = false /\ mem_error m = Some "timeout"
                    /\ mem_physical_samples m = [hung_sample]
      | _ => False
      end
  | _ => False
  end.
Proof. vm_compute. split_and!; reflexivity. Qed.
End RunnerDemo.
