(* ===== verification/Activation.v ===== *)
(** * Activation of a measured plan (src/python/hllm_control/planner/activation.py)

    The last gate before any stage is loaded: the plan is re-derived from its
    bundle, the evidence must still be fresh, and every worker must be the one that
    was profiled, idle, and have the memory now.  What a worker answers to the three
    RPCs of the gate is the record [Control]. *)

From Stdlib Require Import SpecFloat.
From S2P Require Export Measured Safetensors Wire.

(** ** Answers of a worker *)

(** The fields of the [WorkerProfile] message that the gate reads. *)
Record Capabilities := {
  ca_worker_id : string;
  ca_endpoint : string;
  ca_backend : Z;
  ca_supported_architectures : list string;
  ca_supported_execution_dtypes : list Z;
  ca_supports_mixed_precision : bool;
  ca_memory_budgets : list (Z * Z)   (** domain and capacity *)
}.

Record QualificationState := {
  qs_available_host_bytes : option Z;
  qs_available_device_bytes : option Z;
  qs_backend_version : string;
  qs_driver_version : string;
  qs_allocator : string;
  qs_binary_digest : string;
  qs_device_identity : string;
  qs_boundary_transport_mode : string;
  qs_pytorch_alloc_conf : option string;
  qs_pytorch_cuda_alloc_conf : option string;
  qs_device_fingerprint : string
}.

Record MemoryReport := {
  mr_loaded_weight_bytes : Z;
  mr_reserved_cache_bytes : Z;
  mr_reserved_workspace_bytes : Z;
  mr_active_requests : Z
}.

Record Control := {
  ct_capabilities : result Capabilities;
  ct_qualification : result QualificationState;
  ct_memory_report : result MemoryReport
}.

(** The enumeration numbers of src/proto/profile.proto. *)
Definition backend_number (b : Backend) : Z := match b with CPU => 1 | MLX => 2 | CUDA => 3 end.

Definition domain_number (d : MemoryDomain) : Z :=
  match d with UNIFIED => 1 | DEVICE => 2 | HOST => 3 | HOST_PINNED => 4 end.

(** ** The plan and its bundle *)

Section activation.
Context `{Hash} `{JsonLoads}.

Definition check_plan_identity (manifest : ModelManifest) (plan : DeploymentPlan) (bundle : Bundle)
    : result unit :=
  let meta := bu_metadata bundle in
  raise_if ((dp_planning_mode plan != MEASURED)
            || (dp_profile_bundle_digest plan != Some (bu_bundle_digest bundle))) ValueError
    "activation requires the exact measured profile bundle" ;;
  raise_if ((dp_manifest_digest plan != bm_manifest_digest meta)
            || (dp_workload_digest plan != Some (digest (WorkloadProfile_dump (bm_workload meta)))))
    ValueError "measured workload/manifest mismatch" ;;
  raise_if ((dp_execution_dtype plan != wl_kv_dtype (bm_workload meta))
            || (dp_activation_dtype plan != wl_activation_dtype (bm_workload meta))) ValueError
    "measured plan precision differs from frozen workload" ;;
  raise_if ((dp_plan_digest plan != digest (DeploymentPlan_unsigned plan))
            || (dp_plan_id plan != String.append "plan-" (str_take 16 (dp_plan_digest plan))))
    ValueError "measured plan hash mismatch" ;;
  match last (dp_stages plan) with
  | Some s => raise_if (sa_layer_end s != mc_num_layers (mm_config manifest)) ValueError
                "measured plan does not cover model"
  | None => raise IndexError "tuple index out of range"
  end.

(** [for profile in bundle.profiles: f profile] *)
Definition for_profiles (bundle : Bundle) (f : ProfileArtifact -> result unit) : result unit :=
  match bu_storage bundle with
  | InMemory profiles => mapM f profiles ;; Ok tt
  | OnDisk references directory =>
    mapM (fun r => p ← load_profile directory r; f p) references ;; Ok tt
  end.

(** [list(bundle.profiles)] *)
Definition bundle_profiles (bundle : Bundle) : result (list ProfileArtifact) :=
  match bu_storage bundle with
  | InMemory profiles => Ok profiles
  | OnDisk references directory => mapM (load_profile directory) references
  end.

Definition check_fresh (now : datetime) (bundle : Bundle) (measured_at : AwareDatetime)
    (message : string) : result unit :=
  fresh ← _fresh (dt_instant measured_at) now (bm_maximum_profile_age_seconds (bu_metadata bundle));
  raise_if (negb fresh) ValueError message.

Definition check_evidence_age (now : datetime) (plan : DeploymentPlan) (bundle : Bundle)
    (s0 s1 : StageAssignment) : result unit :=
  let meta := bu_metadata bundle in
  for_profiles bundle (fun p =>
    if py_in (pk_assignment (pa_key p)) (dp_stages plan)
    then check_fresh now bundle (cd_measured_at (pa_conditions p))
           "selected profile expired; refresh measurements and replan"
    else Ok tt) ;;
  check_fresh now bundle (bm_evaluated_at meta)
    "stale/future profile bundle; refresh measurements and replan" ;;
  match find_direction bundle (s0, s1) with
  | None => raise StopIteration ""
  | Some d =>
    match find_link bundle d with
    | None => raise StopIteration ""
    | Some link =>
      check_fresh now bundle (lc_measured_at (la_content link))
        "link evidence expired; refresh measurements and replan" ;;
      check_fresh now bundle (de_request_setup_measured_at d)
        "request setup evidence expired; refresh measurements and replan"
    end
  end.

(** ** One worker *)

Definition check_capabilities (manifest : ModelManifest) (plan : DeploymentPlan)
    (assignment : StageAssignment) (b : WorkerEvidence) (c : Capabilities) : result unit :=
  raise_if ((opt_truthy (dp_weight_dtype plan) && negb (ca_supports_mixed_precision c))
            || (ca_worker_id c != sa_worker_id assignment)
            || (ca_endpoint c != wp_endpoint (we_worker b))
            || (ca_backend c != backend_number (wp_backend (we_worker b)))
            || negb (py_in (ad_architecture_id (mm_architecture manifest)) (ca_supported_architectures c))
            || negb (py_in (_DTYPE_TO_PROTO (dp_execution_dtype plan)) (ca_supported_execution_dtypes c)))
    ValueError "worker capabilities changed".

(** [config.get(name)] against an [optional string] field. *)
Definition config_agrees (config : list (string * json)) (name : string) (actual : option string)
    : bool :=
  match assoc_get name config, actual with
  | Some (JStr s), Some a => String.eqb s a
  | (Some JNull | None), None => true
  | _, _ => false
  end.

Definition check_allocator (b : WorkerEvidence) (q : QualificationState) : result unit :=
  match wp_backend (we_worker b) with
  | CUDA =>
    match loads_text (en_allocator_config (we_compute_environment b)) with
    | None => raise ValueError "JSONDecodeError"
    | Some (JObj config) =>
      raise_if (negb (config_agrees config "PYTORCH_ALLOC_CONF" (qs_pytorch_alloc_conf q)))
        ValueError "worker allocator configuration changed" ;;
      raise_if (negb (config_agrees config "PYTORCH_CUDA_ALLOC_CONF" (qs_pytorch_cuda_alloc_conf q)))
        ValueError "worker allocator configuration changed"
    | Some _ => raise AttributeError "get"
    end
  | _ => Ok tt
  end.

Definition check_identity (b : WorkerEvidence) (q : QualificationState) : result unit :=
  let e := we_compute_environment b in
  raise_if ((qs_binary_digest q != we_runtime_binary_digest b)
            || ((qs_device_identity q, qs_backend_version q, qs_driver_version q, qs_allocator q)
                != (we_runtime_device_identity b, en_backend_version e, we_runtime_driver_version b,
                    en_allocator e))) ValueError
    "worker binary/device/backend/driver/allocator changed" ;;
  raise_if (qs_device_fingerprint q != en_device_identity e) ValueError
    "worker host/hardware fingerprint changed" ;;
  raise_if (qs_boundary_transport_mode q != transport_value (we_transport_mode b)) ValueError
    "worker boundary transport mode changed" ;;
  check_allocator b q.

Definition capacity_of (c : Capabilities) (d : MemoryDomain) : Z :=
  match List.find (fun v => fst v == domain_number d) (ca_memory_budgets c) with
  | Some v => snd v
  | None => 0
  end.

Definition current_capacity (c : Capabilities) : MemoryAmounts := {|
  ma_host := capacity_of c HOST; ma_device := capacity_of c DEVICE;
  ma_pinned := capacity_of c HOST_PINNED; ma_unified := capacity_of c UNIFIED |}.

Definition memory_evidence (manifest : ModelManifest) (bundle : Bundle) (b : WorkerEvidence)
    (assignment : StageAssignment) (p : ProfileArtifact) : bool :=
  let key := pa_key p in
  (kind_of (pa_measurement p) == K_MEMORY) && (pk_assignment key == assignment)
  && (pk_environment key == we_memory_environment b)
  && (pk_manifest_digest key == mm_manifest_digest manifest)
  && (pk_checkpoint_digest key == bm_checkpoint_digest (bu_metadata bundle))
  && (pk_workload key == bm_workload (bu_metadata bundle))
  && (pk_transport_mode key == we_transport_mode b).

(** [budget.model_copy(update={"available_bytes": available})] *)
Definition with_availability (available : option Z) (b : PhysicalBudget) : PhysicalBudget := {|
  pb_available_bytes := available; pb_headroom_bytes := pb_headroom_bytes b;
  pb_extra_overhead_bytes := pb_extra_overhead_bytes b; pb_safety_fraction := pb_safety_fraction b |}.

Definition check_memory (manifest : ModelManifest) (bundle : Bundle) (b : WorkerEvidence)
    (assignment : StageAssignment) (c : Capabilities) (q : QualificationState) : result unit :=
  capacity ← validate_MemoryAmounts (current_capacity c);
  raise_if (capacity != we_admission_capacity b) ValueError
    "worker admission capacity changed; reprofile/replan" ;;
  profiles ← bundle_profiles bundle;
  match List.filter (memory_evidence manifest bundle b assignment) profiles with
  | [artifact] =>
    fit ← assess_fit artifact capacity (with_availability (qs_available_host_bytes q) (we_host b))
            (with_availability (qs_available_device_bytes q) <$> we_device b) (we_mlx_fit_policy b);
    raise_if (fr_status fit != SAFE) ValueError
      (String.append "fresh physical memory gate failed: " (py_join "; " (fr_reasons fit)))
  | _ => raise ValueError "missing or ambiguous memory evidence"
  end.

Definition check_idle (m : MemoryReport) : result unit :=
  raise_if ((mr_loaded_weight_bytes m != 0%Z) || (mr_active_requests m != 0%Z)
            || (mr_reserved_cache_bytes m != 0%Z) || (mr_reserved_workspace_bytes m != 0%Z))
    ValueError "measured activation requires idle unloaded workers".

Definition activate_worker (manifest : ModelManifest) (plan : DeploymentPlan) (bundle : Bundle)
    (assignment : StageAssignment) (control : Control) : result unit :=
  b ← find_binding bundle (sa_worker_id assignment);
  c ← ct_capabilities control;
  q ← ct_qualification control;
  check_capabilities manifest plan assignment b c ;;
  check_identity b q ;;
  check_memory manifest bundle b assignment c q ;;
  m ← ct_memory_report control;
  check_idle m.

(** [zip(plan.stages, controls, strict=True)] with the body of the loop. *)
Fixpoint activate_workers (manifest : ModelManifest) (plan : DeploymentPlan) (bundle : Bundle)
    (stages : list StageAssignment) (controls : list Control) : result unit :=
  match stages, controls with
  | s :: stages', c :: controls' =>
    activate_worker manifest plan bundle s c ;;
    activate_workers manifest plan bundle stages' controls'
  | [], [] => Ok tt
  | _, _ => raise ValueError "zip() arguments have different lengths"
  end.

Definition validate_activation (now : datetime) (manifest : ModelManifest) (plan : DeploymentPlan)
    (bundle : Bundle) (controls : list Control) : result unit :=
  check_plan_identity manifest plan bundle ;;
  match dp_stages plan with
  | [s0; s1] =>
    '(status, reasons, _) ←
      evaluate bundle manifest (bm_workload (bu_metadata bundle)) (dp_weight_dtype plan) (s0, s1);
    raise_if (status != "measured") ValueError
      (String.append "selected assignment is not qualified: " (py_join "; " reasons)) ;;
    check_evidence_age now plan bundle s0 s1 ;;
    activate_workers manifest plan bundle (dp_stages plan) controls
  | _ => raise ValueError "measured activation requires two stages"
  end.
End activation.

(** ** What an accepted activation guarantees *)

Section soundness.
Context `{Hash} `{JsonLoads}.

(** The two availability counters of a worker are unsigned in the message. *)
Definition control_ok (c : Control) : Prop := forall q, ct_qualification c = Ok q ->
  opt_ok NonNegativeInt (qs_available_host_bytes q) = true /\
  opt_ok NonNegativeInt (qs_available_device_bytes q) = true.

(** A worker ready for its stage: it answers as the profiled one, holds nothing, and
    what its stage was observed to need fits in what is available now. *)
Definition stage_ready (now : datetime) (bundle : Bundle) (assignment : StageAssignment)
    (control : Control) : Prop :=
  exists b caps q report artifact m,
    find_binding bundle (sa_worker_id assignment) = Ok b /\
    ct_capabilities control = Ok caps /\ ct_qualification control = Ok q /\
    ct_memory_report control = Ok report /\
    ca_worker_id caps = sa_worker_id assignment /\
    ca_endpoint caps = wp_endpoint (we_worker b) /\
    qs_binary_digest q = we_runtime_binary_digest b /\
    qs_device_fingerprint q = en_device_identity (we_compute_environment b) /\
    current_capacity caps = we_admission_capacity b /\
    (mr_loaded_weight_bytes report = 0 /\ mr_active_requests report = 0 /\
     mr_reserved_cache_bytes report = 0 /\ mr_reserved_workspace_bytes report = 0)%Z /\
    pk_assignment (pa_key artifact) = assignment /\ pa_measurement artifact = Memory m /\
    _fresh (dt_instant (cd_measured_at (pa_conditions artifact))) now
      (bm_maximum_profile_age_seconds (bu_metadata bundle)) = Ok true /\
    Forall (within_caps (current_capacity caps)) (mem_samples m) /\
    (exists e a, qs_available_host_bytes q = Some a /\ (e + pb_headroom_bytes (we_host b) <= a)%Z /\
       Forall (fun v => v + pb_extra_overhead_bytes (we_host b) <= e)%Z (host_values m)) /\
    (en_backend (pk_environment (pa_key artifact)) = CUDA ->
     exists d e a, we_device b = Some d /\ qs_available_device_bytes q = Some a /\
       (e + pb_headroom_bytes d <= a)%Z).

Lemma bundle_profiles_valid bundle profiles p :
  storage_fields (bu_storage bundle) = true -> bundle_profiles bundle = Ok profiles -> p ∈ profiles ->
  ProfileArtifact_fields p = true.
Proof.
  unfold storage_fields, bundle_profiles. intros Hs Hp Hin. destruct (bu_storage bundle) as [ps|refs dir].
  - apply Ok_inj in Hp as <-. apply forallb_Forall in Hs. rewrite Forall_forall in Hs.
    apply Hs in Hin. apply is_ok_spec in Hin as [a' Ha]. by apply validate_ProfileArtifact_ok in Ha as (_ & ? & _).
  - apply mapM_ok in Hp. apply list_elem_of_lookup in Hin as [i Hi].
    destruct (Forall2_lookup_r _ _ _ _ _ Hp Hi) as (r & _ & Hr). unfold load_profile in Hr.
    destruct dir as [read|]; [|done]. apply bind_ok in Hr as (raw & _ & Hr).
    apply bind_ok in Hr as (p' & Hv & Hr). apply bind_ok in Hr as (? & _ & Hr). apply Ok_inj in Hr as ->.
    by apply validate_ProfileArtifact_ok in Hv as (-> & ? & _).
Qed.

Lemma for_profiles_ok bundle f profiles p :
  for_profiles bundle f = Ok tt -> bundle_profiles bundle = Ok profiles -> p ∈ profiles -> f p = Ok tt.
Proof.
  unfold for_profiles, bundle_profiles. destruct (bu_storage bundle) as [ps|refs dir]; intros E Hp Hin.
  - apply Ok_inj in Hp as <-. apply bind_ok in E as (us & Hus%mapM_ok & _).
    apply list_elem_of_lookup in Hin as [i Hi].
    by destruct (Forall2_lookup_l _ _ _ _ _ Hus Hi) as ([] & _ & ?).
  - apply bind_ok in E as (us & Hus%mapM_ok & _). apply mapM_ok in Hp.
    apply list_elem_of_lookup in Hin as [i Hi].
    destruct (Forall2_lookup_r _ _ _ _ _ Hp Hi) as (r & Hr & Hload).
    destruct (Forall2_lookup_l _ _ _ _ _ Hus Hr) as ([] & _ & E). rewrite Hload in E. done.
Qed.

Lemma check_fresh_ok now bundle t message :
  check_fresh now bundle t message = Ok tt ->
  _fresh (dt_instant t) now (bm_maximum_profile_age_seconds (bu_metadata bundle)) = Ok true.
Proof. unfold check_fresh. intros E. apply bind_ok in E as ([] & -> & E); [done|]. by inv_ok. Qed.

Lemma find_binding_valid bundle id b :
  BundleMetadata_fields (bu_metadata bundle) = true -> find_binding bundle id = Ok b ->
  PhysicalBudget_fields (we_host b) = true /\ opt_ok PhysicalBudget_fields (we_device b) = true.
Proof.
  unfold find_binding. intros Hm E. destruct (List.find _ _) as [w|] eqn:Hf; [|done].
  apply Ok_inj in E as ->. apply find_some_elem in Hf as [Hin _].
  unfold BundleMetadata_fields in Hm. rewrite !andb_true_iff in Hm.
  destruct Hm as [[[[[[[[[_ Hw] _] _] _] _] _] _] _] _].
  apply forallb_Forall in Hw. rewrite Forall_forall in Hw. apply Hw in Hin. simpl in Hin.
  unfold WorkerEvidence_fields in Hin. rewrite !andb_true_iff in Hin.
  by destruct Hin as [[[_ Hh] Hd] _].
Qed.

Lemma with_availability_fields available b : PhysicalBudget_fields b = true ->
  opt_ok NonNegativeInt available = true -> PhysicalBudget_fields (with_availability available b) = true.
Proof.
  unfold PhysicalBudget_fields, with_availability. simpl. rewrite !andb_true_iff. tauto.
Qed.

Lemma check_memory_ready manifest bundle b assignment c q :
  bundle_valid bundle -> find_binding bundle (sa_worker_id assignment) = Ok b ->
  opt_ok NonNegativeInt (qs_available_host_bytes q) = true ->
  opt_ok NonNegativeInt (qs_available_device_bytes q) = true ->
  check_memory manifest bundle b assignment c q = Ok tt ->
  current_capacity c = we_admission_capacity b /\
  exists profiles artifact m, bundle_profiles bundle = Ok profiles /\ artifact ∈ profiles /\
    pk_assignment (pa_key artifact) = assignment /\ pa_measurement artifact = Memory m /\
    Forall (within_caps (current_capacity c)) (mem_samples m) /\
    (exists e a, qs_available_host_bytes q = Some a /\ (e + pb_headroom_bytes (we_host b) <= a)%Z /\
       Forall (fun v => v + pb_extra_overhead_bytes (we_host b) <= e)%Z (host_values m)) /\
    (en_backend (pk_environment (pa_key artifact)) = CUDA ->
     exists d e a, we_device b = Some d /\ qs_available_device_bytes q = Some a /\
       (e + pb_headroom_bytes d <= a)%Z).
Proof.
  intros [Hmeta Hstore] Hb Hqh Hqd. unfold check_memory. intros E.
  apply bind_ok in E as (cap & Hcap & E). apply bind_ok in E as (? & Hadm & E).
  apply bind_ok in E as (profiles & Hps & E).
  assert (cap = current_capacity c) as ->.
  { unfold validate_MemoryAmounts in Hcap. do 2 (apply bind_ok in Hcap as (? & _ & Hcap)).
    by apply Ok_inj in Hcap. }
  destruct (List.filter _ profiles) as [|artifact [|]] eqn:Hfilter; try done.
  apply bind_ok in E as (fit & Hfit & E). apply raise_if_ok, negb_false_iff in E, Hadm.
  apply (proj1 (pyeqb_eq _ _)) in E, Hadm. split; [done|].
  assert (artifact ∈ List.filter (memory_evidence manifest bundle b assignment) profiles) as Hin
    by (rewrite Hfilter; apply list_elem_of_here).
  apply elem_of_filterb in Hin as [Hev Hin].
  unfold memory_evidence in Hev. rewrite !andb_true_iff in Hev. destruct Hev as [[[[[[_ Ha] _] _] _] _] _].
  apply (proj1 (pyeqb_eq _ _)) in Ha.
  destruct (find_binding_valid _ _ _ Hmeta Hb) as [Hh Hd].
  destruct (fit_safe_spec _ _ _ _ _ _ Hfit E) as (_ & m & Hm & _ & _ & Hcaps & Hhost & Hcuda).
  - pose proof (bundle_profiles_valid _ _ _ Hstore Hps Hin) as Hf. unfold ProfileArtifact_fields in Hf.
    rewrite !andb_true_iff in Hf. tauto.
  - by apply with_availability_fields.
  - destruct (we_device b); [|done]. by apply with_availability_fields.
  - exists profiles, artifact, m. split_and!; try done.
    + destruct Hhost as (e & a & _ & Hav & Hle & Hall). by exists e, a.
    + intros Hbk. destruct (Hcuda Hbk) as (d & e & a & Hdev & _ & Hav & Hle & _).
      destruct (we_device b) as [d'|]; [|done]. injection Hdev as <-. by exists d', e, a.
Qed.

Lemma activate_worker_ready now manifest plan bundle s0 s1 assignment control :
  bundle_valid bundle -> control_ok control -> assignment ∈ dp_stages plan ->
  check_evidence_age now plan bundle s0 s1 = Ok tt ->
  activate_worker manifest plan bundle assignment control = Ok tt ->
  stage_ready now bundle assignment control.
Proof.
  intros Hvalid Hok Hin Hage. unfold activate_worker. intros E.
  apply bind_ok in E as (b & Hb & E). apply bind_ok in E as (c & Hc & E).
  apply bind_ok in E as (q & Hq & E). apply bind_ok in E as ([] & Hcap & E).
  apply bind_ok in E as ([] & Hid & E). apply bind_ok in E as ([] & Hmem & E).
  apply bind_ok in E as (r & Hr & E). destruct (Hok q Hq) as [Hqh Hqd].
  destruct (check_memory_ready _ _ _ _ _ _ Hvalid Hb Hqh Hqd Hmem)
    as (Hadm & profiles & a & m & Hps & Ha & Hasg & Hm & Hcaps & Hhost & Hcuda).
  unfold check_evidence_age in Hage. apply bind_ok in Hage as ([] & Hall & _).
  pose proof (for_profiles_ok _ _ _ _ Hall Hps Ha) as Hfr. simpl in Hfr.
  rewrite Hasg, (proj2 (py_in_elem _ _) Hin) in Hfr. apply check_fresh_ok in Hfr.
  unfold check_capabilities in Hcap. apply raise_if_ok in Hcap.
  rewrite !orb_false_iff in Hcap. destruct Hcap as [[[[[_ Hwid] Hend] _] _] _].
  unfold check_identity in Hid. apply bind_ok in Hid as ([] & Hbin & Hid).
  apply bind_ok in Hid as ([] & Hfp & _). apply raise_if_ok in Hbin, Hfp.
  apply orb_false_iff in Hbin as [Hbin _].
  unfold check_idle in E. apply raise_if_ok in E. rewrite !orb_false_iff in E.
  rewrite !negb_false_iff in *. destruct E as [[[E1 E2] E3] E4].
  apply (proj1 (pyeqb_eq _ _)) in Hwid, Hend, Hbin, Hfp, E1, E2, E3, E4.
  exists b, c, q, r, a, m. by split_and!.
Qed.

End soundness.

(** ** Activation of the concrete bundle *)
Module ActivationDemo.
Import ProfilesDemo FitDemo MeasuredDemo.

#[local] Instance demo_hash : Hash := fun _ => demo_digest.
#[local] Instance demo_loads : JsonLoads := {| loads_text := fun _ => None; loads_bytes := fun _ => None |}.

Definition demo_plan : DeploymentPlan := {|
  dp_schema_version := "1.1"; dp_planner_version := "0.2.0"; dp_plan_id := "plan-0123456789abcdef";
  dp_deployment_version := 1; dp_plan_digest := demo_digest; dp_manifest_digest := demo_digest;
  dp_workload_id := "w"; dp_planning_mode := MEASURED; dp_execution_dtype := F32;
  dp_weight_dtype := None; dp_activation_dtype := F16; dp_split_layer := 1;
  dp_workload_digest := Some demo_digest; dp_profile_bundle_digest := Some demo_digest;
  dp_stages := [demo_assignments.1; demo_assignments.2];
  dp_duplicated_tensor_groups := []; dp_selected_candidate_id := "c" |}.

Definition demo_control (id : string) : Control := {|
  ct_capabilities := Ok {| ca_worker_id := id; ca_endpoint := "127.0.0.1:1"; ca_backend := 1;
    ca_supported_architectures := ["llama-v1"]; ca_supported_execution_dtypes := [12]%Z;
    ca_supports_mixed_precision := false; ca_memory_budgets := [(3, 800)]%Z |};
  ct_qualification := Ok {| qs_available_host_bytes := Some 1250%Z; qs_available_device_bytes := None;
    qs_backend_version := "1"; qs_driver_version := "not-applicable"; qs_allocator := "malloc";
    qs_binary_digest := demo_digest; qs_device_identity := "cpu-0";
    qs_boundary_transport_mode := "pageable"; qs_pytorch_alloc_conf := None;
    qs_pytorch_cuda_alloc_conf := None; qs_device_fingerprint := "cpu-0" |};
  ct_memory_report := Ok {| mr_loaded_weight_bytes := 0; mr_reserved_cache_bytes := 0;
    mr_reserved_workspace_bytes := 0; mr_active_requests := 0 |} |}.

Lemma demo_activates : validate_activation 1000000 demo_manifest demo_plan demo_bundle
  [demo_control "alpha"; demo_control "beta"] = Ok tt.
Proof. vm_compute. reflexivity. Qed.

Lemma demo_controls_ok : Forall control_ok [demo_control "alpha"; demo_control "beta"].
Proof.
  repeat constructor; intros; simpl in *;
    match goal with E : Ok _ = Ok _ |- _ => apply Ok_inj in E as <- end; reflexivity.
Qed.

End ActivationDemo.
