(* ===== verification/TextOutput.v ===== *)
(** * Streamed text (src/python/hllm_control/serving/tokenizer.py)

    [TextOutput]: incremental decoding and stop matching.  Text is a list of code
    points.  The native tokenizer is a parameter: [step ids token] is the text that
    [DecodeStream.step] releases for [token] after [ids], [decode ids] the text of a
    finished sequence. *)

From S2P Require Export Prelude.

Abbreviation text := (list Z).

(** ** Text operations *)

(** [s.startswith(p)] *)
Fixpoint text_prefix (p s : text) : bool :=
  match p, s with
  | [], _ => true
  | x :: p', y :: s' => (x =? y)%Z && text_prefix p' s'
  | _ :: _, [] => false
  end.

(** [s.find(p)], [None] for -1 *)
Fixpoint text_find (p s : text) : option nat :=
  if text_prefix p s then Some 0
  else match s with
       | [] => None
       | _ :: s' => S <$> text_find p s'
       end%nat.

(** [s.endswith(p)] *)
Definition text_suffix (p s : text) : bool :=
  (length p <=? length s)%nat && bool_decide (drop (length s - length p) s = p).

Fixpoint nat_min (l : list nat) : option nat :=
  match l with
  | [] => None
  | n :: l' => Some (match nat_min l' with Some m => Nat.min n m | None => n end)
  end.

(** ** State *)

Class TokenizerDecoder := {
  decode_step : list Z -> Z -> text;
  decode : list Z -> text
}.

Record TextOutput := {
  to_ids : list Z;
  to_decoded : text;
  to_pending : text;
  to_stopped : bool
}.

Definition text_output : TextOutput :=
  {| to_ids := []; to_decoded := []; to_pending := []; to_stopped := false |}.

Section output.
Context (stops : list text).

Definition matches (pending : text) : list nat := omap (fun stop => text_find stop pending) stops.

(** The length of the longest end of [pending] that begins a stop without being one. *)
Definition retained_by (pending stop : text) : nat :=
  foldl Nat.max 0%nat
    (List.filter (fun n => text_suffix (take n stop) pending)
       (seq 1 (Nat.min (length stop) (length pending + 1) - 1))).

Definition retained (pending : text) : nat := foldl Nat.max 0%nat (retained_by pending <$> stops).

Definition _release (piece : text) (final : bool) (s : TextOutput) : text * TextOutput :=
  let pending := to_pending s ++ piece in
  match nat_min (matches pending) with
  | Some i => (take i pending, {| to_ids := to_ids s; to_decoded := to_decoded s; to_pending := [];
                                  to_stopped := true |})
  | None =>
    let split := (length pending - if final then 0 else retained pending)%nat in
    (take split pending, {| to_ids := to_ids s; to_decoded := to_decoded s;
                            to_pending := drop split pending; to_stopped := to_stopped s |})
  end.

Context `{TokenizerDecoder}.

Definition push (token : Z) (s : TextOutput) : text * TextOutput :=
  let piece := decode_step (to_ids s) token in
  _release piece false
    {| to_ids := to_ids s ++ [token]; to_decoded := to_decoded s ++ piece;
       to_pending := to_pending s; to_stopped := to_stopped s |}.

Definition finish (s : TextOutput) : result (text * TextOutput) :=
  if to_stopped s then Ok ([], s)
  else
    let full := decode (to_ids s) in
    if negb (text_prefix (to_decoded s) full)
    then raise ValueError "tokenizer decoder does not preserve streamed text"
    else Ok (_release (drop (length (to_decoded s)) full) true s).

(** The loop of the response over the native tokens: every text that is sent, up to
    and including the one that reaches a stop. *)
Fixpoint push_all (tokens : list Z) (s : TextOutput) : list text * TextOutput :=
  match tokens with
  | [] => ([], s)
  | token :: tokens' =>
    let '(text, s) := push token s in
    if to_stopped s then ([text], s)
    else let '(texts, s) := push_all tokens' s in (text :: texts, s)
  end.

Definition stream_text (tokens : list Z) : result (list text * TextOutput) :=
  let '(texts, s) := push_all tokens text_output in
  '(text, s) ← finish s;
  Ok (texts ++ [text], s).
End output.

(** ** What is sent to the client *)

(** [stop] occurs in [s] at position [i]. *)
Definition occurs_at (stop s : text) (i : nat) : Prop := exists a b, s = a ++ stop ++ b /\ length a = i.
Definition occurs (stop s : text) : Prop := exists i, occurs_at stop s i.

(** The text of [s] before the earliest stop. *)
Definition cut_before (stops : list text) (s out : text) : Prop :=
  (exists stop, stop ∈ stops /\ occurs_at stop s (length out)) /\ out `prefix_of` s /\
  forall stop i, stop ∈ stops -> occurs_at stop s i -> (length out <= i)%nat.

Lemma text_prefix_spec p s : text_prefix p s = true <-> p `prefix_of` s.
Proof.
  revert s. induction p as [|x p IH]; intros [|y s]; simpl.
  - split; [intros _; apply prefix_nil|done].
  - split; [intros _; apply prefix_nil|done].
  - split; [done|]. intros Hp. by apply prefix_nil_not in Hp.
  - rewrite andb_true_iff, IH, Z.eqb_eq. split.
    + intros [-> Hp]. by apply prefix_cons.
    + intros Hp. split; [by apply prefix_cons_inv_1 in Hp|by apply prefix_cons_inv_2 in Hp].
Qed.

Lemma text_find_spec p s : match text_find p s with
  | Some i => occurs_at p s i /\ forall j, occurs_at p s j -> (i <= j)%nat
  | None => forall j, ~ occurs_at p s j end.
Proof.
  induction s as [|x s IH]; simpl.
  - destruct (text_prefix p []) eqn:Hp.
    + apply text_prefix_spec in Hp as [k Hk]. split; [by exists [], k|lia].
    + intros j (a & b & E & _). destruct a; simplify_eq/=. destruct p; [done|done].
  - destruct (text_prefix p (x :: s)) eqn:Hp.
    + apply text_prefix_spec in Hp as [k Hk]. split; [by exists [], k|lia].
    + assert (Hz : forall j, occurs_at p (x :: s) j -> exists j', j = S j' /\ occurs_at p s j').
      { intros j ([|y a] & b & E & <-).
        - exfalso. apply not_true_iff_false in Hp. apply Hp, text_prefix_spec. by exists b.
        - injection E as <- E. exists (length a). split; [done|]. by exists a, b. }
      destruct (text_find p s) as [i|]; simpl.
      * destruct IH as [(a & b & -> & <-) Hmin]. split; [by exists (x :: a), b|].
        intros j (j' & -> & Hj)%Hz. apply Hmin in Hj. lia.
      * intros j (j' & -> & Hj)%Hz. by apply (IH j').
Qed.

Lemma nat_min_spec l : match nat_min l with
  | Some m => m ∈ l /\ forall n, n ∈ l -> (m <= n)%nat
  | None => l = [] end.
Proof.
  induction l as [|n l IH]; simpl; [done|]. destruct (nat_min l) as [m|].
  - destruct IH as [Hm Hall]. split.
    + destruct (Nat.min_spec n m) as [[_ ->]|[_ ->]]; [apply list_elem_of_here|by apply list_elem_of_further].
    + intros k [->|Hk]%elem_of_cons; [lia|]. apply Hall in Hk. lia.
  - subst l. split; [apply list_elem_of_here|]. intros k [->|Hk]%elem_of_cons; [done|].
    by apply not_elem_of_nil in Hk.
Qed.

Lemma matches_spec stops s : match nat_min (matches stops s) with
  | Some i => cut_before stops s (take i s) /\ length (take i s) = i
  | None => Forall (fun stop => ~ occurs stop s) stops end.
Proof.
  pose proof (nat_min_spec (matches stops s)) as Hn. unfold matches in *.
  destruct (nat_min _) as [i|].
  - destruct Hn as [Hi Hmin]. apply list_elem_of_omap in Hi as (stop & Hstop & Hf).
    pose proof (text_find_spec stop s) as Hs. rewrite Hf in Hs. destruct Hs as [Ho Hleast].
    assert (Hlen : length (take i s) = i).
    { rewrite length_take. destruct Ho as (a & b & -> & <-). rewrite length_app. lia. }
    split; [|done]. unfold cut_before. rewrite Hlen. split; [by exists stop|].
    split; [exists (drop i s); by rewrite take_drop|]. intros stop' j Hstop' Hj.
    pose proof (text_find_spec stop' s) as Hs'. destruct (text_find stop' s) as [k|] eqn:Hk.
    + destruct Hs' as [_ Hl]. apply Hl in Hj. assert (i <= k)%nat; [|lia]. apply Hmin.
      apply list_elem_of_omap. by exists stop'.
    + by apply Hs' in Hj.
  - apply Forall_forall. intros stop Hstop [j Hj]. pose proof (text_find_spec stop s) as Hs.
    destruct (text_find stop s) as [k|] eqn:Hk; [|by apply Hs in Hj].
    assert (k ∈ omap (fun stop => text_find stop s) stops) as Hin by (apply list_elem_of_omap; by exists stop).
    rewrite Hn in Hin. by apply not_elem_of_nil in Hin.
Qed.

(** ** The stream invariant *)

(** Every end of [decoded] that begins a stop is still held back in [pending]. *)
Definition held_back (stops : list text) (decoded pending : text) : Prop :=
  forall stop n, stop ∈ stops -> (1 <= n < length stop)%nat -> take n stop `suffix_of` decoded ->
  (n <= length pending)%nat.

Definition streaming (stops : list text) (out : text) (s : TextOutput) : Prop :=
  to_stopped s = false /\ out ++ to_pending s = to_decoded s /\
  Forall (fun stop => ~ occurs stop (to_decoded s)) stops /\
  held_back stops (to_decoded s) (to_pending s).

Lemma occurs_at_app stop out s i : occurs_at stop s i -> occurs_at stop (out ++ s) (length out + i).
Proof. intros (a & b & -> & <-). exists (out ++ a), b. by rewrite <- app_assoc, length_app. Qed.

(** A stop that appears with new text begins inside what was held back. *)
Lemma new_occurrence stops out pending piece stop i :
  stop ∈ stops -> ~ occurs stop (out ++ pending) -> held_back stops (out ++ pending) pending ->
  occurs_at stop (out ++ pending ++ piece) i ->
  exists j, i = (length out + j)%nat /\ occurs_at stop (pending ++ piece) j.
Proof.
  intros Hstop Hno Hheld Ho. destruct (decide (length out <= i)%nat) as [Hle|Hlt].
  - destruct Ho as (a & b & E & <-). exists (length a - length out)%nat. split; [lia|].
    exists (drop (length out) a), b. split; [|by rewrite length_drop].
    apply (f_equal (drop (length out))) in E. rewrite drop_app_length in E.
    rewrite E, drop_app_le by lia. done.
  - exfalso. destruct Ho as (a & b & E & Hi). set (old := out ++ pending) in *.
    assert (Hold : old ++ piece = a ++ stop ++ b) by (unfold old; by rewrite <- app_assoc).
    assert (Hlen : length old = (length out + length pending)%nat) by (unfold old; by rewrite length_app).
    assert (Hdrop : drop i old ++ piece = stop ++ b).
    { rewrite <- (drop_app_le old piece i) by lia. rewrite Hold, <- Hi. apply drop_app_length. }
    destruct (decide (length stop <= length old - i)%nat) as [Hin|Hout].
    + apply Hno. exists i, (take i old), (drop (length stop) (drop i old)).
      split; [|rewrite length_take; lia]. rewrite <- (take_drop i old) at 1. f_equal.
      rewrite <- (take_drop (length stop) (drop i old)) at 1. f_equal.
      apply (f_equal (take (length stop))) in Hdrop. rewrite take_app_length in Hdrop.
      rewrite take_app_le in Hdrop by (rewrite length_drop; lia). done.
    + assert (Hn : take (length old - i) stop = drop i old).
      { apply (f_equal (take (length old - i))) in Hdrop.
        rewrite take_app_le in Hdrop by (rewrite length_drop; lia).
        rewrite take_app_le in Hdrop by lia. rewrite <- Hdrop. apply take_ge. rewrite length_drop. lia. }
      pose proof (Hheld stop (length old - i)%nat Hstop) as Hb.
      assert (take (length old - i) stop `suffix_of` old) as Hsuf
        by (rewrite Hn; exists (take i old); by rewrite take_drop).
      specialize (Hb ltac:(lia) Hsuf). lia.
Qed.

Lemma fold_max_upper l n : n ∈ l -> (n <= foldl Nat.max 0%nat l)%nat.
Proof.
  assert (Hgen : forall l a, (a <= foldl Nat.max a l)%nat /\ forall n, n ∈ l -> (n <= foldl Nat.max a l)%nat).
  { clear. induction l as [|x l IH]; intros a; simpl; [split; [done|intros n Hn; by apply not_elem_of_nil in Hn]|].
    destruct (IH (Nat.max a x)) as [Ha Hl]. split; [lia|].
    intros n [->|Hn]%elem_of_cons; [lia|by apply Hl]. }
  apply Hgen.
Qed.

Lemma fold_max_bound l b : Forall (fun n => n <= b)%nat l -> (foldl Nat.max 0%nat l <= b)%nat.
Proof.
  assert (Hgen : forall l a, (a <= b)%nat -> Forall (fun n => n <= b)%nat l -> (foldl Nat.max a l <= b)%nat).
  { clear. induction l as [|x l IH]; intros a Ha Hl; simpl; [done|]. apply Forall_cons in Hl as [Hx Hl].
    apply IH; [lia|done]. }
  apply Hgen. lia.
Qed.

Lemma text_suffix_spec p s : text_suffix p s = true <-> p `suffix_of` s.
Proof.
  unfold text_suffix. rewrite andb_true_iff, Nat.leb_le, bool_decide_eq_true. split.
  - intros [Hl Hd]. exists (take (length s - length p) s). rewrite <- Hd at 2. by rewrite take_drop.
  - intros [k ->]. rewrite length_app. split; [lia|].
    replace (length k + length p - length p)%nat with (length k) by lia. apply drop_app_length.
Qed.

Lemma retained_bound stops pending : (retained stops pending <= length pending)%nat.
Proof.
  apply fold_max_bound, Forall_fmap, Forall_forall. intros stop _. simpl.
  apply fold_max_bound, Forall_forall. intros n [_ Hn]%elem_of_filterb.
  apply elem_of_seq in Hn. lia.
Qed.

Lemma retained_covers stops pending stop n :
  stop ∈ stops -> (1 <= n < length stop)%nat -> (n <= length pending)%nat ->
  take n stop `suffix_of` pending -> (n <= retained stops pending)%nat.
Proof.
  intros Hstop Hn Hlen Hsuf. unfold retained.
  transitivity (retained_by pending stop).
  - apply fold_max_upper, elem_of_filterb. split; [by apply text_suffix_spec|]. apply elem_of_seq. lia.
  - apply fold_max_upper, list_elem_of_fmap. by exists stop.
Qed.

Lemma suffix_of_app_long {A} (p a b : list A) :
  p `suffix_of` a ++ b -> (length p <= length b)%nat -> p `suffix_of` b.
Proof.
  intros [k E] Hl. exists (drop (length a) k).
  assert (length a <= length k)%nat.
  { apply (f_equal length) in E. rewrite !length_app in E. lia. }
  apply (f_equal (drop (length a))) in E. by rewrite drop_app_length, drop_app_le in E by lia.
Qed.

Lemma suffix_of_app_over {A} (p a b : list A) : p `suffix_of` a ++ b -> (length b < length p)%nat ->
  take (length p - length b) p `suffix_of` a.
Proof.
  intros [k E] Hl. exists k.
  pose proof (f_equal length E) as Hlen. rewrite !length_app in Hlen.
  apply (f_equal (take (length a))) in E. rewrite take_app_length in E.
  rewrite take_app_ge in E by lia. rewrite E. do 2 f_equal. lia.
Qed.

(** What [_release] does to a stream: it sends everything that cannot be part of a
    stop any more, or stops at the earliest stop. *)
Lemma release_streaming stops out s piece final sent s' decoded :
  out ++ to_pending s = decoded -> Forall (fun stop => ~ occurs stop decoded) stops ->
  held_back stops decoded (to_pending s) -> to_stopped s = false ->
  _release stops piece final s = (sent, s') ->
  to_ids s' = to_ids s /\ to_decoded s' = to_decoded s /\
  if to_stopped s' then cut_before stops (decoded ++ piece) (out ++ sent)
  else (out ++ sent) ++ to_pending s' = decoded ++ piece /\
       Forall (fun stop => ~ occurs stop (decoded ++ piece)) stops /\
       (if final then to_pending s' = [] else held_back stops (decoded ++ piece) (to_pending s')).
Proof.
  intros Hout Hno Hheld Hst. unfold _release. set (pending := to_pending s ++ piece).
  assert (Hdec : decoded ++ piece = out ++ pending) by (unfold pending; by rewrite <- Hout, app_assoc).
  assert (Hnew : forall stop i, stop ∈ stops -> occurs_at stop (decoded ++ piece) i ->
    exists j, i = (length out + j)%nat /\ occurs_at stop pending j).
  { intros stop i Hs Ho. rewrite Hdec in Ho. unfold pending in Ho.
    rewrite Forall_forall in Hno. specialize (Hno stop Hs). rewrite <- Hout in Hno, Hheld.
    by apply (new_occurrence stops) in Ho. }
  pose proof (matches_spec stops pending) as Hm. destruct (nat_min (matches stops pending)) as [i|].
  - intros E. injection E as <- <-. simpl. split; [done|]. split; [done|].
    destruct Hm as [((stop & Hs & Ho) & Hpre & Hleast) Hlen]. rewrite Hlen in Ho, Hleast.
    unfold cut_before. rewrite length_app, Hlen. split_and!.
    + exists stop. split; [done|]. rewrite Hdec. by apply occurs_at_app.
    + rewrite Hdec. by apply prefix_app.
    + intros stop' j Hs' (k & -> & Hk)%Hnew; [|done]. apply Hleast in Hk; [lia|done].
  - intros E. injection E as <- <-. simpl. split; [done|]. split; [done|]. rewrite Hst.
    set (split := (length pending - if final then 0 else retained stops pending)%nat).
    split; [by rewrite <- app_assoc, take_drop, Hdec|]. split.
    + apply Forall_forall. intros stop Hs [i Hi]. apply Hnew in Hi as (j & _ & Hj); [|done].
      rewrite Forall_forall in Hm. apply (Hm stop Hs). by exists j.
    + destruct final; [apply drop_ge; unfold split; lia|].
      intros stop n Hs Hn Hsuf. rewrite length_drop. unfold split.
      pose proof (retained_bound stops pending). rewrite Hdec in Hsuf.
      assert (Hlen : length (take n stop) = n) by (rewrite length_take; lia).
      assert (Hle : (n <= length pending)%nat).
      { destruct (decide (n <= length pending)%nat) as [|Hgt]; [done|]. exfalso.
        apply (suffix_of_app_over _ out pending) in Hsuf as Hover; [|lia]. rewrite Hlen in Hover.
        unfold pending in Hgt, Hsuf. rewrite length_app in Hgt. rewrite app_assoc, Hout in Hsuf.
        apply (suffix_of_app_over _ decoded piece) in Hsuf; [|lia]. rewrite Hlen, take_take in Hsuf.
        assert (n - length piece <= length (to_pending s))%nat; [|lia].
        apply (Hheld stop); [done|lia|].
        by replace (Nat.min (n - length piece) n) with (n - length piece)%nat in Hsuf by lia. }
      pose proof (retained_covers stops pending stop n Hs Hn Hle
        (suffix_of_app_long _ out pending Hsuf ltac:(lia))). lia.
Qed.

(** ** Whole streams *)

Lemma cut_before_no_stop stops s out stop :
  cut_before stops s out -> stop ∈ stops -> stop <> [] -> ~ occurs stop out.
Proof.
  intros (_ & [k ->] & Hleast) Hs Hne [i (a & b & E & Hi)].
  assert (length out <= i)%nat.
  { apply (Hleast stop); [done|]. exists a, (b ++ k). split; [|done]. by rewrite E, <- !app_assoc. }
  apply (f_equal length) in E. rewrite !length_app in E. destruct stop; simpl in *; [done|lia].
Qed.

Lemma text_output_streaming stops : Forall (fun stop => stop <> []) stops ->
  streaming stops [] text_output.
Proof.
  intros Hne. split; [done|]. split; [done|]. split.
  - eapply Forall_impl; [exact Hne|]. intros stop Hs [i (a & b & E & _)]. simpl in E.
    symmetry in E. apply app_eq_nil in E as [_ E]. by apply app_eq_nil in E as [? _].
  - intros stop n _ Hn [k E]. simpl in E. symmetry in E. apply app_eq_nil in E as [_ E].
    apply (f_equal length) in E. rewrite length_take in E. simpl in E. lia.
Qed.

Section streams.
Context (stops : list text) `{TokenizerDecoder}.

Lemma push_streaming out token s sent s' :
  streaming stops out s -> push stops token s = (sent, s') ->
  to_ids s' = to_ids s ++ [token] /\
  to_decoded s' = to_decoded s ++ decode_step (to_ids s) token /\
  if to_stopped s' then cut_before stops (to_decoded s') (out ++ sent)
  else streaming stops (out ++ sent) s'.
Proof.
  intros (Hst & Hout & Hno & Hheld). unfold push. intros E.
  set (s1 := Build_TextOutput _ _ _ _) in E.
  pose proof (release_streaming stops out s1 (decode_step (to_ids s) token) false sent s' (to_decoded s)
    Hout Hno Hheld Hst E) as (Hids & Hdec & Hr). simpl in Hids, Hdec. rewrite Hids, Hdec.
  split; [done|]. split; [done|]. destruct (to_stopped s') eqn:Hs'; [done|].
  destruct Hr as (Ho & Hn & Hh). split; [done|]. rewrite Hdec. done.
Qed.

Lemma push_all_streaming tokens out s texts s' :
  streaming stops out s -> push_all stops tokens s = (texts, s') ->
  (exists used rest, tokens = used ++ rest /\ to_ids s' = to_ids s ++ used /\
     (to_stopped s' = false -> rest = [])) /\
  if to_stopped s' then cut_before stops (to_decoded s') (out ++ concat texts)
  else streaming stops (out ++ concat texts) s'.
Proof.
  revert out s texts. induction tokens as [|token tokens IH]; intros out s texts Hs E; simpl in E.
  - injection E as <- <-. simpl. rewrite app_nil_r. destruct Hs as (Hst & Hs). rewrite Hst.
    split; [exists [], []; by rewrite !app_nil_r|by split].
  - destruct (push stops token s) as [text s1] eqn:Hp.
    destruct (push_streaming out token s text s1 Hs Hp) as (Hids & _ & Hr).
    destruct (to_stopped s1) eqn:Hst.
    + injection E as <- <-. rewrite Hst. simpl. rewrite app_nil_r. split; [|done].
      exists [token], tokens. split; [done|]. split; [done|congruence].
    + destruct (push_all stops tokens s1) as [texts1 s2] eqn:Hall. injection E as <- <-.
      destruct (IH _ _ _ Hr Hall) as ((used & rest & -> & Hids' & Hrest) & Hfin).
      split.
      * exists (token :: used), rest. split; [done|]. split; [|done]. by rewrite Hids', Hids, <- app_assoc.
      * simpl. rewrite app_assoc. done.
Qed.

Definition pending_minimal (pending : text) : Prop :=
  pending = [] \/ exists stop n, stop ∈ stops /\ (1 <= n < length stop)%nat /\ pending = take n stop.

Lemma fold_max_attained l : foldl Nat.max 0%nat l = 0%nat \/ foldl Nat.max 0%nat l ∈ l.
Proof.
  assert (Hgen : forall l a, foldl Nat.max a l = a \/ foldl Nat.max a l ∈ l).
  { clear. induction l as [|x l IH]; intros a; simpl; [by left|].
    destruct (IH (Nat.max a x)) as [E|E]; [|by right; apply list_elem_of_further].
    rewrite E. destruct (Nat.max_spec a x) as [[_ ->]|[_ ->]]; [right; apply list_elem_of_here|by left]. }
  apply Hgen.
Qed.

Lemma retained_minimal pending :
  pending_minimal (drop (length pending - retained stops pending) pending).
Proof.
  destruct (fold_max_attained (retained_by pending <$> stops)) as [E|E].
  - left. unfold retained. rewrite E. apply drop_ge. lia.
  - apply list_elem_of_fmap in E as (stop & E & Hs). fold (retained stops pending) in E.
    destruct (fold_max_attained (List.filter (fun n => text_suffix (take n stop) pending)
      (seq 1 (Nat.min (length stop) (length pending + 1) - 1)))) as [Hz|Hz];
      fold (retained_by pending stop) in Hz; rewrite <- E in Hz.
    + left. rewrite Hz. apply drop_ge. lia.
    + apply elem_of_filterb in Hz as [Hsuf Hin]. apply elem_of_seq in Hin.
      apply text_suffix_spec in Hsuf as [k Hk]. right. exists stop, (retained stops pending).
      split; [done|]. split; [lia|]. set (r := retained stops pending) in *. clearbody r. clear E.
      replace (length pending - r)%nat with (length k) by (rewrite Hk, length_app, length_take; lia).
      rewrite Hk. apply drop_app_length.
Qed.

Lemma push_all_pending tokens s texts s' :
  push_all stops tokens s = (texts, s') -> pending_minimal (to_pending s) ->
  to_stopped s' = false -> pending_minimal (to_pending s').
Proof.
  revert s texts. induction tokens as [|token tokens IH]; intros s texts E Hs Hst; simpl in E.
  - by injection E as <- <-.
  - destruct (push stops token s) as [text s1] eqn:Hp. destruct (to_stopped s1) eqn:Hst1.
    { injection E as <- <-. congruence. }
    destruct (push_all stops tokens s1) as [texts1 s2] eqn:Hall. injection E as <- <-.
    apply (IH _ _ Hall); [|done]. unfold push, _release in Hp. simpl in Hp.
    destruct (nat_min _); injection Hp as <- <-; [done|]. simpl. apply retained_minimal.
Qed.

(** C28: whatever the tokens and however the decoder splits their text, no stop
    string is ever sent to the client, not even across two pieces.  The text sent
    is the whole decoded text when no stop occurs in it; otherwise it is exactly
    the text before the earliest stop among those seen so far. *)
Theorem stream_text_spec tokens texts s :
  stream_text stops tokens = Ok (texts, s) -> Forall (fun stop => stop <> []) stops ->
  Forall (fun stop => ~ occurs stop (concat texts)) stops /\
  if to_stopped s
  then cut_before stops (to_decoded s) (concat texts) \/
       (to_ids s = tokens /\ cut_before stops (decode tokens) (concat texts))
  else concat texts = decode tokens.
Proof.
  unfold stream_text. intros E Hne. destruct (push_all stops tokens text_output) as [texts0 s0] eqn:Hall.
  destruct (push_all_streaming _ _ _ _ _ (text_output_streaming stops Hne) Hall)
    as ((used & rest & -> & Hids & Hrest) & Hs0). simpl in Hs0.
  apply bind_ok in E as ([text s1] & Hf & E). apply Ok_inj in E. injection E as <- <-.
  assert (Hsafe : forall seen out, cut_before stops seen out -> Forall (fun stop => ~ occurs stop out) stops).
  { intros seen out Hc. rewrite Forall_forall in Hne |- *. intros stop Hs.
    by apply (cut_before_no_stop _ _ _ _ Hc Hs), Hne. }
  unfold finish in Hf. destruct (to_stopped s0) eqn:Hst.
  - apply Ok_inj in Hf. injection Hf as <- <-. rewrite Hst, concat_app. simpl. rewrite !app_nil_r.
    split; [by eapply Hsafe|by left].
  - destruct (text_prefix _ _) eqn:Hpre; [|done]. simpl in Hf.
    apply text_prefix_spec in Hpre as [k Hk]. apply Ok_inj in Hf.
    destruct Hs0 as (_ & Hout & Hno & Hheld). rewrite Hk, drop_app_length in Hf.
    destruct (release_streaming stops _ _ _ _ _ _ _ Hout Hno Hheld Hst Hf) as (Hids1 & Hdec1 & Hr).
    rewrite <- Hk in Hr. rewrite (Hrest eq_refl), app_nil_r in *. simpl in Hids. rewrite Hids in *.
    rewrite concat_app. simpl. rewrite app_nil_r. destruct (to_stopped s1).
    + split; [by eapply Hsafe|]. right. by rewrite Hids1.
    + destruct Hr as (Ho & Hn & Hp). rewrite Hp, app_nil_r in Ho. rewrite Ho. done.
Qed.

(** While no stop has been reached nothing is lost, and no more than necessary
    is withheld: the text sent so far and the text held back are together the
    decoded text, and what is held back is empty or the beginning of a stop. *)
Theorem stream_holds_back_minimum tokens texts s :
  Forall (fun stop => stop <> []) stops -> push_all stops tokens text_output = (texts, s) ->
  to_stopped s = false ->
  to_ids s = tokens /\ concat texts ++ to_pending s = to_decoded s /\
  (to_pending s = [] \/ exists stop n, stop ∈ stops /\ (1 <= n < length stop)%nat /\
     to_pending s = take n stop).
Proof.
  intros Hne Hall Hst.
  destruct (push_all_streaming _ _ _ _ _ (text_output_streaming stops Hne) Hall)
    as ((used & rest & -> & Hids & Hrest) & Hs). rewrite Hst in Hs. destruct Hs as (_ & Hout & _ & _).
  rewrite (Hrest Hst), app_nil_r in *. split; [done|]. split; [done|].
  apply (push_all_pending used text_output texts s); [done|by left|done].
Qed.
End streams.

(** ** A stream over a decoder that emits each token as it is *)
Module TextOutputDemo.

#[local] Instance identity_decoder : TokenizerDecoder :=
  {| decode_step := fun _ token => [token]; decode := fun ids => ids |}.

Definition demo_stops : list text := [[3; 4]%Z].

Definition demo_stream : result (list text * TextOutput) :=
  Eval vm_compute in stream_text demo_stops [1; 2; 3; 3; 4; 5]%Z.

Lemma demo_stream_ok : stream_text demo_stops [1; 2; 3; 3; 4; 5]%Z = demo_stream.
Proof. vm_compute. reflexivity. Qed.

Lemma demo_stops_ok : Forall (fun stop => stop <> []) demo_stops.
Proof. repeat constructor; discriminate. Qed.

Lemma stream_text_spec_witness : exists texts s,
  demo_stream = Ok (texts, s) /\ concat texts = [1; 2; 3]%Z /\
  Forall (fun stop => ~ occurs stop (concat texts)) demo_stops.
Proof.
  eexists _, _. split; [reflexivity|]. split; [reflexivity|].
  exact (proj1 (stream_text_spec _ _ _ _ demo_stream_ok demo_stops_ok)).
Defined.

Definition demo_push : list text * TextOutput :=
  Eval vm_compute in push_all demo_stops [1; 2; 3]%Z text_output.

Lemma demo_push_ok : push_all demo_stops [1; 2; 3]%Z text_output = (demo_push.1, demo_push.2).
Proof. vm_compute. reflexivity. Qed.

Lemma stream_holds_back_minimum_witness :
  concat demo_push.1 ++ to_pending demo_push.2 = to_decoded demo_push.2 /\
  to_pending demo_push.2 = [3]%Z.
Proof.
  destruct (stream_holds_back_minimum demo_stops [1; 2; 3]%Z demo_push.1 demo_push.2 demo_stops_ok
              demo_push_ok eq_refl) as (_ & Ho & _).
  exact (conj Ho eq_refl).
Defined.
End TextOutputDemo.
