(* ===== verification/Admission.v ===== *)
(** * Admission (src/python/hllm_control/serving/app.py)

    The FIFO admission of the HTTP server.  The event loop runs one task at a time,
    so the code between two awaits is one step: the arrival of a request up to its
    first await, one turn of its waiting loop, the end of a wait by disconnection or
    cancellation, and the release of a slot.  Requests are numbered; [owners] are
    those whose [slot_owned] is true. *)

From S2P Require Export Prelude.

Record Admission := {
  ad_active : Z;
  ad_waiters : list nat;
  ad_owners : list nat;
  ad_arrived : list nat;    (** every request that joined the queue, in order *)
  ad_admitted : list nat    (** every request that got a slot, in order *)
}.

Definition admission : Admission :=
  {| ad_active := 0; ad_waiters := []; ad_owners := []; ad_arrived := []; ad_admitted := [] |}.

Inductive Outcome := QUEUE_FULL | EXPIRED | DISCONNECTED | WAITING | ADMITTED.

#[export] Instance outcome_eq_dec : EqDecision Outcome.
Proof. solve_decision. Defined.

(** [self.waiters.remove(ticket)]: tickets are distinct objects. *)
Definition leave (t : nat) (s : Admission) : Admission := {|
  ad_active := ad_active s; ad_waiters := List.filter (fun u => u != t) (ad_waiters s);
  ad_owners := ad_owners s; ad_arrived := ad_arrived s; ad_admitted := ad_admitted s |}.

Definition join (t : nat) (s : Admission) : Admission := {|
  ad_active := ad_active s; ad_waiters := ad_waiters s ++ [t]; ad_owners := ad_owners s;
  ad_arrived := ad_arrived s ++ [t]; ad_admitted := ad_admitted s |}.

Definition take_slot (t : nat) (s : Admission) : Admission := {|
  ad_active := ad_active s + 1; ad_waiters := ad_waiters s; ad_owners := t :: ad_owners s;
  ad_arrived := ad_arrived s; ad_admitted := ad_admitted s ++ [t] |}.

Section admission.
Context (maximum queued : Z).

(** One evaluation of the loop's condition and what follows it; [late] is
    [time.monotonic() >= deadline]. *)
Definition poll (t : nat) (late : bool) (s : Admission) : Outcome * Admission :=
  let waiting := negb (bool_decide (head (ad_waiters s) = Some t)) || (maximum <=? ad_active s)%Z in
  if late then (EXPIRED, leave t s)
  else if waiting then (WAITING, s)
  else (ADMITTED, leave t (take_slot t s)).

(** [acquire], up to its first await. *)
Definition acquire (t : nat) (late : bool) (s : Admission) : Outcome * Admission :=
  if (maximum + queued <=? ad_active s + Z.of_nat (length (ad_waiters s)))%Z then (QUEUE_FULL, s)
  else poll t late (join t s).

(** [release_slot] and the release after a failed cleanup. *)
Definition release_slot (t : nat) (s : Admission) : Admission :=
  if py_in t (ad_owners s)
  then {| ad_active := ad_active s - 1; ad_waiters := ad_waiters s;
          ad_owners := List.filter (fun u => u != t) (ad_owners s); ad_arrived := ad_arrived s;
          ad_admitted := ad_admitted s |}
  else s.

(** The steps of the server: a request arrives, a waiting request takes its turn or
    leaves, a request (admitted or not) releases its slot. *)
Inductive step : Admission -> Admission -> Prop :=
  | step_arrive t late s o s' :
      t ∉ ad_arrived s -> acquire t late s = (o, s') -> step s s'
  | step_poll t late s o s' :
      t ∈ ad_waiters s -> poll t late s = (o, s') -> step s s'
  | step_leave t s : t ∈ ad_waiters s -> step s (leave t s)
  | step_release t s : step s (release_slot t s).

Inductive reachable : Admission -> Prop :=
  | reachable_init : reachable admission
  | reachable_step s s' : reachable s -> step s s' -> reachable s'.

(** ** Invariant *)

Record admission_inv (s : Admission) : Prop := {
  inv_slots : ad_active s = Z.of_nat (length (ad_owners s));
  inv_active : (ad_active s <= maximum)%Z;
  inv_queue : (ad_active s + Z.of_nat (length (ad_waiters s)) <= maximum + queued)%Z;
  inv_distinct : NoDup (ad_owners s ++ ad_waiters s);
  inv_arrived : NoDup (ad_arrived s);
  inv_known : forall t, t ∈ ad_owners s ++ ad_waiters s -> t ∈ ad_arrived s;
  inv_fifo : ad_admitted s ++ ad_waiters s `sublist_of` ad_arrived s
}.

Lemma filter_ne_notin (t : nat) l : t ∉ l -> List.filter (fun u => u != t) l = l.
Proof.
  induction l as [|u l IH]; intros Hn; simpl; [done|]. rewrite not_elem_of_cons in Hn.
  destruct Hn as [Hne Hn]. destruct (u == t) eqn:E; [|by rewrite IH]. by apply (proj1 (pyeqb_eq _ _)) in E.
Qed.

Lemma filter_ne_sublist (t : nat) l : List.filter (fun u => u != t) l `sublist_of` l.
Proof.
  induction l as [|u l IH]; simpl; [done|]. destruct (u != t); [by apply sublist_skip|by apply sublist_cons].
Qed.

Lemma filter_ne_length (t : nat) l : NoDup l -> t ∈ l ->
  S (length (List.filter (fun u => u != t) l)) = length l.
Proof.
  induction 1 as [|u l Hu _ IH]; intros Ht; [by apply not_elem_of_nil in Ht|]. simpl.
  destruct (u == t) eqn:E.
  - apply (proj1 (pyeqb_eq _ _)) in E as ->. simpl. by rewrite filter_ne_notin.
  - simpl. rewrite IH; [done|]. apply elem_of_cons in Ht as [->|?]; [|done].
    by rewrite pyeqb_refl in E.
Qed.

Lemma elem_of_filter_ne (t u : nat) l : u ∈ List.filter (fun v => v != t) l <-> u <> t /\ u ∈ l.
Proof. rewrite elem_of_filterb, negb_true_iff, pyeqb_false. done. Qed.

(** Only the sizes and the order of the parts matter for the invariant. *)
Lemma leave_inv t s : admission_inv s -> admission_inv (leave t s).
Proof.
  intros [Hs Ha Hq Hd Hr Hk Hf]. set (w := List.filter (fun u => u != t) (ad_waiters s)).
  assert (Hw : w `sublist_of` ad_waiters s) by apply filter_ne_sublist.
  apply sublist_length in Hw as Hl.
  constructor; cbn [leave ad_active ad_waiters ad_owners ad_arrived ad_admitted]; fold w; try done.
  - lia.
  - eapply sublist_NoDup; [exact Hd|]. by apply sublist_app.
  - intros u Hu. apply Hk. apply elem_of_app in Hu as [Hu|Hu]; apply elem_of_app; [by left|right].
    by apply elem_of_filter_ne in Hu as [_ ?].
  - etransitivity; [|exact Hf]. by apply sublist_app.
Qed.

Lemma join_inv t s : admission_inv s -> t ∉ ad_arrived s ->
  (ad_active s + Z.of_nat (length (ad_waiters s)) < maximum + queued)%Z -> admission_inv (join t s).
Proof.
  intros [Hs Ha Hq Hd Hr Hk Hf] Hnew Hroom.
  constructor; cbn [join ad_active ad_waiters ad_owners ad_arrived ad_admitted]; try done.
  - rewrite length_app. simpl. lia.
  - rewrite app_assoc. apply NoDup_app. split; [done|]. split; [|apply NoDup_singleton].
    intros u Hu ->%list_elem_of_singleton. by apply Hnew, Hk.
  - apply NoDup_app. split; [done|]. split; [|apply NoDup_singleton].
    by intros u Hu ->%list_elem_of_singleton.
  - intros u. rewrite app_assoc, !elem_of_app. intros [Hu|Hu]; [left|by right].
    by apply Hk, elem_of_app.
  - rewrite app_assoc. by apply sublist_app.
Qed.

Lemma admit_inv t s w : admission_inv s -> ad_waiters s = t :: w -> (ad_active s < maximum)%Z ->
  admission_inv (leave t (take_slot t s)).
Proof.
  intros [Hs Ha Hq Hd Hr Hk Hf] Hw Hslot. rewrite Hw in *.
  assert (Ht : t ∉ w /\ t ∉ ad_owners s /\ NoDup (ad_owners s ++ w)).
  { rewrite <- Permutation_middle in Hd. apply NoDup_cons in Hd as [Hn Hd].
    rewrite not_elem_of_app in Hn. tauto. }
  destruct Ht as (Htw & Hto & Hd').
  assert (Hleft : List.filter (fun u => u != t) (t :: w) = w).
  { simpl. rewrite pyeqb_refl. simpl. by apply filter_ne_notin. }
  constructor; cbn [leave take_slot ad_active ad_waiters ad_owners ad_arrived ad_admitted];
    rewrite ?Hw, ?Hleft; try done.
  - simpl. lia.
  - lia.
  - simpl in Hq. lia.
  - simpl. apply NoDup_cons. split; [by rewrite not_elem_of_app|done].
  - intros u Hu. apply Hk. simpl in Hu. rewrite <- Permutation_middle. exact Hu.
  - by rewrite <- app_assoc.
Qed.

Lemma poll_inv t late s o s' : admission_inv s -> poll t late s = (o, s') -> admission_inv s'.
Proof.
  intros Hi. unfold poll. destruct late; [intros [= <- <-]; by apply leave_inv|].
  destruct (bool_decide_reflect (head (ad_waiters s) = Some t)) as [Hh|]; [|by intros [= <- <-]].
  simpl. destruct (Z.leb_spec maximum (ad_active s)) as [|Hslot]; intros [= <- <-]; [done|].
  destruct (ad_waiters s) as [|u w] eqn:Hw; [done|]. injection Hh as ->. by eapply admit_inv.
Qed.

Lemma release_inv t s : admission_inv s -> admission_inv (release_slot t s).
Proof.
  intros Hi. unfold release_slot. destruct (py_in t (ad_owners s)) eqn:Ht; [|done].
  apply py_in_elem in Ht. destruct Hi as [Hs Ha Hq Hd Hr Hk Hf].
  assert (Hno : NoDup (ad_owners s)) by (by apply NoDup_app in Hd as (? & _ & _)).
  pose proof (filter_ne_length t _ Hno Ht) as Hl.
  constructor; cbn [ad_active ad_waiters ad_owners ad_arrived ad_admitted]; try done; try lia.
  - eapply sublist_NoDup; [exact Hd|]. apply sublist_app; [apply filter_ne_sublist|done].
  - intros u Hu. apply Hk. apply elem_of_app in Hu as [Hu|Hu]; apply elem_of_app; [left|by right].
    by apply elem_of_filter_ne in Hu as [_ ?].
Qed.

Lemma step_inv s s' : admission_inv s -> step s s' -> admission_inv s'.
Proof.
  intros Hi Hs. revert Hi.
  destruct Hs as [t late s o s' Hnew E|t late s o s' _ E|t s _|t s]; intros Hi;
    [|by eapply poll_inv|by apply leave_inv|by apply release_inv].
  unfold acquire in E. destruct (Z.leb_spec (maximum + queued) (ad_active s + Z.of_nat (length (ad_waiters s))));
    simplify_eq; [done|]. by eapply poll_inv; [apply join_inv|].
Qed.

Lemma reachable_inv s : (0 <= maximum)%Z -> (0 <= queued)%Z -> reachable s -> admission_inv s.
Proof.
  intros Hm Hq. induction 1 as [|s s' _ IH Hs]; [|by eapply step_inv].
  constructor; simpl; try done; try lia; try apply NoDup_nil_2.
Qed.

(** C27: in every state the server can reach, whatever the interleaving of arrivals,
    turns, disconnections and releases: at most [maximum] requests hold a slot, the
    counter is exactly the number of slots held, at most [queued] more are counted
    in, no request holds or awaits two slots, and slots are given in the order of
    arrival: those admitted, followed by those still waiting, are a subsequence of
    the arrivals. *)
Theorem admission_safe s : (0 <= maximum)%Z -> (0 <= queued)%Z -> reachable s ->
  ad_active s = Z.of_nat (length (ad_owners s)) /\ (0 <= ad_active s <= maximum)%Z /\
  (ad_active s + Z.of_nat (length (ad_waiters s)) <= maximum + queued)%Z /\
  NoDup (ad_owners s ++ ad_waiters s) /\ ad_admitted s ++ ad_waiters s `sublist_of` ad_arrived s.
Proof. intros Hm Hq [? ? ? ? ? ? ?]%reachable_inv; [|done..]. split_and!; try done; lia. Qed.

(** C36: a free slot is never left unused: in every reachable state in which someone
    waits and fewer than [maximum] slots are held, the next turn of the first
    waiter before its deadline gives it the slot and removes it from the queue. *)
Theorem admission_work_conserving s t w :
  (0 <= maximum)%Z -> (0 <= queued)%Z -> reachable s ->
  ad_waiters s = t :: w -> (ad_active s < maximum)%Z ->
  exists s', poll t false s = (ADMITTED, s') /\ ad_waiters s' = w /\ ad_owners s' = t :: ad_owners s /\
    reachable s'.
Proof.
  intros Hm Hq Hr Hw Hslot. pose proof (reachable_inv s Hm Hq Hr) as Hi.
  exists (leave t (take_slot t s)).
  assert (Hp : poll t false s = (ADMITTED, leave t (take_slot t s))).
  { unfold poll. rewrite Hw. rewrite bool_decide_true by done. simpl.
    by rewrite (proj2 (Z.leb_gt _ _)). }
  split; [done|]. split; [|split; [done|]].
  - cbn [leave take_slot ad_waiters]. rewrite Hw. simpl. rewrite pyeqb_refl. simpl.
    apply filter_ne_notin. destruct Hi as [_ _ _ Hd _ _ _]. rewrite Hw in Hd.
    rewrite <- Permutation_middle in Hd. apply NoDup_cons in Hd as [Hn _].
    rewrite not_elem_of_app in Hn. tauto.
  - eapply reachable_step; [done|]. eapply step_poll; [|done]. rewrite Hw. apply list_elem_of_here.
Qed.
End admission.

(** ** A busy server: one slot, one place in the queue *)
Module AdmissionDemo.

Definition demo_busy : Admission :=
  {| ad_active := 1; ad_waiters := [2%nat]; ad_owners := [1%nat]; ad_arrived := [1; 2]%nat;
     ad_admitted := [1%nat] |}.

Lemma demo_reachable : reachable 1 1 demo_busy.
Proof.
  eapply reachable_step; [eapply reachable_step; [apply reachable_init|]|].
  - eapply (step_arrive 1 1 1%nat false); [by apply not_elem_of_nil|reflexivity].
  - eapply (step_arrive 1 1 2%nat false); [|reflexivity].
    simpl. rewrite list_elem_of_singleton. discriminate.
Qed.

Lemma admission_safe_witness : ad_active demo_busy = 1%Z /\
  NoDup (ad_owners demo_busy ++ ad_waiters demo_busy).
Proof.
  destruct (admission_safe 1 1 demo_busy ltac:(lia) ltac:(lia) demo_reachable) as (_ & _ & _ & Hd & _).
  exact (conj eq_refl Hd).
Defined.

Lemma admission_work_conserving_witness : exists s',
  poll 1 2 false (release_slot 1 demo_busy) = (ADMITTED, s') /\ ad_waiters s' = [].
Proof.
  destruct (admission_work_conserving 1 1 (release_slot 1 demo_busy) 2 [] ltac:(lia) ltac:(lia)
    (reachable_step 1 1 _ _ demo_reachable (step_release 1 1 1%nat demo_busy)) eq_refl eq_refl)
    as (s' & Hp & Hw & _). exists s'. exact (conj Hp Hw).
Defined.
End AdmissionDemo.
