(* ===== verification/Session.v ===== *)
(** * Deployment sessions (src/python/hllm_control/controller.py)

    One session over already running workers: stages are loaded from the last to the
    first, requests are streamed from the first stage, and whatever was started is
    cancelled and unloaded.  The RPCs a session makes are recorded in a log, in
    order; what the workers answer is the record [Workers]. *)

From Stdlib Require Import SpecFloat.
From stdpp Require Import gmap strings.
From S2P Require Export Activation Wire.

(** ** RPCs and their answers *)

Inductive Rpc :=
  | LoadStage (index : nat)
  | UnloadStage (index : nat)
  | CancelRequest (index : nat) (request_id : string)
  | Generate (request_id : string)
  | CallCancel (request_id : string).

#[export] Instance rpc_eq_dec : EqDecision Rpc.
Proof. solve_decision. Defined.

Inductive LoadReply :=
  | LoadAccepted
  | LoadRejected (detail : string)
  | LoadRpcError
  | LoadInterrupted (e : exn).   (** any other exception of the call *)

Inductive UnloadReply :=
  | Unloaded
  | FailedPrecondition
  | UnloadRpcError.

Record Workers := {
  wk_load : nat -> LoadReply;
  wk_unload : nat -> nat -> UnloadReply;   (** stage and attempt *)
  wk_clock : nat -> nat -> Z               (** milliseconds since the first attempt *)
}.

Record Session := {
  se_loaded : list nat;
  se_requests : list string;
  se_closed : bool
}.

Definition session : Session := {| se_loaded := []; se_requests := []; se_closed := false |}.

(** [__init__]: its checks, and the session with its channels open. *)
Definition session_init (manifest : ModelManifest) (plan : DeploymentPlan)
    (endpoints : gmap string string) (bundle : option Bundle) : result Session :=
  raise_if (dp_manifest_digest plan != mm_manifest_digest manifest) ValueError
    "plan and manifest do not match" ;;
  raise_if (existsb (fun stage => bool_decide (endpoints !! sa_worker_id stage = None)) (dp_stages plan))
    ValueError "missing worker endpoint" ;;
  raise_if ((dp_planning_mode plan == MEASURED) && negb (opt_truthy bundle)) ValueError
    "measured activation requires its profile bundle" ;;
  Ok session.

(** ** Checks of a request *)

Definition bundle_workload (bundle : option Bundle) : option WorkloadProfile :=
  (fun b => bm_workload (bu_metadata b)) <$> bundle.

Definition int_or (n m : Z) : Z := if n == 0%Z then m else n.

Definition in_vocabulary (config : ModelConfig) (token : Z) : bool :=
  (0 <=? token)%Z && (token <? mc_vocabulary_size config)%Z.

(** The first prefill input against the boundary message, for two stages. *)
Definition exceeds_boundary (config : ModelConfig) (plan : DeploymentPlan) (tokens chunk : Z) : bool :=
  (length (dp_stages plan) =? 2)%nat
  && (maximum_boundary_tokens (mc_hidden_size config) (dp_activation_dtype plan)
      <? Z.min tokens (int_or chunk tokens))%Z.

(** The checks of [DeploymentSession.generate] before the request is registered. *)
Definition check_request (config : ModelConfig) (plan : DeploymentPlan) (measured : option WorkloadProfile)
    (token_ids : list Z) (maximum_new_tokens : Z) (stops : list Z) (timeout : float) (chunk : Z)
    : result unit :=
  let n := Z.of_nat (length token_ids) in
  raise_if ((n == 0%Z) || (maximum_new_tokens <=? 0)%Z
            || negb (flt f0 timeout && fle timeout (literal 3600 1))) ValueError
    "prompt, output length and timeout must be positive and bounded" ;;
  raise_if (negb ((0 <=? chunk) && (chunk <=? MAXIMUM_PREFILL_CHUNK_TOKENS))%Z) ValueError
    "invalid prefill chunk size" ;;
  raise_if (mc_maximum_sequence_length config <? n + maximum_new_tokens)%Z ValueError
    "prompt and output exceed model context capacity" ;;
  raise_if (exceeds_boundary config plan n chunk) ValueError
    "prefill input exceeds the stage boundary transport limit; send the prompt in smaller prefill chunks" ;;
  raise_if match measured with
           | Some w => (n, maximum_new_tokens, chunk) != (wl_prompt_tokens w, wl_output_tokens w, wl_prefill_chunk_tokens w)
           | None => false end ValueError
    "request differs from measured workload" ;;
  raise_if (negb (forallb (in_vocabulary config) (token_ids ++ stops))) ValueError
    "token ID exceeds vocabulary".

(** ** Cleanup *)

(** [cancel]: every worker is told; a lost worker is ignored. *)
Definition cancel (stages : nat) (request_id : string) : list Rpc :=
  (fun i => CancelRequest i request_id) <$> seq 0 stages.

Definition UNLOAD_LIMIT_MS : Z := 5000.

(** The attempts to unload one stage: a busy worker is retried until the limit. *)
Fixpoint unload_loop (fuel : nat) (workers : Workers) (index attempt : nat) : list Rpc :=
  match fuel with
  | O => []
  | S fuel' =>
    UnloadStage index ::
    match wk_unload workers index attempt with
    | FailedPrecondition =>
      if (UNLOAD_LIMIT_MS <=? wk_clock workers index attempt)%Z then []
      else unload_loop fuel' workers index (S attempt)
    | Unloaded | UnloadRpcError => []
    end
  end.

(** 5000 ms at no less than 20 ms per attempt. *)
Definition UNLOAD_FUEL : nat := 251.

Definition close (stages : nat) (workers : Workers) (s : Session) : list Rpc * Session :=
  ((request ← se_requests s; cancel stages request)
     ++ (index ← rev (se_loaded s); unload_loop UNLOAD_FUEL workers index 0),
   {| se_loaded := []; se_requests := se_requests s; se_closed := true |}).

(** ** Entry *)

Definition add_loaded (index : nat) (s : Session) : Session :=
  {| se_loaded := se_loaded s ++ [index]; se_requests := se_requests s; se_closed := se_closed s |}.

Fixpoint load_stages (workers : Workers) (indices : list nat) (s : Session)
    : list Rpc * Session * result unit :=
  match indices with
  | [] => ([], s, Ok tt)
  | index :: rest =>
    match wk_load workers index with
    | LoadAccepted =>
      let '(log, s, r) := load_stages workers rest (add_loaded index s) in
      (LoadStage index :: log, s, r)
    | LoadRejected detail =>
      ([LoadStage index], s,
       raise RuntimeError (String.append "worker " (String.append (pretty (Z.of_nat index))
         (String.append " rejected load: " detail))))
    | LoadRpcError => ([LoadStage index], add_loaded index s, raise RpcError "")
    | LoadInterrupted e => ([LoadStage index], s, Err e)
    end
  end.

(** The [try] of [__enter__], [gate] being the activation gate, and its handler. *)
Definition enter_stages (stages : nat) (workers : Workers) (gate : result unit) (s : Session)
    : list Rpc * Session * result unit :=
  let '(log, s, r) :=
    match gate with
    | Err e => ([], s, Err e)
    | Ok _ => load_stages workers (rev (seq 0 stages)) s
    end in
  match r with
  | Ok _ => (log, s, Ok tt)
  | Err e => let '(cleanup, s) := close stages workers s in (log ++ cleanup, s, Err e)
  end.

(** [__enter__]: the messages are built before the [try]. *)
Definition enter `{Hash} `{JsonLoads} (now : datetime) (manifest : ModelManifest)
    (plan : DeploymentPlan) (bundle : option Bundle) (controls : list Control) (workers : Workers)
    (s : Session) : list Rpc * Session * result unit :=
  match (_ ← deployment_plan_to_proto plan; _ ← model_manifest_to_proto manifest; Ok tt) with
  | Err e => ([], s, Err e)
  | Ok _ =>
    enter_stages (length (dp_stages plan)) workers
      match bundle with
      | Some b => validate_activation now manifest plan b controls
      | None => Ok tt
      end s
  end.

(** ** Generation *)

Record Event := {
  ge_request_id : string;
  ge_terminal : option bool   (** a terminal event: whether its state is COMPLETED *)
}.

(** How the native stream ends, and when the consumer stops reading. *)
Inductive StreamEnd := STREAM_ENDS | STREAM_FAILS (e : exn).
Inductive GenerateOutcome := FINISHED | CLOSED_BY_CONSUMER | RAISED (e : exn).

(** The loop over the call: what is yielded, whether a completion was seen, and how
    the generator ends.  [patience] is [Some n] when the consumer takes [n + 1] events
    and then closes the generator, [None] when it reads to the end. *)
Fixpoint consume (identifier : string) (events : list Event) (ending : StreamEnd)
    (patience : option nat) (completed : bool) : list Event * bool * GenerateOutcome :=
  match events with
  | [] =>
    ([], completed,
     match ending with
     | STREAM_FAILS e => RAISED e
     | STREAM_ENDS => if completed then FINISHED
                      else RAISED (Exn RuntimeError "generation stream ended without a terminal event")
     end)
  | event :: rest =>
    if ge_request_id event != identifier
    then ([], completed, RAISED (Exn RuntimeError "generation event request ID mismatch"))
    else
      match ge_terminal event with
      | Some false => ([], completed, RAISED (Exn RuntimeError "generation failed"))
      | _ =>
        let completed := completed || opt_truthy (ge_terminal event) in
        match patience with
        | Some O => ([event], completed, CLOSED_BY_CONSUMER)
        | _ =>
          let '(out, c, o) := consume identifier rest ending (pred <$> patience) completed in
          (event :: out, c, o)
        end
      end
  end.

Definition start_request (identifier : string) (s : Session) : Session := {|
  se_loaded := se_loaded s; se_requests := se_requests s ++ [identifier]; se_closed := se_closed s |}.

Definition end_request (identifier : string) (s : Session) : Session := {|
  se_loaded := se_loaded s;
  se_requests := List.filter (fun r => r != identifier) (se_requests s); se_closed := se_closed s |}.

(** [generate] after its checks: registration, the stream, and its [finally]. *)
Definition stream_request (stages : nat) (identifier : string) (events : list Event) (ending : StreamEnd)
    (patience : option nat) (s : Session) : list Rpc * Session * list Event * GenerateOutcome :=
  if py_in identifier (se_requests s)
  then ([], s, [], RAISED (Exn ValueError "request ID is already active in this session"))
  else
    let '(out, completed, outcome) := consume identifier events ending patience false in
    (Generate identifier :: CallCancel identifier :: (if completed then [] else cancel stages identifier),
     end_request identifier (start_request identifier s), out, outcome).

Definition generate (config : ModelConfig) (plan : DeploymentPlan) (measured : option WorkloadProfile)
    (token_ids : list Z) (maximum_new_tokens : Z) (stop_token_ids : option (list Z)) (timeout : float)
    (chunk : Z) (identifier : string) (events : list Event) (ending : StreamEnd)
    (patience : option nat) (s : Session) : list Rpc * Session * list Event * GenerateOutcome :=
  let stops := match stop_token_ids with None => mc_eos_token_ids config | Some l => l end in
  match check_request config plan measured token_ids maximum_new_tokens stops timeout chunk with
  | Err e => ([], s, [], RAISED e)
  | Ok _ => stream_request (length (dp_stages plan)) identifier events ending patience s
  end.

(** ** Properties *)

(** *** Entry is all or nothing *)

(** The stages that may hold the plan after a load was attempted. *)
Definition may_hold (workers : Workers) (index : nat) : bool :=
  match wk_load workers index with LoadAccepted | LoadRpcError => true | _ => false end.

Lemma load_stages_spec workers indices s log s' r :
  load_stages workers indices s = (log, s', r) ->
  exists tried rest, indices = tried ++ rest /\ log = LoadStage <$> tried /\
    se_loaded s' = se_loaded s ++ List.filter (may_hold workers) tried /\
    se_requests s' = se_requests s /\
    (r = Ok tt -> rest = [] /\ Forall (fun i => wk_load workers i = LoadAccepted) tried).
Proof.
  revert s log s' r. induction indices as [|i indices IH]; intros s log s' r E; simpl in E.
  - simplify_eq. exists [], []. simpl. rewrite app_nil_r. split_and!; done.
  - destruct (wk_load workers i) as [|detail| |e] eqn:Hl.
    + destruct (load_stages workers indices (add_loaded i s)) as [[log1 s1] r1] eqn:Hrec. simplify_eq.
      destruct (IH _ _ _ _ Hrec) as (tried & rest & -> & -> & Hld & Hrq & Hok).
      exists (i :: tried), rest. split; [done|]. split; [done|].
      assert (may_hold workers i = true) as Hm by (unfold may_hold; by rewrite Hl).
      simpl. rewrite Hm, Hld. simpl. rewrite <- app_assoc. split; [done|]. split; [done|].
      intros Hr. destruct (Hok Hr) as [-> Hall]. split; [done|]. by constructor.
    + simplify_eq. exists [i], indices. simpl. unfold may_hold. rewrite Hl, app_nil_r. split_and!; done.
    + simplify_eq. exists [i], indices. simpl. unfold may_hold. rewrite Hl. split_and!; done.
    + simplify_eq. exists [i], indices. simpl. unfold may_hold. rewrite Hl, app_nil_r. split_and!; done.
Qed.

Lemma unload_attempted fuel workers index attempt :
  (0 < fuel)%nat -> UnloadStage index ∈ unload_loop fuel workers index attempt.
Proof. destruct fuel; [lia|]. intros _. simpl. apply list_elem_of_here. Qed.

Lemma unload_loop_no_load fuel workers index attempt i :
  LoadStage i ∉ unload_loop fuel workers index attempt.
Proof.
  revert attempt. induction fuel as [|fuel IH]; intros attempt; simpl; [by apply not_elem_of_nil|].
  rewrite not_elem_of_cons. split; [done|].
  destruct (wk_unload workers index attempt); try by apply not_elem_of_nil.
  case_match; [by apply not_elem_of_nil|apply IH].
Qed.

Lemma close_no_load stages workers s i : LoadStage i ∉ (close stages workers s).1.
Proof.
  unfold close. cbn [fst]. rewrite not_elem_of_app. split.
  - intros (q & Hin & _)%list_elem_of_bind. by apply list_elem_of_fmap in Hin as (? & ? & _).
  - intros (j & Hin & _)%list_elem_of_bind. by apply unload_loop_no_load in Hin.
Qed.

Lemma loaded_filter workers tried :
  Forall (fun i => wk_load workers i = LoadAccepted) tried -> List.filter (may_hold workers) tried = tried.
Proof.
  induction 1 as [|i l Hi _ IH]; [done|]. simpl.
  assert (may_hold workers i = true) as -> by (unfold may_hold; by rewrite Hi). by rewrite IH.
Qed.

(** Whatever was recorded as loaded is told to unload when the session closes. *)
Lemma close_unloads stages workers s i :
  i ∈ se_loaded s -> UnloadStage i ∈ (close stages workers s).1.
Proof.
  intros Hi. unfold close. cbn [fst]. apply elem_of_app. right. apply list_elem_of_bind. exists i.
  split; [by apply unload_attempted; unfold UNLOAD_FUEL; lia|].
  apply list_elem_of_In, in_rev. rewrite rev_involutive. by apply list_elem_of_In.
Qed.

Lemma enter_stages_spec stages workers gate log s r :
  enter_stages stages workers gate session = (log, s, r) ->
  match r with
  | Ok _ => log = LoadStage <$> rev (seq 0 stages) /\
            Forall (fun i => wk_load workers i = LoadAccepted) (rev (seq 0 stages)) /\
            se_loaded s = rev (seq 0 stages) /\ gate = Ok tt
  | Err e => se_loaded s = [] /\ se_closed s = true /\
             (forall i, LoadStage i ∈ log -> may_hold workers i = true -> UnloadStage i ∈ log) /\
             (is_ok gate = false -> gate = Err e /\ forall i, LoadStage i ∉ log)
  end.
Proof.
  unfold enter_stages. destruct gate as [[]|e].
  - destruct (load_stages workers (rev (seq 0 stages)) session) as [[log0 s0] r0] eqn:Hl.
    destruct (load_stages_spec _ _ _ _ _ _ Hl) as (tried & rest & Hsplit & -> & Hld & _ & Hok).
    intros E. destruct r0 as [[]|e].
    + injection E as <- <- <-. destruct (Hok eq_refl) as [-> Hall]. rewrite app_nil_r in Hsplit.
      rewrite Hsplit. split; [done|]. split; [done|]. split; [|done].
      rewrite Hld. by apply loaded_filter.
    + injection E as <- <- <-. split; [done|]. split; [done|]. split; [|done].
      intros i [Hi|Hi]%elem_of_app Hm; apply elem_of_app; right.
      * apply list_elem_of_fmap in Hi as (j & [= <-] & Hj).
        apply (close_unloads stages workers s0 i). rewrite Hld. by apply elem_of_filterb.
      * by apply (close_no_load stages workers s0 i) in Hi.
  - intros E. injection E as <- <- <-. split; [done|]. split; [done|]. split.
    + intros i Hi. by apply (close_no_load stages workers session i) in Hi.
    + intros _. split; [done|]. intros i. apply (close_no_load stages workers session i).
Qed.

Section entry.
Context `{Hash} `{JsonLoads}.

(** C26: entering a session loads every stage or none.  On success the last stage
    was loaded first, every load was accepted and the activation gate, when there is
    a bundle, passed; on any failure nothing stays recorded as loaded, every stage
    that may hold the plan (its load was accepted, or its answer was lost) was told to
    unload, and when the gate refuses no load was sent at all. *)
Theorem enter_all_or_nothing now manifest plan bundle controls workers log s r :
  enter now manifest plan bundle controls workers session = (log, s, r) ->
  match r with
  | Ok _ => let stages := rev (seq 0 (length (dp_stages plan))) in
            log = LoadStage <$> stages /\ se_loaded s = stages /\
            Forall (fun i => wk_load workers i = LoadAccepted) stages /\
            (forall b, bundle = Some b -> validate_activation now manifest plan b controls = Ok tt)
  | Err e => se_loaded s = [] /\
             (forall i, LoadStage i ∈ log -> may_hold workers i = true -> UnloadStage i ∈ log) /\
             (forall b, bundle = Some b -> is_ok (validate_activation now manifest plan b controls) = false ->
              forall i, LoadStage i ∉ log)
  end.
Proof.
  unfold enter. intros E.
  destruct (_ ← deployment_plan_to_proto plan; _) as [u|e] eqn:Hw.
  - apply enter_stages_spec in E. destruct r as [u'|e].
    + destruct E as (? & ? & ? & Hg). split_and!; try done. intros b ->. done.
    + destruct E as (? & _ & ? & Hg). split_and!; try done. intros b -> Hb. by apply Hg.
  - injection E as <- <- <-. split; [done|]. split; intros; [|by apply not_elem_of_nil].
    by match goal with Hn : _ ∈ [] |- _ => apply not_elem_of_nil in Hn end.
Qed.
End entry.

(** *** Unloading ends *)

Section unload.
Context (workers : Workers) (index : nat).
Hypothesis clock_starts : (0 <= wk_clock workers index 0)%Z.
Hypothesis clock_sleeps : forall a, (wk_clock workers index a + 20 <= wk_clock workers index (S a))%Z.

Lemma clock_grows a : (20 * Z.of_nat a <= wk_clock workers index a)%Z.
Proof. induction a as [|a IH]; [done|]. specialize (clock_sleeps a). lia. Qed.

(** An attempt after which the loop goes on. *)
Definition retried (a : nat) : Prop :=
  wk_unload workers index a = FailedPrecondition /\ (wk_clock workers index a < UNLOAD_LIMIT_MS)%Z.

Lemma retried_dec a : retried a \/ ~ retried a.
Proof.
  unfold retried. destruct (wk_unload workers index a); [by right; intros [? _]| |by right; intros [? _]].
  destruct (Z.lt_ge_cases (wk_clock workers index a) UNLOAD_LIMIT_MS); [by left|right]. lia.
Qed.

Lemma unload_loop_retried fuel a : retried a ->
  unload_loop (S fuel) workers index a = UnloadStage index :: unload_loop fuel workers index (S a).
Proof.
  intros [Hr Hc]. simpl. rewrite Hr. destruct (UNLOAD_LIMIT_MS <=? _)%Z eqn:E; [lia|done].
Qed.

Lemma unload_loop_last fuel a : ~ retried a -> unload_loop (S fuel) workers index a = [UnloadStage index].
Proof.
  intros Hn. simpl. destruct (wk_unload workers index a) eqn:Hr; try done.
  destruct (UNLOAD_LIMIT_MS <=? _)%Z eqn:E; [done|]. exfalso. apply Hn. split; [done|lia].
Qed.

Lemma unload_loop_runs fuel a : (a <= 250)%nat -> (251 <= fuel + a)%nat ->
  exists n, (a <= n <= 250)%nat /\
    unload_loop fuel workers index a = replicate (S (n - a)) (UnloadStage index) /\
    (forall i, (a <= i < n)%nat -> retried i) /\ ~ retried n.
Proof.
  revert a. induction fuel as [|fuel IH]; intros a Ha Hf; [lia|].
  destruct (retried_dec a) as [Hr|Hr].
  - assert (a < 250)%nat by (destruct Hr as [_ Hc]; pose proof (clock_grows a); unfold UNLOAD_LIMIT_MS in Hc; lia).
    destruct (IH (S a)) as (n & Hn & Heq & Hall & Hlast); [lia|lia|]. exists n.
    rewrite unload_loop_retried, Heq by done. split; [lia|]. split.
    + by replace (n - a)%nat with (S (n - S a)) by lia.
    + split; [|done]. intros i Hi. destruct (decide (i = a)) as [->|]; [done|]. apply Hall. lia.
  - exists a. rewrite unload_loop_last by done. rewrite Nat.sub_diag. split; [lia|].
    split; [done|]. split; [lia|done].
Qed.

(** C31: unloading a stage ends.  As long as the clock starts at zero or later and the
    loop's sleep lets 20 ms pass between attempts, no more than 251 attempts are made
    whatever the worker answers: every attempt before the last was refused because
    the worker was still busy, within the limit of 5 s, and the last one was not;
    more fuel than [UNLOAD_FUEL] changes nothing. *)
Theorem unload_terminates fuel : (UNLOAD_FUEL <= fuel)%nat ->
  unload_loop fuel workers index 0 = unload_loop UNLOAD_FUEL workers index 0 /\
  exists n, (n <= 250)%nat /\
    unload_loop UNLOAD_FUEL workers index 0 = replicate (S n) (UnloadStage index) /\
    (forall i, (i < n)%nat -> wk_unload workers index i = FailedPrecondition /\
                              (wk_clock workers index i < UNLOAD_LIMIT_MS)%Z) /\
    (wk_unload workers index n = FailedPrecondition -> (UNLOAD_LIMIT_MS <= wk_clock workers index n)%Z).
Proof.
  unfold UNLOAD_FUEL. intros Hf.
  destruct (unload_loop_runs fuel 0) as (n & Hn & -> & Hall & Hlast); [lia|lia|].
  destruct (unload_loop_runs 251 0) as (n' & Hn' & -> & Hall' & Hlast'); [lia|lia|].
  assert (n = n') as <-.
  { destruct (Nat.lt_total n n') as [Hlt|[?|Hlt]]; [|done|].
    - exfalso. apply Hlast, Hall'. lia.
    - exfalso. apply Hlast', Hall. lia. }
  rewrite Nat.sub_0_r. split; [done|]. exists n. split; [lia|]. split; [done|]. split.
  - intros i Hi. apply Hall. lia.
  - intros Hr. destruct (Z.le_gt_cases UNLOAD_LIMIT_MS (wk_clock workers index n)); [done|].
    exfalso. apply Hlast. by split.
Qed.
End unload.

(** *** The life of a request *)

Definition own_event (identifier : string) (e : Event) : Prop :=
  ge_request_id e = identifier /\ ge_terminal e <> Some false.
Definition completes (e : Event) : Prop := ge_terminal e = Some true.

(** What the loop over the stream did. *)
Record consumed (identifier : string) (events : list Event) (patience : option nat) (c0 : bool)
    (out : list Event) (completed : bool) (o : GenerateOutcome) : Prop := {
  co_prefix : out `prefix_of` events;
  co_own : Forall (own_event identifier) out;
  co_completed : completed = true <-> c0 = true \/ Exists completes out;
  co_finished : o = FINISHED -> out = events /\ completed = true;
  co_closed : o = CLOSED_BY_CONSUMER -> exists n, patience = Some n /\ length out = S n
}.

Lemma consumed_nil identifier events patience c0 x :
  consumed identifier events patience c0 [] c0 (RAISED x).
Proof.
  constructor; try done; [apply prefix_nil|]. split; [by left|]. intros [?|Hx]; [done|by inversion Hx].
Qed.

Lemma consumed_cons identifier e rest patience c0 out completed o :
  own_event identifier e ->
  consumed identifier rest (pred <$> patience) (c0 || opt_truthy (ge_terminal e)) out completed o ->
  patience <> Some 0%nat ->
  consumed identifier (e :: rest) patience c0 (e :: out) completed o.
Proof.
  intros He [Hp Ho Hc Hf Hcl] Hn. constructor.
  - by apply prefix_cons.
  - by constructor.
  - rewrite Hc, orb_true_iff, Exists_cons. unfold completes at 2.
    destruct He as [_ He]. destruct (ge_terminal e) as [[|]|]; naive_solver.
  - intros ->. by destruct (Hf eq_refl) as [-> ->].
  - intros ->. destruct (Hcl eq_refl) as (n & Hpat & Hl). destruct patience as [[|m]|]; try done.
    injection Hpat as <-. exists (S m). split; [done|]. simpl. by rewrite Hl.
Qed.

Lemma consume_spec identifier events ending patience c0 out completed o :
  consume identifier events ending patience c0 = (out, completed, o) ->
  consumed identifier events patience c0 out completed o.
Proof.
  revert patience c0 out completed o.
  induction events as [|e rest IH]; intros patience c0 out completed o E; simpl in E.
  - injection E as <- <- <-. destruct ending as [|x]; [|apply consumed_nil].
    destruct c0; [|apply consumed_nil]. constructor; try done. split; [by left|done].
  - destruct (ge_request_id e != identifier) eqn:Hid; [injection E as <- <- <-; apply consumed_nil|].
    apply negb_false_iff in Hid. apply (proj1 (pyeqb_eq _ _)) in Hid.
    destruct (decide (ge_terminal e = Some false)) as [Hf|Hf].
    { rewrite Hf in E. injection E as <- <- <-. apply consumed_nil. }
    assert (Hown : own_event identifier e) by done.
    destruct (decide (patience = Some 0%nat)) as [->|Hpat].
    + assert (E' : ([e], c0 || opt_truthy (ge_terminal e), CLOSED_BY_CONSUMER) = (out, completed, o))
        by (by destruct (ge_terminal e) as [[|]|]).
      injection E' as <- <- <-. constructor; try done.
      * apply prefix_cons, prefix_nil.
      * by constructor.
      * rewrite orb_true_iff, Exists_cons, Exists_nil. unfold completes.
        destruct (ge_terminal e) as [[|]|]; naive_solver.
      * by exists 0%nat.
    + destruct (consume identifier rest ending (pred <$> patience) (c0 || opt_truthy (ge_terminal e)))
        as [[out1 c1] o1] eqn:Hrec.
      assert (E' : (e :: out1, c1, o1) = (out, completed, o)).
      { destruct (ge_terminal e) as [[|]|]; [|done|]; (by destruct patience as [[|n]|]). }
      injection E' as <- <- <-. apply consumed_cons; [done| |done]. by apply IH.
Qed.

Lemma end_start_request identifier s : identifier ∉ se_requests s ->
  end_request identifier (start_request identifier s) = s.
Proof.
  intros Hn. destruct s as [l rq c]. unfold end_request, start_request. simpl in *. f_equal.
  rewrite List.filter_app. simpl. rewrite pyeqb_refl. simpl. rewrite app_nil_r.
  induction rq as [|r rq IH]; [done|]. simpl. rewrite not_elem_of_cons in Hn. destruct Hn as [Hne Hn].
  destruct (r == identifier) eqn:Heq; [by apply (proj1 (pyeqb_eq _ _)) in Heq|]. simpl. by rewrite IH.
Qed.

Lemma cancel_in stages identifier i : CancelRequest i identifier ∈ cancel stages identifier <-> (i < stages)%nat.
Proof.
  unfold cancel. rewrite list_elem_of_fmap. split.
  - intros (j & [= <-] & Hj). apply elem_of_seq in Hj. lia.
  - intros Hi. exists i. split; [done|]. apply elem_of_seq. lia.
Qed.

Lemma stream_request_spec stages identifier events ending patience s log s' out o :
  stream_request stages identifier events ending patience s = (log, s', out, o) ->
  (identifier ∈ se_requests s ->
     log = [] /\ s' = s /\ out = [] /\
     o = RAISED (Exn ValueError "request ID is already active in this session")) /\
  (identifier ∉ se_requests s ->
     s' = s /\ out `prefix_of` events /\ Forall (own_event identifier) out /\
     (forall i, CancelRequest i identifier ∈ log <-> (i < stages)%nat /\ ~ Exists completes out) /\
     (o = FINISHED -> out = events /\ Exists completes out) /\
     (o = CLOSED_BY_CONSUMER -> exists n, patience = Some n /\ length out = S n)).
Proof.
  unfold stream_request. destruct (py_in identifier (se_requests s)) eqn:Hin.
  - apply py_in_elem in Hin. intros E. injection E as <- <- <- <-. by split.
  - apply py_in_false in Hin.
    destruct (consume identifier events ending patience false) as [[out1 c1] o1] eqn:Hc.
    intros E. injection E as <- <- <- <-. split; [done|]. intros _.
    apply consume_spec in Hc as [Hp Ho Hcomp Hf Hcl].
    assert (Hc1 : c1 = true <-> Exists completes out1) by naive_solver.
    split; [by apply end_start_request|]. split; [done|]. split; [done|]. split; [|split].
    + intros i. rewrite !elem_of_cons. destruct c1.
      * rewrite elem_of_nil. naive_solver.
      * rewrite cancel_in. naive_solver.
    + intros ->. destruct (Hf eq_refl) as [-> ->]. split; [done|]. by apply Hc1.
    + done.
Qed.


(** ** A concrete session *)
Module SessionDemo.
Import ProfilesDemo FitDemo MeasuredDemo ActivationDemo.
#[local] Existing Instance ActivationDemo.demo_hash.
#[local] Existing Instance ActivationDemo.demo_loads.

(** Stage 1 loads, the answer of stage 0 is lost, stage 1 is busy for two attempts. *)
Definition demo_workers : Workers := {|
  wk_load := fun i => if (i =? 1)%nat then LoadAccepted else LoadRpcError;
  wk_unload := fun i a => if (i =? 1)%nat && (a <? 2)%nat then FailedPrecondition else Unloaded;
  wk_clock := fun _ a => (25 * Z.of_nat a)%Z |}.

Definition demo_enter : list Rpc * Session * result unit := Eval vm_compute in
  enter 1000000 demo_manifest demo_plan (Some demo_bundle) [demo_control "alpha"; demo_control "beta"]
    demo_workers session.

Lemma demo_enter_ok : enter 1000000 demo_manifest demo_plan (Some demo_bundle)
  [demo_control "alpha"; demo_control "beta"] demo_workers session = (demo_enter.1.1, demo_enter.1.2, demo_enter.2).
Proof. vm_compute. reflexivity. Qed.

Lemma enter_all_or_nothing_witness :
  demo_enter.1.1 = [LoadStage 1; LoadStage 0; UnloadStage 0; UnloadStage 1; UnloadStage 1; UnloadStage 1] /\
  match demo_enter.2 with
  | Ok _ => False
  | Err e => se_loaded demo_enter.1.2 = [] /\
      (forall i, LoadStage i ∈ demo_enter.1.1 -> may_hold demo_workers i = true ->
                 UnloadStage i ∈ demo_enter.1.1)
  end.
Proof.
  destruct (enter_all_or_nothing _ _ _ _ _ _ _ _ _ demo_enter_ok) as (Hl & Hu & _).
  exact (conj eq_refl (conj Hl Hu)).
Defined.

Lemma unload_terminates_witness :
  unload_loop 1000 demo_workers 1 0 = unload_loop UNLOAD_FUEL demo_workers 1 0 /\
  unload_loop UNLOAD_FUEL demo_workers 1 0 = [UnloadStage 1; UnloadStage 1; UnloadStage 1].
Proof.
  split; [|reflexivity].
  refine (proj1 (unload_terminates demo_workers 1 _ _ 1000 _)).
  - simpl. lia.
  - intros a. simpl wk_clock. lia.
  - unfold UNLOAD_FUEL. lia.
Defined.

Definition demo_events : list Event :=
  [{| ge_request_id := "r"; ge_terminal := None |}; {| ge_request_id := "r"; ge_terminal := Some true |}].

Definition demo_generate : list Rpc * Session * list Event * GenerateOutcome :=
  ([Generate "r"; CallCancel "r"; CancelRequest 0 "r"; CancelRequest 1 "r"], session,
   take 1 demo_events, CLOSED_BY_CONSUMER).

Lemma demo_generate_ok :
  generate (mm_config demo_manifest) demo_plan (bundle_workload (Some demo_bundle)) [1; 1]%Z 2 None
    (literal 60 1) 0 "r" demo_events STREAM_ENDS (Some 0%nat) session = demo_generate.
Proof. vm_compute. reflexivity. Qed.

Lemma demo_check_ok : is_ok (check_request (mm_config demo_manifest) demo_plan
  (bundle_workload (Some demo_bundle)) [1; 1]%Z 2 (mc_eos_token_ids (mm_config demo_manifest))
  (literal 60 1) 0) = true.
Proof. vm_compute. reflexivity. Qed.

End SessionDemo.
