(* ===== verification/Runtime.v ===== *)
(** * The serving runtime (src/python/hllm_control/serving/runtime.py)

    Token RPCs over a deployment that is loaded once.  The event loop runs one task at
    a time, so the server is a step relation over its requests: a request registers
    after its checks, receives events, and retires.  What the workers answer is an
    argument of the definitions. *)

From Stdlib Require Import SpecFloat.
From stdpp Require Import gmap strings.
From S2P Require Export Session.

(** ** State *)

(** What a worker says of itself in [GetCapabilities]. *)
Record WorkerFlags := {
  wf_supports_sampling : bool;
  wf_supports_logprobs : bool;
  wf_supports_chunked_prefill : bool;
  wf_maximum_active_requests : Z
}.

Record TokenEvent := {
  te_token_id : Z;
  te_logprob : option float;
  te_top_logprobs : list (Z * float)
}.

Inductive Payload :=
  | TOKEN (token : TokenEvent)
  | TERMINAL (completed : bool)
  | OTHER_EVENT.

Record GenEvent := { gv_request_id : string; gv_payload : Payload }.

Record Runtime := {
  rt_measured : option WorkloadProfile;   (** of the session's bundle *)
  rt_concurrency : Z;
  rt_prefill_chunk_tokens : Z;
  rt_supports_sampling : bool;
  rt_supports_logprobs : bool;
  rt_calls : list string;
  rt_latest_tokens : gmap string TokenEvent;
  rt_cleanup_failed : bool
}.

(** [__init__] *)
Definition runtime (measured : option WorkloadProfile) (concurrency chunk : Z) : result Runtime :=
  raise_if (negb ((0 <=? chunk) && (chunk <=? 65536))%Z) ValueError "invalid prefill chunk size" ;;
  Ok {| rt_measured := measured; rt_concurrency := concurrency; rt_prefill_chunk_tokens := chunk;
        rt_supports_sampling := false; rt_supports_logprobs := false; rt_calls := [];
        rt_latest_tokens := ∅; rt_cleanup_failed := false |}.

(** ** Start *)

Definition check_configuration (rt : Runtime) : result unit :=
  raise_if match rt_measured rt with
           | Some w => rt_concurrency rt != wl_concurrency w | None => false end ValueError
    "serving concurrency differs from measured workload" ;;
  raise_if match rt_measured rt with
           | Some w => rt_prefill_chunk_tokens rt != wl_prefill_chunk_tokens w | None => false end
    ValueError "serving prefill chunk size differs from the measured workload's".

Definition check_flags (rt : Runtime) (answer : result WorkerFlags) : result WorkerFlags :=
  flags ← answer;
  raise_if ((rt_prefill_chunk_tokens rt != 0%Z) && negb (wf_supports_chunked_prefill flags)) ValueError
    "worker does not support chunked prefill" ;;
  raise_if (int_or (wf_maximum_active_requests flags) 1 <? rt_concurrency rt)%Z ValueError
    "worker --max-active-requests is below serving concurrency" ;;
  Ok flags.

Definition with_flags (flags : list WorkerFlags) (rt : Runtime) : Runtime := {|
  rt_measured := rt_measured rt; rt_concurrency := rt_concurrency rt;
  rt_prefill_chunk_tokens := rt_prefill_chunk_tokens rt;
  rt_supports_sampling := forallb wf_supports_sampling flags;
  rt_supports_logprobs := forallb wf_supports_logprobs flags; rt_calls := rt_calls rt;
  rt_latest_tokens := rt_latest_tokens rt; rt_cleanup_failed := rt_cleanup_failed rt |}.

(** [start], [answers] being the capabilities the workers report. *)
Definition start `{Hash} `{JsonLoads} (now : datetime) (manifest : ModelManifest)
    (plan : DeploymentPlan) (bundle : option Bundle) (controls : list Control) (workers : Workers)
    (answers : list (result WorkerFlags)) (rt : Runtime) (s : Session)
    : list Rpc * Session * result Runtime :=
  match check_configuration rt with
  | Err e => ([], s, Err e)
  | Ok _ =>
    let '(log, s, r) :=
      match mapM (check_flags rt) answers with
      | Err e => ([], s, Err e)
      | Ok flags =>
        let '(log, s, r) := enter now manifest plan bundle controls workers s in
        (log, s, (_ ← r; Ok (with_flags flags rt)))
      end in
    match r with
    | Ok rt => (log, s, Ok rt)
    | Err e =>
      let '(cleanup, s) := close (length (dp_stages plan)) workers s in (log ++ cleanup, s, Err e)
    end
  end.

(** ** A request *)

Definition validate (rt : Runtime) (config : ModelConfig) (plan : DeploymentPlan) (tokens : list Z)
    (maximum : Z) (stops : list Z) : result unit :=
  let n := Z.of_nat (length tokens) in
  raise_if ((n == 0%Z) || (mc_maximum_sequence_length config <? n + maximum)%Z) ValueError
    "prompt and output exceed model context capacity or prompt is empty" ;;
  raise_if (negb (forallb (in_vocabulary config) (tokens ++ stops))) ValueError
    "token ID exceeds vocabulary" ;;
  raise_if (exceeds_boundary config plan n (rt_prefill_chunk_tokens rt)) ValueError
    "prompt exceeds the stage boundary transport limit" ;;
  raise_if match rt_measured rt with
           | Some w => (n, maximum) != (wl_prompt_tokens w, wl_output_tokens w)
           | None => false end ValueError
    "request differs from measured workload".

(** The checks of [generate] before it calls the worker. *)
Definition check_generate (rt : Runtime) (config : ModelConfig) (plan : DeploymentPlan)
    (identifier : string) (tokens : list Z) (maximum : Z) (stops : list Z) (timeout : float)
    (sampling : bool) : result unit :=
  raise_if ((maximum <=? 0)%Z || negb (flt f0 timeout && fle timeout (literal 3600 1))) ValueError
    "output length and timeout must be positive and bounded" ;;
  raise_if (py_in identifier (rt_calls rt)) ValueError "request ID is already active" ;;
  validate rt config plan tokens maximum stops ;;
  raise_if (sampling && negb (rt_supports_sampling rt)) ValueError
    "worker does not support sampling" ;;
  raise_if (sampling && opt_truthy (rt_measured rt)) ValueError
    "sampling is not qualified by this measured profile".

Definition with_calls (calls : list string) (latest : gmap string TokenEvent) (failed : bool)
    (rt : Runtime) : Runtime := {|
  rt_measured := rt_measured rt; rt_concurrency := rt_concurrency rt;
  rt_prefill_chunk_tokens := rt_prefill_chunk_tokens rt;
  rt_supports_sampling := rt_supports_sampling rt; rt_supports_logprobs := rt_supports_logprobs rt;
  rt_calls := calls; rt_latest_tokens := latest; rt_cleanup_failed := failed |}.

Definition register (identifier : string) (rt : Runtime) : Runtime :=
  with_calls (rt_calls rt ++ [identifier]) (rt_latest_tokens rt) (rt_cleanup_failed rt) rt.

(** One turn of the loop over the call: what is yielded, and [completed]. *)
Definition on_event (identifier : string) (event : GenEvent) (completed : bool) (rt : Runtime)
    : result (option Z * bool) * Runtime :=
  if gv_request_id event != identifier
  then (raise RuntimeError "generation event request ID mismatch", rt)
  else
    match gv_payload event with
    | TOKEN t =>
      (Ok (Some (te_token_id t), completed),
       match te_logprob t with
       | Some _ => with_calls (rt_calls rt) (<[identifier := t]> (rt_latest_tokens rt))
                     (rt_cleanup_failed rt) rt
       | None => rt
       end)
    | TERMINAL false => (raise RuntimeError "native generation failed", rt)
    | TERMINAL true => (Ok (None, true), rt)
    | OTHER_EVENT => (Ok (None, completed), rt)
    end.

(** ** Retirement *)

Definition RETIRE_LIMIT_MS : Z := 5000.

(** The polls of [retire]: the active IDs every worker reports at an attempt, or
    [None] when a report fails; the clock is in milliseconds since the first poll. *)
Fixpoint poll_reports (fuel : nat) (reports : nat -> option (list (list string))) (clock : nat -> Z)
    (identifier : string) (attempt : nat) : bool :=
  match fuel with
  | O => false
  | S fuel' =>
    match reports attempt with
    | None => false
    | Some rows =>
      if forallb (fun active => negb (py_in identifier active)) rows then true
      else if (RETIRE_LIMIT_MS <=? clock attempt)%Z then false
      else poll_reports fuel' reports clock identifier (S attempt)
    end
  end.

(** 5000 ms at no less than 10 ms per attempt. *)
Definition RETIRE_FUEL : nat := 501.

(** [retire]: whether the retirement was confirmed; otherwise [cleanup_failed] is set.
    [acknowledged] says for each worker whether [CancelRequest] was answered. *)
Definition retire (acknowledged : list bool) (reports : nat -> option (list (list string)))
    (clock : nat -> Z) (identifier : string) : bool :=
  forallb id acknowledged && poll_reports RETIRE_FUEL reports clock identifier 0.

(** The [finally] of [generate]. *)
Definition finish_call (identifier : string) (completed confirmed : bool) (rt : Runtime) : Runtime :=
  with_calls (List.filter (fun call => call != identifier) (rt_calls rt))
    (delete identifier (rt_latest_tokens rt))
    (rt_cleanup_failed rt || negb (completed || confirmed)) rt.

(** [healthy]: the loaded weights the workers report, or [None] on an RPC error. *)
Definition healthy (rt : Runtime) (reports : option (list Z)) : bool :=
  match reports with
  | None => false
  | Some loaded =>
    negb (rt_cleanup_failed rt) && negb (length loaded =? 0)%nat && forallb (fun w => (0 <? w)%Z) loaded
  end.

(** ** The server's steps *)

Inductive ServeLabel :=
  | STARTED (identifier : string)
  | RECEIVED (identifier : string)
  | ENDED (identifier : string) (completed confirmed : bool).

Section server.
Context (config : ModelConfig) (plan : DeploymentPlan).

Inductive serve : Runtime -> ServeLabel -> Runtime -> Prop :=
  | serve_start rt identifier tokens maximum stops timeout sampling u :
      check_generate rt config plan identifier tokens maximum stops timeout sampling = Ok u ->
      serve rt (STARTED identifier) (register identifier rt)
  | serve_event rt identifier event completed v rt' :
      identifier ∈ rt_calls rt ->
      on_event identifier event completed rt = (Ok v, rt') ->
      serve rt (RECEIVED identifier) rt'
  | serve_end rt identifier completed acknowledged reports clock :
      identifier ∈ rt_calls rt ->
      let confirmed := retire acknowledged reports clock identifier in
      serve rt (ENDED identifier completed confirmed) (finish_call identifier completed confirmed rt).

(** A run of a server whose configuration passed [start]'s checks. *)
Inductive run : list ServeLabel -> Runtime -> Prop :=
  | run_start measured concurrency chunk rt flags u :
      runtime measured concurrency chunk = Ok rt -> check_configuration rt = Ok u ->
      run [] (with_flags flags rt)
  | run_step trace rt label rt' : run trace rt -> serve rt label rt' -> run (trace ++ [label]) rt'.
End server.

(** ** Retirement ends, and confirms only what the workers report *)

Definition inactive (rows : list (list string)) (identifier : string) : Prop :=
  Forall (fun active => identifier ∉ active) rows.

Lemma inactive_spec rows identifier :
  forallb (fun active => negb (py_in identifier active)) rows = true <-> inactive rows identifier.
Proof.
  unfold inactive. rewrite forallb_Forall. apply Forall_iff. intros active.
  by rewrite negb_true_iff, py_in_false.
Qed.

Section retire.
Context (reports : nat -> option (list (list string))) (clock : nat -> Z) (identifier : string).
Hypothesis clock_starts : (0 <= clock 0)%Z.
Hypothesis clock_sleeps : forall a, (clock a + 10 <= clock (S a))%Z.

Lemma retire_clock a : (10 * Z.of_nat a <= clock a)%Z.
Proof. induction a as [|a IH]; [done|]. specialize (clock_sleeps a). lia. Qed.

(** A poll after which the loop goes on. *)
Definition polled_again (a : nat) : Prop :=
  (exists rows, reports a = Some rows /\ ~ inactive rows identifier) /\ (clock a < RETIRE_LIMIT_MS)%Z.

Lemma poll_reports_spec fuel a : (a <= 500)%nat -> (501 <= fuel + a)%nat ->
  exists n, (a <= n <= 500)%nat /\ (forall i, (a <= i < n)%nat -> polled_again i) /\ ~ polled_again n /\
    (poll_reports fuel reports clock identifier a = true <->
     exists rows, reports n = Some rows /\ inactive rows identifier).
Proof.
  revert a. induction fuel as [|fuel IH]; intros a Ha Hf; [lia|]. simpl.
  assert (Hstop : forall b : bool, ~ polled_again a ->
    (b = true <-> exists rows, reports a = Some rows /\ inactive rows identifier) ->
    exists n, (a <= n <= 500)%nat /\ (forall i, (a <= i < n)%nat -> polled_again i) /\ ~ polled_again n /\
      (b = true <-> exists rows, reports n = Some rows /\ inactive rows identifier)).
  { intros b Hn Hb. exists a. split_and!; [lia|lia|lia|done|done]. }
  destruct (reports a) as [rows|] eqn:Hr.
  - destruct (forallb _ rows) eqn:Hi.
    + apply inactive_spec in Hi. apply Hstop; [|naive_solver].
      intros [(rows' & E & Hn) _]. by simplify_eq.
    + assert (Hni : ~ inactive rows identifier) by (rewrite <- inactive_spec; congruence).
      destruct (RETIRE_LIMIT_MS <=? clock a)%Z eqn:Hc.
      * apply Hstop; [intros [_ ?]; lia|naive_solver].
      * assert (polled_again a) as Hp by (split; [eauto|lia]).
        assert (a < 500)%nat by (pose proof (retire_clock a); unfold RETIRE_LIMIT_MS in Hc; lia).
        destruct (IH (S a)) as (n & Hn & Hall & Hlast & Hb); [lia|lia|]. exists n.
        split_and!; [lia|lia| |done|done].
        intros i Hi'. destruct (decide (i = a)) as [->|]; [done|]. apply Hall. lia.
  - apply Hstop; [|naive_solver]. intros [(rows & E & _) _]. by simplify_eq.
Qed.

(** C39: retirement ends and is honest.  When the clock starts at zero or later and 10 ms
    pass between polls, at most 501 polls are made whatever the workers answer; the
    retirement is confirmed exactly when every worker acknowledged the cancellation
    and, at the last poll made, every worker answered and none still listed the
    request as active.  An error of any report, or five seconds without that answer,
    leaves it unconfirmed. *)
Theorem retire_confirms acknowledged :
  exists n, (n <= 500)%nat /\
    (forall i, (i < n)%nat -> (exists rows, reports i = Some rows /\ ~ inactive rows identifier) /\
                              (clock i < RETIRE_LIMIT_MS)%Z) /\
    (retire acknowledged reports clock identifier = true <->
     Forall (fun ack => ack = true) acknowledged /\
     exists rows, reports n = Some rows /\ inactive rows identifier) /\
    (forall rows, reports n = Some rows -> ~ inactive rows identifier -> (RETIRE_LIMIT_MS <= clock n)%Z).
Proof.
  destruct (poll_reports_spec RETIRE_FUEL 0) as (n & Hn & Hall & Hlast & Hb);
    [lia|unfold RETIRE_FUEL; lia|].
  exists n. split; [lia|]. split; [intros i Hi; apply Hall; lia|]. split.
  - unfold retire. rewrite andb_true_iff, Hb, forallb_Forall. done.
  - intros rows Hr Hni. destruct (Z.le_gt_cases RETIRE_LIMIT_MS (clock n)) as [|Hlt]; [done|].
    exfalso. apply Hlast. split; [by eauto|lia].
Qed.
End retire.

(** ** What holds of a running server *)

Section server.
Context (config : ModelConfig) (plan : DeploymentPlan).

(** The requests that began and did not end, in order. *)
Definition in_flight_step (calls : list string) (l : ServeLabel) : list string :=
  match l with
  | STARTED identifier => calls ++ [identifier]
  | RECEIVED _ => calls
  | ENDED identifier _ _ => List.filter (fun call => call != identifier) calls
  end.

Definition in_flight (trace : list ServeLabel) : list string := foldl in_flight_step [] trace.

Record server_inv (trace : list ServeLabel) (rt : Runtime) : Prop := {
  si_calls : rt_calls rt = in_flight trace;
  si_distinct : NoDup (rt_calls rt);
  si_latest : forall identifier, is_Some (rt_latest_tokens rt !! identifier) -> identifier ∈ rt_calls rt;
  si_failed : rt_cleanup_failed rt = true <-> exists identifier, ENDED identifier false false ∈ trace;
  si_chunk : (0 <= rt_prefill_chunk_tokens rt <= 65536)%Z;
  si_configured : is_ok (check_configuration rt) = true
}.

Lemma elem_of_filter_call (identifier call : string) l :
  call ∈ List.filter (fun c => c != identifier) l <-> call <> identifier /\ call ∈ l.
Proof. by rewrite elem_of_filterb, negb_true_iff, pyeqb_false. Qed.

Lemma check_generate_fresh rt identifier tokens maximum stops timeout sampling u :
  check_generate rt config plan identifier tokens maximum stops timeout sampling = Ok u ->
  identifier ∉ rt_calls rt.
Proof. unfold check_generate. intros E. inv_ok. by apply py_in_false. Qed.

Lemma on_event_frame identifier event completed rt v rt' :
  on_event identifier event completed rt = (Ok v, rt') ->
  rt' = rt \/ exists t, rt' = with_calls (rt_calls rt) (<[identifier := t]> (rt_latest_tokens rt))
                               (rt_cleanup_failed rt) rt.
Proof.
  unfold on_event, raise. intros E. case_match; [done|]. case_match; [|by case_match; simplify_eq; left|by simplify_eq; left].
  case_match; simplify_eq; [right; eauto|by left].
Qed.

Lemma run_snoc_label trace l : in_flight (trace ++ [l]) = in_flight_step (in_flight trace) l.
Proof. unfold in_flight. by rewrite foldl_snoc. Qed.

Lemma serve_inv trace rt l rt' : server_inv trace rt -> serve config plan rt l rt' ->
  server_inv (trace ++ [l]) rt'.
Proof.
  intros [Hc Hd Hl Hf Hk Hok] Hstep. destruct Hstep as [rt identifier tokens maximum stops timeout sampling u E
    |rt identifier event completed v rt' Hin E|rt identifier completed acks reports clock Hin confirmed].
  - apply check_generate_fresh in E. constructor; try done; cbn [register with_calls rt_calls rt_latest_tokens rt_cleanup_failed].
    + by rewrite run_snoc_label, Hc.
    + apply NoDup_app. split; [done|]. split; [|apply NoDup_singleton]. by intros x Hx ->%list_elem_of_singleton.
    + intros x Hx. apply elem_of_app. left. by apply Hl.
    + rewrite Hf. setoid_rewrite elem_of_app. setoid_rewrite list_elem_of_singleton. naive_solver.
  - assert (Hfr : rt_cleanup_failed rt = true <-> exists id, ENDED id false false ∈ trace ++ [RECEIVED identifier]).
    { rewrite Hf. setoid_rewrite elem_of_app. setoid_rewrite list_elem_of_singleton. naive_solver. }
    apply on_event_frame in E as [->|[t ->]]; constructor; try done.
    + by rewrite run_snoc_label.
    + by rewrite run_snoc_label.
    + cbn. intros x. rewrite lookup_insert_is_Some. intros [<-|[_ Hx]]; [done|by apply Hl].
  - constructor; try done; cbn [finish_call with_calls rt_calls rt_latest_tokens rt_cleanup_failed].
    + by rewrite run_snoc_label, Hc.
    + apply NoDup_ListNoDup, List.NoDup_filter. by apply NoDup_ListNoDup.
    + intros x. rewrite lookup_delete_is_Some. intros [Hne Hx]. apply elem_of_filter_call. split; [done|by apply Hl].
    + rewrite orb_true_iff, Hf, negb_true_iff, orb_false_iff. setoid_rewrite elem_of_app.
      setoid_rewrite list_elem_of_singleton. clearbody confirmed. split.
      * intros [[x Hx]|[-> ->]]; [by exists x; left|by exists identifier; right].
      * intros (x & [Hx|[= -> <- <-]]); [by left; exists x|by right].
Qed.

Lemma run_inv trace rt : run config plan trace rt -> server_inv trace rt.
Proof.
  induction 1 as [measured concurrency chunk rt flags u E Hu|trace rt l rt' _ IH Hstep];
    [|by eapply serve_inv].
  unfold runtime in E. inv_ok. constructor; simpl; try done.
  - constructor.
  - intros x [? ?]. by rewrite lookup_empty in *.
  - split; [done|]. by intros (? & ?%not_elem_of_nil).
  - lia.
  - apply is_ok_spec. by exists u.
Qed.

(** C32: a running server keeps its books, whatever the order in which its requests
    begin, receive events and end.  The calls it holds are exactly the requests that
    began and did not end, each once; a token kept for its log probabilities belongs
    to one of them, so nothing is left behind by a request that ended; and the cleanup
    is marked failed exactly when some request ended with neither its completion nor a
    confirmed retirement, after which the server never reports itself healthy. *)
Theorem server_books trace rt : run config plan trace rt ->
  rt_calls rt = in_flight trace /\ NoDup (in_flight trace) /\
  (forall identifier, is_Some (rt_latest_tokens rt !! identifier) -> identifier ∈ in_flight trace) /\
  (rt_cleanup_failed rt = true <-> exists identifier, ENDED identifier false false ∈ trace) /\
  (forall identifier reports, ENDED identifier false false ∈ trace -> healthy rt reports = false).
Proof.
  intros [Hc Hd Hl Hf _ _]%run_inv. rewrite <- Hc. split_and!; try done.
  intros identifier reports Hin. unfold healthy. destruct reports; [|done].
  assert (rt_cleanup_failed rt = true) as -> by (apply Hf; by exists identifier). done.
Qed.

Lemma raise_if_is_ok b c m : is_ok (raise_if b c m) = negb b.
Proof. by destruct b. Qed.

Lemma is_ok_then {B} (r : result unit) (k : result B) : is_ok (r ;; k) = is_ok r && is_ok k.
Proof. by destruct r as [[]|]. Qed.

(** C38: the server and the controller accept the same requests.  On a running server a
    greedy request with a fresh ID passes the server's checks exactly when the
    controller's session would accept it with the server's chunk size: same limits on
    prompt, output, timeout, context, vocabulary, boundary message and measured
    workload, in whatever order they are tested. *)
Theorem server_checks_agree trace rt identifier tokens maximum stops timeout :
  run config plan trace rt -> identifier ∉ in_flight trace ->
  is_ok (check_generate rt config plan identifier tokens maximum stops timeout false) =
  is_ok (check_request config plan (rt_measured rt) tokens maximum stops timeout
           (rt_prefill_chunk_tokens rt)).
Proof.
  intros [Hc _ _ _ Hchunk Hok]%run_inv Hnew. rewrite <- Hc in Hnew. apply py_in_false in Hnew.
  unfold check_configuration in Hok. rewrite is_ok_then, !raise_if_is_ok in Hok.
  unfold check_generate, validate, check_request, MAXIMUM_PREFILL_CHUNK_TOKENS.
  rewrite !is_ok_then, !raise_if_is_ok, Hnew. cbn [andb negb].
  set (n := Z.of_nat (length tokens)).
  assert ((0 <=? rt_prefill_chunk_tokens rt)%Z && (rt_prefill_chunk_tokens rt <=? 65536)%Z = true) as ->.
  { apply andb_true_iff. split; lia. }
  assert (match rt_measured rt with
          | Some w => (n, maximum) != (wl_prompt_tokens w, wl_output_tokens w)
          | None => false end =
          match rt_measured rt with
          | Some w => (n, maximum, rt_prefill_chunk_tokens rt) !=
                      (wl_prompt_tokens w, wl_output_tokens w, wl_prefill_chunk_tokens w)
          | None => false end) as ->.
  { destruct (rt_measured rt) as [w|]; [|done]. rewrite andb_true_iff, !negb_involutive in Hok.
    destruct Hok as [_ Hw]. apply (proj1 (pyeqb_eq _ _)) in Hw as ->. f_equal.
    apply Bool.eq_iff_eq_true. rewrite !pyeqb_eq. split; intros E; injection E as -> ->; done. }
  set (unmeasured := match rt_measured rt with Some _ => _ | None => _ end).
  destruct unmeasured, (n == 0%Z), (maximum <=? 0)%Z, (flt f0 timeout && fle timeout (literal 3600 1)),
    (mc_maximum_sequence_length config <? n + maximum)%Z, (forallb (in_vocabulary config) (tokens ++ stops)),
    (exceeds_boundary config plan n (rt_prefill_chunk_tokens rt)); reflexivity.
Qed.
End server.

(** ** A concrete server *)
Module RuntimeDemo.
Import ProfilesDemo FitDemo MeasuredDemo ActivationDemo.

Definition demo_server : Runtime := {|
  rt_measured := bundle_workload (Some demo_bundle); rt_concurrency := 1; rt_prefill_chunk_tokens := 0;
  rt_supports_sampling := true; rt_supports_logprobs := true; rt_calls := []; rt_latest_tokens := ∅;
  rt_cleanup_failed := false |}.

Definition demo_config : ModelConfig := mm_config demo_manifest.

Lemma demo_run_start : run demo_config demo_plan [] demo_server.
Proof.
  exact (run_start demo_config demo_plan (bundle_workload (Some demo_bundle)) 1 0 _
           [{| wf_supports_sampling := true; wf_supports_logprobs := true;
               wf_supports_chunked_prefill := true; wf_maximum_active_requests := 0 |}] tt eq_refl eq_refl).
Qed.

(** A request that is never confirmed inactive. *)
Lemma demo_run : run demo_config demo_plan [STARTED "r"; ENDED "r" false false]
  (finish_call "r" false false (register "r" demo_server)).
Proof.
  apply (run_step _ _ [STARTED "r"] (register "r" demo_server)).
  - apply (run_step _ _ [] demo_server); [exact demo_run_start|].
    apply (serve_start _ _ _ "r" [1; 1]%Z 2 [] (literal 60 1) false tt). vm_compute. reflexivity.
  - exact (serve_end _ _ (register "r" demo_server) "r" false [false] (fun _ => None) (fun _ => 0%Z)
             (list_elem_of_here "r" [])).
Qed.

Lemma server_books_witness :
  rt_cleanup_failed (finish_call "r" false false (register "r" demo_server)) = true /\
  healthy (finish_call "r" false false (register "r" demo_server)) (Some [1%Z]) = false.
Proof.
  destruct (server_books _ _ _ _ demo_run) as (_ & _ & _ & Hf & Hh).
  assert (Hin : ENDED "r" false false ∈ [STARTED "r"; ENDED "r" false false])
    by exact (list_elem_of_further _ _ _ (list_elem_of_here _ _)).
  exact (conj (proj2 Hf (ex_intro _ "r" Hin)) (Hh "r" _ Hin)).
Defined.

Lemma server_checks_agree_witness :
  is_ok (check_generate demo_server demo_config demo_plan "r" [1; 1]%Z 2 [] (literal 60 1) false) =
  is_ok (check_request demo_config demo_plan (bundle_workload (Some demo_bundle)) [1; 1]%Z 2 []
           (literal 60 1) 0).
Proof.
  exact (server_checks_agree _ _ _ _ "r" [1; 1]%Z 2 [] (literal 60 1) demo_run_start (not_elem_of_nil _)).
Defined.

(** The request is still listed at the first poll and gone at the second. *)
Definition demo_reports (a : nat) : option (list (list string)) :=
  Some (if (a =? 0)%nat then [["r"]; []] else [[]; []]).

Lemma retire_confirms_witness :
  retire [true; true] demo_reports (fun a => 10 * Z.of_nat a)%Z "r" = true /\
  exists n, (n <= 500)%nat /\ exists rows, demo_reports n = Some rows /\ inactive rows "r".
Proof.
  split; [reflexivity|].
  destruct (retire_confirms demo_reports (fun a => 10 * Z.of_nat a)%Z "r" ltac:(simpl; lia)
              ltac:(intros; cbv beta; lia) [true; true]) as (n & Hn & _ & Hc & _).
  exists n. split; [exact Hn|]. exact (proj2 (proj1 Hc eq_refl)).
Defined.
End RuntimeDemo.
