(* ===== verification/App.v ===== *)
(** * Responses (src/python/hllm_control/serving/app.py, logprobs.py)

    One call of [complete]: its gates, the loop over the native tokens with its text,
    metrics and handlers, and the two shapes of the answer.  The loop is a state and
    exception monad whose [emit] is the generator's [yield]: the consumer may close
    the generator there.  What the native stream does is a list of its outcomes. *)

From Stdlib Require Import SpecFloat.
From S2P Require Export Runtime TextOutput.
From S2P Require Import Admission.

(** ** Errors *)

Record ApiError := { ae_message : string; ae_status : Z; ae_kind : string }.

Inductive StatusCode := RESOURCE_EXHAUSTED | DEADLINE_EXCEEDED | OTHER_STATUS.

Definition native_error (code : option StatusCode) : ApiError :=
  match code with
  | Some RESOURCE_EXHAUSTED =>
    {| ae_message := "native admission capacity exceeded"; ae_status := 429; ae_kind := "rate_limit_error" |}
  | Some DEADLINE_EXCEEDED =>
    {| ae_message := "generation deadline exceeded"; ae_status := 504; ae_kind := "timeout_error" |}
  | _ =>
    {| ae_message := "native worker failed or became unavailable"; ae_status := 503; ae_kind := "server_error" |}
  end.

Definition deadline_error : ApiError :=
  {| ae_message := "generation deadline exceeded"; ae_status := 504; ae_kind := "timeout_error" |}.
Definition internal_error : ApiError :=
  {| ae_message := "generation failed"; ae_status := 500; ae_kind := "server_error" |}.
Definition bad_request (message : string) : ApiError :=
  {| ae_message := message; ae_status := 400; ae_kind := "invalid_request_error" |}.
Definition unconfirmed_error : ApiError :=
  {| ae_message := "worker cleanup is unconfirmed; restart the deployment"; ae_status := 503;
     ae_kind := "server_error" |}.

(** ** Options and state *)

Record Options := {
  go_model : string;
  go_max_tokens : Z;
  go_stream : bool;
  go_include_usage : bool;
  go_temperature : float;
  go_top_p : float;
  go_top_k : Z;
  go_seed : option Z;
  go_logprob_limit : option Z;
  go_stop_strings : list text;
  go_stop_token_ids : option (list Z)
}.

(** What this request adds to the server's counters. *)
Record Metrics := {
  me_completed : Z;
  me_failed : Z;
  me_cancelled : Z;
  me_generated_tokens : Z;
  me_ttft_seconds : float;
  me_ttft_count : Z;
  me_itl_seconds : float;
  me_itl_count : Z;
  me_elapsed_seconds : float
}.

Definition no_metrics : Metrics := {|
  me_completed := 0; me_failed := 0; me_cancelled := 0; me_generated_tokens := 0;
  me_ttft_seconds := f0; me_ttft_count := 0; me_itl_seconds := f0; me_itl_count := 0;
  me_elapsed_seconds := f0 |}.

Record LogprobEntry := {
  lp_token : text;
  lp_logprob : float;
  lp_text_offset : Z;
  lp_top_logprobs : list (text * float)
}.

Inductive Chunk :=
  | ROLE_CHUNK
  | TEXT_CHUNK (content : text) (finish : option string) (details : option (list LogprobEntry))
  | USAGE_CHUNK (prompt_tokens completion_tokens total_tokens : Z).

Record Progress := {
  pr_output : TextOutput;
  pr_finish_reason : string;
  pr_pieces : list text;
  pr_records : list LogprobEntry;
  pr_completion_tokens : Z;      (** of [usage]; its total is the prompt and these *)
  pr_previous : option float;    (** [previous_token] *)
  pr_succeeded : bool;
  pr_metrics : Metrics;
  pr_sent : list Chunk;          (** what was yielded, in order *)
  pr_patience : option nat       (** [Some n]: the consumer takes [n + 1] more chunks *)
}.

Definition progress (patience : option nat) : Progress := {|
  pr_output := text_output; pr_finish_reason := "length"; pr_pieces := []; pr_records := [];
  pr_completion_tokens := 0; pr_previous := None; pr_succeeded := false; pr_metrics := no_metrics;
  pr_sent := []; pr_patience := patience |}.

(** Updates of one field. *)
Definition set_output o (p : Progress) : Progress := {|
  pr_output := o; pr_finish_reason := pr_finish_reason p; pr_pieces := pr_pieces p;
  pr_records := pr_records p; pr_completion_tokens := pr_completion_tokens p;
  pr_previous := pr_previous p; pr_succeeded := pr_succeeded p; pr_metrics := pr_metrics p;
  pr_sent := pr_sent p; pr_patience := pr_patience p |}.
Definition set_finish r (p : Progress) : Progress := {|
  pr_output := pr_output p; pr_finish_reason := r; pr_pieces := pr_pieces p;
  pr_records := pr_records p; pr_completion_tokens := pr_completion_tokens p;
  pr_previous := pr_previous p; pr_succeeded := pr_succeeded p; pr_metrics := pr_metrics p;
  pr_sent := pr_sent p; pr_patience := pr_patience p |}.
Definition add_piece t (p : Progress) : Progress := {|
  pr_output := pr_output p; pr_finish_reason := pr_finish_reason p; pr_pieces := pr_pieces p ++ [t];
  pr_records := pr_records p; pr_completion_tokens := pr_completion_tokens p;
  pr_previous := pr_previous p; pr_succeeded := pr_succeeded p; pr_metrics := pr_metrics p;
  pr_sent := pr_sent p; pr_patience := pr_patience p |}.
Definition add_record e (p : Progress) : Progress := {|
  pr_output := pr_output p; pr_finish_reason := pr_finish_reason p; pr_pieces := pr_pieces p;
  pr_records := pr_records p ++ [e]; pr_completion_tokens := pr_completion_tokens p;
  pr_previous := pr_previous p; pr_succeeded := pr_succeeded p; pr_metrics := pr_metrics p;
  pr_sent := pr_sent p; pr_patience := pr_patience p |}.
Definition set_metrics m (p : Progress) : Progress := {|
  pr_output := pr_output p; pr_finish_reason := pr_finish_reason p; pr_pieces := pr_pieces p;
  pr_records := pr_records p; pr_completion_tokens := pr_completion_tokens p;
  pr_previous := pr_previous p; pr_succeeded := pr_succeeded p; pr_metrics := m;
  pr_sent := pr_sent p; pr_patience := pr_patience p |}.
Definition set_sent sent patience (p : Progress) : Progress := {|
  pr_output := pr_output p; pr_finish_reason := pr_finish_reason p; pr_pieces := pr_pieces p;
  pr_records := pr_records p; pr_completion_tokens := pr_completion_tokens p;
  pr_previous := pr_previous p; pr_succeeded := pr_succeeded p; pr_metrics := pr_metrics p;
  pr_sent := sent; pr_patience := patience |}.
Definition succeed (p : Progress) : Progress := {|
  pr_output := pr_output p; pr_finish_reason := pr_finish_reason p; pr_pieces := pr_pieces p;
  pr_records := pr_records p; pr_completion_tokens := pr_completion_tokens p;
  pr_previous := pr_previous p; pr_succeeded := true; pr_metrics := pr_metrics p;
  pr_sent := pr_sent p; pr_patience := pr_patience p |}.

Definition count_completed (m : Metrics) : Metrics := {|
  me_completed := me_completed m + 1; me_failed := me_failed m; me_cancelled := me_cancelled m;
  me_generated_tokens := me_generated_tokens m; me_ttft_seconds := me_ttft_seconds m;
  me_ttft_count := me_ttft_count m; me_itl_seconds := me_itl_seconds m; me_itl_count := me_itl_count m;
  me_elapsed_seconds := me_elapsed_seconds m |}.
Definition count_failed (m : Metrics) : Metrics := {|
  me_completed := me_completed m; me_failed := me_failed m + 1; me_cancelled := me_cancelled m;
  me_generated_tokens := me_generated_tokens m; me_ttft_seconds := me_ttft_seconds m;
  me_ttft_count := me_ttft_count m; me_itl_seconds := me_itl_seconds m; me_itl_count := me_itl_count m;
  me_elapsed_seconds := me_elapsed_seconds m |}.
Definition count_cancelled (m : Metrics) : Metrics := {|
  me_completed := me_completed m; me_failed := me_failed m; me_cancelled := me_cancelled m + 1;
  me_generated_tokens := me_generated_tokens m; me_ttft_seconds := me_ttft_seconds m;
  me_ttft_count := me_ttft_count m; me_itl_seconds := me_itl_seconds m; me_itl_count := me_itl_count m;
  me_elapsed_seconds := me_elapsed_seconds m |}.
Definition count_elapsed (seconds : float) (m : Metrics) : Metrics := {|
  me_completed := me_completed m; me_failed := me_failed m; me_cancelled := me_cancelled m;
  me_generated_tokens := me_generated_tokens m; me_ttft_seconds := me_ttft_seconds m;
  me_ttft_count := me_ttft_count m; me_itl_seconds := me_itl_seconds m; me_itl_count := me_itl_count m;
  me_elapsed_seconds := fadd (me_elapsed_seconds m) seconds |}.

(** The metrics and the usage of one token that arrives at [now]. *)
Definition count_token (started now : float) (p : Progress) : Progress :=
  let m := pr_metrics p in {|
  pr_output := pr_output p; pr_finish_reason := pr_finish_reason p; pr_pieces := pr_pieces p;
  pr_records := pr_records p; pr_completion_tokens := pr_completion_tokens p + 1;
  pr_previous := Some now; pr_succeeded := pr_succeeded p;
  pr_metrics := {|
    me_completed := me_completed m; me_failed := me_failed m; me_cancelled := me_cancelled m;
    me_generated_tokens := me_generated_tokens m + 1;
    me_ttft_seconds := match pr_previous p with
                       | None => fadd (me_ttft_seconds m) (fsub now started)
                       | Some _ => me_ttft_seconds m end;
    me_ttft_count := match pr_previous p with None => me_ttft_count m + 1 | Some _ => me_ttft_count m end;
    me_itl_seconds := match pr_previous p with
                      | None => me_itl_seconds m
                      | Some previous => fadd (me_itl_seconds m) (fsub now previous) end;
    me_itl_count := match pr_previous p with None => me_itl_count m | Some _ => me_itl_count m + 1 end;
    me_elapsed_seconds := me_elapsed_seconds m |};
  pr_sent := pr_sent p; pr_patience := pr_patience p |}.

(** ** The generator's monad *)

Inductive Interrupt :=
  | TIMED_OUT                           (** [TimeoutError] *)
  | RPC_FAILED (code : option StatusCode)
  | CLOSED                              (** [CancelledError], [GeneratorExit] *)
  | FAILED.                             (** any other exception *)

Definition Step (A : Type) : Type := Progress -> Progress * (A + Interrupt).

Definition step_ret {A} (a : A) : Step A := fun p => (p, inl a).
Definition step_bind {A B} (m : Step A) (k : A -> Step B) : Step B := fun p =>
  let '(p, r) := m p in match r with inl a => k a p | inr i => (p, inr i) end.
Definition throw {A} (i : Interrupt) : Step A := fun p => (p, inr i).
Definition modify (f : Progress -> Progress) : Step unit := fun p => (f p, inl tt).
Definition when (b : bool) (m : Step unit) : Step unit := if b then m else step_ret tt.

Declare Scope step_scope.
Delimit Scope step_scope with step.
Notation "'let!' x := m 'in' k" := (step_bind m (fun x => k))
  (at level 200, x name, m at level 100, k at level 200) : step_scope.
Notation "'do!' m 'in' k" := (step_bind m (fun _ => k))
  (at level 200, m at level 100, k at level 200) : step_scope.

(** [yield]: the consumer reads the chunk, and may close the generator there. *)
Definition emit (c : Chunk) : Step unit := fun p =>
  match pr_patience p with
  | Some O => (set_sent (pr_sent p ++ [c]) (Some O) p, inr CLOSED)
  | patience => (set_sent (pr_sent p ++ [c]) (pred <$> patience) p, inl tt)
  end.

(** ** The loop over the native tokens *)

(** What [await next_token()] gives; the end of the list is [StopAsyncIteration]. *)
Inductive Native :=
  | NTOKEN (token : Z) (now : float) (metadata : option TokenEvent)
  | NRAISE (i : Interrupt).

(** The display of one token on its own: [native.decode([id], skip_special_tokens=False)]. *)
Class TokenDisplay := display_token : Z -> text.

Section events.
Context `{TokenizerDecoder} `{TokenDisplay}.
Context (chat : bool) (options : Options) (prompt_tokens : Z) (stop_ids : list Z) (started : float).

Definition token_logprobs (event : TokenEvent) (offset : Z) : LogprobEntry := {|
  lp_token := display_token (te_token_id event);
  lp_logprob := match te_logprob event with Some v => v | None => f0 end;
  lp_text_offset := offset;
  lp_top_logprobs := (fun c => (display_token c.1, c.2)) <$> te_top_logprobs event |}.

(** The entry of a token when log probabilities were asked for. *)
Definition token_details (metadata : option TokenEvent) : Step (option (list LogprobEntry)) :=
  if negb (opt_truthy (go_logprob_limit options)) then step_ret None
  else match metadata with
       | None => throw FAILED
       | Some event => fun p =>
         let entry := token_logprobs event (Z.of_nat (length (to_decoded (pr_output p)))) in
         ((if go_stream options then p else add_record entry p), inl (Some [entry]))
       end.

Definition push_token (token : Z) : Step text := fun p =>
  let '(t, o) := push (go_stop_strings options) token (pr_output p) in (set_output o p, inl t).

Definition finish_output : Step text := fun p =>
  match finish (go_stop_strings options) (pr_output p) with
  | Ok (t, o) => (set_output o p, inl t)
  | Err _ => (p, inr FAILED)
  end.

Definition nonempty (t : text) : bool := negb (length t =? 0)%nat.

(** The [finish_reason] after the stop strings were looked at; whether to stop. *)
Definition note_stopped : Step bool := fun p =>
  if to_stopped (pr_output p) then (set_finish "stop" p, inl true) else (p, inl false).

(** The body of the loop for one token; [true] is its [break]. *)
Definition on_token (token : Z) (now : float) (metadata : option TokenEvent) : Step bool :=
  (do! modify (count_token started now) in
   let! details := token_details metadata in
   if py_in token stop_ids then
     do! modify (set_finish "stop") in
     do! when (opt_truthy details) (emit (TEXT_CHUNK [] None details)) in
     step_ret false
   else
     let! t := push_token token in
     do! when (nonempty t && negb (go_stream options)) (modify (add_piece t)) in
     do! when (nonempty t || opt_truthy details) (emit (TEXT_CHUNK t None details)) in
     note_stopped)%step.

Fixpoint token_loop (natives : list Native) : Step unit :=
  match natives with
  | [] => step_ret tt
  | NRAISE i :: _ => throw i
  | NTOKEN token now metadata :: rest =>
    (let! stop := on_token token now metadata in if stop then step_ret tt else token_loop rest)%step
  end.

Definition usage_chunk : Step unit := fun p =>
  emit (USAGE_CHUNK prompt_tokens (pr_completion_tokens p) (prompt_tokens + pr_completion_tokens p)) p.

(** The [try] of [events]. *)
Definition events_body (natives : list Native) : Step unit :=
  (do! when (chat && go_stream options) (emit ROLE_CHUNK) in
   do! token_loop natives in
   let! t := finish_output in
   do! when (nonempty t)
         (do! when (negb (go_stream options)) (modify (add_piece t)) in emit (TEXT_CHUNK t None None)) in
   let! stopped := note_stopped in
   do! modify (fun p => set_metrics (count_completed (pr_metrics p)) (succeed p)) in
   let! reason := (fun p => (p, inl (pr_finish_reason p))) in
   do! emit (TEXT_CHUNK [] (Some reason) None) in
   when (go_include_usage options) usage_chunk)%step.

Inductive EventsOutcome := ENDED_NORMALLY | ENDED_BY_ERROR (e : ApiError) | ENDED_BY_CLOSE.

(** Its handlers and [finally]: [late] is the deadline's test in the handler of a
    close, [seconds] the elapsed time.  The slot is released whatever happened. *)
Definition events (natives : list Native) (patience : option nat) (late : bool) (seconds : float)
    : Progress * EventsOutcome :=
  let '(p, r) := events_body natives (progress patience) in
  let failed p := set_metrics (count_failed (pr_metrics p)) p in
  let '(p, outcome) :=
    match r with
    | inl _ => (p, ENDED_NORMALLY)
    | inr TIMED_OUT => (failed p, ENDED_BY_ERROR deadline_error)
    | inr (RPC_FAILED code) => (failed p, ENDED_BY_ERROR (native_error code))
    | inr CLOSED =>
      (if pr_succeeded p then p
       else if late then failed p
       else set_metrics (count_cancelled (pr_metrics p)) p, ENDED_BY_CLOSE)
    | inr FAILED => (failed p, ENDED_BY_ERROR internal_error)
    end in
  (set_metrics (count_elapsed seconds (pr_metrics p)) p, outcome).

(** ** The two shapes of the answer *)

Inductive Sse := DATA (c : Chunk) | ERROR_DATA (e : ApiError) | DONE.

(** [stream]: what the response sends. *)
Definition stream (natives : list Native) (patience : option nat) (late : bool) (seconds : float)
    : list Sse :=
  let '(p, outcome) := events natives patience late seconds in
  (DATA <$> pr_sent p) ++
  match outcome with
  | ENDED_NORMALLY => [DONE]
  | ENDED_BY_ERROR e => [ERROR_DATA e; DONE]
  | ENDED_BY_CLOSE => []
  end.

Record Answer := {
  an_content : text;
  an_finish_reason : string;
  an_logprobs : option (list LogprobEntry);
  an_usage : Z * Z * Z
}.

(** The answer of a request that does not stream; [None] when the client left. *)
Definition answer (natives : list Native) (late : bool) (seconds : float) : option (Answer + ApiError) :=
  let '(p, outcome) := events natives None late seconds in
  match outcome with
  | ENDED_NORMALLY => Some (inl {|
      an_content := concat (pr_pieces p); an_finish_reason := pr_finish_reason p;
      an_logprobs := if opt_truthy (go_logprob_limit options) then Some (pr_records p) else None;
      an_usage := (prompt_tokens, pr_completion_tokens p, prompt_tokens + pr_completion_tokens p)%Z |})
  | ENDED_BY_ERROR e => Some (inr e)
  | ENDED_BY_CLOSE => None
  end.
End events.

(** ** The gates of [complete] *)

Definition uses_sampling (options : Options) : bool :=
  negb (SFeqb (go_temperature options) f0) || (go_top_k options != 0%Z) || negb (SFeqb (go_top_p options) (literal 1 1))
  || opt_truthy (go_seed options) || opt_truthy (go_logprob_limit options).

Definition refuse (b : bool) (e : ApiError) (k : option ApiError) : option ApiError :=
  if b then Some e else k.

(** The checks before the request is counted; [name] is the deployed model. *)
Definition precheck (rt : Runtime) (config : ModelConfig) (plan : DeploymentPlan) (name : string)
    (options : Options) (tokens : list Z) : option ApiError :=
  let stops := match go_stop_token_ids options with
               | None => mc_eos_token_ids config | Some l => l end in
  refuse (rt_cleanup_failed rt) unconfirmed_error
  (refuse (go_model options != name)
     {| ae_message := "requested model is not deployed"; ae_status := 404; ae_kind := "invalid_request_error" |}
  match validate rt config plan tokens (go_max_tokens options) stops with
  | Err e => Some (bad_request (exn_msg e))
  | Ok _ =>
    if uses_sampling options then
      refuse (opt_truthy (go_logprob_limit options) && negb (rt_supports_logprobs rt))
        (bad_request "worker does not support log probabilities")
      (refuse (negb (rt_supports_sampling rt)) (bad_request "worker does not support sampling")
      (refuse (mc_vocabulary_size config <? go_top_k options)%Z (bad_request "top_k exceeds vocabulary")
      (refuse (opt_truthy (rt_measured rt))
         (bad_request "sampling is not qualified by this measured profile") None)))
    else None
  end).

(** After [acquire]: a cleanup that failed meanwhile gives the slot back. *)
Definition admitted (rt : Runtime) (ticket : nat) (s : Admission) : option ApiError * Admission :=
  if rt_cleanup_failed rt then (Some unconfirmed_error, release_slot ticket s) else (None, s).

(** A request that passes the gates is never refused by [ServingRuntime.generate], so
    no client mistake surfaces as an internal error. *)
Lemma precheck_generates rt config plan name options tokens identifier timeout :
  precheck rt config plan name options tokens = None ->
  (1 <= go_max_tokens options)%Z -> flt f0 timeout && fle timeout (literal 3600 1) = true ->
  identifier ∉ rt_calls rt ->
  is_ok (check_generate rt config plan identifier tokens (go_max_tokens options)
    match go_stop_token_ids options with None => mc_eos_token_ids config | Some l => l end
    timeout (uses_sampling options)) = true.
Proof.
  unfold precheck, refuse. intros Hpre Hmax Htime Hnew. apply py_in_false in Hnew.
  destruct (rt_cleanup_failed rt); [done|]. destruct (go_model options != name); [done|].
  unfold check_generate. rewrite !is_ok_then, !raise_if_is_ok, Hnew, Htime.
  destruct (go_max_tokens options <=? 0)%Z eqn:Hz; [lia|].
  destruct (validate _ _ _ _ _ _) as [u|e]; [|done]. cbn [is_ok negb orb andb].
  destruct (uses_sampling options); [|done]. cbn [andb].
  destruct (_ && _); [done|]. destruct (rt_supports_sampling rt); [|done]. simpl in Hpre.
  destruct (_ <? _)%Z; [done|]. by destruct (opt_truthy (rt_measured rt)).
Qed.

(** ** Reasoning about steps *)

(** [keeps P m]: [m] preserves [P] whether it returns or raises. *)
Definition keeps {A} (P : Progress -> Prop) (m : Step A) : Prop := forall p, P p -> P (m p).1.

Lemma keeps_ret {A} P (a : A) : keeps P (step_ret a).
Proof. by intros p Hp. Qed.
Lemma keeps_throw {A} P i : keeps P (throw (A := A) i).
Proof. by intros p Hp. Qed.
Lemma keeps_bind {A B} P (m : Step A) (k : A -> Step B) :
  keeps P m -> (forall a, keeps P (k a)) -> keeps P (step_bind m k).
Proof.
  intros Hm Hk p Hp. unfold step_bind. specialize (Hm p Hp). destruct (m p) as [p' [a|i]]; [|done].
  by apply Hk.
Qed.
Lemma keeps_modify P f : (forall p, P p -> P (f p)) -> keeps P (modify f).
Proof. by intros Hf p Hp; apply Hf. Qed.
Lemma keeps_when P b m : keeps P m -> keeps P (when b m).
Proof. intros Hm. destruct b; [done|]. apply keeps_ret. Qed.
Lemma keeps_emit P c : (forall p sent patience, P p -> P (set_sent sent patience p)) -> keeps P (emit c).
Proof. intros Hs p Hp. unfold emit. destruct (pr_patience p) as [[|n]|]; by apply Hs. Qed.

#[export] Hint Resolve keeps_ret keeps_throw keeps_bind keeps_modify keeps_when keeps_emit : keeps.

(** What the counters of a request say before its handlers run. *)
Record counted (p : Progress) : Prop := {
  cn_generated : me_generated_tokens (pr_metrics p) = pr_completion_tokens p;
  cn_nonneg : (0 <= pr_completion_tokens p)%Z;
  cn_previous : pr_previous p = None <-> pr_completion_tokens p = 0%Z;
  cn_ttft : me_ttft_count (pr_metrics p) = Z.min 1 (pr_completion_tokens p);
  cn_itl : me_itl_count (pr_metrics p) = Z.max 0 (pr_completion_tokens p - 1);
  cn_failed : me_failed (pr_metrics p) = 0%Z;
  cn_cancelled : me_cancelled (pr_metrics p) = 0%Z;
  cn_completed : me_completed (pr_metrics p) = if pr_succeeded p then 1%Z else 0%Z
}.

(** Nothing but [count_token] and the completion touches the counters. *)
Definition counters (p : Progress) : Metrics * Z * option float * bool :=
  (pr_metrics p, pr_completion_tokens p, pr_previous p, pr_succeeded p).

Lemma counted_frame p p' : counters p' = counters p -> counted p -> counted p'.
Proof. unfold counters. intros E [? ? ? ? ? ? ? ?]. injection E as E1 E2 E3 E4.
  constructor; rewrite ?E1, ?E2, ?E3, ?E4; done. Qed.

Lemma counted_token started now p : counted p -> counted (count_token started now p).
Proof.
  intros [Hg Hn Hp Ht Hi ? ? ?]. constructor; cbn [count_token pr_metrics pr_completion_tokens pr_previous
    pr_succeeded me_generated_tokens me_ttft_count me_itl_count me_failed me_cancelled me_completed]; try done.
  - lia.
  - lia.
  - split; [done|lia].
  - destruct (pr_previous p); [assert (pr_completion_tokens p <> 0%Z) by naive_solver; lia|].
    assert (pr_completion_tokens p = 0%Z) by naive_solver. lia.
  - destruct (pr_previous p); [assert (pr_completion_tokens p <> 0%Z) by naive_solver; lia|].
    assert (pr_completion_tokens p = 0%Z) by naive_solver. lia.
Qed.

Definition unfinished (p : Progress) : Prop := counted p /\ pr_succeeded p = false.

Lemma unfinished_frame p p' : counters p' = counters p -> unfinished p -> unfinished p'.
Proof. intros E [Hc Hs]. split; [by eapply counted_frame|]. injection E as _ _ _ E. congruence. Qed.

Section accounting.
Context `{TokenizerDecoder} `{TokenDisplay}.
Context (chat : bool) (options : Options) (prompt_tokens : Z) (stop_ids : list Z) (started : float).

Lemma unfinished_emit c : keeps unfinished (emit c).
Proof. apply keeps_emit. intros p sent patience. by apply unfinished_frame. Qed.

Lemma unfinished_on_token token now metadata :
  keeps unfinished (on_token options stop_ids started token now metadata).
Proof.
  unfold on_token. apply keeps_bind.
  { apply keeps_modify. intros p [Hc Hs]. split; [by apply counted_token|done]. }
  intros _. apply keeps_bind.
  { unfold token_details. case_match; [apply keeps_ret|]. destruct metadata; [|apply keeps_throw].
    intros p Hp. cbn [fst]. destruct (go_stream options); [done|]. by apply (unfinished_frame p). }
  intros details. case_match.
  - apply keeps_bind; [apply keeps_modify; intros p; by apply unfinished_frame|]. intros _.
    apply keeps_bind; [apply keeps_when, unfinished_emit|]. intros _. apply keeps_ret.
  - apply keeps_bind.
    { intros p Hp. unfold push_token. destruct (push _ _ _). by apply (unfinished_frame p). }
    intros t. apply keeps_bind; [apply keeps_when, keeps_modify; intros p; by apply unfinished_frame|].
    intros _. apply keeps_bind; [apply keeps_when, unfinished_emit|]. intros _ p Hp.
    unfold note_stopped. case_match; [by apply (unfinished_frame p)|done].
Qed.

Lemma unfinished_loop natives : keeps unfinished (token_loop options stop_ids started natives).
Proof.
  induction natives as [|[token now metadata|i] rest IH]; simpl; [apply keeps_ret| |apply keeps_throw].
  apply keeps_bind; [apply unfinished_on_token|]. intros []; [apply keeps_ret|done].
Qed.

(** The part of the [try] before the request succeeds, and the part after it. *)
Definition before_success (natives : list Native) : Step unit :=
  (do! when (chat && go_stream options) (emit ROLE_CHUNK) in
   do! token_loop options stop_ids started natives in
   let! t := finish_output options in
   do! when (nonempty t)
         (do! when (negb (go_stream options)) (modify (add_piece t)) in emit (TEXT_CHUNK t None None)) in
   let! _ := note_stopped in step_ret tt)%step.

Definition after_success : Step unit :=
  (do! modify (fun p => set_metrics (count_completed (pr_metrics p)) (succeed p)) in
   let! reason := (fun p => (p, inl (pr_finish_reason p))) in
   do! emit (TEXT_CHUNK [] (Some reason) None) in
   when (go_include_usage options) (usage_chunk prompt_tokens))%step.

Lemma events_body_split natives p :
  events_body chat options prompt_tokens stop_ids started natives p =
  step_bind (before_success natives) (fun _ => after_success) p.
Proof.
  unfold events_body, before_success, after_success, step_bind.
  destruct (when _ (emit ROLE_CHUNK) p) as [p1 [[]|]]; [|done].
  destruct (token_loop options stop_ids started natives p1) as [p2 [[]|]]; [|done].
  destruct (finish_output options p2) as [p3 [t|]]; [|done].
  destruct (when (nonempty t) _ p3) as [p4 [[]|]]; [|done].
  by destruct (note_stopped p4) as [p5 [b|]].
Qed.

Lemma unfinished_before natives : keeps unfinished (before_success natives).
Proof.
  unfold before_success. apply keeps_bind; [apply keeps_when, unfinished_emit|]. intros _.
  apply keeps_bind; [apply unfinished_loop|]. intros _. apply keeps_bind.
  { intros p Hp. unfold finish_output. destruct (finish _ _) as [[t o]|]; [|done]. by apply (unfinished_frame p). }
  intros t. apply keeps_bind.
  { apply keeps_when, keeps_bind; [apply keeps_when, keeps_modify; intros p; by apply unfinished_frame|].
    intros _. apply unfinished_emit. }
  intros _. apply keeps_bind; [|intros; apply keeps_ret].
  intros p Hp. unfold note_stopped. case_match; [by apply (unfinished_frame p)|done].
Qed.

Definition finished (p : Progress) : Prop := counted p /\ pr_succeeded p = true.

Lemma emit_cases c p : exists patience r, emit c p = (set_sent (pr_sent p ++ [c]) patience p, r) /\
  (r = inl tt \/ r = inr CLOSED).
Proof. unfold emit. destruct (pr_patience p) as [[|n]|]; eauto 10. Qed.

Lemma after_success_spec p : unfinished p ->
  finished (after_success p).1 /\ ((after_success p).2 = inl tt \/ (after_success p).2 = inr CLOSED).
Proof.
  intros [[Hg Hn Hp Ht Hi Hf Hca Hco] Hs].
  assert (Hfin : forall p', counters p' = counters (set_metrics (count_completed (pr_metrics p)) (succeed p)) ->
    finished p').
  { intros p' E. split; [|by injection E as _ _ _ E].
    eapply counted_frame; [exact E|]. constructor; cbn; try done. rewrite Hco, Hs. done. }
  unfold after_success, step_bind, modify. cbn [fst snd].
  destruct (emit_cases (TEXT_CHUNK [] (Some (pr_finish_reason (set_metrics (count_completed (pr_metrics p)) (succeed p)))) None)
              (set_metrics (count_completed (pr_metrics p)) (succeed p))) as (pat & r & -> & [-> | ->]);
    [|split; [by apply Hfin|by right]].
  unfold when. destruct (go_include_usage options); [|split; [by apply Hfin|by left]].
  unfold usage_chunk.
  match goal with |- context [emit ?c ?q] => destruct (emit_cases c q) as (pat' & r' & -> & Hr') end.
  split; [by apply Hfin|]. cbn [snd]. destruct Hr' as [-> | ->]; [by left|by right].
Qed.

Lemma progress_unfinished patience : unfinished (progress patience).
Proof. split; [|done]. by constructor. Qed.

(** C37: every response is counted once.  Whatever the native stream does and whenever
    the client leaves, a request that reached generation adds exactly one to exactly
    one of completed, failed and cancelled: completed when the answer ended normally,
    failed when it ended in an error, and for a client that left, completed if all the
    text had been produced, failed past the deadline, cancelled otherwise.  The tokens
    counted are those of the usage, one of them as the first token and the others as
    intervals. *)
Theorem response_accounting natives patience late seconds p outcome :
  events chat options prompt_tokens stop_ids started natives patience late seconds = (p, outcome) ->
  let m := pr_metrics p in
  (me_completed m, me_failed m, me_cancelled m) =
    match outcome with
    | ENDED_NORMALLY => (1, 0, 0)
    | ENDED_BY_ERROR _ => (0, 1, 0)
    | ENDED_BY_CLOSE => if pr_succeeded p then (1, 0, 0) else if late then (0, 1, 0) else (0, 0, 1)
    end%Z /\
  me_generated_tokens m = pr_completion_tokens p /\
  me_ttft_count m = Z.min 1 (pr_completion_tokens p) /\
  (me_ttft_count m + me_itl_count m = pr_completion_tokens p)%Z.
Proof.
  unfold events. rewrite events_body_split. unfold step_bind.
  pose proof (unfinished_before natives _ (progress_unfinished patience)) as Hu.
  destruct (before_success natives (progress patience)) as [p0 [[]|i]]; cbn [fst] in Hu.
  - destruct (after_success_spec p0 Hu) as [[[Hg Hn Hp Ht Hi Hf Hca Hco] Hs] Hr].
    destruct (after_success p0) as [p1 r]. cbn [fst snd] in *. rewrite Hs in Hco.
    destruct Hr as [-> | ->]; [|rewrite Hs]; intros E; injection E as <- <-; cbn;
      [|rewrite Hs]; rewrite Hco, Hf, Hca; split_and!; try done; lia.
  - destruct Hu as [[Hg Hn Hp Ht Hi Hf Hca Hco] Hs]. rewrite Hs in Hco. rewrite Hs.
    destruct i, late; intros E; injection E as <- <-; cbn; rewrite ?Hs, ?Hco, ?Hf, ?Hca;
      split_and!; try done; lia.
Qed.
End accounting.

(** ** The text of a response *)

Definition chunk_text (c : Chunk) : text := match c with TEXT_CHUNK t _ _ => t | _ => [] end.
Definition chunks_text (cs : list Chunk) : text := concat (chunk_text <$> cs).

Arguments chunks_text : simpl never.

Lemma chunks_text_app a b : chunks_text (a ++ b) = chunks_text a ++ chunks_text b.
Proof. unfold chunks_text. by rewrite fmap_app, concat_app. Qed.

Lemma chunks_text_one c : chunks_text [c] = chunk_text c.
Proof. unfold chunks_text. simpl. by rewrite app_nil_r. Qed.

Section response.
Context `{TokenizerDecoder} `{TokenDisplay}.
Context (chat : bool) (options : Options) (prompt_tokens : Z) (stop_ids : list Z) (started : float).

(** A native stream that completes: its tokens, when they arrive, and the metadata the
    runtime kept, which is there when log probabilities are wanted. *)
Record Tick := { tk_token : Z; tk_now : float; tk_metadata : option TokenEvent }.
Definition native_of (t : Tick) : Native := NTOKEN (tk_token t) (tk_now t) (tk_metadata t).
Definition tick_ok (t : Tick) : Prop :=
  opt_truthy (go_logprob_limit options) = true -> tk_metadata t <> None.

Definition kept (ticks : list Tick) : list Z :=
  List.filter (fun token => negb (py_in token stop_ids)) (tk_token <$> ticks).
Definition meets_stop_id (ticks : list Tick) : bool :=
  existsb (fun t => py_in (tk_token t) stop_ids) ticks.

(** What the response has said so far: the text that was sent, the pieces of a whole
    answer, the decoder and the reason to finish. *)
Record says (sent : text) (o : TextOutput) (reason : string) (p : Progress) : Prop := {
  sy_sent : chunks_text (pr_sent p) = sent;
  sy_pieces : go_stream options = false -> concat (pr_pieces p) = sent;
  sy_output : pr_output p = o;
  sy_reason : pr_finish_reason p = reason;
  sy_patience : pr_patience p = None
}.

Lemma emit_says sent o reason p c : says sent o reason p ->
  (go_stream options = false -> chunk_text c = []) ->
  exists p', emit c p = (p', inl tt) /\ says (sent ++ chunk_text c) o reason p' /\
    pr_completion_tokens p' = pr_completion_tokens p.
Proof.
  intros [Hs Hp Ho Hr Hpat] Hc. unfold emit. rewrite Hpat. eexists. split; [done|]. split; [|done].
  constructor; cbn; try done.
  - by rewrite chunks_text_app, Hs, chunks_text_one.
  - intros Hf. by rewrite Hc, app_nil_r, Hp.
Qed.

(** A text that goes out: into the pieces of a whole answer, and as a chunk. *)
Lemma deliver_says sent o reason p t details :
  chunks_text (pr_sent p) = sent -> (go_stream options = false -> concat (pr_pieces p) = sent) ->
  pr_output p = o -> pr_finish_reason p = reason -> pr_patience p = None ->
  exists p', step_bind (when (nonempty t && negb (go_stream options)) (modify (add_piece t)))
      (fun _ => when (nonempty t || opt_truthy details) (emit (TEXT_CHUNK t None details))) p = (p', inl tt) /\
    says (sent ++ t) o reason p' /\ pr_completion_tokens p' = pr_completion_tokens p.
Proof.
  intros Hs Hp Ho Hr Hpat. unfold step_bind, when, modify, step_ret, nonempty.
  destruct t as [|x t]; cbn [length Nat.eqb negb andb orb].
  - rewrite app_nil_r. destruct (opt_truthy details); [|exists p; split; [done|by split]].
    unfold emit. rewrite Hpat. eexists. split; [done|]. split; [|done]. constructor; cbn; try done.
    by rewrite chunks_text_app, chunks_text_one, app_nil_r.
  - destruct (go_stream options) eqn:Hst; unfold emit; cbn; rewrite Hpat; cbn.
    + eexists. split; [done|]. split; [|done]. constructor; cbn; try done; [|congruence].
      by rewrite chunks_text_app, chunks_text_one, Hs.
    + eexists. split; [done|]. split; [|done]. constructor; cbn; try done.
      * by rewrite chunks_text_app, chunks_text_one, Hs.
      * intros _. rewrite concat_app, Hp by done. simpl. by rewrite app_nil_r.
Qed.

Lemma token_details_says t sent o reason p : tick_ok t -> says sent o reason p ->
  exists details p', token_details options (tk_metadata t) p = (p', inl details) /\ says sent o reason p' /\
    pr_completion_tokens p' = pr_completion_tokens p.
Proof.
  intros Ht [Hs Hp Ho Hr Hpat]. unfold token_details, tick_ok in *.
  destruct (opt_truthy (go_logprob_limit options)); cbn [negb]; [|by exists None, p].
  destruct (tk_metadata t); [|by destruct Ht]. eexists _, _. split; [done|].
  destruct (go_stream options) eqn:Hst; split; try done; constructor; cbn; try done; intros Hf; try congruence; by apply Hp.
Qed.

Lemma on_token_says t sent o reason p :
  tick_ok t -> says sent o reason p -> to_stopped o = false ->
  exists p' b, on_token options stop_ids started (tk_token t) (tk_now t) (tk_metadata t) p = (p', inl b) /\
    pr_completion_tokens p' = (pr_completion_tokens p + 1)%Z /\
    if py_in (tk_token t) stop_ids then b = false /\ says sent o "stop" p'
    else let '(s, o') := push (go_stop_strings options) (tk_token t) o in
         b = to_stopped o' /\ says (sent ++ s) o' (if to_stopped o' then "stop" else reason) p'.
Proof.
  intros Ht Hsays Hst. unfold on_token.
  destruct (token_details_says t sent o reason (count_token started (tk_now t) p) Ht) as (details & p1 & E1 & Hs1 & Hn1).
  { destruct Hsays. by constructor. }
  unfold step_bind at 1, modify at 1. unfold step_bind at 1. rewrite E1.
  destruct (py_in (tk_token t) stop_ids) eqn:Hin.
  - destruct Hs1 as [Hs Hp Ho Hr Hpat]. unfold step_bind, modify, when, step_ret.
    destruct (opt_truthy details).
    + unfold emit. cbn. rewrite Hpat. cbn. eexists _, _. split; [done|]. split; [done|]. split; [done|].
      constructor; cbn; try done. by rewrite chunks_text_app, chunks_text_one, app_nil_r.
    + eexists _, _. split; [done|]. split; [done|]. split; [done|]. by constructor.
  - destruct Hs1 as [Hs Hp Ho Hr Hpat]. unfold step_bind at 1, push_token. rewrite Ho.
    destruct (push (go_stop_strings options) (tk_token t) o) as [s o'] eqn:Hpush.
    destruct (deliver_says sent o' reason (set_output o' p1) s details Hs Hp eq_refl Hr Hpat)
      as (p2 & E2 & [Hs2 Hp2 Ho2 Hr2 Hpat2] & Hn2).
    unfold step_bind in E2 |- *.
    destruct (when (nonempty s && negb (go_stream options)) (modify (add_piece s)) (set_output o' p1)) as [p3 [[]|]]; [|done].
    rewrite E2. unfold note_stopped. rewrite Ho2.
    assert (pr_completion_tokens p2 = (pr_completion_tokens p + 1)%Z) by (rewrite Hn2; exact Hn1).
    destruct (to_stopped o') eqn:Hst'; eexists _, _; (split; [done|]); (split; [done|]); (split; [done|]); by constructor.
Qed.

(** The loop is [push_all] over the tokens that are not stop IDs. *)
Lemma token_loop_says ticks sent o reason p :
  Forall tick_ok ticks -> says sent o reason p -> to_stopped o = false ->
  let '(texts, o') := push_all (go_stop_strings options) (kept ticks) o in
  exists p', token_loop options stop_ids started (native_of <$> ticks) p = (p', inl tt) /\
    says (sent ++ concat texts) o' (if to_stopped o' || meets_stop_id ticks then "stop" else reason) p'.
Proof.
  intros Hok. revert sent o reason p. induction Hok as [|t ticks Ht _ IH]; intros sent o reason p Hsays Hst.
  - simpl. rewrite Hst, app_nil_r. by exists p.
  - destruct (on_token_says t sent o reason p Ht Hsays Hst) as (p1 & b & E & _ & Hnext).
    unfold kept, meets_stop_id. cbn [fmap list_fmap List.filter existsb].
    fold (kept ticks). fold (meets_stop_id ticks). cbn [token_loop native_of].
    unfold step_bind. rewrite E.
    destruct (py_in (tk_token t) stop_ids) eqn:Hin; cbn [negb].
    + destruct Hnext as [-> Hs1]. specialize (IH _ _ _ _ Hs1 Hst).
      destruct (push_all _ _ o) as [texts o'].
      destruct IH as (p' & E' & Hs'). exists p'. split; [done|]. cbn [orb]. rewrite orb_true_r.
      by destruct (to_stopped o' || meets_stop_id ticks).
    + cbn [push_all]. destruct (push (go_stop_strings options) (tk_token t) o) as [s o1] eqn:Hpush.
      destruct Hnext as [-> Hs1]. destruct (to_stopped o1) eqn:Hst1.
      * exists p1. split; [done|]. simpl. rewrite app_nil_r, Hst1. done.
      * specialize (IH _ _ _ _ Hs1 Hst1). destruct (push_all _ _ o1) as [texts o'].
        destruct IH as (p' & E' & Hs'). exists p'. split; [done|]. simpl. by rewrite app_assoc.
Qed.

Lemma stream_text_push tokens : stream_text (go_stop_strings options) tokens =
  ('(t, s) ← finish (go_stop_strings options) (push_all (go_stop_strings options) tokens text_output).2;
   Ok ((push_all (go_stop_strings options) tokens text_output).1 ++ [t], s)).
Proof. unfold stream_text. by destruct (push_all _ _ _). Qed.

Definition deliver_last (t : text) : Step unit :=
  (do! when (nonempty t)
         (do! when (negb (go_stream options)) (modify (add_piece t)) in emit (TEXT_CHUNK t None None)) in
   let! _ := note_stopped in step_ret tt)%step.

(** Before it is counted as completed, the response said the text of [stream_text]. *)
Lemma before_success_says ticks : Forall tick_ok ticks ->
  let result := before_success chat options stop_ids started (native_of <$> ticks) (progress None) in
  match stream_text (go_stop_strings options) (kept ticks) with
  | Ok (texts, s) => exists p, result = (p, inl tt) /\
      says (concat texts) s (if to_stopped s || meets_stop_id ticks then "stop" else "length") p
  | Err _ => exists p, result = (p, inr FAILED)
  end.
Proof.
  intros Hok. cbv zeta.
  assert (exists p0, when (chat && go_stream options) (emit ROLE_CHUNK) (progress None) = (p0, inl tt) /\
    says [] text_output "length" p0) as (p0 & E0 & Hs0).
  { unfold when. destruct (chat && go_stream options); eexists; (split; [done|]); by constructor. }
  pose proof (token_loop_says ticks [] text_output "length" p0 Hok Hs0 eq_refl) as Hloop.
  rewrite stream_text_push. destruct (push_all _ (kept ticks) text_output) as [texts o]. cbn [fst snd].
  destruct Hloop as (p1 & E1 & [Hs Hp Ho Hr Hpat]).
  assert (Hres : before_success chat options stop_ids started (native_of <$> ticks) (progress None) =
    step_bind (finish_output options) deliver_last p1).
  { unfold before_success, step_bind. by rewrite E0, E1. }
  rewrite Hres. clear Hres. unfold step_bind, finish_output. rewrite Ho.
  destruct (finish (go_stop_strings options) o) as [[t o']|e] eqn:Hfin; simpl; [|by eexists].
  destruct (deliver_says _ o' _ (set_output o' p1) t None Hs Hp eq_refl Hr Hpat)
    as (p2 & E2 & [Hs2 Hp2 Ho2 Hr2 Hpat2] & _).
  assert (when (nonempty t) (step_bind (when (negb (go_stream options)) (modify (add_piece t)))
            (fun _ => emit (TEXT_CHUNK t None None))) (set_output o' p1) = (p2, inl tt)) as E3.
  { rewrite <- E2. unfold when. destruct (nonempty t); cbn; by destruct (go_stream options). }
  unfold deliver_last. unfold step_bind at 1. rewrite E3. unfold step_bind, note_stopped, step_ret. rewrite Ho2.
  assert (Hstop : to_stopped o = true -> to_stopped o' = true).
  { unfold finish in Hfin. intros Hst. rewrite Hst in Hfin. apply Ok_inj in Hfin. by injection Hfin as _ <-. }
  rewrite concat_app. simpl. rewrite app_nil_r.
  destruct (to_stopped o') eqn:Hst'; eexists; (split; [done|]).
  - by constructor.
  - assert (to_stopped o = false) as Hst.
    { destruct (to_stopped o); [|done]. specialize (Hstop eq_refl). congruence. }
    rewrite Hst in Hr2. by constructor.
Qed.

Lemma after_success_says sent o reason p : says sent o reason p ->
  exists p', after_success options prompt_tokens p = (p', inl tt) /\ says sent o reason p' /\
    TEXT_CHUNK [] (Some reason) None ∈ pr_sent p'.
Proof.
  intros [Hs Hp Ho Hr Hpat]. unfold after_success, step_bind, modify. cbn [fst snd].
  destruct (emit_says sent o reason
    (set_metrics (count_completed (pr_metrics p)) (succeed p)) (TEXT_CHUNK [] (Some reason) None))
    as (p1 & E1 & Hs1 & _); [by constructor|done|].
  assert (pr_finish_reason (set_metrics (count_completed (pr_metrics p)) (succeed p)) = reason) as -> by done.
  assert (TEXT_CHUNK [] (Some reason) None ∈ pr_sent p1) as Hin.
  { unfold emit in E1. cbn in E1. rewrite Hpat in E1. injection E1 as <-. cbn. apply elem_of_app.
    right. apply list_elem_of_here. }
  rewrite E1. cbn [chunk_text] in Hs1. rewrite app_nil_r in Hs1. unfold when, step_ret.
  destruct (go_include_usage options); [|by exists p1].
  unfold usage_chunk. destruct (emit_says sent o reason p1
    (USAGE_CHUNK prompt_tokens (pr_completion_tokens p1) (prompt_tokens + pr_completion_tokens p1)) Hs1)
    as (p2 & E2 & Hs2 & _); [done|].
  exists p2. rewrite E2. split; [done|]. cbn [chunk_text] in Hs2. rewrite app_nil_r in Hs2. split; [done|].
  destruct Hs1 as [_ _ _ _ Hpat1]. unfold emit in E2. rewrite Hpat1 in E2. injection E2 as <-. cbn.
  apply elem_of_app. by left.
Qed.

(** C33: a response says the text the output filter lets through, and both shapes of the
    answer say the same.  For every native stream that completes, over the tokens that
    are not stop IDs: when the filter yields its texts, the stream of a client that
    reads to the end ends with [DONE], the contents of its chunks put together are
    those texts, and one of its chunks carries the reason to finish; the whole answer
    of a request that does not stream has the same content and the same reason, "stop"
    exactly when a stop string or a stop ID was met.  When the filter fails, both end
    in the internal error. *)
Theorem response_text ticks late seconds : Forall tick_ok ticks ->
  let natives := native_of <$> ticks in
  let streamed := stream chat options prompt_tokens stop_ids started natives None late seconds in
  let answered := answer chat options prompt_tokens stop_ids started natives late seconds in
  match stream_text (go_stop_strings options) (kept ticks) with
  | Ok (texts, s) =>
    let reason := if to_stopped s || meets_stop_id ticks then "stop" else "length" in
    (exists chunks, streamed = (DATA <$> chunks) ++ [DONE] /\ chunks_text chunks = concat texts /\
       TEXT_CHUNK [] (Some reason) None ∈ chunks) /\
    (go_stream options = false -> exists a, answered = Some (inl a) /\
       an_content a = concat texts /\ an_finish_reason a = reason)
  | Err _ =>
    (exists chunks, streamed = (DATA <$> chunks) ++ [ERROR_DATA internal_error; DONE]) /\
    answered = Some (inr internal_error)
  end.
Proof.
  intros Hok natives streamed answered. pose proof (before_success_says ticks Hok) as Hb.
  subst natives streamed answered. unfold stream, answer, events. rewrite events_body_split.
  unfold step_bind. cbv zeta in Hb.
  destruct (stream_text (go_stop_strings options) (kept ticks)) as [[texts s]|e].
  - destruct Hb as (p & -> & Hs). destruct (after_success_says _ _ _ _ Hs) as (p' & -> & [Hs' Hp' Ho Hr _] & Hin).
    split; [by exists (pr_sent p')|]. intros Hf. eexists. split; [done|]. split; [by apply Hp'|done].
  - destruct Hb as (p & ->). split; [by exists (pr_sent p)|done].
Qed.
End response.

(** ** A concrete response *)
Module AppDemo.
Import TextOutputDemo.
#[local] Existing Instance TextOutputDemo.identity_decoder.
#[local] Instance demo_display : TokenDisplay := fun token => [token].

(** The stop string is the text 3, 4; the stop ID is 9. *)
Definition demo_options (streamed : bool) : Options := {|
  go_model := "m"; go_max_tokens := 8; go_stream := streamed; go_include_usage := streamed;
  go_temperature := f0; go_top_p := literal 1 1; go_top_k := 0; go_seed := None;
  go_logprob_limit := None; go_stop_strings := demo_stops; go_stop_token_ids := Some [9%Z] |}.

Definition demo_ticks : list Tick :=
  (fun t => {| tk_token := t; tk_now := f0; tk_metadata := None |}) <$> [1; 2; 3; 3; 4; 5]%Z.

Lemma demo_ticks_ok : Forall (tick_ok (demo_options false)) demo_ticks.
Proof. repeat constructor; intros E; discriminate E. Qed.

Lemma demo_text : stream_text (go_stop_strings (demo_options false)) (kept [9%Z] demo_ticks) = demo_stream.
Proof. vm_compute. reflexivity. Qed.

Lemma response_text_witness : exists a,
  answer false (demo_options false) 4 [9%Z] f0 (native_of <$> demo_ticks) false f0 = Some (inl a) /\
  an_content a = [1; 2; 3]%Z /\ an_finish_reason a = "stop".
Proof.
  pose proof (response_text false (demo_options false) 4 [9%Z] f0 demo_ticks false f0 demo_ticks_ok) as Hr.
  cbv zeta in Hr. rewrite demo_text in Hr. destruct Hr as [_ Ha]. exact (Ha eq_refl).
Defined.

(** The client leaves after the first chunk. *)
Lemma response_accounting_witness : exists p,
  events false (demo_options true) 4 [9%Z] f0 (native_of <$> demo_ticks) (Some 0%nat) false f0 =
    (p, ENDED_BY_CLOSE) /\
  (me_completed (pr_metrics p), me_failed (pr_metrics p), me_cancelled (pr_metrics p)) = (0, 0, 1)%Z.
Proof.
  eexists. split; [reflexivity|].
  exact (proj1 (response_accounting false (demo_options true) 4 [9%Z] f0 (native_of <$> demo_ticks)
    (Some 0%nat) false f0 _ _ eq_refl)).
Defined.
End AppDemo.
