(* ===== verification/Concurrent.v ===== *)
(** * Records of concurrent serving (src/python/hllm_control/qualification/concurrent.py)

    The evidence of one bounded two-request experiment: identity, workload,
    configuration, preconditions, what each worker observed of itself, and results.
    This file has the records, their constraints, validators and dumps; the
    derivations over them are in Evidence.v.  A field whose type is a literal with one
    value is a constant of the dump. *)

From Stdlib Require Import SpecFloat.
From S2P Require Export Measured.

Definition REQUIRED_CANCEL_PREFIX : Z := 3.
(** 24 hours, in microseconds *)
Definition PROFILE_FRESHNESS : Z := 86400000000.
Definition GUARD_STALENESS_SECONDS : float := literal 20 1.

Definition both {A} (p : A * A) : list A := [p.1; p.2].

(** A float with [ge=0]; infinities and NaN are refused by every model. *)
Definition NonNegFloat (x : float) : bool := fle f0 x && is_finite x.

(** ** Amounts *)

Definition zip_amounts (f : Z -> Z -> Z) (a b : MemoryAmounts) : MemoryAmounts := {|
  ma_host := f (ma_host a) (ma_host b); ma_device := f (ma_device a) (ma_device b);
  ma_pinned := f (ma_pinned a) (ma_pinned b); ma_unified := f (ma_unified a) (ma_unified b) |}.

Definition add_amounts (a b : MemoryAmounts) : result MemoryAmounts :=
  validate_MemoryAmounts (zip_amounts Z.add a b).

Fixpoint max_amounts_from (result : MemoryAmounts) (values : list MemoryAmounts)
    : Prelude.result MemoryAmounts :=
  match values with
  | [] => Ok result
  | value :: rest =>
    result ← validate_MemoryAmounts (zip_amounts Z.max result value);
    max_amounts_from result rest
  end.

Definition max_amounts (values : list MemoryAmounts) : result MemoryAmounts :=
  max_amounts_from no_memory values.

Definition amounts_fit (required capacity : MemoryAmounts) : bool :=
  forallb (fun '(_, get) => (get required <=? get capacity)%Z) amount_fields.

Definition amounts_ok (m : MemoryAmounts) : bool := is_ok (validate_MemoryAmounts m).

(** ** Identity *)

Record WorkerIdentity := {
  wi_worker_id : string;
  wi_stage_index : Z;
  wi_backend : Backend;
  wi_environment : Environment;
  wi_worker_binary_digest : string;
  wi_endpoint : string;
  wi_transport_mode : TransportMode;
  wi_process_id : Z
}.

Definition WorkerIdentity_fields (w : WorkerIdentity) : bool :=
  Label (wi_worker_id w) && NonNegativeInt (wi_stage_index w) && Environment_fields (wi_environment w)
  && is_digest (wi_worker_binary_digest w) && Label (wi_endpoint w) && PositiveInt (wi_process_id w).

Definition WorkerIdentity_dump (w : WorkerIdentity) : json :=
  JObj [("worker_id", JStr (wi_worker_id w)); ("stage_index", JInt (wi_stage_index w));
        ("backend", JStr (backend_value (wi_backend w)));
        ("environment", Environment_dump (wi_environment w));
        ("worker_binary_digest", JStr (wi_worker_binary_digest w));
        ("endpoint", JStr (wi_endpoint w));
        ("transport_mode", JStr (transport_value (wi_transport_mode w)));
        ("process_id", JInt (wi_process_id w))].

Record Identity := {
  id_source_digest : string;
  id_manifest_digest : string;
  id_checkpoint_digest : string;
  id_plan_id : string;
  id_plan_digest : string;
  id_reference_sha256 : string;
  id_transport : string;
  id_worker_order : string * string;
  id_workers : WorkerIdentity * WorkerIdentity
}.

Definition identity_ordered (i : Identity) : result unit :=
  raise_if ((wi_worker_id <$> both (id_workers i) != both (id_worker_order i))
            || (wi_stage_index <$> both (id_workers i) != [0; 1]%Z)) ValidationError
    "worker identities must follow the stage order".

Definition Identity_fields (i : Identity) : bool :=
  forallb Label [id_source_digest i; id_plan_id i; id_plan_digest i; id_transport i]
  && forallb is_digest [id_manifest_digest i; id_checkpoint_digest i; id_reference_sha256 i]
  && forallb Label (both (id_worker_order i)) && forallb WorkerIdentity_fields (both (id_workers i))
  && is_ok (identity_ordered i).

Definition Identity_dump (i : Identity) : json :=
  JObj [("source_digest", JStr (id_source_digest i)); ("manifest_digest", JStr (id_manifest_digest i));
        ("checkpoint_digest", JStr (id_checkpoint_digest i)); ("plan_id", JStr (id_plan_id i));
        ("plan_digest", JStr (id_plan_digest i)); ("reference_sha256", JStr (id_reference_sha256 i));
        ("transport", JStr (id_transport i)); ("driver", JStr "native-controller");
        ("worker_order", json_strs (both (id_worker_order i)));
        ("workers", JArr (WorkerIdentity_dump <$> both (id_workers i)))].

(** ** Workload *)

Record RequestWorkload := {
  rw_prompt_ids : list Z;
  rw_expected_ids : list Z;
  rw_prompt_digest : string;
  rw_expected_digest : string;
  rw_reservation_tokens : Z
}.

Definition ids_digest `{Hash} (ids : list Z) : string := digest (JObj [("ids", json_ints ids)]).

Definition request_hashed `{Hash} (r : RequestWorkload) : result unit :=
  raise_if ((rw_prompt_digest r != ids_digest (rw_prompt_ids r))
            || (rw_expected_digest r != ids_digest (rw_expected_ids r))
            || (rw_reservation_tokens r
                != (Z.of_nat (length (rw_prompt_ids r)) + Z.of_nat (length (rw_expected_ids r)))%Z))
    ValidationError "request workload digests or reservation do not match the tokens".

Definition RequestWorkload_fields `{Hash} (r : RequestWorkload) : bool :=
  forallb NonNegativeInt (rw_prompt_ids r) && (1 <=? Z.of_nat (length (rw_prompt_ids r)))%Z
  && forallb NonNegativeInt (rw_expected_ids r)
  && (REQUIRED_CANCEL_PREFIX <=? Z.of_nat (length (rw_expected_ids r)))%Z
  && is_digest (rw_prompt_digest r) && is_digest (rw_expected_digest r)
  && PositiveInt (rw_reservation_tokens r) && is_ok (request_hashed r).

Definition RequestWorkload_dump (r : RequestWorkload) : json :=
  JObj [("prompt_ids", json_ints (rw_prompt_ids r)); ("expected_ids", json_ints (rw_expected_ids r));
        ("prompt_digest", JStr (rw_prompt_digest r)); ("expected_digest", JStr (rw_expected_digest r));
        ("reservation_tokens", JInt (rw_reservation_tokens r))].

Record PairWorkload := {
  pw_requests : RequestWorkload * RequestWorkload;
  pw_weight_dtype : option DType;
  pw_execution_dtype : DType;
  pw_kv_dtype : DType;
  pw_activation_dtype : DType;
  pw_timeout_seconds : float
}.

Definition PairWorkload_fields `{Hash} (w : PairWorkload) : bool :=
  forallb RequestWorkload_fields (both (pw_requests w))
  && flt f0 (pw_timeout_seconds w) && fle (pw_timeout_seconds w) (literal 3600 1).

Definition PairWorkload_dump (w : PairWorkload) : json :=
  JObj ([("requests", JArr (RequestWorkload_dump <$> both (pw_requests w)))]
        ++ json_field (pw_weight_dtype w == None) "weight_dtype"
             (json_opt (fun d => JStr (dtype_value d)) (pw_weight_dtype w))
        ++ [("execution_dtype", JStr (dtype_value (pw_execution_dtype w)));
            ("kv_dtype", JStr (dtype_value (pw_kv_dtype w)));
            ("activation_dtype", JStr (dtype_value (pw_activation_dtype w)));
            ("sampling", JStr "greedy"); ("timeout_seconds", JFloat (pw_timeout_seconds w))]).

(** ** Configuration *)

Record WorkerConfiguration := {
  wc_worker_id : string;
  wc_admission_capacity : MemoryAmounts;
  wc_maximum_active_requests : Z;
  wc_maximum_cached_tokens : Z;
  wc_maximum_decode_batch : Z;
  wc_prefill_chunk_tokens : Z;
  wc_request_observations : bool
}.

Definition WorkerConfiguration_fields (w : WorkerConfiguration) : bool :=
  Label (wc_worker_id w) && amounts_ok (wc_admission_capacity w)
  && (2 <=? wc_maximum_active_requests w)%Z && NonNegativeInt (wc_maximum_cached_tokens w)
  && PositiveInt (wc_maximum_decode_batch w) && NonNegativeInt (wc_prefill_chunk_tokens w).

Definition WorkerConfiguration_dump (w : WorkerConfiguration) : json :=
  JObj [("worker_id", JStr (wc_worker_id w));
        ("admission_capacity", MemoryAmounts_dump (wc_admission_capacity w));
        ("maximum_active_requests", JInt (wc_maximum_active_requests w));
        ("maximum_cached_tokens", JInt (wc_maximum_cached_tokens w));
        ("maximum_decode_batch", JInt (wc_maximum_decode_batch w));
        ("prefill_chunk_tokens", JInt (wc_prefill_chunk_tokens w));
        ("request_observations", JBool (wc_request_observations w))].

Record Configuration := {
  cf_workers : WorkerConfiguration * WorkerConfiguration;
  cf_queue_capacity : Z;
  cf_controller_limit : Z;
  cf_mlx_fit_policy : MlxFitPolicy;
  cf_safety_fraction : float;
  cf_extra_overhead_bytes : Z;
  cf_host_headroom_bytes : Z;
  cf_device_headroom_bytes : Z
}.

Definition Configuration_fields (c : Configuration) : bool :=
  forallb WorkerConfiguration_fields (both (cf_workers c)) && NonNegativeInt (cf_queue_capacity c)
  && (2 <=? cf_controller_limit c)%Z && fle (literal 5 100) (cf_safety_fraction c)
  && flt (cf_safety_fraction c) (literal 1 1)
  && forallb NonNegativeInt [cf_extra_overhead_bytes c; cf_host_headroom_bytes c; cf_device_headroom_bytes c].

Definition Configuration_dump (c : Configuration) : json :=
  JObj [("workers", JArr (WorkerConfiguration_dump <$> both (cf_workers c)));
        ("queue_capacity", JInt (cf_queue_capacity c)); ("controller_limit", JInt (cf_controller_limit c));
        ("mlx_fit_policy", JStr (policy_name (cf_mlx_fit_policy c)));
        ("safety_fraction", JFloat (cf_safety_fraction c));
        ("extra_overhead_bytes", JInt (cf_extra_overhead_bytes c));
        ("host_headroom_bytes", JInt (cf_host_headroom_bytes c));
        ("device_headroom_bytes", JInt (cf_device_headroom_bytes c))].

(** ** Preconditions *)

Inductive BaselineScope := F16_RELOAD_QUALIFICATION | CPU_REHEARSAL.

#[export] Instance baseline_scope_eq_dec : EqDecision BaselineScope.
Proof. solve_decision. Defined.
#[export] Instance pyeq_baseline_scope : PyEq BaselineScope := pyeq_of_dec.
#[export] Instance pyeq_baseline_scope_laws : PyEqLaws BaselineScope := pyeq_of_dec_laws.

Definition scope_value (s : BaselineScope) : string :=
  match s with F16_RELOAD_QUALIFICATION => "f16-reload-qualification" | CPU_REHEARSAL => "cpu-rehearsal" end.

Record BaselineSummary := {
  bs_scope : BaselineScope;
  bs_completed : bool;
  bs_plan_digest : string;
  bs_reference_sha256 : string;
  bs_worker_binary_digests : list (string * string);
  bs_cycles : Z;
  bs_requests : Z;
  bs_all_exact : bool;
  bs_finished_unix_time : float
}.

Definition BaselineSummary_fields (b : BaselineSummary) : bool :=
  Label (bs_plan_digest b) && is_digest (bs_reference_sha256 b)
  && forallb (fun '(w, d) => Label w && is_digest d) (bs_worker_binary_digests b)
  && PositiveInt (bs_cycles b) && PositiveInt (bs_requests b) && NonNegFloat (bs_finished_unix_time b).

Definition BaselineSummary_dump (b : BaselineSummary) : json :=
  JObj [("scope", JStr (scope_value (bs_scope b))); ("completed", JBool (bs_completed b));
        ("plan_digest", JStr (bs_plan_digest b)); ("reference_sha256", JStr (bs_reference_sha256 b));
        ("worker_binary_digests",
          JArr ((fun '(w, d) => JArr [JStr w; JStr d]) <$> bs_worker_binary_digests b));
        ("cycles", JInt (bs_cycles b)); ("requests", JInt (bs_requests b));
        ("all_exact", JBool (bs_all_exact b)); ("finished_unix_time", JFloat (bs_finished_unix_time b))].

Record ProfilePrecondition := {
  pp_worker_id : string;
  pp_artifact_digest : string;
  pp_measured_at : AwareDatetime;
  pp_requested_mlx_policy : option MlxFitPolicy
}.

Definition ProfilePrecondition_fields (p : ProfilePrecondition) : bool :=
  Label (pp_worker_id p) && is_digest (pp_artifact_digest p).

Definition mlx_policy_field (p : option MlxFitPolicy) : list (string * json) :=
  json_field (p == None) "requested_mlx_policy" (json_opt (fun p => JStr (policy_name p)) p).

Definition ProfilePrecondition_dump (p : ProfilePrecondition) : json :=
  JObj ([("worker_id", JStr (pp_worker_id p)); ("artifact_digest", JStr (pp_artifact_digest p));
         ("measured_at", JStr (dt_text (pp_measured_at p)))]
        ++ mlx_policy_field (pp_requested_mlx_policy p)).

Record CycleGate := {
  cg_worker_id : string;
  cg_cycle : Z;
  cg_sampled_at : AwareDatetime;
  cg_status : FitStatus;
  cg_reasons : list string;
  cg_host_budget : PhysicalBudget;
  cg_device_budget : option PhysicalBudget
}.

Definition CycleGate_fields (g : CycleGate) : bool :=
  Label (cg_worker_id g) && NonNegativeInt (cg_cycle g) && PhysicalBudget_fields (cg_host_budget g)
  && opt_ok PhysicalBudget_fields (cg_device_budget g).

Definition CycleGate_dump (g : CycleGate) : json :=
  JObj [("worker_id", JStr (cg_worker_id g)); ("cycle", JInt (cg_cycle g));
        ("sampled_at", JStr (dt_text (cg_sampled_at g))); ("status", JStr (fit_status_value (cg_status g)));
        ("reasons", json_strs (cg_reasons g)); ("host_budget", PhysicalBudget_dump (cg_host_budget g));
        ("device_budget", json_opt PhysicalBudget_dump (cg_device_budget g))].

Record Preconditions := {
  pc_baseline_report_sha256 : string;
  pc_baseline : BaselineSummary;
  pc_started_at : AwareDatetime;
  pc_profiles : ProfilePrecondition * ProfilePrecondition;
  pc_gates : list CycleGate;
  pc_guard : string
}.

Definition gate_key (g : CycleGate) : Z * string := (cg_cycle g, cg_worker_id g).

Definition gates_ordered (p : Preconditions) : result unit :=
  raise_if (negb (py_unique (gate_key <$> pc_gates p))) ValidationError
    "one fit gate per worker and cycle" ;;
  raise_if ((cg_cycle <$> pc_gates p) != py_sorted Z.ltb (cg_cycle <$> pc_gates p)) ValidationError
    "fit gates must be ordered by cycle".

Definition Preconditions_fields (p : Preconditions) : bool :=
  is_digest (pc_baseline_report_sha256 p) && BaselineSummary_fields (pc_baseline p)
  && forallb ProfilePrecondition_fields (both (pc_profiles p)) && forallb CycleGate_fields (pc_gates p)
  && Label (pc_guard p) && is_ok (gates_ordered p).

Definition Preconditions_dump (p : Preconditions) : json :=
  JObj [("baseline_report_sha256", JStr (pc_baseline_report_sha256 p));
        ("baseline", BaselineSummary_dump (pc_baseline p)); ("started_at", JStr (dt_text (pc_started_at p)));
        ("profiles", JArr (ProfilePrecondition_dump <$> both (pc_profiles p)));
        ("gates", JArr (CycleGate_dump <$> pc_gates p)); ("guard", JStr (pc_guard p))].

(** ** Observations *)

Record RequestReservation := {
  rr_request_id : string;
  rr_maximum_total_tokens : Z;
  rr_cache : MemoryAmounts;
  rr_workspace : MemoryAmounts;
  rr_admitted_at_monotonic_ns : Z;
  rr_allocating : bool;
  rr_running : bool;
  rr_cancelled : bool
}.

Definition RequestReservation_fields (r : RequestReservation) : bool :=
  Label (rr_request_id r) && PositiveInt (rr_maximum_total_tokens r) && amounts_ok (rr_cache r)
  && amounts_ok (rr_workspace r) && NonNegativeInt (rr_admitted_at_monotonic_ns r).

Definition RequestReservation_dump (r : RequestReservation) : json :=
  JObj [("request_id", JStr (rr_request_id r)); ("maximum_total_tokens", JInt (rr_maximum_total_tokens r));
        ("cache", MemoryAmounts_dump (rr_cache r)); ("workspace", MemoryAmounts_dump (rr_workspace r));
        ("admitted_at_monotonic_ns", JInt (rr_admitted_at_monotonic_ns r));
        ("allocating", JBool (rr_allocating r)); ("running", JBool (rr_running r));
        ("cancelled", JBool (rr_cancelled r))].

Inductive EventKind := EV_ADMITTED | EV_RETIRED.

#[export] Instance event_kind_eq_dec : EqDecision EventKind.
Proof. solve_decision. Defined.
#[export] Instance pyeq_event_kind : PyEq EventKind := pyeq_of_dec.
#[export] Instance pyeq_event_kind_laws : PyEqLaws EventKind := pyeq_of_dec_laws.

Record LifecycleEvent := {
  le_kind : EventKind;
  le_request_id : string;
  le_sequence : Z;
  le_at_monotonic_ns : Z;
  le_concurrent_request_ids : list string;
  le_reason : string
}.

Definition LifecycleEvent_fields (e : LifecycleEvent) : bool :=
  Label (le_request_id e) && PositiveInt (le_sequence e) && NonNegativeInt (le_at_monotonic_ns e)
  && forallb Label (le_concurrent_request_ids e).

Definition LifecycleEvent_dump (e : LifecycleEvent) : json :=
  JObj [("kind", JStr (match le_kind e with EV_ADMITTED => "admitted" | EV_RETIRED => "retired" end));
        ("request_id", JStr (le_request_id e)); ("sequence", JInt (le_sequence e));
        ("at_monotonic_ns", JInt (le_at_monotonic_ns e));
        ("concurrent_request_ids", json_strs (le_concurrent_request_ids e));
        ("reason", JStr (le_reason e))].

Record WorkerSnapshot := {
  ws_phase : string;
  ws_cycle : option Z;
  ws_unix_time : float;
  ws_process_id : option Z;
  ws_observed_at_monotonic_ns : option Z;
  ws_observed_at_unix_ns : option Z;
  ws_loaded_weights : MemoryAmounts;
  ws_reserved_cache : MemoryAmounts;
  ws_reserved_workspace : MemoryAmounts;
  ws_active_request_ids : list string;
  ws_request_observations_available : bool;
  ws_requests : list RequestReservation;
  ws_events : list LifecycleEvent;
  ws_events_total : Z;
  ws_peak_concurrent_requests : Z;
  ws_allocator : option AllocatorSample;
  ws_process_memory : option ProcessMemoryObservation
}.

(** [{r.request_id for r in requests} == set(active_request_ids)] *)
Definition same_ids (a b : list string) : bool :=
  forallb (fun x => py_in x b) a && forallb (fun x => py_in x a) b.

Definition snapshot_coherent (s : WorkerSnapshot) : result unit :=
  raise_if (negb (ws_request_observations_available s)
            && (negb (nil_b (ws_requests s)) || negb (nil_b (ws_events s)) || (ws_process_id s != None)))
    ValidationError "unavailable request observations cannot carry request rows" ;;
  raise_if (ws_request_observations_available s
            && ((ws_process_id s == None) || (ws_observed_at_monotonic_ns s == None)))
    ValidationError "request observations require process identity and a steady clock" ;;
  raise_if (negb (same_ids (rr_request_id <$> ws_requests s) (ws_active_request_ids s))) ValidationError
    "request rows must match the active request IDs" ;;
  raise_if (ws_events_total s <? Z.of_nat (length (ws_events s)))%Z ValidationError
    "more events than the lifetime total".

Definition WorkerSnapshot_fields (s : WorkerSnapshot) : bool :=
  Label (ws_phase s) && opt_ok NonNegativeInt (ws_cycle s) && NonNegFloat (ws_unix_time s)
  && opt_ok PositiveInt (ws_process_id s) && opt_ok NonNegativeInt (ws_observed_at_monotonic_ns s)
  && opt_ok NonNegativeInt (ws_observed_at_unix_ns s)
  && forallb amounts_ok [ws_loaded_weights s; ws_reserved_cache s; ws_reserved_workspace s]
  && forallb Label (ws_active_request_ids s) && forallb RequestReservation_fields (ws_requests s)
  && forallb LifecycleEvent_fields (ws_events s) && NonNegativeInt (ws_events_total s)
  && NonNegativeInt (ws_peak_concurrent_requests s) && opt_ok AllocatorSample_fields (ws_allocator s)
  && opt_ok ProcessMemoryObservation_fields (ws_process_memory s) && is_ok (snapshot_coherent s).

Definition WorkerSnapshot_dump (s : WorkerSnapshot) : json :=
  JObj [("phase", JStr (ws_phase s)); ("cycle", json_opt JInt (ws_cycle s));
        ("unix_time", JFloat (ws_unix_time s)); ("process_id", json_opt JInt (ws_process_id s));
        ("observed_at_monotonic_ns", json_opt JInt (ws_observed_at_monotonic_ns s));
        ("observed_at_unix_ns", json_opt JInt (ws_observed_at_unix_ns s));
        ("loaded_weights", MemoryAmounts_dump (ws_loaded_weights s));
        ("reserved_cache", MemoryAmounts_dump (ws_reserved_cache s));
        ("reserved_workspace", MemoryAmounts_dump (ws_reserved_workspace s));
        ("active_request_ids", json_strs (ws_active_request_ids s));
        ("request_observations_available", JBool (ws_request_observations_available s));
        ("requests", JArr (RequestReservation_dump <$> ws_requests s));
        ("events", JArr (LifecycleEvent_dump <$> ws_events s)); ("events_total", JInt (ws_events_total s));
        ("peak_concurrent_requests", JInt (ws_peak_concurrent_requests s));
        ("allocator", json_opt AllocatorSample_dump (ws_allocator s));
        ("process_memory", json_opt ProcessMemoryObservation_dump (ws_process_memory s))].

Record DeviceSample := { ds_unix_time : float; ds_process_id : Z; ds_cuda_process_bytes : option Z }.

Definition DeviceSample_fields (d : DeviceSample) : bool :=
  NonNegFloat (ds_unix_time d) && PositiveInt (ds_process_id d) && opt_ok NonNegativeInt (ds_cuda_process_bytes d).

Definition DeviceSample_dump (d : DeviceSample) : json :=
  JObj [("unix_time", JFloat (ds_unix_time d)); ("process_id", JInt (ds_process_id d));
        ("cuda_process_bytes", json_opt JInt (ds_cuda_process_bytes d))].

Record WorkerObservations := {
  wo_worker_id : string;
  wo_snapshots : list WorkerSnapshot;
  wo_device_samples : list DeviceSample
}.

Definition WorkerObservations_fields (w : WorkerObservations) : bool :=
  Label (wo_worker_id w) && forallb WorkerSnapshot_fields (wo_snapshots w)
  && forallb DeviceSample_fields (wo_device_samples w).

Definition WorkerObservations_dump (w : WorkerObservations) : json :=
  JObj [("worker_id", JStr (wo_worker_id w)); ("snapshots", JArr (WorkerSnapshot_dump <$> wo_snapshots w));
        ("device_samples", JArr (DeviceSample_dump <$> wo_device_samples w))].

Record Observations := {
  ob_workers : WorkerObservations * WorkerObservations;
  ob_clock_alignment : string
}.

Definition Observations_fields (o : Observations) : bool :=
  forallb WorkerObservations_fields (both (ob_workers o)) && Label (ob_clock_alignment o).

Definition Observations_dump (o : Observations) : json :=
  JObj [("workers", JArr (WorkerObservations_dump <$> both (ob_workers o)));
        ("clock_alignment", JStr (ob_clock_alignment o))].

(** ** Results *)

Inductive RoundKind := ROUND_SERIAL | ROUND_PAIRED | ROUND_CANCEL.

#[export] Instance round_kind_eq_dec : EqDecision RoundKind.
Proof. solve_decision. Defined.
#[export] Instance pyeq_round_kind : PyEq RoundKind := pyeq_of_dec.
#[export] Instance pyeq_round_kind_laws : PyEqLaws RoundKind := pyeq_of_dec_laws.

Definition round_kind_value (k : RoundKind) : string :=
  match k with ROUND_SERIAL => "serial" | ROUND_PAIRED => "paired" | ROUND_CANCEL => "cancel" end.

Record Round := { rd_cycle : Z; rd_index : Z; rd_kind : RoundKind; rd_request_ids : list string }.

Definition round_arity (r : Round) : result unit :=
  raise_if ((rd_kind r == ROUND_SERIAL) != (length (rd_request_ids r) =? 1)%nat) ValidationError
    "serial rounds have one request; paired and cancel rounds two".

Definition Round_fields (r : Round) : bool :=
  NonNegativeInt (rd_cycle r) && NonNegativeInt (rd_index r) && forallb Label (rd_request_ids r)
  && (1 <=? length (rd_request_ids r))%nat && (length (rd_request_ids r) <=? 2)%nat && is_ok (round_arity r).

Definition Round_dump (r : Round) : json :=
  JObj [("cycle", JInt (rd_cycle r)); ("index", JInt (rd_index r));
        ("kind", JStr (round_kind_value (rd_kind r))); ("request_ids", json_strs (rd_request_ids r))].

Inductive Role := ROLE_SERIAL | ROLE_PAIRED | ROLE_CANCEL_VICTIM | ROLE_CANCEL_SURVIVOR.

#[export] Instance role_eq_dec : EqDecision Role.
Proof. solve_decision. Defined.
#[export] Instance pyeq_role : PyEq Role := pyeq_of_dec.
#[export] Instance pyeq_role_laws : PyEqLaws Role := pyeq_of_dec_laws.

Definition request_role_value (r : Role) : string :=
  match r with
  | ROLE_SERIAL => "serial" | ROLE_PAIRED => "paired" | ROLE_CANCEL_VICTIM => "cancel-victim"
  | ROLE_CANCEL_SURVIVOR => "cancel-survivor"
  end.

Record TokenComparison := {
  tc_request_id : string;
  tc_role : Role;
  tc_generated_ids : list Z;
  tc_expected_ids : list Z;
  tc_exact : bool;
  tc_seconds : float;
  tc_error : option string
}.

Definition comparison_honest (c : TokenComparison) : result unit :=
  raise_if (tc_exact c != (tc_generated_ids c == tc_expected_ids c)) ValidationError
    "exact flag contradicts the recorded tokens".

Definition TokenComparison_fields (c : TokenComparison) : bool :=
  Label (tc_request_id c) && forallb NonNegativeInt (tc_generated_ids c)
  && forallb NonNegativeInt (tc_expected_ids c) && NonNegFloat (tc_seconds c) && is_ok (comparison_honest c).

Definition TokenComparison_dump (c : TokenComparison) : json :=
  JObj [("request_id", JStr (tc_request_id c)); ("role", JStr (request_role_value (tc_role c)));
        ("generated_ids", json_ints (tc_generated_ids c)); ("expected_ids", json_ints (tc_expected_ids c));
        ("exact", JBool (tc_exact c)); ("seconds", JFloat (tc_seconds c));
        ("error", json_opt JStr (tc_error c))].

Inductive Proof_ := RETIREMENT_EVENT | JOINT_SNAPSHOT.

#[export] Instance proof_eq_dec : EqDecision Proof_.
Proof. solve_decision. Defined.

Record OverlapInterval := {
  oi_worker_id : string;
  oi_request_ids : string * string;
  oi_start_monotonic_ns : Z;
  oi_end_monotonic_ns : Z;
  oi_admission_sequence : option Z;
  oi_proof : Proof_;
  oi_detail : string
}.

#[export] Instance overlap_eq_dec : EqDecision OverlapInterval.
Proof. solve_decision. Defined.
#[export] Instance pyeq_overlap : PyEq OverlapInterval := pyeq_of_dec.
#[export] Instance pyeq_overlap_laws : PyEqLaws OverlapInterval := pyeq_of_dec_laws.

Definition OverlapInterval_fields (o : OverlapInterval) : bool :=
  Label (oi_worker_id o) && forallb Label (both (oi_request_ids o))
  && NonNegativeInt (oi_start_monotonic_ns o) && NonNegativeInt (oi_end_monotonic_ns o)
  && opt_ok PositiveInt (oi_admission_sequence o) && Label (oi_detail o).

Definition OverlapInterval_dump (o : OverlapInterval) : json :=
  JObj [("worker_id", JStr (oi_worker_id o)); ("request_ids", json_strs (both (oi_request_ids o)));
        ("start_monotonic_ns", JInt (oi_start_monotonic_ns o));
        ("end_monotonic_ns", JInt (oi_end_monotonic_ns o));
        ("admission_sequence", json_opt JInt (oi_admission_sequence o));
        ("proof", JStr (match oi_proof o with RETIREMENT_EVENT => "retirement-event"
                        | JOINT_SNAPSHOT => "joint-snapshot" end));
        ("detail", JStr (oi_detail o))].

Record WorkerPeak := {
  wk_worker_id : string;
  wk_weights : MemoryAmounts;
  wk_cache : MemoryAmounts;
  wk_workspace : MemoryAmounts;
  wk_combined : MemoryAmounts;
  wk_admission_capacity : MemoryAmounts;
  wk_within_admission : bool
}.

#[export] Instance worker_peak_eq_dec : EqDecision WorkerPeak.
Proof. solve_decision. Defined.
#[export] Instance pyeq_worker_peak : PyEq WorkerPeak := pyeq_of_dec.
#[export] Instance pyeq_worker_peak_laws : PyEqLaws WorkerPeak := pyeq_of_dec_laws.

Definition combined_amounts (weights cache workspace : MemoryAmounts) : result MemoryAmounts :=
  both ← add_amounts cache workspace;
  add_amounts weights both.

Definition peak_arithmetic (p : WorkerPeak) : result unit :=
  combined ← combined_amounts (wk_weights p) (wk_cache p) (wk_workspace p);
  raise_if (wk_combined p != combined) ValidationError
    "combined logical peak must be weights plus cache plus workspace" ;;
  raise_if (wk_within_admission p != amounts_fit (wk_combined p) (wk_admission_capacity p)) ValidationError
    "admission flag contradicts the combined peak".

Definition WorkerPeak_fields (p : WorkerPeak) : bool :=
  Label (wk_worker_id p)
  && forallb amounts_ok [wk_weights p; wk_cache p; wk_workspace p; wk_combined p; wk_admission_capacity p]
  && is_ok (peak_arithmetic p).

Definition WorkerPeak_dump (p : WorkerPeak) : json :=
  JObj [("worker_id", JStr (wk_worker_id p)); ("weights", MemoryAmounts_dump (wk_weights p));
        ("cache", MemoryAmounts_dump (wk_cache p)); ("workspace", MemoryAmounts_dump (wk_workspace p));
        ("combined", MemoryAmounts_dump (wk_combined p));
        ("admission_capacity", MemoryAmounts_dump (wk_admission_capacity p));
        ("within_admission", JBool (wk_within_admission p))].

(** [==] of two budgets: the fraction is compared as a float. *)
#[export] Instance pyeq_budget : PyEq PhysicalBudget := fun a b =>
  bool_decide (pb_available_bytes a = pb_available_bytes b)
  && (pb_headroom_bytes a =? pb_headroom_bytes b)%Z
  && (pb_extra_overhead_bytes a =? pb_extra_overhead_bytes b)%Z
  && SFeqb (pb_safety_fraction a) (pb_safety_fraction b).

Record PhysicalEnvelope := {
  pe_worker_id : string;
  pe_cycle : Z;
  pe_policy : FitPolicy;
  pe_requested_mlx_policy : option MlxFitPolicy;
  pe_policy_notes : list string;
  pe_host_peak_bytes : option Z;
  pe_device_peak_bytes : option Z;
  pe_host_envelope_bytes : option Z;
  pe_device_envelope_bytes : option Z;
  pe_host_budget : PhysicalBudget;
  pe_device_budget : option PhysicalBudget;
  pe_status : FitStatus;
  pe_reasons : list string
}.

Definition option_eqb {A} `{PyEq A} (a b : option A) : bool :=
  match a, b with Some x, Some y => x == y | None, None => true | _, _ => false end.

#[export] Instance pyeq_physical : PyEq PhysicalEnvelope := fun a b =>
  bool_decide ((pe_worker_id a, pe_cycle a, pe_policy a, pe_requested_mlx_policy a, pe_policy_notes a)
               = (pe_worker_id b, pe_cycle b, pe_policy b, pe_requested_mlx_policy b, pe_policy_notes b))
  && bool_decide ((pe_host_peak_bytes a, pe_device_peak_bytes a, pe_host_envelope_bytes a,
                   pe_device_envelope_bytes a)
                  = (pe_host_peak_bytes b, pe_device_peak_bytes b, pe_host_envelope_bytes b,
                     pe_device_envelope_bytes b))
  && (pe_host_budget a == pe_host_budget b) && option_eqb (pe_device_budget a) (pe_device_budget b)
  && bool_decide ((pe_status a, pe_reasons a) = (pe_status b, pe_reasons b)).

Definition PhysicalEnvelope_fields (e : PhysicalEnvelope) : bool :=
  Label (pe_worker_id e) && NonNegativeInt (pe_cycle e)
  && forallb (opt_ok NonNegativeInt) [pe_host_peak_bytes e; pe_device_peak_bytes e;
       pe_host_envelope_bytes e; pe_device_envelope_bytes e]
  && PhysicalBudget_fields (pe_host_budget e) && opt_ok PhysicalBudget_fields (pe_device_budget e).

Definition PhysicalEnvelope_dump (e : PhysicalEnvelope) : json :=
  JObj ([("worker_id", JStr (pe_worker_id e)); ("cycle", JInt (pe_cycle e));
         ("policy", JStr (fit_policy_value (pe_policy e)))]
        ++ mlx_policy_field (pe_requested_mlx_policy e)
        ++ [("policy_notes", json_strs (pe_policy_notes e));
            ("host_peak_bytes", json_opt JInt (pe_host_peak_bytes e));
            ("device_peak_bytes", json_opt JInt (pe_device_peak_bytes e));
            ("host_envelope_bytes", json_opt JInt (pe_host_envelope_bytes e));
            ("device_envelope_bytes", json_opt JInt (pe_device_envelope_bytes e));
            ("host_budget", PhysicalBudget_dump (pe_host_budget e));
            ("device_budget", json_opt PhysicalBudget_dump (pe_device_budget e));
            ("status", JStr (fit_status_value (pe_status e))); ("reasons", json_strs (pe_reasons e))]).

Inductive GuardStatus := GUARD_NORMAL | GUARD_STOPPED | GUARD_UNAVAILABLE.

#[export] Instance guard_status_eq_dec : EqDecision GuardStatus.
Proof. solve_decision. Defined.
#[export] Instance pyeq_guard_status : PyEq GuardStatus := pyeq_of_dec.
#[export] Instance pyeq_guard_status_laws : PyEqLaws GuardStatus := pyeq_of_dec_laws.

Definition guard_value (g : GuardStatus) : string :=
  match g with GUARD_NORMAL => "normal" | GUARD_STOPPED => "stopped" | GUARD_UNAVAILABLE => "unavailable" end.

Record GuardOutcome := {
  go_worker_id : string;
  go_record_sha256 : option string;
  go_process_id : option Z;
  go_started_unix_time : option float;
  go_last_observed_unix_time : option float;
  go_exited_unix_time : option float;
  go_observations : Z;
  go_exit_reason : option string;
  go_returncode : option Z;
  go_detail : string;
  go_outcome : GuardStatus;
  go_reasons : list string
}.

Definition GuardOutcome_fields (g : GuardOutcome) : bool :=
  Label (go_worker_id g) && opt_ok is_digest (go_record_sha256 g) && opt_ok PositiveInt (go_process_id g)
  && forallb (opt_ok NonNegFloat)
       [go_started_unix_time g; go_last_observed_unix_time g; go_exited_unix_time g]
  && NonNegativeInt (go_observations g).

Definition GuardOutcome_dump (g : GuardOutcome) : json :=
  JObj [("worker_id", JStr (go_worker_id g)); ("record_sha256", json_opt JStr (go_record_sha256 g));
        ("process_id", json_opt JInt (go_process_id g));
        ("started_unix_time", json_opt JFloat (go_started_unix_time g));
        ("last_observed_unix_time", json_opt JFloat (go_last_observed_unix_time g));
        ("exited_unix_time", json_opt JFloat (go_exited_unix_time g));
        ("observations", JInt (go_observations g)); ("exit_reason", json_opt JStr (go_exit_reason g));
        ("returncode", json_opt JInt (go_returncode g)); ("detail", JStr (go_detail g));
        ("outcome", JStr (guard_value (go_outcome g))); ("reasons", json_strs (go_reasons g))].

Record CleanupEvidence := { ce_worker_id : string; ce_verified : bool; ce_detail : string }.

Definition CleanupEvidence_dump (c : CleanupEvidence) : json :=
  JObj [("worker_id", JStr (ce_worker_id c)); ("verified", JBool (ce_verified c));
        ("detail", JStr (ce_detail c))].

Inductive Status := ST_ACCEPTED | ST_FAILED | ST_UNKNOWN.

#[export] Instance status_eq_dec : EqDecision Status.
Proof. solve_decision. Defined.
#[export] Instance pyeq_status : PyEq Status := pyeq_of_dec.
#[export] Instance pyeq_status_laws : PyEqLaws Status := pyeq_of_dec_laws.

Definition acceptance_value (s : Status) : string :=
  match s with ST_ACCEPTED => "accepted" | ST_FAILED => "failed" | ST_UNKNOWN => "unknown" end.

Record Results := {
  rs_finished_at : AwareDatetime;
  rs_rounds : list Round;
  rs_comparisons : list TokenComparison;
  rs_overlap : list OverlapInterval;
  rs_logical_peaks : WorkerPeak * WorkerPeak;
  rs_physical : list PhysicalEnvelope;
  rs_guards : GuardOutcome * GuardOutcome;
  rs_cleanup : CleanupEvidence * CleanupEvidence;
  rs_failure_reason : option string;
  rs_acceptance : Status;
  rs_acceptance_reasons : list string
}.

Definition Results_fields (r : Results) : bool :=
  forallb Round_fields (rs_rounds r) && forallb TokenComparison_fields (rs_comparisons r)
  && forallb OverlapInterval_fields (rs_overlap r) && forallb WorkerPeak_fields (both (rs_logical_peaks r))
  && forallb PhysicalEnvelope_fields (rs_physical r) && forallb GuardOutcome_fields (both (rs_guards r))
  && forallb (fun c => Label (ce_worker_id c)) (both (rs_cleanup r)).

Definition Results_dump (r : Results) : json :=
  JObj [("finished_at", JStr (dt_text (rs_finished_at r))); ("rounds", JArr (Round_dump <$> rs_rounds r));
        ("comparisons", JArr (TokenComparison_dump <$> rs_comparisons r));
        ("overlap", JArr (OverlapInterval_dump <$> rs_overlap r));
        ("logical_peaks", JArr (WorkerPeak_dump <$> both (rs_logical_peaks r)));
        ("physical", JArr (PhysicalEnvelope_dump <$> rs_physical r));
        ("guards", JArr (GuardOutcome_dump <$> both (rs_guards r)));
        ("cleanup", JArr (CleanupEvidence_dump <$> both (rs_cleanup r)));
        ("failure_reason", json_opt JStr (rs_failure_reason r));
        ("acceptance", JStr (acceptance_value (rs_acceptance r)));
        ("acceptance_reasons", json_strs (rs_acceptance_reasons r))].

Record ConcurrentServingEvidence := {
  cs_evidence_digest : string;
  cs_identity : Identity;
  cs_workload : PairWorkload;
  cs_configuration : Configuration;
  cs_preconditions : Preconditions;
  cs_observations : Observations;
  cs_results : Results
}.

(** [model_dump(mode="json", exclude={"evidence_digest"})] *)
Definition content_dump (identity : Identity) (workload : PairWorkload) (configuration : Configuration)
    (preconditions : Preconditions) (observations : Observations) (results : Results) : json :=
  JObj [("schema_version", JStr "1.1"); ("identity", Identity_dump identity);
        ("workload", PairWorkload_dump workload); ("configuration", Configuration_dump configuration);
        ("preconditions", Preconditions_dump preconditions);
        ("observations", Observations_dump observations); ("results", Results_dump results)].

Definition Evidence_fields `{Hash} (e : ConcurrentServingEvidence) : bool :=
  is_digest (cs_evidence_digest e) && Identity_fields (cs_identity e) && PairWorkload_fields (cs_workload e)
  && Configuration_fields (cs_configuration e) && Preconditions_fields (cs_preconditions e)
  && Observations_fields (cs_observations e) && Results_fields (cs_results e).
