(* ===== verification/Evidence.v ===== *)
(** * What concurrent records show (src/python/hllm_control/qualification/concurrent.py)

    The derivations over a record of concurrent serving: overlap intervals, logical
    peaks, physical envelopes, guard outcomes and the acceptance, the validator that
    derives them again on every load, and the assembly of a record. *)

From Stdlib Require Import SpecFloat.
From stdpp Require Import strings.
From S2P Require Export Concurrent.

(** ** Requests that held their reservations together *)

Definition total_amount (m : MemoryAmounts) : Z := py_sum ((fun '(_, get) => get m) <$> amount_fields).

Definition _allocated (snapshot : WorkerSnapshot) (identifier : string) : option RequestReservation :=
  List.find (fun r => (rr_request_id r == identifier) && negb (rr_allocating r)
                      && (0 <? total_amount (rr_cache r))%Z) (ws_requests snapshot).

(** [{event.sequence: event}.values()]: a later copy replaces an earlier one. *)
Definition worker_events (w : WorkerObservations) : list LifecycleEvent :=
  snd <$> foldl (fun d e => assoc_set (le_sequence e) e d) [] (s ← wo_snapshots w; ws_events s).

Definition admissions (pair : string * string) (events : list LifecycleEvent) : list LifecycleEvent :=
  snd <$> foldl (fun d e => assoc_set (le_request_id e) e d) []
    (List.filter (fun e => (le_kind e == EV_ADMITTED) && py_in (le_request_id e) (both pair)) events).

Definition joint_snapshots (pair : string * string) (w : WorkerObservations) : list WorkerSnapshot :=
  List.filter (fun s => ws_request_observations_available s
                        && forallb (fun i => opt_truthy (_allocated s i)) (both pair)) (wo_snapshots w).

(** [s.observed_at_monotonic_ns or 0] *)
Definition observed_ns (s : WorkerSnapshot) : Z := default 0%Z (ws_observed_at_monotonic_ns s).

(** Where the interval starts: its time, the admission it starts at, and how it is known. *)
Definition overlap_start (pair : string * string) (events : list LifecycleEvent)
    (joint : list WorkerSnapshot) : option (Z * option Z * string) :=
  match admissions pair events, joint with
  | [a; b], _ =>
    let later := if (le_sequence a <? le_sequence b)%Z then b else a in
    let listed := existsb (fun e => existsb (fun o => py_in o (le_concurrent_request_ids e)) (both pair)) [a; b] in
    Some (le_at_monotonic_ns later, Some (le_sequence later),
          if listed then "later admission listed the earlier reservation as allocated"
          else "admissions listed no allocated peer (reserved together)")
  | _, first :: _ =>
    (fun start => (start, None, "admission events absent from the bounded log; start from snapshot rows"))
    <$> py_max (rr_admitted_at_monotonic_ns <$> omap (_allocated first) (both pair))
  | _, [] => None
  end.

Definition sequence_lt (a b : LifecycleEvent) : bool := (le_sequence a <? le_sequence b)%Z.

Definition retirements (pair : string * string) (start : Z) (sequence : option Z)
    (events : list LifecycleEvent) : list LifecycleEvent :=
  py_sorted sequence_lt
    (List.filter (fun e => (le_kind e == EV_RETIRED) && py_in (le_request_id e) (both pair)
       && (start <=? le_at_monotonic_ns e)%Z && opt_ok (fun n => n <? le_sequence e)%Z sequence
       && (le_reason e != "allocation-failed")) events).

(** A retirement that lists the other member as an allocated reservation. *)
Definition lists_other (pair : string * string) (e : LifecycleEvent) : bool :=
  existsb (fun o => (o != le_request_id e) && py_in o (le_concurrent_request_ids e)) (both pair).

Definition validate_overlap (o : OverlapInterval) : result OverlapInterval :=
  fields_ok (OverlapInterval_fields o) ;; Ok o.

(** The interval of one worker for one pair, when its own observations prove one. *)
Definition worker_overlap (pair : string * string) (w : WorkerObservations)
    : result (list OverlapInterval) :=
  let events := worker_events w in
  let joint := joint_snapshots pair w in
  match overlap_start pair events joint with
  | None => Ok []
  | Some (start, sequence, how) =>
    let joint := List.filter (fun s => (start <=? observed_ns s)%Z) joint in
    let retired := retirements pair start sequence events in
    let interval proof finish detail :=
      o ← validate_overlap {|
        oi_worker_id := wo_worker_id w; oi_request_ids := pair; oi_start_monotonic_ns := start;
        oi_end_monotonic_ns := Z.max finish start; oi_admission_sequence := sequence; oi_proof := proof;
        oi_detail := detail |};
      Ok [o] in
    match List.filter (lists_other pair) retired, joint with
    | witness :: _, _ =>
      interval RETIREMENT_EVENT (le_at_monotonic_ns witness)
        ("event " +:+ pretty (le_sequence witness) +:+ ": " +:+ le_request_id witness +:+ " retired; " +:+ how)
    | [], first :: _ =>
      interval JOINT_SNAPSHOT
        match retired with
        | e :: _ => le_at_monotonic_ns e
        | [] => default 0%Z (py_max (observed_ns <$> joint))
        end
        ("snapshot " +:+ ws_phase first +:+ "; " +:+ how)
    | [], [] => Ok []
    end
  end.

Definition round_pair (r : Round) : result (string * string) :=
  match rd_request_ids r with
  | a :: b :: _ => Ok (a, b)
  | _ => raise IndexError "tuple index out of range"
  end.

Definition round_overlap (o : Observations) (r : Round) : result (list OverlapInterval) :=
  if rd_kind r == ROUND_SERIAL then Ok []
  else
    pair ← round_pair r;
    intervals ← mapM (worker_overlap pair) (both (ob_workers o));
    Ok (concat intervals).

Definition derive_overlap (o : Observations) (rounds : list Round) : result (list OverlapInterval) :=
  intervals ← mapM (round_overlap o) rounds;
  Ok (concat intervals).

(** ** Logical peaks *)

Definition validate_peak (p : WorkerPeak) : result WorkerPeak :=
  fields_ok (WorkerPeak_fields p) ;; Ok p.

Definition worker_peak (w : WorkerObservations) (c : WorkerConfiguration) : result WorkerPeak :=
  weights ← max_amounts (ws_loaded_weights <$> wo_snapshots w);
  cache ← max_amounts (ws_reserved_cache <$> wo_snapshots w);
  workspace ← max_amounts (ws_reserved_workspace <$> wo_snapshots w);
  combined ← combined_amounts weights cache workspace;
  validate_peak {|
    wk_worker_id := wo_worker_id w; wk_weights := weights; wk_cache := cache; wk_workspace := workspace;
    wk_combined := combined; wk_admission_capacity := wc_admission_capacity c;
    wk_within_admission := amounts_fit combined (wc_admission_capacity c) |}.

Definition derive_logical_peaks (o : Observations) (c : Configuration) : result (WorkerPeak * WorkerPeak) :=
  first ← worker_peak (ob_workers o).1 (cf_workers c).1;
  second ← worker_peak (ob_workers o).2 (cf_workers c).2;
  Ok (first, second).

(** ** Physical envelopes *)

(** [_envelope], with what it appends to [unsafe] and to [unknown]. *)
Definition _envelope (peak : option Z) (budget : option PhysicalBudget) (name : string)
    : result (option Z * list string * list string) :=
  match peak, budget with
  | Some peak, Some b =>
    match pb_available_bytes b with
    | Some available =>
      margin ← int_mul peak (pb_safety_fraction b);
      rounded ← py_ceil margin;
      let needed := (peak + rounded + pb_extra_overhead_bytes b)%Z in
      Ok (Some needed,
          if (available <? needed + pb_headroom_bytes b)%Z
          then [name +:+ ": serving envelope plus headroom exceeds prelaunch availability"] else [], [])
    | None => Ok (None, [], [name +:+ ": physical peak/prelaunch availability unavailable"])
    end
  | _, _ => Ok (None, [], [name +:+ ": physical peak/prelaunch availability unavailable"])
  end.

Definition rss_values (rows : list WorkerSnapshot) : list Z :=
  s ← rows;
  match ws_process_memory s with
  | None => []
  | Some p => omap id [po_rss_bytes p; po_rss_lifetime_peak_bytes p]
  end.

Definition rss_missing (s : WorkerSnapshot) : bool :=
  match ws_process_memory s with None => true | Some p => po_rss_bytes p == None end.

Definition serving_allocator (rows : list WorkerSnapshot) : list Z :=
  (fun a => Z.max (al_peak_bytes a) (al_active_bytes a + al_cached_bytes a)) <$> omap ws_allocator rows.

(** A counter that is there and not zero. *)
Definition truthy_counter (v : option Z) : option Z :=
  match v with Some n => if n == 0%Z then None else Some n | None => None end.

(** The loop over the snapshots: the lifetime peaks when all are coherent. *)
Fixpoint serving_footprints (process : option Z) (previous_time previous_peak : Z)
    (rows : list WorkerSnapshot) : option (list Z) :=
  match rows with
  | [] => Some []
  | s :: rest =>
    p ← ws_process_memory s;
    footprint ← truthy_counter (po_physical_footprint_bytes p);
    peak ← truthy_counter (po_physical_footprint_lifetime_peak_bytes p);
    _ ← truthy_counter (po_rss_lifetime_peak_bytes p);
    if opt_ok (fun id => po_process_id p == id) process
       && negb (po_observed_at_unix_ns p <? previous_time)%Z
       && negb (peak <? Z.max previous_peak footprint)%Z
    then peaks ← serving_footprints (Some (po_process_id p)) (po_observed_at_unix_ns p) peak rest;
         Some (peak :: peaks)
    else None
  end.

Definition FOOTPRINT_NOTE : string :=
  "footprint policy requires coherent footprint, RSS and allocator telemetry in every serving snapshot; using conservative-v1".

(** The host peak, its policy and notes. *)
Definition serving_host_peak (backend : Backend) (rows : list WorkerSnapshot) (mlx_policy : MlxFitPolicy)
    : option Z * FitPolicy * list string :=
  let rss := rss_values rows in
  let allocator := serving_allocator rows in
  match backend with
  | CPU => (py_max rss, CPU_RSS, [])
  | CUDA => (py_max rss, CUDA_RSS_DEVICE, [])
  | MLX =>
    let conservative := (fun p => p + default 0 (py_max allocator))%Z <$> py_max rss in
    match mlx_policy with
    | CONSERVATIVE => (conservative, MLX_RSS_PLUS_ALLOCATOR, [])
    | FOOTPRINT =>
      match serving_footprints None 0 0 rows, allocator with
      | Some (f :: fs), _ :: _ => (py_max ((f :: fs) ++ rss ++ allocator), MLX_FOOTPRINT_MAX, [])
      | _, _ => (conservative, MLX_RSS_PLUS_ALLOCATOR, [FOOTPRINT_NOTE])
      end
    end
  end.

(** What is unknown before the envelopes, and the device peak. *)
Definition serving_unknowns (backend : Backend) (rows : list WorkerSnapshot) (device_peak : option Z)
    : list string * option Z :=
  let missing :=
    (if nil_b rows then ["no serving snapshots recorded for this cycle"] else [])
    ++ (if existsb rss_missing rows then ["host: process RSS unavailable in some serving snapshots"] else []) in
  match backend with
  | CPU => (missing, None)
  | MLX =>
    (missing ++ (if existsb (fun s => negb (opt_truthy (ws_allocator s))) rows
                 then ["host/unified: allocator observations unavailable in some snapshots"] else []), None)
  | CUDA =>
    match device_peak, serving_allocator rows with
    | None, _ => (missing ++ ["device: CUDA physical process observations unavailable"], None)
    | Some _, [] => (missing ++ ["device: allocator observations unavailable"], None)
    | Some d, allocator => (missing, py_max (d :: allocator))
    end
  end.

Definition validate_envelope (e : PhysicalEnvelope) : result PhysicalEnvelope :=
  fields_ok (PhysicalEnvelope_fields e) ;; Ok e.

Definition status_of {A} (unsafe unknown : list A) : FitStatus :=
  match unsafe, unknown with _ :: _, _ => UNSAFE | [], _ :: _ => FIT_UNKNOWN | [], [] => SAFE end.

Definition assess_serving_envelope (worker_id : string) (backend : Backend) (rows : list WorkerSnapshot)
    (cycle : Z) (host : PhysicalBudget) (device : option PhysicalBudget) (mlx_policy : MlxFitPolicy)
    (device_process_peak_bytes : option Z) : result PhysicalEnvelope :=
  let '(unknown, device_peak) := serving_unknowns backend rows device_process_peak_bytes in
  let '(host_peak, policy, notes) := serving_host_peak backend rows mlx_policy in
  '(host_envelope, unsafe_host, unknown_host) ← _envelope host_peak (Some host) "host/unified";
  '(device_envelope, unsafe_device, unknown_device) ←
    (match backend with CUDA => _envelope device_peak device "device" | _ => Ok (None, [], []) end);
  let unsafe := unsafe_host ++ unsafe_device in
  let unknown := unknown ++ unknown_host ++ unknown_device in
  validate_envelope {|
    pe_worker_id := worker_id; pe_cycle := cycle; pe_policy := policy;
    pe_requested_mlx_policy := if backend == MLX then Some mlx_policy else None;
    pe_policy_notes := notes; pe_host_peak_bytes := host_peak; pe_device_peak_bytes := device_peak;
    pe_host_envelope_bytes := host_envelope; pe_device_envelope_bytes := device_envelope;
    pe_host_budget := host; pe_device_budget := if backend == CUDA then device else None;
    pe_status := status_of unsafe unknown; pe_reasons := dict_fromkeys (unsafe ++ unknown) |}.

(** The device observations between a gate and the end of its window. *)
Definition window_samples (start finish : AwareDatetime) (samples : list DeviceSample) : result (list Z) :=
  inside ← filterM (fun d =>
      a ← timestamp (dt_instant start);
      if negb (fle a (ds_unix_time d)) then Ok false
      else b ← timestamp (dt_instant finish); Ok (fle (ds_unix_time d) b)) samples;
  Ok (omap ds_cuda_process_bytes (inside : list DeviceSample)).

Fixpoint gate_envelopes (identity : WorkerIdentity) (observed : WorkerObservations)
    (policy : MlxFitPolicy) (finished_at : AwareDatetime) (gates : list CycleGate)
    : result (list PhysicalEnvelope) :=
  match gates with
  | [] => Ok []
  | gate :: rest =>
    let window_end := match rest with next :: _ => cg_sampled_at next | [] => finished_at end in
    samples ← window_samples (cg_sampled_at gate) window_end (wo_device_samples observed);
    envelope ← assess_serving_envelope (wi_worker_id identity) (wi_backend identity)
      (List.filter (fun s => ws_cycle s == Some (cg_cycle gate)) (wo_snapshots observed))
      (cg_cycle gate) (cg_host_budget gate) (cg_device_budget gate) policy (py_max samples);
    envelopes ← gate_envelopes identity observed policy finished_at rest;
    Ok (envelope :: envelopes)
  end.

Definition cycle_lt (a b : CycleGate) : bool := (cg_cycle a <? cg_cycle b)%Z.

Definition worker_envelopes (c : Configuration) (p : Preconditions) (finished_at : AwareDatetime)
    (identity : WorkerIdentity) (observed : WorkerObservations) : result (list PhysicalEnvelope) :=
  gate_envelopes identity observed (cf_mlx_fit_policy c) finished_at
    (py_sorted cycle_lt (List.filter (fun g => cg_worker_id g == wi_worker_id identity) (pc_gates p))).

Definition derive_physical (i : Identity) (c : Configuration) (p : Preconditions) (o : Observations)
    (finished_at : AwareDatetime) : result (list PhysicalEnvelope) :=
  first ← worker_envelopes c p finished_at (id_workers i).1 (ob_workers o).1;
  second ← worker_envelopes c p finished_at (id_workers i).2 (ob_workers o).2;
  Ok (first ++ second).

(** ** Guards *)

(** [f"{x:.0f}"]: the nearest integer, ties to even. *)
Definition round_half_even (m : positive) (e : Z) : Z :=
  if (0 <=? e)%Z then (Zpos m * 2 ^ e)%Z
  else
    let d := (2 ^ (- e))%Z in
    let q := (Zpos m / d)%Z in
    match (2 * (Zpos m mod d) ?= d)%Z with
    | Lt => q
    | Gt => (q + 1)%Z
    | Eq => if Z.even q then q else (q + 1)%Z
    end.

Definition float_fixed0 (x : float) : string :=
  match x with
  | S754_zero s => if s then "-0" else "0"
  | S754_finite s m e => (if s then "-" else "") +:+ pretty (round_half_even m e)
  | S754_infinity s => if s then "-inf" else "inf"
  | S754_nan => "nan"
  end.

Definition str_optional (o : option Z) : string := match o with Some n => pretty n | None => "None" end.

Definition guard_exited (g : GuardOutcome) (finished : float) : list string :=
  match go_exited_unix_time g with
  | None => []
  | Some exited =>
    (if flt exited finished then ["guarded worker exited before the experiment finished"] else [])
    ++ match go_returncode g with
       | None => []
       | Some code => if code == 0%Z then [] else ["guarded worker exited with status " +:+ pretty code]
       end
  end.

Definition guard_lag (g : GuardOutcome) (finished : float) : list string :=
  match go_last_observed_unix_time g with
  | None => ["guard recorded no observations"]
  | Some last =>
    if flt last (fsub finished GUARD_STALENESS_SECONDS)
    then ["guard observations end " +:+ float_fixed0 (fsub finished last)
          +:+ " s before the experiment finished"]
    else []
  end.

Definition classify_guard (g : GuardOutcome) (worker_process_id : Z) (started_at finished_at : datetime)
    : result (GuardStatus * list string) :=
  match go_started_unix_time g with
  | None => Ok (GUARD_UNAVAILABLE, ["no guard start event"])
  | Some guard_started =>
    started ← timestamp started_at;
    finished ← timestamp finished_at;
    let unavailable :=
      (if bool_decide (go_process_id g = Some worker_process_id) then []
       else ["guard watched process " +:+ str_optional (go_process_id g) +:+ ", not worker process "
             +:+ pretty worker_process_id])
      ++ (if flt started guard_started then ["guard started after the experiment began"] else [])
      ++ guard_lag g finished in
    let stopped :=
      (if error_present (go_exit_reason g)
       then ["guard stopped the worker: " +:+ default "" (go_exit_reason g)] else [])
      ++ guard_exited g finished in
    Ok match stopped, unavailable with
       | _ :: _, _ => (GUARD_STOPPED, stopped ++ unavailable)
       | [], _ :: _ => (GUARD_UNAVAILABLE, unavailable)
       | [], [] => (GUARD_NORMAL, [])
       end
  end.

(** ** Acceptance *)

(** What the checks append to [failed] and to [unknown]. *)
Record Findings := { fn_failed : list string; fn_unknown : list string }.

Definition no_findings : Findings := {| fn_failed := []; fn_unknown := [] |}.
Definition fail_if (b : bool) (reason : string) : Findings :=
  {| fn_failed := if b then [reason] else []; fn_unknown := [] |}.
Definition unknown_if (b : bool) (reason : string) : Findings :=
  {| fn_failed := []; fn_unknown := if b then [reason] else [] |}.
Definition findings_app (a b : Findings) : Findings :=
  {| fn_failed := fn_failed a ++ fn_failed b; fn_unknown := fn_unknown a ++ fn_unknown b |}.
Definition findings_concat (l : list Findings) : Findings := foldr findings_app no_findings l.
Definition findings_map {A} (f : A -> Findings) (l : list A) : Findings := findings_concat (f <$> l).

Infix "+++" := findings_app (at level 60, right associativity).

Definition check_baseline (e : ConcurrentServingEvidence) : Findings :=
  let b := pc_baseline (cs_preconditions e) in
  let scope := if pw_execution_dtype (cs_workload e) == F32 then CPU_REHEARSAL else F16_RELOAD_QUALIFICATION in
  fail_if (negb (bs_completed b) || negb (bs_all_exact b))
    "baseline single-request report was incomplete or inexact"
  +++ fail_if (bs_scope b != scope)
        ("baseline scope " +:+ py_repr (scope_value (bs_scope b)) +:+ " does not match the workload precision")
  +++ fail_if (bs_plan_digest b != id_plan_digest (cs_identity e))
        "baseline report was produced for a different plan"
  +++ fail_if (bs_reference_sha256 b != id_reference_sha256 (cs_identity e))
        "baseline report was produced against a different reference"
  +++ fail_if (negb (bool_decide (bs_worker_binary_digests b =
                (fun w => (wi_worker_id w, wi_worker_binary_digest w)) <$> both (id_workers (cs_identity e)))))
        "baseline report was produced on different worker binaries".

Definition check_profile (e : ConcurrentServingEvidence) (p : ProfilePrecondition) : Findings :=
  let age := (dt_instant (pc_started_at (cs_preconditions e)) - dt_instant (pp_measured_at p))%Z in
  fail_if (negb ((0 <=? age) && (age <=? PROFILE_FRESHNESS))%Z)
    (pp_worker_id p +:+ ": single-request profile stale or future-dated").

Definition check_gate (g : CycleGate) : Findings :=
  fail_if (cg_status g != SAFE)
    (cg_worker_id g +:+ ": fit gate before cycle " +:+ pretty (cg_cycle g) +:+ " was "
     +:+ fit_status_value (cg_status g)).

Definition check_capability (c : WorkerConfiguration) : Findings :=
  unknown_if (negb (wc_request_observations c))
    (wc_worker_id c +:+ ": worker did not advertise request observations").

Definition gated (e : ConcurrentServingEvidence) (worker : string) (cycle : Z) : bool :=
  existsb (fun g => (cg_worker_id g == worker) && (cg_cycle g == cycle)) (pc_gates (cs_preconditions e)).

Fixpoint clock_backwards (clocks : list Z) : bool :=
  match clocks with
  | a :: (b :: _) as rest => (b <? a)%Z || clock_backwards rest
  | _ => false
  end.

Definition observed_processes (w : WorkerObservations) : list Z :=
  omap ws_process_id (wo_snapshots w) ++ (po_process_id <$> omap ws_process_memory (wo_snapshots w)).

Definition check_worker_observations (e : ConcurrentServingEvidence)
    (p : WorkerObservations * WorkerIdentity) : Findings :=
  let '(w, identity) := p in
  let id := wo_worker_id w in
  unknown_if (nil_b (wo_snapshots w)) (id +:+ ": no snapshots recorded")
  +++ unknown_if (negb (gated e id 0)) (id +:+ ": no fit gate recorded before the first cycle")
  +++ findings_map (fun cycle => unknown_if (negb (gated e id cycle))
        (id +:+ ": cycle " +:+ pretty cycle +:+ " has snapshots but no fit gate"))
        (py_sorted Z.ltb (dict_fromkeys (omap ws_cycle (wo_snapshots w))))
  +++ fail_if (existsb (fun n => n != wi_process_id identity) (observed_processes w))
        (id +:+ ": worker process differs from the initial identity")
  +++ fail_if (existsb (fun d => ds_process_id d != wi_process_id identity) (wo_device_samples w))
        (id +:+ ": device observations belong to another process")
  +++ unknown_if (existsb (fun s => negb (ws_request_observations_available s)) (wo_snapshots w))
        (id +:+ ": request observations missing from some snapshots")
  +++ fail_if (clock_backwards (omap (fun s => truthy_counter (ws_observed_at_monotonic_ns s)) (wo_snapshots w)))
        (id +:+ ": steady clock went backwards between snapshots").

Definition expected_roles (k : RoundKind) : list Role :=
  match k with
  | ROUND_SERIAL => [ROLE_SERIAL] | ROUND_PAIRED => [ROLE_PAIRED; ROLE_PAIRED]
  | ROUND_CANCEL => [ROLE_CANCEL_VICTIM; ROLE_CANCEL_SURVIVOR]
  end.

(** [by_request.get]: the last comparison of a request. *)
Definition by_request (cs : list TokenComparison) : list (string * TokenComparison) :=
  foldl (fun d c => assoc_set (tc_request_id c) c d) [] cs.

Definition check_comparison (sealed : list Z) (c : TokenComparison) : Findings :=
  let id := tc_request_id c in
  let n := length (tc_expected_ids c) in
  fail_if (error_present (tc_error c)) (id +:+ ": stream error: " +:+ default "" (tc_error c))
  +++ fail_if (negb (tc_exact c)) (id +:+ ": continuation differs from the reference")
  +++ (if tc_role c == ROLE_CANCEL_VICTIM then
         fail_if (Z.of_nat n <? REQUIRED_CANCEL_PREFIX)%Z
           (id +:+ ": cancelled before " +:+ pretty REQUIRED_CANCEL_PREFIX +:+ " tokens")
         +++ fail_if ((length sealed <=? n)%nat || (take n sealed != tc_expected_ids c))
               (id +:+ ": expected tokens are not a proper prefix of the sealed reference")
       else fail_if (tc_expected_ids c != sealed)
              (id +:+ ": expected tokens differ from the sealed reference")).

Definition retired_as (request reason : string) (e : LifecycleEvent) : bool :=
  (le_kind e == EV_RETIRED) && (le_request_id e == request) && (le_reason e == reason).

Definition check_cancellation (victim survivor : string) (w : WorkerObservations) : Findings :=
  let id := wo_worker_id w in
  let events := worker_events w in
  let cancelled := List.filter (retired_as victim "cancelled") events in
  let independent := List.filter (fun e => py_in survivor (le_concurrent_request_ids e)) cancelled in
  let completed := List.filter (fun e => retired_as survivor "completed" e
                     && existsb (fun c => le_sequence c <? le_sequence e)%Z cancelled) events in
  let other := py_sorted str_lt (dict_fromkeys (le_reason <$>
     List.filter (fun e => (le_kind e == EV_RETIRED) && (le_request_id e == victim)) events)) in
  (if nil_b cancelled then
     unknown_if true (id +:+ ": no cancelled retirement of " +:+ victim +:+ " observed"
       +:+ (if nil_b other then "" else " (it retired as " +:+ py_join ", " other +:+ ")"))
   else unknown_if (nil_b independent)
          (id +:+ ": independent retirement of " +:+ victim +:+ " while " +:+ survivor
           +:+ " held its reservation was not observed"))
  +++ unknown_if (nil_b completed)
        (id +:+ ": completed retirement of " +:+ survivor +:+ " after the cancellation was not observed").

Definition check_pair (e : ConcurrentServingEvidence) (r : Round) : Findings :=
  match rd_request_ids r with
  | a :: b :: _ =>
    findings_map (fun w =>
      unknown_if (negb (existsb (fun o => bool_decide ((oi_worker_id o, oi_request_ids o) = (w, (a, b))))
                          (rs_overlap (cs_results e))))
        (w +:+ ": overlap of " +:+ a +:+ " and " +:+ b +:+ " not observed"))
      (both (id_worker_order (cs_identity e)))
    +++ (if rd_kind r == ROUND_CANCEL
         then findings_map (check_cancellation a b) (both (ob_workers (cs_observations e)))
         else no_findings)
  | _ => no_findings
  end.

Definition round_name (r : Round) : string := "round " +:+ pretty (rd_cycle r) +:+ "/" +:+ pretty (rd_index r).

Definition check_round (e : ConcurrentServingEvidence) (r : Round) : Findings :=
  match mapM (fun id => assoc_get id (by_request (rs_comparisons (cs_results e)))) (rd_request_ids r) with
  | None => fail_if true (round_name r +:+ ": missing token comparison")
  | Some comparisons =>
    fail_if (negb (bool_decide (tc_role <$> comparisons = expected_roles (rd_kind r))))
      (round_name r +:+ ": comparison roles mismatch")
    +++ findings_map (fun '(request, c) => check_comparison (rw_expected_ids request) c)
          (zip (both (pw_requests (cs_workload e))) comparisons)
    +++ (if rd_kind r == ROUND_SERIAL then no_findings else check_pair e r)
  end.

Definition check_envelope (p : PhysicalEnvelope) : Findings :=
  let detail := pe_worker_id p +:+ " cycle " +:+ pretty (pe_cycle p) +:+ ": " +:+ py_join "; " (pe_reasons p) in
  fail_if (pe_status p == UNSAFE) detail +++ unknown_if (pe_status p == FIT_UNKNOWN) detail.

Definition check_guard (g : GuardOutcome) : Findings :=
  fail_if (go_outcome g == GUARD_STOPPED)
    (go_worker_id g +:+ ": resource guard: " +:+ py_join "; " (go_reasons g))
  +++ unknown_if (go_outcome g == GUARD_UNAVAILABLE)
        (go_worker_id g +:+ ": guard outcome unavailable: " +:+ py_join "; " (go_reasons g)).

Definition evidence_findings (e : ConcurrentServingEvidence) : Findings :=
  let r := cs_results e in
  fail_if (error_present (rs_failure_reason r)) ("run failed: " +:+ default "" (rs_failure_reason r))
  +++ check_baseline e
  +++ findings_map (check_profile e) (both (pc_profiles (cs_preconditions e)))
  +++ findings_map check_gate (pc_gates (cs_preconditions e))
  +++ findings_map check_capability (both (cf_workers (cs_configuration e)))
  +++ findings_map (check_worker_observations e)
        (zip (both (ob_workers (cs_observations e))) (both (id_workers (cs_identity e))))
  +++ fail_if (negb (length (by_request (rs_comparisons r)) =? length (rs_comparisons r))%nat)
        "duplicate request IDs in token comparisons"
  +++ findings_map (check_round e) (rs_rounds r)
  +++ unknown_if (negb (existsb (fun d => rd_kind d == ROUND_PAIRED) (rs_rounds r))) "no paired round recorded"
  +++ unknown_if (negb (existsb (fun d => rd_kind d == ROUND_CANCEL) (rs_rounds r)))
        "no cancellation round recorded"
  +++ findings_map (fun p => fail_if (negb (wk_within_admission p))
        (wk_worker_id p +:+ ": combined logical reservation exceeds the admission cap"))
        (both (rs_logical_peaks r))
  +++ findings_map check_envelope (rs_physical r)
  +++ findings_map check_guard (both (rs_guards r))
  +++ findings_map (fun c => fail_if (negb (ce_verified c))
        (ce_worker_id c +:+ ": cleanup not verified: " +:+ ce_detail c)) (both (rs_cleanup r)).

Definition assess_evidence (e : ConcurrentServingEvidence) : Status * list string :=
  let f := evidence_findings e in
  (match fn_failed f, fn_unknown f with
   | _ :: _, _ => ST_FAILED | [], _ :: _ => ST_UNKNOWN | [], [] => ST_ACCEPTED end,
   dict_fromkeys (fn_failed f ++ fn_unknown f)).

(** ** The validator *)

Definition in_stage_order (e : ConcurrentServingEvidence) : result unit :=
  let order := both (id_worker_order (cs_identity e)) in
  let check (name : string) (ids : list string) :=
    raise_if (ids != order) ValidationError (name +:+ " must list the workers in stage order") in
  check "configuration" (wc_worker_id <$> both (cf_workers (cs_configuration e))) ;;
  check "preconditions" (pp_worker_id <$> both (pc_profiles (cs_preconditions e))) ;;
  check "observations" (wo_worker_id <$> both (ob_workers (cs_observations e))) ;;
  check "logical peaks" (wk_worker_id <$> both (rs_logical_peaks (cs_results e))) ;;
  check "guards" (go_worker_id <$> both (rs_guards (cs_results e))) ;;
  check "cleanup" (ce_worker_id <$> both (rs_cleanup (cs_results e))).

Definition budget_allowed (c : Configuration) (headroom : Z) (budget : option PhysicalBudget) : bool :=
  match budget with
  | None => true
  | Some b => (pb_headroom_bytes b =? headroom)%Z
              && (pb_extra_overhead_bytes b =? cf_extra_overhead_bytes c)%Z
              && SFeqb (pb_safety_fraction b) (cf_safety_fraction c)
  end.

Definition gate_allowed (c : Configuration) (g : CycleGate) : bool :=
  budget_allowed c (cf_host_headroom_bytes c) (Some (cg_host_budget g))
  && budget_allowed c (cf_device_headroom_bytes c) (cg_device_budget g).

Definition check_allowances (c : Configuration) (g : CycleGate) : result unit :=
  raise_if (negb (gate_allowed c g)) ValidationError
    (cg_worker_id g +:+ ": cycle " +:+ pretty (cg_cycle g)
     +:+ " fit gate used allowances other than the recorded configuration").

Definition check_gates (e : ConcurrentServingEvidence) : result unit :=
  raise_if (existsb (fun g => negb (py_in (cg_worker_id g) (both (id_worker_order (cs_identity e)))))
              (pc_gates (cs_preconditions e))) ValidationError
    "fit gates must name the record's workers" ;;
  mapM (check_allowances (cs_configuration e)) (pc_gates (cs_preconditions e)) ;;
  Ok tt.

Definition check_guards (e : ConcurrentServingEvidence) : result unit :=
  let check (g : GuardOutcome) (w : WorkerIdentity) :=
    derived ← classify_guard g (wi_process_id w) (dt_instant (pc_started_at (cs_preconditions e)))
                (dt_instant (rs_finished_at (cs_results e)));
    raise_if (negb (bool_decide ((go_outcome g, go_reasons g) = derived))) ValidationError
      (go_worker_id g +:+ ": recorded guard outcome is not derived") in
  check (rs_guards (cs_results e)).1 (id_workers (cs_identity e)).1 ;;
  check (rs_guards (cs_results e)).2 (id_workers (cs_identity e)).2.

Section records.
Context `{Hash}.

Definition evidence_content (e : ConcurrentServingEvidence) : json :=
  content_dump (cs_identity e) (cs_workload e) (cs_configuration e) (cs_preconditions e)
    (cs_observations e) (cs_results e).

(** [bound] *)
Definition bound (e : ConcurrentServingEvidence) : result unit :=
  let r := cs_results e in
  in_stage_order e ;;
  check_gates e ;;
  raise_if (cs_evidence_digest e != digest (evidence_content e)) ValidationError "evidence digest mismatch" ;;
  overlap ← derive_overlap (cs_observations e) (rs_rounds r);
  raise_if (rs_overlap r != overlap) ValidationError
    "recorded overlap intervals are not what the observations show" ;;
  peaks ← derive_logical_peaks (cs_observations e) (cs_configuration e);
  raise_if (negb (bool_decide (rs_logical_peaks r = peaks))) ValidationError
    "recorded logical peaks are not what the observations show" ;;
  physical ← derive_physical (cs_identity e) (cs_configuration e) (cs_preconditions e)
               (cs_observations e) (rs_finished_at r);
  raise_if (rs_physical r != physical) ValidationError
    "recorded physical envelopes are not what the observations show" ;;
  check_guards e ;;
  raise_if (negb (bool_decide ((rs_acceptance r, rs_acceptance_reasons r) = assess_evidence e)))
    ValidationError ("recorded acceptance " +:+ py_repr (acceptance_value (rs_acceptance r))
                     +:+ " is not derived").

Definition validate_Evidence (e : ConcurrentServingEvidence) : result ConcurrentServingEvidence :=
  fields_ok (Evidence_fields e) ;;
  bound e ;;
  Ok e.

(** ** Assembly *)

(** [g.model_copy(update=...)] with the derived outcome. *)
Definition classified (started_at finished_at : datetime) (g : GuardOutcome) (w : WorkerIdentity)
    : result GuardOutcome :=
  '(outcome, reasons) ← classify_guard g (wi_process_id w) started_at finished_at;
  Ok {| go_worker_id := go_worker_id g; go_record_sha256 := go_record_sha256 g;
        go_process_id := go_process_id g; go_started_unix_time := go_started_unix_time g;
        go_last_observed_unix_time := go_last_observed_unix_time g;
        go_exited_unix_time := go_exited_unix_time g; go_observations := go_observations g;
        go_exit_reason := go_exit_reason g; go_returncode := go_returncode g; go_detail := go_detail g;
        go_outcome := outcome; go_reasons := reasons |}.

Definition with_acceptance (acceptance : Status * list string) (r : Results) : Results := {|
  rs_finished_at := rs_finished_at r; rs_rounds := rs_rounds r; rs_comparisons := rs_comparisons r;
  rs_overlap := rs_overlap r; rs_logical_peaks := rs_logical_peaks r; rs_physical := rs_physical r;
  rs_guards := rs_guards r; rs_cleanup := rs_cleanup r; rs_failure_reason := rs_failure_reason r;
  rs_acceptance := acceptance.1; rs_acceptance_reasons := acceptance.2 |}.

(** ["0" * 64] *)
Definition ZERO_DIGEST : string := "0000000000000000000000000000000000000000000000000000000000000000".

Definition validate_Results (r : Results) : result Results := fields_ok (Results_fields r) ;; Ok r.

Definition make_evidence (identity : Identity) (workload : PairWorkload) (configuration : Configuration)
    (preconditions : Preconditions) (observations : Observations) (rounds : list Round)
    (comparisons : list TokenComparison) (guards : GuardOutcome * GuardOutcome)
    (cleanup : CleanupEvidence * CleanupEvidence) (finished_at : AwareDatetime)
    (failure_reason : option string) : result ConcurrentServingEvidence :=
  let started := dt_instant (pc_started_at preconditions) in
  first ← classified started (dt_instant finished_at) guards.1 (id_workers identity).1;
  second ← classified started (dt_instant finished_at) guards.2 (id_workers identity).2;
  overlap ← derive_overlap observations rounds;
  peaks ← derive_logical_peaks observations configuration;
  physical ← derive_physical identity configuration preconditions observations finished_at;
  draft ← validate_Results {|
    rs_finished_at := finished_at; rs_rounds := rounds; rs_comparisons := comparisons;
    rs_overlap := overlap; rs_logical_peaks := peaks; rs_physical := physical;
    rs_guards := (first, second); rs_cleanup := cleanup; rs_failure_reason := failure_reason;
    rs_acceptance := ST_UNKNOWN; rs_acceptance_reasons := [] |};
  let record d r := {| cs_evidence_digest := d; cs_identity := identity; cs_workload := workload;
    cs_configuration := configuration; cs_preconditions := preconditions;
    cs_observations := observations; cs_results := r |} in
  let provisional := record ZERO_DIGEST draft in
  let results := with_acceptance (assess_evidence provisional) draft in
  validate_Evidence (record (digest (content_dump identity workload configuration preconditions
                                       observations results)) results).
End records.

(** ** What a clean record says *)

Definition clean (f : Findings) : Prop := fn_failed f = [] /\ fn_unknown f = [].

Lemma clean_app a b : clean (a +++ b) <-> clean a /\ clean b.
Proof.
  unfold clean. simpl. split.
  - intros [[? ?]%app_eq_nil [? ?]%app_eq_nil]. done.
  - intros [[-> ->] [-> ->]]. done.
Qed.

Lemma clean_fail b m : clean (fail_if b m) <-> b = false.
Proof. unfold clean. destruct b; simpl; naive_solver. Qed.

Lemma clean_unknown b m : clean (unknown_if b m) <-> b = false.
Proof. unfold clean. destruct b; simpl; naive_solver. Qed.

Lemma clean_map {A} (f : A -> Findings) l : clean (findings_map f l) <-> Forall (fun x => clean (f x)) l.
Proof.
  unfold findings_map. induction l as [|x l IH]; simpl; [by split|].
  by rewrite clean_app, IH, Forall_cons.
Qed.

Lemma clean_no_findings : clean no_findings <-> True.
Proof. by split. Qed.

#[export] Hint Rewrite clean_app clean_fail clean_unknown @clean_map clean_no_findings negb_false_iff
  negb_true_iff orb_false_iff andb_true_iff : clean.

Lemma assess_accepted e reasons : assess_evidence e = (ST_ACCEPTED, reasons) <->
  clean (evidence_findings e) /\ reasons = [].
Proof.
  unfold assess_evidence, clean. destruct (fn_failed _), (fn_unknown _); simpl; naive_solver.
Qed.

(** *** Sequenced events *)

Lemma assoc_set_elem `{PyEqLaws K} {V} (k : K) (v : V) d x :
  x ∈ assoc_set k v d -> x = (k, v) \/ x ∈ d.
Proof.
  induction d as [|[k' v'] d IH]; simpl; [rewrite list_elem_of_singleton; by left|].
  destruct (k == k') eqn:E; [apply pyeqb_eq in E as ->|]; rewrite !elem_of_cons; naive_solver.
Qed.

Lemma assoc_set_NoDup `{PyEqLaws K} {V} (k : K) (v : V) d : NoDup d.*1 -> NoDup (assoc_set k v d).*1.
Proof.
  induction d as [|[k' v'] d IH]; simpl; [intros; apply NoDup_singleton|].
  intros [Hin Hnd]%list.NoDup_cons. destruct (k == k') eqn:E; simpl; constructor; auto.
  intros [[k'' v''] [? [[= -> ->]|Hx]%assoc_set_elem]]%list_elem_of_fmap; simpl in *; subst.
  - by rewrite pyeqb_refl in E.
  - apply Hin, list_elem_of_fmap. by exists (k'', v'').
Qed.

(** [{key(e): e for e in l}]: its keys are those of its values, each once. *)
Lemma dict_of_spec `{PyEqLaws K} {V} (key : V -> K) l d :
  NoDup d.*1 -> Forall (fun '(k, v) => key v = k) d ->
  let d' := foldl (fun d e => assoc_set (key e) e d) d l in
  NoDup d'.*1 /\ Forall (fun '(k, v) => key v = k) d' /\ forall k v, (k, v) ∈ d' -> v ∈ l \/ (k, v) ∈ d.
Proof.
  revert d. induction l as [|e l IH]; intros d Hnd Hk; simpl; [naive_solver|].
  destruct (IH (assoc_set (key e) e d)) as (H1 & H2 & H3).
  - by apply assoc_set_NoDup.
  - apply Forall_forall. intros [k v] [[= -> ->]|Hx]%assoc_set_elem; [done|].
    rewrite Forall_forall in Hk. by apply (Hk (k, v)).
  - repeat split; [done..|]. intros k v [?|[[= -> ->]|?]%assoc_set_elem]%H3; rewrite ?elem_of_cons; auto.
Qed.

Lemma dict_values `{PyEqLaws K} {V} (key : V -> K) l :
  let values := snd <$> foldl (fun d e => assoc_set (key e) e d) [] l in
  NoDup (key <$> values) /\ forall x, x ∈ values -> x ∈ l.
Proof.
  destruct (dict_of_spec key l [] NoDup_nil_2 (Forall_nil_2 _)) as (H1 & H2 & H3). split.
  - replace (key <$> _) with (foldl (fun d e => assoc_set (key e) e d) [] l).*1; [done|].
    rewrite <- list_fmap_compose. apply list_fmap_ext. intros i [k v] Hi. simpl.
    rewrite Forall_lookup in H2. by rewrite (H2 i (k, v) Hi).
  - intros x [[k v] [-> Hx]]%list_elem_of_fmap. destruct (H3 k v Hx) as [?|[]%not_elem_of_nil]. done.
Qed.

(** An event the worker recorded in one of its snapshots. *)
Definition recorded (w : WorkerObservations) (e : LifecycleEvent) : Prop :=
  exists s, s ∈ wo_snapshots w /\ e ∈ ws_events s.

Lemma worker_events_recorded w e : e ∈ worker_events w -> recorded w e.
Proof.
  intros (s & He & Hs)%(proj2 (dict_values le_sequence _))%list_elem_of_bind. by exists s.
Qed.

(** *** Overlap *)

Definition admitted_event (w : WorkerObservations) (request : string) (e : LifecycleEvent) : Prop :=
  recorded w e /\ le_kind e = EV_ADMITTED /\ le_request_id e = request.

(** A row of a snapshot whose cache is allocated. *)
Definition held (s : WorkerSnapshot) (request : string) (r : RequestReservation) : Prop :=
  r ∈ ws_requests s /\ rr_request_id r = request /\ rr_allocating r = false
  /\ (0 < total_amount (rr_cache r))%Z.

(** Both members' admissions at [start], by the worker's events or by a snapshot's rows. *)
Inductive start_shown (w : WorkerObservations) (pair : string * string) (start : Z) : option Z -> Prop :=
  | start_admissions a b :
      (admitted_event w pair.1 a /\ admitted_event w pair.2 b
       \/ admitted_event w pair.2 a /\ admitted_event w pair.1 b) ->
      (le_sequence a <= le_sequence b)%Z -> start = le_at_monotonic_ns b ->
      start_shown w pair start (Some (le_sequence b))
  | start_rows s a b :
      s ∈ wo_snapshots w -> held s pair.1 a -> held s pair.2 b ->
      start = Z.max (rr_admitted_at_monotonic_ns a) (rr_admitted_at_monotonic_ns b) ->
      start_shown w pair start None.

(** What shows that both reservations were held after [start]. *)
Inductive held_together (w : WorkerObservations) (pair : string * string) (start : Z)
    (sequence : option Z) (finish : Z) : Proof_ -> Prop :=
  | together_retired e other :
      recorded w e -> le_kind e = EV_RETIRED -> le_reason e <> "allocation-failed" ->
      le_request_id e ∈ both pair -> other ∈ both pair -> other <> le_request_id e ->
      other ∈ le_concurrent_request_ids e -> (start <= le_at_monotonic_ns e)%Z ->
      opt_ok (fun n => n <? le_sequence e)%Z sequence = true -> finish = le_at_monotonic_ns e ->
      held_together w pair start sequence finish RETIREMENT_EVENT
  | together_seen s a b :
      s ∈ wo_snapshots w -> ws_request_observations_available s = true ->
      held s pair.1 a -> held s pair.2 b -> (start <= observed_ns s)%Z ->
      held_together w pair start sequence finish JOINT_SNAPSHOT.

Lemma allocated_held s i r : _allocated s i = Some r -> held s i r.
Proof. unfold _allocated, held. intros [Hin E]%find_some_elem. by bool_to_prop. Qed.

Lemma joint_held pair w s : s ∈ joint_snapshots pair w ->
  s ∈ wo_snapshots w /\ ws_request_observations_available s = true
  /\ exists a b, _allocated s pair.1 = Some a /\ _allocated s pair.2 = Some b.
Proof.
  intros [E Hin]%elem_of_filterb. simpl in E. unfold opt_truthy in E.
  destruct (_allocated s pair.1) as [a|], (_allocated s pair.2) as [b|]; simpl in E;
    rewrite ?andb_false_r, ?andb_true_r in E; [eauto 6|done..].
Qed.

Lemma admissions_two pair events a b : admissions pair events = [a; b] ->
  a ∈ events /\ b ∈ events /\ le_kind a = EV_ADMITTED /\ le_kind b = EV_ADMITTED
  /\ (le_request_id a = pair.1 /\ le_request_id b = pair.2
      \/ le_request_id a = pair.2 /\ le_request_id b = pair.1).
Proof.
  unfold admissions. intros E. set (l := List.filter _ events) in E.
  destruct (dict_values le_request_id l) as [Hnd Hin]. rewrite E in Hnd, Hin.
  assert (Ha : a ∈ l) by (apply Hin; set_solver). assert (Hb : b ∈ l) by (apply Hin; set_solver).
  apply elem_of_filterb in Ha as [Ka Ha], Hb as [Kb Hb]. bool_to_prop.
  simpl in Hnd. apply list.NoDup_cons in Hnd as [Hne _].
  assert (Hids : le_request_id a <> le_request_id b) by set_solver.
  assert (Hboth : forall x : string, x ∈ both pair -> x = pair.1 \/ x = pair.2)
    by (intros x; unfold both; rewrite !elem_of_cons, elem_of_nil; tauto).
  repeat split; try done. destruct (Hboth (le_request_id a)), (Hboth (le_request_id b)); try done; auto; congruence.
Qed.

Lemma overlap_start_shown pair w start sequence how :
  overlap_start pair (worker_events w) (joint_snapshots pair w) = Some (start, sequence, how) ->
  start_shown w pair start sequence.
Proof.
  unfold overlap_start. intros E.
  assert (Hrows : forall first rest, joint_snapshots pair w = first :: rest ->
    (fun start => (start, None, "admission events absent from the bounded log; start from snapshot rows"))
      <$> py_max (rr_admitted_at_monotonic_ns <$> omap (_allocated first) (both pair))
      = Some (start, sequence, how) -> start_shown w pair start sequence).
  { intros first rest Ej. destruct (joint_held pair w first) as (Hin & _ & a & b & Ea & Eb); [rewrite Ej; set_solver|].
    cbn [both omap list_omap]. rewrite Ea, Eb. simpl. intros [= <- <- <-].
    eapply start_rows; eauto using allocated_held. }
  destruct (admissions pair _) as [|a [|b [|]]] eqn:Ea;
    try (destruct (joint_snapshots pair w) eqn:Ej; [done|by eapply Hrows]).
  clear Hrows. apply admissions_two in Ea as (Ha & Hb & Ka & Kb & Hids). injection E as <- <- _.
  apply worker_events_recorded in Ha, Hb.
  destruct (_ <? _)%Z eqn:Es; bool_to_prop.
  - apply (start_admissions _ _ _ a b); [unfold admitted_event; tauto|lia|done].
  - apply (start_admissions _ _ _ b a); [unfold admitted_event; tauto|lia|done].
Qed.

(** [worker_overlap] returns no interval, or one with its evidence. *)
Definition backed (pair : string * string) (w : WorkerObservations) (o : OverlapInterval) : Prop :=
  oi_worker_id o = wo_worker_id w /\ oi_request_ids o = pair
  /\ (oi_start_monotonic_ns o <= oi_end_monotonic_ns o)%Z
  /\ start_shown w pair (oi_start_monotonic_ns o) (oi_admission_sequence o)
  /\ held_together w pair (oi_start_monotonic_ns o) (oi_admission_sequence o)
       (oi_end_monotonic_ns o) (oi_proof o).

Lemma retirements_spec pair start sequence w e :
  e ∈ retirements pair start sequence (worker_events w) ->
  recorded w e /\ le_kind e = EV_RETIRED /\ le_request_id e ∈ both pair
  /\ (start <= le_at_monotonic_ns e)%Z /\ opt_ok (fun n => n <? le_sequence e)%Z sequence = true
  /\ le_reason e <> "allocation-failed".
Proof.
  unfold retirements. rewrite elem_of_py_sorted. intros [E Hin%worker_events_recorded]%elem_of_filterb.
  by bool_to_prop.
Qed.

Lemma validate_overlap_ok o o' : validate_overlap o = Ok o' -> o' = o.
Proof. unfold validate_overlap. intros. by inv_ok. Qed.

Lemma worker_overlap_backed pair w l o :
  worker_overlap pair w = Ok l -> o ∈ l -> backed pair w o.
Proof.
  unfold worker_overlap. destruct (overlap_start _ _ _) as [[[start sequence] how]|] eqn:Es;
    [|intros [= <-] []%not_elem_of_nil].
  apply overlap_start_shown in Es. cbv zeta.
  set (joint := List.filter _ (joint_snapshots pair w)).
  destruct (List.filter (lists_other pair) _) as [|e rest] eqn:Er.
  - destruct joint as [|s rest] eqn:Ej; [intros [= <-] []%not_elem_of_nil|].
    intros E Ho. inv_ok. match goal with H : validate_overlap _ = Ok _ |- _ => apply validate_overlap_ok in H end.
    subst. apply list_elem_of_singleton in Ho as ->. repeat split; simpl; [lia|done|].
    assert (Hs : s ∈ joint) by (rewrite Ej; set_solver).
    apply elem_of_filterb in Hs as [Hle (Hin & Hav & a & b & Ha & Hb)%joint_held]. bool_to_prop.
    by eapply together_seen; eauto using allocated_held.
  - intros E Ho. inv_ok. match goal with H : validate_overlap _ = Ok _ |- _ => apply validate_overlap_ok in H end.
    subst. apply list_elem_of_singleton in Ho as ->. repeat split; simpl; [lia|done|].
    assert (He : e ∈ e :: rest) by set_solver. rewrite <- Er in He.
    apply elem_of_filterb in He as [Hl (? & ? & ? & ? & ? & ?)%retirements_spec].
    unfold lists_other in Hl. apply existsb_exists in Hl as (other & Hin%list_elem_of_In & Hl). bool_to_prop.
    rewrite Z.max_l by done. by apply (together_retired _ _ _ _ _ e other).
Qed.

Lemma derive_overlap_elem observations rounds intervals o :
  derive_overlap observations rounds = Ok intervals -> o ∈ intervals ->
  exists r w rest, r ∈ rounds /\ rd_kind r <> ROUND_SERIAL
    /\ rd_request_ids r = both (oi_request_ids o) ++ rest
    /\ w ∈ both (ob_workers observations) /\ backed (oi_request_ids o) w o.
Proof.
  unfold derive_overlap. intros E Ho. inv_ok.
  apply list_elem_of_In, in_concat in Ho as (l & Hl%list_elem_of_In & Ho%list_elem_of_In).
  apply mapM_ok in H. apply list_elem_of_lookup in Hl as [i Hi].
  destruct (Forall2_lookup_r _ _ _ _ _ H Hi) as (r & Hr & E). apply list_elem_of_lookup_2 in Hr.
  unfold round_overlap in E. destruct (rd_kind r == ROUND_SERIAL) eqn:Ek.
  { inv_ok. by apply not_elem_of_nil in Ho. }
  bool_to_prop. inv_ok. unfold round_pair in *.
  destruct (rd_request_ids r) as [|a [|b rest]] eqn:Eids; try done. inv_ok.
  apply list_elem_of_In, in_concat in Ho as (l' & Hl%list_elem_of_In & Ho%list_elem_of_In).
  apply mapM_ok in H1. apply list_elem_of_lookup in Hl as [j Hj].
  destruct (Forall2_lookup_r _ _ _ _ _ H1 Hj) as (w & Hw & E). apply list_elem_of_lookup_2 in Hw.
  pose proof (worker_overlap_backed _ _ _ _ E Ho) as Hb.
  assert (oi_request_ids o = (a, b)) as Ep by apply Hb. rewrite Ep. by exists r, w, rest.
Qed.

(** C20: every interval a record shows belongs to a round of two requests and to a worker,
    does not end before it starts, starts at the later of two admissions that worker
    itself recorded for the two members (as events, or in the rows of one snapshot), and is
    backed by that worker's own evidence that both reservations were held at one instant
    from then on: its retirement event for one member that lists the other and ends the
    interval, or a snapshot in which the caches of both members are allocated. *)
Theorem overlap_backed observations rounds intervals :
  derive_overlap observations rounds = Ok intervals ->
  Forall (fun o => exists r w rest, r ∈ rounds /\ rd_kind r <> ROUND_SERIAL
    /\ rd_request_ids r = both (oi_request_ids o) ++ rest
    /\ w ∈ both (ob_workers observations) /\ backed (oi_request_ids o) w o) intervals.
Proof. intros E. apply Forall_forall. intros o. by apply derive_overlap_elem. Qed.
