(* ===== verification/Acceptance.v ===== *)
(** * What an accepted record of concurrent serving guarantees
    (src/python/hllm_control/qualification/concurrent.py)

    The guarantee of [acceptance = "accepted"] stated over the record's own contents, the
    proof that the validator and the derivations of Evidence.v enforce it, and the
    assembly of records by [make_evidence]. *)

From Stdlib Require Import SpecFloat.
From stdpp Require Import strings.
From S2P Require Export Evidence.

(** ** The guarantee *)

(** The output of one request against the sealed reference. *)
Record reference_output (sealed : list Z) (c : TokenComparison) : Prop := {
  ro_no_error : error_present (tc_error c) = false;
  ro_exact : tc_exact c = true;
  ro_tokens : if decide (tc_role c = ROLE_CANCEL_VICTIM)
              then exists rest, sealed = tc_generated_ids c ++ rest /\ rest <> []
                   /\ (REQUIRED_CANCEL_PREFIX <= Z.of_nat (length (tc_generated_ids c)))%Z
              else tc_generated_ids c = sealed
}.

(** The comparisons of a round: one per request, in order, with the round's roles. *)
Definition round_compared (e : ConcurrentServingEvidence) (r : Round) (cs : list TokenComparison) : Prop :=
  Forall2 (fun id c => tc_request_id c = id /\ c ∈ rs_comparisons (cs_results e)) (rd_request_ids r) cs
  /\ tc_role <$> cs = expected_roles (rd_kind r)
  /\ Forall2 reference_output (take (length cs) (rw_expected_ids <$> both (pw_requests (cs_workload e)))) cs.

(** The victim was retired as cancelled while the survivor held its reservation, and the
    survivor completed after a cancelled retirement of the victim. *)
Definition independent_cancellation (victim survivor : string) (w : WorkerObservations) : Prop :=
  (exists v, recorded w v /\ retired_as victim "cancelled" v = true /\ survivor ∈ le_concurrent_request_ids v)
  /\ exists v s, recorded w v /\ retired_as victim "cancelled" v = true
       /\ recorded w s /\ retired_as survivor "completed" s = true /\ (le_sequence v < le_sequence s)%Z.

Record accepted_round (e : ConcurrentServingEvidence) (r : Round) : Prop := {
  ar_compared : exists cs, round_compared e r cs;
  ar_overlap : rd_kind r <> ROUND_SERIAL -> exists a b, rd_request_ids r = [a; b] /\
    forall id, id ∈ both (id_worker_order (cs_identity e)) ->
      exists w o, w ∈ both (ob_workers (cs_observations e)) /\ wo_worker_id w = id /\ backed (a, b) w o;
  ar_cancel : rd_kind r = ROUND_CANCEL -> exists a b, rd_request_ids r = [a; b] /\
    Forall (independent_cancellation a b) (both (ob_workers (cs_observations e)))
}.

Record accepted_baseline (e : ConcurrentServingEvidence) : Prop := {
  ab_passed : bs_completed (pc_baseline (cs_preconditions e)) = true
              /\ bs_all_exact (pc_baseline (cs_preconditions e)) = true;
  ab_scope : bs_scope (pc_baseline (cs_preconditions e)) =
    if decide (pw_execution_dtype (cs_workload e) = F32) then CPU_REHEARSAL else F16_RELOAD_QUALIFICATION;
  ab_plan : bs_plan_digest (pc_baseline (cs_preconditions e)) = id_plan_digest (cs_identity e);
  ab_reference : bs_reference_sha256 (pc_baseline (cs_preconditions e)) = id_reference_sha256 (cs_identity e);
  ab_binaries : bs_worker_binary_digests (pc_baseline (cs_preconditions e)) =
    (fun w => (wi_worker_id w, wi_worker_binary_digest w)) <$> both (id_workers (cs_identity e))
}.

(** What a worker showed of itself. *)
Record accepted_worker (e : ConcurrentServingEvidence) (w : WorkerObservations) (i : WorkerIdentity) : Prop := {
  aw_observed : wo_snapshots w <> []
    /\ Forall (fun s => ws_request_observations_available s = true) (wo_snapshots w);
  aw_gated : forall cycle, cycle = 0%Z \/ Some cycle ∈ ws_cycle <$> wo_snapshots w ->
    exists g, g ∈ pc_gates (cs_preconditions e) /\ cg_worker_id g = wo_worker_id w
              /\ cg_cycle g = cycle /\ cg_status g = SAFE;
  aw_process : Forall (fun n => n = wi_process_id i) (observed_processes w)
    /\ Forall (fun d => ds_process_id d = wi_process_id i) (wo_device_samples w)
}.

(** In every snapshot the reservations fit the admission capacity. *)
Definition within_capacity (w : WorkerObservations) (c : WorkerConfiguration) : Prop :=
  Forall (fun s => forall name get, (name, get) ∈ amount_fields ->
    (get (ws_loaded_weights s) + get (ws_reserved_cache s) + get (ws_reserved_workspace s)
     <= get (wc_admission_capacity c))%Z) (wo_snapshots w).

(** The serving envelope of a cycle and the headroom fit what was available before it. *)
Definition safe_envelope (p : PhysicalEnvelope) : Prop :=
  pe_status p = SAFE /\ exists n available, pe_host_envelope_bytes p = Some n
    /\ pb_available_bytes (pe_host_budget p) = Some available
    /\ (n + pb_headroom_bytes (pe_host_budget p) <= available)%Z.

(** The guard watched this worker's process, started no later than the run, watched it to
    its end and neither stopped it nor saw it exit early or abnormally. *)
Record protective_guard (g : GuardOutcome) (pid : Z) (started finished : datetime) : Prop := {
  pg_process : go_process_id g = Some pid;
  pg_started : exists t0 t, go_started_unix_time g = Some t0 /\ timestamp started = Ok t /\ flt t t0 = false;
  pg_watched : exists last t, go_last_observed_unix_time g = Some last /\ timestamp finished = Ok t
    /\ flt last (fsub t GUARD_STALENESS_SECONDS) = false;
  pg_quiet : error_present (go_exit_reason g) = false;
  pg_exit : forall x, go_exited_unix_time g = Some x ->
    (go_returncode g = None \/ go_returncode g = Some 0%Z)
    /\ exists t, timestamp finished = Ok t /\ flt x t = false
}.

Record accepted_record (e : ConcurrentServingEvidence) : Prop := {
  ac_completed : error_present (rs_failure_reason (cs_results e)) = false;
  ac_baseline : accepted_baseline e;
  ac_profiles : Forall (fun p =>
    (0 <= dt_instant (pc_started_at (cs_preconditions e)) - dt_instant (pp_measured_at p)
     <= PROFILE_FRESHNESS)%Z) (both (pc_profiles (cs_preconditions e)));
  ac_workers : Forall2 (accepted_worker e) (both (ob_workers (cs_observations e)))
                 (both (id_workers (cs_identity e)));
  ac_rounds : Forall (accepted_round e) (rs_rounds (cs_results e));
  ac_kinds : (exists r, r ∈ rs_rounds (cs_results e) /\ rd_kind r = ROUND_PAIRED)
             /\ exists r, r ∈ rs_rounds (cs_results e) /\ rd_kind r = ROUND_CANCEL;
  ac_capacity : Forall2 within_capacity (both (ob_workers (cs_observations e)))
                  (both (cf_workers (cs_configuration e)));
  ac_physical : Forall safe_envelope (rs_physical (cs_results e));
  ac_guards : Forall2 (fun g i => protective_guard g (wi_process_id i)
                  (dt_instant (pc_started_at (cs_preconditions e))) (dt_instant (rs_finished_at (cs_results e))))
                (both (rs_guards (cs_results e))) (both (id_workers (cs_identity e)));
  ac_cleanup : Forall (fun c => ce_verified c = true) (both (rs_cleanup (cs_results e)))
}.

(** ** The checks *)

Lemma clean_comparison sealed c : TokenComparison_fields c = true ->
  clean (check_comparison sealed c) -> reference_output sealed c.
Proof.
  unfold check_comparison. intros Hf Hc. autorewrite with clean in Hc. destruct Hc as (He & Hx & Hc).
  assert (Hg : tc_generated_ids c = tc_expected_ids c).
  { unfold TokenComparison_fields in Hf. bool_to_prop.
    apply is_ok_spec in H0 as [? Hh]. apply raise_if_ok in Hh. bool_to_prop. rewrite Hx in Hh.
    by apply (proj1 (pyeqb_eq _ _)). }
  split; [done..|]. rewrite Hg. destruct (tc_role c == ROLE_CANCEL_VICTIM) eqn:Er; bool_to_prop.
  - rewrite decide_True by done. autorewrite with clean in Hc. destruct Hc as (Hn & Hl & Ht).
    bool_to_prop. apply Nat.leb_gt in Hl. exists (drop (length (tc_expected_ids c)) sealed).
    split; [by rewrite <- Ht at 1; rewrite take_drop|]. split; [|done].
    intros E. apply (f_equal length) in E. rewrite length_drop in E. simpl in E. lia.
  - rewrite decide_False by done. autorewrite with clean in Hc. by bool_to_prop.
Qed.

Lemma clean_round_compared e r cs :
  mapM (fun id => assoc_get id (by_request (rs_comparisons (cs_results e)))) (rd_request_ids r) = Some cs ->
  Results_fields (cs_results e) = true ->
  tc_role <$> cs = expected_roles (rd_kind r) ->
  clean (findings_map (fun '(request, c) => check_comparison (rw_expected_ids request) c)
           (zip (both (pw_requests (cs_workload e))) cs)) ->
  round_compared e r cs.
Proof.
  intros Hm Hf Hroles Hc. unfold Results_fields in Hf. bool_to_prop.
  assert (Hin : Forall2 (fun id c => tc_request_id c = id /\ c ∈ rs_comparisons (cs_results e)) (rd_request_ids r) cs).
  { apply mapM_Some in Hm. eapply Forall2_impl; [exact Hm|]. intros id c Hg%assoc_get_elem.
    destruct (dict_of_spec tc_request_id (rs_comparisons (cs_results e)) [] NoDup_nil_2 (Forall_nil_2 _))
      as (_ & H2' & H3'). rewrite Forall_forall in H2'. split; [by apply (H2' (id, c))|].
    by destruct (H3' id c Hg) as [?|[]%not_elem_of_nil]. }
  split; [done|]. split; [done|]. apply clean_map in Hc.
  assert (Hcf : Forall (fun c => TokenComparison_fields c = true) cs).
  { apply Forall_forall. intros c [i Hi]%list_elem_of_lookup.
    destruct (Forall2_lookup_r _ _ _ _ _ Hin Hi) as (id & _ & _ & Hc').
    match goal with H : Forall (fun x => TokenComparison_fields x = true) _ |- _ =>
      rewrite Forall_forall in H; by apply H end. }
  destruct (pw_requests (cs_workload e)) as [r1 r2].
  destruct (rd_kind r); destruct cs as [|c1 [|c2 [|]]]; simpl in Hroles; try done; simpl in *;
    repeat match goal with H : Forall _ (_ :: _) |- _ => apply Forall_cons in H as [??] end;
    repeat match goal with |- Forall2 _ _ _ => constructor end; by apply clean_comparison.
Qed.

Lemma clean_cancellation a b w : clean (check_cancellation a b w) -> independent_cancellation a b w.
Proof.
  unfold check_cancellation. intros Hc. cbv zeta in Hc.
  set (cancelled := List.filter (retired_as a "cancelled") (worker_events w)) in *.
  assert (Hcan : forall v, v ∈ cancelled -> recorded w v /\ retired_as a "cancelled" v = true).
  { intros v [? ?%worker_events_recorded]%elem_of_filterb. done. }
  apply clean_app in Hc as [Hi Hs]. apply clean_unknown in Hs.
  destruct (nil_b cancelled) eqn:En; [by apply clean_unknown in Hi|]. apply clean_unknown in Hi.
  split.
  - destruct (List.filter _ cancelled) as [|v l] eqn:E in Hi; [done|].
    assert (Hv : v ∈ v :: l) by set_solver. rewrite <- E in Hv. apply elem_of_filterb in Hv as [Hin Hv].
    bool_to_prop. exists v. split; [by apply Hcan|]. split; [by apply Hcan|done].
  - destruct (List.filter _ (worker_events w)) as [|s l] eqn:E in Hs; [done|].
    assert (Hv : s ∈ s :: l) by set_solver. rewrite <- E in Hv. apply elem_of_filterb in Hv as [Hr Hv].
    apply andb_true_iff in Hr as [Hr (v & Hin%list_elem_of_In & Hlt)%existsb_exists]. bool_to_prop.
    destruct (Hcan v Hin). exists v, s. split_and!; try done. by apply worker_events_recorded.
Qed.

Lemma round_ids r : Round_fields r = true ->
  match rd_kind r with
  | ROUND_SERIAL => exists a, rd_request_ids r = [a]
  | _ => exists a b, rd_request_ids r = [a; b]
  end.
Proof.
  unfold Round_fields. intros Hf. bool_to_prop.
  match goal with H : is_ok _ = true |- _ => apply is_ok_spec in H as [? Ha] end.
  apply raise_if_ok in Ha. bool_to_prop.
  destruct (rd_kind r), (rd_request_ids r) as [|a [|b [|]]]; try done; eauto.
Qed.

Lemma clean_pair e a b : derive_overlap (cs_observations e) (rs_rounds (cs_results e)) = Ok (rs_overlap (cs_results e)) ->
  clean (findings_map (fun w =>
      unknown_if (negb (existsb (fun o => bool_decide ((oi_worker_id o, oi_request_ids o) = (w, (a, b))))
                          (rs_overlap (cs_results e))))
        (w +:+ ": overlap of " +:+ a +:+ " and " +:+ b +:+ " not observed"))
      (both (id_worker_order (cs_identity e)))) ->
  forall id, id ∈ both (id_worker_order (cs_identity e)) ->
    exists w o, w ∈ both (ob_workers (cs_observations e)) /\ wo_worker_id w = id /\ backed (a, b) w o.
Proof.
  intros Hd Hc id Hid. apply clean_map in Hc. rewrite Forall_forall in Hc. specialize (Hc _ Hid).
  apply clean_unknown, negb_false_iff, existsb_exists in Hc as (o & Ho%list_elem_of_In & E).
  apply bool_decide_eq_true in E. injection E as Hw Hp.
  destruct (derive_overlap_elem _ _ _ _ Hd Ho) as (_ & w & _ & _ & _ & _ & Hin & Hb).
  rewrite Hp in Hb. exists w, o. split_and!; [done| |done]. by destruct Hb as [<- _].
Qed.

Lemma clean_round e r :
  Results_fields (cs_results e) = true -> Round_fields r = true ->
  derive_overlap (cs_observations e) (rs_rounds (cs_results e)) = Ok (rs_overlap (cs_results e)) ->
  clean (check_round e r) -> accepted_round e r.
Proof.
  intros Hf Hr Hd Hc. unfold check_round in Hc.
  destruct (mapM _ (rd_request_ids r)) as [cs|] eqn:Em; [|by apply clean_fail in Hc].
  apply clean_app in Hc as [Hroles Hc]. apply clean_app in Hc as [Hcmp Hc].
  apply clean_fail, negb_false_iff, bool_decide_eq_true in Hroles.
  apply round_ids in Hr. unfold check_pair in Hc. split.
  - exists cs. by apply clean_round_compared.
  - intros Hk. destruct (rd_kind r); [done| |]; destruct Hr as (a & b & Hids); rewrite Hids in Hc;
      apply clean_app in Hc as [Hp _]; exists a, b; split; try done; by apply clean_pair.
  - intros Hk. rewrite Hk in Hr, Hc. destruct Hr as (a & b & Hids). rewrite Hids in Hc.
    apply clean_app in Hc as [_ Hp]. exists a, b. split; [done|]. cbn -[check_cancellation findings_map both] in Hp.
    apply clean_map in Hp. eapply Forall_impl; [exact Hp|]. apply clean_cancellation.
Qed.

Lemma clean_baseline e : clean (check_baseline e) -> accepted_baseline e.
Proof.
  unfold check_baseline. intros Hc. autorewrite with clean in Hc.
  destruct Hc as ((? & ?) & Hs & ? & ? & ?). split; [done| | | |by apply (proj1 (bool_decide_eq_true _))];
    bool_to_prop; try done.
  destruct (pw_execution_dtype (cs_workload e) == F32) eqn:E; bool_to_prop;
    [by rewrite decide_True|by rewrite decide_False].
Qed.

Lemma clean_worker e w i : Forall (fun g => clean (check_gate g)) (pc_gates (cs_preconditions e)) ->
  clean (check_worker_observations e (w, i)) -> accepted_worker e w i.
Proof.
  unfold check_worker_observations. intros Hg Hc. autorewrite with clean in Hc.
  destruct Hc as (Hn & H0 & Hcy & Hp & Hd & Ha & _).
  assert (Hgate : forall cycle, gated e (wo_worker_id w) cycle = true ->
    exists g, g ∈ pc_gates (cs_preconditions e) /\ cg_worker_id g = wo_worker_id w
              /\ cg_cycle g = cycle /\ cg_status g = SAFE).
  { intros cycle (g & Hin%list_elem_of_In & E)%existsb_exists. bool_to_prop. exists g.
    rewrite Forall_forall in Hg. specialize (Hg g Hin). apply clean_fail in Hg. by bool_to_prop. }
  split.
  - split; [by destruct (wo_snapshots w)|]. bool_to_prop. eapply Forall_impl; [exact Ha|].
    intros s Hs. by apply negb_false_iff.
  - intros cycle [->|Hin]; apply Hgate; [done|]. rewrite Forall_forall in Hcy.
    specialize (Hcy cycle). rewrite elem_of_py_sorted, elem_of_dict_fromkeys in Hcy.
    eapply negb_false_iff, clean_unknown, Hcy. apply list_elem_of_omap. apply list_elem_of_fmap in Hin as (s & Hs & Hin).
    by exists s.
  - bool_to_prop. split; eapply Forall_impl; [exact Hp| |exact Hd|]; intros x Hx; simpl in Hx; by bool_to_prop.
Qed.

(** ** Capacity *)

Lemma validate_MemoryAmounts_same m m' : validate_MemoryAmounts m = Ok m' -> m' = m.
Proof. unfold validate_MemoryAmounts. intros. by inv_ok. Qed.

Lemma max_amounts_from_upper values m0 m :
  max_amounts_from m0 values = Ok m -> forall name get, (name, get) ∈ amount_fields ->
    (get m0 <= get m)%Z /\ Forall (fun v => get v <= get m)%Z values.
Proof.
  revert m0. induction values as [|v values IH]; intros m0 E name get Hin; simpl in E; inv_ok.
  { split; [lia|constructor]. }
  apply validate_MemoryAmounts_same in H as ->. destruct (IH _ E name get Hin) as [Hle Hall].
  assert (Hmax : get (zip_amounts Z.max m0 v) = Z.max (get m0) (get v)).
  { clear -Hin. unfold amount_fields in Hin. rewrite !elem_of_cons, elem_of_nil in Hin.
    destruct Hin as [[= -> ->]|[[= -> ->]|[[= -> ->]|[[= -> ->]|[]]]]]; done. }
  rewrite Hmax in Hle. split; [lia|]. constructor; [lia|done].
Qed.

Lemma combined_sum a b c m : combined_amounts a b c = Ok m ->
  forall name get, (name, get) ∈ amount_fields -> get m = (get a + (get b + get c))%Z.
Proof.
  unfold combined_amounts, add_amounts. intros E name get Hin. inv_ok.
  apply validate_MemoryAmounts_same in E as ->. apply validate_MemoryAmounts_same in H as ->.
  unfold amount_fields in Hin. rewrite !elem_of_cons, elem_of_nil in Hin.
  destruct Hin as [[= -> ->]|[[= -> ->]|[[= -> ->]|[[= -> ->]|[]]]]]; done.
Qed.

Lemma worker_peak_capacity w c p :
  worker_peak w c = Ok p -> wk_within_admission p = true -> within_capacity w c.
Proof.
  unfold worker_peak. intros E Hw. inv_ok. unfold validate_peak in E. inv_ok. simpl in Hw.
  apply Forall_forall. intros s Hs name get Hin.
  unfold amounts_fit in Hw. bool_to_prop. rewrite Forall_forall in Hw. specialize (Hw (name, get) Hin). simpl in Hw.
  bool_to_prop. pose proof (combined_sum _ _ _ _ H2 _ _ Hin) as Hsum.
  unfold max_amounts in *.
  assert (Hup : forall (f : WorkerSnapshot -> MemoryAmounts) m,
    max_amounts_from no_memory (f <$> wo_snapshots w) = Ok m -> (get (f s) <= get m)%Z).
  { intros f m E. destruct (max_amounts_from_upper _ _ _ E _ _ Hin) as [_ Hall].
    rewrite Forall_forall in Hall. apply Hall, list_elem_of_fmap. by exists s. }
  pose proof (Hup _ _ H). pose proof (Hup _ _ H0). pose proof (Hup _ _ H1). lia.
Qed.

(** ** Envelopes and guards *)

Lemma envelope_clean peak budget name n unsafe unknown :
  _envelope peak budget name = Ok (n, unsafe, unknown) -> unsafe = [] -> unknown = [] ->
  exists b needed available, budget = Some b /\ n = Some needed /\ pb_available_bytes b = Some available
    /\ (needed + pb_headroom_bytes b <= available)%Z.
Proof.
  unfold _envelope. intros E Hu Hk.
  destruct peak, budget as [b|]; try (injection E as <- <- <-; done).
  destruct (pb_available_bytes b) as [a|] eqn:Ea; [|by injection E as <- <- <-].
  inv_ok. destruct (_ <? _)%Z eqn:El; [done|]. bool_to_prop. by eauto 10.
Qed.

Lemma serving_envelope_safe wid backend rows cycle host device policy peak p :
  assess_serving_envelope wid backend rows cycle host device policy peak = Ok p ->
  pe_status p = SAFE -> safe_envelope p.
Proof.
  unfold assess_serving_envelope. intros E Hs.
  destruct (serving_unknowns _ _ _) as [unknown device_peak].
  destruct (serving_host_peak _ _ _) as [[host_peak fit_policy] notes].
  inv_ok. destruct v as [[he uh] kh]. inv_ok. destruct v as [[de ud] kd].
  unfold validate_envelope in E. inv_ok. split; [done|]. simpl in *. unfold status_of in Hs.
  destruct (uh ++ ud) eqn:Eu; [|done]. apply app_eq_nil in Eu as [-> ->].
  destruct (unknown ++ kh ++ kd) eqn:Ek; [|done]. apply app_eq_nil in Ek as [-> Ek]. apply app_eq_nil in Ek as [-> ->].
  destruct (envelope_clean _ _ _ _ _ _ H eq_refl eq_refl) as (b & needed & a & [= <-] & -> & Ha & Hle). by eauto.
Qed.

Lemma derive_physical_elem i c p o finished l x : derive_physical i c p o finished = Ok l -> x ∈ l ->
  pe_status x = SAFE -> safe_envelope x.
Proof.
  unfold derive_physical, worker_envelopes. intros E Hx.
  assert (Hg : forall identity observed gates l, gate_envelopes identity observed (cf_mlx_fit_policy c) finished gates = Ok l ->
    x ∈ l -> pe_status x = SAFE -> safe_envelope x).
  { clear. intros identity observed gates. induction gates as [|g gates IH]; intros l E Hx; simpl in E; inv_ok.
    { by apply not_elem_of_nil in Hx. }
    apply elem_of_cons in Hx as [->|Hx]; [by eapply serving_envelope_safe|by eapply IH]. }
  inv_ok. apply elem_of_app in Hx as [Hx|Hx]; [by eapply (Hg _ _ _ v)|by eapply (Hg _ _ _ v0)].
Qed.

Lemma physical_eq_safe (a b : PhysicalEnvelope) : (a == b) = true -> safe_envelope b -> safe_envelope a.
Proof.
  unfold pyeqb, pyeq_physical. intros E. bool_to_prop.
  repeat match goal with H : bool_decide _ = true |- _ => apply bool_decide_eq_true in H; injection H as ? end.
  unfold pyeqb, pyeq_budget in H2. bool_to_prop. apply bool_decide_eq_true in H2.
  intros [Hs (n & av & Hn & Ha & Hle)]. split; [congruence|]. exists n, av. split_and!; congruence || lia.
Qed.

Lemma physical_list_safe (a b : list PhysicalEnvelope) : (a == b) = true ->
  Forall (fun x => pe_status x = SAFE -> safe_envelope x) b ->
  Forall (fun x => pe_status x = SAFE -> safe_envelope x) a.
Proof.
  revert b. induction a as [|x a IH]; intros [|y b] E Hb; try done.
  unfold pyeqb, pyeq_list in E. simpl in E. apply andb_true_iff in E as [Ex E].
  apply Forall_cons in Hb as [Hy Hb]. constructor; [|by apply (IH b)].
  intros Hs. apply (physical_eq_safe x y Ex), Hy. unfold pyeqb, pyeq_physical in Ex. bool_to_prop.
  match goal with H : bool_decide ((pe_status _, _) = _) = true |- _ => apply bool_decide_eq_true in H; injection H as H _ end.
  congruence.
Qed.

Lemma classify_guard_normal g pid started finished reasons :
  classify_guard g pid started finished = Ok (GUARD_NORMAL, reasons) -> protective_guard g pid started finished.
Proof.
  unfold classify_guard. destruct (go_started_unix_time g) as [t0|] eqn:E0; [|done]. intros E. inv_ok.
  set (unavailable := (if bool_decide _ then _ else _) ++ _) in E. set (stopped := (if error_present _ then _ else _) ++ _) in E.
  destruct stopped eqn:Es; [|done]. destruct unavailable eqn:Eu; [|done].
  apply app_eq_nil in Es as [Eq Ex]. apply app_eq_nil in Eu as [Ep Eu]. apply app_eq_nil in Eu as [Et El].
  split.
  - destruct (bool_decide _) eqn:Eb in Ep; [|done]. by apply bool_decide_eq_true in Eb.
  - destruct (flt v t0) eqn:Ef; [done|]. by exists t0, v.
  - unfold guard_lag in El. destruct (go_last_observed_unix_time g) as [last|]; [|done].
    destruct (flt last _) eqn:Ef; [done|]. by exists last, v0.
  - by destruct (error_present _).
  - intros x Hx. unfold guard_exited in Ex. rewrite Hx in Ex. apply app_eq_nil in Ex as [Ef Er].
    destruct (flt x v0) eqn:Ef'; [done|]. split; [|by exists v0].
    destruct (go_returncode g) as [n|]; [|by left]. destruct (n == 0)%Z eqn:En; [|done]. bool_to_prop. subst. by right.
Qed.

(** ** Accepted records *)

Section accepted.
Context `{Hash}.

(** What [bound] has derived again. *)
Record rederived (e : ConcurrentServingEvidence) : Prop := {
  rd_fields : Results_fields (cs_results e) = true;
  rd_overlap : derive_overlap (cs_observations e) (rs_rounds (cs_results e)) = Ok (rs_overlap (cs_results e));
  rd_peaks : derive_logical_peaks (cs_observations e) (cs_configuration e) = Ok (rs_logical_peaks (cs_results e));
  rd_physical : Forall (fun x => pe_status x = SAFE -> safe_envelope x) (rs_physical (cs_results e));
  rd_guards : check_guards e = Ok tt;
  rd_acceptance : (rs_acceptance (cs_results e), rs_acceptance_reasons (cs_results e)) = assess_evidence e
}.

Lemma validated_rederived e e' : validate_Evidence e = Ok e' -> e' = e /\ rederived e.
Proof.
  unfold validate_Evidence, bound. intros E. inv_ok. apply fields_ok_true in H0.
  unfold Evidence_fields in H0. bool_to_prop. split; [done|].
  match goal with H : check_guards _ = Ok ?u |- _ => destruct u end.
  repeat match goal with H : bool_decide _ = true |- _ => apply bool_decide_eq_true in H end.
  split; try done; [congruence|congruence|].
  match goal with H : (rs_physical _ == _) = true, H' : derive_physical _ _ _ _ _ = Ok _ |- _ =>
    eapply physical_list_safe; [exact H|]; apply Forall_forall; intros x Hx; by eapply derive_physical_elem end.
Qed.

Lemma clean_guards e : check_guards e = Ok tt ->
  Forall (fun g => go_outcome g = GUARD_NORMAL) (both (rs_guards (cs_results e))) ->
  Forall2 (fun g i => protective_guard g (wi_process_id i)
      (dt_instant (pc_started_at (cs_preconditions e))) (dt_instant (rs_finished_at (cs_results e))))
    (both (rs_guards (cs_results e))) (both (id_workers (cs_identity e))).
Proof.
  unfold check_guards. intros E Hn. inv_ok.
  repeat match goal with H : bool_decide _ = true |- _ => apply bool_decide_eq_true in H end.
  unfold both in *. apply Forall_cons in Hn as [N1 Hn]. apply Forall_cons in Hn as [N2 _].
  bool_to_prop. repeat match goal with H : bool_decide _ = true |- _ => apply bool_decide_eq_true in H end.
  rewrite <- H0, N1 in H2. rewrite <- E, N2 in H1.
  repeat match goal with |- Forall2 _ _ _ => constructor end; by eapply classify_guard_normal.
Qed.

Lemma clean_physical e : clean (findings_map check_envelope (rs_physical (cs_results e))) ->
  Forall (fun p => pe_status p = SAFE) (rs_physical (cs_results e)).
Proof.
  intros Hc%clean_map. eapply Forall_impl; [exact Hc|]. intros p Hp. unfold check_envelope in Hp.
  autorewrite with clean in Hp. destruct Hp. bool_to_prop. by destruct (pe_status p).
Qed.

Lemma clean_guard_outcomes e : clean (findings_map check_guard (both (rs_guards (cs_results e)))) ->
  Forall (fun g => go_outcome g = GUARD_NORMAL) (both (rs_guards (cs_results e))).
Proof.
  intros Hc%clean_map. eapply Forall_impl; [exact Hc|]. intros g Hp. unfold check_guard in Hp.
  autorewrite with clean in Hp. destruct Hp. bool_to_prop. by destruct (go_outcome g).
Qed.

Lemma clean_workers e : Forall (fun g => clean (check_gate g)) (pc_gates (cs_preconditions e)) ->
  clean (findings_map (check_worker_observations e)
           (zip (both (ob_workers (cs_observations e))) (both (id_workers (cs_identity e))))) ->
  Forall2 (accepted_worker e) (both (ob_workers (cs_observations e))) (both (id_workers (cs_identity e))).
Proof.
  intros Hg Hc%clean_map. unfold both in *. cbn [zip zip_with] in Hc.
  apply Forall_cons in Hc as [H1 Hc]. apply Forall_cons in Hc as [H2 _].
  repeat match goal with |- Forall2 _ _ _ => constructor end; by apply clean_worker.
Qed.

Lemma clean_capacity e :
  derive_logical_peaks (cs_observations e) (cs_configuration e) = Ok (rs_logical_peaks (cs_results e)) ->
  Forall (fun p => wk_within_admission p = true) (both (rs_logical_peaks (cs_results e))) ->
  Forall2 within_capacity (both (ob_workers (cs_observations e))) (both (cf_workers (cs_configuration e))).
Proof.
  unfold derive_logical_peaks. intros E Hw. inv_ok. rewrite <- E in Hw. unfold both in *.
  apply Forall_cons in Hw as [W1 Hw]. apply Forall_cons in Hw as [W2 _].
  repeat match goal with |- Forall2 _ _ _ => constructor end; by eapply worker_peak_capacity.
Qed.

Lemma kind_recorded k rounds : existsb (fun d => rd_kind d == k) rounds = true ->
  exists r, r ∈ rounds /\ rd_kind r = k.
Proof. intros (r & ? & ?)%existsb_exists. exists r. rewrite list_elem_of_In. by bool_to_prop. Qed.

End accepted.

(** ** Assembly *)

(** *** The derivations return *)

Lemma amounts_ok_iff m : amounts_ok m = true <->
  (0 <= ma_device m /\ 0 <= ma_unified m /\ 0 <= ma_pinned m <= ma_host m)%Z.
Proof.
  unfold amounts_ok. rewrite is_ok_spec. unfold validate_MemoryAmounts, fields_ok, pinned_is_host, MemoryAmounts_fields.
  simpl. unfold NonNegativeInt. split.
  - intros [? E]. inv_ok. unfold raise_if in *. bool_to_prop.
    repeat match goal with H : Forall _ (_ :: _) |- _ => apply Forall_cons in H as [? H] end. lia.
  - intros ?. exists m. rewrite !(proj2 (Z.leb_le _ _)) by lia. simpl. by rewrite (proj2 (Z.ltb_ge _ _)) by lia.
Qed.

Lemma amounts_valid m : amounts_ok m = true -> validate_MemoryAmounts m = Ok m.
Proof. intros [m' E]%is_ok_spec. by rewrite (validate_MemoryAmounts_same _ _ E) in E. Qed.

Lemma zip_amounts_valid (f : Z -> Z -> Z) a b :
  (forall x y, 0 <= x -> 0 <= y -> 0 <= f x y)%Z ->
  (forall x y x' y', x <= x' -> y <= y' -> f x y <= f x' y')%Z ->
  amounts_ok a = true -> amounts_ok b = true ->
  validate_MemoryAmounts (zip_amounts f a b) = Ok (zip_amounts f a b) /\ amounts_ok (zip_amounts f a b) = true.
Proof.
  intros Hn Hm Ha Hb. assert (amounts_ok (zip_amounts f a b) = true); [|by split; [apply amounts_valid|]].
  apply amounts_ok_iff in Ha, Hb. apply amounts_ok_iff. simpl.
  pose proof (Hm _ (ma_pinned b) _ (ma_host b) (proj2 (proj2 (proj2 Ha)))). split_and!; apply Hn || apply Hm; lia.
Qed.

Lemma add_amounts_total a b : amounts_ok a = true -> amounts_ok b = true ->
  exists m, add_amounts a b = Ok m /\ amounts_ok m = true.
Proof. intros. eexists. apply zip_amounts_valid; [lia..|done|done]. Qed.

Lemma max_amounts_from_total values m0 : amounts_ok m0 = true -> Forall (fun v => amounts_ok v = true) values ->
  exists m, max_amounts_from m0 values = Ok m /\ amounts_ok m = true.
Proof.
  revert m0. induction values as [|v values IH]; intros m0 H0 Hv; [by exists m0|].
  apply Forall_cons in Hv as [Hv Hvs]. simpl.
  destruct (zip_amounts_valid Z.max m0 v) as [-> Ho]; [lia..|done|done|]. simpl. by apply IH.
Qed.

Lemma combined_total a b c : amounts_ok a = true -> amounts_ok b = true -> amounts_ok c = true ->
  exists m, combined_amounts a b c = Ok m /\ amounts_ok m = true.
Proof.
  intros Ha Hb Hc. unfold combined_amounts. destruct (add_amounts_total b c Hb Hc) as (m & -> & Hm). simpl.
  by apply add_amounts_total.
Qed.

Lemma worker_peak_total w c : WorkerObservations_fields w = true -> WorkerConfiguration_fields c = true ->
  exists p, worker_peak w c = Ok p /\ wk_worker_id p = wo_worker_id w /\ WorkerPeak_fields p = true.
Proof.
  unfold WorkerObservations_fields, WorkerConfiguration_fields. intros Hw Hc. bool_to_prop.
  assert (Hs : forall f : WorkerSnapshot -> MemoryAmounts,
    (forall s, f s ∈ [ws_loaded_weights s; ws_reserved_cache s; ws_reserved_workspace s]) ->
    exists m, max_amounts (f <$> wo_snapshots w) = Ok m /\ amounts_ok m = true).
  { intros f Hf. apply max_amounts_from_total; [done|]. apply Forall_fmap.
    eapply Forall_impl; [eassumption|]. intros s Hs. simpl in Hs |- *. unfold WorkerSnapshot_fields in Hs.
    rewrite !andb_true_iff in Hs. destruct Hs as [[[[[[[[[_ Hs] _] _] _] _] _] _] _] _].
    apply forallb_Forall in Hs. rewrite Forall_forall in Hs. apply Hs, Hf. }
  unfold worker_peak.
  destruct (Hs ws_loaded_weights) as (a & -> & Ha); [set_solver|].
  destruct (Hs ws_reserved_cache) as (b & -> & Hb); [set_solver|].
  destruct (Hs ws_reserved_workspace) as (d & -> & Hd); [set_solver|].
  simpl. destruct (combined_total a b d Ha Hb Hd) as (m & Em & Hm). rewrite Em. simpl. unfold validate_peak.
  match goal with |- context [fields_ok (WorkerPeak_fields ?p)] => assert (Hp : WorkerPeak_fields p = true) end.
  { unfold WorkerPeak_fields, peak_arithmetic. simpl. rewrite Em. simpl. rewrite !pyeqb_refl. simpl.
    rewrite Ha, Hb, Hd, Hm. repeat match goal with H : _ = true |- _ => rewrite H end. done. }
  rewrite Hp. simpl. eauto.
Qed.

Lemma peaks_total o c : Observations_fields o = true -> Configuration_fields c = true ->
  exists p, derive_logical_peaks o c = Ok p /\ wk_worker_id <$> both p = wo_worker_id <$> both (ob_workers o)
            /\ forallb WorkerPeak_fields (both p) = true.
Proof.
  unfold Observations_fields, Configuration_fields, both. intros Ho Hc. simpl in *. bool_to_prop.
  unfold derive_logical_peaks.
  destruct (worker_peak_total (ob_workers o).1 (cf_workers c).1) as (p1 & -> & E1 & F1); [done..|]. simpl.
  destruct (worker_peak_total (ob_workers o).2 (cf_workers c).2) as (p2 & -> & E2 & F2); [done..|]. simpl.
  exists (p1, p2). simpl. by rewrite E1, E2, F1, F2.
Qed.

(** What the constraints of a worker's observations say of an event and of a row. *)
Lemma recorded_fields w e : WorkerObservations_fields w = true -> recorded w e ->
  (0 <= le_at_monotonic_ns e)%Z /\ (0 < le_sequence e)%Z.
Proof.
  unfold WorkerObservations_fields, recorded. intros Hw (s & Hs & He). bool_to_prop.
  rewrite Forall_forall in H1. specialize (H1 s Hs). unfold WorkerSnapshot_fields in H1. bool_to_prop.
  assert (LifecycleEvent_fields e = true) as He'.
  { match goal with H : Forall _ (ws_events s) |- _ => rewrite Forall_forall in H; by apply H end. }
  unfold LifecycleEvent_fields, PositiveInt, NonNegativeInt in He'.
  bool_to_prop. lia.
Qed.

Lemma held_fields w s id r : WorkerObservations_fields w = true -> s ∈ wo_snapshots w -> held s id r ->
  (0 <= rr_admitted_at_monotonic_ns r)%Z.
Proof.
  unfold WorkerObservations_fields. intros Hw Hs (Hr & _). bool_to_prop.
  rewrite Forall_forall in H1. specialize (H1 s Hs). unfold WorkerSnapshot_fields in H1. bool_to_prop.
  assert (RequestReservation_fields r = true) as Hr'.
  { match goal with H : Forall _ (ws_requests s) |- _ => rewrite Forall_forall in H; by apply H end. }
  unfold RequestReservation_fields, NonNegativeInt in Hr'.
  by bool_to_prop.
Qed.

Lemma start_fields w pair start sequence : WorkerObservations_fields w = true ->
  start_shown w pair start sequence -> (0 <= start)%Z /\ opt_ok PositiveInt sequence = true.
Proof.
  intros Hw [a b Hab Hle ->|s a b Hs Ha Hb ->].
  - assert (Hrec : recorded w b) by (unfold admitted_event in Hab; tauto).
    destruct (recorded_fields w b Hw Hrec). split; [done|]. by apply Z.ltb_lt.
  - pose proof (held_fields _ _ _ _ Hw Hs Ha). split; [lia|done].
Qed.

Lemma worker_overlap_total pair w : WorkerObservations_fields w = true -> Forall (fun i => Label i = true) (both pair) ->
  exists l, worker_overlap pair w = Ok l /\ forallb OverlapInterval_fields l = true.
Proof.
  intros Hw Hp. unfold worker_overlap. destruct (overlap_start _ _ _) as [[[start sequence] how]|] eqn:Es; [|by exists []].
  apply overlap_start_shown in Es. destruct (start_fields _ _ _ _ Hw Es) as [H0 Hseq]. cbv zeta.
  assert (Hl : Label (wo_worker_id w) = true) by (unfold WorkerObservations_fields in Hw; by bool_to_prop).
  assert (Hi : forall proof finish detail, Label detail = true ->
    exists l, (o ← validate_overlap {|
        oi_worker_id := wo_worker_id w; oi_request_ids := pair; oi_start_monotonic_ns := start;
        oi_end_monotonic_ns := Z.max finish start; oi_admission_sequence := sequence; oi_proof := proof;
        oi_detail := detail |}; Ok [o]) = Ok l /\ forallb OverlapInterval_fields l = true).
  { intros proof finish detail Hd. unfold validate_overlap.
    match goal with |- context [fields_ok (OverlapInterval_fields ?o)] => assert (Ho : OverlapInterval_fields o = true) end.
    { unfold OverlapInterval_fields. cbn [oi_worker_id oi_request_ids oi_start_monotonic_ns oi_end_monotonic_ns
        oi_admission_sequence oi_detail]. apply forallb_Forall in Hp.
      rewrite Hl, Hp, Hseq, Hd. unfold NonNegativeInt. by rewrite !(proj2 (Z.leb_le _ _)) by lia. }
    rewrite Ho. simpl. eexists. split; [done|]. simpl. by rewrite Ho. }
  destruct (List.filter (lists_other pair) _); [destruct (List.filter _ (joint_snapshots pair w)); [by exists []|]|]; by apply Hi.
Qed.

Lemma overlap_total o rounds : Observations_fields o = true -> forallb Round_fields rounds = true ->
  exists l, derive_overlap o rounds = Ok l /\ forallb OverlapInterval_fields l = true.
Proof.
  unfold Observations_fields, derive_overlap, both. intros Ho Hr. bool_to_prop.
  repeat match goal with H : Forall _ (_ :: _) |- _ => apply Forall_cons in H as [? H] end.
  induction Hr as [|r rounds Hr _ (l & IH & Hl)]; [by exists []|].
  assert (exists k, round_overlap o r = Ok k /\ forallb OverlapInterval_fields k = true) as (k & Hk & Fk).
  { unfold round_overlap. destruct (rd_kind r == ROUND_SERIAL) eqn:Ek; [by exists []|]. bool_to_prop.
    pose proof (round_ids r Hr) as Hids. unfold Round_fields in Hr. bool_to_prop.
    assert (exists a b, rd_request_ids r = [a; b]) as (a & b & E) by (destruct (rd_kind r); done).
    unfold round_pair. rewrite E in *. cbn [mbind result_bind both].
    unfold both. cbn [mapM fst snd].
    destruct (worker_overlap_total (a, b) (ob_workers o).1) as (l1 & -> & F1); [done..|]. simpl.
    destruct (worker_overlap_total (a, b) (ob_workers o).2) as (l2 & -> & F2); [done..|]. simpl.
    eexists. split; [done|]. rewrite app_nil_r, forallb_app. by rewrite F1, F2. }
  simpl. rewrite Hk. simpl. apply bind_ok in IH as (ls & E & [= <-]). rewrite E. simpl.
  eexists. split; [done|]. simpl. by rewrite forallb_app, Fk.
Qed.

(** *** Physical envelopes and guards *)

Lemma flt_self x y : flt x y = true -> SFeqb x x = true.
Proof.
  unfold flt, SFltb, SFeqb. destruct x as [s|s| |s m e]; try done; [by destruct s|].
  intros _. simpl. rewrite Z.compare_refl, Pos.compare_cont_refl. by destruct s.
Qed.

Lemma budget_self b : PhysicalBudget_fields b = true -> (b == b) = true.
Proof.
  unfold PhysicalBudget_fields, pyeqb, pyeq_budget. intros H. rewrite !andb_true_iff in H.
  rewrite bool_decide_eq_true_2, !Z.eqb_refl by done. simpl. exact (flt_self _ _ (proj2 H)).
Qed.

Lemma physical_self p : PhysicalEnvelope_fields p = true -> (p == p) = true.
Proof.
  unfold PhysicalEnvelope_fields, pyeqb, pyeq_physical. intros H. rewrite !andb_true_iff in H.
  destruct H as [[_ Hh] Hd]. rewrite !bool_decide_eq_true_2 by done.
  rewrite (budget_self (pe_host_budget p)) by done. simpl. rewrite andb_true_r.
  destruct (pe_device_budget p); [by apply budget_self|done].
Qed.

Lemma physical_list_self (l : list PhysicalEnvelope) : forallb PhysicalEnvelope_fields l = true -> (l == l) = true.
Proof.
  induction l as [|p l IH]; [done|]. simpl. intros [Hp Hl]%andb_true_iff.
  unfold pyeqb, pyeq_list. simpl. apply andb_true_iff. split; [by apply physical_self|by apply IH].
Qed.

Lemma derive_physical_fields i c p o finished l : derive_physical i c p o finished = Ok l ->
  forallb PhysicalEnvelope_fields l = true.
Proof.
  unfold derive_physical, worker_envelopes. intros E.
  assert (Hg : forall identity observed gates l, gate_envelopes identity observed (cf_mlx_fit_policy c) finished gates = Ok l ->
    forallb PhysicalEnvelope_fields l = true).
  { clear. intros identity observed gates. induction gates as [|g gates IH]; intros l E; simpl in E; inv_ok; [done|].
    simpl. rewrite (IH _ H1). unfold assess_serving_envelope in H0.
    destruct (serving_unknowns _ _ _), (serving_host_peak _ _ _) as [[??]?]. inv_ok.
    repeat match goal with p : _ * _ |- _ => destruct p end. inv_ok.
    repeat match goal with p : _ * _ |- _ => destruct p end. unfold validate_envelope in H0. inv_ok.
    match goal with H : fields_ok _ = Ok _ |- _ => apply fields_ok_true in H; by rewrite H end. }
  inv_ok. rewrite forallb_app. by rewrite (Hg _ _ _ _ H), (Hg _ _ _ _ H0).
Qed.

Lemma classified_spec started finished g w g' : classified started finished g w = Ok g' ->
  go_worker_id g' = go_worker_id g /\ GuardOutcome_fields g' = GuardOutcome_fields g
  /\ classify_guard g' (wi_process_id w) started finished = Ok (go_outcome g', go_reasons g').
Proof. unfold classified. intros E. inv_ok. destruct v as [outcome reasons]. by inv_ok. Qed.

(** *** The record *)

Section assembly.
Context `{HashLaws}.
Variables (identity : Identity) (workload : PairWorkload) (configuration : Configuration)
  (preconditions : Preconditions) (observations : Observations) (rounds : list Round)
  (comparisons : list TokenComparison) (guards : GuardOutcome * GuardOutcome)
  (cleanup : CleanupEvidence * CleanupEvidence) (finished_at : AwareDatetime)
  (failure_reason : option string).

(** Every part satisfies its model's constraints and lists the workers in stage order, the
    gates name them and use the recorded allowances. *)
Definition parts_valid : bool :=
  Identity_fields identity && PairWorkload_fields workload && Configuration_fields configuration
  && Preconditions_fields preconditions && Observations_fields observations
  && forallb Round_fields rounds && forallb TokenComparison_fields comparisons
  && forallb GuardOutcome_fields (both guards) && forallb (fun c => Label (ce_worker_id c)) (both cleanup)
  && forallb (fun ids => ids == both (id_worker_order identity))
       [wc_worker_id <$> both (cf_workers configuration); pp_worker_id <$> both (pc_profiles preconditions);
        wo_worker_id <$> both (ob_workers observations); go_worker_id <$> both guards;
        ce_worker_id <$> both cleanup]
  && forallb (fun g => py_in (cg_worker_id g) (both (id_worker_order identity)) && gate_allowed configuration g)
       (pc_gates preconditions).

Definition recorded_physical : result (list PhysicalEnvelope) :=
  derive_physical identity configuration preconditions observations finished_at.

Definition recorded_guards : result (GuardOutcome * GuardOutcome) :=
  let started := dt_instant (pc_started_at preconditions) in
  first ← classified started (dt_instant finished_at) guards.1 (id_workers identity).1;
  second ← classified started (dt_instant finished_at) guards.2 (id_workers identity).2;
  Ok (first, second).

Lemma raise_if_false b c m : b = false -> raise_if b c m = Ok tt.
Proof. by intros ->. Qed.

Lemma in_order_met e :
  Forall (fun ids => ids = both (id_worker_order (cs_identity e)))
    [wc_worker_id <$> both (cf_workers (cs_configuration e)); pp_worker_id <$> both (pc_profiles (cs_preconditions e));
     wo_worker_id <$> both (ob_workers (cs_observations e)); wk_worker_id <$> both (rs_logical_peaks (cs_results e));
     go_worker_id <$> both (rs_guards (cs_results e)); ce_worker_id <$> both (rs_cleanup (cs_results e))] ->
  in_stage_order e = Ok tt.
Proof.
  intros Hall. unfold in_stage_order.
  repeat match goal with H : Forall _ (_ :: _) |- _ => let E := fresh in apply Forall_cons in H as [E H]; rewrite E end.
  by rewrite pyeqb_refl.
Qed.

Lemma check_gates_met e :
  forallb (fun g => py_in (cg_worker_id g) (both (id_worker_order (cs_identity e)))
                    && gate_allowed (cs_configuration e) g) (pc_gates (cs_preconditions e)) = true ->
  check_gates e = Ok tt.
Proof.
  intros Hg%forallb_Forall. unfold check_gates.
  rewrite (proj2 (existsb_false_Forall _ _)).
  - simpl. destruct (mapM_total (check_allowances (cs_configuration e)) (pc_gates (cs_preconditions e))) as [k ->]; [|done].
    eapply Forall_impl; [exact Hg|]. intros g E. apply andb_true_iff in E as [_ E]. unfold check_allowances.
    rewrite E. by exists tt.
  - eapply Forall_impl; [exact Hg|]. intros g E. apply andb_true_iff in E as [E _]. by apply negb_false_iff.
Qed.

Lemma check_guards_met e :
  let classify g i := classify_guard g (wi_process_id i) (dt_instant (pc_started_at (cs_preconditions e)))
                        (dt_instant (rs_finished_at (cs_results e))) = Ok (go_outcome g, go_reasons g) in
  classify (rs_guards (cs_results e)).1 (id_workers (cs_identity e)).1 ->
  classify (rs_guards (cs_results e)).2 (id_workers (cs_identity e)).2 ->
  check_guards e = Ok tt.
Proof.
  intros classify E1 E2. unfold check_guards, classify in *. cbv zeta. rewrite E1, E2. cbn [mbind result_bind].
  by rewrite !bool_decide_eq_true_2.
Qed.

(** What [bound] checks, met. *)
Lemma bound_met e : in_stage_order e = Ok tt -> check_gates e = Ok tt ->
  cs_evidence_digest e = digest (evidence_content e) ->
  derive_overlap (cs_observations e) (rs_rounds (cs_results e)) = Ok (rs_overlap (cs_results e)) ->
  derive_logical_peaks (cs_observations e) (cs_configuration e) = Ok (rs_logical_peaks (cs_results e)) ->
  derive_physical (cs_identity e) (cs_configuration e) (cs_preconditions e) (cs_observations e)
    (rs_finished_at (cs_results e)) = Ok (rs_physical (cs_results e)) ->
  check_guards e = Ok tt ->
  (rs_acceptance (cs_results e), rs_acceptance_reasons (cs_results e)) = assess_evidence e ->
  bound e = Ok tt.
Proof.
  intros Ho Hg Hd Hov Hpk Hph Hgd Ha. unfold bound. rewrite Ho, Hg, <- Hd, pyeqb_refl. cbn [mbind result_bind negb raise_if].
  rewrite Hov. cbn [mbind result_bind]. rewrite pyeqb_refl. cbn [mbind result_bind negb raise_if].
  rewrite Hpk. cbn [mbind result_bind]. rewrite bool_decide_eq_true_2 by done. cbn [mbind result_bind negb raise_if].
  rewrite Hph. cbn [mbind result_bind]. rewrite physical_list_self by (by eapply derive_physical_fields).
  cbn [mbind result_bind negb raise_if]. rewrite Hgd. cbn [mbind result_bind].
  by rewrite bool_decide_eq_true_2.
Qed.

End assembly.

(** ** An accepted record *)

Module AcceptanceDemo.
Import ProfilesDemo FitDemo.

#[local] Existing Instance ProfilesDemo.demo_hash.
#[local] Existing Instance ProfilesDemo.demo_hash_laws.

Definition demo_time (seconds : Z) : AwareDatetime :=
  {| dt_instant := seconds * 1000000; dt_text := "t" +:+ pretty seconds |}.

Definition demo_worker (id : string) (index : Z) : WorkerIdentity := {|
  wi_worker_id := id; wi_stage_index := index; wi_backend := CPU; wi_environment := demo_environment;
  wi_worker_binary_digest := demo_digest; wi_endpoint := "localhost"; wi_transport_mode := PAGEABLE;
  wi_process_id := 7 |}.

Definition demo_identity : Identity := {|
  id_source_digest := "s"; id_manifest_digest := demo_digest; id_checkpoint_digest := demo_digest;
  id_plan_id := "p"; id_plan_digest := "d"; id_reference_sha256 := demo_digest; id_transport := "loopback";
  id_worker_order := ("alpha", "beta"); id_workers := (demo_worker "alpha" 0, demo_worker "beta" 1) |}.

Definition demo_request : RequestWorkload := {|
  rw_prompt_ids := [1]%Z; rw_expected_ids := [2; 3; 4; 5]%Z; rw_prompt_digest := demo_digest;
  rw_expected_digest := demo_digest; rw_reservation_tokens := 5 |}.

Definition demo_workload : PairWorkload := {|
  pw_requests := (demo_request, demo_request); pw_weight_dtype := None; pw_execution_dtype := F32;
  pw_kv_dtype := F32; pw_activation_dtype := F32; pw_timeout_seconds := one |}.

Definition host_amount (n : Z) : MemoryAmounts :=
  {| ma_host := n; ma_device := 0; ma_pinned := 0; ma_unified := 0 |}.

Definition demo_configuration_of (id : string) : WorkerConfiguration := {|
  wc_worker_id := id; wc_admission_capacity := host_amount 1000; wc_maximum_active_requests := 2;
  wc_maximum_cached_tokens := 0; wc_maximum_decode_batch := 2; wc_prefill_chunk_tokens := 0;
  wc_request_observations := true |}.

Definition demo_configuration : Configuration := {|
  cf_workers := (demo_configuration_of "alpha", demo_configuration_of "beta"); cf_queue_capacity := 0;
  cf_controller_limit := 2; cf_mlx_fit_policy := CONSERVATIVE; cf_safety_fraction := literal 1 10;
  cf_extra_overhead_bytes := 0; cf_host_headroom_bytes := 100; cf_device_headroom_bytes := 0 |}.

Definition demo_host_budget : PhysicalBudget := {|
  pb_available_bytes := Some 5000%Z; pb_headroom_bytes := 100; pb_extra_overhead_bytes := 0;
  pb_safety_fraction := literal 1 10 |}.

Definition demo_gate (id : string) : CycleGate := {|
  cg_worker_id := id; cg_cycle := 0; cg_sampled_at := demo_time 100; cg_status := SAFE; cg_reasons := [];
  cg_host_budget := demo_host_budget; cg_device_budget := None |}.

Definition demo_preconditions : Preconditions := {|
  pc_baseline_report_sha256 := demo_digest;
  pc_baseline := {| bs_scope := CPU_REHEARSAL; bs_completed := true; bs_plan_digest := "d";
    bs_reference_sha256 := demo_digest;
    bs_worker_binary_digests := [("alpha", demo_digest); ("beta", demo_digest)]; bs_cycles := 1;
    bs_requests := 1; bs_all_exact := true; bs_finished_unix_time := one |};
  pc_started_at := demo_time 90;
  pc_profiles := ({| pp_worker_id := "alpha"; pp_artifact_digest := demo_digest;
                     pp_measured_at := demo_time 80; pp_requested_mlx_policy := None |},
                  {| pp_worker_id := "beta"; pp_artifact_digest := demo_digest;
                     pp_measured_at := demo_time 80; pp_requested_mlx_policy := None |});
  pc_gates := [demo_gate "alpha"; demo_gate "beta"]; pc_guard := "guard" |}.

Definition demo_event (sequence : Z) (kind : EventKind) (request reason : string) (peers : list string)
    : LifecycleEvent := {|
  le_kind := kind; le_request_id := request; le_sequence := sequence; le_at_monotonic_ns := 10 * sequence;
  le_concurrent_request_ids := peers; le_reason := reason |}.

Definition demo_events : list LifecycleEvent := [
  demo_event 1 EV_ADMITTED "a" "" []; demo_event 2 EV_ADMITTED "b" "" ["a"];
  demo_event 3 EV_RETIRED "a" "completed" ["b"]; demo_event 4 EV_RETIRED "b" "completed" [];
  demo_event 5 EV_ADMITTED "v" "" []; demo_event 6 EV_ADMITTED "s" "" [];
  demo_event 7 EV_RETIRED "v" "cancelled" ["s"]; demo_event 8 EV_RETIRED "s" "completed" [] ].

Definition demo_snapshot : WorkerSnapshot := {|
  ws_phase := "after"; ws_cycle := Some 0%Z; ws_unix_time := literal 110 1; ws_process_id := Some 7%Z;
  ws_observed_at_monotonic_ns := Some 90%Z; ws_observed_at_unix_ns := None;
  ws_loaded_weights := host_amount 600; ws_reserved_cache := host_amount 200;
  ws_reserved_workspace := no_memory; ws_active_request_ids := [];
  ws_request_observations_available := true; ws_requests := []; ws_events := demo_events;
  ws_events_total := 8; ws_peak_concurrent_requests := 2; ws_allocator := None;
  ws_process_memory := Some {| po_process_id := 7; po_observed_at_unix_ns := 1; po_rss_bytes := Some 900%Z;
    po_rss_lifetime_peak_bytes := Some 950%Z; po_physical_footprint_bytes := None;
    po_physical_footprint_lifetime_peak_bytes := None |} |}.

Definition demo_observations : Observations := {|
  ob_workers := ({| wo_worker_id := "alpha"; wo_snapshots := [demo_snapshot]; wo_device_samples := [] |},
                 {| wo_worker_id := "beta"; wo_snapshots := [demo_snapshot]; wo_device_samples := [] |});
  ob_clock_alignment := "same host" |}.

Definition demo_rounds : list Round := [
  {| rd_cycle := 0; rd_index := 0; rd_kind := ROUND_PAIRED; rd_request_ids := ["a"; "b"] |};
  {| rd_cycle := 0; rd_index := 1; rd_kind := ROUND_CANCEL; rd_request_ids := ["v"; "s"] |}].

Definition demo_comparison (id : string) (role : Role) (tokens : list Z) : TokenComparison := {|
  tc_request_id := id; tc_role := role; tc_generated_ids := tokens; tc_expected_ids := tokens;
  tc_exact := true; tc_seconds := one; tc_error := None |}.

Definition demo_comparisons : list TokenComparison := [
  demo_comparison "a" ROLE_PAIRED [2; 3; 4; 5]; demo_comparison "b" ROLE_PAIRED [2; 3; 4; 5];
  demo_comparison "v" ROLE_CANCEL_VICTIM [2; 3; 4]; demo_comparison "s" ROLE_CANCEL_SURVIVOR [2; 3; 4; 5]]%Z.

Definition demo_guard (id : string) : GuardOutcome := {|
  go_worker_id := id; go_record_sha256 := Some demo_digest; go_process_id := Some 7%Z;
  go_started_unix_time := Some (literal 80 1); go_last_observed_unix_time := Some (literal 119 1);
  go_exited_unix_time := None; go_observations := 10; go_exit_reason := None; go_returncode := None;
  go_detail := ""; go_outcome := GUARD_UNAVAILABLE; go_reasons := [] |}.

Definition demo_cleanup (id : string) : CleanupEvidence :=
  {| ce_worker_id := id; ce_verified := true; ce_detail := "" |}.

Definition demo_make : result ConcurrentServingEvidence :=
  make_evidence demo_identity demo_workload demo_configuration demo_preconditions demo_observations
    demo_rounds demo_comparisons (demo_guard "alpha", demo_guard "beta")
    (demo_cleanup "alpha", demo_cleanup "beta") (demo_time 120) None.


Lemma overlap_backed_witness : exists intervals,
  derive_overlap demo_observations demo_rounds = Ok intervals /\ length intervals = 4%nat /\
  Forall (fun o => exists r w rest, r ∈ demo_rounds /\ rd_kind r <> ROUND_SERIAL
    /\ rd_request_ids r = both (oi_request_ids o) ++ rest
    /\ w ∈ both (ob_workers demo_observations) /\ backed (oi_request_ids o) w o) intervals.
Proof.
  eexists. split; [vm_compute; reflexivity|]. split; [vm_compute; reflexivity|].
  apply (overlap_backed demo_observations demo_rounds). vm_compute. reflexivity.
Defined.

Definition demo_physical : list PhysicalEnvelope := Eval vm_compute in
  match derive_physical demo_identity demo_configuration demo_preconditions demo_observations (demo_time 120) with
  | Ok l => l | Err _ => [] end.

Definition demo_outcome (id : string) : GuardOutcome := Eval vm_compute in
  match classified (90 * 1000000) (120 * 1000000) (demo_guard id) (demo_worker id 0) with
  | Ok g => g | Err _ => demo_guard id end.


(** *** A round that names one request twice

    [Round] does not require the two requests of a paired round to differ.  A single
    request's row then stands for both members, and the record is accepted although its
    only paired round ran one request. *)

Definition lone_snapshot : WorkerSnapshot := {|
  ws_phase := "during"; ws_cycle := Some 0%Z; ws_unix_time := literal 105 1; ws_process_id := Some 7%Z;
  ws_observed_at_monotonic_ns := Some 15%Z; ws_observed_at_unix_ns := None;
  ws_loaded_weights := host_amount 600; ws_reserved_cache := host_amount 200;
  ws_reserved_workspace := no_memory; ws_active_request_ids := ["a"];
  ws_request_observations_available := true;
  ws_requests := [{| rr_request_id := "a"; rr_maximum_total_tokens := 5; rr_cache := host_amount 200;
    rr_workspace := no_memory; rr_admitted_at_monotonic_ns := 10; rr_allocating := false;
    rr_running := true; rr_cancelled := false |}];
  ws_events := [demo_event 1 EV_ADMITTED "a" "" []]; ws_events_total := 1; ws_peak_concurrent_requests := 1;
  ws_allocator := None; ws_process_memory := ws_process_memory demo_snapshot |}.

Definition lone_worker (id : string) : WorkerObservations :=
  {| wo_worker_id := id; wo_snapshots := [lone_snapshot; demo_snapshot]; wo_device_samples := [] |}.

Definition lone_rounds : list Round := [
  {| rd_cycle := 0; rd_index := 0; rd_kind := ROUND_PAIRED; rd_request_ids := ["a"; "a"] |};
  {| rd_cycle := 0; rd_index := 1; rd_kind := ROUND_CANCEL; rd_request_ids := ["v"; "s"] |}].

Definition lone_make : result ConcurrentServingEvidence :=
  make_evidence demo_identity demo_workload demo_configuration demo_preconditions
    {| ob_workers := (lone_worker "alpha", lone_worker "beta"); ob_clock_alignment := "same host" |}
    lone_rounds (List.filter (fun c => tc_request_id c != "b") demo_comparisons)
    (demo_guard "alpha", demo_guard "beta") (demo_cleanup "alpha", demo_cleanup "beta") (demo_time 120) None.

Lemma lone_request_accepted : exists e, lone_make = Ok e /\ rs_acceptance (cs_results e) = ST_ACCEPTED
  /\ head (oi_request_ids <$> rs_overlap (cs_results e)) = Some ("a", "a").
Proof. eexists. split; [vm_compute; reflexivity|]. split; vm_compute; reflexivity. Qed.
End AcceptanceDemo.
