(* ===== verification/Sweep.v ===== *)
(** * The qualification sweep (src/python/hllm_control/qualification/sweep.py)

    A frozen protocol that runs every placement of the selected workers several times, in
    rounds shuffled from a seed, and decides from the results alone whether the selected
    placement is close enough to the best one.  This file has the protocol: its records,
    the placements, the schedule of a round, the checks of one result, the summary with its
    bootstrap and decision, and the run with its store of results.  The generator of
    [random.Random] is a class, as SHA-256 is; [shuffle] and [choices] are written over it. *)

From Stdlib Require Import SpecFloat Ascii.
From stdpp Require Import strings gmap.
From S2P Require Export Measured Manifest.

(** ** Random draws *)

(** [random.Random(seed)], [_randbelow(n)], and the index [floor(random() * n)]. *)
Class PyRandom := {
  rng : Type;
  rng_seed : Z -> rng;
  rng_below : Z -> rng -> Z * rng;
  rng_index : Z -> rng -> Z * rng
}.

(** Both draws are integers from 0 up to [n]. *)
Class PyRandomLaws `{PyRandom} := {
  rng_below_range n g : (0 < n)%Z -> (0 <= (rng_below n g).1 < n)%Z;
  rng_index_range n g : (0 < n)%Z -> (0 <= (rng_index n g).1 < n)%Z
}.

(** [l[i], l[j] = l[j], l[i]] *)
Definition py_swap {A} (i j : nat) (l : list A) : list A :=
  match l !! i, l !! j with
  | Some x, Some y => <[j := x]> (<[i := y]> l)
  | _, _ => l
  end.

Section random.
Context `{PyRandom}.

(** [for i in reversed(range(1, len(x))): j = randbelow(i + 1); x[i], x[j] = x[j], x[i]] *)
Fixpoint shuffle_down {A} (i : nat) (l : list A) (g : rng) : list A :=
  match i with
  | O => l
  | S i' => let '(j, g) := rng_below (Z.of_nat i + 1) g in shuffle_down i' (py_swap i (Z.to_nat j) l) g
  end.

Definition shuffle {A} (l : list A) (g : rng) : list A := shuffle_down (length l - 1) l g.

(** [choices(l, k=k)] *)
Fixpoint choices {A} (k : nat) (l : list A) (g : rng) : list A * rng :=
  match k with
  | O => ([], g)
  | S k' =>
    let '(j, g) := rng_index (Z.of_nat (length l)) g in
    let '(rest, g) := choices k' l g in
    (option_list (l !! Z.to_nat j) ++ rest, g)
  end.
End random.

(** ** The frozen protocol *)

Record Reference := {
  rf_manifest_digest : string;
  rf_checkpoint_digest : string;
  rf_producer : string;
  rf_producer_artifact_digest : string;
  rf_prompt_ids : list Z;
  rf_generated_ids : list Z
}.

Definition Reference_fields (r : Reference) : bool :=
  forallb is_digest [rf_manifest_digest r; rf_checkpoint_digest r; rf_producer_artifact_digest r]
  && (1 <=? length (rf_prompt_ids r))%nat && (1 <=? length (rf_generated_ids r))%nat.

Definition Reference_dump (r : Reference) : json :=
  JObj [("manifest_digest", JStr (rf_manifest_digest r)); ("checkpoint_digest", JStr (rf_checkpoint_digest r));
        ("producer", JStr (rf_producer r)); ("producer_artifact_digest", JStr (rf_producer_artifact_digest r));
        ("prompt_ids", json_ints (rf_prompt_ids r)); ("generated_ids", json_ints (rf_generated_ids r));
        ("policy", JStr "exact-greedy-token-sequence")].

(** [SweepContent] with the seal of [SweepSpec]. *)
Record SweepSpec := {
  sw_manifest : ModelManifest;
  sw_workload : WorkloadProfile;
  sw_reference : Reference;
  sw_selected_plan : DeploymentPlan;
  sw_planning_report_digest : string;
  sw_profile_bundle_digest : string;
  sw_executor_digest : string;
  sw_predictions : list (string * PerformanceEstimate);
  sw_mlx_fit_policies : list (string * MlxFitPolicy);
  sw_concurrent_load : string;
  sw_seed : Z;
  sw_warmups : Z;
  sw_repetitions : Z;
  sw_maximum_repetitions : Z;
  sw_regret_limit : float;
  sw_drift_limit : float;
  sw_sweep_digest : string
}.

Definition open_unit (x : float) : bool := flt f0 x && flt x (literal 1 1).

Definition SweepContent_fields (s : SweepSpec) : bool :=
  ModelManifest_ok (sw_manifest s) && is_ok (validate_WorkloadProfile (sw_workload s))
  && Reference_fields (sw_reference s) && is_ok (validate_DeploymentPlan (sw_selected_plan s))
  && forallb is_digest [sw_planning_report_digest s; sw_profile_bundle_digest s; sw_executor_digest s]
  && forallb (fun '(_, p) => PerformanceEstimate_fields p) (sw_predictions s)
  && (2 <=? sw_warmups s)%Z && (5 <=? sw_repetitions s)%Z
  && (5 <=? sw_maximum_repetitions s)%Z && (sw_maximum_repetitions s <=? 100)%Z
  && open_unit (sw_regret_limit s) && open_unit (sw_drift_limit s).

Definition ModelManifest_dump (m : ModelManifest) : json :=
  match unsigned_manifest m with
  | JObj fields => JObj ([("manifest_id", JStr (mm_manifest_id m)); ("manifest_digest", JStr (mm_manifest_digest m))]
                         ++ fields)
  | j => j
  end.

Definition DeploymentPlan_dump (p : DeploymentPlan) : json :=
  match DeploymentPlan_unsigned p with
  | JObj fields => JObj ([("plan_id", JStr (dp_plan_id p)); ("plan_digest", JStr (dp_plan_digest p))] ++ fields)
  | j => j
  end.

Definition json_dict {A} (f : A -> json) (d : list (string * A)) : json :=
  JObj ((fun '(k, v) => (k, f v)) <$> d).

Definition PerformanceEstimate_dump (p : PerformanceEstimate) : json :=
  JObj [("boundary_prefill_ms", JFloat (pe_boundary_prefill_ms p));
        ("boundary_decode_ms", JFloat (pe_boundary_decode_ms p)); ("confidence", JStr (pe_confidence p));
        ("ttft_ms", json_opt JFloat (pe_ttft_ms p)); ("decode_ms", JArr (JFloat <$> pe_decode_ms p));
        ("generation_ms", json_opt JFloat (pe_generation_ms p));
        ("components_ms", json_dict JFloat (pe_components_ms p));
        ("profile_digests", json_strs (pe_profile_digests p));
        ("host_envelope_bytes", json_dict JInt (pe_host_envelope_bytes p));
        ("device_envelope_bytes", json_dict JInt (pe_device_envelope_bytes p))].

(** [model_dump(mode="json", exclude={"sweep_digest"})] *)
Definition SweepContent_dump (s : SweepSpec) : json :=
  JObj ([("schema_version", JStr "1.0"); ("manifest", ModelManifest_dump (sw_manifest s));
         ("workload", WorkloadProfile_dump (sw_workload s)); ("reference", Reference_dump (sw_reference s));
         ("selected_plan", DeploymentPlan_dump (sw_selected_plan s));
         ("planning_report_digest", JStr (sw_planning_report_digest s));
         ("profile_bundle_digest", JStr (sw_profile_bundle_digest s));
         ("executor_digest", JStr (sw_executor_digest s));
         ("predictions", json_dict PerformanceEstimate_dump (sw_predictions s))]
        ++ json_field (nil_b (sw_mlx_fit_policies s)) "mlx_fit_policies"
             (json_dict (fun p => JStr (policy_name p)) (sw_mlx_fit_policies s))
        ++ [("concurrent_load", JStr (sw_concurrent_load s)); ("seed", JInt (sw_seed s));
            ("warmups", JInt (sw_warmups s)); ("repetitions", JInt (sw_repetitions s));
            ("maximum_repetitions", JInt (sw_maximum_repetitions s));
            ("regret_limit", JFloat (sw_regret_limit s)); ("drift_limit", JFloat (sw_drift_limit s))]).

Section spec.
Context `{Hash}.

Definition sweep_scope (s : SweepSpec) : result unit :=
  let p := sw_selected_plan s in
  let w := sw_workload s in
  let r := sw_reference s in
  raise_if ((dp_manifest_digest p != mm_manifest_digest (sw_manifest s))
            || (rf_manifest_digest r != dp_manifest_digest p)
            || (dp_planning_mode p != MEASURED)
            || (dp_profile_bundle_digest p != Some (sw_profile_bundle_digest s))
            || (dp_workload_digest p != Some (digest (WorkloadProfile_dump w)))
            || (dp_execution_dtype p != wl_kv_dtype w)
            || negb (length (dp_stages p) =? 2)%nat) ValidationError
    "selection/reference/bundle scope mismatch" ;;
  raise_if (dp_plan_digest p != digest (DeploymentPlan_unsigned p)) ValidationError
    "frozen selected plan hash mismatch" ;;
  raise_if ((Z.of_nat (length (rf_prompt_ids r)) != wl_prompt_tokens w)
            || (Z.of_nat (length (rf_generated_ids r)) != wl_output_tokens w)) ValidationError
    "reference is not the acceptance workload" ;;
  raise_if (existsb (fun t => negb ((0 <=? t) && (t <? mc_vocabulary_size (mm_config (sw_manifest s)))))%Z
              (rf_prompt_ids r ++ rf_generated_ids r)) ValidationError
    "reference token outside vocabulary" ;;
  raise_if ((wl_concurrency w != 1%Z)
            || (wl_total_cached_tokens w != (wl_prompt_tokens w + wl_output_tokens w)%Z)) ValidationError
    "sweep requires concurrency one and exact request cache capacity" ;;
  raise_if (sw_maximum_repetitions s <? sw_repetitions s)%Z ValidationError
    "maximum repetitions below initial count".

Definition sweep_seal (s : SweepSpec) : result unit :=
  raise_if (sw_sweep_digest s != digest (SweepContent_dump s)) ValidationError "sweep digest mismatch".

Definition validate_SweepSpec (s : SweepSpec) : result SweepSpec :=
  fields_ok (SweepContent_fields s && is_digest (sw_sweep_digest s)) ;;
  sweep_scope s ;;
  sweep_seal s ;;
  Ok s.
End spec.

(** [verify_fit_policies]; the name of a policy is its value. *)
Fixpoint verify_fit_policies (s : SweepSpec) (executor_policies : list (string * MlxFitPolicy)) : result unit :=
  match executor_policies with
  | [] => Ok tt
  | (worker_id, policy) :: rest =>
    let bound := default CONSERVATIVE (assoc_get worker_id (sw_mlx_fit_policies s)) in
    raise_if (policy != bound) ValueError
      ("executor fit policy " +:+ policy_name policy +:+ " for " +:+ worker_id
       +:+ " differs from the frozen profile bundle policy " +:+ policy_name bound) ;;
    verify_fit_policies s rest
  end.

(** ** Placements *)

(** [model_copy(update={"plan_id": ..., "plan_digest": d})] *)
Definition with_identity (plan_id plan_digest : string) (p : DeploymentPlan) : DeploymentPlan := {|
  dp_schema_version := dp_schema_version p; dp_planner_version := dp_planner_version p;
  dp_plan_id := plan_id; dp_deployment_version := dp_deployment_version p; dp_plan_digest := plan_digest;
  dp_manifest_digest := dp_manifest_digest p; dp_workload_id := dp_workload_id p;
  dp_planning_mode := dp_planning_mode p; dp_execution_dtype := dp_execution_dtype p;
  dp_weight_dtype := dp_weight_dtype p; dp_activation_dtype := dp_activation_dtype p;
  dp_split_layer := dp_split_layer p; dp_workload_digest := dp_workload_digest p;
  dp_profile_bundle_digest := dp_profile_bundle_digest p; dp_stages := dp_stages p;
  dp_duplicated_tensor_groups := dp_duplicated_tensor_groups p;
  dp_selected_candidate_id := dp_selected_candidate_id p |}.

Section placements.
Context `{Hash}.

Definition sweep_placement (s : SweepSpec) (first final : string) (split : Z) : result DeploymentPlan :=
  let selected := sw_selected_plan s in
  let mixed := opt_truthy (dp_weight_dtype selected) in
  let '(s0, s1) := assignments_for first final split (mc_num_layers (mm_config (sw_manifest s))) in
  fields_ok (forallb StageAssignment_fields [s0; s1]) ;;
  provisional ← validate_DeploymentPlan {|
    dp_schema_version := if mixed then "1.2" else "1.0"; dp_planner_version := "qualification-1.0";
    dp_plan_id := "pending"; dp_deployment_version := 1; dp_plan_digest := "pending";
    dp_manifest_digest := mm_manifest_digest (sw_manifest s);
    dp_workload_id := wl_workload_id (sw_workload s); dp_planning_mode := FEASIBILITY;
    dp_execution_dtype := dp_execution_dtype selected; dp_weight_dtype := dp_weight_dtype selected;
    dp_activation_dtype := dp_activation_dtype selected; dp_split_layer := split;
    dp_workload_digest := None; dp_profile_bundle_digest := None; dp_stages := [s0; s1];
    dp_duplicated_tensor_groups := dp_duplicated_tensor_groups selected;
    dp_selected_candidate_id := candidate_id_of first final split |};
  let d := digest (DeploymentPlan_unsigned provisional) in
  Ok (with_identity ((if mixed then "plan-" else "sweep-") +:+ str_take 16 d) d provisional).

(** Both orders of the two workers, at every split. *)
Definition placement_keys (s : SweepSpec) : result (list (string * string * Z)) :=
  match sa_worker_id <$> dp_stages (sw_selected_plan s) with
  | [a; b] =>
    let splits := py_range 1 (mc_num_layers (mm_config (sw_manifest s))) in
    Ok (((fun i => (a, b, i)) <$> splits) ++ ((fun i => (b, a, i)) <$> splits))
  | _ => raise ValueError "not enough values to unpack"
  end.

Definition placements (s : SweepSpec) : result (list DeploymentPlan) :=
  keys ← placement_keys s;
  mapM (fun '(first, final, split) => sweep_placement s first final split) keys.

(** ** The schedule of a round *)

Context `{PyRandom}.

Definition job_round (round_index : Z) : string := "r" +:+ pad3 round_index.

Definition schedule (s : SweepSpec) (round_index : Z) : result (list (string * DeploymentPlan)) :=
  plans ← placements s;
  let candidates := shuffle plans (rng_seed (sw_seed s + round_index)) in
  match List.find (fun p => dp_selected_candidate_id p
                            == dp_selected_candidate_id (sw_selected_plan s)) candidates with
  | None => raise StopIteration ""
  | Some selected =>
    Ok ([(job_round round_index +:+ "-reference-before", selected)]
        ++ ((fun '(i, p) => (job_round round_index +:+ "-c" +:+ pad3 i, p)) <$> py_enumerate_from 0 candidates)
        ++ [(job_round round_index +:+ "-reference-after", selected)])
  end.
End placements.

(** ** Results *)

Record Sample := {
  sm_token_ids : list Z;
  sm_client_arrivals_ms : list float;
  sm_native_arrivals_ms : list float;
  sm_terminal_ms : float;
  sm_native_request_setup_ms : option float
}.

(** [any(b < a for a, b in pairwise(l))] *)
Fixpoint goes_back (l : list float) : bool :=
  match l with
  | a :: (b :: _) as rest => flt b a || goes_back rest
  | _ => false
  end.

(** [l[-1]] of the arrivals of a sample, of which there is at least one. *)
Definition last_arrival (s : Sample) : float := List.last (sm_client_arrivals_ms s) f0.
Definition first_arrival (s : Sample) : float := hd f0 (sm_client_arrivals_ms s).

Definition sample_timing (s : Sample) : result unit :=
  raise_if (nil_b (sm_token_ids s)
            || negb (length (sm_token_ids s) =? length (sm_client_arrivals_ms s))%nat) ValidationError
    "missing client token arrival measurements" ;;
  raise_if (negb (nil_b (sm_native_arrivals_ms s))
            && negb (length (sm_native_arrivals_ms s) =? length (sm_token_ids s))%nat) ValidationError
    "incomplete native token arrival measurements" ;;
  raise_if (existsb goes_back [sm_client_arrivals_ms s; sm_native_arrivals_ms s]) ValidationError
    "arrival clock moved backwards" ;;
  raise_if (flt (sm_terminal_ms s) (last_arrival s)) ValidationError "terminal preceded last token".

Definition Sample_fields (s : Sample) : bool :=
  forallb Milliseconds (sm_client_arrivals_ms s) && forallb Milliseconds (sm_native_arrivals_ms s)
  && Milliseconds (sm_terminal_ms s) && opt_ok Milliseconds (sm_native_request_setup_ms s)
  && is_ok (sample_timing s).

Definition Sample_dump (s : Sample) : json :=
  JObj [("token_ids", json_ints (sm_token_ids s));
        ("client_arrivals_ms", JArr (JFloat <$> sm_client_arrivals_ms s));
        ("native_arrivals_ms", JArr (JFloat <$> sm_native_arrivals_ms s));
        ("terminal_ms", JFloat (sm_terminal_ms s));
        ("native_request_setup_ms", json_opt JFloat (sm_native_request_setup_ms s))].

Record MemoryExclusion := {
  mx_profile : ProfileArtifact;
  mx_capacity : MemoryAmounts;
  mx_host : PhysicalBudget;
  mx_device : option PhysicalBudget;
  mx_mlx_fit_policy : MlxFitPolicy
}.

Definition policy_applies (m : MemoryExclusion) : result unit :=
  raise_if ((mx_mlx_fit_policy m != CONSERVATIVE)
            && (en_backend (pk_environment (pa_key (mx_profile m))) != MLX)) ValidationError
    "mlx_fit_policy applies to MLX evidence only".

Definition MemoryExclusion_fields `{Hash} (m : MemoryExclusion) : bool :=
  is_ok (validate_ProfileArtifact (mx_profile m)) && is_ok (validate_MemoryAmounts (mx_capacity m))
  && PhysicalBudget_fields (mx_host m) && opt_ok PhysicalBudget_fields (mx_device m)
  && is_ok (policy_applies m).

Definition MemoryExclusion_dump (m : MemoryExclusion) : json :=
  JObj ([("profile", ProfileArtifact_dump (mx_profile m)); ("capacity", MemoryAmounts_dump (mx_capacity m));
         ("host", PhysicalBudget_dump (mx_host m)); ("device", json_opt PhysicalBudget_dump (mx_device m))]
        ++ json_field (mx_mlx_fit_policy m == CONSERVATIVE) "mlx_fit_policy"
             (JStr (policy_name (mx_mlx_fit_policy m)))).

Inductive JobStatus := JOB_MEASURED | JOB_MEMORY_EXCLUDED | JOB_UNKNOWN | JOB_OOM | JOB_CORRECTNESS_FAILED.

#[export] Instance job_status_eq_dec : EqDecision JobStatus.
Proof. solve_decision. Defined.
#[export] Instance pyeq_job_status : PyEq JobStatus := pyeq_of_dec.
#[export] Instance pyeq_job_status_laws : PyEqLaws JobStatus := pyeq_of_dec_laws.

Definition job_status_value (s : JobStatus) : string :=
  match s with
  | JOB_MEASURED => "measured" | JOB_MEMORY_EXCLUDED => "memory-excluded" | JOB_UNKNOWN => "unknown"
  | JOB_OOM => "oom" | JOB_CORRECTNESS_FAILED => "correctness-failed"
  end.

Record JobResult := {
  jr_sweep_digest : string;
  jr_job_id : string;
  jr_candidate_id : string;
  jr_status : JobStatus;
  jr_warmups : list Sample;
  jr_sample : option Sample;
  jr_evidence_digest : string;
  jr_memory_exclusion : option MemoryExclusion;
  jr_host_envelope_bytes : list (string * Z);
  jr_device_envelope_bytes : list (string * Z);
  jr_cleanup_passed : bool;
  jr_selected_health_passed : option bool;
  jr_detail : string
}.

Definition JobResult_fields `{Hash} (r : JobResult) : bool :=
  is_digest (jr_sweep_digest r) && forallb Sample_fields (jr_warmups r) && opt_ok Sample_fields (jr_sample r)
  && is_digest (jr_evidence_digest r) && opt_ok MemoryExclusion_fields (jr_memory_exclusion r).

Definition validate_JobResult `{Hash} (r : JobResult) : result JobResult :=
  fields_ok (JobResult_fields r) ;; Ok r.

Definition JobResult_dump (r : JobResult) : json :=
  JObj [("sweep_digest", JStr (jr_sweep_digest r)); ("job_id", JStr (jr_job_id r));
        ("candidate_id", JStr (jr_candidate_id r)); ("status", JStr (job_status_value (jr_status r)));
        ("warmups", JArr (Sample_dump <$> jr_warmups r)); ("sample", json_opt Sample_dump (jr_sample r));
        ("evidence_digest", JStr (jr_evidence_digest r));
        ("memory_exclusion", json_opt MemoryExclusion_dump (jr_memory_exclusion r));
        ("host_envelope_bytes", json_dict JInt (jr_host_envelope_bytes r));
        ("device_envelope_bytes", json_dict JInt (jr_device_envelope_bytes r));
        ("cleanup_passed", JBool (jr_cleanup_passed r));
        ("selected_health_passed", json_opt JBool (jr_selected_health_passed r));
        ("detail", JStr (jr_detail r))].

(** ** The checks of one result *)

Section checks.
Context `{Hash}.

(** The exclusion's evidence is that of this placement and workload. *)
Definition exclusion_in_scope (s : SweepSpec) (plan : DeploymentPlan) (e : MemoryExclusion) : bool :=
  let key := pa_key (mx_profile e) in
  (pk_weight_dtype key == dp_weight_dtype plan) && (pk_execution_dtype key == dp_execution_dtype plan)
  && py_in (pk_assignment key) (dp_stages plan) && (pk_workload key == sw_workload s)
  && (pk_checkpoint_digest key == rf_checkpoint_digest (sw_reference s))
  && (pk_manifest_digest key == mm_manifest_digest (sw_manifest s))
  && match cd_process_policy (pa_conditions (mx_profile e)) with FRESH_PROCESS_THEN_RELOADS => true | _ => false end
  && (cd_concurrent_load (pa_conditions (mx_profile e)) == sw_concurrent_load s).

Definition completed_memory (m : Measurement) : bool :=
  match m with Memory m => mem_completed m | _ => false end.

Definition check_exclusion (s : SweepSpec) (r : JobResult) (plan : DeploymentPlan) : result unit :=
  match jr_memory_exclusion r with
  | Some e =>
    raise_if (negb (completed_memory (pa_measurement (mx_profile e)))) ValueError
      "memory exclusion requires complete independent native memory evidence" ;;
    raise_if (negb (exclusion_in_scope s plan e)) ValueError "unsupported independent memory exclusion" ;;
    fit ← assess_fit (mx_profile e) (mx_capacity e) (mx_host e) (mx_device e) (mx_mlx_fit_policy e);
    raise_if (fr_status fit != UNSAFE) ValueError "unsupported independent memory exclusion"
  | None => raise ValueError "memory exclusion requires complete independent native memory evidence"
  end.

Definition check_measured (s : SweepSpec) (r : JobResult) : result unit :=
  match jr_sample r with
  | Some sample =>
    raise_if (negb (jr_cleanup_passed r) || (Z.of_nat (length (jr_warmups r)) != sw_warmups s)) ValueError
      "measured result lacks successful warmups, timing or cleanup" ;;
    raise_if (existsb (fun x => sm_token_ids x != rf_generated_ids (sw_reference s))
                (jr_warmups r ++ [sample])) ValueError
      "divergent output cannot be a measured feasible result"
  | None => raise ValueError "measured result lacks successful warmups, timing or cleanup"
  end.

Definition validate_result (s : SweepSpec) (r : JobResult) (job : string) (plan : DeploymentPlan) : result unit :=
  raise_if ((jr_sweep_digest r, jr_job_id r, jr_candidate_id r)
            != (sw_sweep_digest s, job, dp_selected_candidate_id plan)) ValueError
    "result belongs to another job/sweep/placement" ;;
  (if jr_status r == JOB_MEMORY_EXCLUDED then check_exclusion s r plan else Ok tt) ;;
  (if jr_status r == JOB_MEASURED then check_measured s r else Ok tt).

(** ** Which jobs the results are *)

Context `{PyRandom}.

(** [split("-", 1)[0]] *)
Fixpoint before_dash (t : string) : string :=
  match t with
  | EmptyString => ""
  | String c t' => if Ascii.eqb c "-"%char then "" else String c (before_dash t')
  end.

(** The round of a job ID: [rNNN-...]. *)
Definition round_of (job : string) : option Z :=
  match before_dash job with
  | String "r" digits =>
    if (String.length digits =? 3)%nat && str_forall is_digit digits
    then Some (Z.of_N (dec_value 0 digits)) else None
  | _ => None
  end.

Abbreviation Jobs := (list (string * DeploymentPlan)) (only parsing).

Definition UNSCHEDULED {A} : result A := raise ValueError "result is not a scheduled sweep job".

(** [rounds[i]], scheduled at its first result. *)
Definition jobs_of_round (s : SweepSpec) (i : Z) (rounds : list (Z * Jobs)) : result (Jobs * list (Z * Jobs)) :=
  match assoc_get i rounds with
  | Some jobs => Ok (jobs, rounds)
  | None => jobs ← schedule s i; Ok (jobs, assoc_set i jobs rounds)
  end.

(** The first loop of [summarize]: the rounds, and the jobs seen. *)
Fixpoint scheduled_results (s : SweepSpec) (rounds : list (Z * Jobs)) (seen : list string)
    (results : list JobResult) : result (list (Z * Jobs) * list string) :=
  match results with
  | [] => Ok (rounds, seen)
  | r :: rest =>
    raise_if (py_in (jr_job_id r) seen) ValueError "duplicate sweep job" ;;
    match round_of (jr_job_id r) with
    | None => UNSCHEDULED
    | Some i =>
      if (sw_maximum_repetitions s <=? i)%Z then UNSCHEDULED else
      '(jobs, rounds) ← jobs_of_round s i rounds;
      match assoc_get (jr_job_id r) jobs with
      | None => UNSCHEDULED
      | Some plan =>
        validate_result s r (jr_job_id r) plan ;;
        scheduled_results s rounds (jr_job_id r :: seen) rest
      end
    end
  end.

(** [set(rounds) == set(range(max(rounds, default=-1) + 1))] *)
Definition rounds_consecutive (rounds : list Z) : bool :=
  let expected := py_range 0 (default (-1)%Z (py_max rounds) + 1) in
  forallb (fun i => py_in i expected) rounds && forallb (fun i => py_in i rounds) expected.

Definition rounds_complete (s : SweepSpec) (rounds : list (Z * Jobs)) (seen : list string) : bool :=
  (sw_repetitions s <=? Z.of_nat (length rounds))%Z && rounds_consecutive rounds.*1
  && forallb (fun '(_, jobs) => forallb (fun '(job, _) => py_in job seen) jobs) rounds.
End checks.

(** ** The decision *)

Inductive Decision_ := INCOMPLETE | UNSTABLE | INCONCLUSIVE | PASS | FAIL.

#[export] Instance decision_eq_dec : EqDecision Decision_.
Proof. solve_decision. Defined.
#[export] Instance pyeq_decision : PyEq Decision_ := pyeq_of_dec.
#[export] Instance pyeq_decision_laws : PyEqLaws Decision_ := pyeq_of_dec_laws.

Definition is_reference (r : JobResult) : bool := str_contains "reference" (jr_job_id r).

Definition measured_sample (r : JobResult) : option Sample :=
  if jr_status r == JOB_MEASURED then jr_sample r else None.

(** [samples[cid]] and [statuses[cid]] *)
Definition candidate_results (results : list JobResult) (cid : string) : list JobResult :=
  List.filter (fun r => negb (is_reference r) && (jr_candidate_id r == cid)) results.
Definition samples_of (results : list JobResult) (cid : string) : list Sample :=
  omap measured_sample (candidate_results results cid).
Definition statuses_of (results : list JobResult) (cid : string) : list JobStatus :=
  jr_status <$> candidate_results results cid.

(** The arrivals of the last tokens of the reference jobs. *)
Definition reference_arrivals (results : list JobResult) : list float :=
  last_arrival <$> omap measured_sample (List.filter is_reference results).

(** [measured]: the candidates with samples. *)
Definition measured_arrivals (results : list JobResult) (ids : list string) : list (string * list float) :=
  (fun cid => (cid, last_arrival <$> samples_of results cid))
    <$> List.filter (fun cid => negb (nil_b (samples_of results cid))) (dict_fromkeys ids).

(** [set(statuses) == {status}] *)
Definition all_status (status : JobStatus) (l : list JobStatus) : bool :=
  negb (nil_b l) && forallb (fun s => s == status) l.

Definition candidate_covered (s : SweepSpec) (results : list JobResult) (cid : string) : bool :=
  ((sw_repetitions s <=? Z.of_nat (length (samples_of results cid)))%Z
   && all_status JOB_MEASURED (statuses_of results cid))
  || ((sw_repetitions s <=? Z.of_nat (length (statuses_of results cid)))%Z
      && all_status JOB_MEMORY_EXCLUDED (statuses_of results cid)).

Definition reference_drift (refs : list float) : result (option float) :=
  match py_fmax refs, py_fmin refs with
  | Some high, Some low =>
    if flt f0 low then q ← py_fdiv high low; Ok (Some (fsub q (literal 1 1))) else Ok None
  | _, _ => Ok None
  end.

Definition references_healthy (results : list JobResult) : bool :=
  forallb (fun r => bool_decide (jr_selected_health_passed r = Some true))
    (List.filter (fun r => py_endswith "reference-after" (jr_job_id r)) (List.filter is_reference results)).

Definition references_stable (s : SweepSpec) (results : list JobResult) (drift : option float) : bool :=
  let refs := reference_arrivals results in
  (2 * sw_repetitions s <=? Z.of_nat (length refs))%Z
  && (length refs =? length (List.filter is_reference results))%nat
  && match drift with Some d => fle d (sw_drift_limit s) | None => false end.

(** [(median(...), cid)] and the order of these pairs. *)
Definition median_before (a b : float * string) : bool :=
  flt a.1 b.1 || (SFeqb a.1 b.1 && str_lt a.2 b.2).

Definition medians (measured : list (string * list float)) : result (list (float * string)) :=
  mapM (fun '(cid, rows) => m ← py_median rows; Ok (m, cid)) measured.

(** [min(..., key=...)]: the first of the least. *)
Definition best_candidate (keys : list (float * string)) : option (float * string) :=
  match keys with
  | [] => None
  | k :: keys => Some (foldl (fun best k => if median_before k best then k else best) k keys)
  end.

Definition median_of (keys : list (float * string)) (cid : string) : option float :=
  fst <$> List.find (fun k => k.2 == cid) keys.

(** [median(a) / median(b) - 1] *)
Definition relative_to (a b : float) : result float := q ← py_fdiv a b; Ok (fsub q (literal 1 1)).

Definition observed_regret (keys : list (float * string)) (selected : string) : result (option float) :=
  match best_candidate keys, median_of keys selected with
  | Some (best, _), Some mine => if flt f0 best then r ← relative_to mine best; Ok (Some r) else Ok None
  | _, _ => Ok None
  end.

(** ** The bootstrap *)

Definition BOOTSTRAP_DRAWS : nat := 2000.

Definition _interval (values : list float) : result (float * float) :=
  let sorted := py_sorted flt values in
  let n := Z.of_nat (length values) in
  low ← int_mul n (literal 25 1000); low ← py_int low;
  high ← int_mul n (literal 975 1000); high ← py_int high;
  match sorted !! Z.to_nat low, sorted !! Z.to_nat (Z.min (n - 1) high) with
  | Some a, Some b => Ok (a, b)
  | _, _ => raise IndexError "list index out of range"
  end.

Section bootstrap.
Context `{PyRandom}.

(** One resample of every candidate, and its medians. *)
Fixpoint resample (measured : list (string * list float)) (g : rng) : result (list (float * string) * rng) :=
  match measured with
  | [] => Ok ([], g)
  | (cid, rows) :: rest =>
    let '(drawn, g) := choices (length rows) rows g in
    m ← py_median drawn;
    '(keys, g) ← resample rest g;
    Ok ((m, cid) :: keys, g)
  end.

(** The ratios of [n] resamples; the least median must be positive. *)
Fixpoint bootstrap (n : nat) (measured : list (string * list float)) (selected : string) (g : rng)
    : result (list float) :=
  match n with
  | O => Ok []
  | S n' =>
    '(keys, g) ← resample measured g;
    match py_fmin keys.*1, median_of keys selected with
    | Some least, Some mine =>
      if flt f0 least
      then ratio ← relative_to mine least; ratios ← bootstrap n' measured selected g; Ok (ratio :: ratios)
      else bootstrap n' measured selected g
    | None, _ => raise ValueError "min() iterable argument is empty"
    | _, None => raise KeyError selected
    end
  end.

Definition bootstrap_interval (s : SweepSpec) (measured : list (string * list float)) (complete : bool)
    : result (option (float * float)) :=
  let selected := dp_selected_candidate_id (sw_selected_plan s) in
  if complete && py_in selected measured.*1 then
    ratios ← bootstrap BOOTSTRAP_DRAWS measured selected (rng_seed (sw_seed s));
    if nil_b ratios then Ok None else (interval ← _interval ratios; Ok (Some interval))
  else Ok None.
End bootstrap.

Definition decide_sweep (s : SweepSpec) (complete stable health : bool) (interval : option (float * float))
    : Decision_ :=
  if negb complete then INCOMPLETE
  else if negb stable then UNSTABLE
  else match interval with
       | Some (low, high) =>
         if negb health then INCONCLUSIVE
         else if fle high (sw_regret_limit s) then PASS
         else if flt (sw_regret_limit s) low then FAIL
         else INCONCLUSIVE
       | None => INCONCLUSIVE
       end.

(** ** Statistics and prediction errors *)

(** A number that is an [int] or a [float]. *)
Inductive py_number := PInt (n : Z) | PFloat (x : float).

(** [statistics.median] of integers *)
Definition int_median (l : list Z) : result py_number :=
  let data := py_sorted Z.ltb l in
  let n := length data in
  if (n =? 0)%nat then raise StatisticsError "no median for empty data"
  else if Nat.odd n then
    match data !! (n / 2)%nat with Some x => Ok (PInt x) | None => raise IndexError "list index out of range" end
  else
    match data !! (n / 2 - 1)%nat, data !! (n / 2)%nat with
    | Some x, Some y => q ← py_truediv (x + y) 2; Ok (PFloat q)
    | _, _ => raise IndexError "list index out of range"
    end.

(** [{"predicted": ..., "observed": ..., "relative_error": ...}] *)
Record Difference := { df_predicted : py_number; df_observed : py_number; df_relative_error : option float }.

Definition difference (predicted actual : float) : result Difference :=
  relative ← (if flt f0 actual then r ← relative_to predicted actual; Ok (Some r) else Ok None);
  Ok {| df_predicted := PFloat predicted; df_observed := PFloat actual; df_relative_error := relative |}.

Definition int_difference (predicted : Z) (actual : py_number) : result Difference :=
  relative ←
    match actual with
    | PInt n => if (0 <? n)%Z then q ← py_truediv predicted n; Ok (Some (fsub q (literal 1 1))) else Ok None
    | PFloat x => if flt f0 x then y ← float_of_int predicted; r ← relative_to y x; Ok (Some r) else Ok None
    end;
  Ok {| df_predicted := PInt predicted; df_observed := actual; df_relative_error := relative |}.

Record PredictionError := {
  pr_ttft_ms : Difference;
  pr_mean_itl_ms : Difference;
  pr_generation_ms : Difference;
  pr_host_envelope_bytes : list (string * Difference);
  pr_device_envelope_bytes : list (string * Difference)
}.

(** [(arrivals[-1] - arrivals[0]) / (len(token_ids) - 1)] *)
Definition mean_gap (x : Sample) : result float :=
  n ← float_of_int (Z.of_nat (length (sm_token_ids x)) - 1);
  py_fdiv (fsub (last_arrival x) (first_arrival x)) n.

Definition observed_itl (samples : list Sample) : result float :=
  match samples with
  | first :: _ =>
    if (1 <? length (sm_token_ids first))%nat then
      gaps ← mapM mean_gap (List.filter (fun x => 1 <? length (sm_token_ids x))%nat samples);
      py_median gaps
    else Ok f0
  | [] => raise IndexError "list index out of range"
  end.

(** The envelopes of the workers that some result reports. *)
Fixpoint envelope_errors (field : JobResult -> list (string * Z)) (results : list JobResult)
    (predicted : list (string * Z)) : result (list (string * Difference)) :=
  match predicted with
  | [] => Ok []
  | (worker, value) :: rest =>
    match omap (fun r => assoc_get worker (field r)) results with
    | [] => envelope_errors field results rest
    | observed =>
      m ← int_median observed;
      d ← int_difference value m;
      ds ← envelope_errors field results rest;
      Ok ((worker, d) :: ds)
    end
  end.

(** [None] is the status [prediction-unavailable]. *)
Definition prediction_error (prediction : option PerformanceEstimate) (samples : list Sample)
    (results : list JobResult) : result (option PredictionError) :=
  match prediction with
  | None => Ok None
  | Some p =>
    match pe_ttft_ms p, pe_generation_ms p with
    | Some ttft, Some generation =>
      itl ← observed_itl samples;
      first ← py_median (first_arrival <$> samples);
      ttft_ms ← difference ttft first;
      mean ← (if nil_b (pe_decode_ms p) then Ok f0
              else n ← float_of_int (Z.of_nat (length (pe_decode_ms p))); py_fdiv (py_fsum (pe_decode_ms p)) n);
      mean_itl_ms ← difference mean itl;
      last ← py_median (last_arrival <$> samples);
      generation_ms ← difference generation last;
      host ← envelope_errors jr_host_envelope_bytes results (pe_host_envelope_bytes p);
      device ← envelope_errors jr_device_envelope_bytes results (pe_device_envelope_bytes p);
      Ok (Some {| pr_ttft_ms := ttft_ms; pr_mean_itl_ms := mean_itl_ms; pr_generation_ms := generation_ms;
                  pr_host_envelope_bytes := host; pr_device_envelope_bytes := device |})
    | _, _ => Ok None
    end
  end.

Record Statistics := {
  sc_count : Z;
  sc_median_generation_ms : float;
  sc_median_ttft_ms : float;
  sc_median_itl_ms : float;
  sc_statuses : list JobStatus
}.

(** [b - a for a, b in pairwise(l)] *)
Fixpoint pairwise_gaps (l : list float) : list float :=
  match l with
  | a :: (b :: _) as rest => fsub b a :: pairwise_gaps rest
  | _ => []
  end.

Definition statistics_of (s : SweepSpec) (results : list JobResult) (cid : string) : result Statistics :=
  let rows := samples_of results cid in
  generation ← py_median (last_arrival <$> rows);
  ttft ← py_median (first_arrival <$> rows);
  itl ← (if (1 <? wl_output_tokens (sw_workload s))%Z
         then py_median (x ← rows; pairwise_gaps (sm_client_arrivals_ms x)) else Ok f0);
  Ok {| sc_count := Z.of_nat (length rows); sc_median_generation_ms := generation;
        sc_median_ttft_ms := ttft; sc_median_itl_ms := itl; sc_statuses := statuses_of results cid |}.

(** ** The summary *)

Record Summary := {
  su_sweep_digest : string;
  su_candidate_count : Z;
  su_complete_coverage : bool;
  su_selected_health_passed : bool;
  su_decision : Decision_;
  su_selected_candidate_id : string;
  su_best_candidate_id : option string;
  su_observed_regret : option float;
  su_bootstrap_95_interval : option (float * float);
  su_reference_drift_fraction : option float;
  su_prediction_errors : list (string * option PredictionError);
  su_statistics : list (string * Statistics);
  su_unresolved : list string
}.

Definition settled (status : JobStatus) : bool :=
  (status == JOB_MEASURED) || (status == JOB_MEMORY_EXCLUDED).

Section run.
Context `{Hash, PyRandom}.

Definition summarize (s : SweepSpec) (results : list JobResult) : result Summary :=
  '(rounds, seen) ← scheduled_results s [] [] results;
  let complete_rounds := rounds_complete s rounds seen in
  plans ← placements s;
  let ids := dp_selected_candidate_id <$> plans in
  raise_if (existsb (fun r => negb (py_in (jr_candidate_id r) ids) || (jr_sweep_digest r != sw_sweep_digest s))
              results) ValueError "foreign sweep result" ;;
  let measured := measured_arrivals results ids in
  let complete := complete_rounds && forallb (candidate_covered s results) ids in
  drift ← reference_drift (reference_arrivals results);
  let health := if complete_rounds then references_healthy results else false in
  let stable := references_stable s results drift in
  let selected := dp_selected_candidate_id (sw_selected_plan s) in
  keys ← medians measured;
  regret ← observed_regret keys selected;
  interval ← bootstrap_interval s measured complete;
  errors ← mapM (fun cid =>
    e ← prediction_error (assoc_get cid (sw_predictions s)) (samples_of results cid)
          (List.filter (fun r => jr_status r == JOB_MEASURED) (candidate_results results cid));
    Ok (cid, e)) measured.*1;
  statistics ← mapM (fun cid => x ← statistics_of s results cid; Ok (cid, x)) measured.*1;
  Ok {| su_sweep_digest := sw_sweep_digest s; su_candidate_count := Z.of_nat (length ids);
        su_complete_coverage := complete; su_selected_health_passed := health;
        su_decision := decide_sweep s complete stable health interval;
        su_selected_candidate_id := selected; su_best_candidate_id := snd <$> best_candidate keys;
        su_observed_regret := regret; su_bootstrap_95_interval := interval;
        su_reference_drift_fraction := drift; su_prediction_errors := errors; su_statistics := statistics;
        su_unresolved := List.filter (fun cid => nil_b (statuses_of results cid)
                                                 || existsb (fun x => negb (settled x)) (statuses_of results cid)) ids |}.

(** ** The run *)

(** [result.json] of a job: the result, and the digest written beside it. *)
Record Saved := { sv_result : JobResult; sv_digest : string }.

(** The files of the jobs: [result.json], [evidence.json]. *)
Record Store := { st_results : gmap string Saved; st_evidence : gmap string json }.

(** The executor of one job returns its result, and may leave [evidence.json]. *)
Abbreviation Executor := (string -> DeploymentPlan -> result (JobResult * option json)) (only parsing).

Record RunState := {
  rn_store : Store;
  rn_results : list JobResult;
  rn_executed : list string   (** the jobs given to the executor; [launched] is their number *)
}.

Definition save_result (job : string) (r : JobResult) (evidence : option json) (st : Store) : Store := {|
  st_results := <[job := {| sv_result := r; sv_digest := digest (JobResult_dump r) |}]> (st_results st);
  st_evidence := match evidence with Some e => <[job := e]> (st_evidence st) | None => st_evidence st end |}.

Definition load_saved (saved : Saved) : result JobResult :=
  raise_if (sv_digest saved != digest (JobResult_dump (sv_result saved))) ValueError
    "saved sweep result digest mismatch" ;;
  validate_JobResult (sv_result saved).

Definition check_evidence (job : string) (r : JobResult) (st : Store) : result unit :=
  match st_evidence st !! job with
  | None => raise OSError "evidence.json"
  | Some evidence => raise_if (digest evidence != jr_evidence_digest r) ValueError
                       "raw sweep evidence was changed"
  end.

(** The result of a job, saved or executed; [None] when the executor may not be called. *)
Definition obtain (s : SweepSpec) (execute : Executor) (maximum_jobs : option Z) (job : string)
    (plan : DeploymentPlan) (st : RunState) : result (option (JobResult * bool * RunState)) :=
  match st_results (rn_store st) !! job with
  | Some saved => r ← load_saved saved; Ok (Some (r, false, st))
  | None =>
    if match maximum_jobs with Some m => (m <=? Z.of_nat (length (rn_executed st)))%Z | None => false end
    then Ok None
    else
      '(r, evidence) ← execute job plan;
      validate_result s r job plan ;;
      Ok (Some (r, true, {| rn_store := save_result job r evidence (rn_store st); rn_results := rn_results st;
                            rn_executed := rn_executed st ++ [job] |}))
  end.

Definition add_result (r : JobResult) (st : RunState) : RunState :=
  {| rn_store := rn_store st; rn_results := rn_results st ++ [r]; rn_executed := rn_executed st |}.

(** The jobs of a round; a summary ends the run. *)
Fixpoint run_jobs (s : SweepSpec) (execute : Executor) (maximum_jobs : option Z)
    (jobs : list (string * DeploymentPlan)) (st : RunState) : result (option Summary * RunState) :=
  match jobs with
  | [] => Ok (None, st)
  | (job, plan) :: rest =>
    obtained ← obtain s execute maximum_jobs job plan st;
    match obtained with
    | None => summary ← summarize s (rn_results st); Ok (Some summary, st)
    | Some (r, executed, st) =>
      validate_result s r job plan ;;
      check_evidence job r (rn_store st) ;;
      let st := add_result r st in
      if executed && py_startswith "interrupted" (jr_detail r)
      then summary ← summarize s (rn_results st); Ok (Some summary, st)
      else run_jobs s execute maximum_jobs rest st
    end
  end.

Fixpoint run_rounds (s : SweepSpec) (execute : Executor) (maximum_jobs : option Z)
    (rounds : list Z) (st : RunState) : result (Summary * RunState) :=
  match rounds with
  | [] => summary ← summarize s (rn_results st); Ok (summary, st)
  | i :: rest =>
    jobs ← schedule s i;
    '(ended, st) ← run_jobs s execute maximum_jobs jobs st;
    match ended with
    | Some summary => Ok (summary, st)
    | None =>
      summary ← summarize s (rn_results st);
      if (sw_repetitions s <=? i + 1)%Z && (su_decision summary != INCONCLUSIVE)
      then Ok (summary, st)
      else run_rounds s execute maximum_jobs rest st
    end
  end.

Definition run (s : SweepSpec) (execute : Executor) (maximum_jobs : option Z) (store : Store)
    : result (Summary * RunState) :=
  run_rounds s execute maximum_jobs (py_range 0 (sw_maximum_repetitions s))
    {| rn_store := store; rn_results := []; rn_executed := [] |}.
End run.
