(* ===== verification/SweepRun.v ===== *)
(** * What a sweep shows (src/python/hllm_control/qualification/sweep.py)

    Theorems on Sweep.v: a round schedules every placement once; a decision [pass] rests on
    complete, exact and stable results; a run only adds results, executes no job twice and
    can be repeated from its files; the reference jobs of a sweep deploy the plan that
    [create_plan] selected. *)

From Stdlib Require Import SpecFloat.
From stdpp Require Import strings gmap.
From S2P Require Export Sweep.

(** ** Shuffles *)

Lemma length_omap_le {A B} (f : A -> option B) l : (length (omap f l) <= length l)%nat.
Proof. induction l as [|x l IH]; [done|]. simpl. destruct (f x); simpl; [by apply le_n_S|by apply Nat.le_le_succ_r]. Qed.

Lemma insert_swap_Permutation {A} (l : list A) i x y : l !! i = Some x -> x :: <[i := y]> l ≡ₚ y :: l.
Proof.
  revert i. induction l as [|z l IH]; intros [|i] Hi; simplify_eq/=; [apply perm_swap|].
  by rewrite perm_swap, IH, perm_swap.
Qed.

Lemma py_swap_Permutation {A} i j (l : list A) : py_swap i j l ≡ₚ l.
Proof.
  unfold py_swap. destruct (l !! i) as [x|] eqn:Hi; [|done]. destruct (l !! j) as [y|] eqn:Hj; [|done].
  assert (Hj' : <[i := y]> l !! j = Some y).
  { destruct (decide (i = j)) as [->|Hne]; [|by rewrite list_lookup_insert_ne].
    apply list_lookup_insert_eq. by apply lookup_lt_Some in Hi. }
  apply (Permutation_cons_inv (a := y)). rewrite (insert_swap_Permutation _ j y x Hj').
  by apply insert_swap_Permutation.
Qed.

Section sweep.
Context `{Hash, PyRandomLaws}.

Lemma shuffle_Permutation {A} (l : list A) g : shuffle l g ≡ₚ l.
Proof.
  unfold shuffle. generalize (length l - 1)%nat. intros i. revert l g.
  induction i as [|i IH]; intros l g; cbn [shuffle_down]; [done|].
  destruct (rng_below _ g) as [j g']. by rewrite IH, py_swap_Permutation.
Qed.

Lemma choices_elem {A} k (l : list A) g x : x ∈ (choices k l g).1 -> x ∈ l.
Proof.
  revert g. induction k as [|k IH]; intros g; simpl; [by intros ?%not_elem_of_nil|].
  destruct (rng_index _ g) as [j g']. destruct (choices k l g') as [rest g''] eqn:E. simpl.
  rewrite elem_of_app. intros [Hx|Hx].
  - destruct (l !! Z.to_nat j) eqn:El; simpl in Hx; [|by apply not_elem_of_nil in Hx].
    apply list_elem_of_singleton in Hx as ->. by apply list_elem_of_lookup_2 in El.
  - apply (IH g'). by rewrite E.
Qed.

Lemma choices_length {A} k (l : list A) g : l <> [] -> length (choices k l g).1 = k.
Proof.
  intros Hl. revert g. induction k as [|k IH]; intros g; simpl; [done|].
  pose proof (rng_index_range (Z.of_nat (length l)) g) as Hr.
  destruct (rng_index _ g) as [j g']. specialize (IH g'). destruct (choices k l g') as [rest g'']. simpl in *.
  destruct (lookup_lt_is_Some_2 l (Z.to_nat j)) as [x ->]; [destruct l; simpl in *; [done|lia]|]. simpl. by rewrite IH.
Qed.

(** ** Placements and schedules *)

Lemma sweep_placement_spec s first final split p : sweep_placement s first final split = Ok p ->
  dp_selected_candidate_id p = candidate_id_of first final split /\ dp_split_layer p = split
  /\ dp_stages p = (let '(s0, s1) := assignments_for first final split (mc_num_layers (mm_config (sw_manifest s)))
                    in [s0; s1])
  /\ dp_plan_digest p = digest (DeploymentPlan_unsigned p).
Proof. unfold sweep_placement, validate_DeploymentPlan. simpl. intros E. by inv_ok. Qed.

Lemma placements_spec s plans : placements s = Ok plans -> exists keys, placement_keys s = Ok keys /\
  Forall2 (fun '(first, final, split) p => sweep_placement s first final split = Ok p) keys plans.
Proof.
  unfold placements. intros E. inv_ok. exists v. split; [done|]. apply mapM_ok in E.
  eapply Forall2_impl; [exact E|]. by intros [[? ?] ?] p.
Qed.

Definition references (i : Z) (selected : DeploymentPlan) : list (string * DeploymentPlan) :=
  [(job_round i +:+ "-reference-before", selected); (job_round i +:+ "-reference-after", selected)].

Lemma schedule_spec s i jobs : schedule s i = Ok jobs -> exists plans candidates selected,
  placements s = Ok plans /\ candidates ≡ₚ plans /\ selected ∈ plans /\
  dp_selected_candidate_id selected = dp_selected_candidate_id (sw_selected_plan s) /\
  jobs = [(job_round i +:+ "-reference-before", selected)]
         ++ ((fun '(k, p) => (job_round i +:+ "-c" +:+ pad3 k, p)) <$> py_enumerate_from 0 candidates)
         ++ [(job_round i +:+ "-reference-after", selected)].
Proof.
  unfold schedule. intros E. inv_ok. destruct (List.find _ _) as [selected|] eqn:Ef; [|done].
  apply Ok_inj in E as <-. apply find_some_elem in Ef as [Hin Heq]. bool_to_prop.
  exists v, (shuffle v (rng_seed (sw_seed s + i))), selected.
  split_and!; [done|apply shuffle_Permutation| |done|done]. by rewrite shuffle_Permutation in Hin.
Qed.

Definition job_name (i k : Z) : string := job_round i +:+ "-c" +:+ pad3 k.

Definition named (i start : Z) (plans : list DeploymentPlan) : list (string * DeploymentPlan) :=
  (fun '(k, p) => (job_name i k, p)) <$> py_enumerate_from start plans.

Lemma lookup_named i start plans n x : named i start plans !! n = Some x <->
  exists p, plans !! n = Some p /\ x = (job_name i (start + Z.of_nat n), p).
Proof.
  unfold named. rewrite list_lookup_fmap, fmap_Some. setoid_rewrite lookup_py_enumerate. split.
  - intros (? & (p & Hp & ->) & ->). by exists p.
  - intros (p & Hp & ->). eauto.
Qed.

Lemma job_ids_NoDup i start (plans : list DeploymentPlan) : (0 <= start)%Z -> NoDup (named i start plans).*1.
Proof.
  intros Hs. apply NoDup_alt. intros n m x Hn Hm. rewrite list_lookup_fmap in Hn, Hm.
  apply fmap_Some in Hn as (? & (p & _ & ->)%lookup_named & ->), Hm as (? & (q & _ & ->)%lookup_named & Hx).
  simpl in Hx. unfold job_name in Hx. apply str_app_inj_l, (str_app_inj_l "-c"), pad3_inj in Hx; lia.
Qed.

Lemma named_snd i start plans : (named i start plans).*2 = plans.
Proof.
  unfold named. revert start. induction plans as [|p plans IH]; intros start; [done|]. simpl. by rewrite IH.
Qed.

Lemma named_fst i start plans job : job ∈ (named i start plans).*1 -> exists k, job = job_name i k.
Proof.
  intros [n Hn]%list_elem_of_lookup. rewrite list_lookup_fmap in Hn.
  apply fmap_Some in Hn as (? & (p & _ & ->)%lookup_named & ->). eauto.
Qed.

Lemma schedule_NoDup s i jobs : schedule s i = Ok jobs -> NoDup jobs.*1.
Proof.
  intros (plans & candidates & selected & _ & _ & _ & _ & ->)%schedule_spec.
  change ((fun '(k, p) => (job_round i +:+ "-c" +:+ pad3 k, p)) <$> py_enumerate_from 0 candidates)
    with (named i 0 candidates).
  rewrite !fmap_app. cbn [fmap list_fmap fst app]. constructor.
  - rewrite elem_of_app, list_elem_of_singleton. intros [[k Hk]%named_fst|Hk].
    + unfold job_name in Hk. apply str_app_inj_l in Hk. discriminate.
    + apply str_app_inj_l in Hk. discriminate.
  - apply NoDup_app. split; [by apply job_ids_NoDup|]. split; [|apply NoDup_singleton].
    intros job [k ->]%named_fst Hk%list_elem_of_singleton. unfold job_name in Hk. apply str_app_inj_l in Hk. discriminate.
Qed.


(** ** Scheduled results *)

Abbreviation Jobs := (list (string * DeploymentPlan)) (only parsing).

Definition rounds_ok (s : SweepSpec) (rounds : list (Z * Jobs)) : Prop :=
  NoDup rounds.*1 /\ Forall (fun '(i, jobs) => (0 <= i)%Z /\ schedule s i = Ok jobs) rounds.

(** The result is that of a job of one of the rounds, and passes its checks. *)
Definition result_scheduled (s : SweepSpec) (rounds : list (Z * Jobs)) (r : JobResult) : Prop :=
  exists i jobs plan, (i, jobs) ∈ rounds /\ (jr_job_id r, plan) ∈ jobs
    /\ validate_result s r (jr_job_id r) plan = Ok tt.

Lemma round_of_nonneg job i : round_of job = Some i -> (0 <= i)%Z.
Proof. unfold round_of. intros. repeat case_match; simplify_eq. lia. Qed.

Lemma jobs_of_round_spec s i rounds jobs rounds' :
  jobs_of_round s i rounds = Ok (jobs, rounds') -> (0 <= i)%Z -> rounds_ok s rounds ->
  rounds_ok s rounds' /\ (i, jobs) ∈ rounds' /\ forall x, x ∈ rounds -> x ∈ rounds'.
Proof.
  unfold jobs_of_round. intros E Hi [Hnd Hall]. destruct (assoc_get i rounds) as [j|] eqn:Eg.
  - injection E as <- <-. apply assoc_get_elem in Eg. by repeat split.
  - inv_ok. subst. apply assoc_get_None in Eg. rewrite assoc_set_fresh by done. repeat split.
    + rewrite fmap_app. simpl. apply NoDup_app. split; [done|]. split; [|apply NoDup_singleton]. set_solver.
    + apply Forall_app. split; [done|]. by repeat constructor.
    + apply elem_of_app. right. by apply list_elem_of_singleton.
    + intros x Hx. apply elem_of_app. by left.
Qed.

Lemma scheduled_results_spec s results rounds seen rounds' seen' :
  scheduled_results s rounds seen results = Ok (rounds', seen') -> rounds_ok s rounds -> NoDup seen ->
  rounds_ok s rounds' /\ (forall x, x ∈ rounds -> x ∈ rounds')
  /\ NoDup seen' /\ seen' = reverse (jr_job_id <$> results) ++ seen
  /\ Forall (result_scheduled s rounds') results.
Proof.
  revert rounds seen. induction results as [|r rest IH]; intros rounds seen E Hr Hs; simpl in E.
  { injection E as <- <-. split_and!; [done|done|done|done|constructor]. }
  apply bind_ok in E as (u & Hseen%raise_if_ok & E). apply (proj1 (py_in_false _ _)) in Hseen.
  destruct (round_of _) as [i|] eqn:Ei; [|done].
  destruct (sw_maximum_repetitions s <=? i)%Z; [done|]. apply bind_ok in E as ([jobs rounds1] & Ej & E).
  destruct (assoc_get (jr_job_id r) jobs) as [plan|] eqn:Ea; [|done]. apply bind_ok in E as ([] & Hv & E).
  destruct (jobs_of_round_spec _ _ _ _ _ Ej (round_of_nonneg _ _ Ei) Hr) as (Hr1 & Hin & Hsub).
  destruct (IH rounds1 (jr_job_id r :: seen) E Hr1) as (Hr2 & Hsub2 & Hnd & Heq & Hall); [by constructor|].
  split; [done|]. split; [auto|]. split; [done|]. split.
  - rewrite Heq, fmap_cons, reverse_cons, <- app_assoc. done.
  - constructor; [|done]. exists i, jobs, plan. split_and!; [auto|by apply assoc_get_elem|done].
Qed.

Lemma consecutive_rounds rounds : NoDup rounds -> rounds <> [] -> rounds_consecutive rounds = true ->
  rounds ≡ₚ py_range 0 (Z.of_nat (length rounds)).
Proof.
  unfold rounds_consecutive. intros Hnd Hne [Hr1%forallb_Forall Hr2%forallb_Forall]%andb_true_iff.
  set (expected := py_range 0 _) in *.
  assert (Hp : rounds ≡ₚ expected).
  { apply NoDup_Permutation; [done|apply NoDup_py_range|]. intros x. rewrite Forall_forall in Hr1, Hr2.
    split; intros Hx; apply py_in_elem; auto. }
  rewrite Hp. unfold expected at 2. rewrite length_py_range.
  destruct (py_max rounds) as [m|] eqn:Em; [|by apply py_max_None in Em].
  apply py_max_spec in Em as [Hm _]. unfold expected in *. rewrite Hp in Hm. apply elem_of_py_range in Hm. simpl in *.
  by rewrite Z2Nat.id by lia; rewrite Z.sub_0_r.
Qed.

(** ** Decisions *)

(** Every job of the rounds below [n] has one result, and there is no other result. *)
Record complete_evidence (s : SweepSpec) (results : list JobResult) (n : Z) : Prop := {
  ce_once : NoDup (jr_job_id <$> results);
  ce_all : forall i, (0 <= i < n)%Z -> exists jobs, schedule s i = Ok jobs /\
    forall job plan, (job, plan) ∈ jobs -> exists r, r ∈ results /\ jr_job_id r = job;
  ce_only : Forall (fun r => exists i jobs plan, (0 <= i < n)%Z /\ schedule s i = Ok jobs
    /\ (jr_job_id r, plan) ∈ jobs /\ validate_result s r (jr_job_id r) plan = Ok tt) results
}.

Lemma summarize_scheduled s results rounds seen :
  scheduled_results s [] [] results = Ok (rounds, seen) ->
  (1 <= sw_repetitions s)%Z ->
  rounds_complete s rounds seen = true ->
  exists n, (sw_repetitions s <= n)%Z /\ complete_evidence s results n.
Proof.
  intros E Hrep Hc. destruct (scheduled_results_spec _ _ _ _ _ _ E) as ((Hnd & Hok) & _ & Hs & Hseen & Hall);
    [by split; [constructor|]|constructor|].
  rewrite app_nil_r in Hseen. unfold rounds_complete in Hc. rewrite !andb_true_iff in Hc. destruct Hc as [[Hlen Hcons] Hjobs].
  bool_to_prop. assert (Hp : rounds.*1 ≡ₚ py_range 0 (Z.of_nat (length rounds))).
  { rewrite <- (length_fmap fst rounds). apply consecutive_rounds; [done| |done].
    destruct rounds; [simpl in Hlen; lia|done]. }
  rewrite Forall_forall in Hok. rewrite Forall_forall in Hjobs. rewrite Forall_forall in Hall.
  exists (Z.of_nat (length rounds)). split; [done|]. split.
  - rewrite Hseen in Hs. by rewrite reverse_Permutation in Hs.
  - intros i Hi. apply elem_of_py_range in Hi. rewrite <- Hp in Hi.
    apply list_elem_of_fmap in Hi as ([i' jobs] & -> & Hin). exists jobs.
    split; [by apply (Hok (i', jobs))|]. intros job plan Hj. specialize (Hjobs _ Hin). simpl in Hjobs.
    apply forallb_Forall in Hjobs. rewrite Forall_forall in Hjobs. specialize (Hjobs _ Hj). simpl in Hjobs.
    apply py_in_elem in Hjobs. rewrite Hseen in Hjobs. rewrite reverse_Permutation in Hjobs.
    apply list_elem_of_fmap in Hjobs as (r & -> & Hr). by exists r.
  - apply Forall_forall. intros r Hr. destruct (Hall r Hr) as (i & jobs & plan & Hin & Hj & Hv).
    exists i, jobs, plan. destruct (Hok _ Hin) as [_ Hsch]. split_and!; try done;
    assert (Hi : i ∈ rounds.*1) by (apply list_elem_of_fmap; by exists (i, jobs)); rewrite Hp in Hi; apply elem_of_py_range in Hi; lia.
Qed.

(** A measured result ran its warmups, cleaned up and reproduced the reference every time. *)
Definition exact_result (s : SweepSpec) (r : JobResult) : Prop :=
  jr_cleanup_passed r = true /\ Z.of_nat (length (jr_warmups r)) = sw_warmups s
  /\ exists sample, jr_sample r = Some sample
     /\ Forall (fun x => sm_token_ids x = rf_generated_ids (sw_reference s)) (jr_warmups r ++ [sample]).

(** An exclusion rests on complete memory evidence whose fit is unsafe. *)
Definition excluded_result (s : SweepSpec) (r : JobResult) : Prop :=
  exists e fit, jr_memory_exclusion r = Some e /\ completed_memory (pa_measurement (mx_profile e)) = true
    /\ assess_fit (mx_profile e) (mx_capacity e) (mx_host e) (mx_device e) (mx_mlx_fit_policy e) = Ok fit
    /\ fr_status fit = UNSAFE.

Lemma validate_result_spec s r job plan : validate_result s r job plan = Ok tt ->
  jr_candidate_id r = dp_selected_candidate_id plan
  /\ (jr_status r = JOB_MEASURED -> exact_result s r)
  /\ (jr_status r = JOB_MEMORY_EXCLUDED -> excluded_result s r).
Proof.
  unfold validate_result. intros E. apply bind_ok in E as (u & Hid%raise_if_ok & E). apply bind_ok in E as (u' & Hx & Hm).
  bool_to_prop. injection Hid as _ _ Hid. split; [done|]. split; intros Hs; rewrite Hs in Hx, Hm.
  - simpl in Hm. unfold check_measured in Hm. destruct (jr_sample r) as [sample|] eqn:Es; [|done].
    apply bind_ok in Hm as (? & Hc%raise_if_ok & Ht%raise_if_ok). bool_to_prop. split; [done|]. split; [done|].
    exists sample. split; [done|]. eapply Forall_impl; [exact Ht|]. intros y Hxx. simpl in Hxx. by bool_to_prop.
  - simpl in Hx. unfold check_exclusion in Hx. destruct (jr_memory_exclusion r) as [e|] eqn:Ee; [|done].
    apply bind_ok in Hx as (? & Hc%raise_if_ok & Hx). apply bind_ok in Hx as (? & _ & Hx).
    apply bind_ok in Hx as (fit & Hf & Hu%raise_if_ok). bool_to_prop. by exists e, fit.
Qed.

(** What the summary of a sweep says of one candidate. *)
Definition covered (s : SweepSpec) (results : list JobResult) (cid : string) : Prop :=
  (sw_repetitions s <= Z.of_nat (length (candidate_results results cid)))%Z
  /\ (Forall (fun r => jr_status r = JOB_MEASURED /\ exact_result s r) (candidate_results results cid)
      \/ Forall (fun r => jr_status r = JOB_MEMORY_EXCLUDED /\ excluded_result s r) (candidate_results results cid)).

Lemma candidate_covered_spec s results cid :
  Forall (fun r => exists plan, validate_result s r (jr_job_id r) plan = Ok tt) results ->
  candidate_covered s results cid = true -> covered s results cid.
Proof.
  intros Hv Hc. rewrite Forall_forall in Hv.
  assert (Hst : forall status, all_status status (statuses_of results cid) = true ->
    Forall (fun r => jr_status r = status) (candidate_results results cid)).
  { unfold all_status, statuses_of. intros status [_ Ha%forallb_Forall]%andb_true_iff.
    rewrite Forall_fmap in Ha. eapply Forall_impl; [exact Ha|]. intros r Hr. by apply (proj1 (pyeqb_eq _ _)) in Hr. }
  assert (Hin : forall r, r ∈ candidate_results results cid -> r ∈ results).
  { intros r [_ ?]%elem_of_filterb. done. }
  assert (Hlen : (length (samples_of results cid) <= length (candidate_results results cid))%nat) by apply length_omap_le.
  unfold candidate_covered in Hc. apply orb_true_iff in Hc as [[Hn Ha]%andb_true_iff|[Hn Ha]%andb_true_iff]; bool_to_prop;
    apply Hst in Ha; rewrite Forall_forall in Ha.
  - split; [lia|]. left. apply Forall_forall. intros r Hr. destruct (Hv r (Hin r Hr)) as [plan Hp].
    destruct (validate_result_spec _ _ _ _ Hp) as (_ & Hm & _). auto.
  - unfold statuses_of in Hn. rewrite length_fmap in Hn. split; [lia|]. right. apply Forall_forall. intros r Hr.
    destruct (Hv r (Hin r Hr)) as [plan Hp]. destruct (validate_result_spec _ _ _ _ Hp) as (_ & _ & Hx). auto.
Qed.

(** C10: a sweep that decides [pass] ran completely: some number of rounds, at least the
    frozen repetitions, of which every scheduled job has exactly one result and no other
    result counts, each passing the checks of its placement; every placement was either
    measured every time with the reference's tokens or excluded every time by unsafe memory
    evidence; every reference job was measured, at least twice per repetition, with a drift
    within the limit and a healthy selection after each round; and the upper end of the
    bootstrap interval of the regret is within the limit. *)
Theorem sweep_pass_sound s results summary :
  summarize s results = Ok summary -> su_decision summary = PASS -> (1 <= sw_repetitions s)%Z ->
  exists n plans drift low high,
    (sw_repetitions s <= n)%Z /\ complete_evidence s results n
    /\ placements s = Ok plans
    /\ Forall (fun p => covered s results (dp_selected_candidate_id p)) plans
    /\ Forall (fun r => is_reference r = true -> py_endswith "reference-after" (jr_job_id r) = true ->
                 jr_selected_health_passed r = Some true) results
    /\ length (reference_arrivals results) = length (List.filter is_reference results)
    /\ (2 * sw_repetitions s <= Z.of_nat (length (reference_arrivals results)))%Z
    /\ reference_drift (reference_arrivals results) = Ok (Some drift) /\ fle drift (sw_drift_limit s) = true
    /\ su_bootstrap_95_interval summary = Some (low, high) /\ fle high (sw_regret_limit s) = true.
Proof.
  unfold summarize. intros E Hpass Hrep. apply bind_ok in E as ([rounds seen] & Esch & E).
  apply bind_ok in E as (plans & Epl & E). apply bind_ok in E as (? & _ & E). apply bind_ok in E as (drift & Edr & E).
  apply bind_ok in E as (keys & _ & E). apply bind_ok in E as (regret & _ & E). apply bind_ok in E as (interval & _ & E).
  apply bind_ok in E as (errors & _ & E). apply bind_ok in E as (statistics & _ & E). apply Ok_inj in E as <-.
  cbn [su_decision su_bootstrap_95_interval] in *. unfold decide_sweep in Hpass.
  destruct (rounds_complete s rounds seen) eqn:Erc; [|done]. cbn [andb] in Hpass.
  destruct (forallb _ _) eqn:Ecov; [|done]. destruct (references_stable s results drift) eqn:Est; [|done].
  destruct interval as [[low high]|]; [|done]. destruct (references_healthy results) eqn:Eh; [|done].
  simpl in Hpass. destruct (fle high _) eqn:Efle; [|by destruct (flt _ _)].
  destruct (summarize_scheduled _ _ _ _ Esch Hrep Erc) as (n & Hn & Hev).
  unfold references_stable in Est. rewrite !andb_true_iff in Est. destruct Est as [[Hlen Hall] Hd].
  destruct drift as [drift|]; [|done]. bool_to_prop. apply Nat.eqb_eq in Hall.
  exists n, plans, drift, low, high. split_and!; try done.
  - rewrite Forall_fmap in Ecov. eapply Forall_impl; [exact Ecov|]. intros p Hp. simpl in Hp.
    apply candidate_covered_spec; [|done]. eapply Forall_impl; [exact (ce_only _ _ _ Hev)|].
    intros r (i & jobs & plan & _ & _ & _ & Hv). by exists plan.
  - unfold references_healthy in Eh. apply forallb_Forall in Eh. rewrite Forall_forall in Eh. apply Forall_forall.
    intros r Hr Href Hend. assert (Hin : r ∈ List.filter (fun r => py_endswith "reference-after" (jr_job_id r))
      (List.filter is_reference results)) by (apply elem_of_filterb; split; [done|by apply elem_of_filterb]).
    specialize (Eh r Hin). by apply bool_decide_eq_true in Eh.
Qed.

(** ** Runs *)

Abbreviation Executor := (string -> DeploymentPlan -> result (JobResult * option json)) (only parsing).

(** A store that has kept every result, with the evidence it had. *)
Definition store_le (a b : Store) : Prop :=
  st_results a ⊆ st_results b
  /\ forall job, is_Some (st_results a !! job) -> st_evidence b !! job = st_evidence a !! job.

#[export] Instance store_le_preorder : PreOrder store_le.
Proof.
  split; [by intros a|]. intros a b c [H1' H2'] [H3' H4']. split; [by etrans|].
  intros job Ha. rewrite H4', H2'; [done|done|]. destruct Ha as [v Ha]. exists v. by eapply lookup_weaken.
Qed.

Lemma save_result_le job r evidence st : st_results st !! job = None -> store_le st (save_result job r evidence st).
Proof.
  intros Hn. split; simpl; [by apply insert_subseteq|]. intros job' [v Hv].
  destruct evidence; [|done]. rewrite lookup_insert_ne; [done|]. intros ->. congruence.
Qed.

(** What a step of a run does to its state. *)
Record run_le (s : SweepSpec) (maximum_jobs : option Z) (a b : RunState) : Prop := {
  rl_store : store_le (rn_store a) (rn_store b);
  rl_executed : exists fresh, rn_executed b = rn_executed a ++ fresh /\ NoDup fresh
    /\ Forall (fun job => st_results (rn_store a) !! job = None
         /\ exists r plan, st_results (rn_store b) !! job
              = Some {| sv_result := r; sv_digest := digest (JobResult_dump r) |}
            /\ validate_result s r job plan = Ok tt) fresh
    /\ forall job, st_results (rn_store a) !! job = None -> is_Some (st_results (rn_store b) !! job) -> job ∈ fresh;
  rl_limit : forall m, maximum_jobs = Some m -> (Z.of_nat (length (rn_executed b)) <= Z.max m (Z.of_nat (length (rn_executed a))))%Z
}.

Lemma run_le_refl s m st : run_le s m st st.
Proof.
  split; [done| |lia]. exists []. rewrite app_nil_r. split_and!; [done|constructor|constructor|].
  intros job E [? ?]. congruence.
Qed.

Lemma run_le_trans s m a b c : run_le s m a b -> run_le s m b c -> run_le s m a c.
Proof.
  intros [Ha (f1 & E1 & N1 & F1 & C1) L1] [Hb (f2 & E2 & N2 & F2 & C2) L2]. split; [by etrans| |].
  - exists (f1 ++ f2). rewrite E2, E1, app_assoc. split; [done|]. rewrite Forall_forall in F1. rewrite Forall_forall in F2.
    split; [|split].
    + apply NoDup_app. split; [done|]. split; [|done]. intros job Hj1 Hj2.
      destruct (F1 job Hj1) as (_ & r & plan & Hr & _). destruct (F2 job Hj2) as [Hn _]. congruence.
    + apply Forall_forall. intros job [Hj|Hj]%elem_of_app.
      * destruct (F1 job Hj) as (Hn & r & plan & Hr & Hv). split; [done|]. exists r, plan. split; [|done].
        eapply lookup_weaken; [exact Hr|apply Hb].
      * destruct (F2 job Hj) as (Hn & r & plan & Hr & Hv). split; [|by exists r, plan].
        apply eq_None_not_Some. intros [v Hv']. apply (lookup_weaken _ (st_results (rn_store b))) in Hv'; [congruence|apply Ha].
    + intros job Hn Hs. destruct (st_results (rn_store b) !! job) eqn:Eb; apply elem_of_app; [left|right]; [|by apply C2].
      apply C1; [done|]. by rewrite Eb.
  - intros k Hk. specialize (L1 k Hk). specialize (L2 k Hk). lia.
Qed.

Lemma obtain_le s execute m job plan st r executed st' :
  obtain s execute m job plan st = Ok (Some (r, executed, st')) -> run_le s m st st'.
Proof.
  unfold obtain. destruct (st_results (rn_store st) !! job) as [saved|] eqn:Ej.
  { intros E. apply bind_ok in E as (? & _ & E). injection E as <- <- <-. apply run_le_refl. }
  destruct (match m with Some _ => _ | None => _ end) eqn:Em; [done|]. intros E.
  apply bind_ok in E as ([r' evidence] & _ & E). apply bind_ok in E as ([] & Hv & E). injection E as <- <- <-.
  split; simpl; [by apply save_result_le| |].
  - exists [job]. split_and!; [done|apply NoDup_singleton| |].
    + constructor; [|done]. split; [done|]. exists r', plan. by rewrite lookup_insert_eq.
    + intros job' Hn [v Hs]. apply list_elem_of_singleton. destruct (decide (job' = job)); [done|].
      rewrite lookup_insert_ne in Hs by done. congruence.
  - intros k ->. apply Z.leb_gt in Em. rewrite length_app. simpl. lia.
Qed.

Lemma run_jobs_le s execute m jobs st ended st' :
  run_jobs s execute m jobs st = Ok (ended, st') ->
  run_le s m st st' /\ forall summary, ended = Some summary -> summarize s (rn_results st') = Ok summary.
Proof.
  revert st. induction jobs as [|[job plan] rest IH]; intros st E; cbn [run_jobs] in E.
  { injection E as <- <-. split; [apply run_le_refl|done]. }
  apply bind_ok in E as (obtained & Eo & E). destruct obtained as [[[r executed] st1]|].
  - apply obtain_le in Eo. apply bind_ok in E as (? & _ & E). apply bind_ok in E as (? & _ & E).
    assert (Ha : run_le s m st (add_result r st1)) by (destruct Eo; by split).
    destruct (executed && _).
    + apply bind_ok in E as (summary & Es & E). injection E as <- <-. split; [done|]. by intros ? [= <-].
    + apply IH in E as [Hle Hs]. split; [by eapply run_le_trans|done].
  - apply bind_ok in E as (summary & Es & E). injection E as <- <-. split; [apply run_le_refl|]. by intros ? [= <-].
Qed.

Lemma run_rounds_le s execute m rounds st summary st' :
  run_rounds s execute m rounds st = Ok (summary, st') ->
  run_le s m st st' /\ summarize s (rn_results st') = Ok summary.
Proof.
  revert st. induction rounds as [|i rest IH]; intros st E; cbn [run_rounds] in E.
  { apply bind_ok in E as (? & Es & E). injection E as <- <-. split; [apply run_le_refl|done]. }
  apply bind_ok in E as (jobs & _ & E). apply bind_ok in E as ([ended st1] & Ej & E).
  apply run_jobs_le in Ej as [Hle Hend]. destruct ended as [summary1|].
  { injection E as <- <-. auto. }
  apply bind_ok in E as (summary1 & Es & E). destruct (_ && _).
  - injection E as <- <-. auto.
  - apply IH in E as [Hle' Hs]. split; [by eapply run_le_trans|done].
Qed.

(** C22: a run of the sweep only adds to the files it finds: every saved result stays as it
    was and keeps its evidence; a job is given to the executor at most once, only when it had
    no saved result, never more jobs than the limit, and every job that gains a result was
    executed, passed its checks and was saved with its digest.  The summary returned is that
    of the results the run went through. *)
Theorem run_appends s execute m store summary st :
  run s execute m store = Ok (summary, st) ->
  st_results store ⊆ st_results (rn_store st)
  /\ (forall job, is_Some (st_results store !! job) -> st_evidence (rn_store st) !! job = st_evidence store !! job)
  /\ NoDup (rn_executed st)
  /\ (forall job, job ∈ rn_executed st <->
        st_results store !! job = None /\ is_Some (st_results (rn_store st) !! job))
  /\ Forall (fun job => exists r plan, st_results (rn_store st) !! job
               = Some {| sv_result := r; sv_digest := digest (JobResult_dump r) |}
             /\ validate_result s r job plan = Ok tt) (rn_executed st)
  /\ (forall k, m = Some k -> (0 <= k)%Z -> (Z.of_nat (length (rn_executed st)) <= k)%Z)
  /\ summarize s (rn_results st) = Ok summary.
Proof.
  unfold run. intros E. apply run_rounds_le in E as [[[Hst Hev] (fresh & He & Hnd & Hf & Hc) Hl] Hs].
  simpl in *. subst fresh. rewrite Forall_forall in Hf. split_and!; try done.
  - intros job. split; [|by intros []; apply Hc]. intros Hj.
    destruct (Hf job Hj) as (Hn & r & plan & Hr & _). by rewrite Hr.
  - apply Forall_forall. intros job Hj. by destruct (Hf job Hj).
  - intros k Hk Hk0. specialize (Hl k Hk). lia.
Qed.

(** ** Repeating a run *)

(** No executed job was interrupted. *)
Definition uninterrupted (st : RunState) : Prop := forall job saved, job ∈ rn_executed st ->
  st_results (rn_store st) !! job = Some saved -> py_startswith "interrupted" (jr_detail (sv_result saved)) = false.

Lemma uninterrupted_intro st :
  forallb (fun kv => negb (py_startswith "interrupted" (jr_detail (sv_result kv.2))))
    (map_to_list (st_results (rn_store st))) = true -> uninterrupted st.
Proof.
  intros Hall%forallb_Forall job saved _ Hs. rewrite Forall_forall in Hall.
  apply negb_true_iff, (Hall (job, saved)). by apply elem_of_map_to_list.
Qed.

(** Executors return what their type says: a valid [JobResult]. *)
Definition executor_typed (execute : Executor) : Prop := forall job plan r evidence,
  execute job plan = Ok (r, evidence) -> validate_JobResult r = Ok r.

Lemma run_le_executed s m a b job : run_le s m a b -> job ∈ rn_executed a -> job ∈ rn_executed b.
Proof. intros [_ (fresh & -> & _) _]. intros. apply elem_of_app. by left. Qed.

(** What the first run obtains, a run on its files loads. *)
Lemma obtain_again s execute execute' m m' job plan st r executed st' store :
  executor_typed execute ->
  obtain s execute m job plan st = Ok (Some (r, executed, st')) ->
  store_le (rn_store st') store ->
  (exists saved, st_results (rn_store st') !! job = Some saved /\ sv_result saved = r) /\
  (executed = true -> job ∈ rn_executed st') /\
  rn_results st' = rn_results st /\
  forall log, obtain s execute' m' job plan {| rn_store := store; rn_results := rn_results st; rn_executed := log |}
    = Ok (Some (r, false, {| rn_store := store; rn_results := rn_results st; rn_executed := log |})).
Proof.
  intros Ht E [Hst _]. unfold obtain in E. destruct (st_results (rn_store st) !! job) as [saved|] eqn:Ej.
  - apply bind_ok in E as (r' & El & E). injection E as <- <- <-. split_and!; [|done|done|].
    + exists saved. split; [done|]. unfold load_saved, validate_JobResult in El. by inv_ok.
    + intros log. unfold obtain. simpl. rewrite (lookup_weaken _ _ _ _ Ej Hst). by rewrite El.
  - destruct (match m with Some _ => _ | None => _ end); [done|].
    apply bind_ok in E as ([r' evidence] & Ex & E). apply bind_ok in E as ([] & _ & E). injection E as <- <- <-.
    simpl in *. split_and!; [|intros _; apply elem_of_app; right; by apply list_elem_of_singleton|done|].
    + eexists. split; [by rewrite lookup_insert_eq|done].
    + intros log. unfold obtain. simpl.
      rewrite (lookup_weaken _ _ job {| sv_result := r'; sv_digest := digest (JobResult_dump r') |} ltac:(by rewrite lookup_insert_eq) Hst).
      unfold load_saved. simpl. rewrite pyeqb_refl. simpl. by rewrite (Ht _ _ _ _ Ex).
Qed.

Definition quiet (executed : list string) (store : Store) : Prop := forall job saved, job ∈ executed ->
  st_results store !! job = Some saved -> py_startswith "interrupted" (jr_detail (sv_result saved)) = false.

Lemma run_jobs_again s execute execute' m' jobs st ended st' store :
  executor_typed execute ->
  run_jobs s execute None jobs st = Ok (ended, st') ->
  store_le (rn_store st') store -> quiet (rn_executed st') store ->
  ended = None /\ forall log,
    run_jobs s execute' m' jobs {| rn_store := store; rn_results := rn_results st; rn_executed := log |}
    = Ok (None, {| rn_store := store; rn_results := rn_results st'; rn_executed := log |}).
Proof.
  intros Ht. revert st. induction jobs as [|[job plan] rest IH]; intros st E Hle Hq; cbn [run_jobs] in E.
  { injection E as <- <-. done. }
  apply bind_ok in E as (obtained & Eo & E). destruct obtained as [[[r executed] st1]|].
  2:{ unfold obtain in Eo. destruct (st_results _ !! job); apply bind_ok in Eo as (? & ? & Eo); [done|].
      destruct x. by apply bind_ok in Eo as (? & ? & ?). }
  apply bind_ok in E as ([] & Hv & E). apply bind_ok in E as ([] & Hev & E).
  assert (Hl1 : run_le s None (add_result r st1) st').
  { destruct (executed && _); [|by apply run_jobs_le in E as [? _]].
    apply bind_ok in E as (? & _ & E). injection E as <- <-. apply run_le_refl. }
  assert (Hst1 : store_le (rn_store st1) store) by (etrans; [apply (rl_store _ _ _ _ Hl1)|done]).
  destruct (obtain_again s execute execute' None m' job plan st r executed st1 store Ht Eo Hst1)
    as ((saved & Hsaved & Hr) & Hexec & Hres & Hagain).
  assert (Hcheck : check_evidence job r store = Ok tt).
  { unfold check_evidence in *. destruct Hst1 as [_ He]. rewrite He; [done|]. by rewrite Hsaved. }
  destruct (executed && py_startswith "interrupted" (jr_detail r)) eqn:Eint.
  { apply andb_true_iff in Eint as [-> Hint]. exfalso.
    assert (Hj : job ∈ rn_executed st') by (apply (run_le_executed _ _ _ _ _ Hl1), Hexec; done).
    rewrite <- Hr, (Hq job saved Hj) in Hint; [done|]. eapply lookup_weaken; [exact Hsaved|apply Hst1]. }
  destruct (IH _ E Hle Hq) as [-> Hrest]. split; [done|]. intros log. cbn [run_jobs].
  rewrite Hagain. cbn [mbind result_bind]. rewrite Hv. cbn [mbind result_bind rn_store]. rewrite Hcheck.
  cbn [mbind result_bind andb]. unfold add_result at 1. cbn [rn_store rn_results rn_executed].
  rewrite <- Hrest. unfold add_result. cbn [rn_results]. by rewrite Hres.
Qed.

Lemma run_rounds_again s execute execute' m' rounds st summary st' store :
  executor_typed execute ->
  run_rounds s execute None rounds st = Ok (summary, st') ->
  store_le (rn_store st') store -> quiet (rn_executed st') store ->
  forall log,
    run_rounds s execute' m' rounds {| rn_store := store; rn_results := rn_results st; rn_executed := log |}
    = Ok (summary, {| rn_store := store; rn_results := rn_results st'; rn_executed := log |}).
Proof.
  intros Ht. revert st. induction rounds as [|i rest IH]; intros st E Hle Hq log; cbn [run_rounds] in E |- *.
  { apply bind_ok in E as (? & Es & E). injection E as <- <-. simpl. by rewrite Es. }
  apply bind_ok in E as (jobs & Ejobs & E). apply bind_ok in E as ([ended st1] & Ej & E). rewrite Ejobs. cbn [mbind result_bind].
  assert (Hl1 : run_le s None st1 st').
  { destruct ended; [injection E as <- <-; apply run_le_refl|]. apply bind_ok in E as (? & _ & E).
    destruct (_ && _); [injection E as <- <-; apply run_le_refl|]. by apply run_rounds_le in E as [? _]. }
  destruct (run_jobs_again s execute execute' m' jobs st ended st1 store Ht Ej) as [-> Hagain].
  - etrans; [apply (rl_store _ _ _ _ Hl1)|done].
  - intros job saved Hj. apply Hq. by eapply run_le_executed.
  - rewrite Hagain. cbn [mbind result_bind rn_results]. apply bind_ok in E as (summary1 & Es & E). rewrite Es. cbn [mbind result_bind].
    destruct (_ && _); [by injection E as <- <-|]. by apply (IH st1).
Qed.

(** C21: a run that was neither limited nor interrupted can be repeated: on the files it
    left, any later run - with any executor, any limit - executes nothing, changes no file
    and returns the same summary from the same results.  Resuming does not depend on
    anything the first run held in memory. *)
Theorem run_repeats s execute execute' m' store summary st :
  executor_typed execute ->
  run s execute None store = Ok (summary, st) ->
  uninterrupted st ->
  run s execute' m' (rn_store st)
  = Ok (summary, {| rn_store := rn_store st; rn_results := rn_results st; rn_executed := [] |}).
Proof.
  unfold run. intros Ht E Hu.
  exact (run_rounds_again s execute execute' m' _ _ summary st (rn_store st) Ht E ltac:(done) Hu []).
Qed.

(** ** The selected plan *)

Lemma sweep_placement_dtypes s first final split p : sweep_placement s first final split = Ok p ->
  (dp_execution_dtype p, dp_weight_dtype p, dp_activation_dtype p)
  = (dp_execution_dtype (sw_selected_plan s), dp_weight_dtype (sw_selected_plan s),
     dp_activation_dtype (sw_selected_plan s)).
Proof. unfold sweep_placement, validate_DeploymentPlan. simpl. intros E. by inv_ok. Qed.

Lemma raw_candidate_id `{MeasuredEvidence B} manifest links workload settings (pb : option B) a b raw c :
  raw_candidates manifest links workload settings pb (a, b) = Ok raw -> c ∈ raw ->
  pc_candidate_id c = candidate_id_of (pc_stage_zero_worker_id c) (pc_final_stage_worker_id c) (pc_split_layer c).
Proof.
  intros E Hin. apply raw_candidates_ok in E as (fwd & bwd & -> & Hf & Hb).
  apply order_placements in Hf as (Hf & If & _), Hb as (Hb & Ib & _).
  assert (Hone : forall (cs : list PlanCandidate) x y (splits : list Z), placement <$> cs = (fun i => (x, y, i)) <$> splits ->
    pc_candidate_id <$> cs = (fun i => candidate_id_of x y i) <$> splits -> c ∈ cs ->
    pc_candidate_id c = candidate_id_of (pc_stage_zero_worker_id c) (pc_final_stage_worker_id c) (pc_split_layer c)).
  { clear. intros cs x y splits Hp Hi [n Hn]%list_elem_of_lookup.
    apply (f_equal (fun l => l !! n)) in Hp. apply (f_equal (fun l => l !! n)) in Hi.
    rewrite !list_lookup_fmap, Hn in Hp. rewrite !list_lookup_fmap, Hn in Hi. simpl in *.
    destruct (splits !! n) as [k|]; [|done]. simpl in *. unfold placement in Hp. by injection Hp as -> -> ->; injection Hi as ->. }
  apply elem_of_app in Hin as [Hin|Hin]; [by apply (Hone fwd (wp_worker_id a) (wp_worker_id b) _ Hf If)
    |by apply (Hone bwd (wp_worker_id b) (wp_worker_id a) _ Hb Ib)].
Qed.

(** C23: a sweep over the plan [create_plan] selected measures that plan: in every round the
    reference jobs, and the only other job with the selected candidate's ID, deploy its
    stages, its split and its data types, as long as the two orders of the workers have
    distinguishable candidate IDs. *)
Theorem sweep_measures_selected `{MeasuredEvidence B} manifest a b links workload settings (pb : option B)
    report plan s i jobs :
  create_plan manifest [a; b] links workload settings pb = Ok report -> pr_plan report = Some plan ->
  orders_distinct (wp_worker_id a) (wp_worker_id b) ->
  sw_manifest s = manifest -> sw_selected_plan s = plan -> schedule s i = Ok jobs ->
  (exists p, (job_round i +:+ "-reference-before", p) ∈ jobs /\ (job_round i +:+ "-reference-after", p) ∈ jobs
             /\ dp_selected_candidate_id p = dp_selected_candidate_id plan)
  /\ forall job p, (job, p) ∈ jobs -> dp_selected_candidate_id p = dp_selected_candidate_id plan ->
     dp_stages p = dp_stages plan /\ dp_split_layer p = dp_split_layer plan
     /\ (dp_execution_dtype p, dp_weight_dtype p, dp_activation_dtype p)
        = (dp_execution_dtype plan, dp_weight_dtype plan, dp_activation_dtype plan).
Proof.
  intros E Hp Hab Hm Hplan Hs. apply create_plan_ok in E as (a' & b' & raw & [= <- <-] & Hne & Hraw & Hc & Hsel).
  unfold report_selects in Hsel. destruct (feasible_sorted raw); [by destruct Hsel as [_ Hn]; rewrite Hn in Hp|].
  destruct Hsel as (selected & plan' & Hin & _ & _ & Hp' & Hdp). rewrite Hp in Hp'. injection Hp' as <-.
  apply list_elem_of_fmap in Hin as (c0 & -> & Hin).
  pose proof (raw_candidate_id _ _ _ _ _ _ _ _ _ Hraw Hin) as Hid.
  apply (raw_candidate_split _ _ _ _ _ _ _ _ _ Hraw) in Hin as [Hsplit Hw].
  apply deployment_plan_spec in Hdp as (_ & Hpid & Hdsplit & Hst & _). simpl in *.
  apply schedule_spec in Hs as (plans & candidates & sel & Hpl & Hperm & Hselin & Hselid & ->).
  rewrite Hplan in Hselid. split.
  { exists sel. split_and!; [set_solver| |done]. rewrite !elem_of_app. right. right. by apply list_elem_of_singleton. }
  intros job q Hj Hpi. assert (Hinp : q ∈ plans).
  { rewrite !elem_of_app in Hj. destruct Hj as [Hj|[Hj|Hj]].
    - apply list_elem_of_singleton in Hj. by injection Hj as -> ->.
    - rewrite <- Hperm. fold (named i 0 candidates) in Hj. rewrite <- (named_snd i 0 candidates).
      apply list_elem_of_fmap. by exists (job, q).
    - apply list_elem_of_singleton in Hj. by injection Hj as -> ->. }
  apply placements_spec in Hpl as (keys & Hk & Hpl). unfold placement_keys in Hk.
  rewrite Hplan, Hst in Hk. simpl in Hk. apply Ok_inj in Hk. subst keys.
  apply list_elem_of_lookup in Hinp as [n Hn]. destruct (Forall2_lookup_r _ _ _ _ _ Hpl Hn) as ([[x y] k] & Hkey & Hsp).
  pose proof (sweep_placement_dtypes _ _ _ _ _ Hsp) as Hdt. rewrite Hplan in Hdt.
  apply sweep_placement_spec in Hsp as (Hxid & Hxsplit & Hxst & _).
  rewrite Hxid, Hpid, Hid in Hpi. apply list_elem_of_lookup_2 in Hkey. rewrite Hm in Hkey, Hxst.
  assert (Hk : (1 <= k < mc_num_layers (mm_config manifest))%Z /\ ((x, y) = (pc_stage_zero_worker_id c0, pc_final_stage_worker_id c0)
            \/ (x, y) = (pc_final_stage_worker_id c0, pc_stage_zero_worker_id c0))).
  { apply elem_of_app in Hkey as [Hkey|Hkey]; apply list_elem_of_fmap in Hkey as (j & [= -> -> ->] & Hj'%elem_of_py_range); auto. }
  destruct Hk as [Hk Hxy]. apply candidate_id_inj in Hpi as [Hnames ->]; [|lia..].
  assert (Hxy' : (x, y) = (pc_stage_zero_worker_id c0, pc_final_stage_worker_id c0)).
  { destruct Hxy as [?|[= -> ->]]; [done|]. exfalso. unfold orders_distinct in Hab.
    destruct Hw as [[Ew1 Ew2]|[Ew1 Ew2]]; rewrite Ew1, Ew2 in Hnames; congruence. }
  injection Hxy' as -> ->. split_and!; [by rewrite Hxst, Hst|by rewrite Hxsplit, Hdsplit|done].
Qed.
End sweep.

(** ** A sweep *)

Module SweepDemo.
Import ProfilesDemo MeasuredDemo.

#[local] Existing Instance ProfilesDemo.demo_hash.

#[local] Instance demo_random : PyRandom := {|
  rng := Z; rng_seed seed := seed; rng_below n g := (g mod n, g + 1)%Z; rng_index n g := (g mod n, g + 1)%Z |}.
#[local] Instance demo_random_laws : PyRandomLaws.
Proof. split; intros n g Hn; simpl; by apply Z.mod_pos_bound. Qed.

Definition demo_plan : DeploymentPlan := {|
  dp_schema_version := "1.1"; dp_planner_version := "p"; dp_plan_id := "plan"; dp_deployment_version := 1;
  dp_plan_digest := demo_digest; dp_manifest_digest := demo_digest; dp_workload_id := "w";
  dp_planning_mode := MEASURED; dp_execution_dtype := F32; dp_weight_dtype := None; dp_activation_dtype := F16;
  dp_split_layer := 1; dp_workload_digest := Some demo_digest; dp_profile_bundle_digest := Some demo_digest;
  dp_stages := [demo_assignments.1; demo_assignments.2]; dp_duplicated_tensor_groups := [];
  dp_selected_candidate_id := "alpha--beta-m001" |}.

Definition demo_spec : SweepSpec := {|
  sw_manifest := demo_manifest; sw_workload := demo_workload;
  sw_reference := {| rf_manifest_digest := demo_digest; rf_checkpoint_digest := demo_digest; rf_producer := "p";
    rf_producer_artifact_digest := demo_digest; rf_prompt_ids := [1; 2]%Z; rf_generated_ids := [3; 4]%Z |};
  sw_selected_plan := demo_plan; sw_planning_report_digest := demo_digest;
  sw_profile_bundle_digest := demo_digest; sw_executor_digest := demo_digest; sw_predictions := [];
  sw_mlx_fit_policies := []; sw_concurrent_load := "idle"; sw_seed := 5506; sw_warmups := 2;
  sw_repetitions := 5; sw_maximum_repetitions := 15; sw_regret_limit := literal 15 100;
  sw_drift_limit := literal 1 10; sw_sweep_digest := demo_digest |}.

Lemma demo_spec_valid : validate_SweepSpec demo_spec = Ok demo_spec.
Proof. vm_compute. reflexivity. Qed.

Definition demo_sample : Sample := {|
  sm_token_ids := [3; 4]%Z; sm_client_arrivals_ms := [one; literal 2 1]; sm_native_arrivals_ms := [];
  sm_terminal_ms := literal 2 1; sm_native_request_setup_ms := None |}.

(** An executor whose jobs all end with [status]. *)
Definition demo_execute (status : JobStatus) (job : string) (plan : DeploymentPlan) : result (JobResult * option json) :=
  Ok ({| jr_sweep_digest := demo_digest; jr_job_id := job; jr_candidate_id := dp_selected_candidate_id plan;
         jr_status := status; jr_warmups := [demo_sample; demo_sample]; jr_sample := Some demo_sample;
         jr_evidence_digest := demo_digest; jr_memory_exclusion := None; jr_host_envelope_bytes := [];
         jr_device_envelope_bytes := []; jr_cleanup_passed := true;
         jr_selected_health_passed := Some true; jr_detail := "done" |}, Some JNull).

Definition empty_store : Store := {| st_results := ∅; st_evidence := ∅ |}.

(** The results of five rounds, as the executor returns them. *)
Definition demo_results (status : JobStatus) : list JobResult :=
  i ← py_range 0 5;
  match schedule demo_spec i with
  | Ok jobs => omap (fun '(job, plan) => match demo_execute status job plan with
                                         | Ok (r, _) => Some r | Err _ => None end) jobs
  | Err _ => []
  end.


Lemma sweep_pass_sound_witness : exists summary, summarize demo_spec (demo_results JOB_MEASURED) = Ok summary
  /\ su_decision summary = PASS
  /\ exists n, (5 <= n)%Z /\ complete_evidence demo_spec (demo_results JOB_MEASURED) n.
Proof.
  eexists. split; [vm_compute; reflexivity|]. split; [vm_compute; reflexivity|].
  edestruct (sweep_pass_sound demo_spec (demo_results JOB_MEASURED)) as (n & _ & _ & _ & _ & Hn & Hev & _);
    [vm_compute; reflexivity|vm_compute; reflexivity|vm_compute; discriminate|exact (ex_intro _ n (conj Hn Hev))].
Defined.

Definition limited_run : result (Summary * RunState) :=
  run demo_spec (demo_execute JOB_MEASURED) (Some 3%Z) empty_store.
Definition full_run : result (Summary * RunState) :=
  run demo_spec (demo_execute JOB_UNKNOWN) None empty_store.

Lemma limited_run_ok : match limited_run with
  | Ok (_, st) => rn_executed st = ["r000-reference-before"; "r000-c000"; "r000-c001"] | Err _ => False end.
Proof. vm_compute. reflexivity. Qed.

Lemma full_run_ok : match full_run with
  | Ok (_, st) => length (rn_executed st) = 20%nat
      /\ forallb (fun kv => negb (py_startswith "interrupted" (jr_detail (sv_result kv.2))))
           (map_to_list (st_results (rn_store st))) = true
  | Err _ => False end.
Proof. vm_compute. split; reflexivity. Qed.

Lemma run_appends_witness : exists summary st, limited_run = Ok (summary, st)
  /\ rn_executed st = ["r000-reference-before"; "r000-c000"; "r000-c001"] /\ NoDup (rn_executed st).
Proof.
  pose proof limited_run_ok as Hok. destruct limited_run as [[summary st]|e] eqn:E; [|destruct Hok].
  exists summary, st. split; [reflexivity|]. split; [exact Hok|]. unfold limited_run in E.
  exact (proj1 (proj2 (proj2 (run_appends demo_spec _ (Some 3%Z) empty_store summary st E)))).
Defined.

Lemma demo_typed status : executor_typed (demo_execute status).
Proof. intros job plan r evidence [= <- <-]. by destruct status; vm_compute. Qed.

Lemma run_repeats_witness : exists summary st, full_run = Ok (summary, st)
  /\ length (rn_executed st) = 20%nat
  /\ run demo_spec (demo_execute JOB_MEASURED) (Some 0%Z) (rn_store st)
     = Ok (summary, {| rn_store := rn_store st; rn_results := rn_results st; rn_executed := [] |}).
Proof.
  pose proof full_run_ok as Hok. destruct full_run as [[summary st]|e] eqn:E; [|destruct Hok].
  destruct Hok as [Hlen Hquiet]. exists summary, st. split; [reflexivity|]. split; [exact Hlen|]. unfold full_run in E.
  exact (run_repeats demo_spec (demo_execute JOB_UNKNOWN) (demo_execute JOB_MEASURED) (Some 0%Z) empty_store
           summary st (demo_typed JOB_UNKNOWN) E (uninterrupted_intro st Hquiet)).
Defined.

End SweepDemo.

(** A sweep over a plan that [create_plan] selected. *)
Module SweepPlanDemo.
#[local] Existing Instance PlannerDemo.demo_hash.
#[local] Existing Instance PlannerDemo.no_evidence.
#[local] Existing Instance SweepDemo.demo_random.
#[local] Existing Instance SweepDemo.demo_random_laws.

Definition planned : DeploymentPlan := default SweepDemo.demo_plan (pr_plan PlannerDemo.demo_report).

Definition planned_spec : SweepSpec := {|
  sw_manifest := PlannerDemo.demo_manifest; sw_workload := PlannerDemo.demo_workload;
  sw_reference := sw_reference SweepDemo.demo_spec; sw_selected_plan := planned;
  sw_planning_report_digest := "r"; sw_profile_bundle_digest := "b"; sw_executor_digest := "e";
  sw_predictions := []; sw_mlx_fit_policies := []; sw_concurrent_load := "idle"; sw_seed := 5506;
  sw_warmups := 2; sw_repetitions := 5; sw_maximum_repetitions := 15; sw_regret_limit := literal 15 100;
  sw_drift_limit := literal 1 10; sw_sweep_digest := "s" |}.

Lemma sweep_measures_selected_witness : exists jobs p, schedule planned_spec 3 = Ok jobs
  /\ ("r003-reference-before", p) ∈ jobs /\ dp_stages p = dp_stages planned.
Proof.
  assert (Hs : exists jobs, schedule planned_spec 3 = Ok jobs) by (eexists; vm_compute; reflexivity).
  destruct Hs as [jobs Hs].
  destruct (sweep_measures_selected PlannerDemo.demo_manifest PlannerDemo.alpha PlannerDemo.beta []
    PlannerDemo.demo_workload (Some default_settings) (None : option Empty_set) PlannerDemo.demo_report planned
    planned_spec 3 jobs PlannerDemo.demo_plan_ok eq_refl PlannerDemo.demo_orders eq_refl eq_refl Hs)
    as [(p & Hb & _ & Hid) Hall].
  exists jobs, p. split; [exact Hs|]. split; [exact Hb|]. exact (proj1 (Hall _ _ Hb Hid)).
Defined.
End SweepPlanDemo.
